(* ===== verification/_CoqProject ===== *)
-Q . S2P
Prelude.v
Models.v
Session.v
Repositories.v
Access.v
Notify.v
Security.v
Paths.v
Scripts.v
Redis.v
Auth.v
Ticket.v
AutoPolicy.v
Terminal.v
TerminalWs.v
Executors.v
Dispatch.v
Transfer.v
Monitor.v
MonitorIngest.v
MonitorApi.v
Cmdb.v
Approval.v
Gate.v
Exec.v
Schedule.v
WorkflowDef.v
Cicd.v
WorkflowEngine.v
Workflow.v
Releases.v
