(* ===== verification/Prelude.v ===== *)
(** * lark-plat: a verification development of the backend services

    The repository is an operations platform. Its backend (src/backend/app) is
    a FastAPI application on PostgreSQL, with Celery workers, Redis, host agents
    connected by websockets, and a background driver that runs workflows. This
    library models the services that decide what may happen to the managed
    hosts: who the caller is, who has to approve, what is dispatched, when it is
    stopped, timed out or retried, and the state machines of tickets, approvals,
    terminal sessions, exec tasks, workflow runs, releases, schedules and alerts.

    ** How a handler is modelled

    A service function of the source is a definition of the same name of type
    [Op A = St -> (exn + A) * St]: it returns or raises, in a state [St]
    (Session.v) that holds the rows as the transaction sees them ([work]), the
    committed rows, the sequences, the clock, the Redis counters and the log of
    what left the process ([Effect]: Celery messages, frames to agents,
    broadcasts, files, driver starts). [run_request] is what FastAPI does around a
    handler: what is not committed is lost when the session closes. Effects are
    logged when they happen, so an effect sent before a commit that fails stays
    in the log. Between two requests anything may happen; the histories below
    say which other steps they admit.

    - Prelude.v: the error type, the monad and its [wp] calculus, [preserves]
      (an invariant of a handler) with the hint database [preserves] and the
      tactics [wp_step], [wp_run] and [preserves_auto]; JSON values, hexadecimal
      and decimal strings, list and option lemmas.
    - Models.v: [db/models/]; one record per mapped class of the modelled parts,
      the [Table] instances that say where its rows are kept, its server-side
      defaults, its UNIQUE constraints, and that two tables are different
      ([TableNe], by which frame lemmas are found by instance search).
    - Session.v: the session ([db_get], [db_add], [db_upd], [db_delete],
      [db_cas], [db_select], [db_commit], [db_rollback]) with its laws and the
      generic invariants [wf_table], [quiet], [both], [still] and [held].
    - Repositories.v: the queries of [repositories/__init__.py].
    - Access.v: [api/deps.py] (the principal, its permissions and its host
      groups) and the feature switches of [services/ai_gate.py].
    - Notify.v: [services/notify_service.py].
    - Security.v: the claims of the tokens of [core/security.py].
    - Paths.v: the path checks of [services/transfer_service.py].
    - Scripts.v: [services/script_service.py] and its endpoints.
    - Redis.v: [core/redis_helper.py]; a handler that talks to Redis is of type
      [Act A], over [Server], the session's state with the store, the count of
      random draws and the process's clients of Redis beside it ([lift] embeds an
      [Op]). [get_redis] makes its client when it first can; the client that
      [get_current_user] asks is made at startup or never ([Link]).
    - Auth.v: [services/auth_service.py] and its endpoints, with the histories of
      logins, refreshes and logouts.
    - Ticket.v: [services/ticket_service.py].
    - AutoPolicy.v: [services/ai_automation_service.py].
    - Terminal.v, TerminalWs.v: [services/terminal_service.py] and
      [ws/terminal_ws.py], of which the latter reads an explicit list of frames.
    - Executors.v: [services/executors/] and [exec_service.detect_sensitive].
    - Dispatch.v: [tasks/exec_tasks.py], the worker of an exec task.
    - Transfer.v: [services/transfer_service.py], its worker
      [tasks/transfer_tasks.py], the two channels of
      [services/transfer_channels.py] and the transfer frames of
      [ws/agent_ws.py].
    - Monitor.v, MonitorIngest.v, MonitorApi.v: [services/monitor_service.py]:
      the rule engine and its alerts, which send through Notify; the ingestion
      of events into it; adapters, metrics and events.
    - Cmdb.v: [services/cmdb_service.py], the relations between entities and
      the searches over them.
    - Exec.v: [services/exec_service.py]; it calls Dispatch where the source
      dispatches in process, and logs the Celery message elsewhere.
    - Approval.v: [services/approval_service.py]; it calls back into Exec and
      Terminal. Gate.v composes it with Terminal.
    - Schedule.v: [services/schedule_service.py]; it creates tasks of Exec.
    - WorkflowDef.v: the definition checks of [services/workflow_service.py].
    - WorkflowEngine.v: [services/workflow_engine.py]; its exec nodes create
      tasks of Exec, its failures go through Cicd.v to releases.
    - Workflow.v: the other handlers of [services/workflow_service.py].
    - Cicd.v, Releases.v: [services/cicd_service.py]; releases start runs of
      Workflow.

    ** What the theorems show

    - Histories. A service's requests are an inductive type, [*_handle] is its
      router, and a history is any sequence of requests (with the engine's steps
      or other services in between, where they share tables). By rule induction:
      tickets, workflow runs and nodes and releases move only along the
      transition tables of the source ([ticket_history],
      [workflow_history_refines], which is a refinement of an abstract life
      cycle, [release_history_safe]); approvals are decided once
      ([approvals_decided_once]); a session on a sensitive host is never opened
      without an approved request ([sensitive_needs_approval],
      [open_session_was_approved]); an open breaker stops automation
      ([breaker_trips_and_halts]); the event log accounts for every alert
      ([alerts_audited]); the versions of a script are numbered without gaps and
      never change ([script_history]).
    - Functional specifications. The branches of the handlers that create, stop,
      retry and approve exec tasks and schedules
      ([create_exec_task_record_spec], [stop_task_spec], [retry_requeues],
      [approve_all_or_nothing], [spawn_run_spec]), of sessions
      ([create_session_spec]), of runs ([retry_run_spec], [cancel_run_spec],
      [run_workflow_idempotent], [step_finalises], [verdict_spec]) and of the
      automatic approval ([resolve_auto_policy_spec]) and of a notification
      ([send_spec]): what is refused leaves
      the committed rows and the outside alone, what is granted changes exactly
      the rows named.
    - Equivalences. The three-colour search with its early exits accepts exactly
      the acyclic definitions ([validate_definition_spec]); the timeout sweep is
      a set-at-a-time update ([scan_timeouts_spec]); an impact analysis, a search
      by levels through queries, finds the entities within a distance
      ([impact_spec]); the whitelist of paths admits what lies below its
      directories ([path_within_whitelist_spec]).
    - Termination and liveness. The cycle search needs one call per key
      ([assert_acyclic_terminates]); the sweep of the beat always returns
      ([trigger_due_total]); a run whose definition is well formed never gets
      stuck ([run_never_stuck]) and, because the validator is weaker than that,
      an accepted one can (the examples of [accepted_runs_hang]).
    - Errors. Where modelling showed a defect the theorem states it for all
      states it concerns ([ws_input_ends_connection],
      [reject_leaves_session_waiting], [approved_sensitive_skipped],
      [retry_needs_second_approval], [cron_never_starts],
      [first_firing_not_notified], [second_sample_of_day_fails],
      [second_host_never_dispatched], [late_result_uncancels],
      [late_redis_logout_void], [used_script_undeletable]); [accepted_runs_hang] is three examples.
    - Transfers: the status a finished task is given
      ([transfer_verdict_spec]), which hosts a new task has
      ([transfer_targets_visible]) and that the chunks of a stream are the file
      from the offset on ([stream_roundtrip]).
    - Types. What the normalizers of the monitoring sources return, the
      validator takes ([normalized_events_valid]).
    - Visibility: who the caller is and what he may do
      ([get_current_user_sound]), which samples the current metrics are
      ([current_metrics_scope], which also states where they are shown to too
      many), and that a topology shows visible entities only ([topology_spec],
      [create_relation_spec]).
    - Accounts, while Redis answers ([online]): how often a password can be
      guessed ([login_failures_bounded]), that a refresh token is good once
      ([refresh_single_use]) and a session over after its logout
      ([logout_ends_session]); two concurrent refreshes defeat the second
      ([refresh_race]).
    - Permits, tokens, files, recordings, secrets: [dispatch_permits],
      [callback_single_use], [attachments_stay_inside], [recording_roundtrip],
      [masked_echo_keeps_adapter]. Aggregates: [buckets_partition].

    ** Fuel and bounds

    Handlers are structural: their loops are over lists of rows read from finite
    tables. Four functions take fuel. [WorkflowDef.visit] gets one more call
    than there are keys, which [assert_acyclic_terminates] shows to be enough.
    [WorkflowEngine._driver_loop] is an unbounded polling loop of the source; its
    fuel counts rounds, and the theorems are about each round. [Prelude.hex_go]
    gets one more round than the number has bits; [Transfer.stream_chunks] gets
    one more than the file has bytes, and takes at least one a round
    ([stream_roundtrip]). Python integers are unbounded,
    so they are [Z]. The widths of columns are modelled where a caller's text
    reaches one unchecked ([Notify.insertable]) and nowhere else.

    ** Parameters and their hypotheses

    What is not under src/ is a variable of the sections that use it: the
    signature scheme ([jwt_encode], [jwt_decode]), bcrypt, base64, digests and
    checksums, the contents of files, [encrypt_secret] and
    [decrypt_secret] (with their round trip as a hypothesis), uuid4, croniter
    ([cron_error], [cron_next]: its times come after their base), the database's
    LIKE, Python's [float(str)], [repr] and [datetime.fromisoformat], and the
    state of the world: whether the broker, paramiko, an agent and, for the
    slots of the exec workers, Redis are reachable. Each theorem with a hypothesis has a witness that instantiates
    the parameters by concrete functions.

    ** Modelling decisions

    - Strings are UTF-8 bytes; lower-casing folds ASCII letters.
    - A select without ORDER BY is read in primary-key order.
    - The session does not autoflush. Where a service adds a row that later
      queries of the same request could see, [db_add_later] keeps it apart until
      the flush; elsewhere [db_add] inserts at once, which says the same.
    - Floats are rationals: no rounding, infinities or NaN.
    - The clock stands still within a request.
    - [updated_at], which the server writes and no decision reads, is left out.
    - Foreign keys are not enforced; where deleting a parent cascades, the
      handler deletes the children.
    - A node configuration of the wrong type raises [DataError] at the operation
      that fails on it; the text of such an exception is not modelled.
    - The step lock and the driver threads of the workflow engine are the
      world's: a history admits steps of any run at any time, one at a time.

    ** Not modelled

    Single sign-on, the language model and vector store and the ssh and agent
    transports are exchanges with remote parties around little state of their
    own. Assets, the dashboard and the knowledge base are record keeping
    without state machines. The seed, the migrations and the schemas
    are data. The accounts and [ai_automation_service.rollback_run] are state worth
    modelling that is not modelled yet. The Go agent and the Vue front end are in
    other languages. *)

From stdpp Require Export base option list gmap strings sorting pretty.
From Stdlib Require Export ZArith QArith Qround Ascii Lia.

(** The development uses [Z] for every Python [int] (unbounded) and strings
    of UTF-8 bytes for Python [str]. *)
#[global] Open Scope Z_scope.

Declare Scope lark_scope.
Delimit Scope lark_scope with lark.
#[global] Open Scope lark_scope.

(** ** Record update

    [Eta R] gives the eta-expansion of a record; a field setter is derived by
    replacing the projection in it.  [r <| f := v |>] is Python's [r.f = v] on
    an immutable copy. *)

Class Eta (R : Type) := eta : R → R.
Class Setter {R E : Type} (g : R → E) := set_of : E → R → R.
#[global] Arguments set_of {R E} g {_} v r /.

Ltac derive_setter :=
  match goal with |- @Setter ?R ?E ?g =>
    let v := fresh "v" in let r := fresh "r" in
    unfold Setter; intros v r;
    let e := eval hnf in (eta r) in
    match eval pattern (g r) in e with
    | ?h _ => let e' := eval cbv beta in (h v) in exact e'
    end
  end.
#[global] Hint Extern 1 (Setter _) => derive_setter : typeclass_instances.

Notation "r '<|' f ':=' v '|>'" := (set_of f v r)
  (at level 12, left associativity, f constr at level 9, v at level 200) : lark_scope.

(** ** Errors: [core/exceptions.py] and what the database raises *)

Inductive app_class :=
  | CAppError | CBadRequest | CUnauthorized | CForbidden | CNotFound
  | CConflict | CValidation | CRateLimit | CBusiness.
#[export] Instance app_class_eq_dec : EqDecision app_class.
Proof. solve_decision. Defined.

(** The class attributes [code] and [http_status] of each exception class. *)
Definition class_code (c : app_class) : Z :=
  match c with
  | CAppError => 500 | CBadRequest => 400 | CUnauthorized => 401
  | CForbidden => 403 | CNotFound => 404 | CConflict => 409
  | CValidation => 422 | CRateLimit => 429 | CBusiness => 1001
  end.
Definition class_http_status (c : app_class) : Z :=
  match c with
  | CAppError => 400 | CBadRequest => 400 | CUnauthorized => 401
  | CForbidden => 403 | CNotFound => 404 | CConflict => 409
  | CValidation => 422 | CRateLimit => 429 | CBusiness => 400
  end.

(** An exception in flight: an [AppError] with its message and the [code=]
    override of [AppError.__init__], or one of the exceptions that the
    services let escape (a database constraint, a Python built-in). *)
Inductive exn :=
  | AppExc (c : app_class) (message : string) (code : option Z)
  | IntegrityError (constraint : string)
  | ValueError (message : string)
  | KeyError (message : string)
  | TypeError (message : string)
  | OtherError (message : string).
#[export] Instance exn_eq_dec : EqDecision exn.
Proof. solve_decision. Defined.

Definition exn_code (e : exn) : Z :=
  match e with
  | AppExc c _ code => default (class_code c) code
  | _ => 500
  end.

Definition BadRequestError (m : string) : exn := AppExc CBadRequest m None.
Definition UnauthorizedError (m : string) : exn := AppExc CUnauthorized m None.
Definition ForbiddenError (m : string) : exn := AppExc CForbidden m None.
Definition NotFoundError (m : string) : exn := AppExc CNotFound m None.
Definition ConflictError (m : string) : exn := AppExc CConflict m None.
Definition ValidationError (m : string) : exn := AppExc CValidation m None.
Definition RateLimitError (m : string) : exn := AppExc CRateLimit m None.
Definition BusinessError (m : string) : exn := AppExc CBusiness m None.

(** ** The handler monad

    A handler reads and writes a state [S] and returns or raises; a raised
    exception keeps the state reached so far, as Python does. *)

Definition M (S A : Type) : Type := S → (exn + A) * S.

Definition ret {S A} (a : A) : M S A := λ s, (inr a, s).
Definition bind {S A B} (m : M S A) (k : A → M S B) : M S B := λ s,
  match m s with
  | (inr a, s') => k a s'
  | (inl e, s') => (inl e, s')
  end.
#[global] Arguments bind : simpl never.
Notation "x ← m ; k" := (bind m (λ x, k))
  (at level 20, m at level 100, k at level 200, only parsing) : lark_scope.
Notation "' x ← m ; k" := (bind m (λ x, k))
  (at level 20, x pattern, m at level 100, k at level 200, only parsing) : lark_scope.
Notation "m ;; k" := (bind m (λ _, k))
  (at level 100, k at level 200, right associativity) : lark_scope.
Notation "m >>= k" := (bind m k) (at level 60, right associativity) : lark_scope.
Definition raise {S A} (e : exn) : M S A := λ s, (inl e, s).
Definition gets {S A} (f : S → A) : M S A := λ s, (inr (f s), s).
Definition modify {S} (f : S → S) : M S () := λ s, (inr (), f s).
(** [try: m except Exception as e: h e] *)
Definition try_catch {S A} (m : M S A) (h : exn → M S A) : M S A := λ s,
  match m s with
  | (inl e, s') => h e s'
  | r => r
  end.
(** [if b: m] *)
Definition when {S} (b : bool) (m : M S ()) : M S () :=
  if b then m else ret ().
(** [if not b: raise e] *)
Definition guard_or {S} (b : bool) (e : exn) : M S () :=
  if b then ret () else raise e.
(** [for x in l: body x] *)
Fixpoint for_each {S A} (l : list A) (body : A → M S ()) : M S () :=
  match l with
  | [] => ret ()
  | x :: l => body x;; for_each l body
  end.
(** [[body x for x in l]] *)
Fixpoint map_each {S A B} (l : list A) (body : A → M S B) : M S (list B) :=
  match l with
  | [] => ret []
  | x :: l => y ← body x; ys ← map_each l body; ret (y :: ys)
  end.
(** [for x in l: acc = body acc x] *)
Fixpoint fold_each {S A B} (l : list A) (acc : B) (body : B → A → M S B) : M S B :=
  match l with
  | [] => ret acc
  | x :: l => acc' ← body acc x; fold_each l acc' body
  end.
(** The outcome of code that may raise *)
Definition of_sum {S A} (r : exn + A) : M S A := match r with inr a => ret a | inl e => raise e end.
(** [x = o; if x is None: raise e] *)
Definition some_or {S A} (o : option A) (e : exn) : M S A :=
  match o with Some a => ret a | None => raise e end.

(** ** A weakest-precondition calculus for handlers

    [wp m Q s] holds when the outcome of [m] at [s] satisfies [Q]; [m] is a
    total function, so [wp] is both the total and the partial reading. *)

Definition wp {S A} (m : M S A) (Q : exn + A → S → Prop) (s : S) : Prop :=
  Q (m s).1 (m s).2.

Section wp.
Context {S : Type}.

Lemma wp_run {A} (m : M S A) Q s r s' :
  m s = (r, s') → wp m Q s → Q r s'.
Proof. unfold wp. by intros ->. Qed.

(** The result of a run, evaluated apart from its state. *)
Lemma run_pair {A} (m : M S A) s r : (m s).1 = r → m s = (r, (m s).2).
Proof. intros <-. by destruct (m s). Qed.
Lemma wp_of_run {A} (m : M S A) Q s r s' :
  m s = (r, s') → Q r s' → wp m Q s.
Proof. unfold wp. by intros ->. Qed.

Lemma wp_mono {A} (m : M S A) (Q Q' : exn + A → S → Prop) s :
  wp m Q s → (∀ r s', Q r s' → Q' r s') → wp m Q' s.
Proof. unfold wp. auto. Qed.

Lemma wp_and {A} (m : M S A) (Q Q' : exn + A → S → Prop) s :
  wp m Q s → wp m Q' s → wp m (λ r s', Q r s' ∧ Q' r s') s.
Proof. by unfold wp. Qed.

Lemma wp_ret {A} (a : A) Q s : Q (inr a) s → wp (ret a : M S A) Q s.
Proof. done. Qed.

Lemma wp_raise {A} e (Q : exn + A → S → Prop) s : Q (inl e) s → wp (raise e : M S A) Q s.
Proof. done. Qed.

Lemma wp_bind {A B} (m : M S A) (k : A → M S B) Q s :
  wp m (λ r s', match r with inl e => Q (inl e) s' | inr a => wp (k a) Q s' end) s →
  wp (m >>= k) Q s.
Proof. unfold wp, bind. by destruct (m s) as [[e|a] s']. Qed.

Lemma wp_gets {A} (f : S → A) Q s : Q (inr (f s)) s → wp (gets f) Q s.
Proof. done. Qed.

Lemma wp_modify (f : S → S) Q s : Q (inr ()) (f s) → wp (modify f) Q s.
Proof. done. Qed.

Lemma wp_when b (m : M S ()) Q s :
  (b = true → wp m Q s) → (b = false → Q (inr ()) s) → wp (when b m) Q s.
Proof. destruct b; unfold when; auto using wp_ret. Qed.

Lemma wp_guard_or b e Q (s : S) :
  (b = true → Q (inr ()) s) → (b = false → Q (inl e) s) → wp (guard_or b e : M S ()) Q s.
Proof. destruct b; unfold guard_or; auto using wp_ret, wp_raise. Qed.

Lemma wp_some_or {A} (o : option A) e Q (s : S) :
  (∀ a, o = Some a → Q (inr a) s) → (o = None → Q (inl e) s) → wp (some_or o e : M S A) Q s.
Proof. destruct o; unfold some_or; auto using wp_ret, wp_raise. Qed.

Lemma wp_if {A} (b : bool) (m1 m2 : M S A) Q s :
  (b = true → wp m1 Q s) → (b = false → wp m2 Q s) →
  wp (if b then m1 else m2) Q s.
Proof. destruct b; auto. Qed.

Lemma wp_try {A} (m : M S A) h Q s :
  wp m (λ r s', match r with inl e => wp (h e) Q s' | inr _ => Q r s' end) s →
  wp (try_catch m h) Q s.
Proof. unfold wp, try_catch. by destruct (m s) as [[e|a] s']. Qed.

(** The rule for loops: an invariant [I done s] on the elements already
    visited; a raising body ends the loop. *)
Lemma wp_for_each {A} (I : list A → S → Prop) (l : list A) body Q s :
  I [] s →
  (∀ done x s0, x ∈ l → I done s0 →
     wp (body x) (λ r s', match r with inl e => Q (inl e) s' | inr _ => I (done ++ [x]) s' end) s0) →
  (∀ s', I l s' → Q (inr ()) s') →
  wp (for_each l body) Q s.
Proof.
  intros HI Hb HQ.
  enough (∀ rest done s0, l = done ++ rest → I done s0 → wp (for_each rest body) Q s0) as H
    by (by apply (H l [])).
  induction rest as [|x rest IH]; intros done s0 -> HI0.
  - rewrite app_nil_r in *. by apply wp_ret, HQ.
  - cbn. apply wp_bind. eapply wp_mono; [apply (Hb done); [set_solver|done]|].
    intros [e|[]] s' ?; [done|]. apply (IH (done ++ [x])); [by rewrite <-app_assoc|done].
Qed.

(** The same, knowing where in the list the loop is. *)
Lemma wp_for_each_at {A} (I : list A → S → Prop) (l : list A) body Q s :
  I [] s →
  (∀ done x rest s0, l = done ++ x :: rest → I done s0 →
     wp (body x) (λ r s', match r with inl e => Q (inl e) s' | inr _ => I (done ++ [x]) s' end) s0) →
  (∀ s', I l s' → Q (inr ()) s') →
  wp (for_each l body) Q s.
Proof.
  intros HI Hb HQ.
  enough (∀ rest done s0, l = done ++ rest → I done s0 → wp (for_each rest body) Q s0) as H
    by (by apply (H l [])).
  induction rest as [|x rest IH]; intros done s0 -> HI0.
  - rewrite app_nil_r in *. by apply wp_ret, HQ.
  - cbn. apply wp_bind. eapply wp_mono; [by apply (Hb done x rest)|].
    intros [e|[]] s' ?; [done|]. apply (IH (done ++ [x])); [by rewrite <-app_assoc|done].
Qed.

Lemma wp_fold_each {A B} (I : list A → B → S → Prop) (l : list A) acc body Q s :
  I [] acc s →
  (∀ done x rest b s0, l = done ++ x :: rest → I done b s0 →
     wp (body b x) (λ r s', match r with inl e => Q (inl e) s' | inr b' => I (done ++ [x]) b' s' end) s0) →
  (∀ b s', I l b s' → Q (inr b) s') →
  wp (fold_each l acc body) Q s.
Proof.
  intros HI Hb HQ.
  enough (∀ rest done b s0, l = done ++ rest → I done b s0 → wp (fold_each rest b body) Q s0) as H
    by (by apply (H l [])).
  induction rest as [|x rest IH]; intros done b s0 -> HI0.
  - rewrite app_nil_r in *. by apply wp_ret, HQ.
  - cbn. apply wp_bind. eapply wp_mono; [by apply (Hb done x rest)|].
    intros [e|b'] s' ?; [done|]. apply (IH (done ++ [x])); [by rewrite <-app_assoc|done].
Qed.

(** Inversion of a run that returned. *)
Lemma bind_inr_inv {A B} (m : M S A) (k : A → M S B) s b s' :
  (m >>= k) s = (inr b, s') → ∃ a s1, m s = (inr a, s1) ∧ k a s1 = (inr b, s').
Proof.
  unfold bind. destruct (m s) as [[e|a] s1]; [done|]. eauto.
Qed.

Lemma bind_ext {A B} (m : M S A) (k k' : A → M S B) s :
  (∀ a s', k a s' = k' a s') → bind m k s = bind m k' s.
Proof. unfold bind. destruct (m s) as [[?|?] ?]; auto. Qed.
Lemma bind_inr {A B} (m : M S A) (k : A → M S B) s a s1 :
  m s = (inr a, s1) → (m >>= k) s = k a s1.
Proof. unfold bind. by intros ->. Qed.

Lemma bind_inl {A B} (m : M S A) (k : A → M S B) s e s1 :
  m s = (inl e, s1) → (m >>= k) s = (inl e, s1).
Proof. unfold bind. by intros ->. Qed.
End wp.

(** From a run [H : m s = (r, s1)] to symbolic execution. *)
Ltac by_wp H :=
  lazymatch type of H with
  | ?m ?s = (?r, ?s1) => pattern r, s1; apply (wp_run m _ s r s1 H); clear H
  end.

(** ** Invariants of handlers

    [preserves I m]: whatever [m] returns or raises, [I] still holds. *)

Definition preserves {S A} (I : S → Prop) (m : M S A) : Prop :=
  ∀ s, I s → I (m s).2.

Section preserves.
Context {S : Type} (I : S → Prop).

Lemma preserves_run {A} (m : M S A) s r s' :
  preserves I m → I s → m s = (r, s') → I s'.
Proof. intros H Hs E. specialize (H s Hs). by rewrite E in H. Qed.
Lemma preserves_wp {A} (m : M S A) :
  (∀ s, I s → wp m (λ _, I) s) → preserves I m.
Proof. done. Qed.
(** An invariant of [m] under [wp]. *)
Lemma wp_preserves {A} (m : M S A) Q s :
  preserves I m → I s → (∀ r s', I s' → Q r s') → wp m Q s.
Proof. intros Hm Hs HQ. apply HQ. by apply Hm. Qed.
Lemma preserves_ret {A} (a : A) : preserves I (ret a : M S A).
Proof. by intros s. Qed.
Lemma preserves_raise {A} e : preserves I (@raise S A e).
Proof. by intros s. Qed.
Lemma preserves_gets {A} (f : S → A) : preserves I (gets f).
Proof. by intros s. Qed.
Lemma preserves_modify f : (∀ s, I s → I (f s)) → preserves I (modify f).
Proof. intros H s Hs. by apply H. Qed.
Lemma preserves_bind {A B} (m : M S A) (k : A → M S B) :
  preserves I m → (∀ a, preserves I (k a)) → preserves I (m >>= k).
Proof.
  intros Hm Hk s Hs. unfold bind. specialize (Hm s Hs).
  destruct (m s) as [[e|a] s']; [done|]. by apply Hk.
Qed.
Lemma preserves_when b m : (b = true → preserves I m) → preserves I (when b m).
Proof. destruct b; unfold when; auto using preserves_ret. Qed.
Lemma preserves_guard_or b e : preserves I (guard_or b e : M S ()).
Proof. by destruct b; intros s. Qed.
Lemma preserves_some_or {A} (o : option A) e : preserves I (some_or o e : M S A).
Proof. by destruct o; intros s. Qed.
Lemma preserves_if {A} (b : bool) (m1 m2 : M S A) :
  (b = true → preserves I m1) → (b = false → preserves I m2) →
  preserves I (if b then m1 else m2).
Proof. destruct b; auto. Qed.
Lemma preserves_option {A B} (o : option A) (m1 : A → M S B) (m2 : M S B) :
  (∀ a, o = Some a → preserves I (m1 a)) → (o = None → preserves I m2) →
  preserves I (match o with Some a => m1 a | None => m2 end).
Proof. destruct o; auto. Qed.
Lemma preserves_try {A} (m : M S A) h :
  preserves I m → (∀ e, preserves I (h e)) → preserves I (try_catch m h).
Proof.
  intros Hm Hh s Hs. unfold try_catch. specialize (Hm s Hs).
  destruct (m s) as [[e|a] s']; [by apply Hh|done].
Qed.
Lemma preserves_for_each {A} (l : list A) body :
  (∀ x, x ∈ l → preserves I (body x)) → preserves I (for_each l body).
Proof.
  induction l as [|x l IH]; intros H; [apply preserves_ret|]. cbn.
  apply preserves_bind; [apply H; set_solver|]. intros _. apply IH. set_solver.
Qed.
Lemma preserves_map_each {A B} (l : list A) (body : A → M S B) :
  (∀ x, x ∈ l → preserves I (body x)) → preserves I (map_each l body).
Proof.
  induction l as [|x l IH]; intros H; [apply preserves_ret|]. cbn.
  apply preserves_bind; [apply H; set_solver|]. intros y.
  apply preserves_bind; [apply IH; set_solver|]. intros ys. apply preserves_ret.
Qed.
Lemma preserves_fold_each {A B} (l : list A) (acc : B) (body : B → A → M S B) :
  (∀ acc x, x ∈ l → preserves I (body acc x)) → preserves I (fold_each l acc body).
Proof.
  revert acc. induction l as [|x l IH]; intros acc H; [apply preserves_ret|]. cbn.
  apply preserves_bind; [apply H; set_solver|]. intros acc'. apply IH. set_solver.
Qed.
End preserves.

(** Code that only reads: any outcome, same state. *)
Lemma wp_reads {S A} (m : M S A) Q s :
  preserves (eq s) m → (∀ r, m s = (r, s) → Q r s) → wp m Q s.
Proof.
  intros Hm HQ. unfold wp. specialize (Hm s eq_refl). destruct (m s) as [r s'] eqn:E.
  cbn in *. subst s'. by apply HQ.
Qed.

Create HintDb preserves.
#[export] Hint Resolve preserves_ret preserves_raise preserves_gets
  preserves_guard_or preserves_some_or : preserves.

(** One structural step of a [preserves] goal, and the automation that
    alternates such steps with the lemmas of the [preserves] database. *)
Ltac preserves_step :=
  match goal with
  | |- preserves _ (_ >>= _) => apply preserves_bind; [|intros ?]
  | |- preserves _ (when _ _) => apply preserves_when; intros ?
  | |- preserves _ (try_catch _ _) => apply preserves_try; [|intros ?]
  | |- preserves _ (for_each _ _) => apply preserves_for_each; intros ? ?
  | |- preserves _ (map_each _ _) => apply preserves_map_each; intros ? ?
  | |- preserves _ (fold_each _ _ _) => apply preserves_fold_each; intros ? ? ?
  | |- preserves _ (match ?o with _ => _ end) => destruct o eqn:?
  | |- preserves _ (let _ := ?x in _) => cbv zeta
  end.
Ltac preserves_auto :=
  repeat (solve [eauto 3 with preserves nocore] || preserves_step).

(** Inversion of runs that returned: one bind, guard or test at a time.  The
    hook [inv_prim] is extended where primitives are defined. *)
Lemma guard_or_inr {S} b e (s : S) x s' :
  guard_or b e s = (inr x, s') → b = true ∧ s' = s.
Proof. unfold guard_or. destruct b; [by intros [= _ <-]|done]. Qed.
Lemma some_or_inr {S A} (o : option A) e (s : S) x s' :
  some_or o e s = (inr x, s') → o = Some x ∧ s' = s.
Proof. unfold some_or. destruct o; [by intros [= -> <-]|done]. Qed.
Lemma when_inr {S} b (m : M S ()) (s : S) x s' :
  when b m s = (inr x, s') → (b = true ∧ m s = (inr x, s')) ∨ (b = false ∧ s' = s).
Proof. unfold when. destruct b; [by left|]. intros [= _ <-]. by right. Qed.

Ltac inv_prim H := fail.
Ltac inv_one :=
  match goal with
  | H : bind _ _ _ = (inr _, _) |- _ =>
      let a := fresh "a" in let s1 := fresh "s" in let H1 := fresh "Hr" in
      apply bind_inr_inv in H as (a & s1 & H1 & H)
  | H : ret _ _ = (_, _) |- _ => unfold ret in H; simplify_eq
  | H : raise _ _ = (_, _) |- _ => discriminate H
  | H : gets _ _ = (_, _) |- _ => unfold gets in H; simplify_eq
  | H : modify _ _ = (_, _) |- _ => unfold modify in H; simplify_eq
  | H : guard_or _ _ _ = (inr _, _) |- _ => apply guard_or_inr in H as [? ->]
  | H : some_or _ _ _ = (inr _, _) |- _ => apply some_or_inr in H as [? ->]
  | H : (let _ := _ in _) = (inr _, _) |- _ => progress cbv zeta in H
  | H : (if ?b then _ else _) _ = (inr _, _) |- _ => destruct b eqn:?
  | H : (match ?o with _ => _ end) _ = (inr _, _) |- _ => destruct o eqn:?
  | H : ?m = (inr _, _) |- _ => inv_prim H
  end.
Ltac inv_run := repeat inv_one.

(** ** Python values *)

(** A decoded JSON value, as the JSONB columns and the request bodies carry. *)
#[local] Unset Elimination Schemes.
Inductive json :=
  | JNull
  | JBool (b : bool)
  | JInt (z : Z)
  | JFloat (q : Q)
  | JStr (s : string)
  | JArr (l : list json)
  | JObj (o : list (string * json)).
#[local] Set Elimination Schemes.

(** Induction over a value with its parts. *)
Lemma json_ind (P : json → Prop) :
  P JNull → (∀ b, P (JBool b)) → (∀ z, P (JInt z)) → (∀ q, P (JFloat q)) → (∀ s, P (JStr s)) →
  (∀ l, Forall P l → P (JArr l)) → (∀ o, Forall (λ kv, P kv.2) o → P (JObj o)) → ∀ j, P j.
Proof.
  intros Hn Hb Hz Hq Hs Ha Ho. fix IH 1. intros [|b|z|q|s|l|o]; [exact Hn|apply Hb|apply Hz|apply Hq|apply Hs| |].
  - apply Ha. induction l as [|x l IHl]; constructor; [apply IH|exact IHl].
  - apply Ho. induction o as [|[k v] o IHo]; constructor; [apply IH|exact IHo].
Qed.

(** [bool(x)] *)
Definition truthy (j : json) : bool :=
  match j with
  | JNull => false
  | JBool b => b
  | JInt z => negb (z =? 0)
  | JFloat q => negb (Qnum q =? 0)
  | JStr s => negb (bool_decide (s = ""))
  | JArr l => match l with [] => false | _ => true end
  | JObj o => match o with [] => false | _ => true end
  end.

(** [d.get(k)] on the items of a dict (keys are distinct) *)
Fixpoint assoc_get {A} (k : string) (o : list (string * A)) : option A :=
  match o with
  | [] => None
  | (k', v) :: o => if bool_decide (k' = k) then Some v else assoc_get k o
  end.
(** [d[k] = v]: in place when present, at the end otherwise *)
Fixpoint assoc_set {A} (k : string) (v : A) (o : list (string * A)) : list (string * A) :=
  match o with
  | [] => [(k, v)]
  | (k', v') :: o =>
      if bool_decide (k' = k) then (k, v) :: o else (k', v') :: assoc_set k v o
  end.
(** [(j or {}).get(k)] for a JSONB object column [j] *)
Definition jget (k : string) (j : json) : option json :=
  match j with JObj o => assoc_get k o | _ => None end.
(** [(j or {}).get(k, d)] *)
Definition jget_or (k : string) (d : json) (j : json) : json :=
  default d (jget k j).
(** [(j or {})] with [k] set to [v] *)
Definition jset (k : string) (v : json) (j : json) : json :=
  match j with JObj o => JObj (assoc_set k v o) | _ => JObj [(k, v)] end.

Lemma assoc_get_set {A} k (v : A) o : assoc_get k (assoc_set k v o) = Some v.
Proof.
  induction o as [|[k' v'] o IH]; cbn.
  - by rewrite bool_decide_eq_true_2.
  - destruct (bool_decide_reflect (k' = k)) as [->|Hne]; cbn.
    + by rewrite bool_decide_eq_true_2.
    + by rewrite bool_decide_eq_false_2.
Qed.

Lemma assoc_get_set_ne {A} k k' (v : A) o :
  k ≠ k' → assoc_get k (assoc_set k' v o) = assoc_get k o.
Proof.
  intros Hne. induction o as [|[k0 v0] o IH]; cbn.
  - by rewrite bool_decide_eq_false_2.
  - destruct (bool_decide_reflect (k0 = k')) as [->|]; cbn.
    + by rewrite !bool_decide_eq_false_2.
    + by destruct (bool_decide (k0 = k)).
Qed.

Lemma jget_jset k v j : jget k (jset k v j) = Some v.
Proof.
  destruct j; cbn; rewrite ?bool_decide_eq_true_2; auto using assoc_get_set.
Qed.

(** [bool(x)] of an optional int or str: [None], [0] and [''] are false. *)
Definition z_truthy (x : option Z) : bool :=
  match x with Some z => negb (z =? 0) | None => false end.
Definition s_truthy (x : option string) : bool :=
  match x with Some s => negb (bool_decide (s = "")) | None => false end.
(** [x or d] for strings *)
Definition s_or (x : option string) (d : string) : string :=
  match x with Some s => if bool_decide (s = "") then d else s | None => d end.
Definition z_or (x : option Z) (d : Z) : Z :=
  match x with Some z => if z =? 0 then d else z | None => d end.
(** [x in (a, b, ...)] *)
Definition str_in (x : string) (l : list string) : bool := bool_decide (x ∈ l).
Definition z_in (x : Z) (l : list Z) : bool := bool_decide (x ∈ l).

Lemma str_in_true x l : str_in x l = true ↔ x ∈ l.
Proof. apply bool_decide_eq_true. Qed.
Lemma z_in_true x l : z_in x l = true ↔ x ∈ l.
Proof. apply bool_decide_eq_true. Qed.

(** Membership of a closed string in a closed list, decided by evaluation. *)
Ltac str_mem := refine (bool_decide_unpack _ _); vm_compute; exact I.
Ltac str_absurd H :=
  exfalso; let H' := fresh in pose proof (bool_decide_pack _ H) as H'; vm_compute in H'; exact H'.

(** ** Lists *)

Lemma remove_dups_NoDup {A} `{EqDecision A} (l : list A) : NoDup l → remove_dups l = l.
Proof.
  induction 1 as [|x l Hx _ IH]; [done|]. cbn. destruct (decide_rel _ _ _); [done|by rewrite IH].
Qed.

Lemma NoDup_fmap_filter {A B} (f : A → B) (P : A → Prop) `{!∀ x, Decision (P x)} (l : list A) :
  NoDup (f <$> l) → NoDup (f <$> filter P l).
Proof.
  induction l as [|x l IH]; [done|].
  rewrite fmap_cons. intros [Hni Hnd]%NoDup_cons. rewrite filter_cons.
  case_decide; [|auto]. rewrite fmap_cons. apply NoDup_cons. split; [|auto].
  intros (y & E & Hin)%list_elem_of_fmap. apply list_elem_of_filter in Hin as [_ Hin].
  apply Hni. rewrite E. by apply list_elem_of_fmap_2.
Qed.

(** ** Decimal formatting: [f"{n:0wd}"] and [int(str)] *)

Fixpoint zeros (n : nat) (s : string) : string :=
  match n with O => s | S n => String "0"%char (zeros n s) end.
(** [f"{n:0wd}"] of a non-negative [n] *)
Definition zpad (w : nat) (n : Z) : string :=
  let s := pretty n in zeros (w - String.length s) s.

Fixpoint digits_value (s : string) (acc : Z) : Z :=
  match s with
  | EmptyString => acc
  | String c s => digits_value s (10 * acc + (Z.of_N (Ascii.N_of_ascii c) - 48))
  end.

Lemma digits_value_zeros n s : digits_value (zeros n s) 0 = digits_value s 0.
Proof. by induction n. Qed.

Lemma digits_value_pretty_go (x : N) s :
  digits_value (pretty_N_go x s) 0 = digits_value s (Z.of_N x).
Proof.
  revert s. induction (N.lt_wf_0 x) as [x _ IH]; intros s.
  destruct (decide (x = 0%N)) as [->|Hx]; [by rewrite pretty_N_go_0|].
  rewrite pretty_N_go_step by lia. rewrite IH by (apply N.div_lt; lia). cbn.
  f_equal.
  assert (Hc : Z.of_N (Ascii.N_of_ascii (pretty_N_char (x `mod` 10))) - 48 = Z.of_N (x `mod` 10)).
  { assert ((x `mod` 10 < 10)%N) by (apply N.mod_lt; lia).
    generalize dependent (x `mod` 10)%N. intros y Hy.
    assert (y ∈ [0;1;2;3;4;5;6;7;8;9]%N) as Hin.
    { rewrite !elem_of_cons. lia. }
    repeat (apply elem_of_cons in Hin as [->|Hin]; [reflexivity|]). by apply elem_of_nil in Hin. }
  rewrite Hc, N2Z.inj_div, N2Z.inj_mod. cbn.
  rewrite (Z.div_mod (Z.of_N x) 10) at 3 by lia. lia.
Qed.

(** Reading back a formatted non-negative number. *)
Lemma digits_value_zpad w n : 0 ≤ n → digits_value (zpad w n) 0 = n.
Proof.
  intros Hn. unfold zpad. rewrite digits_value_zeros.
  destruct n as [|p|p]; [reflexivity| |lia].
  transitivity (digits_value (pretty (N.pos p)) 0); [reflexivity|].
  unfold pretty, pretty_N. destruct (decide _) as [Heq|]; [lia|].
  by rewrite digits_value_pretty_go.
Qed.

Lemma zpad_inj w m n : 0 ≤ m → 0 ≤ n → zpad w m = zpad w n → m = n.
Proof. intros ?? E. rewrite <-(digits_value_zpad w m), <-(digits_value_zpad w n), E; auto. Qed.

#[export] Instance string_app_inj_l (s : string) : Inj (=) (=) (String.append s).
Proof. induction s as [|c s IH]; intros a b; cbn; [done|]. intros [= E]. by apply IH. Qed.

(** ** [datetime.isoformat()] of an aware UTC time in microseconds *)

(** Year, month and day of a day number (days since 1970-01-01), in the
    proleptic Gregorian calendar. *)
Definition civil (days : Z) : Z * Z * Z :=
  let z := days + 719468 in
  let era := z / 146097 in
  let doe := z mod 146097 in
  let yoe := (doe - doe / 1460 + doe / 36524 - doe / 146096) / 365 in
  let doy := doe - (365 * yoe + yoe / 4 - yoe / 100) in
  let mp := (5 * doy + 2) / 153 in
  let d := doy - (153 * mp + 2) / 5 + 1 in
  let m := if mp <? 10 then mp + 3 else mp - 9 in
  let y := yoe + era * 400 + (if m <=? 2 then 1 else 0) in
  (y, m, d).
Definition isoformat (t : Z) : string :=
  let us := t mod 1000000 in
  let secs := t / 1000000 in
  let sod := secs mod 86400 in
  match civil (secs / 86400) with
  | (y, m, d) =>
      zpad 4 y +:+ "-" +:+ zpad 2 m +:+ "-" +:+ zpad 2 d +:+ "T" +:+
      zpad 2 (sod / 3600) +:+ ":" +:+ zpad 2 (sod / 60 mod 60) +:+ ":" +:+ zpad 2 (sod mod 60) +:+
      (if us =? 0 then "" else "." +:+ zpad 6 us) +:+ "+00:00"
  end.
Example isoformat_ex :
  isoformat 1767323045123456 = "2026-01-02T03:04:05.123456+00:00".
Proof. vm_compute. reflexivity. Qed.
Example isoformat_leap : isoformat 951782400000000 = "2000-02-29T00:00:00+00:00".
Proof. vm_compute. reflexivity. Qed.

(** JSON of nullable columns. *)
Definition jz (x : option Z) : json := match x with Some z => JInt z | None => JNull end.
Definition js (x : option string) : json := match x with Some s => JStr s | None => JNull end.
(** [x.isoformat() if x else None] *)
Definition jtime (x : option Z) : json :=
  match x with Some t => JStr (isoformat t) | None => JNull end.

(** ** Python [str] methods *)

Definition ascii_lower (c : ascii) : ascii :=
  let n := Ascii.nat_of_ascii c in
  if ((65 <=? n)%nat && (n <=? 90)%nat)%bool then Ascii.ascii_of_nat (n + 32) else c.
(** [s.lower()] (on the ASCII letters) *)
Fixpoint lower (s : string) : string :=
  match s with EmptyString => "" | String c s => String (ascii_lower c) (lower s) end.
(** [s.startswith(p)] *)
Fixpoint starts_with (p s : string) : bool :=
  match p, s with
  | EmptyString, _ => true
  | String a p, String b s => Ascii.eqb a b && starts_with p s
  | _, _ => false
  end.
(** [s.split(" ", 1)[1]] *)
Fixpoint after_space (s : string) : string :=
  match s with
  | EmptyString => ""
  | String c s => if Ascii.eqb c " "%char then s else after_space s
  end.
Definition is_space (c : ascii) : bool :=
  let n := Ascii.nat_of_ascii c in ((n =? 32) || ((9 <=? n) && (n <=? 13)) || ((28 <=? n) && (n <=? 31)))%nat.
Fixpoint lstrip (s : string) : string :=
  match s with
  | EmptyString => ""
  | String c s' => if is_space c then lstrip s' else s
  end.
Fixpoint rstrip (s : string) : string :=
  match s with
  | EmptyString => ""
  | String c s' =>
      let t := rstrip s' in
      if is_space c && bool_decide (t = "") then "" else String c t
  end.
(** [s.strip()] *)
Definition strip (s : string) : string := rstrip (lstrip s).

(** [int(s)] of a string: an optionally signed run of digits, single
    underscores between digits allowed; [None] when Python raises. *)
Definition digit_of (c : ascii) : option Z :=
  let n := Z.of_N (Ascii.N_of_ascii c) in
  if (48 <=? n) && (n <=? 57) then Some (n - 48) else None.
Fixpoint parse_digits (s : string) (acc : Z) (prev : bool) : option Z :=
  match s with
  | EmptyString => if prev then Some acc else None
  | String c s =>
      match digit_of c with
      | Some d => parse_digits s (10 * acc + d) true
      | None => if Ascii.eqb c "_"%char && prev then parse_digits s acc false else None
      end
  end.
Definition parse_int (s : string) : option Z :=
  match strip s with
  | String c s' =>
      if Ascii.eqb c "-"%char then Z.opp <$> parse_digits s' 0 false
      else if Ascii.eqb c "+"%char then parse_digits s' 0 false
      else parse_digits (String c s') 0 false
  | EmptyString => None
  end.
(** psycopg2 writes no text with a NUL. *)
Fixpoint has_nul (s : string) : bool :=
  match s with EmptyString => false | String c s' => Ascii.eqb c Ascii.zero || has_nul s' end.
(** [int(x)] of a JSON value. *)
Definition py_int (x : json) : exn + Z :=
  match x with
  | JInt z => inr z
  | JBool b => inr (if b then 1 else 0)
  | JFloat q => inr (Z.quot (Qnum q) (Zpos (Qden q)))
  | JStr s => match parse_int s with
              | Some z => inr z
              | None => inl (ValueError "invalid literal for int() with base 10")
              end
  | _ => inl (TypeError "int() argument must be a string, a bytes-like object or a real number")
  end.
Definition int_of {S} (x : json) : M S Z :=
  match py_int x with inr z => ret z | inl e => raise e end.
Example parse_int_ex : parse_int " -1_000 " = Some (-1000). Proof. reflexivity. Qed.

(** [f"{n:x}"] and [f"{n:0wx}"] of a non-negative [n]. *)
Definition hex_digit (n : N) : ascii :=
  Ascii.ascii_of_N (if (n <? 10)%N then 48 + n else 87 + n).
Fixpoint hex_go (fuel : nat) (n : N) (acc : string) : string :=
  match fuel with
  | O => acc
  | S fuel =>
      let acc := String (hex_digit (n mod 16)) acc in
      if (n <? 16)%N then acc else hex_go fuel (n / 16)%N acc
  end.
(** [N.size_nat n] digits are enough: there are more bits than hex digits. *)
Definition hex (n : Z) : string := hex_go (S (N.size_nat (Z.to_N n))) (Z.to_N n) "".
Definition hexpad (w : nat) (n : Z) : string :=
  let s := hex n in zeros (w - String.length s) s.
Example hexpad_ex : hexpad 8 48879 = "0000beef". Proof. reflexivity. Qed.

Lemma existsb_filter {A} (f : A → bool) l :
  existsb f l = bool_decide (filter (λ x, f x = true) l ≠ []).
Proof.
  apply eq_true_iff_eq. rewrite bool_decide_eq_true, existsb_exists. split.
  - intros (x & Hx%list_elem_of_In & Hf) Hnil. apply (not_elem_of_nil x). rewrite <-Hnil. by apply list_elem_of_filter.
  - destruct (filter _ l) as [|x l'] eqn:Hf; [done|]. intros _. exists x.
    assert (x ∈ filter (λ x, f x = true) l) as [? ?]%list_elem_of_filter by (rewrite Hf; apply elem_of_cons; by left).
    by rewrite <-list_elem_of_In.
Qed.
