(* ===== verification/Models.v ===== *)
(** * The tables: [backend/app/db/models/]

    One module per mapped class: the record of its columns (the primary key
    [id] first) and its [Eta] instance.  A nullable column is an [option], a
    JSONB column a [json] ([JNull] for SQL NULL), except the JSONB lists of ids,
    which are [option (list Z)]; a [DateTime] is its number of microseconds
    since the epoch.  [updated_at], which only the server writes and no decision
    reads, is left out, as are a few descriptive columns of [asset_host] and
    [sys_audit_log].  Foreign keys are not enforced here. *)

From S2P Require Import Prelude.

Module ConfigRule.
Record ConfigRule := mk {
  id : Z;
  rule_key : string;
  rule_value : json;
  remark : string;
}.
#[global] Instance eta_ConfigRule : Eta ConfigRule := λ r,
  mk (id r) (rule_key r) (rule_value r) (remark r).
End ConfigRule.

Module AuditLog.
Record AuditLog := mk {
  id : Z;
  user_id : option Z;
  username : string;
  module : string;
  action : string;
  method : string;
  path : string;
  params : json;
  ip : string;
  user_agent : string;
  status : Z;
  cost_ms : Z;
  trace_id : string;
  created_at : Z;
}.
#[global] Instance eta_AuditLog : Eta AuditLog := λ r,
  mk (id r) (user_id r) (username r) (module r) (action r) (method r) (path
     r) (params r) (ip r) (user_agent r) (status r) (cost_ms r) (trace_id r)
     (created_at r).
End AuditLog.

Module User.
Record User := mk {
  id : Z;
  username : string;
  password_hash : string;
  real_name : string;
  phone : string;
  email : string;
  status : Z;
  is_admin : Z;
  auth_source : string;
  external_id : option string;
  last_external_login_at : option Z;
  last_login_at : option Z;
  deleted : Z;
}.
#[global] Instance eta_User : Eta User := λ r,
  mk (id r) (username r) (password_hash r) (real_name r) (phone r) (email r)
     (status r) (is_admin r) (auth_source r) (external_id r)
     (last_external_login_at r) (last_login_at r) (deleted r).
End User.

Module Role.
Record Role := mk {
  id : Z;
  code : string;
  name : string;
  remark : string;
}.
#[global] Instance eta_Role : Eta Role := λ r,
  mk (id r) (code r) (name r) (remark r).
End Role.

Module UserRole.
Record UserRole := mk {
  id : Z;
  user_id : Z;
  role_id : Z;
}.
#[global] Instance eta_UserRole : Eta UserRole := λ r,
  mk (id r) (user_id r) (role_id r).
End UserRole.

Module Permission.
Record Permission := mk {
  id : Z;
  parent_id : Z;
  code : string;
  name : string;
  type : string;
  path : string;
  icon : string;
  sort : Z;
  remark : string;
}.
#[global] Instance eta_Permission : Eta Permission := λ r,
  mk (id r) (parent_id r) (code r) (name r) (type r) (path r) (icon r) (sort
     r) (remark r).
End Permission.

Module RolePermission.
Record RolePermission := mk {
  id : Z;
  role_id : Z;
  permission_id : Z;
}.
#[global] Instance eta_RolePermission : Eta RolePermission := λ r,
  mk (id r) (role_id r) (permission_id r).
End RolePermission.

Module RoleHostGroup.
Record RoleHostGroup := mk {
  id : Z;
  role_id : Z;
  group_id : Z;
}.
#[global] Instance eta_RoleHostGroup : Eta RoleHostGroup := λ r,
  mk (id r) (role_id r) (group_id r).
End RoleHostGroup.

Module AssetGroup.
Record AssetGroup := mk {
  id : Z;
  parent_id : Z;
  name : string;
  sort : Z;
  remark : string;
}.
#[global] Instance eta_AssetGroup : Eta AssetGroup := λ r,
  mk (id r) (parent_id r) (name r) (sort r) (remark r).
End AssetGroup.

Module Host.
Record Host := mk {
  id : Z;
  hostname : string;
  ip : string;
  os_type : string;
  os_version : string;
  group_id : option Z;
  env : string;
  tags : json;
  sensitivity_level : string;
  status : string;
  connector : string;
  agent_id : option string;
  agent_version : string;
  last_heartbeat_at : option Z;
  remark : string;
  created_by : option Z;
  created_at : Z;
}.
#[global] Instance eta_Host : Eta Host := λ r,
  mk (id r) (hostname r) (ip r) (os_type r) (os_version r) (group_id r) (env
     r) (tags r) (sensitivity_level r) (status r) (connector r) (agent_id r)
     (agent_version r) (last_heartbeat_at r) (remark r) (created_by r)
     (created_at r).
End Host.

Module Script.
Record Script := mk {
  id : Z;
  name : string;
  type : string;
  current_version : Z;
  params_def : json;
  remark : string;
  created_by : option Z;
  created_at : Z;
}.
#[global] Instance eta_Script : Eta Script := λ r,
  mk (id r) (name r) (type r) (current_version r) (params_def r) (remark r)
     (created_by r) (created_at r).
End Script.

Module ScriptVersion.
Record ScriptVersion := mk {
  id : Z;
  script_id : Z;
  version : Z;
  content : string;
  params_def : json;
  change_log : string;
  created_by : option Z;
  created_at : Z;
}.
#[global] Instance eta_ScriptVersion : Eta ScriptVersion := λ r,
  mk (id r) (script_id r) (version r) (content r) (params_def r) (change_log
     r) (created_by r) (created_at r).
End ScriptVersion.

Module FilePackage.
Record FilePackage := mk {
  id : Z;
  name : string;
  file_count : Z;
  total_size : Z;
  store_path : string;
  created_by : option Z;
  created_at : Z;
}.
#[global] Instance eta_FilePackage : Eta FilePackage := λ r,
  mk (id r) (name r) (file_count r) (total_size r) (store_path r)
     (created_by r) (created_at r).
End FilePackage.

Module Ticket.
Record Ticket := mk {
  id : Z;
  ticket_no : string;
  title : string;
  category : string;
  priority : string;
  status : string;
  requester_id : option Z;
  assignee_id : option Z;
  team_id : option Z;
  description : string;
  sla_due_at : option Z;
  resolved_at : option Z;
  closed_at : option Z;
  version : Z;
  created_at : Z;
}.
#[global] Instance eta_Ticket : Eta Ticket := λ r,
  mk (id r) (ticket_no r) (title r) (category r) (priority r) (status r)
     (requester_id r) (assignee_id r) (team_id r) (description r)
     (sla_due_at r) (resolved_at r) (closed_at r) (version r) (created_at
     r).
End Ticket.

Module TicketComment.
Record TicketComment := mk {
  id : Z;
  ticket_id : Z;
  author_id : option Z;
  content : string;
  created_at : Z;
}.
#[global] Instance eta_TicketComment : Eta TicketComment := λ r,
  mk (id r) (ticket_id r) (author_id r) (content r) (created_at r).
End TicketComment.

Module TicketAttachment.
Record TicketAttachment := mk {
  id : Z;
  ticket_id : Z;
  file_id : Z;
  filename : string;
  size : Z;
  uploaded_by : option Z;
  created_at : Z;
}.
#[global] Instance eta_TicketAttachment : Eta TicketAttachment := λ r,
  mk (id r) (ticket_id r) (file_id r) (filename r) (size r) (uploaded_by r)
     (created_at r).
End TicketAttachment.

Module TicketRef.
Record TicketRef := mk {
  id : Z;
  ticket_id : Z;
  ref_type : string;
  ref_id : Z;
  created_by : option Z;
  created_at : Z;
}.
#[global] Instance eta_TicketRef : Eta TicketRef := λ r,
  mk (id r) (ticket_id r) (ref_type r) (ref_id r) (created_by r) (created_at
     r).
End TicketRef.

Module ExecTask.
Record ExecTask := mk {
  id : Z;
  task_no : string;
  name : string;
  kind : string;
  script_id : option Z;
  script_version : option Z;
  command : option string;
  params : json;
  target_host_ids : option (list Z);
  mode : string;
  timeout_sec : Z;
  retry : Z;
  sensitive_flag : Z;
  approve_required : Z;
  approval_id : option Z;
  status : string;
  created_by : option Z;
  started_at : option Z;
  finished_at : option Z;
  version : Z;
  created_at : Z;
}.
#[global] Instance eta_ExecTask : Eta ExecTask := λ r,
  mk (id r) (task_no r) (name r) (kind r) (script_id r) (script_version r)
     (command r) (params r) (target_host_ids r) (mode r) (timeout_sec r)
     (retry r) (sensitive_flag r) (approve_required r) (approval_id r)
     (status r) (created_by r) (started_at r) (finished_at r) (version r)
     (created_at r).
End ExecTask.

Module ExecTaskHost.
Record ExecTaskHost := mk {
  id : Z;
  exec_task_id : Z;
  host_id : Z;
  hostname : string;
  ip : string;
  executor : string;
  status : string;
  exit_code : option Z;
  started_at : option Z;
  finished_at : option Z;
}.
#[global] Instance eta_ExecTaskHost : Eta ExecTaskHost := λ r,
  mk (id r) (exec_task_id r) (host_id r) (hostname r) (ip r) (executor r)
     (status r) (exit_code r) (started_at r) (finished_at r).
End ExecTaskHost.

Module ExecLog.
Record ExecLog := mk {
  id : Z;
  task_host_id : Z;
  seq : Z;
  level : string;
  content : string;
  created_at : Z;
}.
#[global] Instance eta_ExecLog : Eta ExecLog := λ r,
  mk (id r) (task_host_id r) (seq r) (level r) (content r) (created_at r).
End ExecLog.

Module ScheduleTask.
Record ScheduleTask := mk {
  id : Z;
  name : string;
  kind : string;
  script_id : option Z;
  command : option string;
  params : json;
  trigger_type : string;
  cron_expr : option string;
  timezone : string;
  interval_sec : option Z;
  target_host_ids : option (list Z);
  timeout_sec : Z;
  retry : Z;
  concurrency_limit : Z;
  enabled : Z;
  created_by : option Z;
  version : Z;
  created_at : Z;
}.
#[global] Instance eta_ScheduleTask : Eta ScheduleTask := λ r,
  mk (id r) (name r) (kind r) (script_id r) (command r) (params r)
     (trigger_type r) (cron_expr r) (timezone r) (interval_sec r)
     (target_host_ids r) (timeout_sec r) (retry r) (concurrency_limit r)
     (enabled r) (created_by r) (version r) (created_at r).
End ScheduleTask.

Module ScheduleRun.
Record ScheduleRun := mk {
  id : Z;
  schedule_task_id : Z;
  run_no : string;
  status : string;
  task_id : option Z;
  started_at : Z;
  finished_at : option Z;
  error_msg : option string;
}.
#[global] Instance eta_ScheduleRun : Eta ScheduleRun := λ r,
  mk (id r) (schedule_task_id r) (run_no r) (status r) (task_id r)
     (started_at r) (finished_at r) (error_msg r).
End ScheduleRun.

Module ApprovalRequest.
Record ApprovalRequest := mk {
  id : Z;
  request_no : string;
  biz_type : string;
  biz_id : Z;
  title : string;
  reason : string;
  requester_id : Z;
  sensitive_hit : string;
  status : string;
  approval_mode : string;
  policy_ref : option string;
  approver_role_id : option Z;
  approver_id : option Z;
  decided_at : option Z;
  version : Z;
  created_at : Z;
}.
#[global] Instance eta_ApprovalRequest : Eta ApprovalRequest := λ r,
  mk (id r) (request_no r) (biz_type r) (biz_id r) (title r) (reason r)
     (requester_id r) (sensitive_hit r) (status r) (approval_mode r)
     (policy_ref r) (approver_role_id r) (approver_id r) (decided_at r)
     (version r) (created_at r).
End ApprovalRequest.

Module ApprovalRule.
Record ApprovalRule := mk {
  id : Z;
  name : string;
  kind : string;
  value : json;
  trigger_action : string;
  enabled : Z;
  created_at : Z;
}.
#[global] Instance eta_ApprovalRule : Eta ApprovalRule := λ r,
  mk (id r) (name r) (kind r) (value r) (trigger_action r) (enabled r)
     (created_at r).
End ApprovalRule.

Module ApprovalRecord.
Record ApprovalRecord := mk {
  id : Z;
  approval_id : Z;
  action : string;
  operator_id : Z;
  comment : string;
  created_at : Z;
}.
#[global] Instance eta_ApprovalRecord : Eta ApprovalRecord := λ r,
  mk (id r) (approval_id r) (action r) (operator_id r) (comment r)
     (created_at r).
End ApprovalRecord.

Module TerminalSession.
Record TerminalSession := mk {
  id : Z;
  session_no : string;
  host_id : Z;
  user_id : Z;
  status : string;
  close_reason : string;
  terminated_by : option Z;
  sensitive : Z;
  approval_id : option Z;
  version : Z;
  started_at : option Z;
  finished_at : option Z;
  duration_sec : Z;
  bytes_out : Z;
  bytes_in : Z;
  created_at : Z;
}.
#[global] Instance eta_TerminalSession : Eta TerminalSession := λ r,
  mk (id r) (session_no r) (host_id r) (user_id r) (status r) (close_reason
     r) (terminated_by r) (sensitive r) (approval_id r) (version r)
     (started_at r) (finished_at r) (duration_sec r) (bytes_out r) (bytes_in
     r) (created_at r).
End TerminalSession.

Module TerminalRecordingChunk.
Record TerminalRecordingChunk := mk {
  id : Z;
  session_id : Z;
  offset : Z;
  data_enc : string;
  created_at : Z;
}.
#[global] Instance eta_TerminalRecordingChunk : Eta TerminalRecordingChunk := λ r,
  mk (id r) (session_id r) (offset r) (data_enc r) (created_at r).
End TerminalRecordingChunk.

Module AutomationWhitelist.
Record AutomationWhitelist := mk {
  id : Z;
  action : string;
  risk_level : string;
  enabled : bool;
  updated_by : option Z;
}.
#[global] Instance eta_AutomationWhitelist : Eta AutomationWhitelist := λ r,
  mk (id r) (action r) (risk_level r) (enabled r) (updated_by r).
End AutomationWhitelist.

Module RemediationPolicy.
Record RemediationPolicy := mk {
  id : Z;
  asset_class : string;
  op_type : string;
  level : string;
  whitelist_ref : option string;
  verification_ref : option string;
  circuit_threshold : option Z;
  rollback_window : option Z;
}.
#[global] Instance eta_RemediationPolicy : Eta RemediationPolicy := λ r,
  mk (id r) (asset_class r) (op_type r) (level r) (whitelist_ref r)
     (verification_ref r) (circuit_threshold r) (rollback_window r).
End RemediationPolicy.

Module AutomationLevel.
Record AutomationLevel := mk {
  id : Z;
  level : string;
  capability : string;
  enabled : bool;
}.
#[global] Instance eta_AutomationLevel : Eta AutomationLevel := λ r,
  mk (id r) (level r) (capability r) (enabled r).
End AutomationLevel.

Module CircuitBreakerState.
Record CircuitBreakerState := mk {
  id : Z;
  scope : string;
  state : string;
  current : Z;
  threshold : option Z;
  last_tripped_at : option Z;
}.
#[global] Instance eta_CircuitBreakerState : Eta CircuitBreakerState := λ r,
  mk (id r) (scope r) (state r) (current r) (threshold r) (last_tripped_at
     r).
End CircuitBreakerState.

Module AiAction.
Record AiAction := mk {
  id : Z;
  model_name : string;
  model_version : option string;
  input_snapshot : json;
  confidence : option Q;
  basis_refs : json;
  trace_id : option string;
  actor : option Z;
  decision : string;
  approval_mode : option string;
  policy_ref : option string;
  verification_ref : option string;
  rollback_ref : option string;
  created_at : Z;
}.
#[global] Instance eta_AiAction : Eta AiAction := λ r,
  mk (id r) (model_name r) (model_version r) (input_snapshot r) (confidence
     r) (basis_refs r) (trace_id r) (actor r) (decision r) (approval_mode r)
     (policy_ref r) (verification_ref r) (rollback_ref r) (created_at r).
End AiAction.

Module OpsEvent.
Record OpsEvent := mk {
  id : Z;
  ts : Z;
  entity_type : string;
  entity_id : string;
  action : string;
  result : option string;
  source : string;
  refs : json;
  trace_id : option string;
  created_at : Z;
}.
#[global] Instance eta_OpsEvent : Eta OpsEvent := λ r,
  mk (id r) (ts r) (entity_type r) (entity_id r) (action r) (result r)
     (source r) (refs r) (trace_id r) (created_at r).
End OpsEvent.

Module Workflow.
Record Workflow := mk {
  id : Z;
  name : string;
  kind : string;
  description : string;
  current_version : Z;
  enabled : Z;
  created_by : option Z;
  created_at : Z;
}.
#[global] Instance eta_Workflow : Eta Workflow := λ r,
  mk (id r) (name r) (kind r) (description r) (current_version r) (enabled
     r) (created_by r) (created_at r).
End Workflow.

Module WorkflowVersion.
Record WorkflowVersion := mk {
  id : Z;
  workflow_id : Z;
  version : Z;
  definition : json;
  editor_id : option Z;
  created_at : Z;
}.
#[global] Instance eta_WorkflowVersion : Eta WorkflowVersion := λ r,
  mk (id r) (workflow_id r) (version r) (definition r) (editor_id r)
     (created_at r).
End WorkflowVersion.

Module WorkflowRun.
Record WorkflowRun := mk {
  id : Z;
  workflow_id : Z;
  workflow_version : Z;
  status : string;
  trigger_type : string;
  trigger_ref : json;
  context : json;
  started_at : option Z;
  finished_at : option Z;
  error : option string;
  created_by : option Z;
  created_at : Z;
}.
#[global] Instance eta_WorkflowRun : Eta WorkflowRun := λ r,
  mk (id r) (workflow_id r) (workflow_version r) (status r) (trigger_type r)
     (trigger_ref r) (context r) (started_at r) (finished_at r) (error r)
     (created_by r) (created_at r).
End WorkflowRun.

Module WorkflowNodeRun.
Record WorkflowNodeRun := mk {
  id : Z;
  run_id : Z;
  node_key : string;
  node_type : string;
  status : string;
  exec_task_id : option Z;
  approval_id : option Z;
  attempt : Z;
  output : json;
  error : option string;
  started_at : option Z;
  finished_at : option Z;
}.
#[global] Instance eta_WorkflowNodeRun : Eta WorkflowNodeRun := λ r,
  mk (id r) (run_id r) (node_key r) (node_type r) (status r) (exec_task_id
     r) (approval_id r) (attempt r) (output r) (error r) (started_at r)
     (finished_at r).
End WorkflowNodeRun.

Module CicdProvider.
Record CicdProvider := mk {
  id : Z;
  type : string;
  name : string;
  endpoint : string;
  config_enc : json;
  enabled : Z;
  status : string;
  last_heartbeat : option Z;
  created_by : option Z;
  created_at : Z;
}.
#[global] Instance eta_CicdProvider : Eta CicdProvider := λ r,
  mk (id r) (type r) (name r) (endpoint r) (config_enc r) (enabled r)
     (status r) (last_heartbeat r) (created_by r) (created_at r).
End CicdProvider.

Module Release.
Record Release := mk {
  id : Z;
  provider_id : Z;
  app : string;
  version : option string;
  artifact_ref : option string;
  env : string;
  status : string;
  workflow_run_id : option Z;
  target_host_ids : option (list Z);
  rolled_back_from : option Z;
  created_by : option Z;
  created_at : Z;
}.
#[global] Instance eta_Release : Eta Release := λ r,
  mk (id r) (provider_id r) (app r) (version r) (artifact_ref r) (env r)
     (status r) (workflow_run_id r) (target_host_ids r) (rolled_back_from r)
     (created_by r) (created_at r).
End Release.

Module EntityRelation.
Record EntityRelation := mk {
  id : Z;
  src_type : string;
  src_id : Z;
  dst_type : string;
  dst_id : Z;
  rel_type : string;
  properties : json;
  remark : string;
  created_by : option Z;
  created_at : Z;
}.
#[global] Instance eta_EntityRelation : Eta EntityRelation := λ r,
  mk (id r) (src_type r) (src_id r) (dst_type r) (dst_id r) (rel_type r)
     (properties r) (remark r) (created_by r) (created_at r).
End EntityRelation.

Module NotifyChannel.
Record NotifyChannel := mk {
  id : Z;
  name : string;
  type : string;
  config_enc : string;
  enabled : Z;
  created_at : Z;
}.
#[global] Instance eta_NotifyChannel : Eta NotifyChannel := λ r,
  mk (id r) (name r) (type r) (config_enc r) (enabled r) (created_at r).
End NotifyChannel.

Module NotifyRecord.
Record NotifyRecord := mk {
  id : Z;
  channel_id : option Z;
  scene : string;
  target : string;
  title : string;
  content : string;
  status : string;
  error_msg : option string;
  sent_at : option Z;
  created_at : Z;
}.
#[global] Instance eta_NotifyRecord : Eta NotifyRecord := λ r,
  mk (id r) (channel_id r) (scene r) (target r) (title r) (content r)
     (status r) (error_msg r) (sent_at r) (created_at r).
End NotifyRecord.

Module MonMetricSample.
Record MonMetricSample := mk {
  id : Z;
  source : string;
  metric_name : string;
  entity_type : string;
  entity_id : string;
  entity_name : string;
  value : Q;
  labels : json;
  fingerprint : string;
  ts : Z;
  received_at : Z;
}.
#[global] Instance eta_MonMetricSample : Eta MonMetricSample := λ r,
  mk (id r) (source r) (metric_name r) (entity_type r) (entity_id r)
     (entity_name r) (value r) (labels r) (fingerprint r) (ts r)
     (received_at r).
End MonMetricSample.

Module MonMetricDaily.
Record MonMetricDaily := mk {
  id : Z;
  source : string;
  metric_name : string;
  entity_type : string;
  entity_id : string;
  day : Z;
  min_value : Q;
  max_value : Q;
  avg_value : Q;
  sample_count : Z;
}.
#[global] Instance eta_MonMetricDaily : Eta MonMetricDaily := λ r,
  mk (id r) (source r) (metric_name r) (entity_type r) (entity_id r) (day r)
     (min_value r) (max_value r) (avg_value r) (sample_count r).
End MonMetricDaily.

Module MonAdapter.
Record MonAdapter := mk {
  id : Z;
  type : string;
  name : string;
  endpoint : string;
  config : json;
  enabled : Z;
  status : string;
  error_message : option string;
  last_heartbeat : option Z;
  metrics_received_count : Z;
  created_by : option Z;
  created_at : Z;
}.
#[global] Instance eta_MonAdapter : Eta MonAdapter := λ r,
  mk (id r) (type r) (name r) (endpoint r) (config r) (enabled r) (status r)
     (error_message r) (last_heartbeat r) (metrics_received_count r)
     (created_by r) (created_at r).
End MonAdapter.

Module MonEventInbox.
Record MonEventInbox := mk {
  id : Z;
  source : string;
  kind : string;
  entity : json;
  ts : Z;
  value : option Q;
  severity : option string;
  labels : json;
  raw : json;
  fingerprint : string;
  event_key : option string;
  mapping_warning : Z;
  status : string;
  error : option string;
  received_at : Z;
}.
#[global] Instance eta_MonEventInbox : Eta MonEventInbox := λ r,
  mk (id r) (source r) (kind r) (entity r) (ts r) (value r) (severity r)
     (labels r) (raw r) (fingerprint r) (event_key r) (mapping_warning r)
     (status r) (error r) (received_at r).
End MonEventInbox.

Module MonRule.
Record MonRule := mk {
  id : Z;
  name : string;
  description : option string;
  enabled : Z;
  event_source : option string;
  event_kind : string;
  metric_name : option string;
  condition_operator : string;
  condition_threshold : Q;
  condition_duration_seconds : Z;
  scope_type : option string;
  scope_ids : option (list string);
  level : string;
  cooldown_seconds : Z;
  converge_sec : Z;
  escalation_enabled : Z;
  escalation_after_seconds : option Z;
  escalation_severity : option string;
  escalate_levels : option (list string);
  notify_scene : string;
  notify_channel_ids : option (list Z);
  created_by : option Z;
  deleted : Z;
  created_at : Z;
}.
#[global] Instance eta_MonRule : Eta MonRule := λ r,
  mk (id r) (name r) (description r) (enabled r) (event_source r)
     (event_kind r) (metric_name r) (condition_operator r)
     (condition_threshold r) (condition_duration_seconds r) (scope_type r)
     (scope_ids r) (level r) (cooldown_seconds r) (converge_sec r)
     (escalation_enabled r) (escalation_after_seconds r)
     (escalation_severity r) (escalate_levels r) (notify_scene r)
     (notify_channel_ids r) (created_by r) (deleted r) (created_at r).
End MonRule.

Module MonAlert.
Record MonAlert := mk {
  id : Z;
  rule_id : option Z;
  rule_name : string;
  entity : json;
  source : string;
  status : string;
  severity : string;
  last_value : option Q;
  hit_count : Z;
  fired_at : option Z;
  resolved_at : option Z;
  last_event_at : option Z;
  pending_since : option Z;
  version : Z;
  created_at : Z;
}.
#[global] Instance eta_MonAlert : Eta MonAlert := λ r,
  mk (id r) (rule_id r) (rule_name r) (entity r) (source r) (status r)
     (severity r) (last_value r) (hit_count r) (fired_at r) (resolved_at r)
     (last_event_at r) (pending_since r) (version r) (created_at r).
End MonAlert.

Module MonAlertEventLog.
Record MonAlertEventLog := mk {
  id : Z;
  alert_id : Z;
  action : string;
  from_status : option string;
  to_status : option string;
  severity : option string;
  detail : json;
  operator_id : option Z;
  at_ : Z;
}.
#[global] Instance eta_MonAlertEventLog : Eta MonAlertEventLog := λ r,
  mk (id r) (alert_id r) (action r) (from_status r) (to_status r) (severity
     r) (detail r) (operator_id r) (at_ r).
End MonAlertEventLog.

Module AuthProvider.
Record AuthProvider := mk {
  id : Z;
  code : string;
  name : string;
  type : string;
  config_enc : json;
  enabled : Z;
  created_at : Z;
}.
#[global] Instance eta_AuthProvider : Eta AuthProvider := λ r,
  mk (id r) (code r) (name r) (type r) (config_enc r) (enabled r)
     (created_at r).
End AuthProvider.

Module FileItem.
Record FileItem := mk {
  id : Z;
  package_id : Z;
  rel_path : string;
  size : Z;
  sha256 : string;
  chunk_size : Z;
}.
#[global] Instance eta_FileItem : Eta FileItem := λ r,
  mk (id r) (package_id r) (rel_path r) (size r) (sha256 r) (chunk_size r).
End FileItem.

Module TransferTask.
Record TransferTask := mk {
  id : Z;
  task_no : string;
  mode : string;
  package_id : option Z;
  source_host_id : option Z;
  source_host_path : option string;
  target_path : string;
  host_ids : json;
  overwrite : Z;
  verify : Z;
  limit_mbps : option Z;
  status : string;
  created_by : option Z;
  created_at : Z;
  started_at : option Z;
  finished_at : option Z;
  version : Z;
}.
#[global] Instance eta_TransferTask : Eta TransferTask := λ r,
  mk (id r) (task_no r) (mode r) (package_id r) (source_host_id r)
     (source_host_path r) (target_path r) (host_ids r) (overwrite r) (verify
     r) (limit_mbps r) (status r) (created_by r) (created_at r) (started_at
     r) (finished_at r) (version r).
End TransferTask.

Module TransferHost.
Record TransferHost := mk {
  id : Z;
  transfer_task_id : Z;
  host_id : Z;
  hostname : string;
  ip : string;
  channel : string;
  status : string;
  current_offset : Z;
  verify_sha256 : option string;
  error : option string;
  started_at : option Z;
  finished_at : option Z;
}.
#[global] Instance eta_TransferHost : Eta TransferHost := λ r,
  mk (id r) (transfer_task_id r) (host_id r) (hostname r) (ip r) (channel r)
     (status r) (current_offset r) (verify_sha256 r) (error r) (started_at
     r) (finished_at r).
End TransferHost.

Module TransferLog.
Record TransferLog := mk {
  id : Z;
  transfer_host_id : Z;
  seq : Z;
  level : string;
  content : string;
  created_at : Z;
}.
#[global] Instance eta_TransferLog : Eta TransferLog := λ r,
  mk (id r) (transfer_host_id r) (seq r) (level r) (content r) (created_at
     r).
End TransferLog.

Module HostCredential.
Record HostCredential := mk {
  id : Z;
  host_id : Z;
  type : string;
  username : string;
  secret_enc : option string;
  key_enc : option string;
  key_version : Z;
  updated_by : option Z;
  created_at : Z;
}.
#[global] Instance eta_HostCredential : Eta HostCredential := λ r,
  mk (id r) (host_id r) (type r) (username r) (secret_enc r) (key_enc r)
     (key_version r) (updated_by r) (created_at r).
End HostCredential.

(** [entity ->> 'entity_id'] of an alert; the engine stores no entity whose id
    is not a string. *)
Definition entity_key (entity : json) : option string :=
  match jget "entity_id" entity with Some (JStr s) => Some s | _ => None end.
(** [a = b] in SQL holds of no NULL. *)
Definition same_key {A} `{EqDecision A} (a b : option A) : bool :=
  match a, b with Some x, Some y => bool_decide (x = y) | _, _ => false end.
Definition active_alert (a : MonAlert.MonAlert) : bool :=
  str_in (MonAlert.status a) ["pending"; "firing"; "acknowledged"].

(** Rows a session was given and has not flushed: they have no id yet and no
    select finds them. *)
Inductive Unflushed :=
  | NewEvent (r : MonEventInbox.MonEventInbox)
  | NewSample (r : MonMetricSample.MonMetricSample)
  | NewDaily (r : MonMetricDaily.MonMetricDaily)
  | NewTransferLog (r : TransferLog.TransferLog)
  | NewUserRole (r : UserRole.UserRole)
  | NewRolePermission (r : RolePermission.RolePermission)
  | NewRoleHostGroup (r : RoleHostGroup.RoleHostGroup)
  | NewPermission (r : Permission.Permission)
  | NewHost (r : Host.Host).

(** ** The database: one finite map per table, from primary key to row. *)

Record Db := mkDb {
  config_rules : gmap Z ConfigRule.ConfigRule;
  audit_logs : gmap Z AuditLog.AuditLog;
  users : gmap Z User.User;
  roles : gmap Z Role.Role;
  user_roles : gmap Z UserRole.UserRole;
  permissions : gmap Z Permission.Permission;
  role_permissions : gmap Z RolePermission.RolePermission;
  role_host_groups : gmap Z RoleHostGroup.RoleHostGroup;
  asset_groups : gmap Z AssetGroup.AssetGroup;
  hosts : gmap Z Host.Host;
  scripts : gmap Z Script.Script;
  script_versions : gmap Z ScriptVersion.ScriptVersion;
  file_packages : gmap Z FilePackage.FilePackage;
  tickets : gmap Z Ticket.Ticket;
  ticket_comments : gmap Z TicketComment.TicketComment;
  ticket_attachments : gmap Z TicketAttachment.TicketAttachment;
  ticket_refs : gmap Z TicketRef.TicketRef;
  exec_tasks : gmap Z ExecTask.ExecTask;
  exec_task_hosts : gmap Z ExecTaskHost.ExecTaskHost;
  exec_logs : gmap Z ExecLog.ExecLog;
  schedule_tasks : gmap Z ScheduleTask.ScheduleTask;
  schedule_runs : gmap Z ScheduleRun.ScheduleRun;
  approval_requests : gmap Z ApprovalRequest.ApprovalRequest;
  approval_rules : gmap Z ApprovalRule.ApprovalRule;
  approval_records : gmap Z ApprovalRecord.ApprovalRecord;
  terminal_sessions : gmap Z TerminalSession.TerminalSession;
  terminal_chunks : gmap Z TerminalRecordingChunk.TerminalRecordingChunk;
  automation_whitelists : gmap Z AutomationWhitelist.AutomationWhitelist;
  remediation_policies : gmap Z RemediationPolicy.RemediationPolicy;
  automation_levels : gmap Z AutomationLevel.AutomationLevel;
  circuit_breakers : gmap Z CircuitBreakerState.CircuitBreakerState;
  ai_actions : gmap Z AiAction.AiAction;
  ops_events : gmap Z OpsEvent.OpsEvent;
  workflows : gmap Z Workflow.Workflow;
  workflow_versions : gmap Z WorkflowVersion.WorkflowVersion;
  workflow_runs : gmap Z WorkflowRun.WorkflowRun;
  workflow_node_runs : gmap Z WorkflowNodeRun.WorkflowNodeRun;
  cicd_providers : gmap Z CicdProvider.CicdProvider;
  releases : gmap Z Release.Release;
  entity_relations : gmap Z EntityRelation.EntityRelation;
  notify_channels : gmap Z NotifyChannel.NotifyChannel;
  notify_records : gmap Z NotifyRecord.NotifyRecord;
  mon_metric_samples : gmap Z MonMetricSample.MonMetricSample;
  mon_metric_dailies : gmap Z MonMetricDaily.MonMetricDaily;
  mon_adapters : gmap Z MonAdapter.MonAdapter;
  mon_events : gmap Z MonEventInbox.MonEventInbox;
  mon_rules : gmap Z MonRule.MonRule;
  mon_alerts : gmap Z MonAlert.MonAlert;
  mon_alert_logs : gmap Z MonAlertEventLog.MonAlertEventLog;
  auth_providers : gmap Z AuthProvider.AuthProvider;
  file_items : gmap Z FileItem.FileItem;
  transfer_tasks : gmap Z TransferTask.TransferTask;
  transfer_hosts : gmap Z TransferHost.TransferHost;
  transfer_logs : gmap Z TransferLog.TransferLog;
  host_credentials : gmap Z HostCredential.HostCredential;
  unflushed : list Unflushed;
}.
#[export] Instance eta_Db : Eta Db := λ d,
  mkDb (config_rules d) (audit_logs d) (users d) (roles d) (user_roles d)
     (permissions d) (role_permissions d) (role_host_groups d) (asset_groups
     d) (hosts d) (scripts d) (script_versions d) (file_packages d) (tickets
     d) (ticket_comments d) (ticket_attachments d) (ticket_refs d)
     (exec_tasks d) (exec_task_hosts d) (exec_logs d) (schedule_tasks d)
     (schedule_runs d) (approval_requests d) (approval_rules d)
     (approval_records d) (terminal_sessions d) (terminal_chunks d)
     (automation_whitelists d) (remediation_policies d) (automation_levels
     d) (circuit_breakers d) (ai_actions d) (ops_events d) (workflows d)
     (workflow_versions d) (workflow_runs d) (workflow_node_runs d)
     (cicd_providers d) (releases d) (entity_relations d) (notify_channels
     d) (notify_records d) (mon_metric_samples d) (mon_metric_dailies d)
     (mon_adapters d) (mon_events d) (mon_rules d) (mon_alerts d)
     (mon_alert_logs d) (auth_providers d) (file_items d) (transfer_tasks d)
     (transfer_hosts d) (transfer_logs d) (host_credentials d) (unflushed
     d).
Definition empty_db : Db :=
  mkDb ∅ ∅ ∅ ∅ ∅ ∅ ∅ ∅ ∅ ∅ ∅ ∅ ∅ ∅ ∅ ∅ ∅ ∅ ∅ ∅ ∅ ∅ ∅ ∅ ∅ ∅ ∅ ∅ ∅ ∅ ∅ ∅ ∅ ∅ ∅
     ∅ ∅ ∅ ∅ ∅ ∅ ∅ ∅ ∅ ∅ ∅ ∅ ∅ ∅ ∅ ∅ ∅ ∅ ∅ ∅ [].

(** What every table provides: its map in the database, its name (the
    autoincrement sequence is named after it), the columns the server fills on
    INSERT, the UNIQUE constraints (two rows that may not coexist) and the CHECK
    constraint. *)
Class Table (R : Type) := {
  tbl : Db → gmap Z R;
  set_tbl : gmap Z R → Db → Db;
  tbl_name : string;
  row_id : R → Z;
  tbl_init : Z → Z → R → R;
  conflict : R → R → bool;
  row_check : R → bool;
  tbl_set_tbl : ∀ m d, tbl (set_tbl m d) = m;
  set_tbl_set : ∀ m m' d, set_tbl m (set_tbl m' d) = set_tbl m d;
  set_tbl_tbl : ∀ d, set_tbl (tbl d) d = d;
  row_id_init : ∀ i t r, row_id (tbl_init i t r) = i;
}.
#[global] Arguments tbl : simpl never.
#[global] Arguments set_tbl : simpl never.

#[local] Obligation Tactic := by intros; try match goal with d : Db |- _ => destruct d end.

(** Writing table [R'] leaves table [R] as it was. *)
Class TableNe (R R' : Type) `{Table R, Table R'} := {
  tbl_set_ne : ∀ m d, tbl (R:=R) (set_tbl (R:=R') m d) = tbl (R:=R) d;
  tbl_name_ne : tbl_name (R:=R) ≠ tbl_name (R:=R');
}.
#[global] Hint Extern 1 (TableNe _ _) =>
  (split; [intros ? ?; reflexivity | discriminate]) : typeclass_instances.

#[export] Program Instance ConfigRule_table : Table ConfigRule.ConfigRule := {
  tbl := config_rules; set_tbl := λ m d, d <| config_rules := m |>; tbl_name := "config_rule";
  row_id := ConfigRule.id; tbl_init := λ i _ r, r <| ConfigRule.id := i |>;
  conflict := λ a b, bool_decide (ConfigRule.rule_key a = ConfigRule.rule_key b);
  row_check := λ _, true }.

#[export] Program Instance AuditLog_table : Table AuditLog.AuditLog := {
  tbl := audit_logs; set_tbl := λ m d, d <| audit_logs := m |>; tbl_name := "sys_audit_log";
  row_id := AuditLog.id; tbl_init := λ i t r, r <| AuditLog.id := i |> <| AuditLog.created_at := t |>;
  conflict := λ _ _, false;
  row_check := λ _, true }.

#[export] Program Instance User_table : Table User.User := {
  tbl := users; set_tbl := λ m d, d <| users := m |>; tbl_name := "sys_user";
  row_id := User.id; tbl_init := λ i _ r, r <| User.id := i |>;
  conflict := λ a b, bool_decide (User.username a = User.username b);
  row_check := λ _, true }.

#[export] Program Instance Role_table : Table Role.Role := {
  tbl := roles; set_tbl := λ m d, d <| roles := m |>; tbl_name := "sys_role";
  row_id := Role.id; tbl_init := λ i _ r, r <| Role.id := i |>;
  conflict := λ a b, bool_decide (Role.code a = Role.code b);
  row_check := λ _, true }.

#[export] Program Instance UserRole_table : Table UserRole.UserRole := {
  tbl := user_roles; set_tbl := λ m d, d <| user_roles := m |>; tbl_name := "sys_user_role";
  row_id := UserRole.id; tbl_init := λ i _ r, r <| UserRole.id := i |>;
  conflict := λ a b, (UserRole.user_id a =? UserRole.user_id b) &&
                 (UserRole.role_id a =? UserRole.role_id b);
  row_check := λ _, true }.

#[export] Program Instance Permission_table : Table Permission.Permission := {
  tbl := permissions; set_tbl := λ m d, d <| permissions := m |>; tbl_name := "sys_permission";
  row_id := Permission.id; tbl_init := λ i _ r, r <| Permission.id := i |>;
  conflict := λ a b, bool_decide (Permission.code a = Permission.code b);
  row_check := λ _, true }.

#[export] Program Instance RolePermission_table : Table RolePermission.RolePermission := {
  tbl := role_permissions; set_tbl := λ m d, d <| role_permissions := m |>; tbl_name := "sys_role_permission";
  row_id := RolePermission.id; tbl_init := λ i _ r, r <| RolePermission.id := i |>;
  conflict := λ a b, (RolePermission.role_id a =? RolePermission.role_id b) &&
                 (RolePermission.permission_id a =?
                 RolePermission.permission_id b);
  row_check := λ _, true }.

#[export] Program Instance RoleHostGroup_table : Table RoleHostGroup.RoleHostGroup := {
  tbl := role_host_groups; set_tbl := λ m d, d <| role_host_groups := m |>; tbl_name := "role_host_group";
  row_id := RoleHostGroup.id; tbl_init := λ i _ r, r <| RoleHostGroup.id := i |>;
  conflict := λ a b, (RoleHostGroup.role_id a =? RoleHostGroup.role_id b) &&
                 (RoleHostGroup.group_id a =? RoleHostGroup.group_id b);
  row_check := λ _, true }.

#[export] Program Instance AssetGroup_table : Table AssetGroup.AssetGroup := {
  tbl := asset_groups; set_tbl := λ m d, d <| asset_groups := m |>; tbl_name := "asset_group";
  row_id := AssetGroup.id; tbl_init := λ i _ r, r <| AssetGroup.id := i |>;
  conflict := λ _ _, false;
  row_check := λ _, true }.

#[export] Program Instance Host_table : Table Host.Host := {
  tbl := hosts; set_tbl := λ m d, d <| hosts := m |>; tbl_name := "asset_host";
  row_id := Host.id; tbl_init := λ i t r, r <| Host.id := i |> <| Host.created_at := t |>;
  conflict := λ a b, bool_decide (Host.ip a = Host.ip b);
  row_check := λ _, true }.

#[export] Program Instance Script_table : Table Script.Script := {
  tbl := scripts; set_tbl := λ m d, d <| scripts := m |>; tbl_name := "script";
  row_id := Script.id; tbl_init := λ i t r, r <| Script.id := i |> <| Script.created_at := t |>;
  conflict := λ _ _, false;
  row_check := λ _, true }.

#[export] Program Instance ScriptVersion_table : Table ScriptVersion.ScriptVersion := {
  tbl := script_versions; set_tbl := λ m d, d <| script_versions := m |>; tbl_name := "script_version";
  row_id := ScriptVersion.id; tbl_init := λ i t r, r <| ScriptVersion.id := i |> <| ScriptVersion.created_at := t |>;
  conflict := λ a b, (ScriptVersion.script_id a =? ScriptVersion.script_id b) &&
                 (ScriptVersion.version a =? ScriptVersion.version b);
  row_check := λ _, true }.

#[export] Program Instance FilePackage_table : Table FilePackage.FilePackage := {
  tbl := file_packages; set_tbl := λ m d, d <| file_packages := m |>; tbl_name := "file_package";
  row_id := FilePackage.id; tbl_init := λ i t r, r <| FilePackage.id := i |> <| FilePackage.created_at := t |>;
  conflict := λ _ _, false;
  row_check := λ _, true }.

#[export] Program Instance Ticket_table : Table Ticket.Ticket := {
  tbl := tickets; set_tbl := λ m d, d <| tickets := m |>; tbl_name := "ticket";
  row_id := Ticket.id; tbl_init := λ i t r, r <| Ticket.id := i |> <| Ticket.created_at := t |>;
  conflict := λ a b, bool_decide (Ticket.ticket_no a = Ticket.ticket_no b);
  row_check := λ _, true }.

#[export] Program Instance TicketComment_table : Table TicketComment.TicketComment := {
  tbl := ticket_comments; set_tbl := λ m d, d <| ticket_comments := m |>; tbl_name := "ticket_comment";
  row_id := TicketComment.id; tbl_init := λ i t r, r <| TicketComment.id := i |> <| TicketComment.created_at := t |>;
  conflict := λ _ _, false;
  row_check := λ _, true }.

#[export] Program Instance TicketAttachment_table : Table TicketAttachment.TicketAttachment := {
  tbl := ticket_attachments; set_tbl := λ m d, d <| ticket_attachments := m |>; tbl_name := "ticket_attachment";
  row_id := TicketAttachment.id; tbl_init := λ i t r, r <| TicketAttachment.id := i |> <| TicketAttachment.created_at := t |>;
  conflict := λ _ _, false;
  row_check := λ _, true }.

#[export] Program Instance TicketRef_table : Table TicketRef.TicketRef := {
  tbl := ticket_refs; set_tbl := λ m d, d <| ticket_refs := m |>; tbl_name := "ticket_ref";
  row_id := TicketRef.id; tbl_init := λ i t r, r <| TicketRef.id := i |> <| TicketRef.created_at := t |>;
  conflict := λ a b, (TicketRef.ticket_id a =? TicketRef.ticket_id b) &&
                 bool_decide (TicketRef.ref_type a = TicketRef.ref_type b) &&
                 (TicketRef.ref_id a =? TicketRef.ref_id b);
  row_check := λ _, true }.

#[export] Program Instance ExecTask_table : Table ExecTask.ExecTask := {
  tbl := exec_tasks; set_tbl := λ m d, d <| exec_tasks := m |>; tbl_name := "exec_task";
  row_id := ExecTask.id; tbl_init := λ i t r, r <| ExecTask.id := i |> <| ExecTask.created_at := t |>;
  conflict := λ a b, bool_decide (ExecTask.task_no a = ExecTask.task_no b);
  row_check := λ _, true }.

#[export] Program Instance ExecTaskHost_table : Table ExecTaskHost.ExecTaskHost := {
  tbl := exec_task_hosts; set_tbl := λ m d, d <| exec_task_hosts := m |>; tbl_name := "exec_task_host";
  row_id := ExecTaskHost.id; tbl_init := λ i _ r, r <| ExecTaskHost.id := i |>;
  conflict := λ a b, (ExecTaskHost.exec_task_id a =? ExecTaskHost.exec_task_id b)
                 && (ExecTaskHost.host_id a =? ExecTaskHost.host_id b);
  row_check := λ _, true }.

#[export] Program Instance ExecLog_table : Table ExecLog.ExecLog := {
  tbl := exec_logs; set_tbl := λ m d, d <| exec_logs := m |>; tbl_name := "exec_log";
  row_id := ExecLog.id; tbl_init := λ i t r, r <| ExecLog.id := i |> <| ExecLog.created_at := t |>;
  conflict := λ a b, (ExecLog.created_at a =? ExecLog.created_at b) &&
                 (ExecLog.task_host_id a =? ExecLog.task_host_id b) &&
                 (ExecLog.seq a =? ExecLog.seq b);
  row_check := λ _, true }.

#[export] Program Instance ScheduleTask_table : Table ScheduleTask.ScheduleTask := {
  tbl := schedule_tasks; set_tbl := λ m d, d <| schedule_tasks := m |>; tbl_name := "schedule_task";
  row_id := ScheduleTask.id; tbl_init := λ i t r, r <| ScheduleTask.id := i |> <| ScheduleTask.created_at := t |>;
  conflict := λ _ _, false;
  row_check := λ _, true }.

#[export] Program Instance ScheduleRun_table : Table ScheduleRun.ScheduleRun := {
  tbl := schedule_runs; set_tbl := λ m d, d <| schedule_runs := m |>; tbl_name := "schedule_run";
  row_id := ScheduleRun.id; tbl_init := λ i t r, r <| ScheduleRun.id := i |> <| ScheduleRun.started_at := t |>;
  conflict := λ a b, bool_decide (ScheduleRun.run_no a = ScheduleRun.run_no b);
  row_check := λ _, true }.

#[export] Program Instance ApprovalRequest_table : Table ApprovalRequest.ApprovalRequest := {
  tbl := approval_requests; set_tbl := λ m d, d <| approval_requests := m |>; tbl_name := "approval_request";
  row_id := ApprovalRequest.id; tbl_init := λ i t r, r <| ApprovalRequest.id := i |> <| ApprovalRequest.created_at := t |>;
  conflict := λ a b, (bool_decide (ApprovalRequest.request_no a =
                 ApprovalRequest.request_no b)) || ((ApprovalRequest.biz_id a
                 =? ApprovalRequest.biz_id b));
  row_check := λ _, true }.

#[export] Program Instance ApprovalRule_table : Table ApprovalRule.ApprovalRule := {
  tbl := approval_rules; set_tbl := λ m d, d <| approval_rules := m |>; tbl_name := "approval_rule";
  row_id := ApprovalRule.id; tbl_init := λ i t r, r <| ApprovalRule.id := i |> <| ApprovalRule.created_at := t |>;
  conflict := λ _ _, false;
  row_check := λ _, true }.

#[export] Program Instance ApprovalRecord_table : Table ApprovalRecord.ApprovalRecord := {
  tbl := approval_records; set_tbl := λ m d, d <| approval_records := m |>; tbl_name := "approval_record";
  row_id := ApprovalRecord.id; tbl_init := λ i t r, r <| ApprovalRecord.id := i |> <| ApprovalRecord.created_at := t |>;
  conflict := λ _ _, false;
  row_check := λ _, true }.

#[export] Program Instance TerminalSession_table : Table TerminalSession.TerminalSession := {
  tbl := terminal_sessions; set_tbl := λ m d, d <| terminal_sessions := m |>; tbl_name := "terminal_session";
  row_id := TerminalSession.id; tbl_init := λ i t r, r <| TerminalSession.id := i |> <| TerminalSession.created_at := t |>;
  conflict := λ a b, bool_decide (TerminalSession.session_no a =
                 TerminalSession.session_no b);
  row_check := λ _, true }.

#[export] Program Instance TerminalRecordingChunk_table : Table TerminalRecordingChunk.TerminalRecordingChunk := {
  tbl := terminal_chunks; set_tbl := λ m d, d <| terminal_chunks := m |>; tbl_name := "terminal_recording_chunk";
  row_id := TerminalRecordingChunk.id; tbl_init := λ i t r, r <| TerminalRecordingChunk.id := i |> <| TerminalRecordingChunk.created_at := t |>;
  conflict := λ a b, (TerminalRecordingChunk.session_id a =?
                 TerminalRecordingChunk.session_id b) &&
                 (TerminalRecordingChunk.offset a =?
                 TerminalRecordingChunk.offset b);
  row_check := λ _, true }.

#[export] Program Instance AutomationWhitelist_table : Table AutomationWhitelist.AutomationWhitelist := {
  tbl := automation_whitelists; set_tbl := λ m d, d <| automation_whitelists := m |>; tbl_name := "automation_whitelist";
  row_id := AutomationWhitelist.id; tbl_init := λ i _ r, r <| AutomationWhitelist.id := i |>;
  conflict := λ _ _, false;
  row_check := λ _, true }.

#[export] Program Instance RemediationPolicy_table : Table RemediationPolicy.RemediationPolicy := {
  tbl := remediation_policies; set_tbl := λ m d, d <| remediation_policies := m |>; tbl_name := "remediation_policy";
  row_id := RemediationPolicy.id; tbl_init := λ i _ r, r <| RemediationPolicy.id := i |>;
  conflict := λ _ _, false;
  row_check := λ _, true }.

#[export] Program Instance AutomationLevel_table : Table AutomationLevel.AutomationLevel := {
  tbl := automation_levels; set_tbl := λ m d, d <| automation_levels := m |>; tbl_name := "automation_level";
  row_id := AutomationLevel.id; tbl_init := λ i _ r, r <| AutomationLevel.id := i |>;
  conflict := λ a b, bool_decide (AutomationLevel.level a = AutomationLevel.level
                 b);
  row_check := λ _, true }.

#[export] Program Instance CircuitBreakerState_table : Table CircuitBreakerState.CircuitBreakerState := {
  tbl := circuit_breakers; set_tbl := λ m d, d <| circuit_breakers := m |>; tbl_name := "circuit_breaker_state";
  row_id := CircuitBreakerState.id; tbl_init := λ i _ r, r <| CircuitBreakerState.id := i |>;
  conflict := λ a b, bool_decide (CircuitBreakerState.scope a =
                 CircuitBreakerState.scope b);
  row_check := λ _, true }.

#[export] Program Instance AiAction_table : Table AiAction.AiAction := {
  tbl := ai_actions; set_tbl := λ m d, d <| ai_actions := m |>; tbl_name := "ai_action";
  row_id := AiAction.id; tbl_init := λ i t r, r <| AiAction.id := i |> <| AiAction.created_at := t |>;
  conflict := λ _ _, false;
  row_check := λ _, true }.

#[export] Program Instance OpsEvent_table : Table OpsEvent.OpsEvent := {
  tbl := ops_events; set_tbl := λ m d, d <| ops_events := m |>; tbl_name := "ops_event";
  row_id := OpsEvent.id; tbl_init := λ i t r, r <| OpsEvent.id := i |> <| OpsEvent.created_at := t |>;
  conflict := λ _ _, false;
  row_check := λ _, true }.

#[export] Program Instance Workflow_table : Table Workflow.Workflow := {
  tbl := workflows; set_tbl := λ m d, d <| workflows := m |>; tbl_name := "workflow";
  row_id := Workflow.id; tbl_init := λ i t r, r <| Workflow.id := i |> <| Workflow.created_at := t |>;
  conflict := λ a b, bool_decide (Workflow.name a = Workflow.name b);
  row_check := λ _, true }.

#[export] Program Instance WorkflowVersion_table : Table WorkflowVersion.WorkflowVersion := {
  tbl := workflow_versions; set_tbl := λ m d, d <| workflow_versions := m |>; tbl_name := "workflow_version";
  row_id := WorkflowVersion.id; tbl_init := λ i t r, r <| WorkflowVersion.id := i |> <| WorkflowVersion.created_at := t |>;
  conflict := λ a b, (WorkflowVersion.workflow_id a =?
                 WorkflowVersion.workflow_id b) && (WorkflowVersion.version a
                 =? WorkflowVersion.version b);
  row_check := λ _, true }.

#[export] Program Instance WorkflowRun_table : Table WorkflowRun.WorkflowRun := {
  tbl := workflow_runs; set_tbl := λ m d, d <| workflow_runs := m |>; tbl_name := "workflow_run";
  row_id := WorkflowRun.id; tbl_init := λ i t r, r <| WorkflowRun.id := i |> <| WorkflowRun.created_at := t |>;
  conflict := λ _ _, false;
  row_check := λ _, true }.

#[export] Program Instance WorkflowNodeRun_table : Table WorkflowNodeRun.WorkflowNodeRun := {
  tbl := workflow_node_runs; set_tbl := λ m d, d <| workflow_node_runs := m |>; tbl_name := "workflow_node_run";
  row_id := WorkflowNodeRun.id; tbl_init := λ i _ r, r <| WorkflowNodeRun.id := i |>;
  conflict := λ a b, (WorkflowNodeRun.run_id a =? WorkflowNodeRun.run_id b) &&
                 bool_decide (WorkflowNodeRun.node_key a =
                 WorkflowNodeRun.node_key b);
  row_check := λ _, true }.

#[export] Program Instance CicdProvider_table : Table CicdProvider.CicdProvider := {
  tbl := cicd_providers; set_tbl := λ m d, d <| cicd_providers := m |>; tbl_name := "cicd_provider";
  row_id := CicdProvider.id; tbl_init := λ i t r, r <| CicdProvider.id := i |> <| CicdProvider.created_at := t |>;
  conflict := λ _ _, false;
  row_check := λ _, true }.

#[export] Program Instance Release_table : Table Release.Release := {
  tbl := releases; set_tbl := λ m d, d <| releases := m |>; tbl_name := "release";
  row_id := Release.id; tbl_init := λ i t r, r <| Release.id := i |> <| Release.created_at := t |>;
  conflict := λ _ _, false;
  row_check := λ _, true }.

#[export] Program Instance EntityRelation_table : Table EntityRelation.EntityRelation := {
  tbl := entity_relations; set_tbl := λ m d, d <| entity_relations := m |>; tbl_name := "entity_relation";
  row_id := EntityRelation.id; tbl_init := λ i t r, r <| EntityRelation.id := i |> <| EntityRelation.created_at := t |>;
  conflict := λ a b, bool_decide (EntityRelation.src_type a =
                 EntityRelation.src_type b) && (EntityRelation.src_id a =?
                 EntityRelation.src_id b) && bool_decide
                 (EntityRelation.dst_type a = EntityRelation.dst_type b) &&
                 (EntityRelation.dst_id a =? EntityRelation.dst_id b) &&
                 bool_decide (EntityRelation.rel_type a =
                 EntityRelation.rel_type b);
  row_check := λ r, negb (bool_decide (EntityRelation.src_type r = EntityRelation.dst_type r) && (EntityRelation.src_id r =? EntityRelation.dst_id r)) }.

#[export] Program Instance NotifyChannel_table : Table NotifyChannel.NotifyChannel := {
  tbl := notify_channels; set_tbl := λ m d, d <| notify_channels := m |>; tbl_name := "notify_channel";
  row_id := NotifyChannel.id; tbl_init := λ i t r, r <| NotifyChannel.id := i |> <| NotifyChannel.created_at := t |>;
  conflict := λ _ _, false;
  row_check := λ _, true }.

#[export] Program Instance NotifyRecord_table : Table NotifyRecord.NotifyRecord := {
  tbl := notify_records; set_tbl := λ m d, d <| notify_records := m |>; tbl_name := "notify_record";
  row_id := NotifyRecord.id; tbl_init := λ i t r, r <| NotifyRecord.id := i |> <| NotifyRecord.created_at := t |>;
  conflict := λ _ _, false;
  row_check := λ _, true }.

#[export] Program Instance MonMetricSample_table : Table MonMetricSample.MonMetricSample := {
  tbl := mon_metric_samples; set_tbl := λ m d, d <| mon_metric_samples := m |>; tbl_name := "mon_metric_sample";
  row_id := MonMetricSample.id; tbl_init := λ i t r, r <| MonMetricSample.id := i |> <| MonMetricSample.received_at := t |>;
  conflict := λ _ _, false;
  row_check := λ _, true }.

#[export] Program Instance MonMetricDaily_table : Table MonMetricDaily.MonMetricDaily := {
  tbl := mon_metric_dailies; set_tbl := λ m d, d <| mon_metric_dailies := m |>; tbl_name := "mon_metric_daily";
  row_id := MonMetricDaily.id; tbl_init := λ i _ r, r <| MonMetricDaily.id := i |>;
  conflict := λ a b, bool_decide (MonMetricDaily.source a = MonMetricDaily.source
                 b) && bool_decide (MonMetricDaily.metric_name a =
                 MonMetricDaily.metric_name b) && bool_decide
                 (MonMetricDaily.entity_id a = MonMetricDaily.entity_id b) &&
                 (MonMetricDaily.day a =? MonMetricDaily.day b);
  row_check := λ _, true }.

#[export] Program Instance MonAdapter_table : Table MonAdapter.MonAdapter := {
  tbl := mon_adapters; set_tbl := λ m d, d <| mon_adapters := m |>; tbl_name := "mon_adapter";
  row_id := MonAdapter.id; tbl_init := λ i t r, r <| MonAdapter.id := i |> <| MonAdapter.created_at := t |>;
  conflict := λ a b, bool_decide (MonAdapter.name a = MonAdapter.name b);
  row_check := λ _, true }.

#[export] Program Instance MonEventInbox_table : Table MonEventInbox.MonEventInbox := {
  tbl := mon_events; set_tbl := λ m d, d <| mon_events := m |>; tbl_name := "mon_event_inbox";
  row_id := MonEventInbox.id; tbl_init := λ i t r, r <| MonEventInbox.id := i |> <| MonEventInbox.received_at := t |>;
  conflict := λ _ _, false;
  row_check := λ _, true }.

#[export] Program Instance MonRule_table : Table MonRule.MonRule := {
  tbl := mon_rules; set_tbl := λ m d, d <| mon_rules := m |>; tbl_name := "mon_rule";
  row_id := MonRule.id; tbl_init := λ i t r, r <| MonRule.id := i |> <| MonRule.created_at := t |>;
  conflict := λ _ _, false;
  row_check := λ _, true }.

#[export] Program Instance MonAlert_table : Table MonAlert.MonAlert := {
  tbl := mon_alerts; set_tbl := λ m d, d <| mon_alerts := m |>; tbl_name := "mon_alert";
  row_id := MonAlert.id; tbl_init := λ i t r, r <| MonAlert.id := i |> <| MonAlert.created_at := t |>;
  conflict := λ a b, active_alert a && active_alert b && same_key
                 (MonAlert.rule_id a) (MonAlert.rule_id b) && same_key
                 (entity_key (MonAlert.entity a)) (entity_key
                 (MonAlert.entity b));
  row_check := λ _, true }.

#[export] Program Instance MonAlertEventLog_table : Table MonAlertEventLog.MonAlertEventLog := {
  tbl := mon_alert_logs; set_tbl := λ m d, d <| mon_alert_logs := m |>; tbl_name := "mon_alert_event_log";
  row_id := MonAlertEventLog.id; tbl_init := λ i t r, r <| MonAlertEventLog.id := i |> <| MonAlertEventLog.at_ := t |>;
  conflict := λ _ _, false;
  row_check := λ _, true }.

#[export] Program Instance AuthProvider_table : Table AuthProvider.AuthProvider := {
  tbl := auth_providers; set_tbl := λ m d, d <| auth_providers := m |>; tbl_name := "auth_provider";
  row_id := AuthProvider.id; tbl_init := λ i t r, r <| AuthProvider.id := i |> <| AuthProvider.created_at := t |>;
  conflict := λ a b, bool_decide (AuthProvider.code a = AuthProvider.code b);
  row_check := λ _, true }.

#[export] Program Instance FileItem_table : Table FileItem.FileItem := {
  tbl := file_items; set_tbl := λ m d, d <| file_items := m |>; tbl_name := "file_item";
  row_id := FileItem.id; tbl_init := λ i _ r, r <| FileItem.id := i |>;
  conflict := λ a b, (FileItem.package_id a =? FileItem.package_id b) && bool_decide
                 (FileItem.rel_path a = FileItem.rel_path b);
  row_check := λ _, true }.

#[export] Program Instance TransferTask_table : Table TransferTask.TransferTask := {
  tbl := transfer_tasks; set_tbl := λ m d, d <| transfer_tasks := m |>; tbl_name := "transfer_task";
  row_id := TransferTask.id; tbl_init := λ i t r, r <| TransferTask.id := i |> <| TransferTask.created_at := t |>;
  conflict := λ a b, bool_decide (TransferTask.task_no a = TransferTask.task_no b);
  row_check := λ _, true }.

#[export] Program Instance TransferHost_table : Table TransferHost.TransferHost := {
  tbl := transfer_hosts; set_tbl := λ m d, d <| transfer_hosts := m |>; tbl_name := "transfer_host";
  row_id := TransferHost.id; tbl_init := λ i _ r, r <| TransferHost.id := i |>;
  conflict := λ a b, (TransferHost.transfer_task_id a =? TransferHost.transfer_task_id b)
                 && (TransferHost.host_id a =? TransferHost.host_id b);
  row_check := λ _, true }.

#[export] Program Instance TransferLog_table : Table TransferLog.TransferLog := {
  tbl := transfer_logs; set_tbl := λ m d, d <| transfer_logs := m |>; tbl_name := "transfer_log";
  row_id := TransferLog.id; tbl_init := λ i t r, r <| TransferLog.id := i |> <| TransferLog.created_at := t |>;
  conflict := λ a b, (TransferLog.created_at a =? TransferLog.created_at b) &&
                 (TransferLog.transfer_host_id a =? TransferLog.transfer_host_id b) &&
                 (TransferLog.seq a =? TransferLog.seq b);
  row_check := λ _, true }.

#[export] Program Instance HostCredential_table : Table HostCredential.HostCredential := {
  tbl := host_credentials; set_tbl := λ m d, d <| host_credentials := m |>; tbl_name := "host_credential";
  row_id := HostCredential.id; tbl_init := λ i t r, r <| HostCredential.id := i |> <| HostCredential.created_at := t |>;
  conflict := λ a b, HostCredential.host_id a =? HostCredential.host_id b;
  row_check := λ _, true }.
