(* ===== verification/Session.v ===== *)
(** * Sessions: the SQLAlchemy session a handler runs in, and its effects

    [St] is what a request sees: the rows as its transaction sees them
    ([work]), the rows other transactions see ([committed]), the sequences, the
    clock, the concurrency slots of [core/redis_helper.py] and the log of what
    was sent to the outside (Celery, web sockets, agents, files).

    [SessionLocal] is created with [autoflush=False, expire_on_commit=False]
    (db/session.py): a handler that raises before [commit] leaves [committed]
    as it was, and sequences are never rolled back. *)

From S2P Require Import Prelude.
From S2P Require Import Models.

(** What a handler does outside the database, in order. *)
Inductive Effect :=
  | EDelay (task : string) (arg : Z)                 (* celery_task.delay(arg) *)
  | EStartDriver (run_id : Z)                        (* workflow_engine.start_driver *)
  | EBroadcast (topic : string) (key : Z) (data : json)
  | EAgentFrame (agent : string) (frame : json)
  | EFileWrite (path : string) (size : Z)
  | EPost (url payload : json)                       (* httpx.post(url, json=payload) *)
  | ERemoveTree (path : string)                      (* shutil.rmtree(path) *)
  | EStartStream (transfer_host_id item_id offset : Z). (* the thread of AgentChannel.push *)

Record St := mkSt {
  work : Db;
  committed : Db;
  seqs : gmap string Z;
  now : Z;                      (* datetime.now(timezone.utc), microseconds *)
  today : Z * Z * Z;            (* date.today(): year, month, day *)
  slots : gmap string Z;        (* counters of acquire/release_semaphore *)
  out : list Effect;
}.
#[export] Instance eta_St : Eta St := λ s,
  mkSt (work s) (committed s) (seqs s) (now s) (today s) (slots s) (out s).

(** A handler: raises or returns, in [St]. *)
Abbreviation Op A := (M St A).

(** [datetime.now(timezone.utc)] *)
Definition utc_now : Op Z := gets now.
Definition emit_out (e : Effect) : Op () := modify (λ s, s <| out := out s ++ [e] |>).

(** [db.execute(text("SELECT nextval('<name>')")).scalar()] *)
Definition next_value (name : string) (s : St) : Z := default 0 (seqs s !! name) + 1.
Definition nextval (name : string) : Op Z := λ s,
  let n := next_value name s in
  (inr n, s <| seqs := <[name := n]> (seqs s) |>).

(** [date.today().strftime("%Y%m%d")] *)
Definition date_prefix (d : Z * Z * Z) : string :=
  match d with (y, m, dd) => zpad 4 y +:+ zpad 2 m +:+ zpad 2 dd end.

(** ** Rows of a table, in primary-key order *)

Definition key_le {R} (a b : Z * R) : Prop := a.1 ≤ b.1.
#[export] Instance key_le_dec {R} : RelDecision (key_le (R:=R)).
Proof. intros a b. unfold key_le. apply _. Defined.
Definition rows {R} (m : gmap Z R) : list R :=
  (merge_sort key_le (map_to_list m)).*2.

Definition select_rows {R} (p : R → bool) (m : gmap Z R) : list R :=
  filter (λ r, p r = true) (rows m).

Lemma elem_of_rows {R} (m : gmap Z R) r : r ∈ rows m ↔ ∃ i, m !! i = Some r.
Proof.
  unfold rows. rewrite list_elem_of_fmap. split.
  - intros ([i r'] & -> & Hin). exists i.
    rewrite merge_sort_Permutation in Hin. by apply elem_of_map_to_list.
  - intros [i Hi]. exists (i, r). split; [done|].
    rewrite merge_sort_Permutation. by apply elem_of_map_to_list.
Qed.

Lemma elem_of_select_rows {R} p (m : gmap Z R) r :
  r ∈ select_rows p m ↔ p r = true ∧ ∃ i, m !! i = Some r.
Proof. unfold select_rows. by rewrite list_elem_of_filter, elem_of_rows. Qed.

Lemma select_rows_and {R} (p q : R → bool) (m : gmap Z R) :
  select_rows (λ r, p r && q r) m = filter (λ r, q r = true) (select_rows p m).
Proof.
  unfold select_rows. rewrite list_filter_filter. apply list_filter_iff.
  intros r. rewrite andb_true_iff. tauto.
Qed.

Lemma length_rows {R} (m : gmap Z R) : length (rows m) = size m.
Proof.
  unfold rows. rewrite length_fmap, merge_sort_Permutation.
  by rewrite length_map_to_list.
Qed.

Lemma rows_insert_new {R} (m : gmap Z R) i r : m !! i = None → rows (<[i := r]> m) ≡ₚ r :: rows m.
Proof.
  intros Hi. unfold rows. rewrite !merge_sort_Permutation, map_to_list_insert by done.
  reflexivity.
Qed.
(** Sorting a sorted list of pairwise distinct keys, and the place of a row
    with the largest id. *)
Lemma merge_sort_sorted {A} (R : relation A) `{!RelDecision R, !Transitive R, !Total R} (l : list A) :
  (∀ x y, x ∈ l → y ∈ l → R x y → R y x → x = y) → StronglySorted R l → merge_sort R l = l.
Proof.
  intros Ha Hl. apply (StronglySorted_unique_strong R). 2: apply StronglySorted_merge_sort; apply _.
  - intros x y. rewrite merge_sort_Permutation. apply Ha.
  - done.
  - apply merge_sort_Permutation.
Qed.

#[local] Instance key_le_trans {R} : Transitive (key_le (R:=R)).
Proof. intros ???. unfold key_le. lia. Qed.
#[local] Instance key_le_total {R} : Total (key_le (R:=R)).
Proof. intros ??. unfold key_le. lia. Qed.

Lemma rows_insert_last {R} (m : gmap Z R) i r :
  (∀ j x, m !! j = Some x → j < i) → rows (<[i := r]> m) = rows m ++ [r].
Proof.
  intros Hlt. assert (m !! i = None) as Hi.
  { destruct (m !! i) as [x|] eqn:E; [|done]. specialize (Hlt i x E). lia. }
  unfold rows. rewrite <-(fmap_app snd _ [(i, r)]). f_equal.
  apply (StronglySorted_unique_strong key_le). 2: apply StronglySorted_merge_sort; apply _.
  - intros [j x] [k y] Hx Hy Hjk Hkj. unfold key_le in *. cbn in *. assert (j = k) as -> by lia.
    rewrite merge_sort_Permutation in Hx. apply elem_of_map_to_list in Hx.
    apply elem_of_app in Hy as [Hy|Hy%list_elem_of_singleton].
    + rewrite merge_sort_Permutation in Hy. apply elem_of_map_to_list in Hy.
      pose proof (Hlt k y Hy). rewrite lookup_insert_ne in Hx by lia. congruence.
    + simplify_eq. rewrite lookup_insert_eq in Hx. congruence.
  - apply StronglySorted_app_2; [|apply StronglySorted_merge_sort; apply _|by repeat constructor].
    intros [j x] y Hx ->%list_elem_of_singleton. rewrite merge_sort_Permutation in Hx.
    apply elem_of_map_to_list in Hx. specialize (Hlt j x Hx). unfold key_le. cbn. lia.
  - rewrite !merge_sort_Permutation, map_to_list_insert by done. apply Permutation_cons_append.
Qed.
Lemma count_insert_new {R} (p : R → bool) (m : gmap Z R) i r :
  m !! i = None →
  Z.of_nat (length (select_rows p (<[i := r]> m))) =
    Z.of_nat (length (select_rows p m)) + (if p r then 1 else 0).
Proof.
  intros Hi. unfold select_rows. rewrite (rows_insert_new m i r Hi), filter_cons.
  destruct (decide (p r = true)) as [->|Hn]; [cbn; lia|].
  apply not_true_is_false in Hn as ->. lia.
Qed.

Lemma head_select_unique {R} (p : R → bool) (m : gmap Z R) r :
  (∃ i, m !! i = Some r) → p r = true →
  (∀ i r', m !! i = Some r' → p r' = true → r' = r) →
  head (select_rows p m) = Some r.
Proof.
  intros Hi Hp Hu. destruct (select_rows p m) as [|r' l] eqn:E.
  - exfalso. apply (not_elem_of_nil r). rewrite <-E. by apply elem_of_select_rows.
  - assert (r' ∈ select_rows p m) as [Hp' [j Hj]]%elem_of_select_rows.
    { rewrite E. apply elem_of_cons. by left. }
    cbn. f_equal. eauto.
Qed.

Lemma head_select_Some {R} (p : R → bool) (m : gmap Z R) r :
  head (select_rows p m) = Some r → p r = true ∧ ∃ i, m !! i = Some r.
Proof.
  intros Hh. apply elem_of_select_rows. destruct (select_rows p m); [done|].
  simplify_eq/=. apply elem_of_cons. by left.
Qed.
Lemma head_select_None {R} (p : R → bool) (m : gmap Z R) i r :
  head (select_rows p m) = None → m !! i = Some r → p r = false.
Proof.
  intros Hh Hi. apply not_true_iff_false. intros Hp.
  assert (r ∈ select_rows p m) as Hin by (apply elem_of_select_rows; eauto).
  destruct (select_rows p m); [by apply elem_of_nil in Hin|done].
Qed.
Lemma head_select_is_Some {R} (p : R → bool) (m : gmap Z R) :
  is_Some (head (select_rows p m)) ↔ ∃ i r, m !! i = Some r ∧ p r = true.
Proof.
  split.
  - intros [r (Hp & i & Hi)%head_select_Some]. eauto.
  - intros (i & r & Hi & Hp). destruct (head (select_rows p m)) eqn:E; [done|].
    by rewrite (head_select_None p m i r E Hi) in Hp.
Qed.

(** ** The session's primitives *)

Section primitives.
Context {R : Type} `{Table R}.

(** [db.get(R, i)] *)
Definition db_get (i : Z) : Op (option R) := gets (λ s, tbl (work s) !! i).
(** [db.scalars(select(R).where(p).order_by(R.id)).all()] *)
Definition db_select (p : R → bool) : Op (list R) :=
  gets (λ s, select_rows p (tbl (work s))).
(** [db.scalar(select(R).where(p))] *)
Definition db_find (p : R → bool) : Op (option R) :=
  gets (λ s, head (select_rows p (tbl (work s)))).
(** [db.scalar(select(func.count()).where(p))] *)
Definition db_count (p : R → bool) : Op Z :=
  gets (λ s, Z.of_nat (length (select_rows p (tbl (work s))))).

(** The database accepts row [r] under primary key [i]: the CHECK holds, the
    key is free and no other row collides on a UNIQUE constraint. *)
Definition accepts (m : gmap Z R) (i : Z) (r : R) : bool :=
  row_check r && bool_decide (m !! i = None) &&
  negb (existsb (conflict r) (rows m)).

Definition put_row (i : Z) (r : R) (s : St) : St :=
  s <| work := set_tbl (<[i := r]> (tbl (work s))) (work s) |>.

(** [db.add(r); db.flush()]: INSERT with the next id of the sequence. *)
Definition db_add (r : R) : Op R := λ s,
  let i := next_value tbl_name s in
  let s1 := s <| seqs := <[tbl_name := i]> (seqs s) |> in
  let r' := tbl_init i (now s) r in
  if accepts (tbl (work s)) i r' then (inr r', put_row i r' s1)
  else (inl (IntegrityError tbl_name), s1).

(** The flush of attribute assignments to the object with id [i]: UPDATE of
    the dirty columns (none of them in a UNIQUE constraint). *)
Definition db_upd (i : Z) (f : R → R) : Op () := modify (λ s,
  match tbl (work s) !! i with
  | Some r => put_row i (f r) s
  | None => s
  end).
(** [UPDATE ... WHERE id = i AND p]: whether one row matched. *)
Definition db_cas (i : Z) (p : R → bool) (f : R → R) : Op bool := λ s,
  match tbl (work s) !! i with
  | Some r => if p r then (inr true, put_row i (f r) s) else (inr false, s)
  | None => (inr false, s)
  end.
(** UPDATE of columns that a UNIQUE constraint covers. *)
Definition db_upd_checked (i : Z) (f : R → R) : Op () := λ s,
  match tbl (work s) !! i with
  | Some r =>
      if row_check (f r) && negb (existsb (conflict (f r)) (rows (delete i (tbl (work s)))))
      then (inr (), put_row i (f r) s) else (inl (IntegrityError tbl_name), s)
  | None => (inr (), s)
  end.
(** [UPDATE ... WHERE p] *)
Definition db_upd_where (p : R → bool) (f : R → R) : Op () := modify (λ s,
  s <| work := set_tbl ((λ r, if p r then f r else r) <$> tbl (work s)) (work s) |>).
(** [db.delete(obj)] *)
Definition db_delete (i : Z) : Op () := modify (λ s,
  s <| work := set_tbl (delete i (tbl (work s))) (work s) |>).
(** [DELETE ... WHERE p] *)
Definition db_delete_where (p : R → bool) : Op () := modify (λ s,
  s <| work := set_tbl (filter (λ kv, p kv.2 = false) (tbl (work s))) (work s) |>).
End primitives.

#[global] Arguments put_row : simpl never.

(** [db.commit()] and [db.rollback()] *)
Definition db_commit : Op () := modify (λ s, s <| committed := work s |>).
Definition db_rollback : Op () := modify (λ s, s <| work := committed s |>).

(** [db.add(row)] of a row that is not flushed yet, [db.flush()], which inserts
    such rows, and [db.commit()], which flushes first. Where a handler flushes
    every row it adds, [db_add] and [db_commit] say the same. *)
Definition db_add_later (u : Unflushed) : Op () := modify (λ s,
  s <| work := work s <| unflushed := unflushed (work s) ++ [u] |> |>).
Definition insert_new (u : Unflushed) : Op () :=
  match u with
  | NewEvent r => _ ← db_add r; ret ()
  | NewSample r => _ ← db_add r; ret ()
  | NewDaily r => _ ← db_add r; ret ()
  | NewTransferLog r => _ ← db_add r; ret ()
  | NewUserRole r => _ ← db_add r; ret ()
  | NewRolePermission r => _ ← db_add r; ret ()
  | NewRoleHostGroup r => _ ← db_add r; ret ()
  | NewPermission r => _ ← db_add r; ret ()
  | NewHost r => _ ← db_add r; ret ()
  end.
Definition db_flush : Op () :=
  l ← gets (λ s, unflushed (work s));
  modify (λ s, s <| work := work s <| unflushed := [] |> |>);;
  for_each l insert_new.
Definition flush_commit : Op () := db_flush;; db_commit.

(** A request (db/session.py [get_db]): the session is closed when the handler
    ends, which discards what it did not commit. *)
Definition run_request {A} (m : Op A) : Op A := λ s,
  match m s with (r, s') => (r, s' <| work := committed s' |>) end.

(** ** Well-formed tables

    Primary keys are the map's keys and were drawn from the sequence, and no
    two rows collide on a UNIQUE constraint. *)

Record wf_rows {R} `{Table R} (m : gmap Z R) (hi : Z) : Prop := {
  wf_id : ∀ i r, m !! i = Some r → row_id r = i;
  wf_seq : ∀ i r, m !! i = Some r → i ≤ hi;
  wf_unique : ∀ i j r r', m !! i = Some r → m !! j = Some r' → i ≠ j →
    conflict r r' = false ∨ conflict r' r = false;
}.
#[global] Arguments wf_id {R _ m hi} _.
#[global] Arguments wf_seq {R _ m hi} _.
#[global] Arguments wf_unique {R _ m hi} _.

Definition wf_table (R : Type) `{Table R} (s : St) : Prop :=
  let hi := default 0 (seqs s !! tbl_name) in
  wf_rows (tbl (R:=R) (work s)) hi ∧ wf_rows (tbl (R:=R) (committed s)) hi.

Section table_lemmas.
Context {R : Type} `{Table R}.

Lemma wf_rows_empty hi : wf_rows (∅ : gmap Z R) hi.
Proof. by split; intros *; rewrite lookup_empty. Qed.

Lemma wf_rows_mono (m : gmap Z R) hi hi' : hi ≤ hi' → wf_rows m hi → wf_rows m hi'.
Proof.
  intros Hle Hwf. split; [exact (wf_id Hwf)| |exact (wf_unique Hwf)].
  intros i r Hi. pose proof (wf_seq Hwf i r Hi). lia.
Qed.

Lemma accepts_spec (m : gmap Z R) i r :
  accepts m i r = true ↔
  row_check r = true ∧ m !! i = None ∧ ∀ j r', m !! j = Some r' → conflict r r' = false.
Proof.
  unfold accepts. rewrite !andb_true_iff, bool_decide_eq_true, negb_true_iff.
  rewrite <-not_true_iff_false, existsb_exists.
  split.
  - intros [[Hc Hn] Hu]. split_and!; [done..|]. intros j r' Hj.
    apply not_true_iff_false. intros Ht. apply Hu. exists r'. split; [|done].
    apply list_elem_of_In, elem_of_rows. eauto.
  - intros (Hc & Hn & Hu). split_and!; [done..|]. intros (r' & Hin & Ht).
    apply list_elem_of_In, elem_of_rows in Hin as [j Hj]. by rewrite (Hu j r' Hj) in Ht.
Qed.

Lemma accepts_none (m : gmap Z R) i r : accepts m i r = true → m !! i = None.
Proof. by intros (_ & ? & _)%accepts_spec. Qed.

Lemma wf_rows_insert_new (m : gmap Z R) hi i r :
  wf_rows m hi → row_id r = i → hi ≤ i → accepts m i r = true →
  wf_rows (<[i := r]> m) i.
Proof.
  intros Hwf Hid Hhi (_ & Hnone & Hconf)%accepts_spec. split.
  - intros j r' [[<- <-]|[Hne Hj]]%lookup_insert_Some; [done|]. by eapply wf_id.
  - intros j r' [[<- <-]|[Hne Hj]]%lookup_insert_Some; [lia|].
    pose proof (wf_seq Hwf j r' Hj). lia.
  - intros j k r1 r2 [[<- <-]|[Hj1 Hj]]%lookup_insert_Some
      [[<- <-]|[Hk1 Hk]]%lookup_insert_Some Hne; [done|eauto..|]. by eapply wf_unique.
Qed.

Lemma wf_rows_update (m : gmap Z R) hi i r r' :
  wf_rows m hi → m !! i = Some r → row_id r' = row_id r →
  (∀ x, conflict r' x = conflict r x) → (∀ x, conflict x r' = conflict x r) →
  wf_rows (<[i := r']> m) hi.
Proof.
  intros Hwf Hi Hid Hl Hr. split.
  - intros j x [[<- <-]|[Hne Hj]]%lookup_insert_Some; [|by eapply wf_id].
    rewrite Hid. by eapply wf_id.
  - intros j x [[<- <-]|[Hne Hj]]%lookup_insert_Some; by eapply wf_seq.
  - intros j k r1 r2 [[<- <-]|[Hj1 Hj]]%lookup_insert_Some
      [[<- <-]|[Hk1 Hk]]%lookup_insert_Some Hne; [done| | |by eapply wf_unique].
    + rewrite Hl, Hr. by eapply wf_unique.
    + rewrite Hl, Hr. by eapply wf_unique.
Qed.

Lemma wf_rows_delete (m : gmap Z R) hi i : wf_rows m hi → wf_rows (delete i m) hi.
Proof.
  intros Hwf. split.
  - intros j x [_ Hj]%lookup_delete_Some. by eapply wf_id.
  - intros j x [_ Hj]%lookup_delete_Some. by eapply wf_seq.
  - intros j k r1 r2 [_ Hj]%lookup_delete_Some [_ Hk]%lookup_delete_Some.
    by eapply wf_unique.
Qed.
End table_lemmas.

(** ** Invariants across the primitives *)

Lemma tbl_put_row {R} `{Table R} i (r : R) s :
  tbl (work (put_row i r s)) = <[i := r]> (tbl (work s)).
Proof. apply tbl_set_tbl. Qed.

Lemma tbl_put_row_ne {R R'} `{TableNe R R'} i (r : R') s :
  tbl (R:=R) (work (put_row i r s)) = tbl (R:=R) (work s).
Proof. unfold put_row. cbn. apply tbl_set_ne. Qed.

(** What an INSERT that went through did. *)
Lemma db_add_inr {R} `{Table R} (r r' : R) s s' :
  db_add r s = (inr r', s') →
  let n := next_value (tbl_name (R:=R)) s in
  r' = tbl_init n (now s) r ∧ accepts (tbl (work s)) n r' = true ∧
  s' = put_row n r' (s <| seqs := <[tbl_name (R:=R) := n]> (seqs s) |>).
Proof.
  unfold db_add. cbv zeta. destruct (accepts _ _ _) eqn:E; [|done].
  intros [= <- <-]. done.
Qed.

Section preserves_primitives.
Context (I : St → Prop).

Lemma preserves_db_add {R} `{Table R} (r : R) :
  (∀ s n, I s → n = next_value tbl_name s →
     I (s <| seqs := <[tbl_name := n]> (seqs s) |>)) →
  (∀ s n, I s → n = next_value tbl_name s →
     accepts (tbl (work s)) n (tbl_init n (now s) r) = true →
     I (put_row n (tbl_init n (now s) r) (s <| seqs := <[tbl_name := n]> (seqs s) |>))) →
  preserves I (db_add r).
Proof.
  intros Hs Ha s HI. unfold db_add. cbn zeta.
  destruct (accepts _ _ _) eqn:E; cbn; eauto.
Qed.

Lemma preserves_db_upd {R} `{Table R} i (f : R → R) :
  (∀ s r, I s → tbl (work s) !! i = Some r → I (put_row i (f r) s)) →
  preserves I (db_upd i f).
Proof.
  intros Hu. apply preserves_modify. intros s Hs.
  destruct (tbl (work s) !! i) eqn:E; eauto.
Qed.

Lemma preserves_db_cas {R} `{Table R} i p (f : R → R) :
  (∀ s r, I s → tbl (work s) !! i = Some r → p r = true → I (put_row i (f r) s)) →
  preserves I (db_cas i p f).
Proof.
  intros Hu s Hs. unfold db_cas. destruct (tbl (work s) !! i) as [r|] eqn:E; [|done].
  destruct (p r) eqn:Ep; cbn; eauto.
Qed.

Lemma preserves_db_commit : (∀ s, I s → I (s <| committed := work s |>)) → preserves I db_commit.
Proof. apply preserves_modify. Qed.

Lemma preserves_nextval name :
  (∀ s n, I s → n = next_value name s → I (s <| seqs := <[name := n]> (seqs s) |>)) →
  preserves I (nextval name).
Proof. intros H s Hs. apply H; auto. Qed.

Lemma preserves_emit_out e : (∀ s, I s → I (s <| out := out s ++ [e] |>)) → preserves I (emit_out e).
Proof. apply preserves_modify. Qed.

Lemma preserves_db_get {R} `{Table R} i : preserves I (db_get (R:=R) i).
Proof. apply preserves_gets. Qed.
Lemma preserves_db_select {R} `{Table R} p : preserves I (db_select (R:=R) p).
Proof. apply preserves_gets. Qed.
Lemma preserves_db_find {R} `{Table R} p : preserves I (db_find (R:=R) p).
Proof. apply preserves_gets. Qed.
Lemma preserves_db_count {R} `{Table R} p : preserves I (db_count (R:=R) p).
Proof. apply preserves_gets. Qed.
Lemma preserves_utc_now : preserves I utc_now.
Proof. apply preserves_gets. Qed.
Lemma preserves_run_request {A} (m : Op A) :
  preserves I m → (∀ s, I s → I (s <| work := committed s |>)) → preserves I (run_request m).
Proof.
  intros Hm Hc s Hs. unfold run_request. specialize (Hm s Hs).
  destruct (m s) as [r s']. by apply Hc.
Qed.
End preserves_primitives.
#[export] Hint Resolve preserves_db_get preserves_db_select preserves_db_find
  preserves_db_count preserves_utc_now : preserves.

(** An UPDATE that leaves the primary key and the UNIQUE columns alone. *)
Definition keeps_keys {R} `{Table R} (f : R → R) : Prop :=
  ∀ r, row_id (f r) = row_id r ∧
       (∀ x, conflict (f r) x = conflict r x) ∧ (∀ x, conflict x (f r) = conflict x r).

Section preserves_wf.
Context {R : Type} `{Table R}.

Lemma wf_rows_fmap (f : R → R) (m : gmap Z R) hi :
  keeps_keys f → wf_rows m hi → wf_rows (f <$> m) hi.
Proof.
  intros Hf Hwf. split.
  - intros i r (r0 & <- & Hi)%lookup_fmap_Some. rewrite (proj1 (Hf r0)). by eapply wf_id.
  - intros i r (r0 & <- & Hi)%lookup_fmap_Some. by eapply wf_seq.
  - intros i j r r' (r0 & <- & Hi)%lookup_fmap_Some (r1 & <- & Hj)%lookup_fmap_Some Hne.
    destruct (Hf r0) as (_ & L0 & R0), (Hf r1) as (_ & L1 & R1).
    rewrite L0, R1, L1, R0. by eapply wf_unique.
Qed.

Lemma wf_table_put_ne {R'} `{!Table R', !TableNe R R'} i (r : R') s :
  wf_table R s → wf_table R (put_row i r s).
Proof. unfold wf_table. by rewrite tbl_put_row_ne. Qed.

Lemma wf_table_seq name n s :
  wf_table R s → n = next_value name s →
  wf_table R (s <| seqs := <[name := n]> (seqs s) |>).
Proof.
  unfold wf_table, next_value. intros [H1 H2] ->. cbn.
  destruct (decide (name = tbl_name (R:=R))) as [->|Hne].
  - rewrite lookup_insert_eq. split; (eapply wf_rows_mono; [|eassumption]); cbn; lia.
  - by rewrite lookup_insert_ne.
Qed.

Lemma wf_preserves_add (r : R) : preserves (wf_table R) (db_add r).
Proof.
  apply preserves_db_add; [intros; by apply wf_table_seq|].
  intros s n Hwf Hn Hacc. pose proof (wf_table_seq tbl_name n s Hwf Hn) as [_ Hc].
  destruct Hwf as [Hw _]. split; [|exact Hc].
  rewrite tbl_put_row. unfold put_row. cbn. rewrite lookup_insert_eq. cbn.
  eapply wf_rows_insert_new; [exact Hw|apply row_id_init| |done].
  unfold next_value in Hn. lia.
Qed.

Lemma wf_preserves_add_ne {R'} `{!Table R', !TableNe R R'} (r : R') :
  preserves (wf_table R) (db_add r).
Proof.
  apply preserves_db_add; [intros; by apply wf_table_seq|].
  intros s n Hwf Hn _. by apply wf_table_put_ne, wf_table_seq.
Qed.

Lemma wf_table_put s i (f : R → R) r :
  keeps_keys f → wf_table R s → tbl (work s) !! i = Some r → wf_table R (put_row i (f r) s).
Proof.
  intros Hf [Hw Hc] Hi. split; [|exact Hc]. rewrite tbl_put_row.
  destruct (Hf r) as (? & ? & ?). by eapply wf_rows_update.
Qed.

Lemma wf_preserves_upd i (f : R → R) : keeps_keys f → preserves (wf_table R) (db_upd i f).
Proof. intros Hf. apply preserves_db_upd. intros. by apply wf_table_put. Qed.
Lemma wf_preserves_upd_ne {R'} `{!Table R', !TableNe R R'} i (f : R' → R') :
  preserves (wf_table R) (db_upd i f).
Proof. apply preserves_db_upd. intros. by apply wf_table_put_ne. Qed.
Lemma wf_preserves_cas i p (f : R → R) : keeps_keys f → preserves (wf_table R) (db_cas i p f).
Proof. intros Hf. apply preserves_db_cas. intros. by apply wf_table_put. Qed.
Lemma wf_preserves_cas_ne {R'} `{!Table R', !TableNe R R'} i p (f : R' → R') :
  preserves (wf_table R) (db_cas i p f).
Proof. apply preserves_db_cas. intros. by apply wf_table_put_ne. Qed.
Lemma wf_preserves_commit : preserves (wf_table R) db_commit.
Proof. apply preserves_db_commit. by intros s [? ?]. Qed.
Lemma wf_preserves_rollback : preserves (wf_table R) db_rollback.
Proof. apply preserves_modify. by intros s [? ?]. Qed.
Lemma wf_preserves_nextval name : preserves (wf_table R) (nextval name).
Proof. apply preserves_nextval. intros. by apply wf_table_seq. Qed.
Lemma wf_preserves_emit_out e : preserves (wf_table R) (emit_out e).
Proof. by apply preserves_emit_out. Qed.
Lemma wf_rows_filter (p : R → bool) (m : gmap Z R) hi :
  wf_rows m hi → wf_rows (filter (λ kv, p kv.2 = false) m) hi.
Proof.
  intros Hwf. split.
  - intros i r [Hi _]%map_lookup_filter_Some. by eapply wf_id.
  - intros i r [Hi _]%map_lookup_filter_Some. by eapply wf_seq.
  - intros i j r r' [Hi _]%map_lookup_filter_Some [Hj _]%map_lookup_filter_Some. by eapply wf_unique.
Qed.
Lemma wf_preserves_delete i : preserves (wf_table R) (db_delete (R:=R) i).
Proof.
  apply preserves_modify. intros s [Hw Hc]. split; [|exact Hc]. cbn. rewrite tbl_set_tbl. by apply wf_rows_delete.
Qed.
Lemma wf_preserves_delete_ne {R'} `{!Table R', !TableNe R R'} i : preserves (wf_table R) (db_delete (R:=R') i).
Proof. apply preserves_modify. intros s [Hw Hc]. split; [|exact Hc]. cbn. by rewrite tbl_set_ne. Qed.
Lemma wf_preserves_delete_where (p : R → bool) : preserves (wf_table R) (db_delete_where p).
Proof.
  apply preserves_modify. intros s [Hw Hc]. split; [|exact Hc]. cbn. rewrite tbl_set_tbl. by apply wf_rows_filter.
Qed.
Lemma wf_preserves_delete_where_ne {R'} `{!Table R', !TableNe R R'} (p : R' → bool) :
  preserves (wf_table R) (db_delete_where p).
Proof. apply preserves_modify. intros s [Hw Hc]. split; [|exact Hc]. cbn. by rewrite tbl_set_ne. Qed.
Lemma wf_preserves_run_request {A} (m : Op A) :
  preserves (wf_table R) m → preserves (wf_table R) (run_request m).
Proof. intros. apply preserves_run_request; [done|]. by intros s [? ?]. Qed.
End preserves_wf.
#[export] Hint Resolve wf_preserves_add wf_preserves_commit wf_preserves_rollback wf_preserves_nextval
  wf_preserves_emit_out wf_preserves_run_request wf_preserves_delete wf_preserves_delete_where : preserves.
#[export] Hint Extern 1 (preserves (@wf_table _ _) (@db_delete _ _ _)) =>
  (apply wf_preserves_delete_ne; typeclasses eauto) : preserves.
#[export] Hint Extern 1 (preserves (@wf_table _ _) (@db_delete_where _ _ _)) =>
  (apply wf_preserves_delete_where_ne; typeclasses eauto) : preserves.
#[export] Hint Extern 1 (preserves (@wf_table _ _) (@db_add _ _ _)) => (apply wf_preserves_add_ne; typeclasses eauto) : preserves.
#[export] Hint Extern 1 (preserves (@wf_table _ _) (@db_upd _ _ _ _)) => (apply wf_preserves_upd_ne; typeclasses eauto) : preserves.
#[export] Hint Extern 1 (preserves (@wf_table _ _) (@db_cas _ _ _ _ _)) => (apply wf_preserves_cas_ne; typeclasses eauto) : preserves.
#[export] Hint Extern 2 (preserves (@wf_table _ _) (@db_upd _ _ _ _)) =>
  (apply wf_preserves_upd; intros ?; split_and!; reflexivity) : preserves.
#[export] Hint Extern 2 (preserves (@wf_table _ _) (@db_cas _ _ _ _ _)) =>
  (apply wf_preserves_cas; intros ?; split_and!; reflexivity) : preserves.

(** ** Frames: the parts of the state a piece of code does not write *)

Definition frame {R : Type} `{Table R} (m : gmap Z R) (c : Db) (s : St) : Prop :=
  tbl (work s) = m ∧ committed s = c.

Section frame.
Context {R : Type} `{Table R} (m : gmap Z R) (c : Db).

Lemma frame_add_ne {R'} `{!Table R', !TableNe R R'} (r : R') : preserves (frame m c) (db_add r).
Proof.
  apply preserves_db_add; [by intros s n [? ?]|].
  intros s n [? ?] _ _. split; [|done]. by rewrite tbl_put_row_ne.
Qed.
Lemma frame_upd_ne {R'} `{!Table R', !TableNe R R'} i (f : R' → R') : preserves (frame m c) (db_upd i f).
Proof. apply preserves_db_upd. intros s r [? ?] _. split; [|done]. by rewrite tbl_put_row_ne. Qed.
Lemma frame_cas_ne {R'} `{!Table R', !TableNe R R'} i p (f : R' → R') : preserves (frame m c) (db_cas i p f).
Proof. apply preserves_db_cas. intros s r [? ?] _ _. split; [|done]. by rewrite tbl_put_row_ne. Qed.
Lemma frame_nextval name : preserves (frame m c) (nextval name).
Proof. by apply preserves_nextval. Qed.
Lemma frame_emit_out e : preserves (frame m c) (emit_out e).
Proof. by apply preserves_emit_out. Qed.

Lemma wp_frame {A} (op : Op A) Q s :
  preserves (frame m c) op → frame m c s → (∀ r s', frame m c s' → Q r s') → wp op Q s.
Proof. intros Hp Hs HQ. unfold wp. apply HQ. by apply Hp. Qed.
End frame.
#[export] Hint Resolve frame_nextval frame_emit_out : preserves.
#[export] Hint Extern 1 (preserves (@frame _ _ _ _) (@db_add _ _ _)) => (apply frame_add_ne; typeclasses eauto) : preserves.
#[export] Hint Extern 1 (preserves (@frame _ _ _ _) (@db_upd _ _ _ _)) => (apply frame_upd_ne; typeclasses eauto) : preserves.
#[export] Hint Extern 1 (preserves (@frame _ _ _ _) (@db_cas _ _ _ _ _)) => (apply frame_cas_ne; typeclasses eauto) : preserves.

(** Table [R] is never written, committed or not. *)
Definition still {R : Type} `{Table R} (m : gmap Z R) (s : St) : Prop :=
  tbl (work s) = m ∧ tbl (committed s) = m.

Section still.
Context {R : Type} `{Table R} (m : gmap Z R).

Lemma still_add_ne {R'} `{!Table R', !TableNe R R'} (r : R') : preserves (still m) (db_add r).
Proof.
  apply preserves_db_add; [by intros s n [? ?]|].
  intros s n [? ?] _ _. split; [|done]. by rewrite tbl_put_row_ne.
Qed.
Lemma still_upd_ne {R'} `{!Table R', !TableNe R R'} i (f : R' → R') : preserves (still m) (db_upd i f).
Proof. apply preserves_db_upd. intros s r [? ?] _. split; [|done]. by rewrite tbl_put_row_ne. Qed.
Lemma still_cas_ne {R'} `{!Table R', !TableNe R R'} i p (f : R' → R') : preserves (still m) (db_cas i p f).
Proof. apply preserves_db_cas. intros s r [? ?] _ _. split; [|done]. by rewrite tbl_put_row_ne. Qed.
Lemma still_nextval name : preserves (still m) (nextval name).
Proof. by apply preserves_nextval. Qed.
Lemma still_emit_out e : preserves (still m) (emit_out e).
Proof. by apply preserves_emit_out. Qed.
Lemma still_commit : preserves (still m) db_commit.
Proof. apply preserves_db_commit. by intros s [? ?]. Qed.
Lemma still_rollback : preserves (still m) db_rollback.
Proof. apply preserves_modify. by intros s [? ?]. Qed.
End still.
#[export] Hint Resolve still_nextval still_emit_out still_commit still_rollback : preserves.
#[export] Hint Extern 1 (preserves (@still _ _ _) (@db_add _ _ _)) =>
  (apply still_add_ne; typeclasses eauto) : preserves.
#[export] Hint Extern 1 (preserves (@still _ _ _) (@db_upd _ _ _ _)) =>
  (apply still_upd_ne; typeclasses eauto) : preserves.
#[export] Hint Extern 1 (preserves (@still _ _ _) (@db_cas _ _ _ _ _)) =>
  (apply still_cas_ne; typeclasses eauto) : preserves.

(** A property of table [R] that holds for the transaction and for what is
    committed. *)
Definition both {R : Type} `{Table R} (P : gmap Z R → Prop) (s : St) : Prop :=
  P (tbl (work s)) ∧ P (tbl (committed s)).

Section both.
Context {R : Type} `{Table R} (P : gmap Z R → Prop).

Lemma both_add_ne {R'} `{!Table R', !TableNe R R'} (r : R') : preserves (both P) (db_add r).
Proof.
  apply preserves_db_add; [by intros s n [? ?]|].
  intros s n [? ?] _ _. split; [|done]. by rewrite tbl_put_row_ne.
Qed.
Lemma both_upd_ne {R'} `{!Table R', !TableNe R R'} i (f : R' → R') : preserves (both P) (db_upd i f).
Proof. apply preserves_db_upd. intros s r [? ?] _. split; [|done]. by rewrite tbl_put_row_ne. Qed.
Lemma both_cas_ne {R'} `{!Table R', !TableNe R R'} i p (f : R' → R') : preserves (both P) (db_cas i p f).
Proof. apply preserves_db_cas. intros s r [? ?] _ _. split; [|done]. by rewrite tbl_put_row_ne. Qed.
Lemma both_nextval name : preserves (both P) (nextval name).
Proof. by apply preserves_nextval. Qed.
Lemma both_emit_out e : preserves (both P) (emit_out e).
Proof. by apply preserves_emit_out. Qed.
Lemma both_commit : preserves (both P) db_commit.
Proof. apply preserves_db_commit. by intros s [? ?]. Qed.
Lemma both_rollback : preserves (both P) db_rollback.
Proof. apply preserves_modify. by intros s [? ?]. Qed.
Lemma both_run_request {A} (m : Op A) : preserves (both P) m → preserves (both P) (run_request m).
Proof. intros Hm. apply preserves_run_request; [done|]. by intros s [? ?]. Qed.
Lemma both_delete_ne {R'} `{!Table R', !TableNe R R'} i : preserves (both P) (db_delete (R:=R') i).
Proof. apply preserves_modify. intros s [Hw Hc]. split; [|done]. cbn. by rewrite tbl_set_ne. Qed.
Lemma both_delete_where_ne {R'} `{!Table R', !TableNe R R'} (p : R' → bool) : preserves (both P) (db_delete_where p).
Proof. apply preserves_modify. intros s [Hw Hc]. split; [|done]. cbn. by rewrite tbl_set_ne. Qed.
Lemma both_upd_checked_ne {R'} `{!Table R', !TableNe R R'} i (f : R' → R') : preserves (both P) (db_upd_checked i f).
Proof.
  intros s [Hw Hc]. unfold db_upd_checked. destruct (tbl (work s) !! i); [|done]. destruct (_ && _); [|done].
  split; [|done]. cbn. by rewrite tbl_put_row_ne.
Qed.
End both.
#[export] Hint Resolve both_nextval both_emit_out both_commit both_rollback both_run_request : preserves.
#[export] Hint Extern 1 (preserves (@both _ _ _) (@db_add _ _ _)) =>
  (apply both_add_ne; typeclasses eauto) : preserves.
#[export] Hint Extern 1 (preserves (@both _ _ _) (@db_delete _ _ _)) =>
  (apply both_delete_ne; typeclasses eauto) : preserves.
#[export] Hint Extern 1 (preserves (@both _ _ _) (@db_delete_where _ _ _)) =>
  (apply both_delete_where_ne; typeclasses eauto) : preserves.
#[export] Hint Extern 1 (preserves (@both _ _ _) (@db_upd_checked _ _ _ _)) =>
  (apply both_upd_checked_ne; typeclasses eauto) : preserves.
#[export] Hint Extern 1 (preserves (@both _ _ _) (@db_upd _ _ _ _)) =>
  (apply both_upd_ne; typeclasses eauto) : preserves.
#[export] Hint Extern 1 (preserves (@both _ _ _) (@db_cas _ _ _ _ _)) =>
  (apply both_cas_ne; typeclasses eauto) : preserves.

(** Table [R] is not written by the transaction; what is committed of it
    satisfies [P], which [m] does. *)
Definition held {R : Type} `{Table R} (m : gmap Z R) (P : gmap Z R → Prop) (s : St) : Prop :=
  tbl (work s) = m ∧ P (tbl (committed s)) ∧ P m.

Section held.
Context {R : Type} `{Table R} (m : gmap Z R) (P : gmap Z R → Prop).

Lemma held_add_ne {R'} `{!Table R', !TableNe R R'} (r : R') : preserves (held m P) (db_add r).
Proof.
  apply preserves_db_add; [by intros s n (? & ? & ?)|].
  intros s n (? & ? & ?) _ _. split; [|done]. by rewrite tbl_put_row_ne.
Qed.
Lemma held_upd_ne {R'} `{!Table R', !TableNe R R'} i (f : R' → R') : preserves (held m P) (db_upd i f).
Proof. apply preserves_db_upd. intros s r (? & ? & ?) _. split; [|done]. by rewrite tbl_put_row_ne. Qed.
Lemma held_cas_ne {R'} `{!Table R', !TableNe R R'} i p (f : R' → R') : preserves (held m P) (db_cas i p f).
Proof. apply preserves_db_cas. intros s r (? & ? & ?) _ _. split; [|done]. by rewrite tbl_put_row_ne. Qed.
Lemma held_nextval name : preserves (held m P) (nextval name).
Proof. by apply preserves_nextval. Qed.
Lemma held_emit_out e : preserves (held m P) (emit_out e).
Proof. by apply preserves_emit_out. Qed.
Lemma held_commit : preserves (held m P) db_commit.
Proof. apply preserves_db_commit. intros s (Hm & _ & HP). split_and!; [done| |done]. cbn. by rewrite Hm. Qed.
End held.
#[export] Hint Resolve held_nextval held_emit_out held_commit : preserves.
#[export] Hint Extern 1 (preserves (@held _ _ _ _) (@db_add _ _ _)) =>
  (apply held_add_ne; typeclasses eauto) : preserves.
#[export] Hint Extern 1 (preserves (@held _ _ _ _) (@db_upd _ _ _ _)) =>
  (apply held_upd_ne; typeclasses eauto) : preserves.
#[export] Hint Extern 1 (preserves (@held _ _ _ _) (@db_cas _ _ _ _ _)) =>
  (apply held_cas_ne; typeclasses eauto) : preserves.

(** Simplification of table reads after writes. *)
Section put_row.
Context {R : Type} `{Table R} (i : Z) (r : R) (s : St).
Lemma committed_put_row : committed (put_row i r s) = committed s.
Proof. done. Qed.
Lemma seqs_put_row : seqs (put_row i r s) = seqs s.
Proof. done. Qed.
Lemma now_put_row : now (put_row i r s) = now s.
Proof. done. Qed.
Lemma today_put_row : today (put_row i r s) = today s.
Proof. done. Qed.
Lemma slots_put_row : slots (put_row i r s) = slots s.
Proof. done. Qed.
Lemma out_put_row : out (put_row i r s) = out s.
Proof. done. Qed.
Lemma put_row_twice (r' : R) : put_row i r (put_row i r' s) = put_row i r s.
Proof.
  unfold put_row. destruct s. cbn. by rewrite tbl_set_tbl, set_tbl_set, insert_insert_eq.
Qed.
Lemma row_insert_eq (m : gmap Z R) : <[i := r]> m !! i = Some r.
Proof. apply lookup_insert_eq. Qed.
End put_row.
Create Rewrite HintDb rows.
#[export] Hint Rewrite @tbl_put_row @row_insert_eq @committed_put_row @seqs_put_row
  @now_put_row @today_put_row @slots_put_row @out_put_row : rows.
#[export] Hint Rewrite @tbl_put_row_ne using typeclasses eauto : rows.
Ltac st_proj := cbn [work committed seqs now today slots out] in *.
Ltac st_simpl :=
  st_proj;
  repeat (match goal with
    | |- context [@set_of St ?E ?g ?i ?v ?r] =>
        let y := eval cbv beta in (i v r) in change (@set_of St E g i v r) with y
    | H : context [@set_of St ?E ?g ?i ?v ?r] |- _ =>
        let y := eval cbv beta in (i v r) in change (@set_of St E g i v r) with y in H
    end; st_proj).
Ltac rows_simpl := st_simpl; repeat (progress (autorewrite with rows in *; st_simpl)).

(** ** The log of effects *)

(** All that was sent out since [before] satisfies [P]. *)
Definition sent (before : list Effect) (P : Effect → Prop) (s : St) : Prop :=
  ∃ new, out s = before ++ new ∧ Forall P new.

Lemma sent_refl P s : sent (out s) P s.
Proof. exists []. by rewrite app_nil_r. Qed.
Lemma sent_ext before P s s' : out s' = out s → sent before P s → sent before P s'.
Proof. unfold sent. by intros ->. Qed.
Lemma sent_db_add {R} `{Table R} before P (r : R) : preserves (sent before P) (db_add r).
Proof. apply preserves_db_add; intros; by eapply sent_ext. Qed.
Lemma sent_db_upd {R} `{Table R} before P i (f : R → R) : preserves (sent before P) (db_upd i f).
Proof. apply preserves_db_upd; intros; by eapply sent_ext. Qed.
Lemma sent_commit before P : preserves (sent before P) db_commit.
Proof. apply preserves_db_commit. done. Qed.
Lemma sent_db_cas {R} `{Table R} before P i p (f : R → R) : preserves (sent before P) (db_cas i p f).
Proof. apply preserves_db_cas; intros; by eapply sent_ext. Qed.
Lemma sent_rollback before P : preserves (sent before P) db_rollback.
Proof. by apply preserves_modify. Qed.
Lemma sent_run_request {A} before P (m : Op A) :
  preserves (sent before P) m → preserves (sent before P) (run_request m).
Proof. intros Hm. by apply preserves_run_request. Qed.
Lemma sent_emit before (P : Effect → Prop) e : P e → preserves (sent before P) (emit_out e).
Proof.
  intros He. apply preserves_modify. intros s (new & E & Hnew). exists (new ++ [e]).
  rewrite E, app_assoc. split; [done|]. apply Forall_app. split; [done|by repeat constructor].
Qed.
#[export] Hint Resolve sent_db_add sent_db_upd sent_db_cas sent_commit sent_rollback
  sent_run_request : preserves.

(** The semaphore counters are as they were. *)
Definition slots_are (sl : gmap string Z) (s : St) : Prop := slots s = sl.
Section slots_are.
Context (sl : gmap string Z).
Lemma slots_db_add {R} `{Table R} (r : R) : preserves (slots_are sl) (db_add r).
Proof. by apply preserves_db_add. Qed.
Lemma slots_db_upd {R} `{Table R} i (f : R → R) : preserves (slots_are sl) (db_upd i f).
Proof. by apply preserves_db_upd. Qed.
Lemma slots_db_cas {R} `{Table R} i p (f : R → R) : preserves (slots_are sl) (db_cas i p f).
Proof. by apply preserves_db_cas. Qed.
Lemma slots_commit : preserves (slots_are sl) db_commit.
Proof. by apply preserves_modify. Qed.
Lemma slots_rollback : preserves (slots_are sl) db_rollback.
Proof. by apply preserves_modify. Qed.
Lemma slots_emit e : preserves (slots_are sl) (emit_out e).
Proof. by apply preserves_modify. Qed.
End slots_are.
#[export] Hint Resolve slots_db_add slots_db_upd slots_db_cas slots_commit slots_rollback
  slots_emit : preserves.

(** ** Writes to one table *)

(** [s1] differs from [s] in table [R] and in sequence values only. *)
Definition only_table (R : Type) `{Table R} (s s1 : St) : Prop :=
  work s1 = set_tbl (tbl (R:=R) (work s1)) (work s) ∧
  (∀ name, name ≠ tbl_name (R:=R) → seqs s1 !! name = seqs s !! name) ∧
  committed s1 = committed s ∧ now s1 = now s ∧ today s1 = today s ∧ slots s1 = slots s ∧ out s1 = out s.

Section only_table.
Context {R : Type} `{Table R}.
Lemma only_table_refl s : only_table R s s.
Proof. split_and!; try done. by rewrite set_tbl_tbl. Qed.
Lemma only_table_trans s s1 s2 : only_table R s s1 → only_table R s1 s2 → only_table R s s2.
Proof.
  intros (W1 & S1 & E1) (W2 & S2 & E2). split; [|split].
  - rewrite W2 at 1. rewrite W1, set_tbl_set. done.
  - intros name Hn. by rewrite S2, S1.
  - destruct_and!. split_and!; congruence.
Qed.
Lemma only_table_ne {R'} `{!Table R', !TableNe R' R} s s1 :
  only_table R s s1 → tbl (R:=R') (work s1) = tbl (work s).
Proof. intros (-> & _). apply tbl_set_ne. Qed.
Lemma only_table_wf {R'} `{!Table R', !TableNe R' R} s s1 :
  only_table R s s1 → wf_table R' s → wf_table R' s1.
Proof.
  intros (W & Hs & Hc & _) [Hw Hcm]. unfold wf_table. rewrite W, Hc, tbl_set_ne, Hs; [done|].
  apply tbl_name_ne.
Qed.

Lemma only_table_put i (r : R) s n :
  only_table R s (put_row i r (s <| seqs := <[tbl_name (R:=R) := n]> (seqs s) |>)).
Proof.
  split_and!; try done.
  - rewrite tbl_put_row. done.
  - intros name Hn. rewrite seqs_put_row. cbn. by rewrite lookup_insert_ne.
Qed.
End only_table.

(** ** Deciding well-formedness of a concrete table *)

Definition wf_rowsb {R} `{Table R} (m : gmap Z R) (hi : Z) : bool :=
  let l := map_to_list m in
  forallb (λ p, (row_id p.2 =? p.1) && (p.1 <=? hi) &&
    forallb (λ q, (p.1 =? q.1) || negb (conflict p.2 q.2)) l) l.

Lemma wf_rowsb_spec {R} `{Table R} (m : gmap Z R) hi : wf_rowsb m hi = true → wf_rows m hi.
Proof.
  unfold wf_rowsb. rewrite forallb_forall. intros Hall.
  assert (Hm : ∀ i r, m !! i = Some r → In (i, r) (map_to_list m)).
  { intros i r Hi. by apply list_elem_of_In, elem_of_map_to_list. }
  split.
  - intros i r Hi. specialize (Hall _ (Hm i r Hi)). cbn in Hall. lia.
  - intros i r Hi. specialize (Hall _ (Hm i r Hi)). cbn in Hall. lia.
  - intros i j r r' Hi Hj Hne. left. specialize (Hall _ (Hm i r Hi)). cbn in Hall.
    apply andb_true_iff in Hall as [_ Hall]. rewrite forallb_forall in Hall.
    specialize (Hall _ (Hm j r' Hj)). cbn in Hall.
    apply orb_true_iff in Hall as [?|Hn]; [lia|]. by apply negb_true_iff.
Qed.

Definition wf_tableb (R : Type) `{Table R} (s : St) : bool :=
  let hi := default 0 (seqs s !! tbl_name (R:=R)) in
  wf_rowsb (tbl (R:=R) (work s)) hi && wf_rowsb (tbl (R:=R) (committed s)) hi.
Lemma wf_tableb_spec (R : Type) `{Table R} s : wf_tableb R s = true → wf_table R s.
Proof. intros [? ?]%andb_true_iff. split; by apply wf_rowsb_spec. Qed.

(** ** Updating every selected row in a loop *)

Section update_loops.
Context {R : Type} `{Table R}.

Definition upd_rows (f : R → R → R) (l : list R) (m : gmap Z R) : gmap Z R :=
  foldl (λ m r, <[row_id r := f r r]> m) m l.

Lemma upd_rows_cons f r l m : upd_rows f (r :: l) m = upd_rows f l (<[row_id r := f r r]> m).
Proof. done. Qed.

Lemma for_each_upd_run (f : R → R → R) l s :
  NoDup (row_id <$> l) → (∀ r, r ∈ l → tbl (work s) !! row_id r = Some r) →
  for_each l (λ r, db_upd (row_id r) (f r)) s =
    (inr (), s <| work := set_tbl (upd_rows f l (tbl (work s))) (work s) |>).
Proof.
  revert s. induction l as [|r l IH]; intros s Hnd Hin.
  - unfold ret. cbn. rewrite set_tbl_tbl. by destruct s.
  - rewrite fmap_cons in Hnd. apply NoDup_cons in Hnd as [Hni Hnd]. cbn.
    erewrite bind_inr.
    2: { unfold db_upd, modify. rewrite (Hin r) by apply elem_of_cons, or_introl, eq_refl. reflexivity. }
    rewrite IH; [|done|].
    + rewrite tbl_put_row. unfold put_row. destruct s. cbn. by rewrite set_tbl_set.
    + intros r' Hr'. rewrite tbl_put_row, lookup_insert_ne.
      * apply Hin, elem_of_cons. by right.
      * intros E. apply Hni. rewrite E. by apply list_elem_of_fmap_2.
Qed.

Lemma lookup_upd_rows_notin f l m i : i ∉ (row_id <$> l) → upd_rows f l m !! i = m !! i.
Proof.
  revert m. induction l as [|r l IH]; intros m Hni; [done|].
  rewrite fmap_cons, not_elem_of_cons in Hni. destruct Hni as [Hne Hni].
  rewrite upd_rows_cons, IH by done. by rewrite lookup_insert_ne.
Qed.

Lemma lookup_upd_rows_in f l m r :
  NoDup (row_id <$> l) → r ∈ l → upd_rows f l m !! row_id r = Some (f r r).
Proof.
  revert m. induction l as [|r0 l IH]; intros m Hnd Hin; [by apply elem_of_nil in Hin|].
  rewrite fmap_cons in Hnd. apply NoDup_cons in Hnd as [Hni Hnd].
  rewrite upd_rows_cons. apply elem_of_cons in Hin as [->|Hin]; [|by apply IH].
  rewrite lookup_upd_rows_notin by done. apply lookup_insert_eq.
Qed.

Lemma row_ids_rows (m : gmap Z R) hi :
  wf_rows m hi → row_id <$> rows m ≡ₚ (map_to_list m).*1.
Proof.
  intros Hwf. unfold rows. rewrite <-list_fmap_compose.
  rewrite merge_sort_Permutation. apply reflexive_eq.
  apply list_fmap_ext. intros ? [i r] Hl. cbn. eapply (wf_id Hwf).
  apply elem_of_map_to_list. eapply list_elem_of_lookup_2, Hl.
Qed.

Lemma NoDup_rows (m : gmap Z R) hi : wf_rows m hi → NoDup (row_id <$> rows m).
Proof. intros Hwf. rewrite (row_ids_rows m hi Hwf). apply NoDup_fst_map_to_list. Qed.

Lemma NoDup_select_rows p (m : gmap Z R) hi : wf_rows m hi → NoDup (row_id <$> select_rows p m).
Proof.
  intros Hwf. by eapply NoDup_fmap_filter, NoDup_rows.
Qed.

Lemma select_rows_lookup p (m : gmap Z R) hi r :
  wf_rows m hi → r ∈ select_rows p m → m !! row_id r = Some r.
Proof.
  intros Hwf [_ [i Hi]]%elem_of_select_rows. by rewrite (wf_id Hwf i r Hi).
Qed.

Lemma upd_rows_selected f p (m : gmap Z R) hi :
  wf_rows m hi → upd_rows f (select_rows p m) m = (λ r, if p r then f r r else r) <$> m.
Proof.
  intros Hwf. apply map_eq. intros i. rewrite lookup_fmap.
  destruct (decide (i ∈ row_id <$> select_rows p m)) as [Hin|Hni].
  - apply list_elem_of_fmap in Hin as (r & -> & Hr).
    rewrite lookup_upd_rows_in by eauto using NoDup_select_rows.
    rewrite (select_rows_lookup p _ hi) by done. cbn.
    by apply elem_of_select_rows in Hr as [-> _].
  - rewrite lookup_upd_rows_notin by done.
    destruct (m !! i) as [r|] eqn:E; [|done]. cbn.
    destruct (p r) eqn:Ep; [|done]. destruct Hni. apply list_elem_of_fmap. exists r.
    split; [by rewrite (wf_id Hwf i r)|]. apply elem_of_select_rows. eauto.
Qed.

(** [for r in <selected rows>: r.<columns> = ...] is an UPDATE ... WHERE. *)
Lemma for_each_selected_upd (p : R → bool) (f : R → R → R) s hi :
  wf_rows (tbl (work s)) hi →
  for_each (select_rows p (tbl (work s))) (λ r, db_upd (row_id r) (f r)) s =
    (inr (), s <| work :=
       set_tbl ((λ r, if p r then f r r else r) <$> tbl (work s)) (work s) |>).
Proof.
  intros Hwf. rewrite for_each_upd_run.
  - by rewrite (upd_rows_selected _ _ _ hi).
  - by eapply NoDup_select_rows.
  - intros r Hr. by eapply select_rows_lookup.
Qed.

(** A loop whose body rewrites its row and sends [eff r] outside: the rows and
    the frames, in order. *)
Lemma for_each_rows_run (g : R → R) (eff : R → list Effect) body l s0 s :
  NoDup (row_id <$> l) → (∀ r, r ∈ l → tbl (work s) !! row_id r = Some r) →
  (∃ m, work s = set_tbl m (work s0)) → now s = now s0 →
  (∀ r s1, r ∈ l → tbl (work s1) !! row_id r = Some r → (∃ m, work s1 = set_tbl m (work s0)) →
     now s1 = now s0 →
     body r s1 = (inr (), put_row (row_id r) (g r) s1 <| out := out s1 ++ eff r |>)) →
  for_each l body s =
    (inr (), s <| work := set_tbl (upd_rows (λ _, g) l (tbl (work s))) (work s) |>
               <| out := out s ++ (l ≫= eff) |>).
Proof.
  revert s. induction l as [|r l IH]; intros s Hnd Hin Hw Hn Hb.
  - unfold ret. cbn. rewrite set_tbl_tbl, app_nil_r. by destruct s.
  - rewrite fmap_cons in Hnd. apply NoDup_cons in Hnd as [Hni Hnd]. cbn.
    erewrite bind_inr by (apply Hb; [apply elem_of_cons; by left|apply Hin, elem_of_cons; by left|done..]).
    rewrite IH; [|done| | |done|].
    + unfold put_row. destruct s. cbn. by rewrite tbl_set_tbl, set_tbl_set, app_assoc.
    + intros r' Hr'. unfold put_row. cbn. rewrite tbl_set_tbl, lookup_insert_ne.
      * apply Hin, elem_of_cons. by right.
      * intros E. apply Hni. rewrite E. by apply list_elem_of_fmap_2.
    + destruct Hw as [m Hw]. unfold put_row. cbn. rewrite Hw, set_tbl_set. eauto.
    + intros r' s1 Hr'. apply Hb, elem_of_cons. by right.
Qed.

Lemma for_each_selected_run (p : R → bool) (g : R → R) (eff : R → list Effect) body s hi :
  wf_rows (tbl (work s)) hi →
  (∀ r s1, p r = true → tbl (work s1) !! row_id r = Some r → (∃ m, work s1 = set_tbl m (work s)) →
     now s1 = now s →
     body r s1 = (inr (), put_row (row_id r) (g r) s1 <| out := out s1 ++ eff r |>)) →
  for_each (select_rows p (tbl (work s))) body s =
    (inr (), s <| work := set_tbl ((λ r, if p r then g r else r) <$> tbl (work s)) (work s) |>
               <| out := out s ++ (select_rows p (tbl (work s)) ≫= eff) |>).
Proof.
  intros Hwf Hb. rewrite (for_each_rows_run g eff body _ s); [by rewrite (upd_rows_selected _ _ _ hi)|..].
  - by eapply NoDup_select_rows.
  - intros r Hr. by eapply select_rows_lookup.
  - exists (tbl (work s)). by rewrite set_tbl_tbl.
  - done.
  - intros r s1 [Hp _]%elem_of_select_rows. by apply Hb.
Qed.

Lemma for_each_selected_put (p : R → bool) (g : R → R) body s hi :
  wf_rows (tbl (work s)) hi →
  (∀ r s1, p r = true → tbl (work s1) !! row_id r = Some r → now s1 = now s →
     body r s1 = (inr (), put_row (row_id r) (g r) s1)) →
  for_each (select_rows p (tbl (work s))) body s =
    (inr (), s <| work := set_tbl ((λ r, if p r then g r else r) <$> tbl (work s)) (work s) |>).
Proof.
  intros Hwf Hb. rewrite (for_each_selected_run p g (λ _, []) body s hi Hwf).
  - replace (select_rows p (tbl (work s)) ≫= (λ _, [])) with (@nil Effect)
      by (by induction (select_rows p _)).
    rewrite app_nil_r. by destruct s.
  - intros r s1 Hp Hr _ Hn. rewrite Hb by done. cbn. rewrite app_nil_r. by destruct s1.
Qed.

Lemma alter_Some {A} (f : A → A) i (m : gmap Z A) r :
  m !! i = Some r → alter f i m = <[i := f r]> m.
Proof.
  intros Hi. apply map_eq. intros j. rewrite lookup_alter, lookup_insert.
  case_decide as E; [subst; by rewrite Hi|done].
Qed.

(** Rewriting a row to itself. *)
Lemma put_row_id i (r : R) s : tbl (work s) !! i = Some r → put_row i r s = s.
Proof. intros E. unfold put_row. rewrite insert_id by done. rewrite set_tbl_tbl. by destruct s. Qed.

(** A query with exactly one answer. *)
Lemma select_rows_singleton (p : R → bool) (m : gmap Z R) r :
  select_rows p m = [r] ↔
  ∃ i, m !! i = Some r ∧ p r = true ∧ ∀ j r', m !! j = Some r' → p r' = true → j = i.
Proof.
  assert (Hperm : select_rows p m ≡ₚ (map_to_list (filter (λ kv, p kv.2 = true) m)).*2).
  { unfold select_rows, rows. rewrite map_filter_alt, map_to_list_to_map.
    2: { eapply NoDup_fmap_filter, NoDup_fst_map_to_list. }
    rewrite merge_sort_Permutation. apply reflexive_eq.
    induction (map_to_list m) as [|[i x] l IH]; [done|].
    rewrite fmap_cons, !filter_cons. cbn [snd].
    destruct (decide (p x = true)); [|done]. rewrite fmap_cons. by f_equal. }
  split.
  - intros E. rewrite E in Hperm. symmetry in Hperm. apply Permutation_singleton_r in Hperm.
    destruct (map_to_list _) as [|[i x] [|]] eqn:El in Hperm; try done. cbn in Hperm. simplify_eq.
    assert (filter (λ kv, p kv.2 = true) m = {[i := r]}) as El'.
    { apply map_to_list_inj. by rewrite El, map_to_list_singleton. }
    clear El. rename El' into El. exists i. assert (filter (λ kv, p kv.2 = true) m !! i = Some r) as Hi.
    { rewrite El. apply lookup_singleton_eq. }
    apply map_lookup_filter_Some in Hi as [Hi Hp]. split_and!; [done..|].
    intros j r' Hj Hpr'. assert (filter (λ kv, p kv.2 = true) m !! j = Some r') as Hj'.
    { by apply map_lookup_filter_Some. }
    rewrite El in Hj'. by apply lookup_singleton_Some in Hj' as [-> _].
  - intros (i & Hi & Hp & Hu).
    assert (filter (λ kv, p kv.2 = true) m = {[i := r]}) as E.
    { apply map_eq. intros j. destruct (decide (j = i)) as [->|Hne].
      - rewrite lookup_singleton_eq. by apply map_lookup_filter_Some.
      - rewrite lookup_singleton_ne by done. apply map_lookup_filter_None. right.
        intros r' Hj Hp'. by apply Hne, (Hu j r'). }
    rewrite E, map_to_list_singleton in Hperm. by apply Permutation_singleton_r in Hperm.
Qed.
End update_loops.

(** A row that collides with none is accepted under the next id. *)
Lemma accepts_fresh {R} `{Table R} (m : gmap Z R) hi r :
  wf_rows m hi → row_check r = true → (∀ j r', m !! j = Some r' → conflict r r' = false) →
  accepts m (hi + 1) r = true.
Proof.
  intros Hwf Hc Hu. apply accepts_spec. split_and!; [done| |done].
  destruct (m !! (hi + 1)) as [x|] eqn:E; [|done]. pose proof (wf_seq Hwf _ _ E). lia.
Qed.

(** ** Histories of requests

    Requests are served one after the other, each at its own time. *)

Section serve.
Context {Q A : Type} (handle : Q → Op A).

Definition serve (q : Z * Q) (s : St) : St :=
  (run_request (handle q.2) (s <| now := q.1 |>)).2.
Definition serve_all (qs : list (Z * Q)) (s : St) : St := foldl (λ s q, serve q s) s qs.

(** Between requests no transaction is open. *)
Definition quiet (R : Type) `{Table R} (s : St) : Prop := work s = committed s ∧ wf_table R s.

Lemma serve_quiet {R} `{Table R} (P : gmap Z R → gmap Z R → Prop) q s :
  (∀ s r, quiet R s → wp (handle r) (λ _ s', P (tbl (work s)) (tbl (committed s'))) s) →
  (∀ r, preserves (wf_table R) (run_request (handle r))) →
  quiet R s → P (tbl (work s)) (tbl (work (serve q s))) ∧ quiet R (serve q s).
Proof.
  intros HP Hwf [Hc Ht]. unfold serve. set (s0 := s <| now := q.1 |>).
  assert (quiet R s0) as Hq by done.
  pose proof (HP s0 q.2 Hq) as Hl. pose proof (Hwf q.2 s0 Ht) as Hwf'.
  unfold wp, run_request in *. destruct (handle q.2 s0) as [r s1]. by split.
Qed.

(** A reflexive and transitive relation that every request keeps holds between
    the tables before and after a history. *)
Lemma serve_all_quiet {R} `{Table R} (P : gmap Z R → gmap Z R → Prop) `{!PreOrder P} qs s :
  (∀ q s, quiet R s → P (tbl (work s)) (tbl (work (serve q s))) ∧ quiet R (serve q s)) →
  quiet R s → P (tbl (work s)) (tbl (work (serve_all qs s))) ∧ quiet R (serve_all qs s).
Proof.
  intros HP. revert s. induction qs as [|q qs IH]; intros s Hs; [by split; [reflexivity|]|].
  destruct (HP q s Hs) as [Hp Hq]. destruct (IH _ Hq) as [Hp' Hq'].
  split; [by etrans|done].
Qed.

(** The same for relations between whole databases, under an invariant of the
    state that does not look at the clock. *)
Lemma serve_all_rel (I : St → Prop) (P : Db → Db → Prop) `{!PreOrder P} qs s :
  (∀ s t, I s → I (s <| now := t |>)) →
  (∀ r s, I s → work s = committed s → wp (handle r) (λ _ s', P (work s) (committed s')) s) →
  (∀ r, preserves I (run_request (handle r))) →
  I s → work s = committed s →
  P (work s) (work (serve_all qs s)) ∧ I (serve_all qs s) ∧
  work (serve_all qs s) = committed (serve_all qs s).
Proof.
  intros Hnow HP HI. revert s. induction qs as [|q qs IH]; intros s Hs Hc; [by split; [reflexivity|split]|].
  cbn. set (s0 := s <| now := q.1 |>). assert (I s0) as Hs0 by exact (Hnow s q.1 Hs).
  pose proof (HP q.2 s0 Hs0 Hc) as Hp. pose proof (HI q.2 s0 Hs0) as Hi.
  assert (serve q s = (run_request (handle q.2) s0).2) as E by done.
  assert (P (work s) (work (serve q s)) ∧ work (serve q s) = committed (serve q s)) as [Hp1 Hc1].
  { rewrite E. unfold wp, run_request in *. by destruct (handle q.2 s0). }
  rewrite <-E in Hi. destruct (IH (serve q s) Hi Hc1) as (Hp2 & Hi2 & Hc2).
  split_and!; [by etrans|done..].
Qed.
End serve.
