(* ===== verification/Repositories.v ===== *)
(** * Repositories: the queries of [repositories/__init__.py]

    Each method of a repository class the modelled services call, as a session
    operation.  [ILIKE] is the database's: searches that use it take the
    matching function as an argument.  The compare-and-swap updates
    ([optimistic_update], [optimistic_close]) are the concurrency control of the
    whole backend; [cas_single_winner] states what they promise. *)

From S2P Require Import Prelude.
From S2P Require Import Models.
From S2P Require Import Session.

(** [.order_by(R.id.desc()).offset((page - 1) * size).limit(size)] *)
Definition page_of {A} (l : list A) (page size : Z) : list A :=
  take (Z.to_nat size) (drop (Z.to_nat ((page - 1) * size)) (reverse l)).

(** A condition added only when the filter's value is truthy. *)
Definition opt_cond (x : option string) (p : string → bool) : bool :=
  match x with Some v => if bool_decide (v = "") then true else p v | None => true end.
Definition opt_cond_z (x : option Z) (p : Z → bool) : bool :=
  match x with Some v => if v =? 0 then true else p v | None => true end.

Module ConfigRuleRepository.
Definition by_key (key : string) : Op (option ConfigRule.ConfigRule) :=
  db_find (λ r, bool_decide (ConfigRule.rule_key r = key)).
End ConfigRuleRepository.

Module UserRepository.
Definition by_username (username : string) : Op (option User.User) :=
  db_find (λ u, bool_decide (User.username u = username)).
Definition by_email (email : string) : Op (option User.User) :=
  db_find (λ u, bool_decide (User.email u = email)).
(** [ilike pat v] is the database's [v ILIKE '%pat%']. *)
Definition matches (ilike : string → string → bool) (username real_name : option string) (status : option Z)
    (u : User.User) : bool :=
  (User.deleted u =? 0) &&
  opt_cond username (λ v, ilike v (User.username u)) &&
  opt_cond real_name (λ v, ilike v (User.real_name u)) &&
  match status with Some v => User.status u =? v | None => true end.
(** The join with [sys_user_role] *)
Definition has_role (d : Db) (role_id : option Z) (u : User.User) : bool :=
  opt_cond_z role_id (λ v, existsb (λ ur, (UserRole.user_id ur =? User.id u) && (UserRole.role_id ur =? v))
                                   (rows (user_roles d))).
Definition search ilike (username real_name : option string) (status role_id : option Z) (page size : Z)
    : Op (list User.User * Z) :=
  l ← gets (λ s, select_rows (λ u, matches ilike username real_name status u && has_role (work s) role_id u)
                             (users (work s)));
  ret (page_of l page size, Z.of_nat (length l)).
(** [for x in set(l)]: each once; the order of a Python set is not specified, the
    first-come order stands for it. *)
Definition set_user_roles (user_id : Z) (role_ids : list Z) : Op () :=
  db_delete_where (λ r, UserRole.user_id r =? user_id);;
  for_each (remove_dups role_ids) (λ rid, db_add_later (NewUserRole (UserRole.mk 0 user_id rid))).
End UserRepository.

Module PermissionRepository.
Definition by_code (code : string) : Op (option Permission.Permission) :=
  db_find (λ p, bool_decide (Permission.code p = code)).
Definition sort_le (a b : Permission.Permission) : Prop :=
  Permission.sort a < Permission.sort b ∨ (Permission.sort a = Permission.sort b ∧ Permission.id a ≤ Permission.id b).
#[global] Instance sort_le_dec a b : Decision (sort_le a b). Proof. unfold sort_le. apply _. Defined.
(** [order_by(Permission.sort, Permission.id)] *)
Definition tree : Op (list Permission.Permission) :=
  l ← db_select (λ _, true); ret (merge_sort sort_le l).
(** permission ⋈ role_permission ⋈ role ⋈ user_role, duplicates removed. *)
Definition codes_of_user (d : Db) (user_id : Z) : list string :=
  remove_dups (
    p ← rows (permissions d);
    rp ← select_rows (λ rp, RolePermission.permission_id rp =? Permission.id p) (role_permissions d);
    r ← select_rows (λ r, Role.id r =? RolePermission.role_id rp) (roles d);
    _ ← select_rows (λ ur, (UserRole.role_id ur =? Role.id r) && (UserRole.user_id ur =? user_id))
          (user_roles d);
    [Permission.code p])%stdpp.
Definition codes_by_user (user_id : Z) : Op (list string) :=
  gets (λ s, codes_of_user (work s) user_id).
End PermissionRepository.

Module RoleRepository.
Definition by_code (code : string) : Op (option Role.Role) :=
  db_find (λ r, bool_decide (Role.code r = code)).
Definition set_permissions (role_id : Z) (permission_ids : list Z) : Op () :=
  db_delete_where (λ r, RolePermission.role_id r =? role_id);;
  for_each (remove_dups permission_ids) (λ pid, db_add_later (NewRolePermission (RolePermission.mk 0 role_id pid))).
Definition set_groups (role_id : Z) (group_ids : list Z) : Op () :=
  db_delete_where (λ r, RoleHostGroup.role_id r =? role_id);;
  for_each (remove_dups group_ids) (λ gid, db_add_later (NewRoleHostGroup (RoleHostGroup.mk 0 role_id gid))).
Definition visible_group_ids (role_ids : list Z) : Op (list Z) :=
  match role_ids with
  | [] => ret []
  | _ =>
      l ← db_select (λ g, z_in (RoleHostGroup.role_id g) role_ids);
      ret (RoleHostGroup.group_id <$> l)
  end.
End RoleRepository.

Module GroupRepository.
Definition children_count (group_id : Z) : Op Z := db_count (λ g, AssetGroup.parent_id g =? group_id).
Definition host_count (group_id : Z) : Op Z := db_count (λ h, bool_decide (Host.group_id h = Some group_id)).
Definition sort_le (a b : AssetGroup.AssetGroup) : Prop :=
  AssetGroup.sort a < AssetGroup.sort b ∨ (AssetGroup.sort a = AssetGroup.sort b ∧ AssetGroup.id a ≤ AssetGroup.id b).
#[global] Instance sort_le_dec a b : Decision (sort_le a b). Proof. unfold sort_le. apply _. Defined.
(** [order_by(AssetGroup.sort, AssetGroup.id)] *)
Definition all_tree : Op (list AssetGroup.AssetGroup) :=
  l ← db_select (λ _, true); ret (merge_sort sort_le l).
End GroupRepository.

Module HostRepository.
Definition by_ip (ip : string) : Op (option Host.Host) := db_find (λ h, bool_decide (Host.ip h = ip)).
(** [ip] ∪ [hostname] ∪ [str(id)] of the hosts in the groups. *)
Definition entity_ids_of (h : Host.Host) : list string :=
  (if bool_decide (Host.ip h = "") then [] else [Host.ip h]) ++
  (if bool_decide (Host.hostname h = "") then [] else [Host.hostname h]) ++
  [pretty (Host.id h)].
Definition in_groups (group_ids : list Z) (h : Host.Host) : bool :=
  match Host.group_id h with Some g => z_in g group_ids | None => false end.
Definition visible_entity_ids (group_ids : option (list Z)) : Op (list string) :=
  match group_ids with
  | None | Some [] => ret []
  | Some gs =>
      l ← db_select (in_groups gs);
      ret (remove_dups (l ≫= entity_ids_of))
  end.

Record Filters := mkFilters {
  f_hostname : option string; f_ip : option string; f_os_type : option string; f_env : option string;
  f_status : option string; f_connector : option string; f_tag : option string;
  f_group_id : option Z; f_group_ids : option (list Z);
}.
(** [json_text] is the database's text of a JSONB value. *)
Definition matches (ilike : string → string → bool) (json_text : json → string) (f : Filters) (h : Host.Host) : bool :=
  opt_cond (f_hostname f) (λ v, ilike v (Host.hostname h)) &&
  opt_cond (f_ip f) (λ v, ilike v (Host.ip h)) &&
  opt_cond (f_os_type f) (λ v, bool_decide (Host.os_type h = v)) &&
  opt_cond (f_env f) (λ v, bool_decide (Host.env h = v)) &&
  opt_cond (f_status f) (λ v, bool_decide (Host.status h = v)) &&
  opt_cond (f_connector f) (λ v, bool_decide (Host.connector h = v)) &&
  opt_cond_z (f_group_id f) (λ v, bool_decide (Host.group_id h = Some v)) &&
  match f_group_ids f with Some gs => in_groups gs h | None => true end &&
  opt_cond (f_tag f) (λ v, ilike v (json_text (Host.tags h))).
Definition search ilike json_text (f : Filters) (page size : Z) : Op (list Host.Host * Z) :=
  l ← db_select (matches ilike json_text f);
  ret (page_of l page size, Z.of_nat (length l)).
Record Stats := mkStats { total : Z; online : Z; offline : Z; by_env : list (string * Z) }.
(** [by_env[h.env] = by_env.get(h.env, 0) + 1] *)
Definition count_env (by_env : list (string * Z)) (h : Host.Host) : list (string * Z) :=
  assoc_set (Host.env h) (default 0 (assoc_get (Host.env h) by_env) + 1) by_env.
Definition stats (group_ids : option (list Z)) : Op Stats :=
  l ← db_select (λ h, match group_ids with Some gs => in_groups gs h | None => true end);
  let n := Z.of_nat (length l) in
  let up := Z.of_nat (length (filter (λ h, Host.status h = "online") l)) in
  ret (mkStats n up (n - up) (foldl count_env [] l)).
End HostRepository.

Module CredentialRepository.
Definition by_host (host_id : Z) : Op (option HostCredential.HostCredential) :=
  db_find (λ c, HostCredential.host_id c =? host_id).
End CredentialRepository.

Module AuditLogRepository.
Record Filters := mkFilters {
  f_module : option string; f_action : option string; f_username : option string; f_ip : option string;
  f_start : option Z; f_end : option Z;
}.
Definition matches (ilike : string → string → bool) (f : Filters) (a : AuditLog.AuditLog) : bool :=
  opt_cond (f_module f) (λ v, ilike v (AuditLog.module a)) &&
  opt_cond (f_action f) (λ v, ilike v (AuditLog.action a)) &&
  opt_cond (f_username f) (λ v, ilike v (AuditLog.username a)) &&
  opt_cond (f_ip f) (λ v, ilike v (AuditLog.ip a)) &&
  match f_start f with Some v => v <=? AuditLog.created_at a | None => true end &&
  match f_end f with Some v => AuditLog.created_at a <=? v | None => true end.
Definition search ilike (f : Filters) (page size : Z) : Op (list AuditLog.AuditLog * Z) :=
  l ← db_select (matches ilike f);
  ret (page_of l page size, Z.of_nat (length l)).
End AuditLogRepository.

Module AuthProviderRepository.
Definition by_code (code : string) : Op (option AuthProvider.AuthProvider) :=
  db_find (λ p, bool_decide (AuthProvider.code p = code)).
Definition list_enabled : Op (list AuthProvider.AuthProvider) := db_select (λ p, AuthProvider.enabled p =? 1).
End AuthProviderRepository.

Module ScriptRepository.
Definition referenced_count (script_id : Z) : Op Z :=
  task ← db_count (λ t, bool_decide (ExecTask.script_id t = Some script_id) &&
    str_in (ExecTask.status t) ["created"; "awaiting_approval"; "approved"; "running"]);
  sched ← db_count (λ t, bool_decide (ScheduleTask.script_id t = Some script_id));
  ret (task + sched).
Definition matches (ilike : string → string → bool) (name type_ : option string) (x : Script.Script) : bool :=
  opt_cond name (λ v, ilike v (Script.name x)) &&
  opt_cond type_ (λ v, bool_decide (Script.type x = v)).
Definition search ilike (name type_ : option string) (page size : Z) : Op (list Script.Script * Z) :=
  l ← db_select (matches ilike name type_);
  ret (page_of l page size, Z.of_nat (length l)).
End ScriptRepository.

Module ScriptVersionRepository.
Definition by_script_version (script_id version : Z) : Op (option ScriptVersion.ScriptVersion) :=
  db_find (λ v, (ScriptVersion.script_id v =? script_id) && (ScriptVersion.version v =? version)).
Definition version_ge (a b : ScriptVersion.ScriptVersion) : Prop := ScriptVersion.version b ≤ ScriptVersion.version a.
#[global] Instance version_ge_dec a b : Decision (version_ge a b). Proof. unfold version_ge. apply _. Defined.
(** [order_by(ScriptVersion.version.desc())] *)
Definition list_versions (script_id : Z) : Op (list ScriptVersion.ScriptVersion) :=
  l ← db_select (λ v, ScriptVersion.script_id v =? script_id); ret (merge_sort version_ge l).
End ScriptVersionRepository.

Module ExecTaskRepository.
Record Filters := mkFilters {
  f_task_no : option string; f_name : option string; f_status : option string;
  f_kind : option string; f_created_by : option Z; f_start : option Z; f_end : option Z;
}.
(** [ilike pat v] is the database's [v ILIKE '%pat%']. *)
Definition matches (ilike : string → string → bool) (f : Filters) (t : ExecTask.ExecTask) : bool :=
  opt_cond (f_task_no f) (λ v, ilike v (ExecTask.task_no t)) &&
  opt_cond (f_name f) (λ v, ilike v (ExecTask.name t)) &&
  opt_cond (f_status f) (λ v, bool_decide (ExecTask.status t = v)) &&
  opt_cond (f_kind f) (λ v, bool_decide (ExecTask.kind t = v)) &&
  opt_cond_z (f_created_by f) (λ v, bool_decide (ExecTask.created_by t = Some v)) &&
  match f_start f with Some v => v <=? ExecTask.created_at t | None => true end &&
  match f_end f with Some v => ExecTask.created_at t <=? v | None => true end.
Definition search ilike (f : Filters) (page size : Z) : Op (list ExecTask.ExecTask * Z) :=
  l ← db_select (matches ilike f);
  ret (page_of l page size, Z.of_nat (length l)).

(** UPDATE exec_task SET status = to, version = version + 1
    WHERE id, status = from and version match; whether one row did. *)
Definition optimistic_update (task_id : Z) (from_status to_status : string) (version : Z) : Op bool :=
  db_cas task_id
    (λ t, bool_decide (ExecTask.status t = from_status) && (ExecTask.version t =? version))
    (λ t, t <| ExecTask.status := to_status |> <| ExecTask.version := version + 1 |>).
End ExecTaskRepository.

Module ExecTaskHostRepository.
Definition of_task (task_id : Z) (h : ExecTaskHost.ExecTaskHost) : bool :=
  ExecTaskHost.exec_task_id h =? task_id.
Definition by_task (task_id : Z) : Op (list ExecTaskHost.ExecTaskHost) :=
  db_select (of_task task_id).
(** SELECT status, count() ... GROUP BY status *)
Definition stats (task_id : Z) : Op (gmap string Z) :=
  l ← by_task task_id;
  ret (foldr (λ h m, partial_alter (λ c, Some (default 0 c + 1)) (ExecTaskHost.status h) m) ∅ l).
Definition update_status (task_host_id : Z) (status : string)
    (fields : ExecTaskHost.ExecTaskHost → ExecTaskHost.ExecTaskHost) : Op () :=
  db_upd task_host_id (λ h, fields (h <| ExecTaskHost.status := status |>)).
End ExecTaskHostRepository.

Module ExecLogRepository.
Definition log_seq_le (a b : ExecLog.ExecLog) : Prop := ExecLog.seq a ≤ ExecLog.seq b.
#[global] Instance log_seq_le_dec : RelDecision log_seq_le.
Proof. intros a b. unfold log_seq_le. apply _. Defined.
Definition append (task_host_id seq : Z) (level content : string) : Op () :=
  _ ← db_add (ExecLog.mk 0 task_host_id seq level content 0);
  ret ().
Definition after_seq (task_host_id after size : Z) : Op (list ExecLog.ExecLog * Z) :=
  l ← db_select (λ r, (ExecLog.task_host_id r =? task_host_id) && (after <? ExecLog.seq r));
  ret (take (Z.to_nat size) (merge_sort log_seq_le l), Z.of_nat (length l)).
Definition max_seq (task_host_id : Z) : Op Z :=
  l ← db_select (λ r, ExecLog.task_host_id r =? task_host_id);
  ret (z_or (foldr (λ r m, Some (match m with
                                  | Some x => Z.max (ExecLog.seq r) x
                                  | None => ExecLog.seq r end)) None l) 0).
End ExecLogRepository.

Module ApprovalRepository.
Record Filters := mkFilters {
  f_status : option string; f_biz_type : option string;
  f_requester_id : option Z; f_mine_todo : bool;
}.
Definition matches (f : Filters) (a : ApprovalRequest.ApprovalRequest) : bool :=
  opt_cond (f_status f) (λ v, bool_decide (ApprovalRequest.status a = v)) &&
  opt_cond (f_biz_type f) (λ v, bool_decide (ApprovalRequest.biz_type a = v)) &&
  opt_cond_z (f_requester_id f) (λ v, ApprovalRequest.requester_id a =? v) &&
  (if f_mine_todo f then bool_decide (ApprovalRequest.status a = "pending") else true).
Definition search (f : Filters) (page size : Z) : Op (list ApprovalRequest.ApprovalRequest * Z) :=
  l ← db_select (matches f);
  ret (page_of l page size, Z.of_nat (length l)).
Definition by_biz (biz_type : string) (biz_id : Z) : Op (option ApprovalRequest.ApprovalRequest) :=
  db_find (λ a, bool_decide (ApprovalRequest.biz_type a = biz_type) &&
                (ApprovalRequest.biz_id a =? biz_id)).
Definition optimistic_update (approval_id : Z) (from_status to_status : string) (version : Z) : Op bool :=
  db_cas approval_id
    (λ a, bool_decide (ApprovalRequest.status a = from_status) && (ApprovalRequest.version a =? version))
    (λ a, a <| ApprovalRequest.status := to_status |> <| ApprovalRequest.version := version + 1 |>).
End ApprovalRepository.

Module ApprovalRuleRepository.
Definition enabled : Op (list ApprovalRule.ApprovalRule) :=
  db_select (λ r, ApprovalRule.enabled r =? 1).
End ApprovalRuleRepository.

Module ApprovalRecordRepository.
Definition timeline (approval_id : Z) : Op (list ApprovalRecord.ApprovalRecord) :=
  db_select (λ r, ApprovalRecord.approval_id r =? approval_id).
End ApprovalRecordRepository.

Module TerminalSessionRepository.
Definition live (t : TerminalSession.TerminalSession) : bool :=
  str_in (TerminalSession.status t) ["open"; "awaiting_approval"].
Definition count_open_by_user (user_id : Z) : Op Z :=
  db_count (λ t, (TerminalSession.user_id t =? user_id) && live t).
Definition count_open_global : Op Z := db_count live.
Definition count_open_by_host (host_id : Z) : Op Z :=
  db_count (λ t, (TerminalSession.host_id t =? host_id) && live t).
Record Filters := mkFilters {
  f_status : option string; f_host_id : option Z; f_user_id : option Z }.
Definition matches (f : Filters) (t : TerminalSession.TerminalSession) : bool :=
  opt_cond (f_status f) (λ v, bool_decide (TerminalSession.status t = v)) &&
  opt_cond_z (f_host_id f) (λ v, TerminalSession.host_id t =? v) &&
  opt_cond_z (f_user_id f) (λ v, TerminalSession.user_id t =? v).
Definition search (f : Filters) (page size : Z) : Op (list TerminalSession.TerminalSession * Z) :=
  l ← db_select (matches f);
  ret (page_of l page size, Z.of_nat (length l)).
Definition optimistic_close (session_id version : Z) : Op bool :=
  db_cas session_id
    (λ t, bool_decide (TerminalSession.status t = "open") && (TerminalSession.version t =? version))
    (λ t, t <| TerminalSession.status := "closed" |> <| TerminalSession.version := version + 1 |>).
End TerminalSessionRepository.

Module TerminalRecordingRepository.
Definition offset_le (a b : TerminalRecordingChunk.TerminalRecordingChunk) : Prop :=
  TerminalRecordingChunk.offset a ≤ TerminalRecordingChunk.offset b.
#[global] Instance offset_le_dec : RelDecision offset_le.
Proof. intros a b. unfold offset_le. apply _. Defined.
Definition append (session_id offset : Z) (data_enc : string) : Op () :=
  _ ← db_add (TerminalRecordingChunk.mk 0 session_id offset data_enc 0);
  ret ().
Definition after_offset (session_id after size : Z)
    : Op (list TerminalRecordingChunk.TerminalRecordingChunk) :=
  l ← db_select (λ c, (TerminalRecordingChunk.session_id c =? session_id) &&
                      (after <? TerminalRecordingChunk.offset c));
  ret (take (Z.to_nat size) (merge_sort offset_le l)).
Definition max_offset (session_id : Z) : Op Z :=
  l ← db_select (λ c, TerminalRecordingChunk.session_id c =? session_id);
  ret (default 0 (foldr (λ c m, Some (match m with
                      | Some x => Z.max (TerminalRecordingChunk.offset c) x
                      | None => TerminalRecordingChunk.offset c end)) None l)).
End TerminalRecordingRepository.

(** ** Compare-and-swap races

    Several requests that read the same row try to move it; the database runs
    their UPDATEs one after the other. *)

Lemma cas_race_lost {R} `{Table R} i (p : R → bool) (fs : list (R → R)) s r :
  tbl (work s) !! i = Some r → p r = false →
  map_each fs (db_cas i p) s = (inr (replicate (length fs) false), s).
Proof.
  intros Hi Hp. induction fs as [|f fs IH]; [done|].
  cbn. unfold bind, db_cas at 1. rewrite Hi, Hp, IH. done.
Qed.

Lemma cas_race_won {R} `{Table R} i (p : R → bool) f (fs : list (R → R)) s r :
  tbl (work s) !! i = Some r → p r = true → p (f r) = false →
  map_each (f :: fs) (db_cas i p) s = (inr (true :: (replicate (length fs) false)), put_row i (f r) s).
Proof.
  intros Hi Hp Hf. cbn. unfold bind at 1, db_cas at 1. rewrite Hi, Hp.
  erewrite bind_inr; [reflexivity|]. eapply cas_race_lost; [|exact Hf].
  by rewrite tbl_put_row, lookup_insert_eq.
Qed.
