(* ===== verification/Access.v ===== *)
(** * Access control: [api/deps.py] and [services/ai_gate.py]

    Who the caller is ([get_current_user]: bearer token, user row, role
    permissions, visible host groups), what the caller may do ([CurrentUser])
    and which features are switched on ([config_rule] rows). *)

From S2P Require Import Prelude.
From S2P Require Import Models.
From S2P Require Import Session.
From S2P Require Import Repositories.

(** ** The principal *)

Record CurrentUser := mkUser {
  user_id : Z;
  username : string;
  is_admin : bool;
  permissions : list string;
  visible_group_ids : list Z;
}.

Definition has_perm (u : CurrentUser) (code : string) : bool :=
  if is_admin u then true else str_in code (permissions u).

Definition require_perm (u : CurrentUser) (code : string) : Op () :=
  if has_perm u code then ret ()
  else raise (ForbiddenError ("permission denied: " +:+ code)).

Definition require_group (u : CurrentUser) (group_id : Z) : Op () :=
  if is_admin u then ret ()
  else guard_or (z_in group_id (visible_group_ids u))
         (ForbiddenError "no data permission for this host group").

(** ** Bearer tokens *)

Definition _bearer_token (authorization : option string) : Op string :=
  match authorization with
  | Some a =>
      if starts_with "bearer " (lower a) then ret (strip (after_space a))
      else raise (UnauthorizedError "missing bearer token")
  | None => raise (UnauthorizedError "missing bearer token")
  end.

(** A token's claims: [jti] is a text when there is one, and [sub] stands for
    [int(payload["sub"])], which may raise. *)
Record TokenPayload := mkPayload { jti : option string; sub : exn + Z }.

Section get_current_user.
(** [core/security.decode_token(token, "access")] checks the JWT's signature,
    expiry and type: [inl msg] when it raises [ValueError]. *)
Variable decode_token : string → string + TokenPayload.
(** Whether [request.app.state.redis] has an entry [f"bl:{jti}"]; the command
    raises when Redis does not answer. *)
Variable blacklisted : string → exn + bool.

Definition _role_ids (uid : Z) : Op (list Z) :=
  l ← db_select (λ r, UserRole.user_id r =? uid);
  ret (UserRole.role_id <$> l).

Definition get_current_user (authorization : option string) : Op CurrentUser :=
  token ← _bearer_token authorization;
  payload ← match decode_token token with
            | inl msg => raise (UnauthorizedError msg)
            | inr p => ret p
            end;
  revoked ← match jti payload with
            | Some j => if bool_decide (j = "") then ret false else of_sum (blacklisted j)
            | None => ret false
            end;
  guard_or (negb revoked) (UnauthorizedError "token revoked");;
  uid ← of_sum (sub payload);
  u ← db_get uid;
  match u with
  | None => raise (UnauthorizedError "user disabled or missing")
  | Some user =>
      if negb (User.status user =? 1) || negb (User.deleted user =? 0)
      then raise (UnauthorizedError "user disabled or missing")
      else
        role_ids ← _role_ids uid;
        perms ← match role_ids with
                | [] => ret []
                | _ => PermissionRepository.codes_by_user uid
                end;
        groups ← RoleRepository.visible_group_ids role_ids;
        ret (mkUser (User.id user) (User.username user)
                (negb (User.is_admin user =? 0)) perms groups)
  end.

(** [get_optional_user]: anonymous and rejected callers alike are [None]. *)
Definition get_optional_user (authorization : option string) : Op (option CurrentUser) :=
  match authorization with
  | Some a =>
      if starts_with "bearer " (lower a) then
        try_catch (u ← get_current_user authorization; ret (Some u))
          (λ e : exn, match e with
                | AppExc CUnauthorized _ _ => ret None
                | _ => raise e
                end)
      else ret None
  | None => ret None
  end.
End get_current_user.

(** ** Feature gates: a [config_rule] row [{"value": truthy}] *)

Definition rule_flag (rule : option ConfigRule.ConfigRule) : bool :=
  match rule with
  | Some r => truthy (jget_or "value" (JBool false) (ConfigRule.rule_value r))
  | None => false
  end.
Definition is_feature_enabled (flag : string) : Op bool :=
  rule ← ConfigRuleRepository.by_key flag;
  ret (rule_flag rule).
Definition require_feature (flag : string) : Op () :=
  on ← is_feature_enabled flag;
  if on then ret () else raise (BadRequestError "feature disabled").

(** The flag as a function of the database. *)
Definition feature_on (flag : string) (s : St) : bool :=
  rule_flag (head (select_rows (λ r, bool_decide (ConfigRule.rule_key r = flag))
                     (tbl (work s)))).

(** ** Facts *)

Lemma require_feature_eq flag s :
  require_feature flag s =
  if feature_on flag s then (inr (), s) else (inl (BadRequestError "feature disabled"), s).
Proof.
  unfold require_feature, is_feature_enabled, ConfigRuleRepository.by_key, db_find, feature_on.
  unfold bind, gets, ret. cbn. by destruct (rule_flag _).
Qed.

Lemma feature_on_ext flag s s' :
  tbl (R:=ConfigRule.ConfigRule) (work s') = tbl (work s) → feature_on flag s' = feature_on flag s.
Proof. unfold feature_on. by intros ->. Qed.

Lemma require_perm_eq u code s :
  require_perm u code s =
  if has_perm u code then (inr (), s)
  else (inl (ForbiddenError ("permission denied: " +:+ code)), s).
Proof. unfold require_perm. by destruct (has_perm u code). Qed.

Lemma preserves_require_perm I u code : preserves I (require_perm u code).
Proof. unfold require_perm. destruct (has_perm u code); eauto with preserves. Qed.
Lemma preserves_require_feature I flag : preserves I (require_feature flag).
Proof. intros s Hs. rewrite require_feature_eq. by destruct (feature_on flag s). Qed.
Lemma preserves_is_feature_enabled I flag : preserves I (is_feature_enabled flag).
Proof. unfold is_feature_enabled, ConfigRuleRepository.by_key. preserves_auto. Qed.
Lemma preserves_by_key I k : preserves I (ConfigRuleRepository.by_key k).
Proof. apply preserves_db_find. Qed.
#[export] Hint Resolve preserves_require_perm preserves_require_feature
  preserves_is_feature_enabled preserves_by_key : preserves.

Lemma elem_of_codes_of_user d uid code :
  code ∈ PermissionRepository.codes_of_user d uid ↔
  ∃ i p j rp k r l ur,
    Models.permissions d !! i = Some p ∧ Permission.code p = code ∧
    role_permissions d !! j = Some rp ∧ RolePermission.permission_id rp = Permission.id p ∧
    roles d !! k = Some r ∧ Role.id r = RolePermission.role_id rp ∧
    user_roles d !! l = Some ur ∧ UserRole.role_id ur = Role.id r ∧ UserRole.user_id ur = uid.
Proof.
  unfold PermissionRepository.codes_of_user. rewrite elem_of_remove_dups.
  setoid_rewrite list_elem_of_bind. setoid_rewrite elem_of_rows.
  split.
  - intros (p & Hc & [i Hp]).
    apply list_elem_of_bind in Hc as (rp & Hc & [Hrp [j Hj]]%elem_of_select_rows).
    apply list_elem_of_bind in Hc as (r & Hc & [Hr [k Hk]]%elem_of_select_rows).
    apply list_elem_of_bind in Hc as (ur & Hc & [Hur [l Hl]]%elem_of_select_rows).
    apply list_elem_of_singleton in Hc as ->.
    apply andb_true_iff in Hur as [Hu1 Hu2].
    exists i, p, j, rp, k, r, l, ur. repeat split; try done; lia.
  - intros (i & p & j & rp & k & r & l & ur & Hp & <- & Hrp & E1 & Hr & E2 & Hur & E3 & E4).
    exists p. split; [|by exists i].
    apply list_elem_of_bind. exists rp. split; [|apply elem_of_select_rows; split; [lia|by exists j]].
    apply list_elem_of_bind. exists r. split; [|apply elem_of_select_rows; split; [lia|by exists k]].
    apply list_elem_of_bind. exists ur. split; [by apply list_elem_of_singleton|].
    apply elem_of_select_rows; split; [|by exists l].
    apply andb_true_iff; lia.
Qed.

Lemma require_perm_inr u code s x s' :
  require_perm u code s = (inr x, s') → has_perm u code = true ∧ s' = s.
Proof. rewrite require_perm_eq. destruct (has_perm u code); [by intros [= _ <-]|done]. Qed.
Lemma require_feature_inr flag s x s' :
  require_feature flag s = (inr x, s') → feature_on flag s = true ∧ s' = s.
Proof. rewrite require_feature_eq. destruct (feature_on flag s); [by intros [= _ <-]|done]. Qed.

Ltac inv_prim H ::=
  lazymatch type of H with
  | db_add _ _ = _ =>
      let Ha := fresh "Hacc" in let He := fresh "Heq" in
      apply db_add_inr in H as (He & Ha & ->)
  | db_get _ _ = _ => unfold db_get, gets in H; simplify_eq
  | db_select _ _ = _ => unfold db_select, gets in H; simplify_eq
  | db_find _ _ = _ => unfold db_find, gets in H; simplify_eq
  | db_count _ _ = _ => unfold db_count, gets in H; simplify_eq
  | utc_now _ = _ => unfold utc_now, gets in H; simplify_eq
  | db_upd _ _ _ = _ => unfold db_upd, modify in H; simplify_eq
  | db_commit _ = _ => unfold db_commit, modify in H; simplify_eq
  | emit_out _ _ = _ => unfold emit_out, modify in H; simplify_eq
  | nextval _ _ = _ => unfold nextval in H; simplify_eq
  | require_perm _ _ _ = _ => apply require_perm_inr in H as [? ->]
  | require_feature _ _ = _ => apply require_feature_inr in H as [? ->]
  end.

Lemma visible_group_ids_eq ids s :
  RoleRepository.visible_group_ids ids s =
  (inr (RoleHostGroup.group_id <$>
     select_rows (λ g, z_in (RoleHostGroup.role_id g) ids) (tbl (work s))), s).
Proof.
  unfold RoleRepository.visible_group_ids. destruct ids; [|done].
  unfold ret, select_rows. f_equal. f_equal. unfold z_in.
  by induction (rows (tbl (work s))) as [|x l IH].
Qed.

Lemma codes_of_user_no_role d uid :
  select_rows (λ r, UserRole.user_id r =? uid) (user_roles d) = [] →
  PermissionRepository.codes_of_user d uid = [].
Proof.
  intros Hnil. apply elem_of_nil_inv. intros code Hc.
  apply elem_of_codes_of_user in Hc as (?&?&?&?&?&?& l & ur &_&_&_&_&_&_& Hur & _ & Hu).
  apply (not_elem_of_nil ur). rewrite <-Hnil. apply elem_of_select_rows.
  split; [lia|eauto].
Qed.

Lemma elem_of_group_ids d uid g :
  g ∈ RoleHostGroup.group_id <$>
     select_rows (λ g, z_in (RoleHostGroup.role_id g)
       (UserRole.role_id <$> select_rows (λ r, UserRole.user_id r =? uid) (user_roles d)))
       (role_host_groups d) ↔
  ∃ i j ur rg, user_roles d !! i = Some ur ∧ UserRole.user_id ur = uid ∧
    role_host_groups d !! j = Some rg ∧
    RoleHostGroup.role_id rg = UserRole.role_id ur ∧ RoleHostGroup.group_id rg = g.
Proof.
  rewrite list_elem_of_fmap. setoid_rewrite elem_of_select_rows. unfold z_in.
  setoid_rewrite bool_decide_eq_true. setoid_rewrite list_elem_of_fmap.
  setoid_rewrite elem_of_select_rows. split.
  - intros (rg & -> & (ur & Hrole & Hu & [i Hi]) & [j Hj]).
    exists i, j, ur, rg. repeat split; auto. lia.
  - intros (i & j & ur & rg & Hi & <- & Hj & Hrole & <-).
    exists rg. split; [done|]. split; [|by exists j].
    exists ur. split; [done|]. split; [lia|by exists i].
Qed.

(** Symbolic execution of a handler under [wp]. *)
Lemma wp_require_perm u code Q s :
  (has_perm u code = true → Q (inr ()) s) →
  (has_perm u code = false → Q (inl (ForbiddenError ("permission denied: " +:+ code))) s) →
  wp (require_perm u code) Q s.
Proof. unfold wp. rewrite require_perm_eq. destruct (has_perm u code); auto. Qed.
Lemma wp_require_feature flag Q s :
  (feature_on flag s = true → Q (inr ()) s) →
  (feature_on flag s = false → Q (inl (BadRequestError "feature disabled")) s) →
  wp (require_feature flag) Q s.
Proof. unfold wp. rewrite require_feature_eq. destruct (feature_on flag s); auto. Qed.
Lemma wp_db_get {R} `{Table R} i Q s :
  Q (inr (tbl (R:=R) (work s) !! i)) s → wp (db_get i) Q s.
Proof. done. Qed.
Lemma wp_db_find {R} `{Table R} p Q s :
  Q (inr (head (select_rows (R:=R) p (tbl (work s))))) s → wp (db_find p) Q s.
Proof. done. Qed.
Lemma wp_db_select {R} `{Table R} p Q s :
  Q (inr (select_rows (R:=R) p (tbl (work s)))) s → wp (db_select p) Q s.
Proof. done. Qed.
Lemma wp_db_count {R} `{Table R} (p : R → bool) Q s :
  Q (inr (Z.of_nat (length (select_rows p (tbl (work s)))))) s → wp (db_count p) Q s.
Proof. done. Qed.
Lemma wp_db_add {R} `{Table R} (r : R) (Q : exn + R → St → Prop) s :
  (∀ n row, n = next_value (tbl_name (R:=R)) s → row = tbl_init n (now s) r →
    (accepts (tbl (work s)) n row = true →
       Q (inr row) (put_row n row (s <| seqs := <[tbl_name (R:=R) := n]> (seqs s) |>))) ∧
    (accepts (tbl (work s)) n row = false →
       Q (inl (IntegrityError (tbl_name (R:=R)))) (s <| seqs := <[tbl_name (R:=R) := n]> (seqs s) |>))) →
  wp (db_add r) Q s.
Proof.
  intros HQ. unfold wp, db_add. cbv zeta.
  destruct (HQ _ _ eq_refl eq_refl) as [Ht Hf]. destruct (accepts _ _ _); auto.
Qed.
Lemma wp_db_upd {R} `{Table R} i (f : R → R) Q s :
  (∀ r, tbl (work s) !! i = Some r → Q (inr ()) (put_row i (f r) s)) →
  (tbl (work s) !! i = None → Q (inr ()) s) →
  wp (db_upd i f) Q s.
Proof. unfold wp, db_upd, modify. cbn. destruct (tbl (work s) !! i); auto. Qed.
Lemma wp_db_cas {R} `{Table R} i p (f : R → R) Q s :
  (∀ r, tbl (work s) !! i = Some r → p r = true → Q (inr true) (put_row i (f r) s)) →
  ((∀ r, tbl (work s) !! i = Some r → p r = false) → Q (inr false) s) →
  wp (db_cas i p f) Q s.
Proof.
  unfold wp, db_cas. destruct (tbl (work s) !! i) as [r|] eqn:E.
  - intros H1 H2. destruct (p r) eqn:Ep; [by apply H1|]. apply H2. naive_solver.
  - intros _ H2. apply H2. naive_solver.
Qed.
Lemma wp_db_delete {R} `{Table R} i Q s :
  Q (inr ()) (s <| work := set_tbl (delete i (tbl (R:=R) (work s))) (work s) |>) → wp (db_delete (R:=R) i) Q s.
Proof. done. Qed.
Lemma wp_db_delete_where {R} `{Table R} (p : R → bool) Q s :
  Q (inr ()) (s <| work := set_tbl (filter (λ kv, p kv.2 = false) (tbl (R:=R) (work s))) (work s) |>) →
  wp (db_delete_where p) Q s.
Proof. done. Qed.
Lemma wp_nextval name Q s :
  (∀ n, n = next_value name s → Q (inr n) (s <| seqs := <[name := n]> (seqs s) |>)) →
  wp (nextval name) Q s.
Proof. intros HQ. by apply (HQ _ eq_refl). Qed.
Lemma wp_utc_now Q s : Q (inr (now s)) s → wp utc_now Q s.
Proof. done. Qed.
Lemma wp_db_commit Q s : Q (inr ()) (s <| committed := work s |>) → wp db_commit Q s.
Proof. done. Qed.
Lemma wp_db_rollback Q s : Q (inr ()) (s <| work := committed s |>) → wp db_rollback Q s.
Proof. done. Qed.
Lemma wp_emit_out e Q s : Q (inr ()) (s <| out := out s ++ [e] |>) → wp (emit_out e) Q s.
Proof. done. Qed.
Lemma wp_run_request {A} (m : Op A) Q s :
  wp m (λ r s', Q r (s' <| work := committed s' |>)) s → wp (run_request m) Q s.
Proof. unfold wp, run_request. by destruct (m s). Qed.

(** Updates of a row that is known. *)
Lemma wp_upd_hit {R} `{Table R} i r (f : R → R) Q s :
  tbl (work s) !! i = Some r → Q (inr ()) (put_row i (f r) s) → wp (db_upd i f) Q s.
Proof. intros Hi HQ. apply wp_db_upd; [intros; by simplify_eq|congruence]. Qed.
Lemma wp_cas_hit {R} `{Table R} i r p (f : R → R) Q s :
  tbl (work s) !! i = Some r → p r = true → Q (inr true) (put_row i (f r) s) → wp (db_cas i p f) Q s.
Proof. intros Hi Hp HQ. apply wp_db_cas; [intros; by simplify_eq|]. intros Hn. by rewrite (Hn r Hi) in Hp. Qed.

(** An INSERT appends to the table: the new key is larger than all others. *)
Lemma wp_db_add_last {R} `{Table R} (r : R) (Q : exn + R → St → Prop) s :
  wf_table R s →
  (∀ e s1, committed s1 = committed s → out s1 = out s → Q (inl e) s1) →
  (∀ row s1, row = tbl_init (row_id row) (now s) r → wf_table R s1 → only_table R s s1 →
     rows (tbl (work s1)) = rows (tbl (work s)) ++ [row] →
     tbl (work s1) = <[row_id row := row]> (tbl (work s)) → tbl (work s) !! row_id row = None →
     Q (inr row) s1) →
  wp (db_add r) Q s.
Proof.
  intros Hwf Herr HQ. pose proof (wf_preserves_add r s Hwf) as Hwf1.
  apply wp_db_add. intros n row Hn Hrow. split; intros Hacc; [|by apply Herr].
  assert (row_id row = n) as Hid by (rewrite Hrow; apply row_id_init).
  apply HQ; rewrite ?Hid, ?tbl_put_row; [done| |apply only_table_put| |done|by eapply accepts_none].
  - unfold db_add in Hwf1. cbv zeta in Hwf1. rewrite <-Hn, <-Hrow, Hacc in Hwf1. exact Hwf1.
  - apply rows_insert_last. intros j x Hj. destruct Hwf as [Hw _]. pose proof (wf_seq Hw j x Hj).
    unfold next_value in Hn. lia.
Qed.

Ltac wp_prim := fail.
Ltac wp_step :=
  lazymatch goal with
  | |- wp (bind _ _) _ _ => apply wp_bind
  | |- wp (ret _) _ _ => apply wp_ret
  | |- wp (raise _) _ _ => apply wp_raise
  | |- wp (gets _) _ _ => apply wp_gets
  | |- wp (modify _) _ _ => apply wp_modify
  | |- wp (when _ _) _ _ => apply wp_when; intros ?
  | |- wp (guard_or _ _) _ _ => apply wp_guard_or; intros ?
  | |- wp (some_or _ _) _ _ => apply wp_some_or; [intros ? ?|intros ?]
  | |- wp (try_catch _ _) _ _ => apply wp_try
  | |- wp (require_perm _ _) _ _ => apply wp_require_perm; intros ?
  | |- wp (require_feature _) _ _ => apply wp_require_feature; intros ?
  | |- wp (db_get _) _ _ => apply wp_db_get
  | |- wp (db_find _) _ _ => apply wp_db_find
  | |- wp (db_select _) _ _ => apply wp_db_select
  | |- wp (db_count _) _ _ => apply wp_db_count
  | |- wp (db_add _) _ _ => apply wp_db_add; intros ?n ?row ? ?; split; intros ?
  | |- wp (db_upd _ _) _ _ => apply wp_db_upd; [intros ? ?|intros ?]
  | |- wp (db_cas _ _ _) _ _ => apply wp_db_cas; [intros ? ? ?|intros ?]
  | |- wp (nextval _) _ _ => apply wp_nextval; intros ? ->
  | |- wp (db_delete _) _ _ => apply wp_db_delete
  | |- wp (db_delete_where _) _ _ => apply wp_db_delete_where
  | |- wp utc_now _ _ => apply wp_utc_now
  | |- wp db_commit _ _ => apply wp_db_commit
  | |- wp db_rollback _ _ => apply wp_db_rollback
  | |- wp (emit_out _) _ _ => apply wp_emit_out
  | |- wp (run_request _) _ _ => apply wp_run_request
  | |- wp (if ?b then _ else _) _ _ => destruct b eqn:?
  | |- wp (match ?o with _ => _ end) _ _ => destruct o eqn:?
  | |- wp (let _ := _ in _) _ _ => cbv zeta
  | |- wp _ _ _ => wp_prim
  end; cbv beta iota.
Ltac wp_run := repeat wp_step.

(** ** Properties *)

(** The header carries a token of the account [row]: it decodes, is not on the
    blacklist, and names an enabled, undeleted user. *)
Definition admitted (decode_token : string → string + TokenPayload) (blacklisted : string → exn + bool)
    (authorization : option string) (s : St) (uid : Z) (row : User.User) : Prop :=
  ∃ a payload,
    authorization = Some a ∧ starts_with "bearer " (lower a) = true ∧
    decode_token (strip (after_space a)) = inr payload ∧
    (∀ j, jti payload = Some j → j ≠ "" → blacklisted j = inr false) ∧
    sub payload = inr uid ∧
    users (work s) !! uid = Some row ∧ User.status row = 1 ∧ User.deleted row = 0.

Lemma run_visible_groups ids (k : list Z → Op CurrentUser) s :
  bind (RoleRepository.visible_group_ids ids) k s =
  k (RoleHostGroup.group_id <$> select_rows (λ g, z_in (RoleHostGroup.role_id g) ids) (tbl (work s))) s.
Proof. unfold bind. by rewrite visible_group_ids_eq. Qed.

(** The lookup of an admitted caller *)
Lemma admitted_run decode_token blacklisted auth s uid row :
  admitted decode_token blacklisted auth s uid row →
  get_current_user decode_token blacklisted auth s =
  (inr (mkUser (User.id row) (User.username row) (negb (User.is_admin row =? 0))
     (PermissionRepository.codes_of_user (work s) uid)
     (RoleHostGroup.group_id <$> select_rows (λ g, z_in (RoleHostGroup.role_id g)
        (UserRole.role_id <$> select_rows (λ r, UserRole.user_id r =? uid) (user_roles (work s))))
        (role_host_groups (work s)))), s).
Proof.
  intros (a & payload & -> & Ha & Hd & Hb & Hu & Hr & Hs & Hdel).
  unfold get_current_user, _bearer_token. rewrite Ha. unfold bind at 1, ret. rewrite Hd.
  unfold bind at 1. cbv beta iota.
  assert ((match jti payload with
           | Some j => if bool_decide (j = "") then ret false else of_sum (blacklisted j)
           | None => ret false end) s = (inr false, s)) as Hj.
  { destruct (jti payload) as [j|]; [|done]. destruct (decide (j = "")) as [->|Hne]; [done|].
    rewrite bool_decide_eq_false_2, (Hb j) by done. done. }
  rewrite (bind_inr _ _ _ _ _ Hj). unfold bind at 1. cbn [guard_or negb ret]. rewrite Hu.
  unfold bind at 1. cbn [of_sum ret]. unfold bind at 1, db_get, gets.
  change (tbl (work s)) with (users (work s)). rewrite Hr, Hs, Hdel. cbn [Z.eqb Pos.eqb negb orb].
  unfold _role_ids, db_select, bind at 1, bind at 1, gets, ret.
  change (tbl (work s)) with (user_roles (work s)).
  destruct (select_rows _ (user_roles (work s))) as [|ur l] eqn:E; cbn [fmap list_fmap].
  - unfold bind at 1. rewrite run_visible_groups. unfold ret. by rewrite codes_of_user_no_role.
  - unfold bind at 1, PermissionRepository.codes_by_user, gets. by rewrite run_visible_groups.
Qed.

(** A caller who is let in was admitted, and who is not is told so, unless Redis
    or the subject of the token fails. *)
Lemma get_current_user_run decode_token blacklisted auth s r s' :
  get_current_user decode_token blacklisted auth s = (r, s') →
  s' = s ∧ match r with
  | inr _ => ∃ uid row, admitted decode_token blacklisted auth s uid row
  | inl e => (∃ m, e = UnauthorizedError m) ∨ (∃ j, blacklisted j = inl e) ∨
             (∃ tok payload, decode_token tok = inr payload ∧ sub payload = inl e)
  end.
Proof.
  assert (∀ m, (∃ m', UnauthorizedError m = UnauthorizedError m') ∨ (∃ j, blacklisted j = inl (UnauthorizedError m)) ∨
     (∃ tok payload, decode_token tok = inr payload ∧ sub payload = inl (UnauthorizedError m))) as HU by eauto.
  intros H. generalize H. unfold get_current_user, _bearer_token. unfold bind at 1.
  destruct auth as [a|]; [|by intros [= <- <-]].
  destruct (starts_with _ _) eqn:Ha; [|by intros [= <- <-]]. cbn [ret].
  unfold bind at 1. destruct (decode_token _) as [m|payload] eqn:Hd; [by intros [= <- <-]|]. cbn [ret].
  assert (∃ b, (match jti payload with
           | Some j => if bool_decide (j = "") then ret false else of_sum (blacklisted j)
           | None => ret false end) s = (b, s) ∧
     match b with
     | inl e => ∃ j, blacklisted j = inl e
     | inr false => ∀ j, jti payload = Some j → j ≠ "" → blacklisted j = inr false
     | inr true => True end) as (b & Hb & Hj).
  { destruct (jti payload) as [j|]; [|by eexists]. destruct (decide (j = "")) as [->|Hne].
    - eexists. split; [done|]. by intros j [= <-].
    - rewrite bool_decide_eq_false_2 by done. exists (blacklisted j).
      destruct (blacklisted j) as [e|[]] eqn:E; (split; [done|]); [by exists j|done|]. by intros j' [= <-]. }
  unfold bind at 1. rewrite Hb. destruct b as [e|[]]; [intros [= <- <-]; eauto|by intros [= <- <-]|].
  unfold bind at 1. cbn [guard_or negb ret]. unfold bind at 1.
  destruct (sub payload) as [e|uid] eqn:Hu; [intros [= <- <-]; split; [done|]; right; right; eauto|].
  cbn [of_sum ret]. unfold bind at 1, db_get, gets. change (tbl (work s)) with (users (work s)).
  destruct (users (work s) !! uid) as [row|] eqn:Hr; [|by intros [= <- <-]].
  destruct (negb (User.status row =? 1) || negb (User.deleted row =? 0)) eqn:Hact; [by intros [= <- <-]|].
  apply orb_false_iff in Hact as [?%negb_false_iff%Z.eqb_eq ?%negb_false_iff%Z.eqb_eq].
  assert (admitted decode_token blacklisted (Some a) s uid row) as Hadm.
  { eexists _, _. by split_and!. }
  intros _. apply admitted_run in Hadm as Hrun. rewrite H in Hrun. injection Hrun as -> ->. eauto.
Qed.

(** C1: A caller is let in if and only if the header is a bearer token that
    decodes, is not on the blacklist and names an enabled, undeleted user. The
    principal then has that user's id, name and administrator flag, exactly the
    permission codes granted to the user's roles and exactly the host groups
    these roles see. A caller who is not let in gets an UnauthorizedError, unless
    Redis fails or the subject of the token is no number. The lookup changes
    nothing. *)
Theorem get_current_user_sound decode_token blacklisted auth s r s' :
  get_current_user decode_token blacklisted auth s = (r, s') →
  s' = s ∧
  ((∃ u, r = inr u) ↔ ∃ uid row, admitted decode_token blacklisted auth s uid row) ∧
  (∀ u uid row, r = inr u → admitted decode_token blacklisted auth s uid row →
     user_id u = User.id row ∧ username u = User.username row ∧
     is_admin u = negb (User.is_admin row =? 0) ∧
     (∀ code, code ∈ permissions u ↔
        ∃ i p j rp k role l ur,
          Models.permissions (work s) !! i = Some p ∧ Permission.code p = code ∧
          role_permissions (work s) !! j = Some rp ∧ RolePermission.permission_id rp = Permission.id p ∧
          roles (work s) !! k = Some role ∧ Role.id role = RolePermission.role_id rp ∧
          user_roles (work s) !! l = Some ur ∧ UserRole.role_id ur = Role.id role ∧ UserRole.user_id ur = uid) ∧
     (∀ g, g ∈ visible_group_ids u ↔
        ∃ i j ur rg, user_roles (work s) !! i = Some ur ∧ UserRole.user_id ur = uid ∧
          role_host_groups (work s) !! j = Some rg ∧
          RoleHostGroup.role_id rg = UserRole.role_id ur ∧ RoleHostGroup.group_id rg = g)) ∧
  (∀ e, r = inl e → (∃ m, e = UnauthorizedError m) ∨ (∃ j, blacklisted j = inl e) ∨
     (∃ tok payload, decode_token tok = inr payload ∧ sub payload = inl e)).
Proof.
  intros H. destruct (get_current_user_run _ _ _ _ _ _ H) as [-> Hr]. split; [done|]. split_and!.
  - split; [by intros [u ->]|]. intros (uid & row & Ha%admitted_run). rewrite H in Ha. by eexists; injection Ha.
  - intros u uid row -> Ha%admitted_run. rewrite H in Ha. injection Ha as ->. cbn [user_id username is_admin permissions visible_group_ids].
    split_and!; [done..|intros code; apply elem_of_codes_of_user|intros g; apply elem_of_group_ids].
  - by intros e ->.
Qed.

(** ** Concrete states, for the witnesses of the components *)

(** A fresh server at noon on 2026-01-02. *)
Definition init_st : St := mkSt empty_db empty_db ∅ 1767355200000000 (2026, 1, 2) ∅ [].
Definition on_db (f : Db → Db) (s : St) : St :=
  s <| work := f (work s) |> <| committed := f (committed s) |>.
(** [config_rule] rows [{"value": true}] for the flags, from id [i] on. *)
Fixpoint flags_on (i : Z) (flags : list string) (d : Db) : Db :=
  match flags with
  | [] => d
  | f :: flags =>
      flags_on (i + 1) flags
        (d <| config_rules := <[i := ConfigRule.mk i f (JObj [("value", JBool true)]) ""]> (config_rules d) |>)
  end.
Definition admin : CurrentUser := mkUser 1 "admin" true [] [].
Definition plain_user (i : Z) (perms : list string) (groups : list Z) : CurrentUser :=
  mkUser i "user" false perms groups.

(** User 7 holds role 3, which grants [ticket:list] and sees group 5. *)
Definition login_db : Db :=
  empty_db <| users := {[7 := User.mk 7 "eve" "" "" "" "" 1 0 "local" None None None 0]} |>
           <| roles := {[3 := Role.mk 3 "ops" "ops" ""]} |>
           <| user_roles := {[1 := UserRole.mk 1 7 3]} |>
           <| Models.permissions := {[2 := Permission.mk 2 0 "ticket:list" "" "" "" "" 0 ""]} |>
           <| role_permissions := {[1 := RolePermission.mk 1 3 2]} |>
           <| role_host_groups := {[1 := RoleHostGroup.mk 1 3 5]} |>.
Definition login_st : St := on_db (λ _, login_db) init_st.

Lemma get_current_user_sound_witness :
  let run := get_current_user (λ _, inr (mkPayload (Some "j1") (inr 7))) (λ _, inr false)
               (Some "Bearer tok ") login_st in
  run.1 = inr (mkUser 7 "eve" false ["ticket:list"] [5]) ∧ run.2 = login_st.
Proof.
  split; [vm_compute; reflexivity|].
  eapply proj1, (get_current_user_sound (λ _, inr (mkPayload (Some "j1") (inr 7))) (λ _, inr false)
    (Some "Bearer tok ") login_st (inr (mkUser 7 "eve" false ["ticket:list"] [5]))).
  vm_compute. reflexivity.
Defined.
