(* ===== verification/Notify.v ===== *)
(** * Notifications: [services/notify_service.py]

    Channels with an encrypted configuration, the channel classes, sending with
    a record of every attempt, and sending again. What a channel answers is a
    parameter: [http_post url payload] is the error it raises, if any. *)

From S2P Require Import Prelude.
From S2P Require Import Models.
From S2P Require Import Session.
From S2P Require Import Repositories.
From S2P Require Import Access.

(** Request bodies (schemas/__init__.py). *)
Module ChannelCreate.
Record ChannelCreate := mk { name : string; type : string; config : json; enabled : Z }.
End ChannelCreate.
Module ChannelUpdate.
Record ChannelUpdate := mk { name : option string; config : option json; enabled : option Z }.
End ChannelUpdate.

(** [s[:n]] and [len(s)] of a UTF-8 string: a code point is a byte and the
    continuation bytes after it. *)
Definition continues (c : ascii) : bool := let b := Ascii.N_of_ascii c in (128 <=? b)%N && (b <? 192)%N.
Fixpoint str_take (n : nat) (s : string) : string :=
  match s with
  | EmptyString => ""
  | String c s' =>
      if continues c then String c (str_take n s')
      else match n with O => "" | S n => String c (str_take n s') end
  end.
Fixpoint str_len (s : string) : nat :=
  match s with
  | EmptyString => 0
  | String c s' => if continues c then str_len s' else S (str_len s')
  end.
Example str_take_ex : str_take 2 "é€a" = "é€" ∧ str_len "é€a" = 3%nat.
Proof. by split. Qed.

(** What a column VARCHAR(n) stores of a text: all of it, or without what is too
    much when that is spaces, or nothing. *)
Fixpoint all_spaces (s : string) : bool :=
  match s with EmptyString => true | String c s' => Ascii.eqb c " " && all_spaces s' end.
Fixpoint varchar_n (n : nat) (s : string) : option string :=
  match s with
  | EmptyString => Some EmptyString
  | String c s' =>
      if continues c then String c <$> varchar_n n s' else
      match n with
      | O => if all_spaces s then Some EmptyString else None
      | S n' => String c <$> varchar_n n' s'
      end
  end.
Example varchar_ex : varchar_n 2 "é€" = Some "é€" ∧ varchar_n 2 "ab " = Some "ab" ∧ varchar_n 2 "abc" = None.
Proof. by split_and!. Qed.

Definition no_attribute : exn := OtherError "AttributeError: object has no attribute 'get'".
(** [d.get(k)] of a decoded JSON value *)
Definition dict_get {S} (k : string) (d : json) : M S json :=
  match d with JObj o => ret (default JNull (assoc_get k o)) | _ => raise no_attribute end.
(** [x or y] *)
Definition j_or (x y : json) : json := if truthy x then x else y.

(** An INSERT that no constraint can refuse. *)
Lemma wp_db_add_fresh {R} `{Table R} (r : R) (Q : exn + R → St → Prop) s :
  wf_table R s → (∀ i t, row_check (tbl_init i t r) = true) →
  (∀ i t j x, tbl (work s) !! j = Some x → conflict (tbl_init i t r) x = false) →
  (∀ row s1, row = tbl_init (row_id row) (now s) r → wf_table R s1 → only_table R s s1 →
     tbl (work s1) = <[row_id row := row]> (tbl (work s)) → tbl (work s) !! row_id row = None →
     Q (inr row) s1) →
  wp (db_add r) Q s.
Proof.
  intros Hwf Hc Hu HQ. pose proof (wf_preserves_add r s Hwf) as Hwf1. apply wp_db_add. intros n row Hn Hrow.
  assert (row_id row = n) as Hid by (rewrite Hrow; apply row_id_init).
  assert (accepts (tbl (work s)) n row = true) as Hacc.
  { unfold next_value in Hn. subst n row. destruct Hwf as [Hw _]. apply (accepts_fresh _ _ _ Hw); [apply Hc|].
    intros j x Hj. by eapply Hu. }
  split; intros Hacc'; [|congruence].
  apply HQ; rewrite ?Hid, ?tbl_put_row; [done| |apply only_table_put|done|by eapply accepts_none].
  unfold db_add in Hwf1. cbv zeta in Hwf1. rewrite <-Hn, <-Hrow, Hacc in Hwf1. exact Hwf1.
Qed.

Section notify.
Variable encrypt_secret : string → string.
(** [None] when it raises. *)
Variable decrypt_secret : string → option string.
Variable dumps : json → string.
Variable loads : string → option json.
Variable http_post : json → json → option exn.
(** [str(exc)[:512]] *)
Variable exc_text : exn → string.

(** ** The channel classes *)

Definition post (url payload : json) : Op () :=
  emit_out (EPost url payload);;
  match http_post url payload with Some e => raise e | None => ret () end.
Definition text_payload (title content : string) : json :=
  JObj [("msgtype", JStr "text"); ("text", JObj [("content", JStr (title +:+ String (Ascii.ascii_of_N 10) content))])].

Definition LarkChannel_send (config : json) (target title content : string) : Op () :=
  w ← dict_get "webhook" config;
  guard_or (truthy (j_or w (JStr target))) (BadRequestError "lark webhook not configured");;
  post (j_or w (JStr target)) (JObj [
    ("msg_type", JStr "interactive");
    ("card", JObj [
      ("header", JObj [("title", JObj [("tag", JStr "plain_text"); ("content", JStr title)])]);
      ("elements", JArr [JObj [("tag", JStr "markdown"); ("content", JStr content)]])])]).
Definition EmailChannel_send (config : json) (target title content : string) : Op () :=
  h ← dict_get "smtp_host" config;
  guard_or (truthy h) (BadRequestError "email smtp not configured");;
  raise (OtherError "smtp send delegated to production mailer").
Definition WebhookChannel_send (config : json) (target title content : string) : Op () :=
  u ← dict_get "url" config;
  post (j_or u (JStr target)) (JObj [("title", JStr title); ("content", JStr content)]).
(** The same for wecom. *)
Definition DingtalkChannel_send (config : json) (target title content : string) : Op () :=
  u ← dict_get "webhook" config;
  post (j_or u (JStr target)) (text_payload title content).
Definition _CHANNELS : list (string * (json → string → string → string → Op ())) := [
  ("lark", LarkChannel_send); ("email", EmailChannel_send); ("dingtalk", DingtalkChannel_send);
  ("wecom", DingtalkChannel_send); ("webhook", WebhookChannel_send)].

Definition _decrypt_config (channel : NotifyChannel.NotifyChannel) : json :=
  default (JObj []) (decrypt_secret (NotifyChannel.config_enc channel) ≫= loads).
Definition _mask_config (config : list (string * json)) : list (string * json) :=
  (λ kv, match kv.2 with
         | JStr v => if (8 <? str_len v)%nat || str_in kv.1 ["webhook"; "smtp_password"]
                     then (kv.1, JStr (str_take 4 v +:+ "****")) else kv
         | _ => kv
         end) <$> config.

(** ** Channels *)

Definition channel_out (c : NotifyChannel.NotifyChannel) : Op json :=
  items ← match _decrypt_config c with JObj o => ret o | _ => raise no_attribute end;
  ret (JObj [
    ("id", JInt (NotifyChannel.id c)); ("name", JStr (NotifyChannel.name c)); ("type", JStr (NotifyChannel.type c));
    ("enabled", JInt (NotifyChannel.enabled c)); ("config_mask", JObj (_mask_config items));
    ("created_at", jtime (Some (NotifyChannel.created_at c)))]).
Definition list_channels : Op json :=
  l ← db_select (λ _ : NotifyChannel.NotifyChannel, true);
  out ← map_each l channel_out;
  ret (JArr out).
Definition create_channel (data : ChannelCreate.ChannelCreate) : Op Z :=
  guard_or (str_in (ChannelCreate.type data) _CHANNELS.*1)
    (BadRequestError ("unsupported channel type: " +:+ ChannelCreate.type data));;
  c ← db_add (NotifyChannel.mk 0 (ChannelCreate.name data) (ChannelCreate.type data)
                (encrypt_secret (dumps (ChannelCreate.config data))) (ChannelCreate.enabled data) 0);
  db_commit;;
  ret (NotifyChannel.id c).
Definition the_channel (channel_id : Z) : Op NotifyChannel.NotifyChannel :=
  o ← db_get channel_id; some_or o (NotFoundError "channel not found").
Definition update_channel (channel_id : Z) (data : ChannelUpdate.ChannelUpdate) : Op () :=
  _ ← the_channel channel_id;
  db_upd channel_id (λ c : NotifyChannel.NotifyChannel,
    c <| NotifyChannel.name := s_or (ChannelUpdate.name data) (NotifyChannel.name c) |>
      <| NotifyChannel.config_enc := match ChannelUpdate.config data with
                                     | Some cfg => encrypt_secret (dumps cfg)
                                     | None => NotifyChannel.config_enc c end |>
      <| NotifyChannel.enabled := default (NotifyChannel.enabled c) (ChannelUpdate.enabled data) |>);;
  db_commit.
Definition delete_channel (channel_id : Z) : Op () :=
  _ ← the_channel channel_id;
  db_delete (R:=NotifyChannel.NotifyChannel) channel_id;;
  db_commit.
Definition set_channel_status (channel_id enabled : Z) : Op () :=
  _ ← the_channel channel_id;
  db_upd channel_id (λ c : NotifyChannel.NotifyChannel, c <| NotifyChannel.enabled := enabled |>);;
  db_commit.

(** ** Sending *)

Definition new_record (channel_id : option Z) (scene target title content status : string)
    (error_msg : option string) (sent_at : option Z) : NotifyRecord.NotifyRecord :=
  NotifyRecord.mk 0 channel_id scene target title content status error_msg sent_at 0.
Definition sent_out (error_msg : option string) : json := JObj [
  ("ok", JBool (match error_msg with None => true | Some _ => false end)); ("reason", js error_msg)].
(** The channel's own [send]: [None] when it was sent, else the error's text. *)
Definition channel_send (channel : NotifyChannel.NotifyChannel) (target title content : string) : Op (option string) :=
  try_catch
    (cls ← some_or (assoc_get (NotifyChannel.type channel) _CHANNELS) (BadRequestError "unsupported channel type");
     cls (_decrypt_config channel) target title content;;
     ret None)
    (λ e, ret (Some (exc_text e))).
(** The row as [notify_record] takes it: [scene] is a VARCHAR(16), [target] and
    [title] are VARCHAR(256). *)
Definition insertable (r : NotifyRecord.NotifyRecord) : exn + NotifyRecord.NotifyRecord :=
  if existsb has_nul [NotifyRecord.scene r; NotifyRecord.target r; NotifyRecord.title r; NotifyRecord.content r;
                      default "" (NotifyRecord.error_msg r)]
  then inl (ValueError "A string literal cannot contain NUL (0x00) characters.") else
  match varchar_n 16 (NotifyRecord.scene r), varchar_n 256 (NotifyRecord.target r), varchar_n 256 (NotifyRecord.title r) with
  | Some scene, Some target, Some title =>
      inr (r <| NotifyRecord.scene := scene |> <| NotifyRecord.target := target |> <| NotifyRecord.title := title |>)
  | _, _, _ => inl (OtherError "DataError: value too long for type character varying")
  end.
Definition store_record (r : NotifyRecord.NotifyRecord) : Op json :=
  db_flush;;
  row ← match insertable r with inr row => ret row | inl e => raise e end;
  _ ← db_add row;
  db_commit;;
  ret (sent_out (NotifyRecord.error_msg r)).
Definition send (channel_id : option Z) (scene target title content : string) : Op json :=
  o ← match channel_id with Some i => db_get i | None => ret None end;
  match o with
  | Some channel =>
      if NotifyChannel.enabled channel =? 1 then
        error ← channel_send channel target title content;
        n ← utc_now;
        store_record (match error with
          | None => new_record channel_id scene target title content "sent" None (Some n)
          | Some m => new_record channel_id scene target title content "failed" (Some m) None
          end)
      else store_record (new_record channel_id scene target title content "failed" (Some "channel disabled or missing") None)
  | None => store_record (new_record channel_id scene target title content "failed" (Some "channel disabled or missing") None)
  end.
Definition test_send (channel_id : Z) (title content : string) : Op json :=
  send (Some channel_id) "test" "" title content.

Definition record_out (r : NotifyRecord.NotifyRecord) : json := JObj [
  ("id", JInt (NotifyRecord.id r)); ("channel_id", jz (NotifyRecord.channel_id r));
  ("scene", JStr (NotifyRecord.scene r)); ("target", JStr (NotifyRecord.target r));
  ("title", JStr (NotifyRecord.title r)); ("content", JStr (NotifyRecord.content r));
  ("status", JStr (NotifyRecord.status r)); ("error_msg", js (NotifyRecord.error_msg r));
  ("sent_at", jtime (NotifyRecord.sent_at r)); ("created_at", jtime (Some (NotifyRecord.created_at r)))].
(** [start] and [end] as the database reads them. *)
Definition list_records (channel_id : option Z) (scene status : option string) (start end_ : option Z)
    (page size : Z) : Op json :=
  rows ← db_select (λ r : NotifyRecord.NotifyRecord,
    (if z_truthy channel_id then bool_decide (NotifyRecord.channel_id r = channel_id) else true) &&
    (if s_truthy scene then bool_decide (Some (NotifyRecord.scene r) = scene) else true) &&
    (if s_truthy status then bool_decide (Some (NotifyRecord.status r) = status) else true) &&
    (match start with Some t => t <=? NotifyRecord.created_at r | None => true end) &&
    (match end_ with Some t => NotifyRecord.created_at r <=? t | None => true end));
  ret (JObj [("list", JArr (record_out <$> page_of rows page size));
             ("total", JInt (Z.of_nat (length rows))); ("page", JInt page); ("size", JInt size)]).
Definition resend (record_id : Z) : Op json :=
  o ← db_get record_id;
  r ← some_or o (NotFoundError "record not found");
  send (NotifyRecord.channel_id r) (NotifyRecord.scene r) (NotifyRecord.target r)
    (NotifyRecord.title r) (NotifyRecord.content r).

(** ** What a sending leaves behind *)

(** One record is added to the committed rows, whatever happens. *)
Definition recorded (s : St) (rec : NotifyRecord.NotifyRecord) (s1 : St) : Prop :=
  tbl (R:=NotifyRecord.NotifyRecord) (work s) !! NotifyRecord.id rec = None ∧
  NotifyRecord.created_at rec = now s ∧
  committed s1 = set_tbl (<[NotifyRecord.id rec := rec]> (tbl (work s))) (work s) ∧ work s1 = committed s1.

Lemma db_flush_empty s : unflushed (work s) = [] → db_flush s = (inr (), s).
Proof.
  intros E. unfold db_flush, bind, gets, modify. rewrite E. cbn. f_equal.
  destruct s as [w c q n d sl o]. cbn in *. destruct w. cbn in *. by subst.
Qed.
Lemma wp_store_record r (Q : exn + json → St → Prop) s :
  wf_table NotifyRecord.NotifyRecord s → unflushed (work s) = [] →
  match insertable r with
  | inl e => Q (inl e) s
  | inr row => ∀ rec s1, rec = row <| NotifyRecord.id := NotifyRecord.id rec |> <| NotifyRecord.created_at := now s |> →
     recorded s rec s1 → out s1 = out s → Q (inr (sent_out (NotifyRecord.error_msg r))) s1
  end →
  wp (store_record r) Q s.
Proof.
  intros Hwf Hu HQ. unfold store_record. wp_step. unfold wp at 1. rewrite (db_flush_empty s Hu). cbn [fst snd].
  wp_step. destruct (insertable r) as [e|r']; [by wp_run|]. wp_step.
  wp_step. apply (wp_db_add_fresh r'); [exact Hwf|done|done|]. intros row s1 Hrow _ Ho Et Hn. do 3 wp_step.
  apply (HQ row); [exact Hrow| |by destruct Ho as (_ & _ & _ & _ & _ & _ & Ho)].
  destruct Ho as (Ew & _). unfold recorded. split_and!; [exact Hn|by rewrite Hrow| |done].
  cbn. change (NotifyRecord.id row) with (row_id row). by rewrite <-Et.
Qed.

(** What [channel_send] does outside: at most one request. *)
Lemma channel_send_run c target title content s :
  ∃ error posts, channel_send c target title content s = (inr error, s <| out := out s ++ posts |>) ∧
    match error with
    | None => ∃ url payload, posts = [EPost url payload] ∧ http_post url payload = None
    | Some _ => posts = [] ∨ ∃ url payload, posts = [EPost url payload] ∧ is_Some (http_post url payload)
    end.
Proof.
  assert (∀ url payload s,
    post url payload s = (match http_post url payload with Some e => inl e | None => inr () end,
      s <| out := out s ++ [EPost url payload] |>)) as Hpost.
  { intros url payload s0. unfold post, bind, emit_out, modify, raise, ret. by destruct (http_post url payload). }
  assert (s = s <| out := out s ++ [] |>) as Hnil by (rewrite app_nil_r; by destruct s).
  unfold channel_send, try_catch, bind, some_or, raise, ret.
  destruct (assoc_get _ _) as [cls|] eqn:Hcls; [|eexists _, []; split; [by rewrite <-Hnil|by left]].
  set (cfg := _decrypt_config c). clearbody cfg.
  enough ((∃ e, cls cfg target title content s = (inl e, s)) ∨
    ∃ url payload, cls cfg target title content s = post url payload s) as [[e ->]|(url & payload & ->)].
  { eexists _, []. split; [by rewrite <-Hnil|by left]. }
  { rewrite Hpost. destruct (http_post url payload) as [e|] eqn:E; eexists _, _; (split; [reflexivity|]); [right|];
    exists url, payload; by rewrite E. }
  unfold _CHANNELS in Hcls. cbn in Hcls.
  repeat case_bool_decide; simplify_eq;
    unfold LarkChannel_send, EmailChannel_send, DingtalkChannel_send, WebhookChannel_send, dict_get, bind, guard_or, raise, ret;
    (destruct cfg; [by left; eexists..|]); cbn; repeat case_match; simplify_eq; eauto.
Qed.

(** The record tells what happened: [before] and [after] are what had left the
    process. *)
Definition tells (s : St) (after : list Effect) (rec : NotifyRecord.NotifyRecord) : Prop :=
  match NotifyRecord.error_msg rec with
  | None =>
      NotifyRecord.status rec = "sent" ∧ NotifyRecord.sent_at rec = Some (now s) ∧
      ∃ i c url payload, NotifyRecord.channel_id rec = Some i ∧ tbl (work s) !! i = Some c ∧
        NotifyChannel.enabled c = 1 ∧ after = out s ++ [EPost url payload] ∧ http_post url payload = None
  | Some _ =>
      NotifyRecord.status rec = "failed" ∧ NotifyRecord.sent_at rec = None ∧
      (after = out s ∨ ∃ url payload, after = out s ++ [EPost url payload] ∧ is_Some (http_post url payload))
  end.

(** C26: sending makes at most one request and then adds exactly one record,
    committed at once together with whatever the caller had not committed. The
    record says [sent] exactly when the channel was enabled and the request was
    accepted, and otherwise carries the reason. When the columns cannot hold the
    texts (a title of more than 256 characters, say) sending raises after the
    request was made, and nothing is committed. *)
Theorem send_spec channel_id scene target title content s r s1 :
  wf_table NotifyRecord.NotifyRecord s → unflushed (work s) = [] →
  send channel_id scene target title content s = (r, s1) →
  ∃ status error sent_at,
    let row := new_record channel_id scene target title content status error sent_at in
    tells s (out s1) row ∧
    match insertable row with
    | inr row' => r = inr (sent_out error) ∧
        ∃ rec, recorded s rec s1 ∧
          rec = row' <| NotifyRecord.id := NotifyRecord.id rec |> <| NotifyRecord.created_at := now s |>
    | inl e => r = inl e ∧ work s1 = work s ∧ committed s1 = committed s
    end.
Proof.
  intros Hwf Hu Hrun. by_wp Hrun. unfold send.
  assert (∀ status error at_ posts,
    let row := new_record channel_id scene target title content status error at_ in
    tells s (out s ++ posts) row →
    wp (store_record row) (λ r s1, ∃ status error sent_at,
      let row := new_record channel_id scene target title content status error sent_at in
      tells s (out s1) row ∧
      match insertable row with
      | inr row' => r = inr (sent_out error) ∧ ∃ rec, recorded s rec s1 ∧
          rec = row' <| NotifyRecord.id := NotifyRecord.id rec |> <| NotifyRecord.created_at := now s |>
      | inl e => r = inl e ∧ work s1 = work s ∧ committed s1 = committed s
      end) (s <| out := out s ++ posts |>)) as Hstore.
  { intros status error at_ posts row Ht. apply wp_store_record; [done..|].
    destruct (insertable row) as [e|row'] eqn:Er; unfold row in *.
    - exists status, error, at_. split; [exact Ht|]. by rewrite Er.
    - intros rec s2 Hrec Hr Ho. exists status, error, at_. split; [rewrite Ho; exact Ht|]. rewrite Er.
      split; [done|]. by exists rec. }
  cbv zeta in Hstore.
  pose proof (Hstore "failed" (Some "channel disabled or missing") None []) as Hskip.
  specialize (Hskip ltac:(split_and!; [done..|left; apply app_nil_r])).
  replace (s <| out := out s ++ [] |>) with s in Hskip by (rewrite app_nil_r; by destruct s).
  wp_step. apply (wp_reads _ _ s).
  { destruct channel_id; auto with preserves. }
  intros o Ho. assert (o = inr (match channel_id with Some i => tbl (work s) !! i | None => None end)) as ->
    by (destruct channel_id; injection Ho as <-; done).
  cbv beta iota. destruct channel_id as [i|]; [|exact Hskip]. destruct (tbl (work s) !! i) as [c|] eqn:Hc; [|exact Hskip].
  destruct (NotifyChannel.enabled c =? 1) eqn:Hen; [|exact Hskip].
  destruct (channel_send_run c target title content s) as (error & posts & E & Hposts).
  wp_step. unfold wp at 1. rewrite E. cbn [fst snd]. do 2 wp_step.
  destruct error as [m|]; apply Hstore.
  - split_and!; [done..|]. destruct Hposts as [->|(url & payload & -> & ?)]; [left; apply app_nil_r|right; eauto].
  - destruct Hposts as (url & payload & -> & ?). split_and!; [done..|]. exists i, c, url, payload. split_and!; try done. lia.
Qed.

(** ** The API (api/v1/endpoints/notify.py) *)

Inductive notify_request :=
  | NList (u : CurrentUser)
  | NCreate (u : CurrentUser) (d : ChannelCreate.ChannelCreate)
  | NUpdate (u : CurrentUser) (i : Z) (d : ChannelUpdate.ChannelUpdate)
  | NDelete (u : CurrentUser) (i : Z)
  | NStatus (u : CurrentUser) (i enabled : Z)
  | NTest (u : CurrentUser) (i : Z) (title content : string)
  | NRecords (u : CurrentUser) (c : option Z) (scene status : option string) (start end_ : option Z) (page size : Z)
  | NResend (u : CurrentUser) (i : Z).
Definition notify_handle (q : notify_request) : Op json :=
  match q with
  | NList u => require_perm u "notify:channel:list";; list_channels
  | NCreate u d => require_perm u "notify:channel:add";; i ← create_channel d; ret (JObj [("id", JInt i)])
  | NUpdate u i d => require_perm u "notify:channel:edit";; update_channel i d;; ret JNull
  | NDelete u i => require_perm u "notify:channel:del";; delete_channel i;; ret JNull
  | NStatus u i e => require_perm u "notify:channel:edit";; set_channel_status i e;; ret JNull
  | NTest u i t c => require_perm u "notify:channel:test";; test_send i t c
  | NRecords u c sc st a b p z => require_perm u "notify:record:list";; list_records c sc st a b p z
  | NResend u i => require_perm u "notify:record:list";; resend i
  end.
End notify.

(** ** Witnesses *)

(** Channel 1 posts to an address that answers, channel 2 to one that does not. *)
Definition notify_st : St :=
  on_db (λ _, empty_db <| notify_channels := {[
    1 := NotifyChannel.mk 1 "ops" "webhook" "http://ok" 1 0; 2 := NotifyChannel.mk 2 "old" "webhook" "http://down" 1 0;
    3 := NotifyChannel.mk 3 "off" "lark" "http://ok" 0 0]} |>) init_st <| seqs := {["notify_channel" := 3]} |>.
Definition send_to (i : Z) : (exn + json) * St :=
  send Some (λ u, Some (JObj [("url", JStr u)]))
    (λ url _, match url with JStr "http://down" => Some (OtherError "down") | _ => None end) (λ _, "down")
    (Some i) "alert" "" "disk full" "host 4" notify_st.
(** A title of 257 characters *)
Definition long_title : string := String.concat "" (replicate 257 "x").
Definition send_long : (exn + json) * St :=
  send Some (λ u, Some (JObj [("url", JStr u)])) (λ _ _, None) (λ _, "down") (Some 1) "alert" "" long_title "host 4" notify_st.

Lemma send_spec_witness :
  (send_to 1).1 = inr (sent_out None) ∧ (send_to 2).1 = inr (sent_out (Some "down")) ∧
  out (send_to 2).2 = [EPost (JStr "http://down") (JObj [("title", JStr "disk full"); ("content", JStr "host 4")])] ∧
  (∃ rec, recorded notify_st rec (send_to 1).2 ∧ NotifyRecord.title rec = "disk full") ∧
  length (out send_long.2) = 1%nat ∧ committed send_long.2 = committed notify_st.
Proof.
  assert (wf_table NotifyRecord.NotifyRecord notify_st) as Hwf by (apply wf_tableb_spec; vm_compute; reflexivity).
  do 3 (split; [vm_compute; reflexivity|]). split; [|split; [vm_compute; reflexivity|]].
  - destruct (send_spec Some (λ u, Some (JObj [("url", JStr u)]))
      (λ url _, match url with JStr "http://down" => Some (OtherError "down") | _ => None end) (λ _, "down")
      (Some 1) "alert" "" "disk full" "host 4" notify_st (inr (sent_out None)) (send_to 1).2 Hwf eq_refl)
      as (status & error & at_ & _ & H).
    { unfold send_to. apply run_pair. vm_compute. reflexivity. }
    destruct (insertable _) as [e|row'] eqn:E; [by destruct H|]. destruct H as (_ & rec & Hrec & Hr).
    exists rec. split; [exact Hrec|]. rewrite Hr. clear Hr. unfold insertable in E. cbn [new_record NotifyRecord.scene NotifyRecord.target
      NotifyRecord.title NotifyRecord.content] in E.
    destruct (existsb _ _); [done|]. vm_compute (varchar_n _ _) in E. by injection E as <-.
  - destruct (send_spec Some (λ u, Some (JObj [("url", JStr u)])) (λ _ _, None) (λ _, "down")
      (Some 1) "alert" "" long_title "host 4" notify_st
      (inl (OtherError "DataError: value too long for type character varying")) send_long.2 Hwf eq_refl)
      as (status & error & at_ & _ & H).
    { unfold send_long. apply run_pair. vm_compute. reflexivity. }
    destruct (insertable _) as [e|row']; [apply H|by destruct H].
Defined.
