(* ===== verification/Security.v ===== *)
(** * JSON web tokens: [create_token] and [decode_token] of core/security.py

    [jose.jwt.encode]/[decode] under the application key and [uuid4().hex] are
    parameters; the claims are written out. *)

From S2P Require Import Prelude.
From S2P Require Import Models.
From S2P Require Import Session.

Definition microseconds : Z := 1000000.
Definition hours (n : Z) : Z := n * 3600 * microseconds.

Section tokens.
(** [jwt.encode(payload, settings.secret_key, algorithm=settings.algorithm)] *)
Variable jwt_encode : json → string.
(** [jwt.decode] at a time: [None] for a bad signature or an expired token *)
Variable jwt_decode : Z → string → option json.
(** [uuid.uuid4().hex] *)
Variable _jti : St → string.

(** [payload.update(extra)] *)
Definition update_payload (payload : json) (extra : list (string * json)) : json :=
  foldl (λ p kv, jset kv.1 kv.2 p) payload extra.

(** jose writes the datetime claims as whole seconds. *)
Definition token_payload (now : Z) (jti subject token_type : string) (expires_delta : Z)
    (extra : list (string * json)) : json :=
  update_payload (JObj [("sub", JStr subject); ("type", JStr token_type); ("jti", JStr jti);
    ("iat", JInt (now / microseconds)); ("exp", JInt ((now + expires_delta) / microseconds))]) extra.

Definition create_token (subject : Z) (token_type : string) (expires_delta : Z)
    (extra : list (string * json)) : Op string :=
  t ← utc_now;
  j ← gets _jti;
  ret (jwt_encode (token_payload t j (pretty subject) token_type expires_delta extra)).

(** [payload.get("type") != expected_type] *)
Definition has_type (expected : string) (payload : json) : bool :=
  match jget "type" payload with Some (JStr t) => bool_decide (t = expected) | _ => false end.

Definition decode_token (token expected_type : string) : Op json :=
  t ← utc_now;
  payload ← some_or (jwt_decode t token) (ValueError "invalid token");
  guard_or (has_type expected_type payload) (ValueError "unexpected token type");;
  ret payload.
End tokens.
