(* ===== verification/Paths.v ===== *)
(** * Paths of transfers: [path_within_whitelist] and [_safe_rel_path] of
    services/transfer_service.py, on Python's [posixpath.normpath] *)

From S2P Require Import Prelude.

(** [s.split("/")], [sep.join(parts)], [s.startswith(p)] is [starts_with p s] *)
Definition slash : ascii := "/"%char.
Fixpoint split_slash (s : string) : list string :=
  match s with
  | EmptyString => [""]
  | String c s =>
      match split_slash s with
      | w :: ws => if Ascii.eqb c slash then "" :: w :: ws else String c w :: ws
      | [] => []
      end
  end.
Fixpoint join_slash (l : list string) : string :=
  match l with
  | [] => ""
  | [w] => w
  | w :: ws => w +:+ "/" +:+ join_slash ws
  end.
(** [s.lstrip("/")] and [s.rstrip("/")] *)
Fixpoint lstrip_slash (s : string) : string :=
  match s with
  | String c s' => if Ascii.eqb c slash then lstrip_slash s' else s
  | EmptyString => ""
  end.
Fixpoint rstrip_slash (s : string) : string :=
  match s with
  | EmptyString => ""
  | String c s' =>
      let t := rstrip_slash s' in
      if Ascii.eqb c slash && bool_decide (t = "") then "" else String c t
  end.
Fixpoint slashes (n : nat) : string := match n with O => "" | S n => String slash (slashes n) end.

(** ** [posixpath.normpath] *)

(** POSIX keeps two leading slashes apart from one; three are one. *)
Definition leading (p : string) : nat :=
  if starts_with "/" p then if starts_with "//" p && negb (starts_with "///" p) then 2%nat else 1%nat else 0%nat.
(** One component; what is kept so far, the last one first. *)
Definition norm_step (rooted : bool) (kept : list string) (comp : string) : list string :=
  if str_in comp [""; "."] then kept else
  if negb (bool_decide (comp = "..")) ||
     match kept with
     | [] => negb rooted
     | top :: _ => bool_decide (top = "..")
     end
  then comp :: kept
  else match kept with [] => [] | _ :: rest => rest end.
Definition norm_comps (p : string) : list string :=
  reverse (foldl (norm_step (negb (leading p =? 0)%nat)) [] (split_slash p)).
Definition normpath (p : string) : string :=
  let path := slashes (leading p) +:+ join_slash (norm_comps p) in
  if bool_decide (path = "") then "." else path.

(** ** [transfer_service] *)

Definition within (p prefix : string) : bool :=
  let base := normpath prefix in
  starts_with "/" base && (bool_decide (p = base) || starts_with (rstrip_slash base +:+ "/") p).
Definition path_within_whitelist (path : string) (whitelist : list string) : bool :=
  if bool_decide (path = "") || negb (starts_with "/" path) then false else
  let p := normpath path in
  if bool_decide (p = "/") || existsb (λ seg, str_in seg [".."; "."]) (split_slash p) then false else
  existsb (within p) whitelist.

Fixpoint slashed (s : string) : string :=
  match s with
  | EmptyString => ""
  | String c s => String (if Ascii.eqb c "\"%char then slash else c) (slashed s)
  end.
(** [None] for the [BadRequestError] *)
Definition _safe_rel_path (name : string) : option string :=
  let n := lstrip_slash (slashed (if bool_decide (name = "") then "file" else name)) in
  let parts := filter (λ p, str_in p [""; "."] = false) (split_slash n) in
  if existsb (λ p, bool_decide (p = "..")) parts || bool_decide (parts = []) then None
  else Some (join_slash parts).

(** ** Splitting and joining *)

Definition slash_free (w : string) : Prop := split_slash w = [w].
(** A proper component: a name of a file or directory *)
Definition proper (w : string) : Prop := slash_free w ∧ w ≠ "".

Lemma split_nonempty s : split_slash s ≠ [].
Proof. induction s as [|c s IH]; [done|]. cbn. destruct (split_slash s); [done|]. by destruct (Ascii.eqb c slash). Qed.
Lemma split_cons_slash s : split_slash (String slash s) = "" :: split_slash s.
Proof. cbn. pose proof (split_nonempty s). by destruct (split_slash s). Qed.
Lemma split_app s t : split_slash (s +:+ String slash t) = split_slash s ++ split_slash t.
Proof.
  induction s as [|c s IH].
  - change ("" +:+ String slash t) with (String slash t). by rewrite split_cons_slash.
  - change (String c s +:+ String slash t) with (String c (s +:+ String slash t)). cbn [split_slash]. rewrite IH.
    pose proof (split_nonempty s). destruct (split_slash s) as [|w ws]; [done|]. cbn.
    by destruct (Ascii.eqb c slash).
Qed.
Lemma split_slash_free s : Forall slash_free (split_slash s).
Proof.
  induction s as [|c s IH]; [by repeat constructor|]. cbn.
  destruct (split_slash s) as [|w ws]; [done|]. apply Forall_cons in IH as [Hw Hws].
  destruct (Ascii.eqb c slash) eqn:E; [by repeat constructor|]. constructor; [|done].
  unfold slash_free in *. cbn. rewrite Hw. by rewrite E.
Qed.
Lemma split_join l : l ≠ [] → Forall slash_free l → split_slash (join_slash l) = l.
Proof.
  induction l as [|w l IH]; [done|]. intros _ [Hw Hl]%Forall_cons. destruct l as [|w' l]; [exact Hw|].
  change (join_slash (w :: w' :: l)) with (w +:+ String slash (join_slash (w' :: l))).
  rewrite split_app, Hw, IH by done. reflexivity.
Qed.
Lemma str_app_assoc (a b c : string) : (a +:+ b) +:+ c = a +:+ (b +:+ c).
Proof. induction a as [|x a IH]; [done|]. exact (f_equal (String x) IH). Qed.
Lemma join_app l k : l ≠ [] → k ≠ [] → join_slash (l ++ k) = join_slash l +:+ String slash (join_slash k).
Proof.
  intros Hl Hk. induction l as [|w l IH]; [done|]. destruct l as [|w' l].
  - cbn. by destruct k.
  - change (join_slash ((w :: w' :: l) ++ k)) with (w +:+ String slash (join_slash ((w' :: l) ++ k))).
    rewrite IH by done. change (join_slash (w :: w' :: l)) with (w +:+ String slash (join_slash (w' :: l))).
    by rewrite str_app_assoc.
Qed.
Lemma split_rooted n l : Forall slash_free l → split_slash (slashes n +:+ join_slash l) = replicate n "" ++ match l with [] => [""] | _ => l end.
Proof.
  intros Hl. induction n as [|n IH].
  - destruct l; [done|]. by apply split_join.
  - change (slashes (S n) +:+ join_slash l) with (String slash (slashes n +:+ join_slash l)).
    rewrite split_cons_slash, IH. done.
Qed.
Lemma starts_with_app p t : starts_with p (p +:+ t) = true.
Proof. induction p as [|c p IH]; [by destruct t|].
  change (Ascii.eqb c c && starts_with p (p +:+ t) = true). by rewrite Ascii.eqb_refl. Qed.
Lemma starts_with_inv p s : starts_with p s = true → ∃ t, s = p +:+ t.
Proof.
  revert s. induction p as [|c p IH]; intros s; [by exists s|]. destruct s as [|d s]; [done|]. cbn.
  intros [->%Ascii.eqb_eq (t & ->)%IH]%andb_true_iff. by exists t.
Qed.

(** ** What [normpath] returns *)

Lemma norm_step_proper rooted kept comp :
  slash_free comp → Forall proper kept → (rooted = true → ".." ∉ kept) → "." ∉ kept →
  Forall proper (norm_step rooted kept comp) ∧ (rooted = true → ".." ∉ norm_step rooted kept comp) ∧
  "." ∉ norm_step rooted kept comp.
Proof.
  intros Hc Hk Hr Hd. unfold norm_step. destruct (str_in comp [""; "."]) eqn:Ein; [done|].
  assert (comp ≠ "" ∧ comp ≠ ".") as [Hne Hnd].
  { split; intros ->; discriminate Ein. }
  destruct (negb (bool_decide (comp = "..")) || _) eqn:E.
  - split; [by repeat constructor|]. split; [|by rewrite elem_of_cons; intros [<-|?]].
    intros Hroot. rewrite elem_of_cons. intros [<-|Hin]; [|by apply Hr].
    rewrite bool_decide_true in E by done. cbn in E. destruct kept as [|top rest]; [by rewrite Hroot in E|].
    apply bool_decide_eq_true in E as ->. apply Hr; [done|]. by apply elem_of_cons; left.
  - destruct kept as [|top rest]; [by split_and!|]. apply Forall_cons in Hk as [_ Hk].
    split; [done|]. split; [|intros ?; apply Hd; by apply elem_of_cons; right].
    intros H ?. apply Hr; [done|]. by apply elem_of_cons; right.
Qed.
Lemma norm_comps_proper p :
  Forall proper (norm_comps p) ∧ ((0 < leading p)%nat → ".." ∉ norm_comps p) ∧ "." ∉ norm_comps p.
Proof.
  unfold norm_comps. set (rooted := negb (leading p =? 0)%nat).
  assert (∀ l kept, Forall slash_free l → Forall proper kept → (rooted = true → ".." ∉ kept) → "." ∉ kept →
    Forall proper (foldl (norm_step rooted) kept l) ∧ (rooted = true → ".." ∉ foldl (norm_step rooted) kept l) ∧
    "." ∉ foldl (norm_step rooted) kept l) as H.
  { induction l as [|c l IH]; intros kept Hl Hk Hr Hd; [done|]. apply Forall_cons in Hl as [Hc Hl]. cbn.
    destruct (norm_step_proper rooted kept c Hc Hk Hr Hd) as (? & ? & ?). by apply IH. }
  destruct (H (split_slash p) []) as (H1 & H2 & H3);
    [apply split_slash_free|constructor|intros _; by apply not_elem_of_nil|by apply not_elem_of_nil|].
  split; [by apply Forall_reverse|]. rewrite !elem_of_reverse. split; [|done].
  intros Hl. apply H2. unfold rooted. destruct (leading p); [lia|done].
Qed.
Lemma proper_slash_free l : Forall proper l → Forall slash_free l.
Proof. intros Hl. eapply Forall_impl; [exact Hl|]. by intros w [? _]. Qed.
Lemma leading_cases p : leading p = O ∧ starts_with "/" p = false ∨
  (leading p = 1%nat ∨ leading p = 2%nat) ∧ starts_with "/" p = true.
Proof. unfold leading. destruct (starts_with "/" p); [|by left]. right. destruct (_ && _); auto. Qed.
Lemma normpath_rooted p : (0 < leading p)%nat → normpath p = slashes (leading p) +:+ join_slash (norm_comps p).
Proof. intros H. unfold normpath. rewrite bool_decide_false; [done|]. destruct (leading p); [lia|done]. Qed.
(** A relative path stays relative. *)
Lemma normpath_relative p : leading p = O → starts_with "/" (normpath p) = false.
Proof.
  intros H0. unfold normpath. rewrite H0. cbn [slashes]. change ("" +:+ join_slash (norm_comps p)) with (join_slash (norm_comps p)).
  destruct (norm_comps_proper p) as (Hp & _). destruct (norm_comps p) as [|w l]; [done|].
  apply Forall_cons in Hp as [[Hs Hw] _]. destruct w as [|c w]; [done|].
  assert (Ascii.eqb slash c = false) as Hc.
  { destruct (Ascii.eqb slash c) eqn:E; [|done]. apply Ascii.eqb_eq in E as <-. unfold slash_free in Hs.
    rewrite split_cons_slash in Hs. pose proof (split_nonempty w). by destruct (split_slash w). }
  assert (∃ t, join_slash (String c w :: l) = String c t) as [t ->] by (destruct l; cbn; eauto).
  rewrite bool_decide_false by done. change (Ascii.eqb slash c && starts_with "" t = false). by rewrite Hc.
Qed.

Lemma rstrip_all n : rstrip_slash (slashes n) = "".
Proof. induction n as [|n IH]; [done|]. cbn. by rewrite IH. Qed.
Lemma rstrip_app a b : rstrip_slash b ≠ "" → rstrip_slash (a +:+ b) = a +:+ rstrip_slash b.
Proof.
  intros Hb. induction a as [|c a IH]; [done|].
  change ((if Ascii.eqb c slash && bool_decide (rstrip_slash (a +:+ b) = "") then "" else String c (rstrip_slash (a +:+ b))) =
    String c (a +:+ rstrip_slash b)).
  rewrite IH, bool_decide_false; [by rewrite andb_false_r|]. by destruct a.
Qed.
Lemma rstrip_free w : slash_free w → rstrip_slash w = w.
Proof.
  induction w as [|c w IH]; [done|]. unfold slash_free. cbn. pose proof (split_nonempty w).
  destruct (split_slash w) as [|v vs] eqn:E; [done|]. destruct (Ascii.eqb c slash) eqn:Ec; [done|].
  intros [= -> ->]. by rewrite IH.
Qed.
Lemma rstrip_rooted n l : Forall proper l → l ≠ [] → rstrip_slash (slashes n +:+ join_slash l) = slashes n +:+ join_slash l.
Proof.
  intros Hl Hne. assert (rstrip_slash (join_slash l) = join_slash l ∧ join_slash l ≠ "") as [E Hj].
  { induction l as [|w l IH]; [done|]. apply Forall_cons in Hl as [[Hw Hn] Hl]. destruct l as [|w' l].
    - cbn. by rewrite rstrip_free.
    - destruct IH as [E Hj]; [done..|].
      change (join_slash (w :: w' :: l)) with (w +:+ (String slash "" +:+ join_slash (w' :: l))).
      rewrite !rstrip_app by (rewrite ?rstrip_app; rewrite ?E; done). rewrite E. split; [done|]. by destruct w. }
  by rewrite rstrip_app, E by (by rewrite E).
Qed.

Lemma replicate_inj n m (c w : string) cs ws :
  c ≠ "" → w ≠ "" → replicate n "" ++ c :: cs = replicate m "" ++ w :: ws → n = m ∧ c :: cs = w :: ws.
Proof.
  intros Hc Hw. revert m. induction n as [|n IH]; intros [|m]; cbn; intros E; simplify_eq; try done.
  apply IH in E as [-> E]. done.
Qed.
(** Two rooted paths, of which the first has components, by their parts *)
Lemma rooted_parts n m cs bs ws :
  Forall proper cs → Forall proper bs → bs ≠ [] →
  replicate n "" ++ match cs with [] => [""] | _ => cs end = replicate m "" ++ bs ++ ws → n = m ∧ cs = bs ++ ws.
Proof.
  intros Hcs Hbs Hne E. destruct bs as [|b bs]; [done|]. apply Forall_cons in Hbs as [[_ Hb] _].
  destruct cs as [|c cs].
  - exfalso. assert (b ∈ replicate (n + 1) "") as Hin.
    { rewrite replicate_add. change (replicate 1 "") with [""]. rewrite E. apply elem_of_app. right. by apply elem_of_cons; left. }
    apply elem_of_replicate_inv in Hin. done.
  - apply Forall_cons in Hcs as [[_ Hc] _]. by apply replicate_inj in E.
Qed.

Lemma within_spec n cs prefix : (0 < n)%nat → Forall proper cs →
  within (slashes n +:+ join_slash cs) prefix = true ↔
  starts_with "/" prefix = true ∧
  (norm_comps prefix = [] ∨ (leading prefix = n ∧ norm_comps prefix `prefix_of` cs)).
Proof.
  intros Hn Hcs. unfold within.
  destruct (leading_cases prefix) as [[H0 Hs]|[Hl Hs]]; rewrite Hs.
  { rewrite normpath_relative by done. naive_solver. }
  assert (0 < leading prefix)%nat as Hpos by lia.
  destruct (norm_comps_proper prefix) as (Hbs & _). rewrite normpath_rooted by done.
  set (m := leading prefix) in *. set (bs := norm_comps prefix) in *. clearbody m bs.
  assert (starts_with "/" (slashes m +:+ join_slash bs) = true) as -> by (by destruct m; [lia|]).
  cbn [andb]. rewrite orb_true_iff, bool_decide_eq_true. destruct (decide (bs = [])) as [->|Hne].
  - cbn [join_slash]. assert (rstrip_slash (slashes m +:+ "") = "") as ->.
    { transitivity (rstrip_slash (slashes m)); [|apply rstrip_all]. f_equal. clear. induction m as [|m IH]; [done|]. exact (f_equal (String slash) IH). }
    split; [by auto|]. intros _. right. by destruct n; [lia|].
  - rewrite rstrip_rooted by done. split.
    + intros H. split; [done|]. right.
      assert (∃ ws, split_slash (slashes n +:+ join_slash cs) = split_slash (slashes m +:+ join_slash bs) ++ ws) as [ws E].
      { destruct H as [->|[t ->]%starts_with_inv]; [exists []; by rewrite app_nil_r|].
        exists (split_slash t). rewrite str_app_assoc. exact (split_app _ t). }
      rewrite !split_rooted in E by (by apply proper_slash_free). rewrite <-app_assoc in E.
      destruct bs as [|b bs]; [done|]. apply rooted_parts in E as [-> ->]; [|done..]. split; [done|]. by exists ws.
    + intros [_ [?|[-> [k ->]]]]; [done|]. destruct (decide (k = [])) as [->|Hk]; [left; by rewrite app_nil_r|right].
      rewrite join_app by done. rewrite <-str_app_assoc.
      change (String slash (join_slash k)) with ("/" +:+ join_slash k). rewrite <-str_app_assoc. apply starts_with_app.
Qed.

(** C36: The whitelist test compares whole components of normal forms: a path
    passes exactly when it begins with a slash, its normal form is not "/" (not even
    if "/" is whitelisted), and of some prefix that begins with a slash the normal
    form is the root, or has as many leading slashes as the path's and components
    that begin the path's. [normpath] has resolved the dot segments of both by
    then: they are no reason to refuse a path. *)
Theorem path_within_whitelist_spec path whitelist :
  path_within_whitelist path whitelist = true ↔
  starts_with "/" path = true ∧ normpath path ≠ "/" ∧
  ∃ prefix, prefix ∈ whitelist ∧ starts_with "/" prefix = true ∧
    (norm_comps prefix = [] ∨ (leading prefix = leading path ∧ norm_comps prefix `prefix_of` norm_comps path)).
Proof.
  unfold path_within_whitelist. destruct (starts_with "/" path) eqn:Hs; cbn [negb].
  2: { rewrite orb_true_r. split; [done|]. by intros [? _]. }
  destruct (leading_cases path) as [[_ H]|[Hl _]]; [congruence|]. assert (0 < leading path)%nat as Hpos by lia.
  rewrite bool_decide_false by (by intros ->). cbn [orb].
  destruct (norm_comps_proper path) as (Hcs & Hdd & Hd). specialize (Hdd Hpos).
  assert (existsb (λ seg, str_in seg [".."; "."]) (split_slash (normpath path)) = false) as Hdots.
  { apply not_true_iff_false. rewrite existsb_exists. intros (seg & Hin%list_elem_of_In & Hseg%str_in_true).
    rewrite normpath_rooted, split_rooted in Hin by (try apply proper_slash_free; done).
    apply elem_of_app in Hin as [Hin%elem_of_replicate_inv|Hin].
    - subst seg. rewrite !elem_of_cons, elem_of_nil in Hseg. naive_solver.
    - rewrite !elem_of_cons, elem_of_nil in Hseg. destruct (norm_comps path) eqn:E.
      + apply list_elem_of_singleton in Hin. subst seg. naive_solver.
      + rewrite <-E in *. naive_solver. }
  rewrite Hdots, orb_false_r. destruct (decide (normpath path = "/")) as [Hr|Hr].
  { rewrite bool_decide_true by done. split; [done|]. by intros (_ & ? & _). }
  rewrite bool_decide_false, existsb_exists by done. rewrite (normpath_rooted path) in * by done.
  split.
  - intros (prefix & Hin%list_elem_of_In & Hw). apply within_spec in Hw as [? ?]; [|done..].
    split_and!; [done..|]. exists prefix. split_and!; [done..|]. naive_solver.
  - intros (_ & _ & prefix & Hin & Hpre & Hw). exists prefix. split; [by apply list_elem_of_In|].
    apply within_spec; [done..|]. split; [done|]. naive_solver.
Qed.

Lemma path_within_whitelist_ex :
  path_within_whitelist "/var/lib/lark-agent/outbox/a/../b" ["/var/lib/lark-agent/outbox/"] = true ∧
  path_within_whitelist "/var/lib/lark-agent/outbox2/a" ["/var/lib/lark-agent/outbox"] = false ∧
  path_within_whitelist "/var/lib/lark-agent/outbox/../../etc" ["/var/lib/lark-agent/outbox"] = false.
Proof. repeat split; vm_compute; reflexivity. Qed.

(** An uploaded name becomes a relative path of proper components, none of which
    leads out. *)
Lemma safe_rel_path_proper name rel : _safe_rel_path name = Some rel →
  ∃ parts, parts ≠ [] ∧ rel = join_slash parts ∧ Forall proper parts ∧ ".." ∉ parts ∧ "." ∉ parts.
Proof.
  unfold _safe_rel_path. set (parts := filter _ _). destruct (existsb _ parts) eqn:E; cbn [orb]; [done|].
  destruct (bool_decide_reflect (parts = [])) as [|Hne]; [done|]. intros [= <-]. exists parts.
  assert (∀ w, w ∈ parts → slash_free w ∧ w ≠ "" ∧ w ≠ ".") as Hp.
  { intros w [Hw Hin]%list_elem_of_filter. split; [by eapply Forall_forall in Hin; [|apply split_slash_free]|].
    split; intros ->; discriminate Hw. }
  split_and!; [done..| | |].
  - apply Forall_forall. intros w Hw%Hp. unfold proper. tauto.
  - intros Hin. apply not_true_iff_false in E. apply E, existsb_exists. exists "..". split; [by apply list_elem_of_In|done].
  - intros Hin%Hp. tauto.
Qed.

