(* ===== verification/Scripts.v ===== *)
(** * The script library: [services/script_service.py] and [api/v1/endpoints/script.py]

    A script's text lives in numbered versions: an update adds one, a rollback
    only moves the script's [current_version]. *)

From S2P Require Import Prelude.
From S2P Require Import Models.
From S2P Require Import Session.
From S2P Require Import Repositories.
From S2P Require Import Access.

Abbreviation Row := Script.Script.
Abbreviation Version := ScriptVersion.ScriptVersion.

(** ** Requests: [schemas/__init__.py] *)

Module ScriptCreate.
Record ScriptCreate := mk { name : string; type : string; content : string; params_def : json; remark : string }.
End ScriptCreate.
Module ScriptUpdate.
Record ScriptUpdate := mk { content : option string; params_def : json; change_log : string; remark : option string }.
End ScriptUpdate.

(** ** [services/script_service.py] *)

(** [a or b] of decoded JSON, [x if x is not None else y] *)
Definition j_else (a b : json) : json := if truthy a then a else b.
Definition j_given (a b : json) : json := match a with JNull => b | _ => a end.

(** [func.max(ScriptVersion.version)]: none of no rows *)
Definition max_version (l : list Version) : option Z :=
  match ScriptVersion.version <$> l with [] => None | v :: vs => Some (foldl Z.max v vs) end.
Definition _version_no (script_id : Z) : Op Z :=
  l ← db_select (λ v, ScriptVersion.script_id v =? script_id);
  ret (z_or (max_version l) 0 + 1).

(** [ScriptOut] *)
Definition script_out (s : Row) (params_def : json) : list (string * json) := [
  ("id", JInt (Script.id s)); ("name", JStr (Script.name s)); ("type", JStr (Script.type s));
  ("current_version", JInt (Script.current_version s)); ("params_def", params_def);
  ("remark", JStr (Script.remark s)); ("created_by", jz (Script.created_by s));
  ("created_at", jtime (Some (Script.created_at s)))].
Definition list_scripts (ilike : string → string → bool) (name type_ : option string) (page size : Z) : Op json :=
  found ← ScriptRepository.search ilike name type_ page size;
  ret (JObj [("list", JArr ((λ s, JObj (script_out s (Script.params_def s))) <$> found.1));
             ("total", JInt found.2); ("page", JInt page); ("size", JInt size)]).

Definition the_script (script_id : Z) : Op Row :=
  found ← db_get script_id; some_or found (NotFoundError "script not found").
Definition the_version (script_id version : Z) : Op Version :=
  found ← ScriptVersionRepository.by_script_version script_id version;
  some_or found (NotFoundError "script version not found").

Definition get_script (script_id : Z) (version : option Z) : Op json :=
  script ← the_script script_id;
  let v := z_or version (Script.current_version script) in
  sv ← the_version script_id v;
  ret (JObj (script_out script (j_else (ScriptVersion.params_def sv) (Script.params_def script)) ++
    [("content", JStr (ScriptVersion.content sv)); ("requested_version", JInt v)])).

Definition create_script (user : CurrentUser) (data : ScriptCreate.ScriptCreate) : Op Z :=
  guard_or (str_in (ScriptCreate.type data) ["shell"; "powershell"; "python"]) (BadRequestError "invalid script type");;
  script ← db_add (Script.mk 0 (ScriptCreate.name data) (ScriptCreate.type data) 1 (ScriptCreate.params_def data)
    (ScriptCreate.remark data) (Some (user_id user)) 0);
  _ ← db_add (ScriptVersion.mk 0 (Script.id script) 1 (ScriptCreate.content data) (ScriptCreate.params_def data)
    "initial" (Some (user_id user)) 0);
  db_commit;;
  ret (Script.id script).

(** What an update makes of the script *)
Definition updated (data : ScriptUpdate.ScriptUpdate) (new_version : Z) (s : Row) : Row :=
  s <| Script.current_version := new_version |>
    <| Script.params_def := j_given (ScriptUpdate.params_def data) (Script.params_def s) |>
    <| Script.remark := default (Script.remark s) (ScriptUpdate.remark data) |>.
Definition update_script (user : CurrentUser) (script_id : Z) (data : ScriptUpdate.ScriptUpdate) : Op json :=
  script ← the_script script_id;
  guard_or (s_truthy (ScriptUpdate.content data)) (BadRequestError "content required for new version");;
  new_version ← _version_no script_id;
  _ ← db_add (ScriptVersion.mk 0 script_id new_version (default "" (ScriptUpdate.content data))
    (j_given (ScriptUpdate.params_def data) (Script.params_def script))
    (ScriptUpdate.change_log data) (Some (user_id user)) 0);
  db_upd script_id (updated data new_version);;
  db_commit;;
  ret (JObj [("id", JInt script_id); ("current_version", JInt new_version)]).

(** [db.delete(script)] and its flush: the foreign keys of tasks and schedules
    refuse it, the versions go with it. *)
Definition delete_row (script_id : Z) : Op () :=
  tasks ← db_count (λ t, bool_decide (ExecTask.script_id t = Some script_id));
  guard_or (tasks =? 0) (IntegrityError "exec_task_script_id_fkey");;
  db_delete_where (λ v, ScriptVersion.script_id v =? script_id);;
  db_delete (R:=Row) script_id.
Definition delete_script (script_id : Z) : Op () :=
  _ ← the_script script_id;
  refs ← ScriptRepository.referenced_count script_id;
  guard_or (negb (0 <? refs)) (ConflictError "script referenced by tasks or schedules");;
  delete_row script_id;;
  db_commit.

Definition version_fields (v : Version) : list (string * json) := [
  ("id", JInt (ScriptVersion.id v)); ("script_id", JInt (ScriptVersion.script_id v));
  ("version", JInt (ScriptVersion.version v)); ("content", JStr (ScriptVersion.content v));
  ("params_def", ScriptVersion.params_def v); ("change_log", JStr (ScriptVersion.change_log v))].
Definition list_versions (script_id : Z) : Op json :=
  _ ← the_script script_id;
  l ← ScriptVersionRepository.list_versions script_id;
  ret (JObj [("list", JArr ((λ v, JObj (version_fields v ++
               [("created_by", jz (ScriptVersion.created_by v)); ("created_at", jtime (Some (ScriptVersion.created_at v)))])) <$> l));
             ("total", JInt (Z.of_nat (length l)))]).
Definition get_version (script_id version : Z) : Op json :=
  sv ← the_version script_id version;
  ret (JObj (version_fields sv ++ [("created_at", jtime (Some (ScriptVersion.created_at sv)))])).

Definition rollback (script_id version : Z) : Op json :=
  _ ← the_script script_id;
  sv ← the_version script_id version;
  db_upd script_id (λ s, s <| Script.current_version := version |>
    <| Script.params_def := j_given (ScriptVersion.params_def sv) (Script.params_def s) |>);;
  db_commit;;
  ret (JObj [("id", JInt script_id); ("current_version", JInt version)]).

(** [spec.get("required", False) if isinstance(spec, dict) else False] *)
Definition required (spec : json) : bool :=
  match spec with JObj _ => truthy (jget_or "required" (JBool false) spec) | _ => false end.
(** [not params or name not in params] *)
Definition absent (name : string) (params : option (list (string * json))) : bool :=
  match params with Some ((_ :: _) as p) => bool_decide (assoc_get name p = None) | _ => true end.
Definition missing_params (pdef : list (string * json)) (params : option (list (string * json))) : list string :=
  fst <$> filter (λ kv, required kv.2 && absent kv.1 params = true) pdef.
Definition test_params (script_id : Z) (params : option (list (string * json))) : Op json :=
  script ← the_script script_id;
  sv ← ScriptVersionRepository.by_script_version script_id (Script.current_version script);
  let pdef := j_else (match sv with Some v => ScriptVersion.params_def v | None => JNull end) (Script.params_def script) in
  let errors := (λ n, "missing required param: " +:+ n) <$>
    missing_params (match pdef with JObj o => o | _ => [] end) params in
  ret (JObj [("ok", JBool (bool_decide (errors = []))); ("errors", JArr (JStr <$> errors))]).

(** ** [api/v1/endpoints/script.py] *)

Inductive Request :=
  | QList (name type_ : option string) (page size : Z)
  | QCreate (data : ScriptCreate.ScriptCreate)
  | QGet (script_id : Z) (version : option Z)
  | QUpdate (script_id : Z) (data : ScriptUpdate.ScriptUpdate)
  | QDelete (script_id : Z)
  | QVersions (script_id : Z)
  | QVersion (script_id version : Z)
  | QRollback (script_id version : Z)
  | QTest (script_id : Z) (params : option (list (string * json))).
Definition script_handle (ilike : string → string → bool) (user : CurrentUser) (q : Request) : Op json :=
  match q with
  | QList n t p z => require_perm user "script:list";; list_scripts ilike n t p z
  | QCreate data => require_perm user "script:add";; i ← create_script user data; ret (JObj [("id", JInt i)])
  | QGet i v => require_perm user "script:list";; get_script i v
  | QUpdate i data => require_perm user "script:edit";; update_script user i data
  | QDelete i => require_perm user "script:del";; delete_script i;; ret JNull
  | QVersions i => require_perm user "script:version";; list_versions i
  | QVersion i v => require_perm user "script:version";; get_version i v
  | QRollback i v => require_perm user "script:rollback";; rollback i v
  | QTest i params => require_perm user "script:list";; test_params i params
  end.

(** ** The library over its history *)

Abbreviation rows_of d := (tbl (R:=Row) d).
Abbreviation versions_of d := (tbl (R:=Version) d).

(** The numbers of a script's versions are 1 to n, and the current one is among
    them; no version is without its script. *)
Definition has_version (mv : gmap Z Version) (i k : Z) : Prop :=
  ∃ j v, mv !! j = Some v ∧ ScriptVersion.script_id v = i ∧ ScriptVersion.version v = k.
Definition numbered (mv : gmap Z Version) (i : Z) (s : Row) : Prop :=
  ∃ n, 1 ≤ Script.current_version s ≤ n ∧ ∀ k, has_version mv i k ↔ 1 ≤ k ≤ n.
Record library (ms : gmap Z Row) (mv : gmap Z Version) : Prop := {
  lib_owner : ∀ j v, mv !! j = Some v → is_Some (ms !! ScriptVersion.script_id v);
  lib_numbered : ∀ i s, ms !! i = Some s → numbered mv i s;
}.

(** What an edit leaves of a script *)
Definition same_script (s r : Row) : Prop :=
  Script.name r = Script.name s ∧ Script.type r = Script.type s ∧ Script.created_by r = Script.created_by s.
(** What a request may do to the two tables; [hi] bounds the ids drawn so far. *)
Inductive edit (hi : Z) (ms : gmap Z Row) (mv : gmap Z Version) : gmap Z Row → gmap Z Version → Prop :=
  | edit_none : edit hi ms mv ms mv
  | edit_create i r j v : hi < i → ms !! i = None → mv !! j = None → Script.current_version r = 1 →
      ScriptVersion.script_id v = i → ScriptVersion.version v = 1 →
      edit hi ms mv (<[i := r]> ms) (<[j := v]> mv)
  | edit_update i s r j v n : ms !! i = Some s → mv !! j = None →
      n = z_or (max_version (select_rows (λ v, ScriptVersion.script_id v =? i) mv)) 0 + 1 →
      same_script s r → Script.current_version r = n → ScriptVersion.script_id v = i → ScriptVersion.version v = n →
      edit hi ms mv (<[i := r]> ms) (<[j := v]> mv)
  | edit_rollback i s r : ms !! i = Some s → same_script s r → has_version mv i (Script.current_version r) →
      edit hi ms mv (<[i := r]> ms) mv
  | edit_delete i : edit hi ms mv (delete i ms) (filter (λ kv, (ScriptVersion.script_id kv.2 =? i) = false) mv).

Lemma has_version_insert mv i k j v :
  mv !! j = None → has_version (<[j := v]> mv) i k ↔
  has_version mv i k ∨ (ScriptVersion.script_id v = i ∧ ScriptVersion.version v = k).
Proof.
  intros Hj. split.
  - intros (j' & v' & [[<- <-]|[Hne Hj']]%lookup_insert_Some & Hi & Hk); [by right|left; by exists j', v'].
  - intros [(j' & v' & Hj' & Hi & Hk)|[Hi Hk]]; [|exists j, v; by rewrite lookup_insert_eq].
    exists j', v'. split; [|done]. rewrite lookup_insert_ne; [done|congruence].
Qed.
Lemma numbered_insert_other mv i s j v :
  mv !! j = None → ScriptVersion.script_id v ≠ i → numbered mv i s → numbered (<[j := v]> mv) i s.
Proof.
  intros Hj Hv (n & Hn & Hk). exists n. split; [done|]. intros k. rewrite has_version_insert, <-Hk by done. naive_solver.
Qed.

Lemma elem_of_numbers mv i k :
  k ∈ ScriptVersion.version <$> select_rows (λ v, ScriptVersion.script_id v =? i) mv ↔ has_version mv i k.
Proof.
  rewrite list_elem_of_fmap. split.
  - intros (v & -> & [Hp (j & Hj)]%elem_of_select_rows). exists j, v. split_and!; [done|lia|done].
  - intros (j & v & Hj & Hi & <-). exists v. split; [done|]. apply elem_of_select_rows. split; [lia|by exists j].
Qed.
Lemma foldl_max_spec l x : foldl Z.max x l ∈ x :: l ∧ ∀ y, y ∈ x :: l → y ≤ foldl Z.max x l.
Proof.
  revert x. induction l as [|z l IH]; intros x; cbn; [split; [left|]; intros y ->%list_elem_of_singleton; lia|].
  destruct (IH (x `max` z)) as [Hin Hle]. split.
  - apply elem_of_cons in Hin as [->|Hin]; [|by do 2 right].
    destruct (Z.max_spec x z) as [[_ ->]|[_ ->]]; set_solver.
  - assert (x `max` z ≤ foldl Z.max (x `max` z) l) by (apply Hle; left).
    intros y [->|[->|Hy]%elem_of_cons]%elem_of_cons; [lia|lia|]. apply Hle. by right.
Qed.
(** The next number of a script is one more than it has versions. *)
Lemma next_number mv i n :
  1 ≤ n → (∀ k, has_version mv i k ↔ 1 ≤ k ≤ n) →
  z_or (max_version (select_rows (λ v, ScriptVersion.script_id v =? i) mv)) 0 + 1 = n + 1.
Proof.
  intros Hn Hk. unfold max_version.
  assert (∀ k, k ∈ ScriptVersion.version <$> select_rows (λ v, ScriptVersion.script_id v =? i) mv ↔ 1 ≤ k ≤ n) as H
    by (intros k; by rewrite elem_of_numbers, Hk).
  destruct (ScriptVersion.version <$> _) as [|v vs] eqn:E.
  - specialize (proj2 (H 1) ltac:(lia)). set_solver.
  - destruct (foldl_max_spec vs v) as [Hin Hle]. apply H in Hin. specialize (Hle n (proj2 (H n) ltac:(lia))).
    unfold z_or. assert (foldl Z.max v vs = n) as -> by lia. destruct (n =? 0) eqn:E0; lia.
Qed.

Lemma library_edit hi ms mv ms' mv' : library ms mv → edit hi ms mv ms' mv' → library ms' mv'.
Proof.
  intros [Ho Hn] [|i r j v _ Hi Hj Hc Hv Hk|i s r j v n Hi Hj -> _ Hc Hv Hk|i s r Hi _ Hr|i]; split.
  - exact Ho.
  - exact Hn.
  - intros j' v' [[<- <-]|[_ Hj']]%lookup_insert_Some; [by rewrite Hv, lookup_insert_eq|].
    destruct (Ho _ _ Hj') as [x Hx]. rewrite lookup_insert_ne; [by exists x|]. congruence.
  - intros i' s' [[<- <-]|[Hne Hi']]%lookup_insert_Some; [|apply numbered_insert_other; [done|congruence|by apply Hn]].
    exists 1. split; [lia|]. intros k. rewrite has_version_insert, Hv, Hk by done.
    split; [intros [(j' & v' & Hj' & Hs & _)|[_ <-]]|intros ?; right; split; [done|lia]]; [|lia].
    destruct (Ho _ _ Hj') as [x Hx]. congruence.
  - intros j' v' [[<- <-]|[_ Hj']]%lookup_insert_Some; apply lookup_insert_is_Some'; [by left|right; by eapply Ho].
  - intros i' s' [[<- <-]|[Hne Hi']]%lookup_insert_Some; [|apply numbered_insert_other; [done|congruence|by apply Hn]].
    destruct (Hn _ _ Hi) as (n & Hcur & Hall). rewrite (next_number _ _ n) in * by (done || lia).
    exists (n + 1). rewrite Hc. split; [lia|]. intros k. rewrite has_version_insert, Hall, Hk by done.
    split; [intros [?|[_ ?]]; lia|]. intros ?. destruct (decide (k = n + 1)) as [->|]; [by right|left; lia].
  - intros j' v' Hj'. apply lookup_insert_is_Some'. right. by eapply Ho.
  - intros i' s' [[<- <-]|[Hne Hi']]%lookup_insert_Some; [|by apply Hn].
    destruct (Hn _ _ Hi) as (n & Hcur & Hall). exists n. split; [by apply Hall|done].
  - intros j' v' [Hj' Hs]%map_lookup_filter_Some. cbn in Hs. destruct (Ho _ _ Hj') as [x Hx]. exists x.
    rewrite lookup_delete_ne; [done|]. lia.
  - intros i' s' [Hne Hi']%lookup_delete_Some. destruct (Hn _ _ Hi') as (n & Hcur & Hall). exists n. split; [done|].
    intros k. rewrite <-Hall. split; intros (j' & v' & Hj' & Hs & Hk); exists j', v'; (split; [|done]).
    + by apply map_lookup_filter_Some in Hj' as [? _].
    + apply map_lookup_filter_Some. split; [done|]. cbn. lia.
Qed.

(** A version stays as it is for as long as its script is there, and a script's
    id is not given again. *)
Definition kept (j : Z) (v : Version) (hi : Z) (ms : gmap Z Row) (mv : gmap Z Version) : Prop :=
  mv !! j = Some v ∨ (ms !! ScriptVersion.script_id v = None ∧ ScriptVersion.script_id v ≤ hi).
Lemma kept_edit j v hi hi' ms mv ms' mv' :
  hi ≤ hi' → (∀ i s, ms !! i = Some s → i ≤ hi) → library ms mv → edit hi ms mv ms' mv' →
  kept j v hi ms mv → kept j v hi' ms' mv'.
Proof.
  intros Hle Hb [Ho _] [|i r j' v' Hi Hn Hj _ _ _|i s r j' v' n Hi Hj _ _ _ _ _|i s r Hi _ _|i] [Hk|[Hk Hk']].
  - by left.
  - right. split; [done|lia].
  - left. rewrite lookup_insert_ne; [done|congruence].
  - right. split; [|lia]. rewrite lookup_insert_ne; [done|]. lia.
  - left. rewrite lookup_insert_ne; [done|congruence].
  - right. split; [|lia]. rewrite lookup_insert_ne; [done|congruence].
  - by left.
  - right. split; [|lia]. rewrite lookup_insert_ne; [done|congruence].
  - destruct (decide (ScriptVersion.script_id v = i)) as [<-|Hne].
    + right. rewrite lookup_delete_eq. split; [done|]. destruct (Ho _ _ Hk) as [x Hx]. specialize (Hb _ _ Hx). lia.
    + left. apply map_lookup_filter_Some. split; [done|]. cbn. lia.
  - right. split; [|lia]. apply lookup_delete_None. by right.
Qed.

(** A script keeps its name, type and author for as long as it is there. *)
Definition kept_script (i : Z) (r : Row) (hi : Z) (ms : gmap Z Row) : Prop :=
  (∃ r', ms !! i = Some r' ∧ same_script r r') ∨ (ms !! i = None ∧ i ≤ hi).
Lemma kept_script_edit i0 r0 hi hi' ms mv ms' mv' :
  hi ≤ hi' → (∀ i s, ms !! i = Some s → i ≤ hi) → edit hi ms mv ms' mv' →
  kept_script i0 r0 hi ms → kept_script i0 r0 hi' ms'.
Proof.
  assert (∀ r1 r2, same_script r0 r1 → same_script r1 r2 → same_script r0 r2) as Htr
    by (unfold same_script; intros ?? (?&?&?) (?&?&?); split_and!; congruence).
  intros Hle Hb [|i r j' v' Hi Hn Hj _ _ _|i s r j' v' n Hi Hj _ Hs _ _ _|i s r Hi Hs _|i] [(r' & Hr & Hsame)|[Hk Hk']].
  - left. eauto.
  - right. split; [done|lia].
  - left. exists r'. rewrite lookup_insert_ne; [done|congruence].
  - right. split; [|lia]. rewrite lookup_insert_ne; [done|lia].
  - left. destruct (decide (i = i0)) as [->|Hne].
    + exists r. rewrite lookup_insert_eq. simplify_eq. eauto.
    + exists r'. by rewrite lookup_insert_ne.
  - right. split; [|lia]. rewrite lookup_insert_ne; [done|congruence].
  - left. destruct (decide (i = i0)) as [->|Hne].
    + exists r. rewrite lookup_insert_eq. simplify_eq. eauto.
    + exists r'. by rewrite lookup_insert_ne.
  - right. split; [|lia]. rewrite lookup_insert_ne; [done|congruence].
  - destruct (decide (i = i0)) as [->|Hne].
    + right. rewrite lookup_delete_eq. split; [done|]. specialize (Hb _ _ Hr). lia.
    + left. exists r'. by rewrite lookup_delete_ne.
  - right. split; [|lia]. apply lookup_delete_None. by right.
Qed.

Section history.
Variable ilike : string → string → bool.
Abbreviation handle := (script_handle ilike).
Definition drawn_to (s : St) : Z := default 0 (seqs s !! tbl_name (R:=Row)).

Lemma rollback_edit s i k sv r (row : Row) :
  work s = committed s → head (select_rows (λ v, (ScriptVersion.script_id v =? i) && (ScriptVersion.version v =? k))
    (versions_of (work s))) = Some sv →
  rows_of (work s) !! i = Some row → same_script row r → Script.current_version r = k →
  edit (drawn_to s) (rows_of (work s)) (versions_of (work s)) (<[i := r]> (rows_of (work s))) (versions_of (work s)).
Proof.
  intros Hc Hsv Hi Hs Hr. eapply edit_rollback; [exact Hi|exact Hs|]. rewrite Hr.
  apply head_Some_elem_of, elem_of_select_rows in Hsv as [Hp [j Hj]]. exists j, sv. split_and!; [done|lia|lia].
Qed.

Lemma handle_edit user q s :
  work s = committed s →
  wp (handle user q) (λ _ s', edit (drawn_to s) (rows_of (work s)) (versions_of (work s))
    (rows_of (committed s')) (versions_of (committed s'))) s.
Proof.
  intros Hc. assert (∀ s', s' = s → edit (drawn_to s) (rows_of (work s)) (versions_of (work s))
    (rows_of (committed s')) (versions_of (committed s'))) as Hsame by (intros s' ->; rewrite <-Hc; constructor).
  destruct q as [n t p z|data|i v|i data|i|i|i v|i v|i params]; unfold script_handle;
    (apply wp_bind, wp_require_perm; [intros _; cbv beta iota|intros _; by apply Hsame]).
  all: try (apply wp_reads; [solve [unfold list_scripts, get_script, list_versions, get_version, test_params, the_script,
    the_version, ScriptRepository.search, ScriptVersionRepository.list_versions, ScriptVersionRepository.by_script_version;
    preserves_auto]|intros ? _; by apply Hsame]).
  all: assert (edit (drawn_to s) (rows_of (work s)) (versions_of (work s)) (rows_of (committed s)) (versions_of (committed s)))
    as Hsame0 by (rewrite <-Hc; constructor).
  - unfold create_script. wp_run; rows_simpl; try exact Hsame0.
    match goal with H : accepts (rows_of _) _ _ = true, H' : accepts (versions_of _) _ _ = true |- _ =>
      apply accepts_spec in H as (_ & Hi & _), H' as (_ & Hj & _) end.
    subst. apply edit_create; try done. unfold drawn_to, next_value. lia.
  - unfold update_script, the_script, _version_no. wp_run; rows_simpl; try exact Hsame0.
    all: match goal with H : accepts (versions_of _) _ _ = true |- _ => apply accepts_spec in H as (_ & Hj & _) end.
    + match goal with H : ?m !! ?i = Some ?a, H' : ?m !! ?i = Some ?r |- _ => assert (a = r) as -> by congruence end.
      subst. by eapply edit_update.
    + congruence.
  - unfold delete_script, delete_row, the_script, ScriptRepository.referenced_count. wp_run; rows_simpl; try exact Hsame0.
    rewrite !tbl_set_tbl, !tbl_set_ne, !tbl_set_tbl. apply edit_delete.
  - unfold rollback, the_script, the_version, ScriptVersionRepository.by_script_version. wp_run; rows_simpl; try exact Hsame0.
    + match goal with H : ?m !! ?i = Some ?a, H' : ?m !! ?i = Some ?r |- _ => assert (a = r) as -> by congruence end.
      by eapply rollback_edit.
    + apply edit_none.
Qed.

Lemma handle_wf_rows user q : preserves (wf_table Row) (handle user q).
Proof.
  destruct q; unfold script_handle, create_script, update_script, delete_script, delete_row, rollback, list_scripts, get_script,
    list_versions, get_version, test_params, the_script, the_version, _version_no, ScriptRepository.search,
    ScriptRepository.referenced_count, ScriptVersionRepository.list_versions, ScriptVersionRepository.by_script_version;
  preserves_auto.
Qed.
Lemma handle_wf_versions user q : preserves (wf_table Version) (handle user q).
Proof.
  destruct q; unfold script_handle, create_script, update_script, delete_script, delete_row, rollback, list_scripts, get_script,
    list_versions, get_version, test_params, the_script, the_version, _version_no, ScriptRepository.search,
    ScriptRepository.referenced_count, ScriptVersionRepository.list_versions, ScriptVersionRepository.by_script_version;
  preserves_auto.
Qed.

Lemma drawn_add {R} `{Table R} (r : R) m : preserves (λ s, m ≤ drawn_to s) (db_add r).
Proof.
  intros s Hs. unfold db_add. assert (m ≤ default 0 (<[tbl_name := next_value (tbl_name (R:=R)) s]> (seqs s) !! tbl_name (R:=Row))) as Hm.
  { unfold next_value. unfold drawn_to in Hs. destruct (decide (tbl_name (R:=R) = tbl_name (R:=Row))) as [E|E].
    - rewrite E, lookup_insert_eq. change (m ≤ default 0 (seqs s !! tbl_name (R:=Row)) + 1). lia.
    - by rewrite lookup_insert_ne. }
  by destruct (accepts _ _ _).
Qed.
#[local] Hint Resolve drawn_add : preserves.
Lemma handle_drawn user q m : preserves (λ s, m ≤ drawn_to s) (handle user q).
Proof.
  destruct q; unfold script_handle, create_script, update_script, delete_script, delete_row, rollback, list_scripts, get_script,
    list_versions, get_version, test_params, the_script, the_version, _version_no, ScriptRepository.search,
    ScriptRepository.referenced_count, ScriptVersionRepository.list_versions, ScriptVersionRepository.by_script_version;
  preserves_auto.
  all: apply preserves_db_upd; by intros.
Qed.

(** ** Histories: requests of any users, and in between what leaves the two
    tables alone *)

Record beside (s s' : St) : Prop := {
  beside_rows : rows_of (work s') = rows_of (work s);
  beside_versions : versions_of (work s') = versions_of (work s);
  beside_quiet : quiet Row s → quiet Row s' ∧ wf_table Version s';
  beside_drawn : drawn_to s ≤ drawn_to s';
}.
Inductive script_run (s0 : St) : St → Prop :=
  | script_start : script_run s0 s0
  | script_request s t user q : script_run s0 s →
      script_run s0 (run_request (handle user q) (s <| now := t |>)).2
  | script_beside s s' : script_run s0 s → beside s s' → script_run s0 s'.

(** Between requests *)
Record settled (s : St) : Prop := {
  settled_rows : quiet Row s;
  settled_versions : wf_table Version s;
  settled_library : library (rows_of (work s)) (versions_of (work s));
}.
Lemma drawn_bound s i r : settled s → rows_of (work s) !! i = Some r → i ≤ drawn_to s.
Proof. intros [[_ [Hw _]] _ _] Hi. exact (wf_seq Hw _ _ Hi). Qed.

Lemma request_edit user q t s :
  settled s → let s' := (run_request (handle user q) (s <| now := t |>)).2 in
  settled s' ∧ drawn_to s ≤ drawn_to s' ∧
  edit (drawn_to s) (rows_of (work s)) (versions_of (work s)) (rows_of (work s')) (versions_of (work s')).
Proof.
  intros [[Hc Hr] Hv Hl] s'. set (s1 := s <| now := t |>).
  pose proof (handle_edit user q s1 Hc) as He.
  pose proof (handle_drawn user q (drawn_to s) s1 (Z.le_refl _)) as Hd.
  pose proof (wf_preserves_run_request _ (handle_wf_rows user q) s1 Hr) as Hr'.
  pose proof (wf_preserves_run_request _ (handle_wf_versions user q) s1 Hv) as Hv'.
  subst s'. fold s1 in Hr', Hv' |- *. unfold wp, run_request in *. destruct (handle user q s1) as [r s2]. cbn in *.
  split; [split; [by split|done|by eapply library_edit]|]. by split.
Qed.

Lemma gone_edit i hi ms mv ms' mv' : i ≤ hi → edit hi ms mv ms' mv' → ms !! i = None → ms' !! i = None.
Proof.
  intros Hle [|i' r j v Hi _ _ _ _ _|i' s r j v n Hi _ _ _ _ _ _|i' s r Hi _ _|i'] Hn; try done.
  - rewrite lookup_insert_ne; [done|lia].
  - rewrite lookup_insert_ne; [done|congruence].
  - rewrite lookup_insert_ne; [done|congruence].
  - apply lookup_delete_None. by right.
Qed.

(** What is true of the rows of [s] in every later state *)
Record since (s s' : St) : Prop := {
  since_settled : settled s';
  since_drawn : drawn_to s ≤ drawn_to s';
  since_versions : ∀ j v, versions_of (work s) !! j = Some v →
    kept j v (drawn_to s') (rows_of (work s')) (versions_of (work s'));
  since_scripts : ∀ i r, rows_of (work s) !! i = Some r → kept_script i r (drawn_to s') (rows_of (work s'));
  since_gone : ∀ i, i ≤ drawn_to s → rows_of (work s) !! i = None → rows_of (work s') !! i = None;
}.
Lemma since_run s s' : settled s → script_run s s' → since s s'.
Proof.
  intros H0. induction 1 as [|s1 t user q _ IH|s1 s2 _ IH W].
  - split; [done|done|by left| |done]. intros i r Hr. left. by exists r.
  - destruct IH as [Hs Hd Hv Hr Hg]. destruct (request_edit user q t s1 Hs) as (Hs' & Hd' & He).
    pose proof (drawn_bound s1) as Hb. split; [done|lia| | |].
    + intros j v Hj. apply (kept_edit j v (drawn_to s1) _ _ _ _ _ Hd' (λ i r, Hb i r Hs) (settled_library s1 Hs) He). by apply Hv.
    + intros i r Hi. apply (kept_script_edit i r (drawn_to s1) _ _ _ _ _ Hd' (λ i r, Hb i r Hs) He). by apply Hr.
    + intros i Hi Hn. eapply gone_edit; [|exact He|by apply Hg]. lia.
  - destruct IH as [Hs Hd Hv Hr Hg], W as [Wr Wv Wq Wd]. destruct (Wq (settled_rows _ Hs)) as [Hq Hwv].
    split; rewrite ?Wr, ?Wv.
    + split; [done|done|]. rewrite Wr, Wv. apply Hs.
    + lia.
    + intros j v Hj. destruct (Hv j v Hj) as [?|[? ?]]; [by left|right]. split; [done|lia].
    + intros i r Hi. destruct (Hr i r Hi) as [?|[? ?]]; [by left|right]. split; [done|lia].
    + exact Hg.
Qed.

(** Over any history of script requests the versions of a script are numbered
    from 1 without a gap and its current version is one of them; no version is
    without its script. A stored version never changes, nor do the name, the type
    and the author of a script, until the script is deleted, which takes its
    versions with it; an id once drawn whose script is gone is not given again. *)
Theorem script_history s s' :
  settled s → script_run s s' →
  (∀ j v, versions_of (work s') !! j = Some v → is_Some (rows_of (work s') !! ScriptVersion.script_id v)) ∧
  (∀ i r, rows_of (work s') !! i = Some r → ∃ n, 1 ≤ Script.current_version r ≤ n ∧
     ∀ k, (∃ j v, versions_of (work s') !! j = Some v ∧ ScriptVersion.script_id v = i ∧ ScriptVersion.version v = k) ↔
       1 ≤ k ≤ n) ∧
  (∀ j v, versions_of (work s) !! j = Some v →
     versions_of (work s') !! j = Some v ∨ rows_of (work s') !! ScriptVersion.script_id v = None) ∧
  (∀ i r, rows_of (work s) !! i = Some r →
     (∃ r', rows_of (work s') !! i = Some r' ∧ same_script r r') ∨ rows_of (work s') !! i = None) ∧
  (∀ i, i ≤ drawn_to s → rows_of (work s) !! i = None → rows_of (work s') !! i = None).
Proof.
  intros H0 Hr. destruct (since_run s s' H0 Hr) as [[_ _ [Ho Hn]] _ Hv Hs Hg]. split_and!; [exact Ho|exact Hn| | |exact Hg].
  - intros j v Hj. destruct (Hv j v Hj) as [?|[? _]]; auto.
  - intros i r Hi. destruct (Hs i r Hi) as [?|[? _]]; auto.
Qed.
End history.

(** A script that any task was ever run of cannot be deleted: the reference check
    counts the tasks that are not over, the foreign key all of them. *)
Theorem used_script_undeletable i script s :
  rows_of (work s) !! i = Some script → (∃ j t, tbl (work s) !! j = Some t ∧ ExecTask.script_id t = Some i) →
  ∃ e, delete_script i s = (inl e, s).
Proof.
  intros Hi (j & t & Ht & Hs).
  assert (0 < length (select_rows (λ t, bool_decide (ExecTask.script_id t = Some i)) (tbl (work s))))%nat as Hpos.
  { assert (t ∈ select_rows (λ t, bool_decide (ExecTask.script_id t = Some i)) (tbl (work s))) as Hin.
    { apply elem_of_select_rows. split; [by apply bool_decide_eq_true|by exists j]. }
    destruct (select_rows _ _); [by apply elem_of_nil in Hin|cbn; lia]. }
  unfold delete_script, the_script. erewrite bind_inr.
  2: { erewrite bind_inr by reflexivity. unfold some_or. rewrite Hi. reflexivity. }
  unfold bind at 1. unfold ScriptRepository.referenced_count. erewrite bind_inr by reflexivity.
  unfold bind at 1, db_count, gets. cbv beta iota. unfold ret at 1.
  destruct (negb _); [|by eexists]. cbn [guard_or ret]. unfold bind at 1. unfold bind at 1. unfold ret at 1.
  unfold delete_row. unfold bind at 1. unfold db_count, gets. rewrite (proj2 (Z.eqb_neq _ 0)) by lia. by eexists.
Qed.

(** ** Witness *)

Definition script_st : St := on_db (λ _, empty_db) init_st.
Definition any_ilike (pat text : string) : bool := true.
Definition script_requests : list Request :=
  [QCreate (ScriptCreate.mk "restart" "shell" "systemctl restart x" JNull "");
   QUpdate 1 (ScriptUpdate.mk (Some "systemctl restart y") JNull "y" None); QRollback 1 1].
Definition script_demo : St := foldl (λ s q, (run_request (script_handle any_ilike admin q) (s <| now := 0 |>)).2) script_st script_requests.
Lemma script_st_settled : settled script_st.
Proof.
  split; [split; [done|]; apply wf_tableb_spec; vm_compute; reflexivity|apply wf_tableb_spec; vm_compute; reflexivity|].
  split; intros i x H; [change (((∅ : gmap Z Version) !! i) = Some x) in H|change (((∅ : gmap Z Row) !! i) = Some x) in H]; by rewrite lookup_empty in H.
Qed.
Lemma script_history_witness :
  (∃ r, rows_of (work script_demo) !! 1 = Some r ∧ Script.current_version r = 1) ∧
  ∃ r, rows_of (work script_demo) !! 1 = Some r ∧ ∃ n, 1 ≤ Script.current_version r ≤ n ∧ 
    ∀ k, (∃ j v, versions_of (work script_demo) !! j = Some v ∧ ScriptVersion.script_id v = 1 ∧ ScriptVersion.version v = k) ↔ 1 ≤ k ≤ n.
Proof.
  assert (∃ r, rows_of (work script_demo) !! 1 = Some r ∧ Script.current_version r = 1) as (r & Hr & Hc).
  { eexists. split; vm_compute; reflexivity. }
  split; [by exists r|]. exists r. split; [exact Hr|].
  apply (script_history any_ilike script_st script_demo script_st_settled); [|exact Hr].
  unfold script_demo, script_requests. cbn [foldl]. repeat apply script_request. apply script_start.
Defined.
