(* ===== verification/Redis.v ===== *)
(** * Redis as the services use it: [core/redis_helper.py]

    Keys hold a value and a time of expiry, and the server's clock is the
    application's. [Server] is the session's state with this store beside it, the
    clients the process has of it, and the count of random values drawn from
    [uuid4], [secrets] and the password salts. The concurrency slots of [acquire_semaphore] are in Dispatch.v. *)

From S2P Require Import Prelude.
From S2P Require Import Models.
From S2P Require Import Session.
From S2P Require Import Security.

(** A text; a number that INCR counts; the text [json.dumps(j)], which
    [json.loads] reads back. *)
Inductive Value := VText (t : string) | VCount (n : Z) | VJson (j : json).
Record Entry := mkEntry { value : Value; expires : option Z }.

(** The process and Redis: whether [app.state.redis], set once when the process
    starts, is a client; whether the module's [_redis] is one, which [get_redis]
    tries to make so whenever it is asked; and whether Redis answers. *)
Record Link := mkLink { startup : bool; client : bool; reachable : bool }.
#[export] Instance eta_Link : Eta Link := λ l, mkLink (startup l) (client l) (reachable l).

Record Server := mkServer {
  app : St;
  redis : gmap string Entry;
  drawn : Z;
  link : Link;
}.
#[export] Instance eta_Server : Eta Server := λ s, mkServer (app s) (redis s) (drawn s) (link s).
(** Redis answered when the process started, and answers. *)
Definition online (s : Server) : Prop := link s = mkLink true true true.

(** What a handler does that also talks to Redis. *)
Abbreviation Act A := (M Server A).
Definition lift {A} (m : Op A) : Act A := λ s,
  match m (app s) with (r, a) => (r, s <| app := a |>) end.
Definition time (s : Server) : Z := now (app s).
(** A request: see [run_request]. *)
Definition run_act {A} (m : Act A) : Act A := λ s,
  match m s with (r, s') => (r, s' <| app := app s' <| work := committed (app s') |> |>) end.
Definition draw : Act Z := λ s, (inr (drawn s), s <| drawn := drawn s + 1 |>).

(** ** Commands *)

Definition alive (t : Z) (e : Entry) : bool := match expires e with Some x => t <? x | None => true end.
Definition peek (key : string) (s : Server) : option Value :=
  match redis s !! key with
  | Some e => if alive (time s) e then Some (value e) else None
  | None => None
  end.
Definition store (key : string) (e : Entry) (s : Server) : Server := s <| redis := <[key := e]> (redis s) |>.
Definition present {A} (o : option A) : bool := match o with Some _ => true | None => false end.

Definition r_get (key : string) : Act (option Value) := gets (peek key).
Definition r_exists (key : string) : Act bool := gets (λ s, present (peek key s)).
Definition in_seconds (ttl : Z) (s : Server) : option Z := Some (time s + ttl * microseconds).
Definition r_setex (key : string) (ttl : Z) (v : Value) : Act () :=
  modify (λ s, store key (mkEntry v (in_seconds ttl s)) s).
Definition r_delete (key : string) : Act () := modify (λ s, s <| redis := delete key (redis s) |>).
(** INCR starts from nothing at 1 and keeps the expiry of what it counts up. *)
Definition r_incr (key : string) : Act Z := λ s,
  match peek key s with
  | None => (inr 1, store key (mkEntry (VCount 1) None) s)
  | Some (VCount n) =>
      (inr (n + 1), store key (mkEntry (VCount (n + 1))
         (match redis s !! key with Some e => expires e | None => None end)) s)
  | Some _ => (inl (OtherError "value is not an integer or out of range"), s)
  end.
Definition r_expire (key : string) (ttl : Z) : Act () := modify (λ s,
  match peek key s with Some v => store key (mkEntry v (in_seconds ttl s)) s | None => s end).

(** ** [core/config.py] *)

Record Settings := mkSettings {
  login_max_failures : Z;
  login_lock_minutes : Z;
  access_token_expire_minutes : Z;
  refresh_token_expire_days : Z;
}.
Definition settings : Settings := mkSettings 5 10 120 7.

(** ** The helpers *)

Definition fail_key (username : string) : string := "login:fail:" +:+ username.
Definition lock_key (username : string) : string := "login:lock:" +:+ username.
Definition black_key (jti : string) : string := "bl:" +:+ jti.
Definition refresh_key (user_id : Z) : string := "rt:" +:+ pretty user_id.
Definition state_key (state : string) : string := "oauth:state:" +:+ state.

Section helpers.
Variable conf : Settings.

(** [get_redis() is not None]: a client once made is kept; without one the server
    is asked again. *)
Definition get_redis : Act bool := λ s,
  if client (link s) then (inr true, s)
  else if reachable (link s) then (inr true, s <| link := link s <| client := true |> |>)
  else (inr false, s).
(** A command of redis-py raises when the server does not answer. *)
Definition ConnectionError : exn := OtherError "redis.exceptions.ConnectionError".
Definition command {A} (m : Act A) : Act A := λ s,
  if reachable (link s) then m s else (inl ConnectionError, s).
(** [r = get_redis(); if r is None: return degraded], and the commands after it *)
Definition if_up {A} (degraded : A) (m : Act A) : Act A :=
  up ← get_redis;
  if up then command m else ret degraded.

Definition login_rate_limit (username : string) : Act bool := if_up true (
  locked ← r_exists (lock_key username);
  ret (negb locked)).

(** The pipeline is one transaction of the server. *)
Definition record_login_failure (username : string) : Act Z := if_up 0 (
  count ← r_incr (fail_key username);
  r_expire (fail_key username) 60;;
  when (login_max_failures conf <=? count)
    (r_setex (lock_key username) (login_lock_minutes conf * 60) (VText "1"));;
  ret count).
Definition clear_login_failures (username : string) : Act () := if_up () (r_delete (fail_key username)).

Definition blacklist_access (jti : string) : Act () := if_up () (
  r_setex (black_key jti) (access_token_expire_minutes conf * 60) (VText "1")).
(** [redis.get(f"bl:{jti}")] in [api/deps.py], where [redis] is the client of the
    process's start, or nothing *)
Definition blacklisted (s : Server) (jti : string) : exn + bool :=
  if startup (link s) then
    if reachable (link s) then inr (present (peek (black_key jti) s)) else inl ConnectionError
  else inr false.

Definition store_refresh (user_id : Z) (jti : string) : Act () := if_up () (
  r_setex (refresh_key user_id) (refresh_token_expire_days conf * 86400) (VText jti)).
(** [bool(cur and cur == jti)] *)
Definition is_current (jti : string) (cur : option Value) : bool :=
  match cur with
  | Some (VText t) => negb (bool_decide (t = "")) && bool_decide (t = jti)
  | _ => false
  end.
Definition validate_refresh (user_id : Z) (jti : string) : Act bool := if_up true (
  cur ← r_get (refresh_key user_id);
  ret (is_current jti cur)).
Definition revoke_refresh (user_id : Z) : Act () := if_up () (r_delete (refresh_key user_id)).

Definition store_oauth_state (state : string) (payload : json) (ttl : Z) : Act () := if_up () (
  r_setex (state_key state) ttl (VJson payload)).
Definition consume_oauth_state (state : string) : Act (option json) := if_up None (
  v ← r_get (state_key state);
  r_delete (state_key state);;
  ret (match v with Some (VJson j) => Some j | _ => None end)).
End helpers.

(** ** Laws of the store *)

Lemma if_up_online {A} (d : A) m s : online s → if_up d m s = m s.
Proof. unfold online, if_up, bind, get_redis, command. intros E. rewrite E. cbn. by rewrite E. Qed.
(** [get_redis] has made a client. *)
Definition linked (s : Server) : Server := s <| link := link s <| client := true |> |>.
Lemma if_up_reachable {A} (d : A) m s : reachable (link s) = true → if_up d m s = m (linked s).
Proof.
  intros Hr. unfold if_up, bind, get_redis, command, linked. destruct (client (link s)) eqn:Hc; rewrite ?Hr.
  - destruct s as [? ? ? []]; cbn in *. by rewrite Hc.
  - cbn. by rewrite Hr.
Qed.
Lemma peek_store key e s : peek key (store key e s) = if alive (time s) e then Some (value e) else None.
Proof. unfold peek, store. cbn. by rewrite lookup_insert_eq. Qed.
Lemma peek_store_ne key key' e s : key ≠ key' → peek key (store key' e s) = peek key s.
Proof. intros. unfold peek, store. cbn. by rewrite lookup_insert_ne. Qed.
Lemma peek_delete key s : peek key (s <| redis := delete key (redis s) |>) = None.
Proof. unfold peek. cbn. by rewrite lookup_delete_eq. Qed.
Lemma peek_delete_ne key key' s : key ≠ key' → peek key (s <| redis := delete key' (redis s) |>) = peek key s.
Proof. intros. unfold peek. cbn. by rewrite lookup_delete_ne. Qed.

(** The prefixes keep the keys of the helpers apart. *)
Lemma fail_lock_ne u v : fail_key u ≠ lock_key v. Proof. discriminate. Qed.
Lemma fail_refresh_ne u i : fail_key u ≠ refresh_key i. Proof. discriminate. Qed.
Lemma fail_black_ne u j : fail_key u ≠ black_key j. Proof. discriminate. Qed.
Lemma lock_refresh_ne u i : lock_key u ≠ refresh_key i. Proof. discriminate. Qed.
Lemma lock_black_ne u j : lock_key u ≠ black_key j. Proof. discriminate. Qed.
Lemma black_refresh_ne j i : black_key j ≠ refresh_key i. Proof. discriminate. Qed.
Lemma state_fail_ne x u : state_key x ≠ fail_key u. Proof. discriminate. Qed.
Lemma state_refresh_ne x i : state_key x ≠ refresh_key i. Proof. discriminate. Qed.
#[export] Instance fail_key_inj : Inj (=) (=) fail_key.
Proof. intros u v. apply (inj (String.append "login:fail:")). Qed.
#[export] Instance lock_key_inj : Inj (=) (=) lock_key.
Proof. intros u v. apply (inj (String.append "login:lock:")). Qed.
#[export] Instance black_key_inj : Inj (=) (=) black_key.
Proof. intros u v. apply (inj (String.append "bl:")). Qed.
#[export] Instance state_key_inj : Inj (=) (=) state_key.
Proof. intros u v. apply (inj (String.append "oauth:state:")). Qed.
#[export] Instance refresh_key_inj : Inj (=) (=) refresh_key.
Proof. intros i j E%(inj (String.append "rt:")). by apply (inj pretty). Qed.

(** A handler that works on the database alone leaves Redis alone. *)
Lemma wp_lift {A} (m : Op A) (Q : exn + A → Server → Prop) s :
  wp m (λ r a, Q r (s <| app := a |>)) (app s) → wp (lift m) Q s.
Proof. unfold wp, lift. by destruct (m (app s)). Qed.
Lemma lift_reads {A} (m : Op A) s r : m (app s) = (r, app s) → lift m s = (r, s).
Proof. unfold lift. intros ->. by destruct s. Qed.
Lemma lift_gets {A} (f : St → A) s : lift (gets f) s = (inr (f (app s)), s).
Proof. by destruct s. Qed.
