(* ===== verification/Auth.v ===== *)
(** * Login and tokens: [services/auth_service.py] and [api/v1/endpoints/auth.py]

    An access token is good until it expires or its jti is on the blacklist of
    Redis; of the refresh tokens of a user only the one whose jti Redis holds is
    good, and using it replaces it. Wrong passwords are counted in Redis. The
    histories are those of a process that had Redis from the start ([online]); what
    a late Redis does to logouts is [late_redis_logout_void]. *)

From S2P Require Import Prelude.
From S2P Require Import Models.
From S2P Require Import Session.
From S2P Require Import Repositories.
From S2P Require Import Access.
From S2P Require Import Security.
From S2P Require Import Redis.

Record Tokens := mkTokens { access_token : string; refresh_token : string; user_brief : json }.

(** What an endpoint answers: [Result.ok(data)] or [Result.error(code, message)]. *)
Inductive Result (A : Type) := Ok (data : A) | Error (code : Z) (message : string).
#[global] Arguments Ok {A} data.
#[global] Arguments Error {A} code message.

(** [s.removeprefix(p)] *)
Definition removeprefix (p s : string) : string :=
  if starts_with p s then String.substring (String.length p) (String.length s - String.length p) s else s.

Definition invalid_login {S A} : M S A := raise (UnauthorizedError "invalid username or password").
Definition disabled {S A} : M S A := raise (UnauthorizedError "user disabled or missing").
Definition active (u : User.User) : bool := (User.status u =? 1) && (User.deleted u =? 0).

(** ** Who the user is, for the front end *)

Definition role_brief (r : Role.Role) : json :=
  JObj [("id", JInt (Role.id r)); ("code", JStr (Role.code r)); ("name", JStr (Role.name r))].
Fixpoint role_briefs (role_ids : list Z) : Op (list json) :=
  match role_ids with
  | [] => ret []
  | rid :: ids =>
      role ← db_get rid;
      rest ← role_briefs ids;
      ret (match role with Some r => role_brief r :: rest | None => rest end)
  end.
Definition _build_user_brief (u : User.User) (role_ids : list Z) : Op json :=
  roles ← role_briefs role_ids;
  ret (JObj [("id", JInt (User.id u)); ("username", JStr (User.username u));
             ("real_name", JStr (User.real_name u)); ("roles", JArr roles)]).
Definition _build_me (u : User.User) (role_ids : list Z) : Op json :=
  roles ← role_briefs role_ids;
  perms ← match role_ids with [] => ret [] | _ => PermissionRepository.codes_by_user (User.id u) end;
  visible ← RoleRepository.visible_group_ids role_ids;
  ret (JObj [("id", JInt (User.id u)); ("username", JStr (User.username u));
             ("real_name", JStr (User.real_name u)); ("roles", JArr roles);
             ("permissions", JArr (JStr <$> perms)); ("visible_group_ids", JArr (JInt <$> visible));
             ("is_admin", JBool (negb (User.is_admin u =? 0)));
             ("auth_source", JStr (if bool_decide (User.auth_source u = "") then "local" else User.auth_source u))]).

Section auth.
Variable conf : Settings.
Variable jwt_encode : json → string.
Variable jwt_decode : Z → string → option json.
(** The n-th random value of [uuid.uuid4().hex] *)
Variable uuid4_hex : Z → string.
(** passlib's bcrypt: the hash under the n-th random salt, and its check *)
Variable bcrypt_hash : Z → string → string.
Variable verify_password : string → string → bool.

Definition hash_password (plain : string) : Act string := n ← draw; ret (bcrypt_hash n plain).

(** ** [core/security.py] *)

Definition minted (subject : Z) (token_type : string) (expires_delta : Z) : Act string :=
  n ← draw;
  lift (create_token jwt_encode (λ _, uuid4_hex n) subject token_type expires_delta []).
Definition create_access_token (subject : Z) : Act string :=
  minted subject "access" (access_token_expire_minutes conf * 60 * microseconds).
Definition create_refresh_token (subject : Z) : Act string :=
  minted subject "refresh" (refresh_token_expire_days conf * 86400 * microseconds).
(** [decode_token(token)] without an expected type *)
Definition decode_any (token : string) : Act json :=
  t ← gets time;
  some_or (jwt_decode t token) (ValueError "invalid token").
Definition decode_token (token expected_type : string) : Act json :=
  lift (Security.decode_token jwt_decode token expected_type).

(** [payload[key]] of a text claim *)
Definition text_claim (key : string) (payload : json) : Act string :=
  match jget key payload with Some (JStr t) => ret t | _ => raise (KeyError key) end.
Definition subject_of (payload : json) : Act Z :=
  match jget "sub" payload with Some x => int_of x | None => raise (KeyError "sub") end.

(** ** [services/auth_service.py] *)

Definition brief_of (u : User.User) : Act json := lift (
  ids ← _role_ids (User.id u);
  _build_user_brief u ids).
Definition issue_tokens (u : User.User) : Act Tokens :=
  access ← create_access_token (User.id u);
  refresh ← create_refresh_token (User.id u);
  payload ← decode_any refresh;
  j ← text_claim "jti" payload;
  store_refresh conf (User.id u) j;;
  brief ← brief_of u;
  ret (mkTokens access refresh brief).

Definition login (username password : string) : Act Tokens :=
  found ← lift (UserRepository.by_username username);
  match found with
  | None => invalid_login
  | Some u =>
      if negb (active u) then invalid_login else
      if negb (verify_password password (User.password_hash u))
      then _ ← record_login_failure conf username; invalid_login else
      clear_login_failures username;;
      result ← issue_tokens u;
      lift (t ← utc_now; db_upd (User.id u) (λ r, r <| User.last_login_at := Some t |>);; db_commit);;
      ret result
  end.

Definition logout (token : string) : Act () :=
  try_catch (
    payload ← decode_token token "access";
    j ← text_claim "jti" payload;
    blacklist_access conf j;;
    uid ← subject_of payload;
    revoke_refresh uid)
    (λ e, match e with ValueError _ => raise (UnauthorizedError "invalid token") | _ => raise e end).

(** [refresh_tokens] in two parts: what it checks, and what it issues. *)
Definition refresh_check (token : string) : Act User.User :=
  payload ← try_catch (decode_token token "refresh")
    (λ e, match e with ValueError m => raise (UnauthorizedError m) | _ => raise e end);
  user_id ← subject_of payload;
  j ← text_claim "jti" payload;
  valid ← validate_refresh user_id j;
  guard_or valid (UnauthorizedError "refresh token expired or reused");;
  found ← lift (db_get user_id);
  match found with
  | Some u => if active u then ret u else disabled
  | None => disabled
  end.
Definition refresh_issue (u : User.User) : Act Tokens :=
  access ← create_access_token (User.id u);
  refresh ← create_refresh_token (User.id u);
  payload ← decode_token refresh "refresh";
  j ← text_claim "jti" payload;
  store_refresh conf (User.id u) j;;
  brief ← brief_of u;
  ret (mkTokens access refresh brief).
Definition refresh_tokens (token : string) : Act Tokens :=
  u ← refresh_check token;
  refresh_issue u.

Definition me (user_id : Z) : Op json :=
  found ← db_get user_id;
  match found with
  | None => raise (UnauthorizedError "user not found")
  | Some u => ids ← _role_ids (User.id u); _build_me u ids
  end.

Definition change_password (user_id : Z) (old_password new_password : string) : Act () :=
  found ← lift (db_get user_id);
  match found with
  | None => raise (UnauthorizedError "user not found")
  | Some u =>
      guard_or (verify_password old_password (User.password_hash u)) (BadRequestError "old password incorrect");;
      h ← hash_password new_password;
      lift (db_upd (User.id u) (λ r, r <| User.password_hash := h |>);; db_commit)
  end.

(** ** The endpoints *)

(** [get_current_user] of [api/deps.py] with the token's claims and the
    blacklist of the moment. *)
Definition access_payload (t : Z) (token : string) : string + TokenPayload :=
  match jwt_decode t token with
  | None => inl "invalid token"
  | Some p =>
      if has_type "access" p then
        let j := match jget "jti" p with Some (JStr j) => Some j | _ => None end in
        match jget "sub" p with
        | Some x => inr (mkPayload j (py_int x))
        | None => inr (mkPayload j (inl (KeyError "sub")))
        end
      else inl "unexpected token type"
  end.
Definition authenticate (authorization : option string) : Act CurrentUser := λ s,
  lift (get_current_user (access_payload (time s)) (blacklisted s) authorization) s.

Definition login_endpoint (username password : string) : Act (Result Tokens) :=
  allowed ← login_rate_limit username;
  if allowed then result ← login username password; ret (Ok result)
  else ret (Error 429 "too many login attempts, account locked").
Definition refresh_endpoint (token : string) : Act (Result Tokens) :=
  result ← refresh_tokens token; ret (Ok result).
(** The token of a logout request: "Bearer " is taken off as it is spelt. *)
Definition logout_token (authorization : option string) : string :=
  strip (removeprefix "Bearer " (default "" authorization)).
Definition logout_endpoint (authorization : option string) : Act () :=
  let token := logout_token authorization in
  when (negb (bool_decide (token = ""))) (logout token).
Definition me_endpoint (authorization : option string) : Act json :=
  u ← authenticate authorization; lift (me (user_id u)).
Definition password_endpoint (authorization : option string) (old_password new_password : string) : Act () :=
  u ← authenticate authorization; change_password (user_id u) old_password new_password.
End auth.

(** ** What the handlers do to Redis *)

Lemma role_briefs_reads ids (a : St) : ∃ l, role_briefs ids a = (inr l, a).
Proof.
  induction ids as [|i ids [l IH]]; [by exists []|].
  cbn [role_briefs]. unfold bind at 1, db_get, gets. unfold bind. rewrite IH. by eexists.
Qed.
Lemma preserves_role_briefs I ids : preserves I (role_briefs ids).
Proof. intros a Ha. by destruct (role_briefs_reads ids a) as [l ->]. Qed.
#[export] Hint Resolve preserves_role_briefs : preserves.

Section footprints.
Variable conf : Settings.
Variable jwt_encode : json → string.
Variable jwt_decode : Z → string → option json.
Variable uuid4_hex : Z → string.
Variable bcrypt_hash : Z → string → string.
Variable verify_password : string → string → bool.

(** jose reads back what it wrote until the second of [exp] is over. *)
Hypothesis jwt_roundtrip : ∀ t p e,
  jget "exp" p = Some (JInt e) → t / microseconds ≤ e → jwt_decode t (jwt_encode p) = Some p.
Hypothesis lives_on : 0 ≤ refresh_token_expire_days conf.

Abbreviation minted := (minted jwt_encode uuid4_hex).
Abbreviation issue_tokens := (issue_tokens conf jwt_encode jwt_decode uuid4_hex).
Abbreviation login := (login conf jwt_encode jwt_decode uuid4_hex verify_password).
Abbreviation logout := (logout conf jwt_decode).
Abbreviation refresh_check := (refresh_check jwt_decode).
Abbreviation refresh_issue := (refresh_issue conf jwt_encode jwt_decode uuid4_hex).

(** Claims of a fresh refresh token *)
Definition refresh_claims (s : Server) (subject : Z) (n : Z) : json :=
  token_payload (time s) (uuid4_hex n) (pretty subject) "refresh"
    (refresh_token_expire_days conf * 86400 * microseconds) [].
Definition access_claims (s : Server) (subject : Z) (n : Z) : json :=
  token_payload (time s) (uuid4_hex n) (pretty subject) "access"
    (access_token_expire_minutes conf * 60 * microseconds) [].

(** The user's refresh token is the one just drawn. *)
Definition issued (uid : Z) (s : Server) : Server :=
  store (refresh_key uid)
    (mkEntry (VText (uuid4_hex (drawn s + 1))) (in_seconds (refresh_token_expire_days conf * 86400) s))
    (s <| drawn := drawn s + 1 + 1 |>).
Definition issued_tokens (uid : Z) (b : json) (s : Server) : Tokens :=
  mkTokens (jwt_encode (access_claims s uid (drawn s)))
           (jwt_encode (refresh_claims s uid (drawn s + 1))) b.

Lemma minted_eq subject ty delta s :
  minted subject ty delta s =
  (inr (jwt_encode (token_payload (time s) (uuid4_hex (drawn s)) (pretty subject) ty delta [])),
   s <| drawn := drawn s + 1 |>).
Proof. reflexivity. Qed.

Lemma refresh_claims_decode s uid n : jwt_decode (time s) (jwt_encode (refresh_claims s uid n)) = Some (refresh_claims s uid n).
Proof.
  eapply jwt_roundtrip; [reflexivity|]. apply Z.div_le_mono; [done|].
  assert (0 ≤ refresh_token_expire_days conf * 86400 * microseconds) by (unfold microseconds; lia). lia.
Qed.

Lemma brief_of_reads u s : ∃ b, brief_of u s = (inr b, s).
Proof.
  set (ids := UserRole.role_id <$> select_rows (λ r, UserRole.user_id r =? User.id u) (tbl (work (app s)))).
  destruct (role_briefs_reads ids (app s)) as [l Hl]. eexists. apply lift_reads.
  unfold _role_ids, db_select, bind, gets, ret, _build_user_brief, bind. fold ids. by rewrite Hl.
Qed.

(** The tail that [issue_tokens] and [refresh_issue] share. *)
Lemma store_refresh_eq uid j s :
  online s →
  store_refresh conf uid j s =
  (inr (), store (refresh_key uid) (mkEntry (VText j) (in_seconds (refresh_token_expire_days conf * 86400) s)) s).
Proof. intros. unfold store_refresh. by rewrite if_up_online. Qed.
Lemma decode_any_eq s tok p : jwt_decode (time s) tok = Some p → decode_any jwt_decode tok s = (inr p, s).
Proof. intros E. unfold decode_any, bind, gets, some_or. by rewrite E. Qed.
Lemma decode_token_reads tok ty s :
  decode_token jwt_decode tok ty s =
  (match jwt_decode (time s) tok with
   | None => inl (ValueError "invalid token")
   | Some p => if has_type ty p then inr p else inl (ValueError "unexpected token type")
   end, s).
Proof.
  apply lift_reads. unfold Security.decode_token, utc_now, bind, gets, some_or. fold (time s).
  destruct (jwt_decode (time s) tok) as [p|]; [|done]. cbn. by destruct (has_type ty p).
Qed.
Lemma decode_token_eq s tok ty p :
  jwt_decode (time s) tok = Some p → has_type ty p = true → decode_token jwt_decode tok ty s = (inr p, s).
Proof. intros E Ht. by rewrite decode_token_reads, E, Ht. Qed.
Lemma issue_tokens_eq u s :
  online s → ∃ b, issue_tokens u s = (inr (issued_tokens (User.id u) b s), issued (User.id u) s).
Proof.
  intros Hon. destruct (brief_of_reads u (issued (User.id u) s)) as [b Hb]. exists b.
  unfold Auth.issue_tokens, create_access_token, create_refresh_token.
  erewrite bind_inr by apply minted_eq. erewrite bind_inr by apply minted_eq.
  erewrite bind_inr by (apply decode_any_eq; apply (refresh_claims_decode s (User.id u) (drawn s + 1))).
  erewrite bind_inr by reflexivity. erewrite bind_inr by (by apply store_refresh_eq).
  erewrite bind_inr; [reflexivity|]. exact Hb.
Qed.
Lemma refresh_issue_eq u s :
  online s → ∃ b, refresh_issue u s = (inr (issued_tokens (User.id u) b s), issued (User.id u) s).
Proof.
  intros Hon. destruct (brief_of_reads u (issued (User.id u) s)) as [b Hb]. exists b.
  unfold Auth.refresh_issue, create_access_token, create_refresh_token.
  erewrite bind_inr by apply minted_eq. erewrite bind_inr by apply minted_eq.
  erewrite bind_inr by (apply decode_token_eq; [apply (refresh_claims_decode s (User.id u) (drawn s + 1))|reflexivity]).
  erewrite bind_inr by reflexivity. erewrite bind_inr by (by apply store_refresh_eq).
  erewrite bind_inr; [reflexivity|]. exact Hb.
Qed.

(** The other changes *)
Definition cleared (username : string) (s : Server) : Server :=
  s <| redis := delete (fail_key username) (redis s) |>.
Definition revoked (uid : Z) (j : string) (s : Server) : Server :=
  let s1 := store (black_key j) (mkEntry (VText "1") (in_seconds (access_token_expire_minutes conf * 60) s)) s in
  s1 <| redis := delete (refresh_key uid) (redis s1) |>.

Definition failed (username : string) (s : Server) : Server := (record_login_failure conf username s).2.

(** Only the application's side differs, not its clock, and its users are as
    well formed as before. *)
Definition same_store (s s' : Server) : Prop :=
  redis s' = redis s ∧ drawn s' = drawn s ∧ link s' = link s ∧ time s' = time s ∧
  (wf_table User.User (app s) → wf_table User.User (app s')).
Lemma same_store_refl s : same_store s s.
Proof. by split_and!. Qed.
Lemma lift_same {A} (m : Op A) s r s' :
  preserves (λ a, now a = now (app s)) m → preserves (wf_table User.User) m →
  lift m s = (r, s') → same_store s s'.
Proof.
  intros Hm Hw. unfold lift. destruct (m (app s)) as [r' a] eqn:E. intros [= <- <-].
  split_and!; try done; [exact (preserves_run _ _ _ _ _ Hm eq_refl E)|].
  intros H. exact (preserves_run _ _ _ _ _ Hw H E).
Qed.
Lemma run_act_same {A} (m : Act A) s r s' :
  run_act m s = (r, s') → ∃ s1, m s = (r, s1) ∧ same_store s1 s'.
Proof.
  unfold run_act. destruct (m s) as [r1 s1]. intros [= <- <-]. exists s1. split; [done|].
  split_and!; try done. intros [_ Hc]. by split.
Qed.
Lemma same_store_trans s1 s2 s3 : same_store s1 s2 → same_store s2 s3 → same_store s1 s3.
Proof. intros (?&?&?&?&?) (?&?&?&?&?). split_and!; [congruence..|auto]. Qed.

(** The account of that name may log in. *)
Definition account (username : string) (s : Server) : option User.User :=
  match head (select_rows (λ u, bool_decide (User.username u = username)) (users (work (app s)))) with
  | Some u => if active u then Some u else None
  | None => None
  end.
Definition wrong_password (username password : string) (s : Server) : bool :=
  match account username s with
  | Some u => negb (verify_password password (User.password_hash u))
  | None => false
  end.

Lemma login_shape username password s r s' :
  online s → login username password s = (r, s') →
  (s' = s ∧ wrong_password username password s = false ∧ ∃ m, r = inl (UnauthorizedError m)) ∨
  (wrong_password username password s = true ∧ s' = failed username s ∧ ∃ e, r = inl e) ∨
  (wrong_password username password s = false ∧ ∃ u, account username s = Some u ∧
     same_store (issued (User.id u) (cleared username s)) s').
Proof.
  intros Hon. unfold Auth.login, wrong_password, account. unfold bind at 1, UserRepository.by_username, db_find. rewrite lift_gets.
  change (tbl (work (app s))) with (users (work (app s))).
  destruct (head _) as [u|]; [|intros [= <- <-]; left; eauto].
  destruct (active u); cbn [negb]; [|intros [= <- <-]; left; eauto].
  destruct (verify_password password (User.password_hash u)); cbn [negb].
  - intros H. right; right. split; [done|]. exists u. split; [done|].
    destruct (issue_tokens_eq u (cleared username s) Hon) as [b Hb].
    rewrite (bind_inr _ _ _ () (cleared username s)) in H by (unfold clear_login_failures; by rewrite if_up_online).
    erewrite bind_inr in H by exact Hb. unfold bind at 1 in H.
    destruct (lift _ _) as [r1 s1] eqn:E in H.
    assert (same_store (issued (User.id u) (cleared username s)) s1) as Hs.
    { eapply lift_same; [| |exact E].
      - apply preserves_bind; [apply preserves_utc_now|intros t]. apply preserves_bind.
        + apply preserves_db_upd. by intros.
        + intros _. by apply preserves_db_commit.
      - apply preserves_bind; [apply preserves_utc_now|intros t]. apply preserves_bind; [|intros _]; eauto with preserves. }
    destruct r1; by injection H as <- <-.
  - intros H. right; left. split; [done|].
    unfold bind in H. unfold failed.
    destruct (record_login_failure conf username s) as [[e|n] s1]; injection H as <- <-; eauto.
Qed.

Lemma refresh_check_reads tok s r s' :
  online s → refresh_check tok s = (r, s') → s' = s ∧
  (∀ u, r = inr u → ∃ p i j, jwt_decode (time s) tok = Some p ∧ jget "sub" p = Some j ∧ py_int j = inr i ∧
     (∃ t, jget "jti" p = Some (JStr t) ∧ t ≠ "" ∧ peek (refresh_key i) s = Some (VText t)) ∧
     users (work (app s)) !! i = Some u ∧ active u = true).
Proof.
  intros Hon. unfold Auth.refresh_check. unfold bind at 1, try_catch. rewrite decode_token_reads.
  destruct (jwt_decode (time s) tok) as [p|]; [|by intros [= <- <-]].
  destruct (has_type "refresh" p); [|by intros [= <- <-]]. cbv beta iota.
  unfold bind at 1, subject_of. destruct (jget "sub" p) as [x|] eqn:Esub; [|by intros [= <- <-]].
  unfold int_of. destruct (py_int x) as [e|uid] eqn:Ei; [by intros [= <- <-]|]. cbn [ret].
  unfold bind at 1, text_claim. destruct (jget "jti" p) as [[]|] eqn:Ej; try by intros [= <- <-].
  cbn [ret]. unfold bind at 1, validate_refresh. rewrite if_up_online by done.
  unfold r_get, bind, gets, ret, guard_or.
  destruct (is_current _ _) eqn:Ec; [|by intros [= <- <-]]. cbn [ret]. unfold db_get. rewrite lift_gets.
  change (tbl (work (app s))) with (users (work (app s))).
  destruct (users (work (app s)) !! uid) as [u|] eqn:Eu; [|by intros [= <- <-]].
  destruct (active u) eqn:Ea; [|by intros [= <- <-]].
  intros [= <- <-]. split; [done|]. intros u' [= <-]. eexists p, uid, x. split_and!; try done.
  eexists. split; [done|]. revert Ec. unfold is_current. destruct (peek (refresh_key uid) s) as [[t| |]|]; try done.
  intros [H1%negb_true_iff%bool_decide_eq_false H2%bool_decide_eq_true]%andb_true_iff. by subst.
Qed.
End footprints.

(** ** Histories

    The requests of these endpoints, in any order; what Sso.v does with Redis
    when somebody logs in through a directory or is refused by it; in between
    anything that leaves the keys of this file, and the link, alone. *)

Inductive Request :=
  | QLogin (username password : string)
  | QExternal (username : string) (u : User.User)
  | QLdapRefused (username : string)
  | QRefresh (token : string)
  | QLogout (authorization : option string)
  | QMe (authorization : option string)
  | QPassword (authorization : option string) (old_password new_password : string).
Inductive Answer :=
  | ATokens (r : exn + Result Tokens)
  | ADone (r : exn + ())
  | AJson (r : exn + json).

Definition our_key (k : string) : Prop :=
  (∃ u, k = fail_key u) ∨ (∃ u, k = lock_key u) ∨ (∃ j, k = black_key j) ∨ (∃ i, k = refresh_key i).
Record world (s s' : Server) : Prop := {
  world_time : time s ≤ time s';
  world_drawn : drawn s ≤ drawn s';
  world_link : link s' = link s;
  world_redis : ∀ k, our_key k → redis s' !! k = redis s !! k;
  world_users : wf_table User.User (app s) → wf_table User.User (app s');
}.

Definition locked (username : string) (s : Server) : bool := present (peek (lock_key username) s).

Section histories.
Variable conf : Settings.
Variable jwt_encode : json → string.
Variable jwt_decode : Z → string → option json.
Variable uuid4_hex : Z → string.
Variable bcrypt_hash : Z → string → string.
Variable verify_password : string → string → bool.

Abbreviation issue_tokens := (issue_tokens conf jwt_encode jwt_decode uuid4_hex).

Definition answered {A} (c : exn + A → Answer) (m : Act A) (s : Server) : Answer * Server :=
  match run_act m s with (r, s') => (c r, s') end.
Definition serve (q : Request) : Server → Answer * Server :=
  match q with
  | QLogin name pw => answered ATokens (login_endpoint conf jwt_encode jwt_decode uuid4_hex verify_password name pw)
  | QExternal name u => answered ATokens (
      clear_login_failures name;; toks ← issue_tokens u; ret (Ok toks))
  | QLdapRefused name => answered ATokens (
      allowed ← login_rate_limit name;
      if allowed then _ ← record_login_failure conf name; invalid_login
      else ret (Error 429 "too many login attempts, account locked"))
  | QRefresh tok => answered ATokens (refresh_endpoint conf jwt_encode jwt_decode uuid4_hex tok)
  | QLogout a => answered ADone (logout_endpoint conf jwt_decode a)
  | QMe a => answered AJson (me_endpoint jwt_decode a)
  | QPassword a old new => answered ADone (password_endpoint jwt_decode bcrypt_hash verify_password a old new)
  end.

Inductive Step := Served (s : Server) (q : Request) (a : Answer) | Elsewhere.
Inductive runs : Server → list Step → Server → Prop :=
  | runs_nil s : runs s [] s
  | runs_served s q a s1 l s' : serve q s = (a, s1) → runs s1 l s' → runs s (Served s q a :: l) s'
  | runs_world s s1 l s' : world s s1 → runs s1 l s' → runs s (Elsewhere :: l) s'.

(** A request whose password was looked at and found wrong, and one that
    resets the count. *)
Definition guess (q : Request) (s : Server) : option string :=
  match q with
  | QLogin name pw => if locked name s then None else
      if wrong_password verify_password name pw s then Some name else None
  | QLdapRefused name => if locked name s then None else Some name
  | _ => None
  end.
Definition clears (q : Request) (s : Server) : option string :=
  match q with
  | QLogin name pw => if locked name s then None else
      if wrong_password verify_password name pw s then None else
      match account name s with Some _ => Some name | None => None end
  | QExternal name _ => Some name
  | _ => None
  end.

(** What a request may do to Redis *)
Inductive change (q : Request) (s : Server) : Server → Prop :=
  | change_failed name : guess q s = Some name → change q s (failed conf name s)
  | change_none : guess q s = None → change q s s
  | change_login name uid : guess q s = None → clears q s = Some name →
      change q s (issued conf uuid4_hex uid (cleared name s))
  | change_refreshed uid : guess q s = None → change q s (issued conf uuid4_hex uid s)
  | change_black j : guess q s = None →
      change q s (store (black_key j) (mkEntry (VText "1") (in_seconds (access_token_expire_minutes conf * 60) s)) s)
  | change_revoked uid j : guess q s = None → change q s (revoked conf uid j s)
  | change_drawn : guess q s = None → change q s (s <| drawn := drawn s + 1 |>).
End histories.

Section shapes.
Variable conf : Settings.
Variable jwt_encode : json → string.
Variable jwt_decode : Z → string → option json.
Variable uuid4_hex : Z → string.
Variable bcrypt_hash : Z → string → string.
Variable verify_password : string → string → bool.
Hypothesis jwt_roundtrip : ∀ t p e,
  jget "exp" p = Some (JInt e) → t / microseconds ≤ e → jwt_decode t (jwt_encode p) = Some p.
Hypothesis lives_on : 0 ≤ refresh_token_expire_days conf.

Abbreviation serve := (serve conf jwt_encode jwt_decode uuid4_hex bcrypt_hash verify_password).
Abbreviation runs := (runs conf jwt_encode jwt_decode uuid4_hex bcrypt_hash verify_password).
Abbreviation change := (change conf uuid4_hex verify_password).

Lemma rate_limit_eq name s : online s → login_rate_limit name s = (inr (negb (locked name s)), s).
Proof. intros. unfold login_rate_limit. by rewrite if_up_online. Qed.
Lemma record_failure_run name s r s1 : record_login_failure conf name s = (r, s1) → s1 = failed conf name s.
Proof. unfold failed. by intros ->. Qed.

(** Reading the request's user changes nothing. *)
Lemma authenticate_reads a s r s' : authenticate jwt_decode a s = (r, s') → s' = s.
Proof.
  unfold authenticate, lift. destruct (get_current_user _ _ _ _) as [r1 a1] eqn:E.
  apply get_current_user_run in E as [-> _]. intros [= _ <-]. by destruct s.
Qed.

(** The branches of a logout *)
Lemma logout_shape tok s r s' :
  online s → logout conf jwt_decode tok s = (r, s') →
  (s' = s ∧ ∃ e, r = inl e) ∨
  (∃ j, s' = store (black_key j) (mkEntry (VText "1") (in_seconds (access_token_expire_minutes conf * 60) s)) s ∧
        ∃ e, r = inl e) ∨
  (∃ p j x uid, jwt_decode (time s) tok = Some p ∧ jget "jti" p = Some (JStr j) ∧ jget "sub" p = Some x ∧
     py_int x = inr uid ∧ s' = revoked conf uid j s ∧ r = inr ()).
Proof.
  intros Hon. unfold logout, try_catch. unfold bind at 1. rewrite decode_token_reads.
  destruct (jwt_decode (time s) tok) as [p|]; [|intros [= <- <-]; left; eauto].
  destruct (has_type "access" p); [|intros [= <- <-]; left; eauto]. cbv beta iota.
  unfold bind at 1, text_claim. destruct (jget "jti" p) as [[]|] eqn:Ej; try (intros [= <- <-]; left; eauto; fail).
  cbn [ret]. unfold bind at 1, blacklist_access. rewrite if_up_online by done.
  unfold r_setex, modify, bind, subject_of, int_of.
  destruct (jget "sub" p) as [x|] eqn:Es; [|intros [= <- <-]; right; left; eauto].
  destruct (py_int x) as [e|uid] eqn:Ei.
  - cbn [raise]. destruct e; intros [= <- <-]; right; left; eauto.
  - cbn [ret]. unfold revoke_refresh. rewrite if_up_online by done. cbn. intros [= <- <-]. right; right. eexists p, _, x, uid. by split_and!.
Qed.

Lemma change_password_shape uid old new s r s' :
  change_password bcrypt_hash verify_password uid old new s = (r, s') →
  same_store s s' ∨ same_store (s <| drawn := drawn s + 1 |>) s'.
Proof.
  unfold change_password. unfold bind at 1, db_get. rewrite lift_gets.
  destruct (tbl (R:=User.User) (work (app s)) !! uid) as [u|]; [|intros [= _ <-]; by left].
  unfold guard_or. destruct (verify_password old (User.password_hash u)); [|intros [= _ <-]; by left].
  unfold bind at 1. cbn [ret]. unfold bind at 1, hash_password, bind at 1, draw. cbn [ret]. intros H. right.
  revert H. apply lift_same; preserves_auto. apply preserves_db_upd. by intros.
Qed.

Lemma serve_change q a s s' : online s → serve q s = (a, s') → ∃ s1, change q s s1 ∧ same_store s1 s'.
Proof.
  intros Hon.
  destruct q as [name pw|name u|name|tok|auth|auth|auth old new]; cbn [Auth.serve]; unfold answered.
  all: match goal with |- context [run_act ?m ?x] => destruct (run_act m x) as [r s2] eqn:E end.
  all: intros [= _ <-]; apply run_act_same in E as (s3 & E & Hs).
  - unfold login_endpoint in E. rewrite (bind_inr _ _ _ _ _ (rate_limit_eq name s Hon)) in E.
    destruct (locked name s) eqn:El; cbn [negb] in E.
    { injection E as _ <-. eexists. split; [apply change_none; cbn; by rewrite El|done]. }
    unfold bind in E. destruct (login _ _ _ _ _ _ _ s) as [r1 s4] eqn:El1.
    assert (s4 = s3) as -> by (destruct r1; by injection E). clear E.
    apply login_shape in El1 as [(-> & Hw & _)|[(Hw & -> & _)|(Hw & u & Hu & Hi)]]; [| | |done..].
    + eexists. split; [apply change_none; cbn; by rewrite El, Hw|done].
    + eexists. split; [apply change_failed; cbn; by rewrite El, Hw|done].
    + eexists. split; [eapply change_login; cbn; rewrite El, Hw, ?Hu; reflexivity|]. by eapply same_store_trans.
  - rewrite (bind_inr _ _ _ () (cleared name s)) in E by (unfold clear_login_failures; by rewrite if_up_online).
    destruct (issue_tokens_eq conf jwt_encode jwt_decode uuid4_hex jwt_roundtrip lives_on u (cleared name s) Hon) as [b Hb].
    erewrite bind_inr in E by exact Hb. injection E as _ <-.
    eexists. split; [by eapply change_login|done].
  - rewrite (bind_inr _ _ _ _ _ (rate_limit_eq name s Hon)) in E.
    destruct (locked name s) eqn:El; cbn [negb] in E.
    { injection E as _ <-. eexists. split; [apply change_none; cbn; by rewrite El|done]. }
    unfold bind in E. destruct (record_login_failure conf name s) as [r1 s4] eqn:Er.
    apply record_failure_run in Er as ->.
    eexists. split; [apply change_failed; cbn; by rewrite El|]. by destruct r1; injection E as _ <-.
  - unfold refresh_endpoint, refresh_tokens in E. unfold bind in E.
    destruct (refresh_check jwt_decode tok s) as [[e|u] s4] eqn:Ec;
      (apply refresh_check_reads in Ec as [-> _]; [|done]).
    { injection E as _ <-. eexists. by split; [apply change_none|]. }
    destruct (refresh_issue_eq conf jwt_encode jwt_decode uuid4_hex jwt_roundtrip lives_on u s Hon) as [b Hb].
    rewrite Hb in E. injection E as _ <-. eexists. by split; [apply change_refreshed|].
  - unfold logout_endpoint, when in E. destruct (negb _).
    + apply (logout_shape _ _ _ _ Hon) in E as [[-> _]|[(j & -> & _)|(p & j & x & uid & _ & _ & _ & _ & -> & _)]];
        eexists; (split; [|done]); by constructor.
    + injection E as _ <-. eexists. by split; [apply change_none|].
  - unfold me_endpoint, bind in E. destruct (authenticate jwt_decode auth s) as [r1 s4] eqn:Ea.
    apply authenticate_reads in Ea as ->. exists s. split; [by apply change_none|]. eapply same_store_trans; [|exact Hs].
    destruct r1 as [e|u]; [by injection E as _ <-|]. revert E.
    apply lift_same; unfold me, _role_ids, _build_me, PermissionRepository.codes_by_user, RoleRepository.visible_group_ids;
      preserves_auto.
  - unfold password_endpoint, bind in E. destruct (authenticate jwt_decode auth s) as [r1 s4] eqn:Ea.
    apply authenticate_reads in Ea as ->. destruct r1 as [e|u].
    { injection E as _ <-. exists s. by split; [apply change_none|]. }
    apply change_password_shape in E as [E|E]; (eexists; split; [|eapply same_store_trans; [exact E|exact Hs]]).
    1: by apply change_none. by apply change_drawn.
Qed.
End shapes.

Section invariants.
Variable conf : Settings.
Variable jwt_encode : json → string.
Variable jwt_decode : Z → string → option json.
Variable uuid4_hex : Z → string.
Variable bcrypt_hash : Z → string → string.
Variable verify_password : string → string → bool.
Hypothesis jwt_roundtrip : ∀ t p e,
  jget "exp" p = Some (JInt e) → t / microseconds ≤ e → jwt_decode t (jwt_encode p) = Some p.
Hypothesis lives_on : 0 ≤ refresh_token_expire_days conf.

Abbreviation runs := (runs conf jwt_encode jwt_decode uuid4_hex bcrypt_hash verify_password).
Abbreviation serve := (serve conf jwt_encode jwt_decode uuid4_hex bcrypt_hash verify_password).
Abbreviation change := (change conf uuid4_hex verify_password).

Lemma failed_frame name s : online s →
  drawn (failed conf name s) = drawn s ∧ app (failed conf name s) = app s ∧ link (failed conf name s) = link s ∧
  ∀ k, k ≠ fail_key name → k ≠ lock_key name → redis (failed conf name s) !! k = redis s !! k.
Proof.
  intros Hon. unfold failed, record_login_failure. rewrite if_up_online by done.
  set (m := bind _ _).
  set (I := λ s', drawn s' = drawn s ∧ app s' = app s ∧ link s' = link s ∧
    ∀ k, k ≠ fail_key name → k ≠ lock_key name → redis s' !! k = redis s !! k).
  assert (∀ k e s', k = fail_key name ∨ k = lock_key name → I s' → I (store k e s')) as Hst.
  { intros k e s' Hk (Hd & Ha & Hl & Hr). split_and!; [done..|]. intros k' ??. unfold store. cbn.
    rewrite lookup_insert_ne by (by destruct Hk as [->| ->]). auto. }
  assert (preserves I m) as Hp; [|by apply (Hp s)].
  apply preserves_bind; [|intros n; apply preserves_bind; [|intros _]].
  - intros s' Hs'. unfold r_incr. destruct (peek (fail_key name) s') as [[]|]; cbn; auto.
  - apply preserves_modify. intros s' Hs'. destruct (peek (fail_key name) s'); auto.
  - apply preserves_bind; [|intros; apply preserves_ret]. apply preserves_when. intros _.
    apply preserves_modify. auto.
Qed.
Lemma change_link q s s' : online s → change q s s' → link s' = link s.
Proof.
  intros Hon. destruct 1 as [name _|_|name uid _ _|uid _|j _|uid j _|_]; try done.
  by destruct (failed_frame name s Hon) as (_ & _ & -> & _).
Qed.

(** What every change, the rest of the world and the end of a request keep,
    holds after any history. *)
Record kept (I : Server → Prop) : Prop := {
  kept_same : ∀ s s', same_store s s' → I s → I s';
  kept_world : ∀ s s', world s s' → I s → I s';
  kept_change : ∀ q s s', online s → change q s s' → I s → I s';
}.
Lemma kept_serve (I : Server → Prop) (q : Request) (s : Server) (a : Answer) (s' : Server) :
  kept I → online s → serve q s = (a, s') → I s → I s'.
Proof.
  intros [K1 _ K3] Hon H Hs.
  apply (serve_change conf jwt_encode jwt_decode uuid4_hex bcrypt_hash verify_password jwt_roundtrip lives_on)
    in H as (s1 & Hc & He); eauto.
Qed.
Lemma serve_online (q : Request) (s : Server) (a : Answer) (s' : Server) : online s → serve q s = (a, s') → online s'.
Proof.
  intros Hon H. apply (serve_change conf jwt_encode jwt_decode uuid4_hex bcrypt_hash verify_password jwt_roundtrip lives_on)
    in H as (s1 & Hc & _ & _ & Hl & _); [|done]. unfold online. rewrite Hl. by rewrite (change_link q s s1).
Qed.
Lemma runs_online (s : Server) (l : list Step) (s' : Server) : runs s l s' → online s → online s'.
Proof.
  induction 1 as [|s q a s1 l s' H _ IH|s s1 l s' W _ IH]; intros Hon; [done| |]; apply IH.
  - by eapply serve_online.
  - unfold online. by rewrite (world_link s s1 W).
Qed.
Lemma kept_runs (I : Server → Prop) (s : Server) (l : list Step) (s' : Server) :
  kept I → online s → runs s l s' → I s → I s'.
Proof.
  intros K Hon H. revert Hon. induction H as [|s q a s1 l s' H _ IH|s s1 l s' W _ IH]; intros Hon Hs; [done| |]; apply IH.
  - by eapply serve_online.
  - by apply (kept_serve I q s a).
  - unfold online. by rewrite (world_link s s1 W).
  - by apply (kept_world I K s).
Qed.
Lemma runs_app_inv s l1 l2 s' : runs s (l1 ++ l2) s' → ∃ s1, runs s l1 s1 ∧ runs s1 l2 s'.
Proof.
  revert s. induction l1 as [|x l1 IH]; intros s H; [by exists s; split; [constructor|]|].
  inversion H; subst; (edestruct IH as (s2 & ? & ?); [eassumption|]; exists s2; split; [by econstructor|done]).
Qed.

Lemma change_mono q s s' : online s → change q s s' → drawn s ≤ drawn s' ∧ app s' = app s.
Proof.
  intros Hon. destruct 1 as [name _|_|name uid _ _|uid _|j _|uid j _|_]; cbn; try (split; [lia|done]).
  destruct (failed_frame name s Hon) as (-> & ? & _). split; [lia|done].
Qed.
(** A refresh token in force was in force, or is fresh. *)
Lemma change_refresh q s s' uid :
  online s → change q s s' →
  redis s' !! refresh_key uid = redis s !! refresh_key uid ∨
  redis s' !! refresh_key uid = None ∨
  (∃ e, redis s' !! refresh_key uid = Some e ∧ value e = VText (uuid4_hex (drawn s + 1)) ∧
     drawn s' = drawn s + 2).
Proof.
  intros Hon. assert (∀ uid' s0, redis s0 !! refresh_key uid = redis s !! refresh_key uid → drawn s0 = drawn s →
    redis (issued conf uuid4_hex uid' s0) !! refresh_key uid = redis s !! refresh_key uid ∨
    ∃ e, redis (issued conf uuid4_hex uid' s0) !! refresh_key uid = Some e ∧
      value e = VText (uuid4_hex (drawn s + 1)) ∧ drawn (issued conf uuid4_hex uid' s0) = drawn s + 2) as Hi.
  { intros uid' s0 Hr Hd. unfold issued, store. cbn. destruct (decide (uid' = uid)) as [->|Hne].
    - right. rewrite lookup_insert_eq. eexists. split; [done|]. rewrite Hd. split; [done|lia].
    - left. rewrite lookup_insert_ne; [done|]. by intros E%(inj refresh_key). }
  destruct 1 as [name _|_|name uid' _ _|uid' _|j _|uid' j _|_]; try by left.
  - left. by apply failed_frame.
  - destruct (Hi uid' (cleared name s)) as [?|?]; [|done|by left|by right; right].
    unfold cleared. cbn. by rewrite lookup_delete_ne by discriminate.
  - destruct (Hi uid' s) as [?|?]; [done..|by left|by right; right].
  - left. unfold store. cbn. by rewrite lookup_insert_ne by discriminate.
  - unfold revoked, store. cbn. destruct (decide (uid' = uid)) as [->|Hne].
    + right; left. by rewrite lookup_delete_eq.
    + left. rewrite lookup_delete_ne by (by intros E%(inj refresh_key)). by rewrite lookup_insert_ne by discriminate.
Qed.

(** ** Refresh tokens *)

Context `{!Inj (=) (=) uuid4_hex}.
Definition was_drawn (j : string) (s : Server) : Prop := ∃ n, n < drawn s ∧ j = uuid4_hex n.
(** Whatever Redis takes for a refresh token was drawn. *)
Definition drawn_tokens (s : Server) : Prop := wf_table User.User (app s) ∧
  ∀ uid e j, redis s !! refresh_key uid = Some e → value e = VText j → was_drawn j s.
(** That token is not in force and will not be again. *)
Definition stale (uid : Z) (j : string) (s : Server) : Prop := was_drawn j s ∧
  ∀ e, redis s !! refresh_key uid = Some e → value e ≠ VText j.

Lemma was_drawn_mono j s s' : drawn s ≤ drawn s' → was_drawn j s → was_drawn j s'.
Proof. intros Hle (n & Hn & ->). exists n. split; [lia|done]. Qed.
Lemma kept_drawn_tokens : kept drawn_tokens.
Proof.
  split.
  - intros s s' (Hr & Hd & _ & Ht & Hw) [Hu Hs]. split; [auto|]. intros uid e j. rewrite Hr. intros He Hv.
    eapply was_drawn_mono; [|by eapply Hs]. lia.
  - intros s s' W [Hu Hs]. split; [by apply W|]. intros uid e j.
    rewrite (world_redis s s' W) by (unfold our_key; eauto 6). intros He Hv.
    eapply was_drawn_mono; [|by eapply Hs]. apply W.
  - intros q s s' Hon Hc [Hu Hs]. destruct (change_mono q s s' Hon Hc) as [Hm Ha]. split; [by rewrite Ha|].
    intros uid e j He Hv. destruct (change_refresh q s s' uid Hon Hc) as [E|[E|(e' & E & Hv' & Hd)]].
    + rewrite E in He. eapply was_drawn_mono; [|by eapply Hs]. done.
    + congruence.
    + rewrite E in He. simplify_eq. rewrite Hv' in Hv. simplify_eq. exists (drawn s + 1). split; [lia|done].
Qed.
Lemma kept_stale uid j : kept (stale uid j).
Proof.
  split.
  - intros s s' (Hr & Hd & _) [Hw Hs]. split; [eapply was_drawn_mono; [|done]; lia|]. by rewrite Hr.
  - intros s s' W [Hw Hs]. split; [eapply was_drawn_mono; [apply W|done]|].
    by rewrite (world_redis s s' W) by (unfold our_key; eauto 6).
  - intros q s s' Hon Hc [Hw Hs]. destruct (change_mono q s s' Hon Hc) as [Hm _].
    split; [by eapply was_drawn_mono|]. intros e He.
    destruct (change_refresh q s s' uid Hon Hc) as [E|[E|(e' & E & Hv' & Hd)]]; rewrite E in He; [eauto|done|].
    simplify_eq. rewrite Hv'. destruct Hw as (n & Hn & ->). intros [= E'%(inj uuid4_hex)]. lia.
Qed.
Lemma stale_refused uid j tok s p x :
  online s → stale uid j s → jwt_decode (time s) tok = Some p → jget "sub" p = Some x → py_int x = inr uid →
  jget "jti" p = Some (JStr j) → ∃ e, (refresh_check jwt_decode tok s) = (inl e, s).
Proof.
  intros Hon [_ Hs] Hp Hx Hi Hj. destruct (refresh_check jwt_decode tok s) as [r s'] eqn:E.
  apply (refresh_check_reads _ _ _ _ _ Hon) in E as [-> Hr]. destruct r as [e|u]; [by exists e|]. exfalso.
  destruct (Hr u eq_refl) as (p' & i & x' & Hp' & Hx' & Hi' & (t & Ht & Hn & Hk) & _).
  simplify_eq. unfold peek in Hk. destruct (redis s !! refresh_key i) as [e|] eqn:He; [|done].
  destruct (alive (time s) e); [|done]. injection Hk as Hk. simplify_eq. assert (i = uid) as -> by congruence. by apply (Hs e).
Qed.
End invariants.

(** ** Theorems *)

Section theorems.
Variable conf : Settings.
Variable jwt_encode : json → string.
Variable jwt_decode : Z → string → option json.
Variable uuid4_hex : Z → string.
Variable bcrypt_hash : Z → string → string.
Variable verify_password : string → string → bool.
Hypothesis jwt_roundtrip : ∀ t p e,
  jget "exp" p = Some (JInt e) → t / microseconds ≤ e → jwt_decode t (jwt_encode p) = Some p.
(** What a token says does not change with time, and it says nothing once the
    second of its [exp] is over. *)
Hypothesis jwt_stable : ∀ t t' tok p p', jwt_decode t tok = Some p → jwt_decode t' tok = Some p' → p = p'.
Hypothesis jwt_expires : ∀ t tok p e,
  jwt_decode t tok = Some p → jget "exp" p = Some (JInt e) → t / microseconds ≤ e.
Hypothesis uuid_inj : Inj (=) (=) uuid4_hex.
Hypothesis lives_on : 0 ≤ refresh_token_expire_days conf.

Abbreviation runs := (runs conf jwt_encode jwt_decode uuid4_hex bcrypt_hash verify_password).
Abbreviation serve := (serve conf jwt_encode jwt_decode uuid4_hex bcrypt_hash verify_password).
Abbreviation drawn_tokens := (drawn_tokens uuid4_hex).
Abbreviation was_drawn := (was_drawn uuid4_hex).
Abbreviation stale := (stale uuid4_hex).

Lemma serve_refresh_granted tok s toks s' :
  online s → serve (QRefresh tok) s = (ATokens (inr (Ok toks)), s') →
  ∃ u, refresh_check jwt_decode tok s = (inr u, s) ∧ same_store (issued conf uuid4_hex (User.id u) s) s'.
Proof.
  intros Hon. cbn [Auth.serve]. unfold answered. destruct (run_act _ s) as [r s2] eqn:E. intros [= -> <-].
  apply run_act_same in E as (s3 & E & Hs). unfold refresh_endpoint, refresh_tokens in E. unfold bind in E.
  destruct (refresh_check jwt_decode tok s) as [[e|u] s4] eqn:Ec; [discriminate|].
  pose proof Ec as Ec'. apply (refresh_check_reads _ _ _ _ _ Hon) in Ec' as [-> _].
  destruct (refresh_issue_eq conf jwt_encode jwt_decode uuid4_hex jwt_roundtrip lives_on u s Hon) as [b Hb].
  rewrite Hb in E. injection E as _ <-. by exists u.
Qed.
Lemma serve_refresh_refused tok s e : refresh_check jwt_decode tok s = (inl e, s) →
  (serve (QRefresh tok) s).1 = ATokens (inl e).
Proof.
  intros H. cbn [Auth.serve]. unfold answered, run_act, refresh_endpoint, refresh_tokens, bind. by rewrite H.
Qed.

(** C33: While Redis answers, a refresh token is good for one refresh: whatever is
    requested and whatever happens elsewhere between two refreshes with it, the
    second is refused. *)
Theorem refresh_single_use s0 pre s1 tok toks mid s2 r s3 :
  drawn_tokens s0 → online s0 →
  runs s0 (pre ++ Served s1 (QRefresh tok) (ATokens (inr (Ok toks))) :: mid ++ [Served s2 (QRefresh tok) (ATokens r)]) s3 →
  ∃ e, r = inl e.
Proof.
  intros H0 Hon (sa & Hpre & Hrest)%runs_app_inv.
  assert (drawn_tokens sa) as Ha.
  { eapply (kept_runs conf jwt_encode jwt_decode uuid4_hex bcrypt_hash verify_password); eauto using kept_drawn_tokens. }
  assert (online s1 ∧ sa = s1) as [Hon1 ->].
  { assert (sa = s1) as -> by (by inversion Hrest). split; [|done].
    by apply (runs_online conf jwt_encode jwt_decode uuid4_hex bcrypt_hash verify_password jwt_roundtrip lives_on
      _ _ _ Hpre). }
  inversion Hrest as [|? ? ? sb ? ? Hserve Hmid|]; subst. clear Hrest Hpre H0 Hon.
  assert (online sb) as Honb by (by apply (serve_online conf jwt_encode jwt_decode uuid4_hex bcrypt_hash
    verify_password jwt_roundtrip lives_on _ _ _ _ Hon1 Hserve)).
  apply runs_app_inv in Hmid as (sc & Hmid & Hlast).
  inversion Hlast as [|? ? ? sd ? ? Hserve2 _|]; subst. clear Hlast.
  assert (online s2) as Hon2 by (by apply (runs_online conf jwt_encode jwt_decode uuid4_hex bcrypt_hash
    verify_password jwt_roundtrip lives_on _ _ _ Hmid)).
  destruct (serve_refresh_granted _ _ _ _ Hon1 Hserve) as (u & Hc & Hsame).
  apply (refresh_check_reads _ _ _ _ _ Hon1) in Hc as [_ Hc]. destruct (Hc u eq_refl) as (p & i & x & Hp & Hx & Hi & (j & Hj & _ & Hk) & Hu & _).
  assert (User.id u = i) as Hid by (destruct Ha as [[Hw _] _]; exact (wf_id Hw i u Hu)).
  assert (was_drawn j s1) as Hd.
  { unfold peek in Hk. destruct (redis s1 !! refresh_key i) as [e|] eqn:He; [|done].
    destruct (alive (time s1) e); [|done]. injection Hk as Hk. destruct Ha as [_ Ha]. eauto. }
  assert (stale i j sb) as Hst.
  { eapply (kept_same conf uuid4_hex verify_password (stale i j)); [by apply kept_stale|exact Hsame|].
    split; [by eapply was_drawn_mono; [|exact Hd]; cbn; lia|]. intros e. unfold issued, store. cbn.
    rewrite Hid, lookup_insert_eq. intros [= <-]. cbn. destruct Hd as (n & Hn & ->).
    intros [= E%(inj uuid4_hex)]. lia. }
  assert (stale i j s2) as Hst2.
  { apply (kept_runs conf jwt_encode jwt_decode uuid4_hex bcrypt_hash verify_password jwt_roundtrip lives_on
      (stale i j) sb mid s2); [by apply kept_stale|exact Honb|exact Hmid|exact Hst]. }
  assert (∃ e, refresh_check jwt_decode tok s2 = (inl e, s2)) as [e He].
  { destruct (jwt_decode (time s2) tok) as [p'|] eqn:Ep.
    - rewrite (jwt_stable _ _ _ _ _ Ep Hp) in Ep. by eapply stale_refused.
    - unfold Auth.refresh_check, bind, try_catch. rewrite decode_token_reads, Ep. by eexists. }
  exists e. apply serve_refresh_refused in He. rewrite Hserve2 in He. by injection He.
Qed.

(** The blacklist holds the token until [X], which no later blacklisting of it
    shortens. *)
Definition ttl : Z := access_token_expire_minutes conf * 60 * microseconds.
Definition black_until (X : Z) (j : string) (s : Server) : Prop :=
  X ≤ time s + ttl ∧
  ∃ e x, redis s !! black_key j = Some e ∧ value e = VText "1" ∧ expires e = Some x ∧ X ≤ x.
Lemma kept_black_until X j : kept conf uuid4_hex verify_password (black_until X j).
Proof.
  split.
  - intros s s' (Hr & _ & _ & Ht & _) [Hx Hb]. split; [lia|]. by rewrite Hr.
  - intros s s' W [Hx Hb]. split; [pose proof (world_time _ _ W); lia|].
    by rewrite (world_redis s s' W) by (unfold our_key; eauto 6).
  - intros q s s' Hon Hc [Hx Hb]. destruct (change_mono _ _ _ q s s' Hon Hc) as [_ Ha].
    assert (time s' = time s) as Ht by (unfold time; by rewrite Ha). split; [lia|]. clear Ha Ht.
    assert (∀ j', redis (store (black_key j') (mkEntry (VText "1") (in_seconds (access_token_expire_minutes conf * 60) s)) s) !! black_key j = redis s !! black_key j ∨
      redis (store (black_key j') (mkEntry (VText "1") (in_seconds (access_token_expire_minutes conf * 60) s)) s) !! black_key j =
      Some (mkEntry (VText "1") (in_seconds (access_token_expire_minutes conf * 60) s))) as Hst.
    { intros j'. unfold store. cbn. destruct (decide (j' = j)) as [->|Hne]; [right; by rewrite lookup_insert_eq|left].
      rewrite lookup_insert_ne; [done|]. by intros E%(inj black_key). }
    assert (∃ e x, Some (mkEntry (VText "1") (in_seconds (access_token_expire_minutes conf * 60) s)) = Some e ∧
      value e = VText "1" ∧ expires e = Some x ∧ X ≤ x) as Hnew.
    { eexists _, _. split; [done|]. split; [done|]. split; [done|]. unfold ttl in Hx. lia. }
    destruct Hc as [name _|_|name uid _ _|uid _|j' _|uid j' _|_]; [|exact Hb|..]; [| | | | |exact Hb].
    + by destruct (failed_frame conf name s Hon) as (_ & _ & _ & ->).
    + unfold issued, store, cleared. cbn. rewrite lookup_insert_ne by discriminate.
      by rewrite lookup_delete_ne by discriminate.
    + unfold issued, store. cbn. by rewrite lookup_insert_ne by discriminate.
    + destruct (Hst j') as [->| ->]; done.
    + assert (redis (revoked conf uid j' s) !! black_key j = redis (store (black_key j')
        (mkEntry (VText "1") (in_seconds (access_token_expire_minutes conf * 60) s)) s) !! black_key j) as ->
        by (unfold revoked; cbn; by rewrite lookup_delete_ne by discriminate).
      by destruct (Hst j') as [->| ->].
Qed.

(** The token a bearer header carries *)
Definition bears (authorization token : string) : Prop :=
  starts_with "bearer " (lower authorization) = true ∧ strip (after_space authorization) = token.
Lemma authenticate_refused a tok s :
  bears a tok →
  (∀ p, jwt_decode (time s) tok = Some p → ∃ j, jget "jti" p = Some (JStr j) ∧ j ≠ "" ∧ blacklisted s j = inr true) →
  ∃ m, (authenticate jwt_decode (Some a) s).1 = inl (UnauthorizedError m).
Proof.
  intros [Hb Ht] Hp. unfold authenticate, lift, get_current_user, _bearer_token. rewrite Hb, Ht.
  unfold bind, ret, raise, access_payload.
  destruct (jwt_decode (time s) tok) as [p|]; [|by eexists].
  destruct (has_type "access" p); [|by eexists].
  destruct (Hp p eq_refl) as (j & Hj & Hn & Hbl). rewrite Hj.
  destruct (jget "sub" p) as [x|]; cbn [jti]; rewrite bool_decide_false, Hbl by done; by eexists.
Qed.

(** C34: A logout ends the session for good, if Redis answered when the process
    started and answers throughout. Its access token is refused from then on, by
    the blacklist until that entry expires and by its own expiry afterwards,
    provided that the second of its [exp] ends before the entry does (as it does
    when the token was issued a second or more before); and every refresh token of
    the user drawn before the logout is refused. *)
Theorem logout_ends_session s0 auth s1 mid s p e j x uid :
  drawn_tokens s0 → online s0 →
  serve (QLogout auth) s0 = (ADone (inr ()), s1) → runs s1 mid s →
  logout_token auth ≠ "" → jwt_decode (time s0) (logout_token auth) = Some p →
  jget "exp" p = Some (JInt e) → (e + 1) * microseconds ≤ time s0 + ttl →
  jget "jti" p = Some (JStr j) → j ≠ "" → jget "sub" p = Some x → py_int x = inr uid →
  (∀ a, bears a (logout_token auth) →
     ∃ m, (authenticate jwt_decode (Some a) s).1 = inl (UnauthorizedError m)) ∧
  (∀ tok p' j' x', jwt_decode (time s) tok = Some p' → jget "sub" p' = Some x' → py_int x' = inr uid →
     jget "jti" p' = Some (JStr j') → was_drawn j' s0 →
     ∃ err, (serve (QRefresh tok) s).1 = ATokens (inl err)).
Proof.
  intros H0 Hon Hserve Hmid Hne Hp He Hexp Hj Hjn Hx Hi.
  assert (online s1) as Hon1 by (by apply (serve_online conf jwt_encode jwt_decode uuid4_hex bcrypt_hash
    verify_password jwt_roundtrip lives_on _ _ _ _ Hon Hserve)).
  assert (online s) as Hons by (by apply (runs_online conf jwt_encode jwt_decode uuid4_hex bcrypt_hash
    verify_password jwt_roundtrip lives_on _ _ _ Hmid)).
  assert (same_store (revoked conf uid j s0) s1) as Hs1.
  { revert Hserve. cbn [Auth.serve]. unfold answered. destruct (run_act _ s0) as [r s2] eqn:E. intros [= -> <-].
    apply run_act_same in E as (s3 & E & Hs). unfold logout_endpoint, when in E.
    rewrite bool_decide_false in E by done. cbn [negb] in E.
    apply (logout_shape _ _ _ _ _ _ Hon) in E as [(_ & err & [=])|[(j' & _ & err & [=])|(p' & j' & x' & uid' & Hp' & Hj' & Hx' & Hi' & -> & _)]].
    simplify_eq. assert (uid' = uid) as -> by congruence. done. }
  split.
  - intros a Ha. eapply authenticate_refused; [exact Ha|]. intros p' Hp'.
    assert (p' = p) as -> by (eapply jwt_stable; eassumption). exists j. split_and!; [done..|].
    assert (black_until (time s0 + ttl) j s) as (_ & b & y & Hb & Hv & Hy & Hle).
    { apply (kept_runs conf jwt_encode jwt_decode uuid4_hex bcrypt_hash verify_password jwt_roundtrip lives_on
        (black_until (time s0 + ttl) j) s1 mid s (kept_black_until _ _)); [exact Hon1|exact Hmid|].
      eapply (kept_same conf uuid4_hex verify_password (black_until (time s0 + ttl) j)); [apply kept_black_until|exact Hs1|].
      split; [apply Z.le_refl|]. eexists _, _. split.
      { unfold revoked. cbn. rewrite lookup_delete_ne by discriminate. apply lookup_insert_eq. }
      split_and!; [done|done|apply Z.le_refl]. }
    unfold blacklisted, peek. rewrite Hons. cbn [startup reachable]. rewrite Hb. unfold alive. rewrite Hy.
    assert (time s < y) as Hlt; [|by apply Z.ltb_lt in Hlt as ->].
    pose proof (jwt_expires _ _ _ _ Hp' He) as Hd.
    assert (time s < (e + 1) * microseconds); [|lia].
    pose proof (Z.div_mod (time s) microseconds ltac:(done)).
    pose proof (Z.mod_pos_bound (time s) microseconds ltac:(done)). nia.
  - intros tok p' j' x' Hp' Hx' Hi' Hj' Hd.
    assert (stale uid j' s) as Hst.
    { apply (kept_runs conf jwt_encode jwt_decode uuid4_hex bcrypt_hash verify_password jwt_roundtrip lives_on
        (stale uid j') s1 mid s); [by apply kept_stale|exact Hon1|exact Hmid|].
      eapply (kept_same conf uuid4_hex verify_password (stale uid j')); [by apply kept_stale|exact Hs1|].
      split; [exact Hd|]. intros b. unfold revoked. cbn. by rewrite lookup_delete_eq. }
    destruct (stale_refused jwt_decode uuid4_hex uid j' tok s p' x') as [err Herr]; [done..|].
    exists err. by apply serve_refresh_refused.
Qed.

(** ** Wrong passwords *)

Definition minute : Z := 60 * microseconds.
Hypothesis some_failures : 1 ≤ login_max_failures conf.
Hypothesis some_lock : 1 ≤ login_lock_minutes conf.

(** The keys of the counts hold counts. *)
Definition counts (s : Server) : Prop :=
  ∀ name e, redis s !! fail_key name = Some e → ∃ c, value e = VCount c ∧ 0 ≤ c.
(** After [n] wrong passwords of [name] at times from [T] on: the account is
    locked, or the count has reached [n] and is still on, for all of the minute
    from [T]. *)
Definition tally (name : string) (T n : Z) (s : Server) : Prop :=
  counts s ∧ 0 ≤ n ≤ login_max_failures conf ∧
  (n = 0 ∨
   (∃ e x, redis s !! lock_key name = Some e ∧ expires e = Some x ∧ T + minute ≤ x) ∨
   (n < login_max_failures conf ∧ ∃ e c x, redis s !! fail_key name = Some e ∧ value e = VCount c ∧ n ≤ c ∧
      expires e = Some x ∧ T + minute ≤ x)).

Lemma tally_ext name T n s s' :
  (∀ u, redis s' !! fail_key u = redis s !! fail_key u) →
  (∀ u, redis s' !! lock_key u = redis s !! lock_key u) → tally name T n s → tally name T n s'.
Proof.
  intros Hf Hl (Hc & Hn & Ht). split; [|split; [done|by rewrite Hf, Hl]].
  intros u e. rewrite Hf. apply Hc.
Qed.

(** One wrong password *)
Lemma failed_eq name s : online s → counts s → ∃ c, 0 ≤ c ∧
  (∀ e c0, redis s !! fail_key name = Some e → value e = VCount c0 → alive (time s) e = true → c = c0) ∧
  redis (failed conf name s) !! fail_key name = Some (mkEntry (VCount (c + 1)) (Some (time s + minute))) ∧
  (login_max_failures conf ≤ c + 1 →
     redis (failed conf name s) !! lock_key name =
     Some (mkEntry (VText "1") (Some (time s + login_lock_minutes conf * 60 * microseconds)))) ∧
  (redis (failed conf name s) !! lock_key name = redis s !! lock_key name ∨
     redis (failed conf name s) !! lock_key name =
     Some (mkEntry (VText "1") (Some (time s + login_lock_minutes conf * 60 * microseconds)))).
Proof.
  intros Hon Hc.
  assert (∃ c ex, 0 ≤ c ∧ r_incr (fail_key name) s = (inr (c + 1), store (fail_key name) (mkEntry (VCount (c + 1)) ex) s) ∧
    (∀ e c0, redis s !! fail_key name = Some e → value e = VCount c0 → alive (time s) e = true → c = c0) ∧
    alive (time s) (mkEntry (VCount (c + 1)) ex) = true) as (c & ex & H0 & Hi & Hsame & Hal).
  { unfold r_incr, peek. destruct (redis s !! fail_key name) as [e|] eqn:He.
    - destruct (Hc name e He) as (c & Hv & Hp). destruct (alive (time s) e) eqn:Ea.
      + exists c, (expires e). rewrite Hv. split_and!; [done|done| |done]. intros. simplify_eq. congruence.
      + exists 0, None. split_and!; [done|done| |done]. intros. simplify_eq. congruence.
    - exists 0, None. split_and!; try done. }
  exists c. split; [done|]. split; [done|].
  assert (failed conf name s =
    (when (login_max_failures conf <=? c + 1) (r_setex (lock_key name) (login_lock_minutes conf * 60) (VText "1"))
      (store (fail_key name) (mkEntry (VCount (c + 1)) (Some (time s + minute))) s)).2) as ->.
  { unfold failed, record_login_failure. rewrite if_up_online, (bind_inr _ _ _ _ _ Hi) by done.
    unfold bind, r_expire, modify. rewrite peek_store. cbn [time store app set_of] in *.
    change (time (store (fail_key name) (mkEntry (VCount (c + 1)) ex) s)) with (time s). rewrite Hal.
    cbn [value]. unfold store. cbn. rewrite insert_insert_eq.
    destruct (login_max_failures conf <=? c + 1); done. }
  unfold when. destruct (login_max_failures conf <=? c + 1) eqn:Em; cbn.
  - rewrite lookup_insert_ne by discriminate. split_and!; [by rewrite lookup_insert_eq|by rewrite lookup_insert_eq|].
    right. by rewrite lookup_insert_eq.
  - apply Z.leb_gt in Em. split_and!; [by rewrite lookup_insert_eq|lia|]. left. by rewrite lookup_insert_ne by discriminate.
Qed.

Lemma failed_counts name s : online s → counts s → counts (failed conf name s).
Proof.
  intros Hon Hc u e He. destruct (failed_eq name s Hon Hc) as (c & H0 & _ & Hf & _).
  destruct (decide (u = name)) as [->|Hne].
  - rewrite Hf in He. simplify_eq. exists (c + 1). split; [done|lia].
  - destruct (failed_frame conf name s Hon) as (_ & _ & _ & Hr). rewrite Hr in He; [eauto| |done].
    by intros E%(inj fail_key).
Qed.
Lemma tally_failed name T n s :
  online s → tally name T n s → locked name s = false → T ≤ time s < T + minute → tally name T (n + 1) (failed conf name s).
Proof.
  intros Hon (Hc & Hn & Ht) Hl HT. destruct (failed_eq name s Hon Hc) as (c & H0 & Hsame & Hf & Hlock & _).
  assert (n ≤ c ∧ n < login_max_failures conf) as [Hle Hlt].
  { destruct Ht as [->|[(e & x & He & Hx & Hle)|(Hlt & e & c0 & x & He & Hv & Hle & Hx & Hxx)]].
    - split; [done|lia].
    - exfalso. revert Hl. unfold locked, peek, alive. rewrite He, Hx.
      assert (time s < x) as ->%Z.ltb_lt by lia. done.
    - rewrite (Hsame e c0); [done..|]. unfold alive. rewrite Hx. apply Z.ltb_lt. lia. }
  split; [by apply failed_counts|]. split; [lia|]. right.
  destruct (decide (login_max_failures conf ≤ c + 1)) as [Hm|Hm].
  - left. eexists _, _. split; [by apply Hlock|]. split; [done|]. unfold minute, microseconds in *. nia.
  - right. split; [lia|]. eexists _, _, _. split; [exact Hf|]. cbn. split; [done|]. split; [lia|]. split; [done|lia].
Qed.
Lemma tally_failed_other name name' T n s :
  online s → name' ≠ name → tally name T n s → tally name T n (failed conf name' s).
Proof.
  intros Hon Hne (Hc & Hn & Ht). destruct (failed_frame conf name' s Hon) as (_ & _ & _ & Hr).
  split; [by apply failed_counts|]. split; [done|].
  rewrite !Hr; try done; by intros E%(inj _).
Qed.
Lemma tally_change name T n q s s' :
  online s → change conf uuid4_hex verify_password q s s' →
  guess verify_password q s ≠ Some name → clears verify_password q s ≠ Some name →
  tally name T n s → tally name T n s'.
Proof.
  intros Hon. destruct 1 as [name' Hg|_|name' uid _ Hcl|uid _|j _|uid j _|_]; intros Hn1 Hn2 Ht.
  - apply tally_failed_other; [done| |done]. by intros ->.
  - done.
  - destruct Ht as (Hc & Hn & Ht). split; [|split; [done|]].
    + intros u e. unfold issued, store, cleared. cbn. rewrite lookup_insert_ne by discriminate.
      intros [_ He]%lookup_delete_Some. by apply Hc in He.
    + unfold issued, store, cleared. cbn. rewrite !lookup_insert_ne by discriminate.
      rewrite lookup_delete_ne by discriminate. rewrite lookup_delete_ne; [done|].
      intros E%(inj fail_key). congruence.
  - revert Ht. apply tally_ext; intros; unfold issued, store; cbn; by rewrite lookup_insert_ne by discriminate.
  - revert Ht. apply tally_ext; intros; unfold store; cbn; by rewrite lookup_insert_ne by discriminate.
  - revert Ht. apply tally_ext; intros; unfold revoked, store; cbn; rewrite lookup_delete_ne by discriminate;
      by rewrite lookup_insert_ne by discriminate.
  - exact Ht.
Qed.

(** The name whose password a step found wrong; the name whose count it resets *)
Definition guess_of (x : Step) : option string :=
  match x with Served s q _ => guess verify_password q s | Elsewhere => None end.
Definition cleared_by (x : Step) : option string :=
  match x with Served s q _ => clears verify_password q s | Elsewhere => None end.
Definition time_of (x : Step) : Z := match x with Served s _ _ => time s | Elsewhere => 0 end.
Definition guesses (name : string) (l : list Step) : Z :=
  Z.of_nat (length (filter (λ x, guess_of x = Some name) l)).

Lemma tally_runs name T n s l s' :
  online s → runs s l s' → tally name T n s →
  (∀ x, x ∈ l → guess_of x = Some name → T ≤ time_of x < T + minute) →
  (∀ x, x ∈ l → cleared_by x ≠ Some name) →
  tally name T (n + guesses name l) s'.
Proof.
  intros Hon Hr. revert n Hon. induction Hr as [s|s q a s1 l s' Hs _ IH|s s1 l s' W _ IH]; intros n Hon Ht Hw Hcl.
  - unfold guesses. cbn. by rewrite Z.add_0_r.
  - assert (∀ x, x ∈ l → x ∈ Served s q a :: l) as Hin by (intros; by apply elem_of_cons; right).
    assert (online s1) as Hon1 by (by apply (serve_online conf jwt_encode jwt_decode uuid4_hex bcrypt_hash
      verify_password jwt_roundtrip lives_on _ _ _ _ Hon Hs)).
    apply (serve_change conf jwt_encode jwt_decode uuid4_hex bcrypt_hash verify_password jwt_roundtrip lives_on)
      in Hs as (s2 & Hch & Hr & _); [|exact Hon].
    assert (∀ m, tally name T m s2 → tally name T m s1) as Hto by (intros m; apply tally_ext; intros; by rewrite Hr).
    unfold guesses. rewrite filter_cons. destruct (decide (guess_of (Served s q a) = Some name)) as [Hg|Hg].
    + cbn [length]. rewrite Nat2Z.inj_succ. unfold Z.succ. rewrite (Z.add_comm _ 1), Z.add_assoc. apply IH; [exact Hon1| |eauto..].
      apply Hto. specialize (Hw _ ltac:(by apply elem_of_cons; left) Hg). cbn in Hw, Hg.
      assert (locked name s = false) as Hl.
      { destruct q; cbn in Hg; try done; repeat case_match; by simplify_eq. }
      inversion Hch as [name' Hg'|Hg'|? ? Hg'|? Hg'|? Hg'|? ? Hg'|Hg']; subst; rewrite Hg in Hg'; try done.
      simplify_eq. by apply tally_failed.
    + apply IH; [exact Hon1| |eauto..]. apply Hto. eapply tally_change; [exact Hon|exact Hch|exact Hg| |done].
      apply (Hcl (Served s q a)). by apply elem_of_cons; left.
  - assert (∀ x, x ∈ l → x ∈ Elsewhere :: l) as Hin by (intros; by apply elem_of_cons; right).
    unfold guesses. rewrite filter_cons. destruct (decide (guess_of Elsewhere = Some name)) as [Hg|_]; [done|].
    apply IH; [unfold online; by rewrite (world_link s s1 W)| |eauto..]. revert Ht. apply tally_ext; intros u; apply (world_redis s s1 W); unfold our_key; eauto.
Qed.

(** C32: While Redis answers, the passwords of an account can be guessed at most [login_max_failures]
    times a minute: over any history in which nobody logs in as that user, of the
    wrong passwords given at times within one minute no more are looked at. *)
Theorem login_failures_bounded name T s l s' :
  counts s → online s → runs s l s' →
  (∀ x, x ∈ l → guess_of x = Some name → T ≤ time_of x < T + minute) →
  (∀ x, x ∈ l → cleared_by x ≠ Some name) →
  guesses name l ≤ login_max_failures conf.
Proof.
  intros Hc Hon Hr Hw Hcl. destruct (tally_runs name T 0 s l s' Hon Hr) as (_ & Hn & _); [|done..|].
  - split; [done|]. split; [lia|]. by left.
  - lia.
Qed.
End theorems.

(** Two refreshes with one token whose checks both come before either of them
    stores its own are both granted; the tokens of the first are not good. *)
Lemma refresh_race conf jwt_encode jwt_decode uuid4_hex tok s u :
  (∀ t p e, jget "exp" p = Some (JInt e) → t / microseconds ≤ e → jwt_decode t (jwt_encode p) = Some p) →
  0 ≤ refresh_token_expire_days conf →
  online s → refresh_check jwt_decode tok s = (inr u, s) →
  ∃ t1 s1 t2 s2, refresh_issue conf jwt_encode jwt_decode uuid4_hex u s = (inr t1, s1) ∧
    refresh_issue conf jwt_encode jwt_decode uuid4_hex u s1 = (inr t2, s2) ∧
    s2 = issued conf uuid4_hex (User.id u) s1.
Proof.
  intros Hj Hd Hon _.
  destruct (refresh_issue_eq conf jwt_encode jwt_decode uuid4_hex Hj Hd u s Hon) as [b1 E1].
  destruct (refresh_issue_eq conf jwt_encode jwt_decode uuid4_hex Hj Hd u (issued conf uuid4_hex (User.id u) s) Hon) as [b2 E2].
  eauto 10.
Qed.

(** ** A Redis that comes up late

    [get_redis] finds it; the [app.state.redis] of the process stays nothing. *)

Lemma admitted_payload (jwt_decode : Z → string → option json) t b a s uid row :
  admitted (access_payload jwt_decode t) b (Some a) s uid row →
  ∃ p x, jwt_decode t (strip (after_space a)) = Some p ∧ has_type "access" p = true ∧
    jget "sub" p = Some x ∧ py_int x = inr uid.
Proof.
  intros (a' & payload & [= <-] & _ & Hd & _ & Hs & _). revert Hd. unfold access_payload.
  destruct (jwt_decode t _) as [p|]; [|done]. destruct (has_type "access" p) eqn:Ht; [|done].
  destruct (jget "sub" p) as [x|] eqn:Hx; intros [= <-]; cbn in Hs; [|done]. by exists p, x.
Qed.

(** Without a client from the start, Redis has no say in who is let in. *)
Lemma authenticate_late jwt_decode a s s' :
  startup (link s) = false → startup (link s') = false → app s' = app s →
  (authenticate jwt_decode a s').1 = (authenticate jwt_decode a s).1.
Proof.
  intros H1 H2 Ha. unfold authenticate, lift, blacklisted, time. rewrite H1, H2, Ha. by destruct (get_current_user _ _ _ _).
Qed.
(** What a logout does to a Redis that answers *)
Lemma logout_reachable conf jwt_decode tok p j x uid s :
  reachable (link s) = true → jwt_decode (time s) tok = Some p → has_type "access" p = true →
  jget "jti" p = Some (JStr j) → jget "sub" p = Some x → py_int x = inr uid →
  logout conf jwt_decode tok s = (inr (), revoked conf uid j (linked s)).
Proof.
  intros Hr Hp Ht Hj Hx Hi. unfold logout, try_catch. unfold bind at 1. rewrite decode_token_reads, Hp, Ht.
  cbv beta iota. unfold bind at 1, text_claim. rewrite Hj. cbn [ret].
  unfold bind at 1, blacklist_access. rewrite if_up_reachable by done. unfold r_setex, modify.
  unfold bind, subject_of, int_of. rewrite Hx, Hi. cbn [ret]. unfold revoke_refresh.
  by rewrite if_up_reachable.
Qed.

(** C35: A process that starts while Redis is down never honours a logout: when
    Redis answers by the time of the logout, the logout succeeds and Redis then
    holds the token's blacklist entry, yet the same header is still let in as the
    same principal. *)
Theorem late_redis_logout_void conf jwt_encode jwt_decode uuid4_hex bcrypt_hash verify_password s a p j u :
  startup (link s) = false → reachable (link s) = true → work (app s) = committed (app s) →
  0 < access_token_expire_minutes conf →
  (authenticate jwt_decode (Some a) s).1 = inr u →
  logout_token (Some a) = strip (after_space a) → logout_token (Some a) ≠ "" →
  jwt_decode (time s) (logout_token (Some a)) = Some p → jget "jti" p = Some (JStr j) →
  ∃ s1, serve conf jwt_encode jwt_decode uuid4_hex bcrypt_hash verify_password (QLogout (Some a)) s = (ADone (inr ()), s1) ∧
    peek (black_key j) s1 = Some (VText "1") ∧
    (authenticate jwt_decode (Some a) s1).1 = inr u.
Proof.
  intros Hst Hr Hw Hconf Ha Htok Hne Hp Hj.
  destruct (authenticate jwt_decode (Some a) s) as [r s0] eqn:E. cbn in Ha. subst r.
  pose proof E as E0. unfold authenticate, lift in E.
  destruct (get_current_user _ _ _ _) as [r1 a1] eqn:E1. injection E as -> _.
  apply get_current_user_run in E1 as (-> & uid & row & Hadm).
  apply admitted_payload in Hadm as (p' & x & Hp' & Ht & Hx & Hi). rewrite <-Htok, Hp in Hp'. injection Hp' as <-.
  eexists. split; [|split].
  - cbn [Auth.serve]. unfold answered, run_act, logout_endpoint, when. rewrite bool_decide_false by done. cbn [negb].
    erewrite logout_reachable by done. reflexivity.
  - unfold peek, revoked, linked. cbn. rewrite lookup_delete_ne by discriminate. rewrite lookup_insert_eq.
    unfold alive. cbn. assert (time s < time s + access_token_expire_minutes conf * 60 * microseconds) as Hlt
      by (unfold microseconds; lia). unfold time in *. cbn in *. by apply Z.ltb_lt in Hlt as ->.
  - transitivity (authenticate jwt_decode (Some a) s).1; [|by rewrite E0].
    apply authenticate_late; [done|done|]. cbn. destruct s as [[] ? ? ?]. cbn in *. by subst.
Qed.

(** ** A signature scheme: the text of a token is the code of its claims *)

Definition leaf : Type := bool + (Z + ((Z * positive) + string)).
Definition node := gen_tree leaf.
Fixpoint to_tree (j : json) : node :=
  match j with
  | JNull => GenNode 0 []
  | JBool b => GenLeaf (inl b)
  | JInt z => GenLeaf (inr (inl z))
  | JFloat q => GenLeaf (inr (inr (inl (Qnum q, Qden q))))
  | JStr s => GenLeaf (inr (inr (inr s)))
  | JArr l => GenNode 1 (to_tree <$> l)
  | JObj o => GenNode 2 ((λ kv, GenNode 3 [GenLeaf (inr (inr (inr kv.1))); to_tree kv.2]) <$> o)
  end.
Fixpoint of_tree (t : node) : json :=
  match t with
  | GenLeaf (inl b) => JBool b
  | GenLeaf (inr (inl z)) => JInt z
  | GenLeaf (inr (inr (inl (n, d)))) => JFloat (n # d)
  | GenLeaf (inr (inr (inr s))) => JStr s
  | GenNode 1 l => JArr (of_tree <$> l)
  | GenNode 2 l => JObj ((λ t, match t with
      | GenNode 3 [GenLeaf (inr (inr (inr k))); v] => (k, of_tree v)
      | _ => ("", JNull) end) <$> l)
  | _ => JNull
  end.
Lemma of_to_tree j : of_tree (to_tree j) = j.
Proof.
  induction j as [| | |[n d]|s|l IH|o IH] using json_ind; try done.
  - cbn. f_equal. induction IH as [|x l Hx _ IHl]; [done|]. cbn. f_equal; [exact Hx|exact IHl].
  - cbn. f_equal. induction IH as [|[k x] l Hx _ IHl]; [done|]. cbn. f_equal; [by f_equal|exact IHl].
Qed.

Fixpoint bits (p : positive) : string :=
  match p with xH => "" | xO p => String "0" (bits p) | xI p => String "1" (bits p) end.
Fixpoint of_bits (s : string) : option positive :=
  match s with
  | EmptyString => Some xH
  | String c s => if Ascii.eqb c "0" then xO <$> of_bits s else if Ascii.eqb c "1" then xI <$> of_bits s else None
  end.
Lemma of_bits_bits p : of_bits (bits p) = Some p.
Proof. induction p as [p IH|p IH|]; cbn; rewrite ?IH; done. Qed.

Definition code_token (claims : json) : string := bits (encode (to_tree claims)).
Definition read_token (t : Z) (token : string) : option json :=
  match of_bits token with
  | Some p => match decode (A:=node) p with
              | Some n => let claims := of_tree n in
                  match jget "exp" claims with
                  | Some (JInt e) => if t / microseconds <=? e then Some claims else None
                  | _ => None
                  end
              | None => None end
  | None => None
  end.
Lemma read_code t p e : jget "exp" p = Some (JInt e) → t / microseconds ≤ e → read_token t (code_token p) = Some p.
Proof.
  intros He Ht. unfold read_token, code_token. rewrite of_bits_bits, decode_encode, of_to_tree, He.
  by apply Z.leb_le in Ht as ->.
Qed.
Lemma read_stable t t' tok p p' : read_token t tok = Some p → read_token t' tok = Some p' → p = p'.
Proof.
  unfold read_token. destruct (of_bits tok) as [b|]; [|done]. destruct (decode b) as [n|]; [|done].
  destruct (jget "exp" (of_tree n)) as [[]|]; try done. repeat case_match; congruence.
Qed.
Lemma read_expires t tok p e : read_token t tok = Some p → jget "exp" p = Some (JInt e) → t / microseconds ≤ e.
Proof.
  unfold read_token. destruct (of_bits tok) as [b|]; [|done]. destruct (decode b) as [n|]; [|done].
  destruct (jget "exp" (of_tree n)) as [[]|] eqn:He; try done. case_match eqn:Hle; [|done].
  intros [= <-]. rewrite He. intros [= <-]. by apply Z.leb_le.
Qed.
Definition plain_hash (salt : Z) (password : string) : string := password.
Definition plain_verify (password hash : string) : bool := bool_decide (password = hash).
#[local] Instance pretty_uuid : Inj (=) (=) (pretty : Z → string) := _.
Definition user_st : Server := mkServer (login_st <| seqs := {["sys_user" := 7]} |>) ∅ 0 (mkLink true true true).
Definition demo (conf : Settings) : Request → Server → Answer * Server :=
  serve conf code_token read_token pretty plain_hash plain_verify.
Definition given (a : Answer) : Tokens :=
  match a with ATokens (inr (Ok t)) => t | _ => mkTokens "" "" JNull end.
(** User 7 logs in; two seconds pass. *)
Definition eve_in : Server := (demo settings (QLogin "eve" "") user_st).2.
Definition eve_tokens : Tokens := given (demo settings (QLogin "eve" "") user_st).1.
Definition eve_later : Server := eve_in <| app := app eve_in <| now := now (app eve_in) + 2000000 |> |>.
Definition eve_header : string := "Bearer " +:+ access_token eve_tokens.

Lemma user_st_drawn : drawn_tokens pretty user_st.
Proof. split; [apply wf_tableb_spec; vm_compute; reflexivity|]. intros uid e j. cbn. by rewrite lookup_empty. Qed.
Lemma serve_pair conf q s a :
  (demo conf q s).1 = a →
  serve conf code_token read_token pretty plain_hash plain_verify q s = (a, (demo conf q s).2).
Proof. intros <-. unfold demo. by destruct (serve _ _ _ _ _ _ q s). Qed.

Lemma world_clock s d : 0 ≤ d → world s (s <| app := app s <| now := now (app s) + d |> |>).
Proof. intros Hd. split; [unfold time; cbn; lia|cbn; lia|done|done|done]. Qed.
Lemma eve_later_drawn : drawn_tokens pretty eve_later.
Proof.
  apply (kept_world settings pretty plain_verify (drawn_tokens pretty)) with (s := eve_in).
  - by apply kept_drawn_tokens.
  - apply (world_clock eve_in 2000000). done.
  - apply (kept_serve settings code_token read_token pretty plain_hash plain_verify (λ t p e, read_code t p e)
      ltac:(vm_compute; discriminate) (drawn_tokens pretty) (QLogin "eve" "") user_st
      (demo settings (QLogin "eve" "") user_st).1 eve_in).
    + by apply kept_drawn_tokens.
    + reflexivity.
    + exact (serve_pair settings (QLogin "eve" "") user_st _ eq_refl).
    + exact user_st_drawn.
Qed.

Lemma refresh_single_use_witness :
  let tok := refresh_token eve_tokens in
  let first := demo settings (QRefresh tok) eve_in in
  (∃ toks, first.1 = ATokens (inr (Ok toks))) ∧
  ∃ r, (demo settings (QRefresh tok) first.2).1 = ATokens r ∧ ∃ e, r = inl e.
Proof.
  cbv zeta.
  assert (∃ toks, (demo settings (QRefresh (refresh_token eve_tokens)) eve_in).1 = ATokens (inr (Ok toks))) as [toks Ht].
  { eexists. vm_compute. reflexivity. }
  assert (∃ r, (demo settings (QRefresh (refresh_token eve_tokens))
    (demo settings (QRefresh (refresh_token eve_tokens)) eve_in).2).1 = ATokens r) as [r Hr].
  { eexists. vm_compute. reflexivity. }
  split; [by exists toks|]. exists r. split; [exact Hr|].
  eapply (refresh_single_use settings code_token read_token pretty plain_hash plain_verify
    (λ t p e, read_code t p e) read_stable pretty_uuid ltac:(vm_compute; discriminate) user_st
    [Served user_st (QLogin "eve" "") (demo settings (QLogin "eve" "") user_st).1] eve_in
    (refresh_token eve_tokens) toks [] _ r); [exact user_st_drawn|reflexivity|].
  cbn [app]. eapply runs_served; [by apply serve_pair|]. fold eve_in.
  eapply runs_served; [exact (serve_pair _ _ _ _ Ht)|].
  eapply runs_served; [exact (serve_pair _ _ _ _ Hr)|]. apply runs_nil.
Defined.

Lemma logout_ends_session_witness :
  let out := demo settings (QLogout (Some eve_header)) eve_later in
  out.1 = ADone (inr ()) ∧
  (∃ m, (authenticate read_token (Some eve_header) out.2).1 = inl (UnauthorizedError m)) ∧
  ∃ err, (demo settings (QRefresh (refresh_token eve_tokens)) out.2).1 = ATokens (inl err).
Proof.
  cbv zeta.
  assert ((demo settings (QLogout (Some eve_header)) eve_later).1 = ADone (inr ())) as Ho by (vm_compute; reflexivity).
  split; [exact Ho|].
  assert (∃ p, read_token (time eve_later) (logout_token (Some eve_header)) = Some p ∧
    jget "exp" p = Some (JInt ((time eve_in + ttl settings) / microseconds)) ∧ jget "jti" p = Some (JStr (pretty 0)) ∧
    jget "sub" p = Some (JStr "7")) as (p & Hp & He & Hj & Hs).
  { eexists. split; [vm_compute; reflexivity|]. split_and!; vm_compute; reflexivity. }
  assert (∃ p, read_token (time (demo settings (QLogout (Some eve_header)) eve_later).2) (refresh_token eve_tokens) = Some p ∧
    jget "jti" p = Some (JStr (pretty 1)) ∧ jget "sub" p = Some (JStr "7")) as (p' & Hp' & Hj' & Hs').
  { eexists. split; [vm_compute; reflexivity|]. split; vm_compute; reflexivity. }
  destruct (logout_ends_session settings code_token read_token pretty plain_hash plain_verify
    (λ t p e, read_code t p e) read_stable read_expires pretty_uuid ltac:(vm_compute; discriminate)
    eve_later (Some eve_header) (demo settings (QLogout (Some eve_header)) eve_later).2 []
    (demo settings (QLogout (Some eve_header)) eve_later).2 p ((time eve_in + ttl settings) / microseconds)
    (pretty 0) (JStr "7") 7) as [Ha Hr].
  - exact eve_later_drawn.
  - reflexivity.
  - exact (serve_pair _ _ _ _ Ho).
  - apply runs_nil.
  - vm_compute. discriminate.
  - exact Hp.
  - exact He.
  - vm_compute. discriminate.
  - exact Hj.
  - discriminate.
  - exact Hs.
  - reflexivity.
  - split; [apply Ha; split; vm_compute; reflexivity|].
    apply (Hr _ p' (pretty 1) (JStr "7")); try done. exists 1. split; [vm_compute; reflexivity|reflexivity].
Defined.

(** The process of [eve] started without Redis. *)
Definition late : Server := eve_later <| link := mkLink false false true |>.
Lemma late_redis_logout_void_witness :
  ∃ s1, demo settings (QLogout (Some eve_header)) late = (ADone (inr ()), s1) ∧
    peek (black_key "0") s1 = Some (VText "1") ∧
    (authenticate read_token (Some eve_header) s1).1 = inr (mkUser 7 "eve" false ["ticket:list"] [5]).
Proof.
  assert (∃ p, read_token (time late) (logout_token (Some eve_header)) = Some p ∧
    jget "jti" p = Some (JStr "0")) as (p & Hp & Hj).
  { eexists. split; [vm_compute; reflexivity|]. vm_compute; reflexivity. }
  apply (late_redis_logout_void settings code_token read_token pretty plain_hash plain_verify late eve_header p).
  - reflexivity.
  - reflexivity.
  - vm_compute. reflexivity.
  - reflexivity.
  - vm_compute. reflexivity.
  - vm_compute. reflexivity.
  - vm_compute. discriminate.
  - exact Hp.
  - exact Hj.
Defined.

Definition strict : Settings := mkSettings 1 10 120 7.
Lemma login_failures_bounded_witness :
  let l := [Served user_st (QLogin "eve" "x") (demo strict (QLogin "eve" "x") user_st).1;
            Served (demo strict (QLogin "eve" "x") user_st).2 (QLogin "eve" "y")
              (demo strict (QLogin "eve" "y") (demo strict (QLogin "eve" "x") user_st).2).1] in
  guesses plain_verify "eve" l = 1 ∧ guesses plain_verify "eve" l ≤ login_max_failures strict.
Proof.
  cbv zeta. split; [vm_compute; reflexivity|].
  eapply (login_failures_bounded strict code_token read_token pretty plain_hash plain_verify (λ t p e, read_code t p e)
    ltac:(vm_compute; discriminate) ltac:(vm_compute; discriminate) ltac:(vm_compute; discriminate)
    "eve" (time user_st) user_st).
  - intros name e. cbn. by rewrite lookup_empty.
  - reflexivity.
  - eapply runs_served; [by apply serve_pair|]. eapply runs_served; [by apply serve_pair|]. apply runs_nil.
  - intros x [->|[->|Hx%elem_of_nil]%elem_of_cons]%elem_of_cons _; [..|done]; vm_compute; (split; [discriminate|reflexivity]).
  - intros x [->|[->|Hx%elem_of_nil]%elem_of_cons]%elem_of_cons; [..|done]; vm_compute; discriminate.
Defined.
