(* ===== verification/Ticket.v ===== *)
(** * Tickets: [services/ticket_service.py]

    The ticket lifecycle (an action-keyed transition table over [ticket.status]),
    its comments, attachments and references.  Section [facts] proves that every
    handler moves a ticket only along [TICKET_TRANSITIONS]. *)

From S2P Require Import Prelude.
From S2P Require Import Models.
From S2P Require Import Session.
From S2P Require Import Repositories.
From S2P Require Import Access.

(** ** Vocabularies (db/models/ticket.py) *)

Definition TICKET_STATUSES : list string :=
  ["create"; "assign"; "accept"; "processing"; "done"; "close"; "cancel"].
Definition TICKET_EDITABLE_STATUSES : list string := ["create"; "assign"].
Definition TICKET_CATEGORIES : list string := ["incident"; "change"; "request"; "other"].
Definition TICKET_PRIORITIES : list string := ["low"; "medium"; "high"; "urgent"].
Definition TICKET_REF_TYPES : list string :=
  ["exec_task"; "approval"; "asset_host"; "schedule"; "kb_article"; "script"].

(** action -> (allowed_from, target) *)
Definition TICKET_TRANSITIONS : list (string * (list string * string)) :=
  [ ("assign", (["create"; "assign"], "assign"));
    ("accept", (["assign"], "accept"));
    ("process", (["accept"], "processing"));
    ("done", (["processing"], "done"));
    ("close", (["done"], "close"));
    ("reopen", (["done"; "close"], "processing"));
    ("cancel", (["create"; "assign"; "accept"; "processing"], "cancel")) ].

(** ** Request bodies (schemas/ticket.py) *)

Module TicketCreate.
Record TicketCreate := mk {
  title : string; category : string; priority : string; description : string;
  assignee_id : option Z; host_ids : option (list Z); due_at : option Z }.
End TicketCreate.
Module TicketUpdate.
Record TicketUpdate := mk {
  title : option string; category : option string; priority : option string;
  description : option string; assignee_id : option Z; due_at : option Z }.
End TicketUpdate.
Module TicketFilters.
Record TicketFilters := mk {
  category : option string; status : option string; priority : option string;
  ticket_no : option string; requester_id : option Z; assignee_id : option Z;
  start : option Z; end_ : option Z }.
End TicketFilters.
(** An uploaded file: its client-side names and its content's length. *)
Module Upload.
Record Upload := mk { filename : string; name : string; size : Z }.
End Upload.

(** ** Helpers *)

Definition _ticket_no : Op string :=
  d ← gets today;
  n ← nextval "seq_ticket_no";
  ret ("TK-" +:+ date_prefix d +:+ "-" +:+ zpad 3 n).

Definition _require_feature : Op () := require_feature "feature.ticket".

Definition _get (ticket_id : Z) : Op Ticket.Ticket :=
  t ← db_get ticket_id;
  some_or t (NotFoundError "ticket not found").

Definition _out (t : Ticket.Ticket) : json := JObj [
  ("id", JInt (Ticket.id t)); ("ticket_no", JStr (Ticket.ticket_no t));
  ("title", JStr (Ticket.title t)); ("category", JStr (Ticket.category t));
  ("priority", JStr (Ticket.priority t)); ("status", JStr (Ticket.status t));
  ("requester_id", jz (Ticket.requester_id t)); ("assignee_id", jz (Ticket.assignee_id t));
  ("team_id", jz (Ticket.team_id t)); ("description", JStr (Ticket.description t));
  ("sla_due_at", jtime (Ticket.sla_due_at t)); ("resolved_at", jtime (Ticket.resolved_at t));
  ("closed_at", jtime (Ticket.closed_at t)); ("version", JInt (Ticket.version t));
  ("created_at", jtime (Some (Ticket.created_at t))) ].

Definition transition_error (action status : string) : exn :=
  BadRequestError ("cannot " +:+ action +:+ " ticket in status '" +:+ status +:+ "'").

(** The target of [action] from the status of [t]. *)
Definition move (action : string) (t : Ticket.Ticket) : exn + string :=
  match assoc_get action TICKET_TRANSITIONS with
  | None => inl (KeyError action)
  | Some (allowed_from, target) =>
      if str_in (Ticket.status t) allowed_from then inr target
      else inl (transition_error action (Ticket.status t))
  end.
(** [ticket.status = target; ticket.version += 1] *)
Definition moved (target : string) (version : Z) (r : Ticket.Ticket) : Ticket.Ticket :=
  r <| Ticket.status := target |> <| Ticket.version := version + 1 |>.
(** [_apply_transition(ticket, action)] followed by the caller's other
    assignments [f] to the same object. *)
Definition _apply_transition (t : Ticket.Ticket) (action : string)
    (f : Ticket.Ticket → Ticket.Ticket) : Op Ticket.Ticket :=
  match move action t with
  | inl e => raise e
  | inr target =>
      db_upd (Ticket.id t) (λ r, f (moved target (Ticket.version t) r));;
      ret (f (moved target (Ticket.version t) t))
  end.

(** ** CRUD *)

Definition add_ref_row (ticket_id : Z) (ref_type : string) (ref_id : Z) (created_by : Z)
    : Op TicketRef.TicketRef :=
  db_add (TicketRef.mk 0 ticket_id ref_type ref_id (Some created_by) 0).

Definition create_ticket (user : CurrentUser) (data : TicketCreate.TicketCreate) : Op json :=
  _require_feature;;
  require_perm user "ticket:create";;
  guard_or (str_in (TicketCreate.category data) TICKET_CATEGORIES)
    (ValidationError ("invalid category: " +:+ TicketCreate.category data));;
  guard_or (str_in (TicketCreate.priority data) TICKET_PRIORITIES)
    (ValidationError ("invalid priority: " +:+ TicketCreate.priority data));;
  status ← (if z_truthy (TicketCreate.assignee_id data)
            then require_perm user "ticket:assign";; ret "assign"
            else ret "create");
  no ← _ticket_no;
  t ← db_add {|
    Ticket.id := 0; Ticket.ticket_no := no; Ticket.title := TicketCreate.title data;
    Ticket.category := TicketCreate.category data; Ticket.priority := TicketCreate.priority data;
    Ticket.status := status; Ticket.requester_id := Some (user_id user);
    Ticket.assignee_id := TicketCreate.assignee_id data; Ticket.team_id := None;
    Ticket.description := TicketCreate.description data;
    Ticket.sla_due_at := TicketCreate.due_at data; Ticket.resolved_at := None;
    Ticket.closed_at := None; Ticket.version := 0; Ticket.created_at := 0 |};
  for_each (default [] (TicketCreate.host_ids data)) (λ host_id,
    add_ref_row (Ticket.id t) "asset_host" host_id (user_id user);; ret ());;
  db_commit;;
  ret (_out t).

Definition list_matches (f : TicketFilters.TicketFilters) (t : Ticket.Ticket) : bool :=
  opt_cond (TicketFilters.category f) (λ v, bool_decide (Ticket.category t = v)) &&
  opt_cond (TicketFilters.status f) (λ v, bool_decide (Ticket.status t = v)) &&
  opt_cond (TicketFilters.priority f) (λ v, bool_decide (Ticket.priority t = v)) &&
  opt_cond (TicketFilters.ticket_no f) (λ v, bool_decide (Ticket.ticket_no t = v)) &&
  opt_cond_z (TicketFilters.requester_id f) (λ v, bool_decide (Ticket.requester_id t = Some v)) &&
  opt_cond_z (TicketFilters.assignee_id f) (λ v, bool_decide (Ticket.assignee_id t = Some v)) &&
  match TicketFilters.start f with Some v => v <=? Ticket.created_at t | None => true end &&
  match TicketFilters.end_ f with Some v => Ticket.created_at t <=? v | None => true end.

Definition list_tickets (user : CurrentUser) (filters : TicketFilters.TicketFilters)
    (page size : Z) : Op json :=
  _require_feature;;
  require_perm user "ticket:list";;
  l ← db_select (list_matches filters);
  ret (JObj [("list", JArr (_out <$> page_of l page size));
             ("total", JInt (Z.of_nat (length l))); ("page", JInt page); ("size", JInt size)]).

Definition get_ticket (user : CurrentUser) (ticket_id : Z) : Op json :=
  _require_feature;;
  require_perm user "ticket:list";;
  t ← _get ticket_id;
  refs ← db_select (λ r, TicketRef.ticket_id r =? ticket_id);
  comments ← db_select (λ c, TicketComment.ticket_id c =? ticket_id);
  attachments ← db_select (λ a, TicketAttachment.ticket_id a =? ticket_id);
  ret (jset "attachments" (JArr ((λ a, JObj [
           ("id", JInt (TicketAttachment.id a)); ("file_id", JInt (TicketAttachment.file_id a));
           ("filename", JStr (TicketAttachment.filename a)); ("size", JInt (TicketAttachment.size a));
           ("created_at", jtime (Some (TicketAttachment.created_at a)))]) <$> attachments))
      (jset "comments" (JArr ((λ c, JObj [
           ("id", JInt (TicketComment.id c)); ("author_id", jz (TicketComment.author_id c));
           ("content", JStr (TicketComment.content c));
           ("created_at", jtime (Some (TicketComment.created_at c)))]) <$> comments))
      (jset "refs" (JArr ((λ r, JObj [
           ("id", JInt (TicketRef.id r)); ("ref_type", JStr (TicketRef.ref_type r));
           ("ref_id", JInt (TicketRef.ref_id r))]) <$> refs)) (_out t)))).

(** The assignments [if data.<f> is not None: ticket.<f> = data.<f>] and
    [ticket.version += 1]. *)
Definition edited (data : TicketUpdate.TicketUpdate) (version : Z) (t : Ticket.Ticket) : Ticket.Ticket :=
  t <| Ticket.title := default (Ticket.title t) (TicketUpdate.title data) |>
    <| Ticket.category := default (Ticket.category t) (TicketUpdate.category data) |>
    <| Ticket.priority := default (Ticket.priority t) (TicketUpdate.priority data) |>
    <| Ticket.description := default (Ticket.description t) (TicketUpdate.description data) |>
    <| Ticket.assignee_id := match TicketUpdate.assignee_id data with
                             | Some a => Some a | None => Ticket.assignee_id t end |>
    <| Ticket.sla_due_at := match TicketUpdate.due_at data with
                            | Some d => Some d | None => Ticket.sla_due_at t end |>
    <| Ticket.version := version + 1 |>.

Definition edit_ticket (user : CurrentUser) (ticket_id : Z) (data : TicketUpdate.TicketUpdate)
    : Op json :=
  _require_feature;;
  require_perm user "ticket:edit";;
  t ← _get ticket_id;
  guard_or (str_in (Ticket.status t) TICKET_EDITABLE_STATUSES)
    (BadRequestError ("ticket not editable in status '" +:+ Ticket.status t +:+ "'"));;
  guard_or (match TicketUpdate.category data with
            | Some c => str_in c TICKET_CATEGORIES | None => true end)
    (ValidationError ("invalid category: " +:+ default "" (TicketUpdate.category data)));;
  guard_or (match TicketUpdate.priority data with
            | Some p => str_in p TICKET_PRIORITIES | None => true end)
    (ValidationError ("invalid priority: " +:+ default "" (TicketUpdate.priority data)));;
  db_upd (Ticket.id t) (edited data (Ticket.version t));;
  db_commit;;
  ret (_out (edited data (Ticket.version t) t)).

(** ** Transitions *)

Definition assign_ticket (user : CurrentUser) (ticket_id assignee_id : Z) : Op json :=
  _require_feature;;
  require_perm user "ticket:assign";;
  t ← _get ticket_id;
  t' ← _apply_transition t "assign" (λ t, t <| Ticket.assignee_id := Some assignee_id |>);
  db_commit;;
  ret (_out t').

Definition _simple_transition (user : CurrentUser) (ticket_id : Z) (action perm : string) : Op json :=
  _require_feature;;
  require_perm user perm;;
  t ← _get ticket_id;
  n ← utc_now;
  t' ← _apply_transition t action (λ t,
         if bool_decide (action = "close") then t <| Ticket.closed_at := Some n |> else t);
  db_commit;;
  ret (_out t').

Definition accept_ticket (user : CurrentUser) (ticket_id : Z) : Op json :=
  _simple_transition user ticket_id "accept" "ticket:accept".
Definition process_ticket (user : CurrentUser) (ticket_id : Z) : Op json :=
  _simple_transition user ticket_id "process" "ticket:process".
Definition close_ticket (user : CurrentUser) (ticket_id : Z) : Op json :=
  _simple_transition user ticket_id "close" "ticket:close".
Definition reopen_ticket (user : CurrentUser) (ticket_id : Z) : Op json :=
  _simple_transition user ticket_id "reopen" "ticket:reopen".
Definition cancel_ticket (user : CurrentUser) (ticket_id : Z) : Op json :=
  _simple_transition user ticket_id "cancel" "ticket:cancel".

(** [exec_task_id] is [data.exec_task_id] of the optional body. *)
Definition done_ticket (user : CurrentUser) (ticket_id : Z) (exec_task_id : option Z) : Op json :=
  _require_feature;;
  require_perm user "ticket:done";;
  t ← _get ticket_id;
  n ← utc_now;
  t' ← _apply_transition t "done" (λ t, t <| Ticket.resolved_at := Some n |>);
  (match exec_task_id with
   | Some e => when (z_truthy exec_task_id)
                 (add_ref_row (Ticket.id t) "exec_task" e (user_id user);; ret ())
   | None => ret ()
   end);;
  db_commit;;
  ret (_out t').

(** ** Comments, attachments, references *)

Definition add_comment (user : CurrentUser) (ticket_id : Z) (content : string) : Op json :=
  _require_feature;;
  require_perm user "ticket:comment";;
  t ← _get ticket_id;
  c ← db_add (TicketComment.mk 0 (Ticket.id t) (Some (user_id user)) content 0);
  db_commit;;
  ret (JObj [("id", JInt (TicketComment.id c)); ("ticket_id", JInt (Ticket.id t));
             ("author_id", JInt (user_id user)); ("content", JStr (TicketComment.content c));
             ("created_at", jtime (Some (TicketComment.created_at c)))]).

(** The part of [s] after its last slash, when there is one. *)
Fixpoint after_last_slash (s : string) : option string :=
  match s with
  | EmptyString => None
  | String c s' => match after_last_slash s' with
                   | Some b => Some b
                   | None => if Ascii.eqb c "/"%char then Some s' else None
                   end
  end.
(** [s.split("/")[-1]] *)
Definition basename (s : string) : string := default s (after_last_slash s).

(** [Path(dir) / name] opened for writing: the directory itself, its parent or
    the empty name are not files. *)
Definition write_bytes (dir name : string) (size : Z) : Op () :=
  if str_in name [""; "."; ".."] then raise (OtherError "IsADirectoryError")
  else emit_out (EFileWrite (dir +:+ "/" +:+ name) size).

Section attachments.
(** [settings.transfer_store_dir] *)
Variable transfer_store_dir : string.

Definition store_root (ticket_id : Z) : string :=
  transfer_store_dir +:+ "/tickets/" +:+ pretty ticket_id.

Definition upload_name (f : Upload.Upload) : string :=
  basename (s_or (Some (s_or (Some (Upload.filename f)) (Upload.name f))) "file").

Definition add_attachment (user : CurrentUser) (t : Ticket.Ticket) (f : Upload.Upload) : Op json :=
  let name := upload_name f in
  write_bytes (store_root (Ticket.id t)) name (Upload.size f);;
  pkg ← db_add (FilePackage.mk 0 name 1 (Upload.size f)
                  (store_root (Ticket.id t) +:+ "/" +:+ name) (Some (user_id user)) 0);
  a ← db_add (TicketAttachment.mk 0 (Ticket.id t) (FilePackage.id pkg) name (Upload.size f)
                (Some (user_id user)) 0);
  ret (JObj [("id", JInt (TicketAttachment.id a)); ("file_id", JInt (FilePackage.id pkg));
             ("filename", JStr name); ("size", JInt (Upload.size f))]).

Definition add_attachments (user : CurrentUser) (ticket_id : Z) (files : list Upload.Upload)
    : Op json :=
  _require_feature;;
  require_perm user "ticket:attachment";;
  t ← _get ticket_id;
  guard_or (match files with [] => false | _ => true end) (BadRequestError "files[] required");;
  created ← map_each files (add_attachment user t);
  db_commit;;
  ret (JObj [("ticket_id", JInt (Ticket.id t)); ("attachments", JArr created)]).
End attachments.

Definition ref_out (r : TicketRef.TicketRef) (ticket_id : Z) (created : bool) : json := JObj [
  ("id", JInt (TicketRef.id r)); ("ticket_id", JInt ticket_id);
  ("ref_type", JStr (TicketRef.ref_type r)); ("ref_id", JInt (TicketRef.ref_id r));
  ("created", JBool created)].

Definition ref_key (ticket_id : Z) (ref_type : string) (ref_id : Z) (r : TicketRef.TicketRef) : bool :=
  (TicketRef.ticket_id r =? ticket_id) && bool_decide (TicketRef.ref_type r = ref_type) &&
  (TicketRef.ref_id r =? ref_id).

Definition add_ref (user : CurrentUser) (ticket_id : Z) (ref_type : string) (ref_id : Z) : Op json :=
  _require_feature;;
  require_perm user "ticket:ref";;
  t ← _get ticket_id;
  guard_or (str_in ref_type TICKET_REF_TYPES)
    (ValidationError ("invalid ref_type: " +:+ ref_type));;
  existing ← db_find (ref_key (Ticket.id t) ref_type ref_id);
  match existing with
  | Some r => ret (ref_out r (Ticket.id t) false)
  | None =>
      r ← add_ref_row (Ticket.id t) ref_type ref_id (user_id user);
      db_commit;;
      ret (ref_out r (Ticket.id t) true)
  end.

(** ** Every request on tickets *)

Inductive request :=
  | RCreate (u : CurrentUser) (data : TicketCreate.TicketCreate)
  | RList (u : CurrentUser) (f : TicketFilters.TicketFilters) (page size : Z)
  | RGet (u : CurrentUser) (i : Z)
  | REdit (u : CurrentUser) (i : Z) (data : TicketUpdate.TicketUpdate)
  | RAssign (u : CurrentUser) (i assignee : Z)
  | RAccept (u : CurrentUser) (i : Z)
  | RProcess (u : CurrentUser) (i : Z)
  | RDone (u : CurrentUser) (i : Z) (exec_task_id : option Z)
  | RClose (u : CurrentUser) (i : Z)
  | RReopen (u : CurrentUser) (i : Z)
  | RCancel (u : CurrentUser) (i : Z)
  | RComment (u : CurrentUser) (i : Z) (content : string)
  | RAttach (u : CurrentUser) (i : Z) (store_dir : string) (files : list Upload.Upload)
  | RRef (u : CurrentUser) (i : Z) (ref_type : string) (ref_id : Z).

Definition handle (r : request) : Op json :=
  match r with
  | RCreate u d => create_ticket u d
  | RList u f p n => list_tickets u f p n
  | RGet u i => get_ticket u i
  | REdit u i d => edit_ticket u i d
  | RAssign u i a => assign_ticket u i a
  | RAccept u i => accept_ticket u i
  | RProcess u i => process_ticket u i
  | RDone u i e => done_ticket u i e
  | RClose u i => close_ticket u i
  | RReopen u i => reopen_ticket u i
  | RCancel u i => cancel_ticket u i
  | RComment u i c => add_comment u i c
  | RAttach u i dir fs => add_attachments dir u i fs
  | RRef u i t r => add_ref u i t r
  end.

(** ** The lifecycle as a specification

    [ticket_step t t']: what one request may do to one ticket. *)

Inductive ticket_step (t t' : Ticket.Ticket) : Prop :=
  | step_move action allowed target :
      assoc_get action TICKET_TRANSITIONS = Some (allowed, target) →
      Ticket.status t ∈ allowed → Ticket.status t' = target →
      Ticket.version t' = Ticket.version t + 1 →
      Ticket.category t' = Ticket.category t → Ticket.priority t' = Ticket.priority t →
      (Ticket.closed_at t' ≠ Ticket.closed_at t → action = "close") →
      (Ticket.resolved_at t' ≠ Ticket.resolved_at t → action = "done") →
      ticket_step t t'
  | step_edit :
      Ticket.status t ∈ TICKET_EDITABLE_STATUSES → Ticket.status t' = Ticket.status t →
      Ticket.version t' = Ticket.version t + 1 →
      (Ticket.category t' = Ticket.category t ∨ Ticket.category t' ∈ TICKET_CATEGORIES) →
      (Ticket.priority t' = Ticket.priority t ∨ Ticket.priority t' ∈ TICKET_PRIORITIES) →
      Ticket.closed_at t' = Ticket.closed_at t → Ticket.resolved_at t' = Ticket.resolved_at t →
      ticket_step t t'.

Definition ticket_ok (t : Ticket.Ticket) : Prop :=
  Ticket.status t ∈ TICKET_STATUSES ∧ Ticket.category t ∈ TICKET_CATEGORIES ∧
  Ticket.priority t ∈ TICKET_PRIORITIES.

(** A request turns the tickets [m] into [m']: every ticket stays or takes one
    step, and a new ticket starts at version 0 in [create] or [assign]. *)
Definition lifecycle (m m' : gmap Z Ticket.Ticket) : Prop :=
  (∀ i t, m !! i = Some t → ∃ t', m' !! i = Some t' ∧ (t' = t ∨ ticket_step t t')) ∧
  (∀ i t', m' !! i = Some t' → m !! i = None →
     Ticket.status t' ∈ TICKET_EDITABLE_STATUSES ∧ Ticket.version t' = 0 ∧ ticket_ok t').

Section facts.

Lemma lifecycle_refl m : lifecycle m m.
Proof. split; [eauto|]. intros i t' H1 H2. by rewrite H1 in H2. Qed.

(** Replacing ticket [t] by a successor. *)
Lemma lifecycle_step m i t t' :
  m !! i = Some t → ticket_step t t' → lifecycle m (<[i := t']> m).
Proof.
  intros Hi Hstep. split.
  - intros j t0 Hj. destruct (decide (i = j)) as [<-|Hne].
    + rewrite lookup_insert_eq. simplify_eq. eauto.
    + rewrite lookup_insert_ne by done. eauto.
  - intros j t0 Hj Hnone. destruct (decide (i = j)) as [<-|Hne]; [congruence|].
    rewrite lookup_insert_ne in Hj by done. congruence.
Qed.

Lemma lifecycle_new m i t :
  m !! i = None → Ticket.status t ∈ TICKET_EDITABLE_STATUSES → Ticket.version t = 0 →
  ticket_ok t → lifecycle m (<[i := t]> m).
Proof.
  intros Hi ???. split.
  - intros j t0 Hj. exists t0. split; [|by left].
    rewrite lookup_insert_ne; [done|]. by intros ->; rewrite Hi in Hj.
  - intros j t0 [[<- <-]|[? ?]]%lookup_insert_Some Hnone; [done|congruence].
Qed.

(** A transition is a step of the specification. *)
Lemma move_inr action t target :
  move action t = inr target →
  ∃ allowed, assoc_get action TICKET_TRANSITIONS = Some (allowed, target) ∧
    Ticket.status t ∈ allowed.
Proof.
  unfold move. destruct (assoc_get _ _) as [[allowed tgt]|]; [|done].
  unfold str_in. destruct (bool_decide_reflect (Ticket.status t ∈ allowed)); [|done].
  intros [= <-]. eauto.
Qed.

(** What a handler may add to the move: assignee and time stamps. *)
Definition stamps (action : string) (f : Ticket.Ticket → Ticket.Ticket) : Prop :=
  ∀ x, Ticket.id (f x) = Ticket.id x ∧
       Ticket.status (f x) = Ticket.status x ∧ Ticket.version (f x) = Ticket.version x ∧
       Ticket.category (f x) = Ticket.category x ∧ Ticket.priority (f x) = Ticket.priority x ∧
       (Ticket.closed_at (f x) ≠ Ticket.closed_at x → action = "close") ∧
       (Ticket.resolved_at (f x) ≠ Ticket.resolved_at x → action = "done").

Lemma step_of_move action t target f :
  move action t = inr target → stamps action f →
  ticket_step t (f (moved target (Ticket.version t) t)).
Proof.
  intros (allowed & Ha & Hin)%move_inr Hf.
  destruct (Hf (moved target (Ticket.version t) t)) as (_ & Hs & Hv & Hc & Hp & Hcl & Hr).
  eapply step_move; eauto.
Qed.

End facts.

(** The committed tickets after a request, against the tickets before it. *)
Definition request_post {A} (m : gmap Z Ticket.Ticket) (_ : exn + A) (s : St) : Prop :=
  lifecycle m (tbl (committed s)).

Section lifecycle_proofs.
Context (s : St).
Hypothesis clean : work s = committed s.
Hypothesis wf : wf_table Ticket.Ticket s.
#[local] Abbreviation m := (tbl (R:=Ticket.Ticket) (work s)).

Lemma post_same {A} (r : exn + A) s' : committed s' = committed s → request_post m r s'.
Proof. intros E. unfold request_post. rewrite E, clean. apply lifecycle_refl. Qed.

Lemma post_stepped {A} (r : exn + A) i t t' s' :
  m !! i = Some t → ticket_step t t' → tbl (committed s') = <[i := t']> m →
  request_post m r s'.
Proof. intros ?? E. unfold request_post. rewrite E. by eapply lifecycle_step. Qed.

Ltac other_tables :=
  eapply (wp_frame (R:=Ticket.Ticket));
  [|split; reflexivity|]; [preserves_auto|];
  let Hw := fresh "Hw" in let Hc := fresh "Hc" in
  intros [?|?] ? [Hw Hc]; cbv beta iota.

Lemma row_key i t : m !! i = Some t → Ticket.id t = i.
Proof. destruct wf as [Hw _]. exact (wf_id Hw i t). Qed.

Lemma create_ticket_lifecycle u data : wp (create_ticket u data) (request_post m) s.
Proof.
  unfold create_ticket, _require_feature, _ticket_no, add_ref_row. wp_run.
  all: try by apply post_same.
  all: other_tables; [by apply post_same|]; wp_run; unfold request_post; cbn.
  all: rewrite Hw, tbl_put_row.
  all: match goal with H : accepts (R:=Ticket.Ticket) _ _ _ = true |- _ => apply accepts_spec in H as (_ & ? & _) end.
  all: subst; apply lifecycle_new; [done|cbn..]; try done; try str_mem.
  all: split_and!; [cbn; str_mem|by apply str_in_true..].
Qed.

(** [_apply_transition], for a caller whose remaining work leaves the ticket
    table alone and ends in a commit. *)
Lemma wp_apply_transition {A} action f i t (k : Ticket.Ticket → Op A) :
  m !! i = Some t → stamps action f →
  (∀ t' s1, tbl (work s1) = <[i := t']> m → committed s1 = committed s → ticket_step t t' →
     wp (k t') (request_post m) s1) →
  wp (_apply_transition t action f >>= k) (request_post m) s.
Proof.
  intros Hi Hf Hk. unfold _apply_transition. wp_run; try by apply post_same.
  - pose proof (row_key i t Hi) as <-. simplify_eq.
    apply Hk; [apply tbl_put_row|done|]. by eapply step_of_move.
  - pose proof (row_key i t Hi) as <-. congruence.
Qed.

Ltac wp_to_move :=
  repeat lazymatch goal with
  | |- wp (_apply_transition _ _ _ >>= _) _ _ => fail
  | |- _ => wp_step
  end; try by apply post_same.
Ltac stamp := intros ?; cbn; split_and!; congruence.

Lemma _simple_transition_lifecycle u i action perm :
  wp (_simple_transition u i action perm) (request_post m) s.
Proof.
  unfold _simple_transition, _require_feature, _get. wp_to_move.
  eapply wp_apply_transition; [done| |].
  - destruct (bool_decide_reflect (action = "close")); stamp.
  - intros t' s1 Hw Hc Hs. wp_run. eapply post_stepped; [done|exact Hs|exact Hw].
Qed.

Lemma assign_ticket_lifecycle u i a : wp (assign_ticket u i a) (request_post m) s.
Proof.
  unfold assign_ticket, _require_feature, _get. wp_to_move.
  eapply wp_apply_transition; [done|stamp|].
  intros t' s1 Hw Hc Hs. wp_run. eapply post_stepped; [done|exact Hs|exact Hw].
Qed.

Lemma done_ticket_lifecycle u i e : wp (done_ticket u i e) (request_post m) s.
Proof.
  unfold done_ticket, _require_feature, _get, add_ref_row. wp_to_move.
  eapply wp_apply_transition; [done|stamp|].
  intros t' s1 Hw Hc Hs.
  apply wp_bind. eapply (wp_frame (R:=Ticket.Ticket)); [|split; reflexivity|].
  { destruct e; preserves_auto. }
  intros [err|[]] s2 [Hw2 Hc2]; cbv beta iota; [apply post_same; congruence|].
  wp_run. eapply post_stepped; [done|exact Hs|]. cbn. congruence.
Qed.

(** Handlers that never write a ticket row. *)
Lemma still_lifecycle {A} (op : Op A) :
  preserves (still (R:=Ticket.Ticket) m) op → wp op (request_post m) s.
Proof.
  intros Hp. unfold wp, request_post.
  destruct (Hp s) as [_ ->]; [by split; rewrite ?clean|apply lifecycle_refl].
Qed.

Lemma list_tickets_lifecycle u f p n : wp (list_tickets u f p n) (request_post m) s.
Proof. apply still_lifecycle. unfold list_tickets, _require_feature. preserves_auto. Qed.
Lemma get_ticket_lifecycle u i : wp (get_ticket u i) (request_post m) s.
Proof. apply still_lifecycle. unfold get_ticket, _require_feature, _get. preserves_auto. Qed.
Lemma add_comment_lifecycle u i c : wp (add_comment u i c) (request_post m) s.
Proof. apply still_lifecycle. unfold add_comment, _require_feature, _get. preserves_auto. Qed.
Lemma add_ref_lifecycle u i t r : wp (add_ref u i t r) (request_post m) s.
Proof. apply still_lifecycle. unfold add_ref, _require_feature, _get, add_ref_row. preserves_auto. Qed.
Lemma add_attachments_lifecycle dir u i fs : wp (add_attachments dir u i fs) (request_post m) s.
Proof.
  apply still_lifecycle.
  unfold add_attachments, add_attachment, write_bytes, _require_feature, _get. preserves_auto.
Qed.

Lemma edit_ticket_lifecycle u i d : wp (edit_ticket u i d) (request_post m) s.
Proof.
  unfold edit_ticket, _require_feature, _get. wp_run; try by apply post_same.
  all: rewrite ?str_in_true in *.
  - rewrite (row_key i a) in * by done. simplify_eq.
    eapply post_stepped; [done| |apply tbl_put_row].
    apply step_edit; try done; cbn.
    + destruct (TicketUpdate.category d); cbn; rewrite ?str_in_true in *; auto.
    + destruct (TicketUpdate.priority d); cbn; rewrite ?str_in_true in *; auto.
Qed.

Lemma handle_lifecycle r : wp (handle r) (request_post m) s.
Proof.
  destruct r; cbn [handle];
    unfold accept_ticket, process_ticket, close_ticket, reopen_ticket, cancel_ticket;
    auto using create_ticket_lifecycle, list_tickets_lifecycle, get_ticket_lifecycle,
      edit_ticket_lifecycle, assign_ticket_lifecycle, _simple_transition_lifecycle,
      done_ticket_lifecycle, add_comment_lifecycle, add_attachments_lifecycle, add_ref_lifecycle.
Qed.
End lifecycle_proofs.

(** Every ticket request keeps the ticket table well formed. *)
Lemma handle_wf r : preserves (wf_table Ticket.Ticket) (run_request (handle r)).
Proof.
  apply wf_preserves_run_request.
  destruct r; cbn [handle];
    unfold create_ticket, list_tickets, get_ticket, edit_ticket, assign_ticket, accept_ticket,
      process_ticket, close_ticket, reopen_ticket, cancel_ticket, _simple_transition, done_ticket,
      add_comment, add_attachments, add_attachment, write_bytes, add_ref, add_ref_row,
      _apply_transition, _require_feature, _get, _ticket_no.
  all: preserves_auto.
  all: apply wf_preserves_upd; intros ?; case_bool_decide; by split_and!.
Qed.

(** ** Histories of requests *)

Definition serve : Z * request → St → St := Session.serve handle.
Definition serve_all : list (Z * request) → St → St := Session.serve_all handle.
Definition ticket_inv : St → Prop := quiet Ticket.Ticket.

Lemma serve_lifecycle q s :
  ticket_inv s → lifecycle (tickets (work s)) (tickets (work (serve q s))) ∧ ticket_inv (serve q s).
Proof.
  intros Hs. refine (serve_quiet handle (R:=Ticket.Ticket) lifecycle q s _ handle_wf Hs).
  intros s0 r [Hc Hwf]. by apply handle_lifecycle.
Qed.

Definition initial_ticket (t : Ticket.Ticket) : Prop :=
  Ticket.status t ∈ TICKET_EDITABLE_STATUSES ∧ Ticket.version t = 0 ∧ ticket_ok t.

Lemma ticket_step_ok t t' : ticket_ok t → ticket_step t t' → ticket_ok t'.
Proof.
  unfold ticket_ok.
  intros (Hs & Hc & Hp) [action allowed target Ha Hin -> _ E1 E2 _ _|Hin E _ Hc' Hp' _ _].
  - rewrite E1, E2. split; [|done].
    cbn in Ha. repeat case_bool_decide; simplify_eq; str_mem.
  - rewrite E. split_and!; [done|destruct Hc' as [->|]|destruct Hp' as [->|]]; done.
Qed.

Lemma cancel_is_final t t' : Ticket.status t = "cancel" → ¬ ticket_step t t'.
Proof.
  intros Hc [action allowed target Ha Hin _ _ _ _ _ _|Hin _ _ _ _ _ _]; rewrite Hc in Hin.
  - cbn in Ha. repeat case_bool_decide; simplify_eq; str_absurd Hin.
  - str_absurd Hin.
Qed.

Lemma serve_all_inv qs s : ticket_inv s → ticket_inv (serve_all qs s).
Proof.
  revert s. induction qs as [|q qs IH]; intros s Hs; [done|].
  apply IH. by apply serve_lifecycle.
Qed.

Lemma serve_all_forward qs s i t :
  ticket_inv s → tickets (work s) !! i = Some t →
  ∃ t', tickets (work (serve_all qs s)) !! i = Some t' ∧ rtc ticket_step t t'.
Proof.
  revert s t. induction qs as [|q qs IH]; intros s t Hs Hi; [by eexists; split; [|constructor]|].
  destruct (serve_lifecycle q s Hs) as [[Hl _] Hs']. destruct (Hl i t Hi) as (t1 & Hi1 & Ht1).
  destruct (IH (serve q s) t1 Hs' Hi1) as (t2 & Hi2 & Ht2). exists t2. split; [done|].
  destruct Ht1 as [->|Hstep]; [done|]. by econstructor.
Qed.

Lemma serve_all_backward qs s i t' :
  ticket_inv s → tickets (work (serve_all qs s)) !! i = Some t' →
  ∃ t, rtc ticket_step t t' ∧
    (tickets (work s) !! i = Some t ∨ tickets (work s) !! i = None ∧ initial_ticket t).
Proof.
  revert s. induction qs as [|q qs IH]; intros s Hs Hi; [by exists t'; split; [constructor|left]|].
  destruct (serve_lifecycle q s Hs) as [[Hl Hn] Hs'].
  destruct (IH (serve q s) Hs' Hi) as (t1 & Ht1 & [Hi1|[Hnone Hinit]]).
  - destruct (tickets (work s) !! i) as [t|] eqn:E.
    + destruct (Hl i t E) as (t2 & Hi2 & Hstep). simplify_eq. exists t. split; [|by left].
      destruct Hstep as [->|]; [done|by econstructor].
    + exists t1. split; [done|right]. split; [done|]. by eapply Hn.
  - exists t1. split; [done|]. right. split; [|done].
    destruct (tickets (work s) !! i) as [t|] eqn:E; [|done].
    destruct (Hl i t E) as (t2 & Hi2 & _). congruence.
Qed.

Lemma rtc_ticket_ok t t' : rtc ticket_step t t' → ticket_ok t → ticket_ok t'.
Proof. induction 1; eauto using ticket_step_ok. Qed.

(** C2: However requests follow one another, every ticket in the database went
    from its creation (in [create] or [assign], at version 0) to where it is only
    through actions of [TICKET_TRANSITIONS] and edits made before acceptance, and
    its status, category and priority stay in their vocabularies. *)
Theorem ticket_history qs s i t' :
  ticket_inv s →
  (∀ j t, tickets (work s) !! j = Some t → ticket_ok t) →
  tickets (work (serve_all qs s)) !! i = Some t' →
  ticket_ok t' ∧
  ∃ t, rtc ticket_step t t' ∧
    (tickets (work s) !! i = Some t ∨ tickets (work s) !! i = None ∧ initial_ticket t).
Proof.
  intros Hs Hok Hi. destruct (serve_all_backward qs s i t' Hs Hi) as (t & Hrtc & Ht).
  split; [|eauto]. eapply rtc_ticket_ok; [done|].
  destruct Ht as [Hj|[_ (_ & _ & ?)]]; eauto.
Qed.

(** No sequence of requests touches a cancelled ticket: its row stays as it is. *)
Theorem cancelled_ticket_frozen qs s i t :
  ticket_inv s → tickets (work s) !! i = Some t → Ticket.status t = "cancel" →
  tickets (work (serve_all qs s)) !! i = Some t.
Proof.
  intros Hs Hi Hc. destruct (serve_all_forward qs s i t Hs Hi) as (t' & Hi' & Hrtc).
  inversion Hrtc as [|? t1 ? Hstep]; subst; [done|]. by apply cancel_is_final in Hstep.
Qed.

(** ** References, attachments, errors *)

Lemma ref_key_spec i ty r x :
  ref_key i ty r x = true ↔
  TicketRef.ticket_id x = i ∧ TicketRef.ref_type x = ty ∧ TicketRef.ref_id x = r.
Proof. unfold ref_key. rewrite !andb_true_iff, bool_decide_eq_true, !Z.eqb_eq. tauto. Qed.

Lemma ref_conflict a b :
  conflict a b = true ↔
  ref_key (TicketRef.ticket_id b) (TicketRef.ref_type b) (TicketRef.ref_id b) a = true.
Proof. done. Qed.

Lemma add_ref_hit u i ty r s t x :
  feature_on "feature.ticket" s = true → has_perm u "ticket:ref" = true →
  tbl (work s) !! i = Some t → str_in ty TICKET_REF_TYPES = true →
  head (select_rows (ref_key (Ticket.id t) ty r) (tbl (work s))) = Some x →
  add_ref u i ty r s = (inr (ref_out x (Ticket.id t) false), s).
Proof.
  intros Hf Hp Ht Hty Hx. unfold add_ref, _require_feature, _get, db_get, db_find.
  erewrite bind_inr by (rewrite require_feature_eq, Hf; reflexivity).
  erewrite bind_inr by (rewrite require_perm_eq, Hp; reflexivity).
  erewrite bind_inr by (unfold bind, gets; rewrite Ht; reflexivity).
  erewrite bind_inr by (rewrite Hty; reflexivity).
  erewrite bind_inr by reflexivity. by rewrite Hx.
Qed.

(** Adding a reference is idempotent: once [add_ref] has answered, the same
    request answers with the same row, [created = false], and writes nothing. *)
Theorem add_ref_idempotent u i ty r s o s1 :
  add_ref u i ty r s = (inr o, s1) →
  ∃ o', add_ref u i ty r s1 = (inr o', s1) ∧
    jget "id" o' = jget "id" o ∧ jget "created" o' = Some (JBool false).
Proof.
  intros H. unfold add_ref, _require_feature, _get, add_ref_row in H. inv_run.
  - eexists. split_and!; [by eapply add_ref_hit|done..].
  - match goal with H : accepts _ _ ?x = true |- _ =>
      set (row := x) in *; apply accepts_spec in H as (_ & Hnew & Huniq) end.
    exists (ref_out row (Ticket.id a1) false). split_and!; [|done..].
    eapply add_ref_hit; try done.
    cbn. rewrite tbl_put_row. apply head_select_unique.
    + eexists. apply lookup_insert_eq.
    + by apply ref_key_spec.
    + intros j x [[<- <-]|[Hne Hj]]%lookup_insert_Some Hk; [done|]. exfalso.
      assert (Hc : conflict row x = false) by eauto.
      apply ref_key_spec in Hk as (E1 & E2 & E3).
      apply not_true_iff_false in Hc. apply Hc, ref_conflict, ref_key_spec. by rewrite E1, E2, E3.
Qed.

Fixpoint no_slash (s : string) : bool :=
  match s with
  | EmptyString => true
  | String c s => negb (Ascii.eqb c "/"%char) && no_slash s
  end.

Lemma after_last_slash_no_slash s b : after_last_slash s = Some b → no_slash b = true.
Proof.
  revert b. induction s as [|c s IH]; intros b; [done|]. cbn.
  destruct (after_last_slash s) as [b'|] eqn:E; [intros [= <-]; by apply IH|].
  destruct (Ascii.eqb c "/"%char); [|done]. intros [= <-].
  clear IH c. induction s as [|c s IH]; [done|]. cbn in *.
  destruct (after_last_slash s); [done|]. destruct (Ascii.eqb c "/"%char); [done|]. cbn. auto.
Qed.

Lemma basename_no_slash s : no_slash (basename s) = true.
Proof.
  unfold basename. destruct (after_last_slash s) as [b|] eqn:E; cbn.
  - by eapply after_last_slash_no_slash.
  - induction s as [|c s IH]; [done|]. cbn in *.
    destruct (after_last_slash s); [done|]. destruct (Ascii.eqb c "/"%char); [done|]. cbn. auto.
Qed.

(** A file effect names a plain file of the directory [dir]. *)
Definition inside (dir : string) (e : Effect) : Prop :=
  ∃ name size, e = EFileWrite (dir +:+ "/" +:+ name) size ∧
    no_slash name = true ∧ name ∉ [""; "."; ".."].

Lemma sent_write_bytes before dir user_name n :
  preserves (sent before (inside dir)) (write_bytes dir (basename user_name) n).
Proof.
  unfold write_bytes. destruct (str_in _ _) eqn:E; [apply preserves_raise|].
  apply preserves_emit_out. intros s (new & Hout & Hall).
  exists (new ++ [EFileWrite (dir +:+ "/" +:+ basename user_name) n]).
  cbn. rewrite Hout, app_assoc. split; [done|]. apply Forall_app. split; [done|].
  apply Forall_singleton. eexists _, n. split_and!; [done|apply basename_no_slash|].
  by apply bool_decide_eq_false in E.
Qed.

(** C3: Whatever file names a client uploads, the attachment handler writes only
    plain files of the ticket's own directory. *)
Theorem attachments_stay_inside dir u i files s :
  wf_table Ticket.Ticket s →
  ∃ new, out (add_attachments dir u i files s).2 = out s ++ new ∧
    Forall (inside (store_root dir i)) new.
Proof.
  intros [Hwf _]. change (wp (add_attachments dir u i files) (λ _, sent (out s) (inside (store_root dir i))) s).
  unfold add_attachments, _require_feature, _get. wp_run; try apply sent_refl.
  assert (Ticket.id a = i) as Hid by by apply (wf_id Hwf i a).
  apply (wp_preserves (sent (out s) (inside (store_root dir i)))); [|apply sent_refl|].
  - apply preserves_map_each. intros f _. unfold add_attachment, upload_name. rewrite Hid.
    repeat first [apply sent_write_bytes | solve [eauto with preserves] | preserves_step].
  - intros [e|l] s' Hs'; [done|]. by wp_run.
Qed.

(** A ticket that was already closed out with an exec task cannot be done
    again with the same task after a reopen: the second [done_ticket] fails on
    the UNIQUE (ticket_id, ref_type, ref_id) constraint and changes no row. *)
Theorem done_again_same_task_fails u i t e x s :
  wf_table Ticket.Ticket s → work s = committed s →
  feature_on "feature.ticket" s = true → has_perm u "ticket:done" = true →
  tickets (work s) !! i = Some t → Ticket.status t = "processing" →
  0 < e → x ∈ rows (ticket_refs (work s)) → ref_key i "exec_task" e x = true →
  (run_request (done_ticket u i (Some e)) s).1 = inl (IntegrityError "ticket_ref") ∧
  work (run_request (done_ticket u i (Some e)) s).2 = work s.
Proof.
  intros [Hwf _] Hclean Hf Hp Ht Hst He [j Hx]%elem_of_rows Hk.
  change (tbl (R:=Ticket.Ticket) (work s) !! i = Some t) in Ht.
  assert (Ticket.id t = i) as Hid by by apply (wf_id Hwf i t).
  change (wp (run_request (done_ticket u i (Some e)))
    (λ r s', r = inl (IntegrityError "ticket_ref") ∧ work s' = work s) s).
  unfold done_ticket, _require_feature, _get, _apply_transition, add_ref_row, z_truthy. wp_run.
  all: try (cbn; congruence).
  all: simplify_eq.
  - unfold move in *. rewrite Hst in *. discriminate.
  - exfalso. match goal with H : accepts _ _ _ = true |- _ => apply accepts_spec in H as (_ & _ & Hu) end.
    specialize (Hu j x Hx). apply not_true_iff_false in Hu. apply Hu, ref_conflict.
    apply ref_key_spec in Hk as (E1 & E2 & E3). apply ref_key_spec. by rewrite E1, E2, E3.
  - done.
  - lia.
Qed.

(** ** Witnesses *)

(** Tickets 1 (processing, with a reference to exec task 9) and 2 (cancelled). *)
Definition ex_ticket (i : Z) (no status : string) : Ticket.Ticket :=
  Ticket.mk i no "disk full" "incident" "high" status (Some 1) (Some 2) None "" None None None 3 0.
Definition ticket_db : Db :=
  flags_on 1 ["feature.ticket"] empty_db
    <| tickets := {[1 := ex_ticket 1 "TK-20260101-001" "processing";
                    2 := ex_ticket 2 "TK-20260101-002" "cancel"]} |>
    <| ticket_refs := {[1 := TicketRef.mk 1 1 "exec_task" 9 (Some 1) 0]} |>.
Definition ticket_st : St :=
  on_db (λ _, ticket_db) init_st
    <| seqs := {["ticket" := 2; "seq_ticket_no" := 2; "ticket_ref" := 1]} |>.
Definition ex_create : TicketCreate.TicketCreate :=
  TicketCreate.mk "new" "request" "low" "" (Some 2) (Some [4; 5]) None.
Definition ex_history : list (Z * request) :=
  [(10, RCreate admin ex_create); (20, RDone admin 1 None); (30, RReopen admin 1);
   (40, RAccept admin 3); (50, RAccept admin 2); (60, RClose admin 1)].

Lemma ticket_st_inv : ticket_inv ticket_st.
Proof. split; [reflexivity|]. apply wf_tableb_spec. vm_compute. reflexivity. Qed.

Lemma ticket_st_ok j t : tickets (work ticket_st) !! j = Some t → ticket_ok t.
Proof.
  cbn. intros [[<- <-]|[_ [<- <-]%lookup_singleton_Some]]%lookup_insert_Some;
    split_and!; str_mem.
Qed.

Lemma ticket_history_witness :
  (Ticket.status <$> tickets (work (serve_all ex_history ticket_st)) !! 3) = Some "accept" ∧
  ∃ t', ticket_ok t' ∧
  ∃ t, rtc ticket_step t t' ∧
    (tickets (work ticket_st) !! 3 = Some t ∨ tickets (work ticket_st) !! 3 = None ∧ initial_ticket t).
Proof.
  split; [vm_compute; reflexivity|].
  destruct (tickets (work (serve_all ex_history ticket_st)) !! 3) as [t'|] eqn:E; [|vm_compute in E; discriminate].
  exists t'. exact (ticket_history ex_history ticket_st 3 t' ticket_st_inv ticket_st_ok E).
Defined.

Lemma cancelled_ticket_frozen_witness :
  tickets (work (serve_all ex_history ticket_st)) !! 2 = Some (ex_ticket 2 "TK-20260101-002" "cancel").
Proof. apply cancelled_ticket_frozen; [exact ticket_st_inv|vm_compute; reflexivity|reflexivity]. Defined.

Lemma add_ref_idempotent_witness :
  let run := add_ref admin 1 "script" 5 ticket_st in
  ∃ o', add_ref admin 1 "script" 5 run.2 = (inr o', run.2) ∧
    jget "id" o' = Some (JInt 2) ∧ jget "created" o' = Some (JBool false).
Proof.
  assert (∃ o, add_ref admin 1 "script" 5 ticket_st = (inr o, (add_ref admin 1 "script" 5 ticket_st).2) ∧
    jget "id" o = Some (JInt 2)) as (o & Ho & Hid).
  { eexists. split; [vm_compute; reflexivity|reflexivity]. }
  cbv zeta. destruct (add_ref_idempotent _ _ _ _ _ _ _ Ho) as (o' & H1 & H2 & H3).
  exists o'. by rewrite H2, Hid.
Defined.

Lemma attachments_stay_inside_witness :
  ∃ new, out (add_attachments "data" admin 1 [Upload.mk "../../etc/passwd" "" 4] ticket_st).2
           = out ticket_st ++ new ∧
    Forall (inside (store_root "data" 1)) new.
Proof. apply attachments_stay_inside. exact (proj2 ticket_st_inv). Defined.

Lemma done_again_same_task_fails_witness :
  (run_request (done_ticket admin 1 (Some 9)) ticket_st).1 = inl (IntegrityError "ticket_ref").
Proof.
  apply (done_again_same_task_fails admin 1 (ex_ticket 1 "TK-20260101-001" "processing") 9
    (TicketRef.mk 1 1 "exec_task" 9 (Some 1) 0)); try reflexivity.
  - exact (proj2 ticket_st_inv).
  - vm_compute. left.
Defined.
