(* ===== verification/AutoPolicy.v ===== *)
(** * Automated remediation: [services/ai_automation_service.py]

    When may a sensitive task run without a human approval?
    [resolve_auto_policy] is the whole answer; the automation level, the
    whitelist and the circuit breaker are the state it reads. Not
    modelled: [rollback_run], which creates exec tasks, and the reports. *)

From S2P Require Import Prelude.
From S2P Require Import Models.
From S2P Require Import Session.
From S2P Require Import Repositories.
From S2P Require Import Access.

Definition RISK_LEVELS : list string := ["low"; "medium"; "high"].
Definition L4_AUTO_RISK_LEVELS : list string := ["low"].
Definition _FEATURE : string := "ai.auto_remediate".
Definition _AI_USE : string := "ai:use".
Definition _AI_ADMIN : string := "ai:admin".
Definition _LEVELS : list string := ["L0"; "L1"; "L2"; "L3"; "L4"].
Definition DEDUPE_WINDOW_SECONDS : Z := 300.
Definition _DEFAULT_CIRCUIT_THRESHOLD : Z := 3.
Definition _GLOBAL_SCOPE : string := "global".

Definition _gate (user : CurrentUser) (perm : string) : Op () :=
  require_feature _FEATURE;; require_perm user perm.

Definition _require_risk_level (value : string) : Op () :=
  guard_or (str_in value RISK_LEVELS)
    (ValidationError "risk_level must be one of ('low', 'medium', 'high')").

Definition enabled_level (rows : list AutomationLevel.AutomationLevel) : string :=
  default "L3" (AutomationLevel.level <$> head (filter (λ r, AutomationLevel.enabled r = true) rows)).
Definition _current_level : Op string :=
  l ← db_select (λ _ : AutomationLevel.AutomationLevel, true);
  ret (enabled_level l).

Definition global_breaker (r : CircuitBreakerState.CircuitBreakerState) : bool :=
  bool_decide (CircuitBreakerState.scope r = _GLOBAL_SCOPE).
Definition _breaker_state : Op string :=
  row ← db_find global_breaker;
  ret (match row with Some r => CircuitBreakerState.state r | None => "closed" end).

(** ** The auto-policy test *)

(** [d.get(k) == s] for a string column value [s]. *)
Definition jget_is (k : string) (s : string) (d : json) : bool :=
  match jget k d with Some (JStr v) => bool_decide (v = s) | _ => false end.
(** [d.get(k) in l] for a tuple of strings [l]. *)
Definition jget_in (k : string) (l : list string) (d : json) : bool :=
  match jget k d with Some (JStr v) => str_in v l | _ => false end.

(** The literal of a list: [ARRAY[...]], an array that the database compares with
    no text, unless its elements are all None or empty lists. *)
Fixpoint null_items (l : list json) : option (list string) :=
  match l with
  | [] => Some []
  | JNull :: l => cons "NULL" <$> null_items l
  | JArr [] :: l => cons "{}" <$> null_items l
  | _ => None
  end.
(** What psycopg2 compares with a VARCHAR column: None is [IS NULL], a text itself
    unless a NUL is in it, and a list of nulls the untyped literal ['{NULL,...}'];
    a boolean, a number and an array have types the database compares with no
    text, and a dict no literal. Which exception is raised is not modelled. *)
Definition varchar_of (v : json) : option (option string) :=
  match v with
  | JNull => Some None
  | JStr t => if has_nul t then None else Some (Some t)
  | JArr l => (λ items, Some ("{" +:+ String.concat "," items +:+ "}")) <$> null_items l
  | _ => None
  end.
Definition varchar (v : json) : Op (option string) :=
  some_or (varchar_of v) (OtherError "ProgrammingError").
Example varchar_of_ex : varchar_of (JArr []) = Some (Some "{}") ∧ varchar_of (JArr [JNull]) = Some (Some "{NULL}") ∧
  varchar_of (JArr [JStr "host"]) = None ∧ varchar_of (JInt 3) = None.
Proof. by split_and!. Qed.
Definition get_of (k : string) (remediation : json) : Op json :=
  match remediation with
  | JObj _ => ret (jget_or k JNull remediation)
  | _ => raise (OtherError "AttributeError: get")
  end.

Definition policy_matches (asset_class op_type : option string) (p : RemediationPolicy.RemediationPolicy) : bool :=
  bool_decide (asset_class = Some (RemediationPolicy.asset_class p)) &&
  bool_decide (op_type = Some (RemediationPolicy.op_type p)) &&
  bool_decide (RemediationPolicy.level p = "L4") &&
  bool_decide (is_Some (RemediationPolicy.whitelist_ref p)) &&
  bool_decide (is_Some (RemediationPolicy.verification_ref p)).

Definition whitelisted (ref : string) (w : AutomationWhitelist.AutomationWhitelist) : bool :=
  bool_decide (AutomationWhitelist.action w = ref) && AutomationWhitelist.enabled w &&
  str_in (AutomationWhitelist.risk_level w) L4_AUTO_RISK_LEVELS.

Definition policy_ref_of (p : RemediationPolicy.RemediationPolicy) : string :=
  "remediation_policy:" +:+ pretty (RemediationPolicy.id p).

(** [JNull] is a missing [remediation]. *)
Definition resolve_auto_policy (remediation : json) : Op (option string) :=
  if negb (truthy remediation) then ret None else
  on ← is_feature_enabled _FEATURE;
  if negb on then ret None else
  _ ← get_of "risk_level" remediation;
  if negb (jget_in "risk_level" L4_AUTO_RISK_LEVELS remediation) then ret None else
  level ← _current_level;
  if negb (bool_decide (level = "L4")) then ret None else
  breaker ← _breaker_state;
  if bool_decide (breaker = "open") then ret None else
  asset_class ← varchar (jget_or "asset_class" JNull remediation);
  op_type ← varchar (jget_or "op_type" JNull remediation);
  policies ← db_select (policy_matches asset_class op_type);
  match policies with
  | [policy] =>
      match RemediationPolicy.whitelist_ref policy with
      | None => ret None
      | Some ref =>
          if negb (jget_is "action" ref remediation) then ret None else
          w ← db_find (whitelisted ref);
          match w with
          | None => ret None
          | Some _ => ret (Some (policy_ref_of policy))
          end
      end
  | _ => ret None
  end.

(** ** The level matrix *)

Definition level_le (a b : AutomationLevel.AutomationLevel) : Prop :=
  String.leb (AutomationLevel.level a) (AutomationLevel.level b) = true.
#[export] Instance level_le_dec : RelDecision level_le.
Proof. intros a b. unfold level_le. apply _. Defined.

Definition get_level (user : CurrentUser) : Op json :=
  _gate user _AI_USE;;
  l ← db_select (λ _ : AutomationLevel.AutomationLevel, true);
  let rows := merge_sort level_le l in
  ret (JObj [("current", JStr (enabled_level rows));
             ("matrix", JArr ((λ r, JObj [
                ("level", JStr (AutomationLevel.level r));
                ("capability", JStr (AutomationLevel.capability r));
                ("enabled", JBool (AutomationLevel.enabled r))]) <$> rows))]).

Definition is_l4_policy (p : RemediationPolicy.RemediationPolicy) : bool :=
  bool_decide (RemediationPolicy.level p = "L4").

(** The target's row is created when missing; it becomes the only enabled one. *)
Definition set_level (level : string) : Op () :=
  rows ← db_select (λ _ : AutomationLevel.AutomationLevel, true);
  (if existsb (λ r, bool_decide (AutomationLevel.level r = level)) rows then ret ()
   else db_add (AutomationLevel.mk 0 level "" true);; ret ());;
  for_each rows (λ row, db_upd (AutomationLevel.id row)
    (λ r, r <| AutomationLevel.enabled := bool_decide (AutomationLevel.level row = level) |>));;
  db_commit.

Definition put_level (user : CurrentUser) (level : string) : Op json :=
  _gate user _AI_ADMIN;;
  guard_or (str_in level _LEVELS)
    (ValidationError "level must be one of ('L0', 'L1', 'L2', 'L3', 'L4')");;
  when (bool_decide (level = "L4"))
    (l4 ← db_select is_l4_policy;
     guard_or (match l4 with [] => false | _ => true end &&
               forallb (λ p, bool_decide (is_Some (RemediationPolicy.verification_ref p))) l4)
       (ValidationError "L4 requires governed policies with verification_ref"));;
  set_level level;;
  get_level user.

(** ** The whitelist *)

Definition _whitelist_out (w : AutomationWhitelist.AutomationWhitelist) : json := JObj [
  ("id", JInt (AutomationWhitelist.id w)); ("action", JStr (AutomationWhitelist.action w));
  ("risk_level", JStr (AutomationWhitelist.risk_level w));
  ("enabled", JBool (AutomationWhitelist.enabled w));
  ("updated_by", jz (AutomationWhitelist.updated_by w))].

(** Python's [rows[start:start + size]] for non-negative bounds. *)
Definition list_whitelist (user : CurrentUser) (page size : Z) (action : option string)
    (enabled : option bool) : Op json :=
  _gate user _AI_ADMIN;;
  l ← db_select (λ w, opt_cond action (λ a, bool_decide (AutomationWhitelist.action w = a)) &&
                      match enabled with
                      | Some b => Bool.eqb (AutomationWhitelist.enabled w) b
                      | None => true end);
  ret (JObj [("list", JArr (_whitelist_out <$> page_of l page size));
             ("total", JInt (Z.of_nat (length l))); ("page", JInt page); ("size", JInt size)]).

Definition create_whitelist (user : CurrentUser) (action risk_level : string) (enabled : bool) : Op json :=
  _gate user _AI_ADMIN;;
  _require_risk_level risk_level;;
  item ← db_add (AutomationWhitelist.mk 0 action risk_level enabled (Some (user_id user)));
  db_commit;;
  ret (_whitelist_out item).

Definition whitelist_edit (risk_level : option string) (enabled : option bool) (by_ : Z)
    (w : AutomationWhitelist.AutomationWhitelist) : AutomationWhitelist.AutomationWhitelist :=
  w <| AutomationWhitelist.risk_level := default (AutomationWhitelist.risk_level w) risk_level |>
    <| AutomationWhitelist.enabled := default (AutomationWhitelist.enabled w) enabled |>
    <| AutomationWhitelist.updated_by := Some by_ |>.
Definition update_whitelist (user : CurrentUser) (item_id : Z) (risk_level : option string)
    (enabled : option bool) : Op json :=
  _gate user _AI_ADMIN;;
  w ← db_get item_id;
  item ← some_or w (NotFoundError "whitelist item not found");
  (match risk_level with Some r => _require_risk_level r | None => ret () end);;
  db_upd (AutomationWhitelist.id item) (whitelist_edit risk_level enabled (user_id user));;
  db_commit;;
  ret (_whitelist_out (whitelist_edit risk_level enabled (user_id user) item)).

Definition delete_whitelist (user : CurrentUser) (item_id : Z) : Op json :=
  _gate user _AI_ADMIN;;
  w ← db_get (R:=AutomationWhitelist.AutomationWhitelist) item_id;
  item ← some_or w (NotFoundError "whitelist item not found");
  db_delete (R:=AutomationWhitelist.AutomationWhitelist) (AutomationWhitelist.id item);;
  db_commit;;
  ret (JObj [("id", JInt item_id); ("deleted", JBool true)]).

(** ** Dry runs *)

Definition _within_window (created_at now : Z) : bool :=
  now - created_at <? DEDUPE_WINDOW_SECONDS * 1000000.

Definition dry_run_of (key : string) (a : AiAction.AiAction) : bool :=
  bool_decide (AiAction.trace_id a = Some key) && bool_decide (AiAction.decision a = "dry_run").

(** [.order_by(id.desc()).first()] *)
Definition db_last {R} `{Table R} (p : R → bool) : Op (option R) :=
  l ← db_select p; ret (last l).

Definition dry_run (user : CurrentUser) (idempotency_key : string) (action : option string)
    (target : json) (now_ : option Z) : Op json :=
  _gate user _AI_USE;;
  clock ← utc_now;
  let now := default clock now_ in
  prev ← db_last (dry_run_of idempotency_key);
  let fresh :=
    let items := match action with
      | Some a => if s_truthy action then [JObj [("target", target); ("params", JObj []);
                    ("expected_effect", JStr ("dry-run of " +:+ a)); ("risk_level", JStr "low")]] else []
      | None => [] end in
    let result := JObj [("idempotency_key", JStr idempotency_key); ("writable", JBool false);
                        ("items", JArr items)] in
    _ ← db_add (AiAction.mk 0 "e6-dry-run" None result None JNull (Some idempotency_key)
           (Some (user_id user)) "dry_run" (Some "manual") None None None 0);
    db_commit;;
    ret result in
  match prev with
  | Some p => if _within_window (AiAction.created_at p) now && truthy (AiAction.input_snapshot p)
              then ret (AiAction.input_snapshot p) else fresh
  | None => fresh
  end.

(** ** The circuit breaker *)

Section breaker.
(** [int(os.getenv("AI_AUTO_REMEDIATE_CIRCUIT_THRESHOLD"))] when the variable is
    set, not empty and a number. *)
Variable env_threshold : option Z.

Definition resolve_threshold (policy : option RemediationPolicy.RemediationPolicy) : Op Z :=
  row ← db_find global_breaker;
  ret (match env_threshold with
       | Some t => t
       | None =>
           match policy ≫= RemediationPolicy.circuit_threshold with
           | Some t => t
           | None =>
               match row ≫= CircuitBreakerState.threshold with
               | Some t => t
               | None => _DEFAULT_CIRCUIT_THRESHOLD
               end
           end
       end).

(** The branch of [record_verification_result] on the row's state. *)
Definition breaker_step (threshold now : Z) (ok : bool)
    (r : CircuitBreakerState.CircuitBreakerState) : CircuitBreakerState.CircuitBreakerState :=
  if bool_decide (CircuitBreakerState.state r = "half") then
    if ok then r <| CircuitBreakerState.state := "closed" |> <| CircuitBreakerState.current := 0 |>
                 <| CircuitBreakerState.last_tripped_at := None |>
    else r <| CircuitBreakerState.state := "open" |>
           <| CircuitBreakerState.last_tripped_at := Some now |>
  else if bool_decide (CircuitBreakerState.state r = "open") then
    if ok then r <| CircuitBreakerState.state := "half" |> else r
  else if ok then r <| CircuitBreakerState.current := 0 |>
  else
    let r := r <| CircuitBreakerState.current := CircuitBreakerState.current r + 1 |> in
    if threshold <=? CircuitBreakerState.current r then
      r <| CircuitBreakerState.state := "open" |>
        <| CircuitBreakerState.threshold := Some threshold |>
        <| CircuitBreakerState.last_tripped_at := Some now |>
    else r.

Definition record_verification_result (policy : option RemediationPolicy.RemediationPolicy)
    (ok : bool) : Op json :=
  threshold ← resolve_threshold policy;
  found ← db_find global_breaker;
  row ← match found with
        | Some r => ret r
        | None => db_add (CircuitBreakerState.mk 0 _GLOBAL_SCOPE "closed" 0 None None)
        end;
  n ← utc_now;
  db_upd (CircuitBreakerState.id row) (breaker_step threshold n ok);;
  db_commit;;
  let row' := breaker_step threshold n ok row in
  ret (JObj [("state", JStr (CircuitBreakerState.state row'));
             ("current", JInt (CircuitBreakerState.current row'));
             ("threshold", jz (CircuitBreakerState.threshold row'))]).

Definition circuit_breaker (user : CurrentUser) : Op json :=
  _gate user _AI_USE;;
  threshold ← resolve_threshold None;
  row ← db_find global_breaker;
  ret (match row with
       | None => JObj [("state", JStr "closed"); ("threshold", JInt threshold);
                       ("current", JInt 0); ("last_tripped_at", JNull)]
       | Some r => JObj [("state", JStr (CircuitBreakerState.state r)); ("threshold", JInt threshold);
                         ("current", JInt (CircuitBreakerState.current r));
                         ("last_tripped_at", jtime (CircuitBreakerState.last_tripped_at r))]
       end).
End breaker.

(** ** Facts *)

Lemma jget_is_spec k s d : jget_is k s d = true ↔ jget k d = Some (JStr s).
Proof.
  unfold jget_is. destruct (jget k d) as [[]|]; try (split; congruence).
  rewrite bool_decide_eq_true. split; congruence.
Qed.
Lemma jget_in_spec k l d : jget_in k l d = true ↔ ∃ s, jget k d = Some (JStr s) ∧ s ∈ l.
Proof.
  unfold jget_in, str_in.
  destruct (jget k d) as [[]|]; try (split; [done|by intros (? & ? & ?)]).
  rewrite bool_decide_eq_true. split; [eauto|]. by intros (? & [= ->] & ?).
Qed.
(** The values of a remediation that a policy must have *)
Definition column (k : string) (rem : json) : option (option string) := varchar_of (jget_or k JNull rem).
Definition covers (rem : json) (p : RemediationPolicy.RemediationPolicy) : Prop :=
  column "asset_class" rem = Some (Some (RemediationPolicy.asset_class p)) ∧
  column "op_type" rem = Some (Some (RemediationPolicy.op_type p)) ∧
  RemediationPolicy.level p = "L4" ∧ is_Some (RemediationPolicy.whitelist_ref p) ∧
  is_Some (RemediationPolicy.verification_ref p).
Lemma policy_matches_spec rem a o p :
  column "asset_class" rem = Some a → column "op_type" rem = Some o →
  policy_matches a o p = true ↔ covers rem p.
Proof.
  unfold policy_matches, covers. intros -> ->. rewrite !andb_true_iff, !bool_decide_eq_true.
  split; [intros ((((-> & ->) & ?) & ?) & ?); done|]. by intros ([= ->] & [= ->] & ? & ? & ?).
Qed.
(** The enabled automation level and the global breaker, read off the tables. *)
Definition level_now (s : St) : string :=
  enabled_level (select_rows (λ _, true) (automation_levels (work s))).
Definition breaker_now (s : St) : string :=
  match head (select_rows global_breaker (circuit_breakers (work s))) with
  | Some r => CircuitBreakerState.state r
  | None => "closed"
  end.

(** A remediation may run without a human: the feature is on, the request is
    low-risk, the level is L4, the breaker is not open, exactly one governed
    policy covers it, and that policy's white-list entry names the action, is
    enabled and is itself low-risk. *)
Record auto_allowed (s : St) (rem : json) (p : RemediationPolicy.RemediationPolicy) : Prop := {
  aa_feature : feature_on _FEATURE s = true;
  aa_risk : jget "risk_level" rem = Some (JStr "low");
  aa_level : level_now s = "L4";
  aa_breaker : breaker_now s ≠ "open";
  aa_policy : ∃ i, remediation_policies (work s) !! i = Some p ∧ covers rem p ∧
    ∀ j p', remediation_policies (work s) !! j = Some p' → covers rem p' → j = i;
  aa_typed : is_Some (column "asset_class" rem) ∧ is_Some (column "op_type" rem);
  aa_whitelist : ∃ ref i w, RemediationPolicy.whitelist_ref p = Some ref ∧
    jget "action" rem = Some (JStr ref) ∧ automation_whitelists (work s) !! i = Some w ∧
    AutomationWhitelist.action w = ref ∧ AutomationWhitelist.enabled w = true ∧
    AutomationWhitelist.risk_level w = "low";
}.

Lemma whitelisted_spec ref w :
  whitelisted ref w = true ↔
  AutomationWhitelist.action w = ref ∧ AutomationWhitelist.enabled w = true ∧
  AutomationWhitelist.risk_level w = "low".
Proof.
  unfold whitelisted, str_in, L4_AUTO_RISK_LEVELS.
  rewrite !andb_true_iff, !bool_decide_eq_true, list_elem_of_singleton. tauto.
Qed.

Lemma jget_truthy k rem v : jget k rem = Some v → truthy rem = true.
Proof. destruct rem as [| | | | | |[|]]; done. Qed.

(** The test raises on a remediation that is no object, and on a low-risk one
    whose class or type is of a type that the query cannot compare, if the
    conditions that come before hold. *)
Record ill_typed (s : St) (rem : json) : Prop := {
  it_feature : feature_on _FEATURE s = true;
  it_given : truthy rem = true;
  it_type : (∀ o, rem ≠ JObj o) ∨
    (jget "risk_level" rem = Some (JStr "low") ∧ level_now s = "L4" ∧ breaker_now s ≠ "open" ∧
     (column "asset_class" rem = None ∨ column "op_type" rem = None));
}.

(** The test as one expression over the tables *)
Definition decided (rem : json) (a o : option string) (s : St) : option string :=
  match select_rows (policy_matches a o) (remediation_policies (work s)) with
  | [p] => ref ← RemediationPolicy.whitelist_ref p;
           if jget_is "action" ref rem
           then _ ← head (select_rows (whitelisted ref) (automation_whitelists (work s)));
                Some (policy_ref_of p)
           else None
  | _ => None
  end%stdpp.
Definition outcome (rem : json) (s : St) : exn + option string :=
  if negb (truthy rem) then inr None else
  if negb (feature_on _FEATURE s) then inr None else
  match rem with
  | JObj _ =>
      if negb (jget_in "risk_level" L4_AUTO_RISK_LEVELS rem) then inr None else
      if negb (bool_decide (level_now s = "L4")) then inr None else
      if bool_decide (breaker_now s = "open") then inr None else
      match column "asset_class" rem, column "op_type" rem with
      | Some a, Some o => inr (decided rem a o s)
      | _, _ => inl (OtherError "ProgrammingError")
      end
  | _ => inl (OtherError "AttributeError: get")
  end.
Lemma resolve_auto_policy_run rem s : resolve_auto_policy rem s = (outcome rem s, s).
Proof.
  unfold outcome, resolve_auto_policy, is_feature_enabled, _current_level, _breaker_state,
    ConfigRuleRepository.by_key, level_now, breaker_now, feature_on, decided, column, varchar, get_of.
  destruct (truthy rem); [|done].
  unfold db_find, db_select, bind, gets, ret, raise, some_or. cbn [negb andb].
  destruct (rule_flag _); [|done]. cbn [negb]. destruct rem as [| | | | | |o]; try done.
  destruct (jget_in _ _ _); [|done]. cbn [negb].
  unfold tbl; cbn -[select_rows varchar_of]. destruct (bool_decide _); [|done]. cbn -[select_rows varchar_of].
  destruct (bool_decide _); [done|]. cbn -[select_rows varchar_of].
  destruct (varchar_of _) as [a|]; [|done]. cbn -[select_rows varchar_of].
  destruct (varchar_of _) as [b|]; [|done]. cbn -[select_rows].
  destruct (select_rows (policy_matches a b) _) as [|p [|]]; try done.
  destruct (RemediationPolicy.whitelist_ref p) as [ref|]; [|done]. cbn -[select_rows].
  destruct (jget_is _ _ _); [|done]. cbn -[select_rows].
  by destruct (head (select_rows (whitelisted ref) _)).
Qed.
Lemma outcome_raises rem s : (∃ e, outcome rem s = inl e) ↔ ill_typed s rem.
Proof.
  unfold outcome. split.
  - intros [e H]. destruct (truthy rem) eqn:Et; [|done]. destruct (feature_on _ s) eqn:Ef; [|done]. cbn [negb] in H.
    split; [done..|]. destruct rem as [| | | | | |o]; try (left; discriminate). right.
    destruct (jget_in _ _ _) eqn:Er; [|done]. destruct (bool_decide_reflect (level_now s = "L4")); [|done].
    destruct (bool_decide_reflect (breaker_now s = "open")); [done|]. cbn [negb] in H.
    apply jget_in_spec in Er as (t & Er & ->%list_elem_of_singleton).
    split_and!; try done. destruct (column "asset_class" _); [|by left]. destruct (column "op_type" _); [done|by right].
  - intros [-> -> [Hn|(Hr & Hl & Hb & Hc)]]; cbn [negb].
    + destruct rem as [| | | | | |o]; try by eexists. by destruct (Hn o).
    + destruct rem as [| | | | | |o]; try done.
      rewrite (proj2 (jget_in_spec _ _ _)) by (exists "low"; split; [done|left]).
      rewrite (bool_decide_eq_true_2 (level_now s = _)), (bool_decide_eq_false_2 (breaker_now s = _)) by done. cbn [negb].
      destruct Hc as [->| ->]; [by eexists|]. by destruct (column "asset_class" _); eexists.
Qed.
Lemma decided_spec rem a o s ref :
  column "asset_class" rem = Some a → column "op_type" rem = Some o →
  decided rem a o s = Some ref ↔ ∃ p,
    (∃ i, remediation_policies (work s) !! i = Some p ∧ covers rem p ∧
      ∀ j p', remediation_policies (work s) !! j = Some p' → covers rem p' → j = i) ∧
    (∃ ref i w, RemediationPolicy.whitelist_ref p = Some ref ∧ jget "action" rem = Some (JStr ref) ∧
      automation_whitelists (work s) !! i = Some w ∧ whitelisted ref w = true) ∧ ref = policy_ref_of p.
Proof.
  intros Ha Ho. pose proof (policy_matches_spec rem a o) as Hm. unfold decided. split.
  - destruct (select_rows _ _) as [|p [|]] eqn:Ep; try done. apply select_rows_singleton in Ep as (i & Hi & Hp & Hu).
    destruct (RemediationPolicy.whitelist_ref p) as [wref|] eqn:Ew; [|done]. cbn.
    destruct (jget_is "action" wref rem) eqn:Ea; [|done]. apply jget_is_spec in Ea.
    destruct (head _) as [w|] eqn:Ehw; [|done]. intros [= <-]. apply head_select_Some in Ehw as (Hw & j & Hj).
    exists p. split_and!; [|by exists wref, j, w|done]. exists i. split_and!; [done|by apply Hm|].
    intros k p' Hk Hp'. apply (Hu k p' Hk). by apply Hm.
  - intros (p & (i & Hi & Hp & Hu) & (wref & j & w & Ew & Ea & Hj & Hw) & ->).
    assert (select_rows (policy_matches a o) (remediation_policies (work s)) = [p]) as ->.
    { apply select_rows_singleton. exists i. split_and!; [done|by apply Hm|]. intros k p' Hk Hp'. apply (Hu k p' Hk). by apply Hm. }
    assert (Hhead : is_Some (head (select_rows (whitelisted wref) (automation_whitelists (work s))))).
    { apply head_select_is_Some. by exists j, w. }
    rewrite Ew. cbn -[select_rows]. rewrite (proj2 (jget_is_spec _ _ _) Ea). cbn -[select_rows]. by destruct Hhead as [? ->].
Qed.
Lemma outcome_allowed rem s ref :
  outcome rem s = inr (Some ref) ↔ ∃ p, auto_allowed s rem p ∧ ref = policy_ref_of p.
Proof.
  unfold outcome. split.
  - destruct (truthy rem); [|done]. destruct (feature_on _ s) eqn:Ef; [|done]. cbn [negb].
    destruct rem as [| | | | | |obj]; try done. set (rem := JObj obj).
    destruct (jget_in _ _ _) eqn:Er; [|done]. destruct (bool_decide_reflect (level_now s = "L4")); [|done].
    destruct (bool_decide_reflect (breaker_now s = "open")); [done|]. cbn [negb].
    apply jget_in_spec in Er as (t & Er & ->%list_elem_of_singleton).
    destruct (column "asset_class" rem) as [a|] eqn:Ea; [|done].
    destruct (column "op_type" rem) as [o|] eqn:Eo; [|done]. intros [= H].
    apply (decided_spec rem a o s ref Ea Eo) in H as (p & Hp & (wref & i & w & ? & ? & ? & Hw%whitelisted_spec) & ->).
    exists p. split; [|done]. split; [done|done|done|done|done|by rewrite Ea, Eo|by exists wref, i, w].
  - intros (p & [Hf Hr Hl Hb Hp [[a Ha] [o Ho]] (wref & j & w & Ew & Ea & Hj & Hw)] & ->).
    rewrite (jget_truthy _ _ _ Hr), Hf, (proj2 (jget_in_spec "risk_level" _ _)) by (exists "low"; split; [done|left]).
    rewrite (bool_decide_eq_true_2 (level_now s = _)), (bool_decide_eq_false_2 (breaker_now s = _)), Ha, Ho by done.
    destruct rem as [| | | | | |obj]; try done. cbn [negb]. f_equal.
    apply (decided_spec _ a o s); [done..|]. exists p. split_and!; [done| |done].
    exists wref, j, w. by rewrite whitelisted_spec.
Qed.

(** C4: The auto-policy test never writes. It lets a remediation through exactly
    when it is allowed (a missing, ambiguous or ungoverned policy, an open breaker
    or a disabled feature all mean a human decides), and raises exactly when,
    with the feature on, the remediation is not an object, or gets as far as the
    policy query with a class or type that is not comparable with a text. *)
Theorem resolve_auto_policy_spec rem s :
  ∃ o, resolve_auto_policy rem s = (o, s) ∧
    (∀ ref, o = inr (Some ref) ↔ ∃ p, auto_allowed s rem p ∧ ref = policy_ref_of p) ∧
    ((∃ e, o = inl e) ↔ ill_typed s rem).
Proof.
  exists (outcome rem s). split_and!; [apply resolve_auto_policy_run|intros; apply outcome_allowed|apply outcome_raises].
Qed.

(** ** The level switch *)

(** [level] exists and is the only enabled level. *)
Definition only_level (level : string) (d : Db) : Prop :=
  (∃ i r, automation_levels d !! i = Some r ∧ AutomationLevel.level r = level) ∧
  ∀ i r, automation_levels d !! i = Some r →
    (AutomationLevel.enabled r = true ↔ AutomationLevel.level r = level).

Lemma enabled_level_only level l :
  (∃ r, r ∈ l ∧ AutomationLevel.level r = level) →
  (∀ r, r ∈ l → (AutomationLevel.enabled r = true ↔ AutomationLevel.level r = level)) →
  enabled_level l = level.
Proof.
  intros (r & Hin & Hl) Hall. unfold enabled_level.
  destruct (head (filter _ l)) as [x|] eqn:E.
  - assert (x ∈ filter (λ r, AutomationLevel.enabled r = true) l) as [He Hx]%list_elem_of_filter.
    { destruct (filter _ l); [done|]. simplify_eq/=. apply elem_of_cons. by left. }
    cbn. by apply Hall.
  - exfalso. assert (r ∈ filter (λ r, AutomationLevel.enabled r = true) l) as Hf.
    { apply list_elem_of_filter. split; [by apply Hall|done]. }
    destruct (filter _ l); [by apply elem_of_nil in Hf|done].
Qed.

Definition governed_l4 (s : St) : Prop :=
  (∃ i p, remediation_policies (work s) !! i = Some p ∧ RemediationPolicy.level p = "L4") ∧
  (∀ i p, remediation_policies (work s) !! i = Some p → RemediationPolicy.level p = "L4" →
     is_Some (RemediationPolicy.verification_ref p)).

(** [for row in rows: row.enabled = row.level == level], on a table that holds
    [rows] and otherwise only enabled rows of that level. *)
Lemma exclude_levels_run level s rows :
  NoDup (row_id <$> rows) →
  (∀ r, r ∈ rows → tbl (work s) !! row_id r = Some r) →
  (∃ i r, tbl (work s) !! i = Some r ∧ AutomationLevel.level r = level) →
  (∀ i r, tbl (work s) !! i = Some r → row_id r = i ∧
     (r ∈ rows ∨ AutomationLevel.level r = level ∧ AutomationLevel.enabled r = true)) →
  ∃ d, (for_each rows (λ row, db_upd (AutomationLevel.id row)
         (λ r, r <| AutomationLevel.enabled := bool_decide (AutomationLevel.level row = level) |>))) s
       = (inr (), s <| work := d |>) ∧ only_level level d ∧ config_rules d = config_rules (work s).
Proof.
  intros Hnd Hin Hex Hall.
  pose (f := λ row r : AutomationLevel.AutomationLevel,
    r <| AutomationLevel.enabled := bool_decide (AutomationLevel.level row = level) |>).
  eexists. split; [exact (for_each_upd_run f rows s Hnd Hin)|]. split; [|done].
  assert (Hlk : ∀ i r, upd_rows f rows (tbl (work s)) !! i = Some r →
    ∃ r0, tbl (work s) !! i = Some r0 ∧
      (r = f r0 r0 ∨ r = r0 ∧ AutomationLevel.level r = level ∧ AutomationLevel.enabled r = true)).
  { intros i r. destruct (decide (i ∈ row_id <$> rows)) as [(r0 & -> & Hr0)%list_elem_of_fmap|Hni].
    - rewrite lookup_upd_rows_in by done. intros [= <-]. exists r0. auto.
    - rewrite lookup_upd_rows_notin by done. intros Hi. exists r. split; [done|].
      destruct (Hall i r Hi) as [<- [Hr|?]]; [|by right].
      by destruct Hni; apply list_elem_of_fmap_2. }
  assert (Hset : ∀ d m, automation_levels (set_tbl (R:=AutomationLevel.AutomationLevel) m d) = m) by done.
  unfold only_level. cbn. rewrite Hset. split.
  - destruct Hex as (i & r & Hi & Hl). destruct (Hall i r Hi) as [<- Hor].
    exists (row_id r). destruct (decide (row_id r ∈ row_id <$> rows)) as [(r0 & E & Hr0)%list_elem_of_fmap|Hni].
    + exists (f r0 r0). rewrite E, lookup_upd_rows_in by done. split; [done|].
      specialize (Hin r0 Hr0). rewrite <-E, Hi in Hin. cbn. congruence.
    + exists r. by rewrite lookup_upd_rows_notin.
  - intros i r (r0 & _ & [->|(-> & Hl & He)])%Hlk; cbn; [apply bool_decide_eq_true|by rewrite Hl, He].
Qed.

(** The write of the levels, whether or not [level] has a row yet. *)
Lemma set_level_run level s :
  wf_table AutomationLevel.AutomationLevel s →
  ∃ s1, set_level level s = (inr (), s1) ∧ committed s1 = work s1 ∧
    only_level level (work s1) ∧ config_rules (work s1) = config_rules (work s).
Proof.
  intros [Hwf _]. unfold set_level. erewrite bind_inr by reflexivity.
  change (tbl (work s)) with (automation_levels (work s)) in *.
  set (m := automation_levels (work s)) in *. set (rows := select_rows (λ _, true) m).
  assert (Hnd : NoDup (row_id <$> rows)) by by eapply NoDup_select_rows.
  assert (Hlk : ∀ r, r ∈ rows → m !! row_id r = Some r) by (intros; by eapply select_rows_lookup).
  assert (Hrows : ∀ i r, m !! i = Some r → row_id r = i ∧ r ∈ rows).
  { intros i r Hi. split; [by apply (wf_id Hwf)|]. apply elem_of_select_rows. eauto. }
  destruct (existsb _ rows) eqn:Eex.
  - apply existsb_exists in Eex as (r & Hr & Hl%bool_decide_eq_true).
    apply list_elem_of_In in Hr. apply Hlk in Hr as Hi.
    edestruct (exclude_levels_run level s rows) as (d & Hrun & Hd & Hc); [done|done|by eauto| |eexists; split_and!].
    + intros i r' Hi'. destruct (Hrows i r' Hi'). auto.
    + erewrite bind_inr by reflexivity. erewrite bind_inr by exact Hrun. reflexivity.
    + reflexivity.
    + exact Hd.
    + exact Hc.
  - set (new := AutomationLevel.mk (next_value (tbl_name (R:=AutomationLevel.AutomationLevel)) s) level "" true).
    set (s0 := put_row (R:=AutomationLevel.AutomationLevel) (AutomationLevel.id new) new
                 (s <| seqs := <[tbl_name (R:=AutomationLevel.AutomationLevel) := AutomationLevel.id new]> (seqs s) |>)).
    assert (Hadd : db_add (AutomationLevel.mk 0 level "" true) s = (inr new, s0)).
    { unfold db_add. cbv zeta. replace (accepts _ _ _) with true; [done|]. symmetry.
      apply accepts_fresh; [exact Hwf|done|].
      intros j r' Hj. cbn. apply bool_decide_eq_false. intros ->.
      apply not_true_iff_false in Eex. apply Eex, existsb_exists.
      exists r'. split; [apply list_elem_of_In; by eapply Hrows|by apply bool_decide_eq_true]. }
    assert (Hnew : m !! AutomationLevel.id new = None).
    { destruct (m !! _) as [x|] eqn:E; [|done]. pose proof (wf_seq Hwf _ _ E) as Hle.
      unfold new, next_value in Hle. cbn in Hle. lia. }
    assert (Htbl : tbl (work s0) = <[AutomationLevel.id new := new]> m).
    { unfold s0. by rewrite tbl_put_row. }
    edestruct (exclude_levels_run level s0 rows) as (d & Hrun & Hd & Hc); [done| | | |eexists; split_and!].
    + intros r Hr. rewrite Htbl, lookup_insert_ne; [by apply Hlk|].
      intros E. apply Hlk in Hr. cbn in *. congruence.
    + exists (AutomationLevel.id new), new. by rewrite Htbl, lookup_insert_eq.
    + intros i r. rewrite Htbl. intros [[<- <-]|[_ Hi]]%lookup_insert_Some; [by auto|].
      destruct (Hrows i r Hi). auto.
    + erewrite bind_inr; [|by erewrite bind_inr by exact Hadd].
      erewrite bind_inr by exact Hrun. reflexivity.
    + reflexivity.
    + exact Hd.
    + exact Hc.
Qed.

Lemma level_now_only level s : only_level level (work s) → level_now s = level.
Proof.
  intros [(i & r & Hi & Hl) Hall]. apply enabled_level_only.
  - exists r. split; [|done]. apply elem_of_select_rows. eauto.
  - intros x [_ [j Hj]]%elem_of_select_rows. eauto.
Qed.

Definition l4_policies (s : St) : list RemediationPolicy.RemediationPolicy :=
  select_rows is_l4_policy (remediation_policies (work s)).
Lemma elem_of_l4_policies s p :
  p ∈ l4_policies s ↔
  RemediationPolicy.level p = "L4" ∧ ∃ i, remediation_policies (work s) !! i = Some p.
Proof. unfold l4_policies, is_l4_policy. by rewrite elem_of_select_rows, bool_decide_eq_true. Qed.

Lemma governed_l4_check s :
  (match l4_policies s with [] => false | _ => true end &&
   forallb (λ p, bool_decide (is_Some (RemediationPolicy.verification_ref p))) (l4_policies s))
  = true ↔ governed_l4 s.
Proof.
  pose proof (elem_of_l4_policies s) as Hl. set (l := l4_policies s) in *. clearbody l.
  rewrite andb_true_iff, forallb_forall. unfold governed_l4. split.
  - intros [Hne Hall]. split.
    + destruct l as [|p l']; [done|]. destruct (proj1 (Hl p)) as (? & i & ?).
      { apply elem_of_cons. by left. } eauto.
    + intros i p Hi Hp. apply (bool_decide_eq_true (is_Some _)). apply Hall, list_elem_of_In, Hl. eauto.
  - intros [(i & p & Hi & Hp) Hall]. split.
    + assert (p ∈ l) as Hin by (apply Hl; eauto). by destruct l; [apply elem_of_nil in Hin|].
    + intros x [? [j Hj]]%list_elem_of_In%Hl. apply bool_decide_eq_true. eauto.
Qed.

(** [put_level] up to its answer. *)
Lemma put_level_run user level s :
  wf_table AutomationLevel.AutomationLevel s →
  feature_on _FEATURE s = true → has_perm user _AI_ADMIN = true → level ∈ _LEVELS →
  (level = "L4" → governed_l4 s) →
  ∃ s1, put_level user level s = get_level user s1 ∧ committed s1 = work s1 ∧
    only_level level (work s1) ∧ config_rules (work s1) = config_rules (work s).
Proof.
  intros Hwf Hf Hp Hl Hgov. destruct (set_level_run level s Hwf) as (s1 & Hrun & Hc & Ho & Hcfg).
  exists s1. split; [|done]. unfold put_level, _gate.
  erewrite bind_inr by (erewrite bind_inr by (rewrite require_feature_eq, Hf; reflexivity);
    rewrite require_perm_eq, Hp; reflexivity).
  erewrite bind_inr by (unfold str_in; rewrite bool_decide_eq_true_2 by done; reflexivity).
  erewrite bind_inr; [by erewrite bind_inr|].
  unfold when. case_bool_decide as E; [|done]. unfold db_select.
  erewrite bind_inr by reflexivity. unfold tbl; cbn -[select_rows].
  change (select_rows is_l4_policy _) with (l4_policies s).
  by rewrite (proj2 (governed_l4_check s) (Hgov E)).
Qed.

(** Choosing an automation level makes it the only enabled one, durably; and
    [L4] is reached only when L4 policies exist and every one of them names a
    verification. *)
Theorem put_level_exclusive user level s o s' :
  wf_table AutomationLevel.AutomationLevel s →
  put_level user level s = (inr o, s') →
  only_level level (committed s') ∧ level_now s' = level ∧
  jget "current" o = Some (JStr level) ∧ (level = "L4" → governed_l4 s).
Proof.
  intros Hwf H.
  assert (Hpre : feature_on _FEATURE s = true ∧ has_perm user _AI_ADMIN = true ∧ level ∈ _LEVELS ∧
    (level = "L4" → governed_l4 s)).
  { unfold put_level, _gate in H. inv_run. split_and!; [done|done|by apply str_in_true|].
    intros ->. match goal with Hw : when _ _ _ = _ |- _ =>
      apply when_inr in Hw as [[_ Hw]|[[=] _]] end.
    inv_run. apply governed_l4_check. done. }
  destruct Hpre as (Hf & Hp & Hl & Hg).
  destruct (put_level_run user level s Hwf Hf Hp Hl Hg) as (s1 & Hrun & Hc & Ho & _).
  rewrite Hrun in H. unfold get_level, _gate in H. inv_run.
  rewrite Hc. split_and!; [done|by apply level_now_only| |done]. cbn. do 2 f_equal.
  destruct Ho as [(i & r & Hi & Hlr) Hall]. apply enabled_level_only.
  - exists r. split; [|done]. rewrite merge_sort_Permutation. apply elem_of_select_rows. eauto.
  - intros x. rewrite merge_sort_Permutation. intros [_ [j Hj]]%elem_of_select_rows. eauto.
Qed.

(** An administrator of automation who lacks [ai:use] gets a 403 from
    [put_level], but only after the new level has been committed: the answer is
    built by [get_level], which checks the other permission. *)
Theorem put_level_forbidden_after_commit user level s :
  wf_table AutomationLevel.AutomationLevel s → work s = committed s →
  feature_on _FEATURE s = true → has_perm user _AI_ADMIN = true → has_perm user _AI_USE = false →
  level ∈ _LEVELS → level ≠ "L4" →
  (run_request (put_level user level) s).1 = inl (ForbiddenError "permission denied: ai:use") ∧
  level_now (run_request (put_level user level) s).2 = level.
Proof.
  intros Hwf _ Hf Hp Hu Hl Hne.
  destruct (put_level_run user level s Hwf Hf Hp Hl ltac:(done)) as (s1 & Hrun & Hc & Ho & Hcfg).
  assert (Hf1 : feature_on _FEATURE s1 = true).
  { rewrite <-Hf. by apply feature_on_ext. }
  assert (Hget : get_level user s1 = (inl (ForbiddenError "permission denied: ai:use"), s1)).
  { unfold get_level, _gate. erewrite bind_inl; [done|].
    erewrite bind_inr by (rewrite require_feature_eq, Hf1; reflexivity).
    rewrite require_perm_eq, Hu. reflexivity. }
  unfold run_request. rewrite Hrun, Hget. split; [done|]. apply level_now_only. cbn. by rewrite Hc.
Qed.

(** ** The circuit breaker as a state machine *)

(** closed -> open -> half -> closed, half -> open. *)
Inductive breaker_edge : string → string → Prop :=
  | trip : breaker_edge "closed" "open"
  | half_open : breaker_edge "open" "half"
  | close : breaker_edge "half" "closed"
  | reopen : breaker_edge "half" "open".

Definition breaker_ok (r : CircuitBreakerState.CircuitBreakerState) : Prop :=
  CircuitBreakerState.state r ∈ ["closed"; "open"; "half"].

Lemma breaker_step_edge t n ok r :
  breaker_ok r →
  let r' := breaker_step t n ok r in
  breaker_ok r' ∧ CircuitBreakerState.scope r' = CircuitBreakerState.scope r ∧
  (CircuitBreakerState.state r' = CircuitBreakerState.state r ∨
   breaker_edge (CircuitBreakerState.state r) (CircuitBreakerState.state r')).
Proof.
  unfold breaker_ok, breaker_step. intros Hr. cbv zeta.
  repeat (apply elem_of_cons in Hr as [Hr|Hr]); [..|by apply elem_of_nil in Hr];
    rewrite Hr; cbn; destruct ok; cbn; repeat case_match; cbn; rewrite ?Hr;
    (split_and!; [str_mem|done|by auto using breaker_edge]).
Qed.

(** [r] is the global breaker's row. *)
Definition breaker_row (s : St) (r : CircuitBreakerState.CircuitBreakerState) : Prop :=
  ∃ i, circuit_breakers (work s) !! i = Some r ∧ global_breaker r = true.

Lemma breaker_row_head s r :
  wf_table CircuitBreakerState.CircuitBreakerState s → breaker_row s r →
  head (select_rows global_breaker (tbl (work s))) = Some r ∧
  tbl (work s) !! CircuitBreakerState.id r = Some r.
Proof.
  intros [Hwf _] (i & Hi & Hg). rewrite <-(wf_id Hwf i r Hi) in Hi. split; [|exact Hi].
  apply head_select_unique; [eauto|done|]. intros j r' Hj Hg'.
  destruct (decide (j = row_id r)) as [->|Hne]; [unfold tbl in Hj; cbn in *; congruence|].
  unfold global_breaker in *. apply bool_decide_eq_true in Hg, Hg'.
  destruct (wf_unique Hwf _ _ _ _ Hj Hi Hne) as [Hc|Hc]; cbn in Hc;
    apply bool_decide_eq_false in Hc; congruence.
Qed.

Section breaker_facts.
Context (env : option Z) (policy : option RemediationPolicy.RemediationPolicy) (T : Z).
(** The threshold comes from the environment, or else from the policy. *)
Hypothesis fixed :
  env = Some T ∨ env = None ∧ policy ≫= RemediationPolicy.circuit_threshold = Some T.

Lemma record_run ok s r :
  wf_table CircuitBreakerState.CircuitBreakerState s → breaker_row s r →
  ∃ o s', record_verification_result env policy ok s = (inr o, s') ∧
    wf_table CircuitBreakerState.CircuitBreakerState s' ∧
    breaker_row s' (breaker_step T (now s) ok r) ∧ committed s' = work s'.
Proof.
  intros Hwf Hrow. destruct (breaker_row_head s r Hwf Hrow) as [Hh Hlk].
  assert (Hkeep : keeps_keys (breaker_step T (now s) ok)).
  { intros x. unfold breaker_step. repeat case_match; by split_and!. }
  assert (Ht : resolve_threshold env policy s = (inr T, s)).
  { unfold resolve_threshold, bind, db_find, gets, ret.
    by destruct fixed as [->|[-> ->]]. }
  do 2 eexists. split_and!.
  - unfold record_verification_result.
    erewrite bind_inr by exact Ht.
    erewrite bind_inr by (unfold db_find, gets; rewrite Hh; reflexivity).
    erewrite bind_inr by reflexivity. erewrite bind_inr by reflexivity.
    erewrite bind_inr by (unfold db_upd, modify; rewrite Hlk; reflexivity).
    erewrite bind_inr by reflexivity. reflexivity.
  - pose proof (wf_table_put s _ _ r Hkeep Hwf Hlk) as [Hw _]. by split.
  - exists (CircuitBreakerState.id r). split.
    + apply (lookup_insert_eq (tbl (work s))).
    + destruct Hrow as (_ & _ & Hg). unfold global_breaker, breaker_step in *.
      repeat case_match; done.
  - done.
Qed.

(** Verification results, one after the other *)
Fixpoint results (oks : list bool) (s : St) : St :=
  match oks with
  | [] => s
  | ok :: oks => results oks (record_verification_result env policy ok s).2
  end.
Lemma results_app l1 l2 s : results (l1 ++ l2) s = results l2 (results l1 s).
Proof. revert s. induction l1 as [|ok l1 IH]; intros s; [done|]. apply IH. Qed.

(** The breaker's row with its table *)
Definition breaker_at (s : St) (r : CircuitBreakerState.CircuitBreakerState) : Prop :=
  wf_table CircuitBreakerState.CircuitBreakerState s ∧ breaker_row s r.
Lemma results_cons ok oks s r : breaker_at s r → ∃ s', breaker_at s' (breaker_step T (now s) ok r) ∧
  results (ok :: oks) s = results oks s'.
Proof.
  intros [Hwf Hrow]. destruct (record_run ok s r Hwf Hrow) as (o & s' & Hrun & Hwf' & Hrow' & _).
  exists s'. cbn [results]. by rewrite Hrun.
Qed.

Definition fail_count (n : Z) : Z := Z.min n (Z.max 1 T).
Lemma failures_row n s r c :
  breaker_at s r → 0 ≤ c →
  CircuitBreakerState.current r = fail_count c →
  CircuitBreakerState.state r = (if (1 <=? c) && (T <=? c) then "open" else "closed") →
  ∃ r', breaker_at (results (replicate n false) s) r' ∧
    CircuitBreakerState.state r' =
      (if (1 <=? c + Z.of_nat n) && (T <=? c + Z.of_nat n) then "open" else "closed").
Proof.
  revert s r c. induction n as [|n IH]; intros s r c Hat Hc Hcur Hst.
  - exists r. rewrite Z.add_0_r. by split_and!.
  - destruct (results_cons false (replicate n false) s r Hat) as (s' & Hat' & E).
    cbn [replicate]. rewrite E. replace (c + Z.of_nat (S n)) with (c + 1 + Z.of_nat n) by lia.
    eapply IH; [exact Hat'|lia|..].
    all: unfold breaker_step, fail_count in *; rewrite Hst.
    all: destruct (Z.leb_spec 1 c), (Z.leb_spec T c); cbn; rewrite ?Hst, ?Hcur;
      repeat case_match; cbn; rewrite ?Hcur, ?Hst; try lia; try done.
    all: repeat match goal with H : (_ <=? _) = _ |- _ => revert H end; rewrite ?Hcur; intros;
      repeat case_match; try done; lia.
Qed.

(** No two successes in a row *)
Fixpoint no_two_successes (oks : list bool) : bool :=
  match oks with
  | true :: ((true :: _) as rest) => false
  | _ :: rest => no_two_successes rest
  | [] => true
  end.
Definition tripped (ok : bool) : string := if ok then "half" else "open".
(** A breaker that has tripped, and the result before *)
Lemma tripped_row oks b s r :
  breaker_at s r → CircuitBreakerState.state r = tripped b → no_two_successes (b :: oks) = true →
  ∃ r', breaker_at (results oks s) r' ∧ CircuitBreakerState.state r' = tripped (default b (last oks)).
Proof.
  revert b s r. induction oks as [|ok oks IH]; intros b s r Hat Hst Hn; [by exists r|].
  destruct (results_cons ok oks s r Hat) as (s' & Hat' & ->).
  destruct (IH ok s' _ Hat') as (r' & ? & Hr').
  - unfold breaker_step. rewrite Hst. destruct b, ok; done.
  - destruct b, ok; done.
  - exists r'. split; [done|]. rewrite Hr', last_cons. by destruct (last oks).
Qed.
End breaker_facts.

Lemma breaker_now_row s r : breaker_at s r → breaker_now s = CircuitBreakerState.state r.
Proof.
  intros [Hwf Hrow]. destruct (breaker_row_head s r Hwf Hrow) as [Hh _].
  unfold breaker_now, tbl in *. cbn -[select_rows] in *. by rewrite Hh.
Qed.
Lemma breaker_open_blocks rem s ref :
  breaker_now s = "open" → (resolve_auto_policy rem s).1 ≠ inr (Some ref).
Proof.
  intros Hb. rewrite resolve_auto_policy_run. cbn. intros (p & Hp & _)%outcome_allowed. by destruct (aa_breaker _ _ _ Hp).
Qed.

(** C5: From a closed breaker without failures, and with threshold [T], the
    [max 1 T]-th failed verification in a row opens it and none before. Whatever
    results come then, until two successes in a row the breaker is half open right
    after a success and open otherwise, and while it is open no remediation is
    approved without a human. *)
Theorem breaker_trips_and_halts env policy T n oks s r :
  env = Some T ∨ env = None ∧ policy ≫= RemediationPolicy.circuit_threshold = Some T →
  breaker_at s r → CircuitBreakerState.state r = "closed" → CircuitBreakerState.current r = 0 →
  (Z.of_nat n < Z.max 1 T → breaker_now (results env policy (replicate n false) s) = "closed") ∧
  (Z.max 1 T ≤ Z.of_nat n → no_two_successes oks = true →
   let s' := results env policy (replicate n false ++ oks) s in
   if default false (last oks) then breaker_now s' = "half"
   else breaker_now s' = "open" ∧ ∀ rem ref, (resolve_auto_policy rem s').1 ≠ inr (Some ref)).
Proof.
  intros Hfix Hat Hst Hcur.
  destruct (failures_row env policy T Hfix n s r 0 Hat) as (r1 & Hat1 & Hst1); [lia|unfold fail_count; lia|done|].
  split; intros Hn.
  - rewrite (breaker_now_row _ r1 Hat1), Hst1.
    destruct (Z.leb_spec 1 (0 + Z.of_nat n)), (Z.leb_spec T (0 + Z.of_nat n)); try done; lia.
  - intros Hok. rewrite (proj2 (Z.leb_le 1 _)), (proj2 (Z.leb_le T _)) in Hst1 by lia. cbv zeta. rewrite results_app.
    destruct (tripped_row env policy T Hfix oks false _ r1 Hat1 Hst1 Hok) as (r2 & Hat2 & Hst2).
    pose proof (breaker_now_row _ r2 Hat2) as Hb. rewrite Hst2 in Hb.
    destruct (default false (last oks)); [done|]. split; [done|]. intros rem ref. by apply breaker_open_blocks.
Qed.

(** ** Witnesses *)

Definition l4_policy : RemediationPolicy.RemediationPolicy :=
  RemediationPolicy.mk 4 "host" "restart" "L4" (Some "restart_svc") (Some "check_svc") (Some 2) None.
Definition auto_db : Db :=
  flags_on 1 ["ai.auto_remediate"] empty_db
    <| remediation_policies := {[4 := l4_policy]} |>
    <| automation_levels := {[1 := AutomationLevel.mk 1 "L2" "" false; 2 := AutomationLevel.mk 2 "L4" "" true]} |>
    <| automation_whitelists := {[1 := AutomationWhitelist.mk 1 "restart_svc" "low" true None]} |>
    <| circuit_breakers := {[1 := CircuitBreakerState.mk 1 "global" "closed" 0 None None]} |>.
Definition auto_st : St :=
  on_db (λ _, auto_db) init_st <| seqs := {["automation_level" := 2; "circuit_breaker_state" := 1]} |>.
Definition low_risk_restart : json :=
  JObj [("risk_level", JStr "low"); ("action", JStr "restart_svc");
        ("asset_class", JStr "host"); ("op_type", JStr "restart")].

Example auto_policy_hit :
  (resolve_auto_policy low_risk_restart auto_st).1 = inr (Some "remediation_policy:4").
Proof. vm_compute. reflexivity. Qed.

Lemma put_level_exclusive_witness :
  let run := put_level admin "L4" auto_st in
  level_now run.2 = "L4" ∧ governed_l4 auto_st.
Proof.
  assert (∃ o, put_level admin "L4" auto_st = (inr o, (put_level admin "L4" auto_st).2)) as [o Ho].
  { eexists. vm_compute. reflexivity. }
  assert (Hwf : wf_table AutomationLevel.AutomationLevel auto_st).
  { apply wf_tableb_spec. vm_compute. reflexivity. }
  destruct (put_level_exclusive _ _ _ _ _ Hwf Ho) as (_ & H1 & _ & H2). split; [exact H1|by apply H2].
Defined.

Lemma put_level_forbidden_after_commit_witness :
  let u := plain_user 5 ["ai:admin"] [] in
  (run_request (put_level u "L1") auto_st).1 = inl (ForbiddenError "permission denied: ai:use") ∧
  level_now (run_request (put_level u "L1") auto_st).2 = "L1".
Proof.
  apply put_level_forbidden_after_commit; try reflexivity; [|str_mem|done].
  apply wf_tableb_spec. vm_compute. reflexivity.
Defined.

Lemma breaker_trips_and_halts_witness :
  breaker_now (results None (Some l4_policy) [false] auto_st) = "closed" ∧
  breaker_now (results None (Some l4_policy) [false; false; true] auto_st) = "half" ∧
  breaker_now (results None (Some l4_policy) [false; false; true; false] auto_st) = "open".
Proof.
  assert (Hat : breaker_at auto_st (CircuitBreakerState.mk 1 "global" "closed" 0 None None)).
  { split; [apply wf_tableb_spec; vm_compute; reflexivity|]. exists 1. split; vm_compute; reflexivity. }
  pose proof (λ n oks, breaker_trips_and_halts None (Some l4_policy) 2 n oks _ _ (or_intror (conj eq_refl eq_refl))
    Hat eq_refl eq_refl) as H.
  split_and!.
  - exact (proj1 (H 1%nat []) eq_refl).
  - apply (proj2 (H 2%nat [true])); [lia|reflexivity].
  - apply (proj2 (H 2%nat [true; false])); [lia|reflexivity].
Defined.
