(* ===== verification/Terminal.v ===== *)
(** * Web terminals: [services/terminal_service.py]

    Session lifecycle (open / awaiting_approval / closed), the approval gate of
    sensitive hosts, the concurrency limits, the web-socket token and the
    encrypted recording.  Approvals call back through [activate_on_approval] and
    [close_on_cancel] (Approval.v). *)

From S2P Require Import Prelude.
From S2P Require Import Models.
From S2P Require Import Session.
From S2P Require Import Repositories.
From S2P Require Import Access.

Module TermRules.
Record TermRules := mk {
  user_limit : Z; global_limit : Z; idle_timeout_sec : Z; duration_limit_sec : Z; retention_days : Z }.
#[global] Instance eta_TermRules : Eta TermRules := λ r,
  mk (user_limit r) (global_limit r) (idle_timeout_sec r) (duration_limit_sec r) (retention_days r).
End TermRules.

(** [int(rule.rule_value["value"])] when the rule sets a value, else [d]. *)
Definition rule_int (key : string) (d : Z) : Op Z :=
  rule ← ConfigRuleRepository.by_key key;
  match rule with
  | Some r => match jget "value" (ConfigRule.rule_value r) with
              | Some JNull | None => ret d
              | Some v => int_of v
              end
  | None => ret d
  end.

Definition _rules : Op TermRules.TermRules :=
  user_limit ← rule_int "terminal_user_concurrency_limit" 1;
  global_limit ← rule_int "terminal_global_concurrency_limit" 100;
  idle ← rule_int "terminal_idle_timeout_sec" 1800;
  duration ← rule_int "terminal_duration_limit_sec" 14400;
  retention ← rule_int "terminal_retention_days" 30;
  ret (TermRules.mk user_limit global_limit idle duration retention).

Definition host_in_groups (user : CurrentUser) (host : Host.Host) : bool :=
  match Host.group_id host with Some g => z_in g (visible_group_ids user) | None => false end.

Definition _host_visible (user : CurrentUser) (host : option Host.Host) : Op Host.Host :=
  match host with
  | None => raise (NotFoundError "host not found")
  | Some h =>
      if negb (is_admin user) && negb (host_in_groups user h)
      then raise (ForbiddenError ("no data permission for host " +:+ pretty (Host.id h)))
      else ret h
  end.

Definition is_sensitive (h : Host.Host) : bool :=
  bool_decide (Host.sensitivity_level h = "sensitive").

Definition _session_out (s : TerminalSession.TerminalSession) : json := JObj [
  ("id", JInt (TerminalSession.id s)); ("session_no", JStr (TerminalSession.session_no s));
  ("host_id", JInt (TerminalSession.host_id s)); ("user_id", JInt (TerminalSession.user_id s));
  ("status", JStr (TerminalSession.status s)); ("close_reason", JStr (TerminalSession.close_reason s));
  ("sensitive", JInt (TerminalSession.sensitive s)); ("approval_id", jz (TerminalSession.approval_id s));
  ("version", JInt (TerminalSession.version s)); ("started_at", jtime (TerminalSession.started_at s));
  ("finished_at", jtime (TerminalSession.finished_at s));
  ("duration_sec", JInt (TerminalSession.duration_sec s));
  ("bytes_out", JInt (TerminalSession.bytes_out s)); ("bytes_in", JInt (TerminalSession.bytes_in s)) ].

(** [int((finished - started).total_seconds())], microseconds in. *)
Definition seconds_between (started : option Z) (finished : Z) : Z :=
  match started with Some t => Z.quot (finished - t) 1000000 | None => 0 end.

(** The assignments that close a session for [reason]. *)
Definition close_row (reason : string) (finished : Z)
    (s : TerminalSession.TerminalSession) : TerminalSession.TerminalSession :=
  s <| TerminalSession.status := "closed" |> <| TerminalSession.close_reason := reason |>
    <| TerminalSession.finished_at := Some finished |>.

Section terminal.
(** [os.getpid()] *)
Variable pid : Z.
(** [core/security.encrypt_secret] / [decrypt_secret] (AES-GCM under the
    application key; decryption of foreign data raises: [None]). *)
Variable encrypt_secret : string → string.
Variable decrypt_secret : string → option string.
(** [ws/terminal_ws.create_ws_token]: a five-minute JWT bound to the session. *)
Variable create_ws_token : Z → string.

(** The process counter [_NO_COUNTER] is one of [seqs]. *)
Definition _unique_no_component : Op string :=
  n ← nextval "terminal_service._NO_COUNTER";
  ret (hex pid +:+ "-" +:+ hexpad 8 n).
Definition _session_no : Op string :=
  d ← gets today; c ← _unique_no_component;
  ret ("TS-" +:+ date_prefix d +:+ "-" +:+ c).
Definition _approval_no : Op string :=
  d ← gets today; c ← _unique_no_component;
  ret ("AP-" +:+ date_prefix d +:+ "-" +:+ c).

(** The approval request of a session on a sensitive host. *)
Definition request_approval (user : CurrentUser) (host : Host.Host) (session_id : Z) : Op Z :=
  no ← _approval_no;
  a ← db_add {|
    ApprovalRequest.id := 0; ApprovalRequest.request_no := no;
    ApprovalRequest.biz_type := "terminal"; ApprovalRequest.biz_id := session_id;
    ApprovalRequest.title := "Web终端审批：" +:+ Host.hostname host +:+ "(" +:+ Host.ip host +:+ ")";
    ApprovalRequest.reason := "敏感主机访问需审批"; ApprovalRequest.requester_id := user_id user;
    ApprovalRequest.sensitive_hit := "sensitive host access"; ApprovalRequest.status := "pending";
    ApprovalRequest.approval_mode := "manual"; ApprovalRequest.policy_ref := None;
    ApprovalRequest.approver_role_id := None; ApprovalRequest.approver_id := None;
    ApprovalRequest.decided_at := None; ApprovalRequest.version := 0;
    ApprovalRequest.created_at := 0 |};
  db_upd session_id (λ s, s <| TerminalSession.approval_id := Some (ApprovalRequest.id a) |>
                            <| TerminalSession.status := "awaiting_approval" |>);;
  ret (ApprovalRequest.id a).

Definition create_session (user : CurrentUser) (host_id : Z) : Op json :=
  require_perm user "terminal:create";;
  h ← db_get host_id;
  host ← _host_visible user h;
  rules ← _rules;
  mine ← TerminalSessionRepository.count_open_by_user (user_id user);
  guard_or (mine <? TermRules.user_limit rules)
    (RateLimitError "user terminal session concurrency limit reached");;
  all ← TerminalSessionRepository.count_open_global;
  guard_or (all <? TermRules.global_limit rules)
    (RateLimitError "global terminal session concurrency limit reached");;
  no ← _session_no;
  n ← utc_now;
  session ← db_add {|
    TerminalSession.id := 0; TerminalSession.session_no := no;
    TerminalSession.host_id := Host.id host; TerminalSession.user_id := user_id user;
    TerminalSession.status := "open"; TerminalSession.close_reason := "";
    TerminalSession.terminated_by := None;
    TerminalSession.sensitive := if is_sensitive host then 1 else 0;
    TerminalSession.approval_id := None; TerminalSession.version := 1;
    TerminalSession.started_at := Some n; TerminalSession.finished_at := None;
    TerminalSession.duration_sec := 0; TerminalSession.bytes_out := 0;
    TerminalSession.bytes_in := 0; TerminalSession.created_at := 0 |};
  approval_id ← (if is_sensitive host
                 then a ← request_approval user host (TerminalSession.id session); ret (Some a)
                 else ret None);
  db_commit;;
  ret (JObj [("id", JInt (TerminalSession.id session));
             ("session_no", JStr (TerminalSession.session_no session));
             ("host_id", JInt (TerminalSession.host_id session));
             ("status", JStr (if is_sensitive host then "awaiting_approval" else "open"));
             ("sensitive", JInt (TerminalSession.sensitive session));
             ("approval_id", jz approval_id); ("ws_token", JNull)]).

Definition _require_visible_session (user : CurrentUser) (session_id : Z)
    : Op TerminalSession.TerminalSession :=
  o ← db_get session_id;
  session ← some_or o (NotFoundError "terminal session not found");
  if negb (is_admin user) && negb (TerminalSession.user_id session =? user_id user) then
    h ← db_get (TerminalSession.host_id session);
    guard_or (match h with Some h => host_in_groups user h | None => false end)
      (ForbiddenError "no permission to view this terminal session");;
    ret session
  else ret session.

Definition get_session (user : CurrentUser) (session_id : Z) : Op json :=
  require_perm user "terminal:view";;
  session ← _require_visible_session user session_id;
  ret (_session_out session).

Definition list_sessions (user : CurrentUser) (status : option string) (page size : Z) : Op json :=
  require_perm user "terminal:list";;
  '(rows, total) ← TerminalSessionRepository.search
    (TerminalSessionRepository.mkFilters status None
       (if is_admin user then None else Some (user_id user))) page size;
  ret (JObj [("list", JArr (_session_out <$> rows)); ("total", JInt total);
             ("page", JInt page); ("size", JInt size)]).

Definition issue_token (user : CurrentUser) (session_id : Z) : Op json :=
  require_perm user "terminal:view";;
  session ← _require_visible_session user session_id;
  guard_or (bool_decide (TerminalSession.status session = "open"))
    (BadRequestError "terminal session is not open");;
  ret (JObj [("session_id", JInt (TerminalSession.id session));
             ("session_no", JStr (TerminalSession.session_no session));
             ("ws_token", JStr (create_ws_token (TerminalSession.id session)));
             ("expires_in", JInt 300)]).

Definition closed_out (session_id : Z) : json :=
  JObj [("id", JInt session_id); ("status", JStr "closed")].

(** Cancels the linked approval when it is still pending; whether the
    compare-and-swap won is not looked at. *)
Definition cancel_linked_approval (session : TerminalSession.TerminalSession) : Op () :=
  match TerminalSession.approval_id session with
  | Some aid =>
      when (negb (aid =? 0))
        (a ← db_get aid;
         match a with
         | Some a =>
             when (bool_decide (ApprovalRequest.status a = "pending"))
               (_ ← ApprovalRepository.optimistic_update (ApprovalRequest.id a) "pending" "canceled"
                      (ApprovalRequest.version a);
                ret ())
         | None => ret ()
         end)
  | None => ret ()
  end.

Definition close_session (user : CurrentUser) (session_id : Z) : Op json :=
  require_perm user "terminal:close";;
  session ← _require_visible_session user session_id;
  n ← utc_now;
  if negb (bool_decide (TerminalSession.status session = "open")) then
    if bool_decide (TerminalSession.status session = "awaiting_approval") then
      cancel_linked_approval session;;
      db_upd (TerminalSession.id session) (close_row "canceled_before_approval" n);;
      db_commit;;
      ret (closed_out (TerminalSession.id session))
    else raise (BadRequestError "terminal session already closed")
  else
    won ← TerminalSessionRepository.optimistic_close (TerminalSession.id session)
            (TerminalSession.version session);
    guard_or won (BadRequestError "terminal session state changed concurrently");;
    db_upd (TerminalSession.id session) (λ s,
      close_row "manual" n s <| TerminalSession.version := TerminalSession.version session + 1 |>
        <| TerminalSession.duration_sec := seconds_between (TerminalSession.started_at session) n |>);;
    db_commit;;
    ret (closed_out (TerminalSession.id session)).

(** ** Call-backs of the approval service *)

Definition activate_on_approval (a : ApprovalRequest.ApprovalRequest) : Op () :=
  if negb (bool_decide (ApprovalRequest.biz_type a = "terminal")) then ret () else
  o ← db_get (ApprovalRequest.biz_id a);
  match o with
  | Some session =>
      when (bool_decide (TerminalSession.status session = "awaiting_approval"))
        (n ← utc_now;
         db_upd (TerminalSession.id session)
           (λ s, s <| TerminalSession.status := "open" |> <| TerminalSession.started_at := Some n |>);;
         db_commit)
  | None => ret ()
  end.

Definition close_on_cancel (a : ApprovalRequest.ApprovalRequest) : Op () :=
  if negb (bool_decide (ApprovalRequest.biz_type a = "terminal")) then ret () else
  o ← db_get (ApprovalRequest.biz_id a);
  match o with
  | Some session =>
      when (bool_decide (TerminalSession.status session = "awaiting_approval"))
        (n ← utc_now;
         db_upd (TerminalSession.id session) (close_row "canceled_before_approval" n);;
         db_commit)
  | None => ret ()
  end.

(** ** Recording *)

(** [try: _decrypt_chunk(c.data_enc) except Exception: ""] *)
Definition chunk_out (c : TerminalRecordingChunk.TerminalRecordingChunk) : json := JObj [
  ("offset", JInt (TerminalRecordingChunk.offset c));
  ("data", JStr (default "" (decrypt_secret (TerminalRecordingChunk.data_enc c))));
  ("created_at", jtime (Some (TerminalRecordingChunk.created_at c)))].

Definition replay_recording (user : CurrentUser) (session_id after_offset size : Z) : Op json :=
  require_perm user "terminal:replay";;
  session ← _require_visible_session user session_id;
  rules ← _rules;
  n ← utc_now;
  let created := default (TerminalSession.created_at session) (TerminalSession.started_at session) in
  guard_or (n - created <=? TermRules.retention_days rules * 86400 * 1000000)
    (NotFoundError "recording expired or purged");;
  chunks ← TerminalRecordingRepository.after_offset session_id after_offset size;
  max_offset ← TerminalRecordingRepository.max_offset session_id;
  ret (JObj [("session_id", JInt session_id); ("after_offset", JInt after_offset);
             ("size", JInt (Z.of_nat (length chunks)));
             ("has_more", JBool ((after_offset <? max_offset) && (Z.of_nat (length chunks) =? size)));
             ("chunks", JArr (chunk_out <$> chunks))]).

(** Under the per-session lock: one writer at a time.  The byte counter is the
    one of the session object the caller holds. *)
Definition record_output (session : TerminalSession.TerminalSession) (output : string) : Op () :=
  if bool_decide (output = "") then ret () else
  m ← TerminalRecordingRepository.max_offset (TerminalSession.id session);
  TerminalRecordingRepository.append (TerminalSession.id session) (m + 1) (encrypt_secret output);;
  db_upd (TerminalSession.id session) (λ s, s <| TerminalSession.bytes_out :=
    TerminalSession.bytes_out session + Z.of_nat (String.length output) |>).

(** ** Idle and duration limits (the caller passes the session it holds) *)

Definition _finalize (session : TerminalSession.TerminalSession) (reason : string) : Op () :=
  won ← TerminalSessionRepository.optimistic_close (TerminalSession.id session)
          (TerminalSession.version session);
  when won
    (n ← utc_now;
     db_upd (TerminalSession.id session) (λ s,
       close_row reason n s <| TerminalSession.version := TerminalSession.version session + 1 |>
         <| TerminalSession.duration_sec := seconds_between (TerminalSession.started_at session) n |>);;
     db_commit).
Definition mark_idle_timeout (session : TerminalSession.TerminalSession) : Op () :=
  when (bool_decide (TerminalSession.status session = "open")) (_finalize session "idle_timeout").
Definition mark_duration_limit (session : TerminalSession.TerminalSession) : Op () :=
  when (bool_decide (TerminalSession.status session = "open")) (_finalize session "duration_limit").

(** ** Every operation on terminal sessions outside the approval call-backs *)

Inductive term_request :=
  | TCreate (u : CurrentUser) (host_id : Z)
  | TGet (u : CurrentUser) (i : Z)
  | TList (u : CurrentUser) (status : option string) (page size : Z)
  | TToken (u : CurrentUser) (i : Z)
  | TClose (u : CurrentUser) (i : Z)
  | TReplay (u : CurrentUser) (i after size : Z)
  | TRecord (session : TerminalSession.TerminalSession) (output : string)
  | TIdle (session : TerminalSession.TerminalSession)
  | TDuration (session : TerminalSession.TerminalSession).

Definition term_handle (r : term_request) : Op json :=
  match r with
  | TCreate u h => create_session u h
  | TGet u i => get_session u i
  | TList u st p n => list_sessions u st p n
  | TToken u i => issue_token u i
  | TClose u i => close_session u i
  | TReplay u i a n => replay_recording u i a n
  | TRecord s o => record_output s o;; db_commit;; ret JNull
  | TIdle s => mark_idle_timeout s;; ret JNull
  | TDuration s => mark_duration_limit s;; ret JNull
  end.

(** ** The lifecycle without approvals

    Outside the approval call-backs a session only ever closes. *)

Definition term_step (t t' : TerminalSession.TerminalSession) : Prop :=
  TerminalSession.id t' = TerminalSession.id t ∧
  TerminalSession.sensitive t' = TerminalSession.sensitive t ∧
  (TerminalSession.status t' = TerminalSession.status t ∨
   TerminalSession.status t ∈ ["open"; "awaiting_approval"] ∧ TerminalSession.status t' = "closed").

(** A session created meanwhile: still in its first state, or closed. *)
Definition term_new (t : TerminalSession.TerminalSession) : Prop :=
  TerminalSession.status t =
    (if TerminalSession.sensitive t =? 0 then "open" else "awaiting_approval") ∨
  TerminalSession.status t = "closed".

Definition term_evolves (m m' : gmap Z TerminalSession.TerminalSession) : Prop :=
  (∀ i t, m !! i = Some t → ∃ t', m' !! i = Some t' ∧ term_step t t') ∧
  (∀ i t', m' !! i = Some t' → m !! i = None → term_new t').

Lemma term_step_refl t : term_step t t.
Proof. split_and!; auto. Qed.
Lemma term_step_trans t t1 t2 : term_step t t1 → term_step t1 t2 → term_step t t2.
Proof.
  intros (Hi & Hs & Hst) (Hi' & Hs' & Hst'). split_and!; [congruence..|].
  destruct Hst as [E|[Hin E]], Hst' as [E'|[Hin' E']]; rewrite ?E', ?E in *; auto.
Qed.
Lemma term_new_step t t' : term_new t → term_step t t' → term_new t'.
Proof.
  intros Hn (_ & Hs & [E|[_ E]]); [|by right]. unfold term_new. by rewrite E, Hs.
Qed.
Lemma term_evolves_refl m : term_evolves m m.
Proof. split; [eauto using term_step_refl|]. intros i t' H1 H2. congruence. Qed.
Lemma term_evolves_step m i t t' :
  m !! i = Some t → term_step t t' → term_evolves m (<[i := t']> m).
Proof.
  intros Hi Hs. split.
  - intros j t0 Hj. destruct (decide (i = j)) as [<-|Hne].
    + rewrite lookup_insert_eq. simplify_eq. eauto.
    + rewrite lookup_insert_ne by done. eauto using term_step_refl.
  - intros j t0 [[<- <-]|[? ?]]%lookup_insert_Some Hn; congruence.
Qed.
Lemma term_evolves_new m i t :
  m !! i = None → term_new t → term_evolves m (<[i := t]> m).
Proof.
  intros Hi Hst. split.
  - intros j t0 Hj. exists t0. split; [|apply term_step_refl].
    rewrite lookup_insert_ne; [done|]. congruence.
  - intros j t0 [[<- <-]|[? ?]]%lookup_insert_Some Hn; [done|congruence].
Qed.

#[export] Instance term_evolves_preorder : PreOrder term_evolves.
Proof.
  split; [intros ?; apply term_evolves_refl|]. intros m1 m2 m3 [H12 N12] [H23 N23]. split.
  - intros i t Hi. destruct (H12 i t Hi) as (t2 & Hi2 & Hs). destruct (H23 i t2 Hi2) as (t3 & Hi3 & Hs').
    exists t3. split; [done|]. by eapply term_step_trans.
  - intros i t3 Hi3 Hn. destruct (m2 !! i) as [t2|] eqn:E; [|by eapply N23].
    destruct (H23 i t2 E) as (t3' & Hi3' & Hs). simplify_eq.
    eapply term_new_step; [|done]. by eapply N12.
Qed.

(** What a successful [create_session] leaves behind: one new session, below
    both limits, and on a sensitive host a pending approval linked both ways. *)
Definition live_sessions (p : TerminalSession.TerminalSession → bool)
    (m : gmap Z TerminalSession.TerminalSession) : Z :=
  Z.of_nat (length (select_rows (λ t, p t && TerminalSessionRepository.live t) m)).

Lemma live_after p m i t limit :
  m !! i = None → (live_sessions p m <? limit) = true → live_sessions p (<[i := t]> m) ≤ limit.
Proof.
  unfold live_sessions. intros Hi Hl. rewrite count_insert_new by done. destruct (_ && _); lia.
Qed.

Definition session_created (user : CurrentUser) (host_id : Z) (s s1 : St) : Prop :=
  has_perm user "terminal:create" = true ∧
  ∃ h rules i t,
    tbl (work s) !! host_id = Some h ∧
    (is_admin user = false → host_in_groups user h = true) ∧
    _rules s = (inr rules, s) ∧
    tbl (work s) !! i = None (A:=TerminalSession.TerminalSession) ∧
    tbl (committed s1) = <[i := t]> (tbl (work s)) ∧
    live_sessions (λ t, TerminalSession.user_id t =? user_id user) (tbl (committed s1))
      ≤ TermRules.user_limit rules ∧
    live_sessions (λ _, true) (tbl (committed s1)) ≤ TermRules.global_limit rules ∧
    TerminalSession.host_id t = Host.id h ∧ TerminalSession.user_id t = user_id user ∧
    if is_sensitive h then
      TerminalSession.status t = "awaiting_approval" ∧ TerminalSession.sensitive t = 1 ∧
      ∃ a row, TerminalSession.approval_id t = Some a ∧
        tbl (work s) !! a = None (A:=ApprovalRequest.ApprovalRequest) ∧
        tbl (committed s1) = <[a := row]> (tbl (work s)) ∧
        ApprovalRequest.id row = a ∧ ApprovalRequest.biz_type row = "terminal" ∧
        ApprovalRequest.biz_id row = i ∧ ApprovalRequest.status row = "pending" ∧
        ApprovalRequest.requester_id row = user_id user
    else
      TerminalSession.status t = "open" ∧ TerminalSession.sensitive t = 0 ∧
      TerminalSession.approval_id t = None ∧
      tbl (committed s1) = tbl (R:=ApprovalRequest.ApprovalRequest) (work s).

Definition term_post {A} (m : gmap Z TerminalSession.TerminalSession) (_ : exn + A) (s : St) : Prop :=
  term_evolves m (tbl (committed s)).

Section term_proofs.
Context (s : St).
Hypothesis clean : work s = committed s.
Hypothesis wf : wf_table TerminalSession.TerminalSession s.
#[local] Abbreviation m := (tbl (R:=TerminalSession.TerminalSession) (work s)).

Lemma term_row_key i t : m !! i = Some t → TerminalSession.id t = i.
Proof. destruct wf as [Hw _]. exact (wf_id Hw i t). Qed.

Lemma term_still {A} (op : Op A) :
  preserves (still (R:=TerminalSession.TerminalSession) m) op → wp op (term_post m) s.
Proof.
  intros Hp. unfold wp, term_post. destruct (Hp s) as [_ ->]; [|apply term_evolves_refl].
  split; [done|]. by rewrite clean.
Qed.

Lemma term_same {A} (r : exn + A) s' : committed s' = committed s → term_post m r s'.
Proof. intros E. unfold term_post. rewrite E, clean. apply term_evolves_refl. Qed.

Lemma term_stepped {A} (r : exn + A) i t t' s' :
  m !! i = Some t → term_step t t' → tbl (committed s') = <[i := t']> m → term_post m r s'.
Proof. intros ?? E. unfold term_post. rewrite E. by eapply term_evolves_step. Qed.

End term_proofs.

Lemma preserves_rule_int I key d : preserves I (rule_int key d).
Proof.
  unfold rule_int. apply preserves_bind; [apply preserves_by_key|]. intros [r|]; [|apply preserves_ret].
  destruct (jget _ _) as [v|]; [|apply preserves_ret].
  destruct v; unfold int_of; try apply preserves_ret; destruct (py_int _);
    auto using preserves_ret, preserves_raise.
Qed.
#[local] Hint Resolve preserves_rule_int : preserves.
Lemma preserves_rules I : preserves I _rules.
Proof. unfold _rules. preserves_auto. Qed.
Lemma preserves_host_visible I user h : preserves I (_host_visible user h).
Proof. unfold _host_visible. preserves_auto. Qed.
Lemma preserves_require_visible I user i : preserves I (_require_visible_session user i).
Proof. unfold _require_visible_session. preserves_auto. Qed.
#[local] Hint Resolve preserves_rules preserves_host_visible preserves_require_visible : preserves.


Lemma wp_require_visible user i Q s :
  (∀ t, tbl (work s) !! i = Some t → Q (inr t) s) → (∀ e, Q (inl e) s) →
  wp (_require_visible_session user i) Q s.
Proof. intros Hok Herr. unfold _require_visible_session. wp_run; auto. Qed.

Ltac wp_prim ::=
  lazymatch goal with
  | |- wp (_require_visible_session _ _) _ _ => apply wp_require_visible; intros ?; [intros ?|]
  | |- wp _rules _ _ => apply wp_reads; [apply preserves_rules|intros [?|?] ?]
  | |- wp (_host_visible _ _) _ _ => apply wp_reads; [apply preserves_host_visible|intros [?|?] ?]
  end.

Section term_handlers.
Context (s : St).
Hypothesis clean : work s = committed s.
Hypothesis wf : wf_table TerminalSession.TerminalSession s.
#[local] Abbreviation m := (tbl (R:=TerminalSession.TerminalSession) (work s)).

(** The approval of a new session is pending, linked both ways, and is all
    that [request_approval] changes. *)
Lemma wp_request_approval user host i t (Q : exn + Z → St → Prop) s0 :
  tbl (work s0) !! i = Some t → TerminalSession.id t = i →
  (∀ e s1, committed s1 = committed s0 → Q (inl e) s1) →
  (∀ a row s1, committed s1 = committed s0 →
     tbl (work s1) = <[i := t <| TerminalSession.approval_id := Some a |>
                             <| TerminalSession.status := "awaiting_approval" |>]> (tbl (work s0)) →
     tbl (work s1) = <[a := row]> (tbl (work s0)) → tbl (work s0) !! a = None (A:=ApprovalRequest.ApprovalRequest) →
     ApprovalRequest.id row = a → ApprovalRequest.biz_type row = "terminal" →
     ApprovalRequest.biz_id row = i → ApprovalRequest.status row = "pending" →
     ApprovalRequest.requester_id row = user_id user → Q (inr a) s1) →
  wp (request_approval user host i) Q s0.
Proof.
  intros Hi Hid Herr Hok. unfold request_approval, _approval_no, _unique_no_component.
  wp_run; try by apply Herr. all: rows_simpl. 2: congruence.
  assert (r = t) as -> by congruence.
  assert (Ha : tbl (R:=ApprovalRequest.ApprovalRequest) (work s0) !! n = None)
    by (by apply accepts_spec in H1 as (_ & ? & _)).
  replace (ApprovalRequest.id row) with n by (by rewrite H0).
  apply (Hok n row); try done; try (rewrite H0; reflexivity); by rows_simpl.
Qed.

Lemma wp_create_session user host_id (Q : exn + json → St → Prop) :
  (∀ e s1, committed s1 = committed s → Q (inl e) s1) →
  (∀ j s1, session_created user host_id s s1 → Q (inr j) s1) →
  wp (create_session user host_id) Q s.
Proof.
  intros Herr Hok.
  unfold create_session, _session_no, _unique_no_component,
    TerminalSessionRepository.count_open_by_user, TerminalSessionRepository.count_open_global,
    _host_visible.
  wp_run; try by apply Herr.
  all: rows_simpl.
  all: match goal with H : accepts _ _ ?r = true, E : ?r = tbl_init ?n _ _ |- _ =>
         pose proof (accepts_none _ _ _ H) as Ha; rename E into Hrow;
         assert (TerminalSession.id r = n) as Hid by (rewrite Hrow; done) end.
  all: match goal with H : _ && _ = false |- _ => rename H into Hvis end.
  - rewrite Hid. apply wp_request_approval with (t := row); rows_simpl.
    1, 2: done.
    { intros e s1 E. by apply Herr. }
    intros a arow s1 Hc Hts Har Hfresh Hai Hb Hbi Hst Hr. wp_run. apply Hok.
    split; [done|]. exists h, t, n, (row <| TerminalSession.approval_id := Some a |>
                         <| TerminalSession.status := "awaiting_approval" |>).
    rows_simpl. rewrite insert_insert_eq in Hts. rewrite Hts.
    assert (TerminalSession.host_id row = Host.id h ∧ TerminalSession.user_id row = user_id user ∧
            TerminalSession.sensitive row = 1) as (Hh & Hu & Hse) by (rewrite Hrow; done).
    rewrite Heqb0. split_and!; try done.
    + destruct (is_admin user), (host_in_groups user h); done.
    + by apply live_after.
    + by apply live_after.
    + by eexists _, _.
  - wp_run. apply Hok. split; [done|]. exists h, t, n, row. rows_simpl.
    assert (TerminalSession.host_id row = Host.id h ∧ TerminalSession.user_id row = user_id user ∧
            TerminalSession.sensitive row = 0 ∧ TerminalSession.status row = "open" ∧
            TerminalSession.approval_id row = None)
      as (Hh & Hu & Hse & Hst & Hap) by (rewrite Hrow; done).
    rewrite Heqb0. split_and!; try done.
    + destruct (is_admin user), (host_in_groups user h); done.
    + by apply live_after.
    + by apply live_after.
Qed.

Lemma create_session_evolves user host_id : wp (create_session user host_id) (term_post m) s.
Proof.
  apply wp_create_session; [intros; by apply term_same|].
  intros j s1 (_ & h & rules & i & t & _ & _ & _ & Hn & E & _ & _ & _ & _ & Hst).
  unfold term_post. rewrite E. apply term_evolves_new; [done|]. left.
  by destruct (is_sensitive h), Hst as (-> & -> & _).
Qed.

Lemma cancel_linked_still t : preserves (frame m (committed s)) (cancel_linked_approval t).
Proof. unfold cancel_linked_approval, ApprovalRepository.optimistic_update. preserves_auto. Qed.

Lemma was_open v (t : TerminalSession.TerminalSession) :
  bool_decide (TerminalSession.status t = "open") && (TerminalSession.version t =? v) = true →
  TerminalSession.status t ∈ ["open"; "awaiting_approval"].
Proof. intros [->%bool_decide_eq_true _]%andb_true_iff. by str_mem. Qed.

(** The compare-and-swap that closes an open session, then the flush of the
    closing columns. *)
Ltac closing :=
  unfold term_post; rows_simpl; simplify_eq; first [congruence|
    rewrite insert_insert_eq; eapply term_evolves_step; [done|];
    split_and!; [done..|right; split; [by eapply was_open|done]]].

Lemma close_session_evolves user i : wp (close_session user i) (term_post m) s.
Proof.
  unfold close_session, TerminalSessionRepository.optimistic_close.
  wp_run. all: try by apply term_same. 2, 3: closing.
  eapply (wp_frame m (committed s)); [apply cancel_linked_still|done|].
  intros [?|?] s1 [Hm Hc]; [by apply term_same|]. wp_run.
  all: unfold term_post; rows_simpl; rewrite Hm in *; try apply term_evolves_refl.
  eapply term_evolves_step; [done|]. split_and!; [done..|].
  match goal with H : m !! i = Some _ |- _ => rewrite (term_row_key s wf i _ H) in * end. simplify_eq.
  match goal with H : bool_decide _ = true |- _ => apply bool_decide_eq_true in H as Hst end.
  right. split; [rewrite Hst; by str_mem|done].
Qed.

Lemma finalize_evolves t reason : wp (_finalize t reason) (term_post m) s.
Proof.
  unfold _finalize, TerminalSessionRepository.optimistic_close.
  wp_run. all: try by apply term_same. all: closing.
Qed.

Lemma finalize_returns t reason b :
  wp (when b (_finalize t reason);; ret JNull) (term_post m) s.
Proof.
  apply wp_bind, wp_when; [intros _|intros _; by apply term_same].
  eapply wp_mono; [apply finalize_evolves|]. by intros [e|x] s1 Hp; [|apply wp_ret].
Qed.

Lemma record_output_evolves t o : wp (record_output t o;; db_commit;; ret JNull) (term_post m) s.
Proof.
  unfold record_output, TerminalRecordingRepository.max_offset, TerminalRecordingRepository.append.
  wp_run. all: try by apply term_same. all: unfold term_post; rows_simpl.
  - eapply term_evolves_step; [done|]. split_and!; auto.
  - apply term_evolves_refl.
Qed.

Lemma term_handle_evolves r : wp (term_handle r) (term_post m) s.
Proof.
  destruct r; cbn [term_handle].
  - apply create_session_evolves.
  - apply term_still; [done|]. unfold get_session. preserves_auto.
  - apply term_still; [done|]. unfold list_sessions, TerminalSessionRepository.search. preserves_auto.
  - apply term_still; [done|]. unfold issue_token. preserves_auto.
  - apply close_session_evolves.
  - apply term_still; [done|].
    unfold replay_recording, TerminalRecordingRepository.after_offset, TerminalRecordingRepository.max_offset.
    preserves_auto.
  - apply record_output_evolves.
  - apply finalize_returns.
  - apply finalize_returns.
Qed.
End term_handlers.

(** Unfolds every terminal handler down to the session's primitives. *)
Ltac unfold_term_handle :=
  cbn [term_handle]; unfold create_session, request_approval, _session_no, _approval_no,
    _unique_no_component, get_session, list_sessions, issue_token, close_session,
    cancel_linked_approval, replay_recording, record_output, mark_idle_timeout, mark_duration_limit,
    _finalize, TerminalSessionRepository.count_open_by_user,
    TerminalSessionRepository.count_open_global, TerminalSessionRepository.search,
    TerminalSessionRepository.optimistic_close, ApprovalRepository.optimistic_update,
    TerminalRecordingRepository.after_offset, TerminalRecordingRepository.max_offset,
    TerminalRecordingRepository.append.

Lemma term_handle_wf r : preserves (wf_table TerminalSession.TerminalSession) (run_request (term_handle r)).
Proof. apply wf_preserves_run_request. destruct r; unfold_term_handle; preserves_auto. Qed.

Lemma term_handle_wf_approvals r :
  preserves (wf_table ApprovalRequest.ApprovalRequest) (run_request (term_handle r)).
Proof. apply wf_preserves_run_request. destruct r; unfold_term_handle; preserves_auto. Qed.
Lemma term_handle_wf_tasks r : preserves (wf_table ExecTask.ExecTask) (run_request (term_handle r)).
Proof. apply wf_preserves_run_request. destruct r; unfold_term_handle; preserves_auto. Qed.

Definition term_serve_all : list (Z * term_request) → St → St := serve_all term_handle.

Lemma term_history qs s :
  quiet TerminalSession.TerminalSession s →
  term_evolves (tbl (work s)) (tbl (work (term_serve_all qs s))) ∧
  quiet TerminalSession.TerminalSession (term_serve_all qs s).
Proof.
  intros Hs. refine (serve_all_quiet term_handle term_evolves qs s _ Hs).
  intros q s0 H0. refine (serve_quiet term_handle term_evolves q s0 _ term_handle_wf H0).
  intros s1 r [Hc Hwf]. by apply term_handle_evolves.
Qed.

(** ** Properties *)

(** C6: The approval gate of sensitive hosts holds however requests follow one
    another: outside the approval call-backs a session on a sensitive host that
    is open was open to begin with, and no token is issued for one that waits
    for its approval. *)
Theorem sensitive_needs_approval qs s :
  quiet TerminalSession.TerminalSession s →
  (∀ i t', tbl (work (term_serve_all qs s)) !! i = Some t' →
     TerminalSession.sensitive t' ≠ 0 → TerminalSession.status t' = "open" →
     ∃ t, tbl (work s) !! i = Some t ∧ TerminalSession.status t = "open") ∧
  (∀ i t user, tbl (work s) !! i = Some t → TerminalSession.status t = "awaiting_approval" →
     ∃ e, issue_token user i (term_serve_all qs s) = (inl e, term_serve_all qs s)).
Proof.
  intros Hs. destruct (term_history qs s Hs) as [[Hold Hnew] Hq]. split.
  - intros i t' Hi' Hsens Hopen. destruct (tbl (work s) !! i) as [t|] eqn:E.
    + destruct (Hold i t E) as (t1 & Hi1 & _ & _ & Hst). simplify_eq. exists t. split; [done|].
      destruct Hst as [<-|[_ Hc]]; [done|congruence].
    + destruct (Hnew i t' Hi' E) as [Hst|Hst]; [|congruence].
      rewrite Hopen in Hst. destruct (Z.eqb_spec (TerminalSession.sensitive t') 0); done.
  - intros i t user Hi Hst. destruct (Hold i t Hi) as (t' & Hi' & _ & _ & Hst').
    assert (TerminalSession.status t' ≠ "open") as Hne by (destruct Hst' as [->|[_ ->]]; congruence).
    set (s' := term_serve_all qs s) in *.
    enough (wp (issue_token user i) (λ r s1, ∃ e, r = inl e ∧ s1 = s') s') as (e & He & Hs1).
    { exists e. rewrite (surjective_pairing (issue_token user i s')). by rewrite He, Hs1. }
    unfold issue_token. wp_run; eauto.
    match goal with H : bool_decide _ = true |- _ => apply bool_decide_eq_true in H end. congruence.
Qed.

(** A session is created only on a host the caller sees and within both
    concurrency limits, which still hold once it counts; on an ordinary host it
    is open, on a sensitive one it waits for a pending approval request that is
    linked to it both ways. A refused request leaves the database as it was. *)
Theorem create_session_spec user host_id s r s1 :
  create_session user host_id s = (r, s1) →
  match r with
  | inr _ => session_created user host_id s s1
  | inl _ => committed s1 = committed s
  end.
Proof.
  intros Hrun. by_wp Hrun. by apply wp_create_session.
Qed.

End terminal.
#[export] Hint Resolve preserves_rule_int preserves_rules preserves_host_visible
  preserves_require_visible : preserves.

(** ** Witnesses *)

(** A toy cipher and token maker, for the concrete runs. *)
Definition ex_encrypt (x : string) : string := String "!"%char x.
Definition ex_decrypt (x : string) : option string :=
  match x with String "!"%char y => Some y | _ => None end.
Definition ex_token (i : Z) : string := "jwt-" +:+ pretty i.

(** Host 4 is sensitive, host 5 is not; session 1 on host 4 waits for approval 1. *)
Definition ex_session (status : string) (sensitive : Z) (started : Z) : TerminalSession.TerminalSession :=
  TerminalSession.mk 1 "TS-1" 4 7 status "" None sensitive (Some 1) 1 (Some started) None 0 0 0 started.
Definition terminal_db : Db :=
  empty_db
    <| hosts := {[4 := Host.mk 4 "db1" "10.0.0.4" "linux" "" (Some 5) "prod" JNull "sensitive" "online" "ssh" None "" None "" None 0;
                  5 := Host.mk 5 "web1" "10.0.0.5" "linux" "" (Some 5) "prod" JNull "normal" "online" "ssh" None "" None "" None 0]} |>
    <| terminal_sessions := {[1 := ex_session "awaiting_approval" 1 1767355200000000]} |>
    <| approval_requests := {[1 := ApprovalRequest.mk 1 "AP-1" "terminal" 1 "" "" 7 "" "pending" "manual"
                             None None None None 0 0]} |>.
Definition terminal_st : St :=
  on_db (λ _, terminal_db) init_st
    <| seqs := {["terminal_session" := 1; "approval_request" := 1]} |>.
Definition operator : CurrentUser :=
  plain_user 8 ["terminal:create"; "terminal:view"; "terminal:close"] [5].
Definition ex_terminal_history : list (Z * term_request) :=
  [(1767355201000000, TToken operator 1); (1767355202000000, TCreate operator 5);
   (1767355203000000, TClose operator 1); (1767355204000000, TCreate operator 4)].

Lemma terminal_st_quiet : quiet TerminalSession.TerminalSession terminal_st.
Proof. split; [reflexivity|]. apply wf_tableb_spec. vm_compute. reflexivity. Qed.

Lemma sensitive_needs_approval_witness :
  ∃ e, issue_token ex_token operator 1
         (term_serve_all 4711 ex_encrypt ex_decrypt ex_token ex_terminal_history terminal_st) =
    (inl e, term_serve_all 4711 ex_encrypt ex_decrypt ex_token ex_terminal_history terminal_st).
Proof.
  destruct (sensitive_needs_approval 4711 ex_encrypt ex_decrypt ex_token ex_terminal_history
    terminal_st terminal_st_quiet) as [_ H].
  apply (H 1 (ex_session "awaiting_approval" 1 1767355200000000) operator); vm_compute; reflexivity.
Defined.

Lemma create_session_spec_witness :
  match create_session 4711 operator 4 terminal_st with
  | (inr _, s1) => session_created operator 4 terminal_st s1
  | (inl _, s1) => False
  end.
Proof.
  destruct (create_session 4711 operator 4 terminal_st) as [r s1] eqn:E.
  pose proof (create_session_spec 4711 operator 4 terminal_st r s1 E) as H.
  destruct r as [e|j]; [vm_compute in E; discriminate|exact H].
Defined.
