(* ===== verification/TerminalWs.v ===== *)
(** * The terminal web socket and the recording: [ws/terminal_ws.py]

    One connection of a user to an open session: the frames received are an
    explicit list, each with the time it arrives; what is sent is logged in
    [out].  Every call on the database runs in a session of its own. *)

From S2P Require Import Prelude.
From S2P Require Import Models.
From S2P Require Import Session.
From S2P Require Import Repositories.
From S2P Require Import Access.
From S2P Require Import Terminal.

(** What a text frame holds: [json.loads] may fail. *)
Abbreviation ws_text := (option json).

Definition lf : string := String "010"%char "".

Section terminal_ws.
Variable encrypt_secret : string → string.
Variable decrypt_secret : string → option string.
(** [jose.jwt.decode] under the application key: the claims [type] and [sub]
    ([int(payload["sub"])]), [None] when it raises. *)
Variable jwt_decode : string → option (string * option Z).

Definition _verify_ws_token (token : string) (session_id : Z) : bool :=
  match jwt_decode token with
  | Some (type, sub) =>
      if negb (bool_decide (type = "ws_terminal")) then false
      else match sub with Some n => n =? session_id | None => false end
  | None => false
  end.

Definition ws_frame (type : string) (data : json) : json :=
  JObj [("type", JStr type); ("data", data)].
Definition ws_status (status : string) : json := JObj [("status", JStr status)].
Definition _send (session_id : Z) (frame : json) : Op () :=
  emit_out (EBroadcast "ws/terminal" session_id frame).
Definition ws_close (session_id code : Z) : Op () :=
  emit_out (EBroadcast "ws/terminal close" session_id (JInt code)).

(** [_handle_input]: a plain function, in a database session of its own. *)
Definition record_input (session_id : Z) (d : string) : Op () :=
  o ← db_get session_id;
  match o with
  | Some session =>
      when (bool_decide (TerminalSession.status session = "open"))
        (record_output encrypt_secret session (d +:+ lf);; db_commit)
  | None => ret ()
  end.
Definition _handle_input (session_id : Z) (data : json) : Op () :=
  if negb (truthy data) then ret () else
  match data with
  | JStr d =>
      if bool_decide (strip d = "") then ret ()
      else run_request (try_catch (record_input session_id d) (λ _, db_rollback))
  | _ => raise (OtherError "AttributeError: strip")
  end.

Definition _finalize_session (session_id : Z) (reason : string) : Op () :=
  run_request (
    o ← db_get session_id;
    match o with
    | Some session =>
        if bool_decide (reason = "duration_limit")
        then mark_duration_limit session else mark_idle_timeout session
    | None => ret ()
    end).

(** [await f(...)] of a plain function that returns [None]. *)
Definition await_none : Op () :=
  raise (TypeError "object NoneType can't be used in 'await' expression").

Definition limit_reached (session_id : Z) (reason : string) : Op () :=
  _finalize_session session_id reason;;
  await_none;;
  _send session_id (ws_frame "status" (JObj [("status", JStr "closed"); ("reason", JStr reason)]));;
  ws_close session_id 4408.

(** One received frame, between the limit checks and the next [receive_text]. *)
Definition on_text (session_id : Z) (raw : ws_text) : Op () :=
  match raw with
  | None => ret ()
  | Some (JObj _ as msg) =>
      match jget "type" msg with
      | Some (JStr mtype) =>
          if bool_decide (mtype = "input") then
            let data := jget_or "data" (JStr "") msg in
            _handle_input session_id data;;
            await_none;;
            _send session_id (ws_frame "output" data)
          else if bool_decide (mtype = "resize") then
            _send session_id (ws_frame "status" (ws_status "resized"))
          else when (bool_decide (mtype = "ping")) (_send session_id (ws_frame "pong" (JObj [])))
      | _ => ret ()
      end
  | Some _ => raise (OtherError "AttributeError: get")
  end.

Section connection.
Variable session_id : Z.
Variable rules : TermRules.TermRules.
Variable started : Z.

(** [while True]: the inbox runs dry when the client disconnects. *)
Fixpoint ws_loop (last_active : Z) (inbox : list (Z * ws_text)) : Op () :=
  match inbox with
  | [] => ret ()
  | (t, raw) :: inbox =>
      modify (λ s, s <| now := t |>);;
      if negb (TermRules.duration_limit_sec rules =? 0) &&
         (TermRules.duration_limit_sec rules * 1000000 <=? t - started) then
        limit_reached session_id "duration_limit"
      else if TermRules.idle_timeout_sec rules * 1000000 <? t - last_active then
        limit_reached session_id "idle_timeout"
      else on_text session_id raw;; ws_loop t inbox
  end.
End connection.

Definition ws_terminal (session_id : Z) (token : string) (inbox : list (Z * ws_text)) : Op () :=
  if negb (_verify_ws_token token session_id) then ws_close session_id 4401 else
  o ← db_get session_id;
  match o with
  | None => ws_close session_id 4404
  | Some session =>
      if negb (bool_decide (TerminalSession.status session = "open")) then ws_close session_id 4403
      else
        n ← utc_now;
        let started := default n (TerminalSession.started_at session) in
        _send session_id (ws_frame "status" (ws_status "open"));;
        rules ← _rules;
        try_catch (ws_loop session_id rules started started inbox) (λ _, ret ())
  end.

(** ** The first input ends the connection *)

Lemma input_raises i d s :
  jget "type" (JObj d) = Some (JStr "input") → ∃ e s', on_text i (Some (JObj d)) s = (inl e, s').
Proof.
  intros E. cbn [on_text]. rewrite E. rewrite bool_decide_eq_true_2 by done. cbv zeta. unfold bind.
  destruct (_handle_input _ _ s) as [[e|x] s1]; eauto.
Qed.

Lemma ws_loop_after_input i rules started last pre t d rest s :
  jget "type" (JObj d) = Some (JStr "input") →
  ws_loop i rules started last (pre ++ (t, Some (JObj d)) :: rest) s =
  ws_loop i rules started last (pre ++ [(t, Some (JObj d))]) s.
Proof.
  intros Hd. revert last s. induction pre as [|[t0 raw] pre IH]; intros last s.
  - cbn [app ws_loop]. unfold bind at 1 3. cbn [modify].
    destruct (_ && _); [done|]. destruct (_ <? _); [done|].
    destruct (input_raises i d (s <| now := t |>) Hd) as (e & s' & E). unfold bind. by rewrite E.
  - cbn [app ws_loop]. unfold bind at 1 3. cbn [modify].
    destruct (_ && _); [done|]. destruct (_ <? _); [done|].
    unfold bind. destruct (on_text i raw _) as [[e|x] s1]; [done|]. apply IH.
Qed.

(** The frames a connection may see. *)
Definition plain_frame (e : Effect) : Prop :=
  match e with
  | EBroadcast "ws/terminal" _ frame =>
      frame ∈ [ws_frame "status" (ws_status "open"); ws_frame "status" (ws_status "resized");
               ws_frame "pong" (JObj [])]
  | EBroadcast "ws/terminal close" _ code => code ∈ [JInt 4401; JInt 4403; JInt 4404]
  | _ => False
  end.

Lemma sent_plain before e : plain_frame e → preserves (sent before plain_frame) (emit_out e).
Proof. apply sent_emit. Qed.

Lemma preserves_await_none {A} I (k : () → Op A) : preserves I (await_none >>= k).
Proof. by intros s Hs. Qed.
#[local] Hint Resolve preserves_await_none : preserves.

Lemma finalize_plain before i reason : preserves (sent before plain_frame) (_finalize_session i reason).
Proof.
  unfold _finalize_session, mark_duration_limit, mark_idle_timeout, _finalize,
    TerminalSessionRepository.optimistic_close.
  apply sent_run_request. preserves_auto.
Qed.

Lemma handle_input_plain before i d : preserves (sent before plain_frame) (_handle_input i d).
Proof.
  unfold _handle_input. repeat preserves_step; eauto with preserves nocore.
  apply sent_run_request. unfold record_input, record_output, TerminalRecordingRepository.max_offset,
    TerminalRecordingRepository.append. preserves_auto.
Qed.
#[local] Hint Resolve finalize_plain handle_input_plain : preserves.

Lemma on_text_plain before i raw : preserves (sent before plain_frame) (on_text i raw).
Proof.
  unfold on_text, _send. preserves_auto.
  all: apply sent_plain; cbn. all: unfold ws_frame, ws_status.
  all: rewrite ?elem_of_cons; auto.
Qed.

Lemma ws_loop_plain before i rules started last inbox :
  preserves (sent before plain_frame) (ws_loop i rules started last inbox).
Proof.
  revert last. induction inbox as [|[t raw] inbox IH]; intros last; cbn [ws_loop]; [apply preserves_ret|].
  apply preserves_bind; [by apply preserves_modify|]. intros _. unfold limit_reached.
  repeat case_match; apply preserves_bind; eauto using on_text_plain with preserves nocore.
Qed.

(** A terminal connection ends with its first input: whatever the client
    sends after it is not read, the input is never echoed, and no connection
    reports the end of a session, since the loop awaits plain functions. *)
Theorem ws_input_ends_connection i token s pre t d rest :
  jget "type" (JObj d) = Some (JStr "input") →
  ws_terminal i token (pre ++ (t, Some (JObj d)) :: rest) s =
    ws_terminal i token (pre ++ [(t, Some (JObj d))]) s ∧
  sent (out s) plain_frame (ws_terminal i token (pre ++ (t, Some (JObj d)) :: rest) s).2.
Proof.
  intros Hd. split.
  - unfold ws_terminal. destruct (negb _); [done|].
    apply bind_ext. intros [session|] s1; [|done]. destruct (negb _); [done|].
    apply bind_ext. intros n s2. cbv zeta. apply bind_ext. intros _ s3. apply bind_ext. intros rules s4.
    unfold try_catch. by rewrite (ws_loop_after_input _ _ _ _ pre t d rest).
  - revert s. enough (∀ before, preserves (sent before plain_frame)
      (ws_terminal i token (pre ++ (t, Some (JObj d)) :: rest))) as Hp
      by (intros s; apply Hp, sent_refl).
    intros before.
    unfold ws_terminal, ws_close. repeat preserves_step; eauto using ws_loop_plain, preserves_rules with preserves nocore.
    all: apply sent_plain; cbn; rewrite ?elem_of_cons; auto.
Qed.

(** ** The recording *)

Abbreviation Chunk := TerminalRecordingChunk.TerminalRecordingChunk.
Definition chunks_of (i : Z) (s : St) : list Chunk :=
  select_rows (λ c, TerminalRecordingChunk.session_id c =? i) (tbl (work s)).

(** Between two connections: [datas] is what has been recorded of the open
    session [i] of [owner]. *)
Record recorded (i owner : Z) (started : option Z) (rules : gmap Z ConfigRule.ConfigRule)
    (datas : list string) (s : St) : Prop := {
  rec_quiet : quiet Chunk s;
  rec_offsets : TerminalRecordingChunk.offset <$> chunks_of i s = seqZ 1 (Z.of_nat (length datas));
  rec_data : TerminalRecordingChunk.data_enc <$> chunks_of i s = encrypt_secret <$> datas;
  rec_session : ∃ t, tbl (work s) !! i = Some t ∧ TerminalSession.id t = i ∧
    TerminalSession.status t = "open" ∧ TerminalSession.started_at t = started ∧
    TerminalSession.user_id t = owner;
  rec_rules : tbl (work s) = rules;
}.

Lemma max_of_seqZ (l : list Chunk) n :
  TerminalRecordingChunk.offset <$> l = seqZ 1 (Z.of_nat n) →
  default 0 (foldr (λ c m, Some (match m with
    | Some x => Z.max (TerminalRecordingChunk.offset c) x
    | None => TerminalRecordingChunk.offset c end)) None l) = Z.of_nat n.
Proof.
  intros E. assert (∀ k, TerminalRecordingChunk.offset <$> l = seqZ (1 + Z.of_nat k) (Z.of_nat n) →
    foldr (λ c m, Some (match m with
      | Some x => Z.max (TerminalRecordingChunk.offset c) x
      | None => TerminalRecordingChunk.offset c end)) None l =
    if decide (n = 0%nat) then None else Some (Z.of_nat (k + n))) as Hk.
  { clear E. revert n. induction l as [|c l IH]; intros n k E.
    - destruct n; [done|]. rewrite seqZ_cons in E by lia. done.
    - destruct n as [|n]; [done|]. rewrite seqZ_cons in E by lia. cbn in E. injection E as Ec El.
      cbn. rewrite (IH n (S k)).
      + destruct (decide (n = 0%nat)) as [->|]; cbn; f_equal; lia.
      + rewrite El. f_equal; lia. }
  rewrite (Hk 0%nat) by (rewrite E; f_equal; lia). destruct (decide _) as [->|]; done.
Qed.

Lemma chunks_after_insert i s n c :
  wf_table Chunk s → n = next_value (tbl_name (R:=Chunk)) s →
  TerminalRecordingChunk.session_id c = i →
  select_rows (λ c, TerminalRecordingChunk.session_id c =? i) (<[n := c]> (tbl (work s))) =
    chunks_of i s ++ [c].
Proof.
  intros [Hwf _] -> Hc. unfold chunks_of, select_rows. rewrite rows_insert_last.
  - rewrite filter_app, filter_cons_True, filter_nil; [done|lia].
  - intros j x Hj. pose proof (wf_seq Hwf j x Hj). unfold next_value. lia.
Qed.

Lemma handle_input_wf i d : preserves (wf_table Chunk) (_handle_input i d).
Proof.
  unfold _handle_input. repeat preserves_step; eauto with preserves nocore.
  apply wf_preserves_run_request. unfold record_input, record_output,
    TerminalRecordingRepository.max_offset, TerminalRecordingRepository.append.
  preserves_auto.
Qed.

Lemma next_chunk_accepted i s n row :
  wf_table Chunk s → TerminalRecordingChunk.offset <$> chunks_of i s = seqZ 1 (Z.of_nat n) →
  TerminalRecordingChunk.session_id row = i → TerminalRecordingChunk.offset row = Z.of_nat n + 1 →
  accepts (tbl (work s)) (next_value (tbl_name (R:=Chunk)) s) row = true.
Proof.
  intros [Hwf _] Ho Hi Hn. apply (accepts_fresh _ _ _ Hwf); [done|]. intros j c Hj.
  change (conflict row c) with ((TerminalRecordingChunk.session_id row =? TerminalRecordingChunk.session_id c)
    && (TerminalRecordingChunk.offset row =? TerminalRecordingChunk.offset c)).
  rewrite Hi, Hn. destruct (Z.eqb_spec i (TerminalRecordingChunk.session_id c)); [|done]. cbn.
  assert (TerminalRecordingChunk.offset c ∈ seqZ 1 (Z.of_nat n)) as Hin.
  { rewrite <-Ho. apply list_elem_of_fmap_2, elem_of_select_rows. split; [lia|eauto]. }
  apply elem_of_seqZ in Hin. lia.
Qed.

Lemma record_step i owner started rules datas d s :
  recorded i owner started rules datas s → strip d ≠ "" →
  ∃ s', _handle_input i (JStr d) s = (inr (), s') ∧
        recorded i owner started rules (datas ++ [d +:+ lf]) s'.
Proof.
  intros [[Hq Hwf] Ho Hd (t & Ht & Hid & Hst & Hsta & Hown) Hr] Hd0.
  assert (d ≠ "") as Hne by (by intros ->).
  assert (d +:+ lf ≠ "") as Hne' by (by destruct d).
  enough (wp (_handle_input i (JStr d)) (λ r s', r = inr () ∧
    (wf_table Chunk s' → recorded i owner started rules (datas ++ [d +:+ lf]) s')) s) as Hwp.
  { pose proof (handle_input_wf i (JStr d) s Hwf) as Hwf'.
    unfold wp in Hwp. destruct (_handle_input i (JStr d) s) as [r s'].
    cbn in *. destruct Hwp as [-> Hrec]. exists s'. split; [done|]. by apply Hrec. }
  unfold _handle_input. cbn [truthy]. rewrite (bool_decide_eq_false_2 (d = "")) by done.
  rewrite bool_decide_eq_false_2 by done. cbn [negb].
  unfold record_input, record_output, TerminalRecordingRepository.max_offset,
    TerminalRecordingRepository.append. wp_run; try done; injection Ht as ->.
  all: rewrite ?(bool_decide_eq_false_2 (d +:+ lf = "")), ?bool_decide_eq_true_2 in * by done; try done.
  all: rows_simpl. all: rewrite Hid in *; try congruence.
  all: change (select_rows _ (tbl (work s))) with (chunks_of i s) in *.
  all: rewrite (max_of_seqZ _ _ Ho) in *.
  all: match goal with H : ?x = tbl_init _ _ _, H' : _ = next_value _ _ |- _ =>
    rename x into row; rename H into Hrow, H' into Hnext end.
  all: assert (TerminalRecordingChunk.session_id row = i ∧
    TerminalRecordingChunk.offset row = Z.of_nat (length datas) + 1 ∧
    TerminalRecordingChunk.data_enc row = encrypt_secret (d +:+ lf)) as (Hi & Hof & Hen)
    by (rewrite Hrow; done).
  2: { pose proof (next_chunk_accepted i s _ row Hwf Ho Hi Hof). congruence. }
  split; [done|]. intros Hwf'. split; [by split| | |..].
  - unfold chunks_of. rows_simpl.
    rewrite chunks_after_insert by done.
    rewrite fmap_app, Ho. cbn. rewrite Hof.
    replace (Z.of_nat (length (datas ++ [d +:+ lf]))) with (Z.of_nat (length datas) + 1)
      by (by rewrite length_app, Nat2Z.inj_add).
    rewrite seqZ_app by lia. f_equal. by rewrite Z.add_comm.
  - unfold chunks_of. rows_simpl. rewrite chunks_after_insert by done.
    rewrite !fmap_app, Hd. cbn. by rewrite Hen.
  - exists (r <| TerminalSession.bytes_out := TerminalSession.bytes_out t +
              Z.of_nat (String.length (d +:+ lf)) |>).
    rows_simpl. simplify_eq. done.
  - by rows_simpl.
Qed.

Lemma drop_seqZ a n k : drop k (seqZ a (Z.of_nat n)) = seqZ (a + Z.of_nat k) (Z.of_nat (n - k)).
Proof.
  apply list_eq. intros j. rewrite lookup_drop. apply option_eq. intros x. rewrite !lookup_seqZ. lia.
Qed.

Lemma filter_after k (l : list Chunk) a n :
  TerminalRecordingChunk.offset <$> l = seqZ a (Z.of_nat n) →
  filter (λ c, (k <? TerminalRecordingChunk.offset c) = true) l = drop (Z.to_nat (k + 1 - a)) l.
Proof.
  revert a n. induction l as [|c l IH]; intros a n E; [by rewrite drop_nil|].
  destruct n as [|n]; [done|]. rewrite seqZ_cons in E by lia. cbn in E. injection E as Ec El.
  rewrite filter_cons, (IH (Z.succ a) n) by (rewrite El; f_equal; lia).
  destruct (decide _) as [Hk|Hk].
  - replace (Z.to_nat (k + 1 - a)) with 0%nat by lia.
    by replace (Z.to_nat (k + 1 - Z.succ a)) with 0%nat by lia.
  - replace (Z.to_nat (k + 1 - a)) with (S (Z.to_nat (k + 1 - Z.succ a))) by lia. done.
Qed.

#[local] Instance offset_le_trans : Transitive TerminalRecordingRepository.offset_le.
Proof. intros ???. unfold TerminalRecordingRepository.offset_le. lia. Qed.
#[local] Instance offset_le_total : Total TerminalRecordingRepository.offset_le.
Proof. intros ??. unfold TerminalRecordingRepository.offset_le. lia. Qed.

Lemma lookup_offset (l : list Chunk) a n j c :
  TerminalRecordingChunk.offset <$> l = seqZ a n → (l !! j)%stdpp = Some c →
  TerminalRecordingChunk.offset c = a + Z.of_nat j.
Proof.
  intros E Hj. assert (seqZ a n !! j = Some (TerminalRecordingChunk.offset c)) as Hs
    by (by rewrite <-E, list_lookup_fmap, Hj).
  by apply lookup_seqZ in Hs as [-> _].
Qed.

Lemma sort_chunks (l : list Chunk) a n :
  TerminalRecordingChunk.offset <$> l = seqZ a (Z.of_nat n) →
  merge_sort TerminalRecordingRepository.offset_le l = l.
Proof.
  intros E. refine (merge_sort_sorted _ _ _ _).
  - intros x y [j Hj]%list_elem_of_lookup [k Hk]%list_elem_of_lookup H1 H2.
    unfold TerminalRecordingRepository.offset_le in *.
    pose proof (lookup_offset _ _ _ _ _ E Hj). pose proof (lookup_offset _ _ _ _ _ E Hk).
    assert (j = k) as -> by lia. congruence.
  - revert a n E. induction l as [|c l IH]; intros a n E; [constructor|].
    destruct n as [|n]; [done|]. pose proof E as E'. rewrite seqZ_cons in E by lia. cbn in E. injection E as Ec El.
    constructor; [apply (IH (Z.succ a) n); rewrite El; f_equal; lia|].
    apply Forall_forall. intros c' [j Hj]%list_elem_of_lookup.
    unfold TerminalRecordingRepository.offset_le.
    rewrite (lookup_offset (c :: l) _ _ (S j) c' E' Hj). lia.
Qed.

Lemma after_offset_run i k size s n :
  TerminalRecordingChunk.offset <$> chunks_of i s = seqZ 1 (Z.of_nat n) →
  TerminalRecordingRepository.after_offset i k size s =
    (inr (take (Z.to_nat size) (drop (Z.to_nat k) (chunks_of i s))), s).
Proof.
  intros E. unfold TerminalRecordingRepository.after_offset.
  erewrite bind_inr by reflexivity. unfold ret. do 3 f_equal.
  rewrite select_rows_and. fold (chunks_of i s). rewrite (filter_after k _ 1 n E).
  replace (k + 1 - 1) with k by lia.
  apply (sort_chunks _ (1 + Z.of_nat (Z.to_nat k)) (n - Z.to_nat k)).
  rewrite fmap_drop, E. apply drop_seqZ.
Qed.
Lemma max_offset_run i s n :
  TerminalRecordingChunk.offset <$> chunks_of i s = seqZ 1 (Z.of_nat n) →
  TerminalRecordingRepository.max_offset i s = (inr (Z.of_nat n), s).
Proof.
  intros E. unfold TerminalRecordingRepository.max_offset.
  erewrite bind_inr by reflexivity. unfold ret. do 2 f_equal. by apply max_of_seqZ.
Qed.

(** The rules depend on the [config_rule] rows alone. *)
Lemma rules_ext s s' rr :
  tbl (R:=ConfigRule.ConfigRule) (work s') = tbl (work s) → _rules s = (inr rr, s) → _rules s' = (inr rr, s').
Proof.
  intros E Hr.
  assert (∀ k d, (rule_int k d s').1 = (rule_int k d s).1) as Hk.
  { intros k d. unfold rule_int, ConfigRuleRepository.by_key, db_find, bind, gets. rewrite E.
    destruct (head _) as [r|]; [|done]. destruct (jget _ _) as [v|]; [|done].
    destruct v; try done; unfold int_of; by destruct (py_int _). }
  assert (∀ k d, ∃ r, rule_int k d s = (r, s) ∧ rule_int k d s' = (r, s')) as H2.
  { intros k d. exists (rule_int k d s).1. split.
    - rewrite (surjective_pairing (rule_int k d s)) at 1. f_equal. symmetry. by apply preserves_rule_int.
    - rewrite (surjective_pairing (rule_int k d s')) at 1. rewrite Hk. f_equal.
      symmetry. by apply preserves_rule_int. }
  clear Hk. revert Hr. unfold _rules, bind.
  repeat match goal with |- context [rule_int ?k ?d s] =>
    let r := fresh "r" in destruct (H2 k d) as (r & -> & ->); destruct r; [done|] end.
  unfold ret. by intros [= ->].
Qed.

(** ** Connection by connection

    The first input ends its connection, so that what is typed arrives over a
    connection each. *)

Record Connection := mkConn { conn_token : string; conn_at : Z; typed : string; conn_rest : list (Z * ws_text) }.
Definition input_frame (d : string) : json := JObj [("type", JStr "input"); ("data", JStr d)].
Definition connect (i : Z) (c : Connection) : Op () :=
  ws_terminal i (conn_token c) ((conn_at c, Some (input_frame (typed c))) :: conn_rest c).
(** The token is good, and the frame comes within the session's limits. *)
Definition in_time (i started : Z) (rules : TermRules.TermRules) (c : Connection) : Prop :=
  _verify_ws_token (conn_token c) i = true ∧
  (TermRules.duration_limit_sec rules = 0 ∨ conn_at c - started < TermRules.duration_limit_sec rules * 1000000) ∧
  conn_at c - started ≤ TermRules.idle_timeout_sec rules * 1000000.
Definition kept_lines (typed : list string) : list string :=
  (λ d, d +:+ lf) <$> filter (λ d, strip d ≠ "") typed.

Lemma recorded_ext i owner started rules datas s s' :
  work s' = work s → committed s' = committed s → seqs s' = seqs s →
  recorded i owner started rules datas s → recorded i owner started rules datas s'.
Proof.
  intros Hw Hc Hs [[Hq [Hwf Hwc]] Ho Hd Ht Hr]. unfold chunks_of in *.
  split; unfold chunks_of; rewrite ?Hw; try done. split; [congruence|]. unfold wf_table. by rewrite Hw, Hc, Hs.
Qed.

Lemma connect_step i owner started rules rr datas c s :
  recorded i owner (Some started) rules datas s → _rules s = (inr rr, s) → in_time i started rr c →
  ∃ s', connect i c s = (inr (), s') ∧
    recorded i owner (Some started) rules (datas ++ kept_lines [typed c]) s'.
Proof.
  intros Hrec Hr (Htok & Hdur & Hidle).
  set (s1 := s <| out := out s ++ [EBroadcast "ws/terminal" i (ws_frame "status" (ws_status "open"))] |>).
  set (s2 := s1 <| now := conn_at c |>).
  assert (recorded i owner (Some started) rules datas s2) as Hrec2 by (by apply (recorded_ext _ _ _ _ _ s)).
  assert (∃ s3, _handle_input i (JStr (typed c)) s2 = (inr (), s3) ∧
    recorded i owner (Some started) rules (datas ++ kept_lines [typed c]) s3) as (s3 & E3 & Hrec3).
  { unfold kept_lines. destruct (decide (strip (typed c) = "")) as [Eb|Hb].
    - exists s2. split.
      + unfold _handle_input. destruct (negb _); [done|]. by rewrite bool_decide_eq_true_2.
      + rewrite filter_cons_False by naive_solver. cbn. by rewrite app_nil_r.
    - rewrite filter_cons_True by done. by apply record_step. }
  exists s3. split; [|exact Hrec3].
  pose proof Hrec as [_ _ _ (t & Ht & _ & Hst & Hsta & _) Hrl].
  assert (_rules s1 = (inr rr, s1)) as Hr1 by (eapply rules_ext; [|exact Hr]; done).
  unfold connect, ws_terminal. rewrite Htok. cbn [negb].
  erewrite bind_inr by reflexivity. rewrite Ht, Hst. cbn [negb bool_decide].
  rewrite bool_decide_eq_true_2 by done. cbn [negb]. erewrite bind_inr by reflexivity. rewrite Hsta. cbv zeta.
  rewrite (bind_inr _ _ s () s1) by reflexivity. rewrite (bind_inr _ _ _ _ _ Hr1).
  unfold try_catch, id. cbn [ws_loop default]. rewrite (bind_inr _ _ s1 () s2) by reflexivity.
  assert (negb (TermRules.duration_limit_sec rr =? 0) &&
    (TermRules.duration_limit_sec rr * 1000000 <=? conn_at c - started) = false) as ->.
  { destruct Hdur as [-> |Hlt]; [done|]. apply Z.leb_gt in Hlt as ->. apply andb_false_r. }
  apply Z.ltb_ge in Hidle. rewrite Hidle.
  change (on_text i (Some (input_frame (typed c)))) with
    (_handle_input i (JStr (typed c));; await_none;; _send i (ws_frame "output" (JStr (typed c)))).
  unfold bind at 1. rewrite (bind_inr _ _ _ _ _ E3). reflexivity.
Qed.

Lemma connect_all i owner started rules rr conns datas s :
  recorded i owner (Some started) rules datas s → _rules s = (inr rr, s) → Forall (in_time i started rr) conns →
  ∃ s', for_each conns (connect i) s = (inr (), s') ∧
    recorded i owner (Some started) rules (datas ++ kept_lines (typed <$> conns)) s' ∧ _rules s' = (inr rr, s').
Proof.
  intros Hrec Hr Hall. revert datas s Hrec Hr. induction Hall as [|c conns Hc _ IH]; intros datas s Hrec Hr.
  - exists s. unfold kept_lines. cbn. by rewrite app_nil_r.
  - destruct (connect_step i owner started rules rr datas c s Hrec Hr Hc) as (s1 & E1 & Hrec1).
    assert (_rules s1 = (inr rr, s1)) as Hr1.
    { eapply rules_ext; [|exact Hr]. by rewrite (rec_rules _ _ _ _ _ _ Hrec), (rec_rules _ _ _ _ _ _ Hrec1). }
    destruct (IH _ _ Hrec1 Hr1) as (s2 & E2 & Hrec2 & Hr2). exists s2. cbn [for_each fmap list_fmap].
    rewrite (bind_inr _ _ _ _ _ E1), E2. split; [done|]. split; [|done].
    rewrite <-app_assoc in Hrec2. unfold kept_lines in *. rewrite <-fmap_app, <-filter_app in Hrec2. exact Hrec2.
Qed.

(** C7: What a user types into an open session over any number of connections,
    each with a good token and each bringing its input within the session's
    limits, is what the recording then replays to that user or an administrator
    within the retention time: page by page, decrypted, in the order in which
    it was typed, each line once and ended by a line feed; blank lines are left
    out. *)
Theorem recording_roundtrip i owner started rules rr conns k size user s t :
  (∀ x, decrypt_secret (encrypt_secret x) = Some x) →
  recorded i owner (Some started) rules [] s → _rules s = (inr rr, s) →
  Forall (in_time i started rr) conns →
  t - started ≤ TermRules.retention_days rr * 86400 * 1000000 →
  has_perm user "terminal:replay" = true → is_admin user = true ∨ user_id user = owner →
  let lines := kept_lines (typed <$> conns) in
  ∃ s' j chunks,
    for_each conns (connect i) s = (inr (), s') ∧
    (replay_recording decrypt_secret user i k size (s' <| now := t |>)).1 = inr j ∧
    jget "chunks" j = Some (JArr chunks) ∧
    (jget "data" <$> chunks) = (λ d, Some (JStr d)) <$> take (Z.to_nat size) (drop (Z.to_nat k) lines) ∧
    jget "has_more" j = Some (JBool ((k <? Z.of_nat (length lines)) && (Z.of_nat (length chunks) =? size))).
Proof.
  intros Hdec Hrec Hr Hall Hret Hperm Hown lines.
  destruct (connect_all i owner started rules rr conns [] s Hrec Hr Hall) as (s' & Hrun & Hrec' & Hr').
  fold lines in Hrec'. cbn [app] in Hrec'.
  apply (recorded_ext _ _ _ _ _ s' (s' <| now := t |>)) in Hrec' as [Hq Ho Hd (x & Hx & Hid & Hst & Hsta & Hu) Hrl]; [|done..].
  apply (rules_ext _ (s' <| now := t |>)) in Hr'; [|done]. set (s1 := s' <| now := t |>) in *.
  pose proof (after_offset_run i k size s1 _ Ho) as Haft. pose proof (max_offset_run i s1 _ Ho) as Hmax.
  exists s'. do 2 eexists. split; [exact Hrun|]. split.
  - unfold replay_recording, _require_visible_session. rewrite (bind_inr _ _ _ () s1) by (unfold require_perm; by rewrite Hperm).
    erewrite bind_inr.
    2: { erewrite bind_inr by reflexivity. unfold db_get. rewrite Hx. erewrite bind_inr by reflexivity.
         assert (negb (is_admin user) && negb (TerminalSession.user_id x =? user_id user) = false) as ->
           by (destruct Hown as [-> |Ho2]; [done|]; apply andb_false_intro2, negb_false_iff; lia).
         reflexivity. }
    erewrite bind_inr by exact Hr'. erewrite bind_inr by reflexivity.
    rewrite Hsta. cbn [default id]. change (now s1) with t. rewrite (proj2 (Z.leb_le _ _) Hret).
    erewrite bind_inr by reflexivity. erewrite bind_inr by exact Haft.
    erewrite bind_inr by exact Hmax. reflexivity.
  - split; [reflexivity|]. split.
    + rewrite <-list_fmap_compose.
      rewrite (list_fmap_ext _ (λ c, Some (JStr (default "" (decrypt_secret (TerminalRecordingChunk.data_enc c)))))) by done.
      rewrite (list_fmap_compose TerminalRecordingChunk.data_enc
                 (λ x, Some (JStr (default "" (decrypt_secret x))))).
      rewrite !fmap_take, !fmap_drop, Hd, <-!list_fmap_compose. do 2 f_equal.
      apply list_fmap_ext. intros _ d _. cbn. by rewrite Hdec.
    + cbn. rewrite !length_fmap. done.
Qed.
End terminal_ws.
(** ** Witnesses *)

(** Session 1, open; the user at the keyboard of host 4. *)
Definition ws_db : Db :=
  empty_db <| terminal_sessions := {[1 := ex_session "open" 0 1767355200000000]} |>.
Definition ws_st : St := on_db (λ _, ws_db) init_st <| seqs := {["terminal_session" := 1]} |>.
Definition ex_jwt (token : string) : option (string * option Z) :=
  if bool_decide (token = "good") then Some ("ws_terminal", Some 1) else None.
Definition ex_input : list (string * json) := [("type", JStr "input"); ("data", JStr "ls")].

Lemma ws_input_ends_connection_witness :
  let run inbox := ws_terminal ex_encrypt ex_jwt 1 "good" inbox ws_st in
  let ping := Some (JObj [("type", JStr "ping")]) in
  let inbox := [(1767355201000000, ping); (1767355202000000, Some (JObj ex_input));
                (1767355203000000, ping)] in
  out (run inbox).2 = [EBroadcast "ws/terminal" 1 (ws_frame "status" (ws_status "open"));
                       EBroadcast "ws/terminal" 1 (ws_frame "pong" (JObj []))] ∧
  run inbox = run (take 2 inbox) ∧ sent [] plain_frame (run inbox).2.
Proof.
  cbv zeta. split; [vm_compute; reflexivity|].
  exact (ws_input_ends_connection ex_encrypt ex_jwt 1 "good" ws_st
    [(1767355201000000, Some (JObj [("type", JStr "ping")]))] 1767355202000000 ex_input
    [(1767355203000000, Some (JObj [("type", JStr "ping")]))] eq_refl).
Defined.

Lemma ws_st_recorded :
  recorded ex_encrypt 1 7 (Some 1767355200000000) ∅ [] ws_st.
Proof.
  split; try reflexivity.
  - split; [reflexivity|]. apply wf_tableb_spec. vm_compute. reflexivity.
  - exists (ex_session "open" 0 1767355200000000). split_and!; vm_compute; reflexivity.
Qed.

(** Four connections, one of them with a blank line *)
Definition ex_conns : list Connection :=
  [mkConn "good" 1767355201000000 "ls" []; mkConn "good" 1767355202000000 " " [];
   mkConn "good" 1767355203000000 "pwd" [(1767355204000000, None)]; mkConn "good" 1767355205000000 "exit" []].
Lemma recording_roundtrip_witness :
  ∃ s' j chunks,
    for_each ex_conns (connect ex_encrypt ex_jwt 1) ws_st = (inr (), s') ∧
    (replay_recording ex_decrypt (plain_user 7 ["terminal:replay"] []) 1 1 2 (s' <| now := 1767355206000000 |>)).1 = inr j ∧
    jget "chunks" j = Some (JArr chunks) ∧
    (jget "data" <$> chunks) = [Some (JStr ("pwd" +:+ lf)); Some (JStr ("exit" +:+ lf))] ∧
    jget "has_more" j = Some (JBool (true && (Z.of_nat (length chunks) =? 2))).
Proof.
  apply (recording_roundtrip ex_encrypt ex_decrypt ex_jwt 1 7 1767355200000000 ∅
    (TermRules.mk 1 100 1800 14400 30) ex_conns 1 2 (plain_user 7 ["terminal:replay"] []) ws_st 1767355206000000).
  - done.
  - apply ws_st_recorded.
  - reflexivity.
  - repeat first [apply Forall_nil_2 | apply Forall_cons_2];
      (split_and!; [reflexivity|right; reflexivity|vm_compute; discriminate]).
  - vm_compute. discriminate.
  - reflexivity.
  - by right.
Defined.
