(* ===== verification/Executors.v ===== *)
(** * Executors and the sensitivity test

    [services/executors/]: which connector runs a host, and the orchestration of
    a host that runs over ssh (approval gate, sensitivity gate, executor, log).
    The sensitivity test is [exec_service.detect_sensitive], which both the exec
    service and the orchestration call.

    Strings are UTF-8 bytes; [lower] folds the ASCII letters only. *)

From S2P Require Import Prelude.
From S2P Require Import Models.
From S2P Require Import Session.
From S2P Require Import Repositories.
From S2P Require Import Access.

Definition CONNECTOR_AGENT : string := "agent".
Definition CONNECTOR_SSH : string := "ssh".

(** ** Strings *)

(** [w in text] *)
Fixpoint str_contains (w text : string) : bool :=
  starts_with w text ||
  match text with EmptyString => false | String _ text' => str_contains w text' end.

(** [sep.join(l)] *)
Fixpoint str_join (sep : string) (l : list string) : string :=
  match l with
  | [] => ""
  | [x] => x
  | x :: l => x +:+ sep +:+ str_join sep l
  end.

Fixpoint chars (s : string) : list json :=
  match s with EmptyString => [] | String c s => JStr (String c "") :: chars s end.

(** [iter(x)] *)
Definition py_iter (x : json) : exn + list json :=
  match x with
  | JArr l => inr l
  | JStr s => inr (chars s)
  | JObj o => inr ((λ kv, JStr kv.1) <$> o)
  | _ => inl (TypeError "object is not iterable")
  end.
Definition iter_of (x : json) : Op (list json) :=
  match py_iter x with inr l => ret l | inl e => raise e end.

(** ** The sensitivity test *)

Module SensitiveRules.
Record SensitiveRules := mk {
  keywords : json; threshold : json; global_conc : json; host_conc : json }.
End SensitiveRules.

(** [(rule.rule_value or {}).get(k, d)] of the rule [key], [dflt] without one. *)
Definition rule_field (key k : string) (d dflt : json) : Op json :=
  rule ← ConfigRuleRepository.by_key key;
  ret (match rule with
       | Some r => jget_or k d (ConfigRule.rule_value r)
       | None => dflt
       end).

(** Both concurrency keys are stored under [global_conc]. *)
Definition _sensitive_rules : Op SensitiveRules.SensitiveRules :=
  words ← rule_field "exec_sensitive_word" "words" (JArr []) (JArr []);
  threshold ← rule_field "exec_batch_threshold" "threshold" JNull JNull;
  conc ← rule_field "exec_concurrency_limit" "limit" JNull JNull;
  host ← ConfigRuleRepository.by_key "exec_host_concurrency";
  ret (SensitiveRules.mk words threshold
         (match host with
          | Some r => jget_or "limit" JNull (ConfigRule.rule_value r)
          | None => conc
          end) JNull).

(** [w and w.lower() in text] *)
Definition word_hits (text : string) (w : json) : Op bool :=
  if negb (truthy w) then ret false else
  match w with
  | JStr w => ret (str_contains (lower w) text)
  | _ => raise (OtherError "AttributeError: lower")
  end.

Fixpoint hit_words (text : string) (words : list json) : Op (list string) :=
  match words with
  | [] => ret []
  | w :: words =>
      hit ← word_hits text w;
      rest ← hit_words text words;
      ret (match w with JStr w => if hit : bool then w :: rest else rest | _ => rest end)
  end.

(** [threshold and host_count >= threshold] *)
Definition over_threshold (threshold : json) (host_count : Z) : Op bool :=
  if negb (truthy threshold) then ret false else
  match threshold with
  | JInt t => ret (t <=? host_count)
  | JFloat q => ret (Qle_bool q (inject_Z host_count))
  | JBool _ => ret (1 <=? host_count)
  | _ => raise (TypeError "'>=' not supported")
  end.

Section executors.
(** [repr] of a float *)
Variable float_str : Q → string.

(** [str(x)] of a threshold that compared: a number. *)
Definition threshold_str (threshold : json) : string :=
  match threshold with
  | JInt t => pretty t
  | JFloat q => float_str q
  | _ => "True"
  end.

Definition lf : string := String "010"%char "".

Definition detect_sensitive (command script_content : option string) (host_count : Z)
    : Op (bool * string) :=
  rules ← _sensitive_rules;
  let text := lower (s_or command "" +:+ lf +:+ s_or script_content "") in
  words ← iter_of (SensitiveRules.keywords rules);
  hits ← hit_words text words;
  over ← over_threshold (SensitiveRules.threshold rules) host_count;
  let reasons :=
    (match hits with [] => [] | _ => ["sensitive word: " +:+ str_join "," (take 5 hits)] end) ++
    (if over : bool then ["batch size " +:+ pretty host_count +:+ " >= threshold "
                          +:+ threshold_str (SensitiveRules.threshold rules)] else []) in
  ret (match reasons with [] => false | _ => true end, str_join "; " reasons).

(** ** Routing and orchestration *)

(** [paramiko] can be imported. *)
Variable paramiko : bool.

Definition resolve_executor (connector : string) (ssh_fallback : bool) : string :=
  if bool_decide (connector = CONNECTOR_AGENT) && ssh_fallback && paramiko then CONNECTOR_SSH
  else connector.

Definition _approval_gate (task : ExecTask.ExecTask) : Op (option string) :=
  if ExecTask.approve_required task =? 0 then ret None else
  approval ← match ExecTask.approval_id task with
             | Some aid => if aid =? 0 then ret None else db_get aid
             | None => ret None
             end;
  ret (match approval with
       | Some a => if bool_decide (ApprovalRequest.status a = "approved") then None
                   else Some "awaiting approval"
       | None => Some "awaiting approval"
       end).

Definition _sensitivity_gate (task : ExecTask.ExecTask) (content : string) (host_count : Z)
    : Op (option string) :=
  '(sensitive, reason) ← detect_sensitive (ExecTask.command task) (Some content) host_count;
  ret (if sensitive : bool then Some ("sensitive operation: " +:+ reason) else None).

Definition _write_log (th : ExecTaskHost.ExecTaskHost) (level content : string) : Op () :=
  m ← ExecLogRepository.max_seq (ExecTaskHost.id th);
  ExecLogRepository.append (ExecTaskHost.id th) (m + 1) level content;;
  db_commit.

(** [SSHExecutor.exec] only raises [NotImplementedError]. *)
Definition ssh_exec : Op (bool * string) :=
  raise (OtherError (if paramiko then "ssh execution not implemented in skeleton"
                     else "ssh executor unavailable: paramiko not installed")).

(** [build_executor(th.executor).exec(...)] of a host on the ssh branch, with
    the handler's answer to an exception: [(ok, detail)]. *)
Definition exec_degraded : Op (bool * string) :=
  try_catch ssh_exec (λ e, ret (false, match e with OtherError m => m | _ => "executor error" end)).

Definition run_exec (task : ExecTask.ExecTask) (th : ExecTaskHost.ExecTaskHost) (content : string)
    (host_count : Z) : Op (bool * string) :=
  gate ← _approval_gate task;
  skip ← match gate with
         | Some r => ret (Some r)
         | None => _sensitivity_gate task content host_count
         end;
  match skip with
  | Some reason =>
      _write_log th "warn" ("[executor:" +:+ ExecTaskHost.executor th +:+ "] skipped: " +:+ reason);;
      ret (false, reason)
  | None =>
      '(ok, detail) ← exec_degraded;
      _write_log th (if ok : bool then "info" else "error")
        ("[executor:" +:+ ExecTaskHost.executor th +:+ "] " +:+ detail);;
      ret (ok, detail)
  end.

(** ** Theorems *)

Definition approved_for (task : ExecTask.ExecTask) (s : St) : Prop :=
  ExecTask.approve_required task = 0 ∨
  ∃ aid a, ExecTask.approval_id task = Some aid ∧ aid ≠ 0 ∧ tbl (work s) !! aid = Some a ∧
    ApprovalRequest.status a = "approved".

Lemma approval_gate_open task s :
  approved_for task s → _approval_gate task s = (inr None, s).
Proof.
  unfold _approval_gate. intros [->|(aid & a & Ea & Hne & Ha & Hst)]; [done|].
  destruct (_ =? 0); [done|]. rewrite Ea. destruct (Z.eqb_spec aid 0) as [|_]; [done|].
  erewrite bind_inr by reflexivity. rewrite Ha. unfold ret. by rewrite bool_decide_eq_true_2.
Qed.

(** The orchestrator runs the sensitivity test again after the approval
    gate, so a task whose command is sensitive is skipped with a warning line in
    its log and counts as failed even when its approval was granted. *)
Theorem approved_sensitive_skipped task th content n reason s r s1 :
  approved_for task s →
  detect_sensitive (ExecTask.command task) (Some content) n s = (inr (true, reason), s) →
  run_exec task th content n s = (r, s1) →
  r = inl (IntegrityError "exec_log") ∨
  r = inr (false, "sensitive operation: " +:+ reason) ∧
  ∃ l, l ∈ rows (tbl (committed s1)) ∧ ExecLog.task_host_id l = ExecTaskHost.id th ∧
    ExecLog.level l = "warn" ∧
    ExecLog.content l = "[executor:" +:+ ExecTaskHost.executor th +:+ "] skipped: sensitive operation: " +:+ reason.
Proof.
  intros Happ Hsens Hrun. by_wp Hrun. unfold run_exec, _sensitivity_gate, _write_log, ExecLogRepository.max_seq,
    ExecLogRepository.append.
  wp_step. eapply wp_of_run; [by apply approval_gate_open|]. cbv beta iota. do 2 wp_step.
  eapply wp_of_run; [exact Hsens|]. cbv beta iota. wp_run; [right|by left].
  rows_simpl. split; [done|]. eexists. split; [apply elem_of_rows; eexists; apply lookup_insert_eq|]. by subst.
Qed.
End executors.

(** ** Witness *)

Definition reboot_task : ExecTask.ExecTask :=
  ExecTask.mk 9 "20260102-009" "restart" "command" None None (Some "sudo REBOOT now") JNull
    (Some [4]) "batch" 600 0 1 1 (Some 2) "running" (Some 7) None None 1 0.
Definition reboot_host : ExecTaskHost.ExecTaskHost :=
  ExecTaskHost.mk 1 9 4 "web" "10.0.0.4" "ssh" "running" None None None.
Definition reboot_st : St :=
  on_db (λ _, empty_db
    <| config_rules := {[1 := ConfigRule.mk 1 "exec_sensitive_word" (JObj [("words", JArr [JStr "reboot"])]) ""]} |>
    <| approval_requests := {[2 := ApprovalRequest.mk 2 "AP-2" "exec" 9 "" "" 7 "" "approved" "manual"
                               None None (Some 11) None 1 0]} |>
    <| exec_task_hosts := {[1 := reboot_host]} |>) init_st.
Lemma approved_sensitive_skipped_witness :
  ∃ s1, run_exec (λ _, "") true reboot_task reboot_host "sudo REBOOT now" 1 reboot_st =
    (inr (false, "sensitive operation: sensitive word: reboot"), s1) ∧
  ∃ l, l ∈ rows (tbl (committed s1)) ∧ ExecLog.level l = "warn".
Proof.
  destruct (run_exec (λ _, "") true reboot_task reboot_host "sudo REBOOT now" 1 reboot_st) as [r s1] eqn:E.
  assert (r = inr (false, "sensitive operation: sensitive word: reboot")) as Er.
  { vm_compute in E. by injection E as <- _. }
  destruct (approved_sensitive_skipped (λ _, "") true reboot_task reboot_host "sudo REBOOT now" 1
    "sensitive word: reboot" reboot_st r s1) as [H|[H (l & Hl & _ & Hw & _)]]; [| |exact E| |].
  - right. exists 2. eexists. split_and!; [reflexivity|done|vm_compute; reflexivity|reflexivity].
  - vm_compute. reflexivity.
  - congruence.
  - subst r. eauto.
Defined.
