(* ===== verification/Dispatch.v ===== *)
(** * Exec dispatch: [tasks/exec_tasks.py]

    The Celery tasks that run an exec task on its hosts, under the counting
    semaphores of [core/redis_helper.py], and the sweep that times tasks out. *)

From S2P Require Import Prelude.
From S2P Require Import Models.
From S2P Require Import Session.
From S2P Require Import Repositories.
From S2P Require Import Access.
From S2P Require Import Executors.

(** [settings.exec_global_concurrency], [settings.exec_host_concurrency] *)
Definition exec_global_concurrency : Z := 50.
Definition exec_host_concurrency : Z := 5.

Section dispatch.
Variable float_str : Q → string.
(** [str(x)] of a JSON list or object *)
Variable container_str : json → string.
Variable paramiko : bool.
(** [get_redis() is not None] *)
Variable redis_up : bool.
(** an agent with this id is connected to this process and its loop is alive *)
Variable agent_connected : string → bool.

(** ** Counting semaphores

    One caller at a time: the lock of [acquire_semaphore] is free. *)

Definition slot (key : string) (s : St) : Z := default 0 (slots s !! key).
Definition acquire_semaphore (key : string) (limit : Z) : Op bool := λ s,
  if negb redis_up then (inr true, s)
  else if slot key s <? limit then (inr true, s <| slots := <[key := slot key s + 1]> (slots s) |>)
  else (inr false, s).
Definition release_semaphore (key : string) : Op () := λ s,
  if negb redis_up then (inr (), s)
  else (inr (), s <| slots := <[key := slot key s - 1]> (slots s) |>).

Definition limit_of (rule : option ConfigRule.ConfigRule) (dflt : Z) : json :=
  match rule with
  | Some r => jget_or "limit" (JInt dflt) (ConfigRule.rule_value r)
  | None => JInt dflt
  end.
Definition _concurrency_limits : Op (Z * Z) :=
  g ← ConfigRuleRepository.by_key "exec_concurrency_limit";
  h ← ConfigRuleRepository.by_key "exec_host_concurrency";
  global_limit ← int_of (limit_of g exec_global_concurrency);
  host_limit ← int_of (limit_of h exec_host_concurrency);
  ret (global_limit, host_limit).

(** ** What to run *)

(** [s.replace(old, new)] for a non-empty [old]: left to right, without
    overlaps; [skip] characters of a match are still to be dropped. *)
Fixpoint str_replace_go (old new : string) (skip : nat) (s : string) : string :=
  match s with
  | EmptyString => ""
  | String c s' =>
      match skip with
      | S k => str_replace_go old new k s'
      | O => if starts_with old s
             then new +:+ str_replace_go old new (String.length old - 1) s'
             else String c (str_replace_go old new 0 s')
      end
  end.
Definition str_replace (old new s : string) : string := str_replace_go old new 0 s.

(** [str(x)] *)
Definition py_str (x : json) : string :=
  match x with
  | JNull => "None"
  | JBool b => if b then "True" else "False"
  | JInt z => pretty z
  | JFloat q => float_str q
  | JStr s => s
  | _ => container_str x
  end.

Definition _render_params (content : string) (params : json) : string :=
  if negb (truthy params) || negb (str_contains "{{" content) then content
  else match params with
       | JObj o => foldl (λ out kv, str_replace ("{{" +:+ kv.1 +:+ "}}") (py_str kv.2) out) content o
       | _ => content
       end.

Definition _resolve_content (task : ExecTask.ExecTask) : Op string :=
  content ←
    match bool_decide (ExecTask.kind task = "script") && z_truthy (ExecTask.script_id task),
          ExecTask.script_id task with
    | true, Some sid =>
        pinned ← match ExecTask.script_version task with
                 | Some v => ScriptVersionRepository.by_script_version sid v
                 | None => ret None
                 end;
        sv ← match pinned with
             | Some sv => ret (Some sv)
             | None =>
                 script ← db_get sid;
                 match script with
                 | Some sc => ScriptVersionRepository.by_script_version (Script.id sc) (Script.current_version sc)
                 | None => ret None
                 end
             end;
        ret (match sv with Some sv => ScriptVersion.content sv | None => "" end)
    | _, _ => ret (s_or (ExecTask.command task) "")
    end;
  ret (_render_params content (ExecTask.params task)).

(** ** One host *)

Definition is_running (h : ExecTaskHost.ExecTaskHost) : bool :=
  bool_decide (ExecTaskHost.status h = "running").
Definition is_pending (h : ExecTaskHost.ExecTaskHost) : bool :=
  bool_decide (ExecTaskHost.status h = "pending").

(** UPDATE ... WHERE id = ... AND status = 'running' *)
Definition finalize_host (th_id : Z) (status : string) (exit_code : Z) : Op () :=
  n ← utc_now;
  _ ← db_cas th_id is_running (λ h,
        h <| ExecTaskHost.status := status |> <| ExecTaskHost.exit_code := Some exit_code |>
          <| ExecTaskHost.finished_at := Some n |>);
  db_commit.

Definition str_or (s d : string) : string := if bool_decide (s = "") then d else s.
Fixpoint str_take (n : nat) (s : string) : string :=
  match n, s with
  | S n, String c s => String c (str_take n s)
  | _, _ => ""
  end.

Definition mock_lines (task : ExecTask.ExecTask) (th : ExecTaskHost.ExecTaskHost) (content : string)
    : list (Z * string * string) := [
  (1, "info", "[mock-agent] task " +:+ ExecTask.task_no task +:+ " started on " +:+ ExecTaskHost.hostname th);
  (2, "info", "[mock-agent] execute: " +:+ str_or (str_take 200 content) "(script)");
  (3, "info", "[mock-agent] exit code 0")].

Definition _execute_via_mock (task : ExecTask.ExecTask) (th : ExecTaskHost.ExecTaskHost)
    (content : string) : Op () :=
  for_each (mock_lines task th content) (λ l,
    ExecLogRepository.append (ExecTaskHost.id th) l.1.1 l.1.2 l.2;; db_commit);;
  finalize_host (ExecTaskHost.id th) "success" 0.

Definition _run_ssh_executor (task : ExecTask.ExecTask) (th : ExecTaskHost.ExecTaskHost)
    (content : string) (host_count : Z) : Op () :=
  '(ok, _) ← run_exec float_str paramiko task th content host_count;
  finalize_host (ExecTaskHost.id th) (if ok : bool then "success" else "failed") (if ok then 0 else 1).

Definition exec_frame (task : ExecTask.ExecTask) (th : ExecTaskHost.ExecTaskHost) (content : string) : json :=
  JObj [("type", JStr "exec"); ("data", JObj [
    ("task_host_id", JInt (ExecTaskHost.id th)); ("task_no", JStr (ExecTask.task_no task));
    ("kind", JStr (ExecTask.kind task)); ("command", JStr content); ("params", ExecTask.params task);
    ("timeout_sec", JInt (ExecTask.timeout_sec task))])].

(** [agent_ws.dispatch_to_agent_sync] *)
Definition dispatch_to_agent_sync (agent_id : string) (frame : json) : Op bool :=
  if agent_connected agent_id then emit_out (EAgentFrame agent_id frame);; ret true else ret false.

Definition _dispatch_exec_frame (task : ExecTask.ExecTask) (th : ExecTaskHost.ExecTaskHost)
    (content : string) : Op bool :=
  if negb (bool_decide (ExecTaskHost.executor th = "agent")) then ret false else
  host ← if ExecTaskHost.host_id th =? 0 then ret None else db_get (ExecTaskHost.host_id th);
  match host ≫= Host.agent_id with
  | Some a => if bool_decide (a = "") then ret false
              else dispatch_to_agent_sync a (exec_frame task th content)
  | None => ret false
  end.

(** [exec_ws.broadcast_sync] *)
Definition broadcast_sync (th_id : Z) (data : json) : Op () :=
  emit_out (EBroadcast "exec" th_id (JObj [("type", JStr "status"); ("data", data)])).
Definition host_status (h : option ExecTaskHost.ExecTaskHost) : json :=
  match h with
  | Some h => JObj [("status", JStr (ExecTaskHost.status h)); ("exit_code", jz (ExecTaskHost.exit_code h))]
  | None => JNull
  end.
(** [db.refresh(th)] and the status frame. *)
Definition broadcast_refreshed (th_id : Z) : Op () :=
  h ← db_get th_id; broadcast_sync th_id (host_status h).

(** [try: m finally: fin] *)
Definition finally {A} (m : Op A) (fin : Op ()) : Op A := λ s,
  match m s with
  | (r, s1) => match fin s1 with
               | (inr _, s2) => (r, s2)
               | (inl e, s2) => (inl e, s2)
               end
  end.

Definition run_host_body (task : ExecTask.ExecTask) (content : string) (host_count : Z)
    (th : ExecTaskHost.ExecTaskHost) : Op () :=
  if bool_decide (ExecTaskHost.executor th = "ssh") then
    _run_ssh_executor task th content host_count;;
    broadcast_refreshed (ExecTaskHost.id th)
  else
    sent ← _dispatch_exec_frame task th content;
    broadcast_sync (ExecTaskHost.id th) (JObj [("status", JStr "running")]);;
    when (negb sent)
      (_execute_via_mock task th content;; broadcast_refreshed (ExecTaskHost.id th)).

Definition release_host (host_id : Z) : Op () :=
  release_semaphore ("exec:host:" +:+ pretty host_id);;
  release_semaphore "exec:global".

Definition run_host (task : ExecTask.ExecTask) (content : string) (host_count : Z) (th_id : Z) : Op () :=
  o ← db_get th_id;
  match o with
  | Some th => finally (run_host_body task content host_count th) (release_host (ExecTaskHost.host_id th))
  | None => ret ()
  end.

(** ** Starting hosts

    The ids of the hosts started, until a limit is reached; a failing commit
    gives both permits back, rolls back and ends the loop. *)

Definition mark_running (th_id : Z) : Op () :=
  n ← utc_now;
  db_upd th_id (λ h, h <| ExecTaskHost.status := "running" |> <| ExecTaskHost.started_at := Some n |>);;
  db_commit.

Fixpoint start_hosts (global_limit host_limit : Z) (hosts : list ExecTaskHost.ExecTaskHost) : Op (list Z) :=
  match hosts with
  | [] => ret []
  | th :: hosts =>
      if negb (is_pending th) then start_hosts global_limit host_limit hosts else
      g ← acquire_semaphore "exec:global" global_limit;
      if negb g then ret [] else
      h ← acquire_semaphore ("exec:host:" +:+ pretty (ExecTaskHost.host_id th)) host_limit;
      if negb h then release_semaphore "exec:global";; ret [] else
      ok ← try_catch (mark_running (ExecTaskHost.id th);; ret true)
             (λ _, release_host (ExecTaskHost.host_id th);; db_rollback;; ret false);
      if negb ok then ret [] else
      rest ← start_hosts global_limit host_limit hosts;
      ret (ExecTaskHost.id th :: rest)
  end.

(** ** The task's verdict *)

Definition count_of (stats : gmap string Z) (k : string) : Z := default 0 (stats !! k).
Definition stats_total (stats : gmap string Z) : Z := map_fold (λ _ n acc, n + acc) 0 stats.
Definition aggregate (stats : gmap string Z) : string :=
  let success := count_of stats "success" in
  let failed := count_of stats "failed" in
  let timed := count_of stats "timed_out" in
  let total := stats_total stats in
  if (failed =? 0) && (timed =? 0) && (0 <? total) && (success =? total) then "success"
  else if (failed =? 0) && (timed =? 0) && (0 <? success) then "partial"
  else "failed".

Definition finish_task (task_id : Z) : Op json :=
  o ← db_get task_id;
  match o with
  | None => ret (JObj [("ok", JBool true); ("task_id", JInt task_id); ("status", JNull)])
  | Some task =>
      if negb (bool_decide (ExecTask.status task = "running"))
      then ret (JObj [("ok", JBool true); ("task_id", JInt task_id); ("status", JStr (ExecTask.status task))])
      else
        stats ← ExecTaskHostRepository.stats task_id;
        if 0 <? count_of stats "running" + count_of stats "pending" then
          when (negb (count_of stats "pending" =? 0) && redis_up)
            (emit_out (EDelay "exec_dispatch" task_id));;
          ret (JObj [("ok", JBool true); ("task_id", JInt task_id); ("status", JStr (ExecTask.status task))])
        else
          let new_status := aggregate stats in
          won ← ExecTaskRepository.optimistic_update task_id "running" new_status (ExecTask.version task);
          if negb won then
            db_rollback;;
            ret (JObj [("ok", JBool true); ("task_id", JInt task_id); ("status", JStr "state-changed")])
          else
            n ← utc_now;
            db_upd task_id (λ t, t <| ExecTask.version := ExecTask.version task + 1 |>
              <| ExecTask.status := new_status |> <| ExecTask.finished_at := Some n |>);;
            db_commit;;
            ret (JObj [("ok", JBool true); ("task_id", JInt task_id); ("status", JStr new_status)])
  end.

(** Runs in a database session of its own, in a worker or in the caller's
    process. *)
Definition exec_dispatch (task_id : Z) : Op json := run_request (
  o ← db_get task_id;
  match o with
  | None => ret (JObj [("ok", JBool false); ("reason", JStr "task not in running state")])
  | Some task =>
      if negb (bool_decide (ExecTask.status task = "running"))
      then ret (JObj [("ok", JBool false); ("reason", JStr "task not in running state")])
      else
        '(global_limit, host_limit) ← _concurrency_limits;
        hosts ← ExecTaskHostRepository.by_task task_id;
        content ← _resolve_content task;
        started ← start_hosts global_limit host_limit hosts;
        match started with
        | [] => ret (JObj [("ok", JBool false); ("reason", JStr "concurrency limit")])
        | _ =>
            for_each started (run_host task content (Z.of_nat (length hosts)));;
            finish_task task_id
        end
  end).

(** ** The timeout sweep *)

Definition task_overdue (n : Z) (t : ExecTask.ExecTask) : bool :=
  ExecTask.timeout_sec t * 1000000 <? n - default (ExecTask.created_at t) (ExecTask.started_at t).

Definition time_out_hosts (task_id n : Z) : Op () :=
  hosts ← ExecTaskHostRepository.by_task task_id;
  for_each hosts (λ th,
    when (is_pending th || is_running th)
      (ExecTaskHostRepository.update_status (ExecTaskHost.id th) "timed_out"
         (λ h, h <| ExecTaskHost.finished_at := Some n |>))).

Definition time_out_task (n scanned : Z) (t : ExecTask.ExecTask) : Op Z :=
  if negb (task_overdue n t) then ret scanned else
  won ← ExecTaskRepository.optimistic_update (ExecTask.id t) (ExecTask.status t) "timed_out" (ExecTask.version t);
  if negb won then ret scanned else
  db_upd (ExecTask.id t) (λ r, r <| ExecTask.version := ExecTask.version t + 1 |>
                                 <| ExecTask.finished_at := Some n |>);;
  time_out_hosts (ExecTask.id t) n;;
  ret (scanned + 1).

Definition scan_timeouts : Op Z := run_request (
  rows ← db_select (λ t, bool_decide (ExecTask.status t = "running"));
  n ← utc_now;
  scanned ← fold_each rows 0 (time_out_task n);
  db_commit;;
  ret scanned).

(** ** Permits *)

(** The permits held for hosts [hs] under [key]. *)
Definition permits (hs : list ExecTaskHost.ExecTaskHost) (key : string) : Z :=
  if redis_up then
    foldr (λ h n, n + (if bool_decide (key = "exec:host:" +:+ pretty (ExecTaskHost.host_id h)) then 1 else 0)
                    + (if bool_decide (key = "exec:global") then 1 else 0)) 0 hs
  else 0.

Lemma slot_set k v k' s :
  slot k' (s <| slots := <[k := v]> (slots s) |>) = if bool_decide (k' = k) then v else slot k' s.
Proof.
  unfold slot. cbn. case_bool_decide as E; [subst; by rewrite lookup_insert_eq|].
  by rewrite lookup_insert_ne by congruence.
Qed.

Lemma wp_acquire key limit (Q : exn + bool → St → Prop) s :
  (∀ s1, work s1 = work s → committed s1 = committed s → now s1 = now s →
     (∀ k, slot k s1 = slot k s + (if redis_up then if bool_decide (k = key) then 1 else 0 else 0)) →
     (redis_up = true → slot key s < limit) → Q (inr true) s1) →
  (redis_up = true → limit ≤ slot key s → Q (inr false) s) →
  wp (acquire_semaphore key limit) Q s.
Proof.
  intros Ht Hf. unfold wp, acquire_semaphore in *. destruct redis_up; cbn [negb].
  - destruct (Z.ltb_spec (slot key s) limit); [|by apply Hf]. cbn [fst snd].
    apply Ht; try done. intros k. rewrite slot_set. repeat case_bool_decide; subst; (lia || done).
  - apply Ht; try done. intros. cbn. lia.
Qed.

Lemma wp_release key (Q : exn + () → St → Prop) s :
  (∀ s1, work s1 = work s → committed s1 = committed s → now s1 = now s →
     (∀ k, slot k s1 = slot k s - (if redis_up then if bool_decide (k = key) then 1 else 0 else 0)) →
     Q (inr ()) s1) →
  wp (release_semaphore key) Q s.
Proof.
  intros Ht. unfold wp, release_semaphore in *. destruct redis_up; cbn [negb fst snd].
  - apply Ht; try done. intros k. rewrite slot_set. repeat case_bool_decide; subst; (lia || done).
  - apply Ht; try done. intros. cbn. lia.
Qed.

Lemma wp_release_host hid (Q : exn + () → St → Prop) s :
  (∀ s1 h, work s1 = work s → committed s1 = committed s → now s1 = now s →
     ExecTaskHost.host_id h = hid → (∀ k, slot k s1 = slot k s - permits [h] k) → Q (inr ()) s1) →
  wp (release_host hid) Q s.
Proof.
  intros Ht. unfold release_host. wp_step. apply wp_release. intros s1 E1 E2 E3 E4.
  apply wp_release. intros s2 F1 F2 F3 F4.
  apply (Ht s2 (ExecTaskHost.mk 0 0 hid "" "" "" "" None None None)); try congruence; [done|].
  intros k. rewrite F4, E4. unfold permits. cbn. destruct redis_up; lia.
Qed.

Lemma permits_cons h hs k : permits (h :: hs) k = permits [h] k + permits hs k.
Proof. unfold permits. destruct redis_up; cbn; lia. Qed.

(** ** Host rows *)

Definition same_host (h h' : ExecTaskHost.ExecTaskHost) : Prop :=
  ExecTaskHost.id h' = ExecTaskHost.id h ∧ ExecTaskHost.exec_task_id h' = ExecTaskHost.exec_task_id h ∧
  ExecTaskHost.host_id h' = ExecTaskHost.host_id h ∧ ExecTaskHost.executor h' = ExecTaskHost.executor h.

(** Only the rows [ids] changed, and only by running or having run. *)
Definition touched (ids : list Z) (m m' : gmap Z ExecTaskHost.ExecTaskHost) : Prop :=
  (∀ i, i ∉ ids → m' !! i = m !! i) ∧
  (∀ i h, m !! i = Some h → ∃ h', m' !! i = Some h' ∧ same_host h h' ∧
     (h' = h ∨ ExecTaskHost.status h' ∈ ["running"; "success"; "failed"])).

Lemma same_host_trans h h1 h2 : same_host h h1 → same_host h1 h2 → same_host h h2.
Proof. unfold same_host. intros (?&?&?&?) (?&?&?&?). split_and!; congruence. Qed.
Lemma touched_refl ids m : touched ids m m.
Proof. split; [done|]. intros i h Hi. exists h. split_and!; auto. by split_and!. Qed.
Lemma touched_trans ids m m1 m2 : touched ids m m1 → touched ids m1 m2 → touched ids m m2.
Proof.
  intros [N1 T1] [N2 T2]. split.
  - intros i Hi. by rewrite N2, N1.
  - intros i h Hi. destruct (T1 i h Hi) as (h1 & Hi1 & S1 & H1). destruct (T2 i h1 Hi1) as (h2 & Hi2 & S2 & H2).
    exists h2. split; [done|]. split; [by eapply same_host_trans|].
    destruct H2 as [->|]; [done|by right].
Qed.
Lemma touched_mono ids ids' m m' : (∀ i, i ∈ ids → i ∈ ids') → touched ids m m' → touched ids' m m'.
Proof. intros Hs [N T]. split; [|done]. intros i Hi. apply N. auto. Qed.
Lemma touched_upd ids m i h h' :
  i ∈ ids → m !! i = Some h → same_host h h' → ExecTaskHost.status h' ∈ ["running"; "success"; "failed"] →
  touched ids m (<[i := h']> m).
Proof.
  intros Hin Hi Hs Hst. split.
  - intros j Hj. rewrite lookup_insert_ne; [done|]. by intros ->.
  - intros j x Hj. destruct (decide (i = j)) as [<-|Hne].
    + rewrite lookup_insert_eq. simplify_eq. eauto.
    + rewrite lookup_insert_ne by done. exists x. split_and!; auto. by split_and!.
Qed.

Lemma wp_mark_running i (Q : exn + () → St → Prop) s :
  (∀ s1, work s1 = committed s1 → slots s1 = slots s →
     touched [i] (tbl (work s)) (tbl (work s1)) → Q (inr ()) s1) →
  wp (mark_running i) Q s.
Proof.
  intros HQ. unfold mark_running. wp_run; apply HQ; try done; rows_simpl; [|apply touched_refl].
  eapply touched_upd; [by apply list_elem_of_singleton|done|by split_and!|by str_mem].
Qed.

Lemma wp_start_hosts g hl hosts (Q : exn + list Z → St → Prop) s :
  work s = committed s →
  (∀ started s1, (∀ h, h ∈ started → h ∈ hosts ∧ is_pending h = true) →
     work s1 = committed s1 →
     touched (ExecTaskHost.id <$> started) (tbl (work s)) (tbl (work s1)) →
     (∀ k, slot k s1 = slot k s + permits started k) →
     Q (inr (ExecTaskHost.id <$> started)) s1) →
  wp (start_hosts g hl hosts) Q s.
Proof.
  revert Q s. induction hosts as [|th hosts IH]; intros Q s Hc HQ; cbn [start_hosts].
  - apply wp_ret. apply (HQ []); [|done|apply touched_refl|].
    + intros h Hh. by apply elem_of_nil in Hh.
    + intros k. unfold permits. destruct redis_up; cbn; lia.
  - assert (∀ s1, work s1 = work s → committed s1 = committed s → (∀ k, slot k s1 = slot k s) → Q (inr []) s1)
      as Hnone.
    { intros s1 E1 E2 E3. apply (HQ []); [|congruence| |].
      - intros h Hh. by apply elem_of_nil in Hh.
      - rewrite E1. apply touched_refl.
      - intros k. rewrite E3. unfold permits. destruct redis_up; cbn; lia. }
    destruct (is_pending th) eqn:Hp; cbn [negb].
    2: { apply IH; [done|]. intros started s1 Hin. apply HQ. intros h Hh.
         destruct (Hin h Hh). split; [by apply elem_of_cons; right|done]. }
    wp_step. apply wp_acquire; [|intros _ _; cbn; apply wp_ret; by apply Hnone].
    intros s1 W1 C1 N1 K1 _. cbn [negb]. wp_step. apply wp_acquire.
    2: { intros _ _. cbn. wp_step. apply wp_release. intros s2 W2 C2 N2 K2. apply wp_ret.
         apply Hnone; [congruence..|]. intros k. rewrite K2, K1. lia. }
    intros s2 W2 C2 N2 K2 _. cbn [negb]. wp_step. wp_step. wp_step. apply wp_mark_running.
    intros s3 W3 S3 T3. apply wp_ret. cbv beta iota. cbn [negb]. wp_step. apply IH; [done|].
    intros started s4 Hin W4 T4 K4. apply wp_ret.
    apply (HQ (th :: started)).
    + intros h [->|Hh]%elem_of_cons; [split; [apply elem_of_cons; by left|done]|].
      destruct (Hin h Hh). split; [by apply elem_of_cons; right|done].
    + done.
    + rewrite W2, W1 in T3. eapply touched_trans; eapply touched_mono; [|exact T3| |exact T4].
      * intros j ->%list_elem_of_singleton. rewrite fmap_cons. apply elem_of_cons. by left.
      * intros j Hj. rewrite fmap_cons. apply elem_of_cons. by right.
    + intros k. rewrite K4, permits_cons. unfold slot in *. rewrite S3, K2, K1.
      unfold permits at 2. cbn. destruct redis_up; lia.
Qed.

(** ** Running the hosts *)

Lemma preserves_sensitive_rules I : preserves I _sensitive_rules.
Proof. unfold _sensitive_rules, rule_field. preserves_auto. Qed.
Lemma preserves_hit_words I text words : preserves I (hit_words text words).
Proof. induction words as [|w words IH]; cbn [hit_words]; unfold word_hits; preserves_auto. Qed.
Lemma preserves_detect_sensitive I c sc n : preserves I (detect_sensitive float_str c sc n).
Proof.
  unfold detect_sensitive. apply preserves_bind; [apply preserves_sensitive_rules|]. intros rules. cbv zeta.
  apply preserves_bind; [unfold iter_of; preserves_auto|]. intros words.
  apply preserves_bind; [apply preserves_hit_words|]. intros hits.
  unfold over_threshold. preserves_auto.
Qed.
#[local] Hint Resolve preserves_detect_sensitive : preserves.

(** What running a host preserves, from its writes. *)
Lemma run_host_body_preserves (I : St → Prop) task content n th :
  (∀ i k l c, preserves I (ExecLogRepository.append i k l c)) → preserves I db_commit →
  (∀ e, preserves I (emit_out e)) →
  (∀ st code, st ∈ ["success"; "failed"] → preserves I (finalize_host (ExecTaskHost.id th) st code)) →
  preserves I (run_host_body task content n th).
Proof.
  intros Ha Hc He Hf. unfold run_host_body, _run_ssh_executor, broadcast_refreshed, broadcast_sync,
    _dispatch_exec_frame, dispatch_to_agent_sync, _execute_via_mock, run_exec, _approval_gate,
    _sensitivity_gate, _write_log, exec_degraded, ssh_exec, ExecLogRepository.max_seq.
  preserves_auto.
  all: apply Hf; try (by str_mem); repeat case_match; by str_mem.
Qed.

Section run.
Context (ids : list Z) (m : gmap Z ExecTaskHost.ExecTaskHost).
#[local] Abbreviation J := (both (touched ids m)).

Lemma run_host_body_touched task content n th :
  ExecTaskHost.id th ∈ ids → preserves J (run_host_body task content n th).
Proof.
  intros Hin. apply run_host_body_preserves; [|apply both_commit|apply both_emit_out|].
  { intros. unfold ExecLogRepository.append. preserves_auto. }
  intros st code Hst. unfold finalize_host. apply preserves_bind; [apply preserves_utc_now|]. intros now.
  apply preserves_bind; [|intros; apply both_commit].
  apply preserves_db_cas. intros s h [Hw Hc] Hi _. split; [|done]. rewrite tbl_put_row.
  eapply touched_trans; [exact Hw|]. eapply touched_upd; [done|done|by split_and!|].
  cbn. rewrite elem_of_cons. by right.
Qed.

Lemma run_host_body_slots sl task content n th : preserves (slots_are sl) (run_host_body task content n th).
Proof.
  apply run_host_body_preserves; [|apply slots_commit|apply slots_emit|].
  - intros. unfold ExecLogRepository.append. preserves_auto.
  - intros. unfold finalize_host. preserves_auto.
Qed.

Lemma wp_run_host task content n h (Q : exn + () → St → Prop) s :
  ExecTaskHost.id h ∈ ids → m !! ExecTaskHost.id h = Some h → J s →
  (∀ r s1, J s1 → (∀ k, slot k s1 = slot k s - permits [h] k) → Q r s1) →
  wp (run_host task content n (ExecTaskHost.id h)) Q s.
Proof.
  intros Hin Hm Hs HQ. unfold run_host. wp_step. wp_step.
  destruct Hs as [[N T] Hc] eqn:E. destruct (T _ _ Hm) as (th & -> & (Hid & _ & Hhid & _) & _). clear E.
  assert (J s) as HJ by (split; [by split|done]).
  unfold wp, finally.
  pose proof (run_host_body_touched task content n th ltac:(by rewrite Hid) s HJ) as HJ1.
  pose proof (run_host_body_slots (slots s) task content n th s eq_refl) as Hsl.
  destruct (run_host_body task content n th s) as [r s1]. cbn [snd] in *.
  pose proof (wp_release_host (ExecTaskHost.host_id th) (λ r2 s2, r2 = inr () ∧ J s2 ∧
    ∀ k, slot k s2 = slot k s1 - permits [h] k) s1) as Hrel.
  unfold wp in Hrel. destruct Hrel as (Er & HJ2 & K2).
  { intros s2 h2 W2 C2 _ Hh K2. split; [done|]. split; [|intros k; rewrite K2; unfold permits; cbn; by rewrite Hh, Hhid].
    unfold both. by rewrite W2, C2. }
  destruct (release_host _ s1) as [r2 s2]. cbn [fst snd] in *. subst r2. apply HQ; [done|].
  intros k. rewrite K2. unfold slot. by rewrite Hsl.
Qed.

Lemma wp_run_hosts task content n hs (Q : exn + () → St → Prop) s :
  (∀ h, h ∈ hs → ExecTaskHost.id h ∈ ids ∧ m !! ExecTaskHost.id h = Some h) → J s →
  (∀ r s1 leaked, J s1 → leaked `suffix_of` hs → (r = inr () → leaked = []) →
     (∀ k, slot k s1 = slot k s - permits hs k + permits leaked k) → Q r s1) →
  wp (for_each (ExecTaskHost.id <$> hs) (run_host task content n)) Q s.
Proof.
  revert Q s. induction hs as [|h hs IH]; intros Q s Hin HJ HQ; cbn [fmap list_fmap for_each].
  - apply wp_ret. apply (HQ _ _ []); [done..|]. intros k. lia.
  - destruct (Hin h) as [Hi Hm]; [apply elem_of_cons; by left|].
    wp_step. apply wp_run_host; [done..|]. intros [e|[]] s1 HJ1 K1.
    + apply (HQ _ _ hs); [done|by exists [h]|done|].
      intros k. rewrite K1, (permits_cons h hs). lia.
    + apply IH; [intros h' Hh'; apply Hin, elem_of_cons; by right|done|].
      intros r s2 leaked HJ2 [pre ->] Hr K2. apply (HQ _ _ leaked); [done|by exists (h :: pre)|done|].
      intros k. rewrite K2, K1, (permits_cons h (pre ++ leaked)). lia.
Qed.
End run.

(** What a dispatch does to host rows and permits: the hosts [started] were
    pending rows of the task, only they moved, and the permits of [leaked] are
    still taken. *)
Definition dispatch_outcome {A} (task_id : Z) (s : St) (r : exn + A) (s1 : St) : Prop :=
  ∃ started leaked,
    (∀ h, h ∈ started → tbl (work s) !! ExecTaskHost.id h = Some h ∧
       ExecTaskHost.exec_task_id h = task_id ∧ ExecTaskHost.status h = "pending") ∧
    touched (ExecTaskHost.id <$> started) (tbl (work s)) (tbl (committed s1)) ∧
    leaked `suffix_of` started ∧ (∀ x, r = inr x → leaked = []) ∧
    ∀ k, slot k s1 = slot k s + permits leaked k.

Lemma outcome_none {A} task_id s (r : exn + A) s1 :
  committed s1 = work s → slots s1 = slots s → dispatch_outcome task_id s r s1.
Proof.
  intros E1 E2. exists [], []. split_and!; [|rewrite E1; apply touched_refl|done|done|].
  - intros h Hh. by apply elem_of_nil in Hh.
  - intros k. unfold slot, permits. rewrite E2. destruct redis_up; cbn; lia.
Qed.

Lemma preserves_limits I : preserves I _concurrency_limits.
Proof.
  unfold _concurrency_limits, int_of. preserves_auto.
Qed.
Lemma preserves_content I task : preserves I (_resolve_content task).
Proof. unfold _resolve_content, ScriptVersionRepository.by_script_version. preserves_auto. Qed.

Lemma finish_preserves (I : St → Prop) task_id :
  preserves I db_commit → preserves I db_rollback → (∀ e, preserves I (emit_out e)) →
  (∀ i p f, preserves I (db_cas (R:=ExecTask.ExecTask) i p f)) →
  (∀ i f, preserves I (db_upd (R:=ExecTask.ExecTask) i f)) → preserves I (finish_task task_id).
Proof.
  intros Hc Hr He Hcas Hu. unfold finish_task, ExecTaskHostRepository.stats,
    ExecTaskHostRepository.by_task, ExecTaskRepository.optimistic_update. preserves_auto.
Qed.

(** ** The timeout sweep, set at a time *)

Definition overdue_running (n : Z) (t : ExecTask.ExecTask) : bool :=
  bool_decide (ExecTask.status t = "running") && task_overdue n t.
Definition swept_task (n : Z) (t : ExecTask.ExecTask) : ExecTask.ExecTask :=
  if overdue_running n t
  then t <| ExecTask.status := "timed_out" |> <| ExecTask.version := ExecTask.version t + 1 |>
         <| ExecTask.finished_at := Some n |>
  else t.
Definition timed_out_host (n : Z) (h : ExecTaskHost.ExecTaskHost) : ExecTaskHost.ExecTaskHost :=
  if is_pending h || is_running h
  then h <| ExecTaskHost.status := "timed_out" |> <| ExecTaskHost.finished_at := Some n |>
  else h.
(** The task of [h] is one of [ts]. *)
Definition host_of (ts : gmap Z ExecTask.ExecTask) (n : Z) (h : ExecTaskHost.ExecTaskHost) : bool :=
  match ts !! ExecTaskHost.exec_task_id h with Some t => overdue_running n t | None => false end.
Definition swept_db (n : Z) (d : Db) : Db :=
  set_tbl ((λ h, if host_of (tbl d) n h then timed_out_host n h else h) <$> tbl d)
    (set_tbl (swept_task n <$> tbl d) d).

Lemma time_out_hosts_run i n s hi :
  wf_rows (R:=ExecTaskHost.ExecTaskHost) (tbl (work s)) hi →
  time_out_hosts i n s =
    (inr (), s <| work := set_tbl ((λ h, if ExecTaskHostRepository.of_task i h then timed_out_host n h else h)
                                     <$> tbl (work s)) (work s) |>).
Proof.
  intros Hwf. unfold time_out_hosts, ExecTaskHostRepository.by_task.
  erewrite bind_inr by reflexivity.
  apply (for_each_selected_put _ (timed_out_host n) _ s hi Hwf). intros h s1 _ Hh _.
  unfold timed_out_host, ExecTaskHostRepository.update_status, when.
  destruct (_ || _); [|by rewrite put_row_id].
  unfold db_upd, modify. change (row_id h) with (ExecTaskHost.id h) in *. by rewrite Hh.
Qed.

(** The rows of the tasks in [l] are swept, the others still to come. *)
Definition swept_by (n : Z) (l : list ExecTask.ExecTask) (d : Db) : Db :=
  set_tbl ((λ h, if existsb (λ t, (ExecTask.id t =? ExecTaskHost.exec_task_id h) && task_overdue n t) l
                 then timed_out_host n h else h) <$> tbl d)
    (set_tbl ((λ t, if bool_decide (ExecTask.id t ∈ ExecTask.id <$> l) then swept_task n t else t)
                <$> tbl d) d).

Lemma keeps_timed_out n (p : ExecTaskHost.ExecTaskHost → bool) :
  keeps_keys (λ h, if p h then timed_out_host n h else h).
Proof. intros h. unfold timed_out_host. repeat case_match; split_and!; reflexivity. Qed.

Section sweep.
Context (s : St) (hi hj : Z).
Hypothesis wf_t : wf_rows (R:=ExecTask.ExecTask) (tbl (work s)) hi.
Hypothesis wf_h : wf_rows (R:=ExecTaskHost.ExecTaskHost) (tbl (work s)) hj.
#[local] Abbreviation n := (now s).

Lemma swept_by_skip l t :
  tbl (work s) !! ExecTask.id t = Some t → task_overdue n t = false →
  swept_by n (l ++ [t]) (work s) = swept_by n l (work s).
Proof.
  intros Ht Ho. unfold swept_by. f_equal; [|f_equal].
  - apply map_fmap_ext. intros i h _. rewrite existsb_app. cbn. by rewrite Ho, andb_false_r, !orb_false_r.
  - apply map_fmap_ext. intros i r Hi. rewrite fmap_app.
    destruct (decide (ExecTask.id r ∈ ExecTask.id <$> l)) as [Hin|Hni].
    + rewrite !bool_decide_eq_true_2; [done..|]. apply elem_of_app. by left.
    + rewrite (bool_decide_eq_false_2 _ Hni). case_bool_decide as Hin; [|done].
      apply elem_of_app in Hin as [?|Hr%list_elem_of_singleton]; [done|].
      pose proof (wf_id wf_t i r Hi) as E. change (ExecTask.id r = i) in E.
      assert (r = t) as -> by congruence. unfold swept_task, overdue_running. by rewrite Ho, andb_false_r.
Qed.

Lemma swept_by_app l t :
  tbl (work s) !! ExecTask.id t = Some t → task_overdue n t = true → ExecTask.status t = "running" →
  let d := swept_by n l (work s) in
  set_tbl ((λ h, if ExecTaskHostRepository.of_task (ExecTask.id t) h then timed_out_host n h else h) <$> tbl d)
    (set_tbl (<[ExecTask.id t := swept_task n t]> (tbl d)) d) = swept_by n (l ++ [t]) (work s).
Proof.
  intros Ht Ho Hst d.
  assert (∀ (h1 h0 : gmap Z ExecTaskHost.ExecTaskHost) (t1 t0 : gmap Z ExecTask.ExecTask) d0,
    set_tbl h1 (set_tbl t1 (set_tbl h0 (set_tbl t0 d0))) = set_tbl h1 (set_tbl t1 d0)) as Hset by reflexivity.
  subst d. unfold swept_by. rewrite Hset.
  rewrite (tbl_set_ne (R:=ExecTask.ExecTask) (R':=ExecTaskHost.ExecTaskHost)), !tbl_set_tbl.
  f_equal; [|f_equal].
  - rewrite <-map_fmap_compose. apply map_fmap_ext. intros i h _. unfold compose, ExecTaskHostRepository.of_task.
    rewrite existsb_app. cbn. rewrite Ho, andb_true_r, orb_false_r, (Z.eqb_sym (ExecTask.id t)).
    destruct (existsb _ l); cbn [orb]; [|done].
    unfold timed_out_host, is_pending, is_running. repeat case_match; done.
  - apply map_eq. intros i. rewrite lookup_fmap. destruct (decide (i = ExecTask.id t)) as [->|Hne].
    + rewrite lookup_insert_eq, Ht. cbn. rewrite bool_decide_eq_true_2; [done|].
      rewrite fmap_app. apply elem_of_app. right. by apply list_elem_of_singleton.
    + rewrite lookup_insert_ne, lookup_fmap by done.
      destruct (tbl (work s) !! i) as [r|] eqn:Hi; [|done]. cbn. do 2 f_equal.
      pose proof (wf_id wf_t i r Hi) as E. change (ExecTask.id r = i) in E.
      assert (ExecTask.id r ∈ (ExecTask.id <$> l ++ [t]) ↔ ExecTask.id r ∈ ExecTask.id <$> l) as Hiff.
      { rewrite fmap_app, elem_of_app. cbn. rewrite list_elem_of_singleton. split; [intros [?|?]; [done|congruence]|by left]. }
      by rewrite (bool_decide_ext _ _ Hiff).
Qed.

Lemma swept_by_step l t c :
  tbl (work s) !! ExecTask.id t = Some t → ExecTask.id t ∉ ExecTask.id <$> l →
  ExecTask.status t = "running" → task_overdue n t = true →
  time_out_task n c t (s <| work := swept_by n l (work s) |>) =
    (inr (c + 1), s <| work := swept_by n (l ++ [t]) (work s) |>).
Proof.
  intros Ht Hni Hst Ho. unfold time_out_task, ExecTaskRepository.optimistic_update. rewrite Ho. cbn [negb].
  assert (tbl (swept_by n l (work s)) !! ExecTask.id t = Some t) as Hl.
  { unfold swept_by. rewrite tbl_set_ne, tbl_set_tbl, lookup_fmap, Ht. cbn.
    by rewrite bool_decide_eq_false_2. }
  erewrite bind_inr.
  2: { unfold db_cas. change (work (s <| work := ?d |>)) with d. rewrite Hl.
       rewrite (bool_decide_eq_true_2 _ eq_refl), Z.eqb_refl. reflexivity. }
  cbn [negb]. erewrite bind_inr.
  2: { unfold db_upd, modify. rewrite tbl_put_row, lookup_insert_eq, put_row_twice. reflexivity. }
  erewrite bind_inr.
  2: { eapply time_out_hosts_run. rewrite tbl_put_row_ne. change (work (s <| work := ?d |>)) with d.
       unfold swept_by. rewrite tbl_set_tbl. apply wf_rows_fmap; [apply keeps_timed_out|exact wf_h]. }
  unfold ret. f_equal. rewrite <-(swept_by_app l t) by done.
  unfold swept_task, overdue_running. rewrite Hst, Ho. by destruct s.
Qed.

Lemma swept_by_all :
  swept_by n (select_rows (λ t, bool_decide (ExecTask.status t = "running")) (tbl (work s))) (work s) =
  swept_db n (work s).
Proof.
  unfold swept_by, swept_db. f_equal; [|f_equal].
  - apply map_fmap_ext. intros i h _. unfold host_of.
    match goal with |- (if ?b1 then _ else _) = (if ?b2 then _ else _) =>
      enough (b1 = true ↔ b2 = true) as ->%eq_true_iff_eq by done end.
    rewrite existsb_exists. split.
    + intros (t & Hin%list_elem_of_In & Ht). apply andb_true_iff in Ht as [Hid Ho].
      apply elem_of_select_rows in Hin as [Hst [j Hj]]. pose proof (wf_id wf_t j t Hj) as E.
      change (ExecTask.id t = j) in E. replace (ExecTaskHost.exec_task_id h) with j by lia. rewrite Hj.
      unfold overdue_running. by rewrite Hst.
    + intros Ht. destruct (tbl (work s) !! ExecTaskHost.exec_task_id h) as [t|] eqn:Hj; [|done].
      apply andb_true_iff in Ht as [Hst Ho]. exists t. split.
      * apply list_elem_of_In, elem_of_select_rows. eauto.
      * pose proof (wf_id wf_t _ t Hj) as E. change (ExecTask.id t = ExecTaskHost.exec_task_id h) in E.
        by rewrite E, Z.eqb_refl.
  - apply map_fmap_ext. intros i t Hi. case_bool_decide as Hin; [done|].
    unfold swept_task, overdue_running. destruct (bool_decide _) eqn:Hst; [|done]. destruct Hin.
    apply list_elem_of_fmap_2, elem_of_select_rows. eauto.
Qed.

Lemma time_out_task_skip t c s0 :
  task_overdue n t = false → time_out_task n c t s0 = (inr c, s0).
Proof. intros Ho. unfold time_out_task. by rewrite Ho. Qed.
End sweep.

Lemma swept_by_nil n d : swept_by n [] d = d.
Proof.
  unfold swept_by. cbn. rewrite map_fmap_id.
  replace (_ <$> tbl (R:=ExecTask.ExecTask) d) with (tbl (R:=ExecTask.ExecTask) d); [by destruct d|].
  rewrite <-(map_fmap_id (tbl d)) at 1. by apply map_fmap_ext.
Qed.

(** One sweep is the set-at-a-time update: exactly the overdue running tasks
    become timed_out with one version step, exactly their pending and running
    hosts with them, nothing else in the database moves, the sweep is committed
    and the count returned is theirs. *)
Theorem scan_timeouts_spec s :
  wf_table ExecTask.ExecTask s → wf_table ExecTaskHost.ExecTaskHost s →
  scan_timeouts s =
    (inr (Z.of_nat (length (select_rows (overdue_running (now s)) (tbl (work s))))),
     s <| work := swept_db (now s) (work s) |> <| committed := swept_db (now s) (work s) |>).
Proof.
  intros [wf_t _] [wf_h _]. set (l := select_rows (λ t, bool_decide (ExecTask.status t = "running")) (tbl (work s))).
  assert (wp scan_timeouts (λ r s', r = inr (Z.of_nat (length (filter (λ t, task_overdue (now s) t = true) l))) ∧
    s' = s <| work := swept_by (now s) l (work s) |> <| committed := swept_by (now s) l (work s) |>) s) as Hrun.
  { unfold scan_timeouts. wp_step. wp_step. wp_step. fold l. wp_step. wp_step. wp_step.
    apply wp_fold_each with (I := λ done c s', s' = s <| work := swept_by (now s) done (work s) |> ∧
      c = Z.of_nat (length (filter (λ t, task_overdue (now s) t = true) done))).
    - split; [|done]. rewrite swept_by_nil. by destruct s.
    - intros done t rest c s0 El [-> ->].
      assert (t ∈ l) as Hin by (rewrite El; set_solver). apply elem_of_select_rows in Hin as [Hst%bool_decide_eq_true [i Hi]].
      pose proof (wf_id wf_t i t Hi) as Hid. change (ExecTask.id t = i) in Hid. subst i.
      destruct (task_overdue (now s) t) eqn:Ho.
      + eapply wp_of_run; [apply (swept_by_step s _ _ wf_t wf_h); try done|].
        * pose proof (NoDup_select_rows _ _ _ wf_t : NoDup (row_id <$> l)) as Hnd.
          rewrite El, fmap_app, NoDup_app in Hnd. destruct Hnd as (_ & Hnd & _).
          intros Hin. apply (Hnd _ Hin). by apply elem_of_cons; left.
        * split; [done|]. rewrite filter_app, length_app, filter_cons_True by done. cbn. lia.
      + eapply wp_of_run; [by apply time_out_task_skip|]. rewrite (swept_by_skip s _ wf_t) by done.
        split; [done|]. rewrite filter_app, filter_cons_False, app_nil_r by congruence. done.
    - intros c s' [-> ->]. wp_run. done. }
  unfold wp in Hrun. destruct (scan_timeouts s) as [r s1]. cbn [fst snd] in Hrun.
  destruct Hrun as [-> ->]. subst l. rewrite (swept_by_all s _ wf_t). do 2 f_equal. unfold overdue_running.
  by rewrite (select_rows_and (λ t, bool_decide (ExecTask.status t = "running"))).
Qed.

(** C11: A dispatch gives every concurrency permit back, and touches no host row
    it did not start: only pending rows of the task move, to running, success or
    failed (a cancelled or finished row is never resurrected). When running a
    host raises, the permits of the hosts after it stay taken. *)
Theorem dispatch_permits task_id s r s1 :
  wf_table ExecTaskHost.ExecTaskHost s → work s = committed s →
  exec_dispatch task_id s = (r, s1) → dispatch_outcome task_id s r s1 ∧ work s1 = committed s1.
Proof.
  intros [Hwf _] Hc Hrun. by_wp Hrun. unfold exec_dispatch, ExecTaskHostRepository.by_task.
  assert (∀ (r : exn + json) s1, committed s1 = work s → slots s1 = slots s →
    dispatch_outcome task_id s r (s1 <| work := committed s1 |>) ∧
    work (s1 <| work := committed s1 |>) = committed (s1 <| work := committed s1 |>)) as Hnone.
  { intros r0 s0 E1 E2. split; [by apply outcome_none|done]. }
  wp_step. wp_step. wp_step. wp_step; [|by apply wp_ret, Hnone].
  wp_step; [by apply wp_ret, Hnone|]. wp_step.
  apply wp_reads; [apply preserves_limits|]. intros [exc|[g hl]] _; [by apply Hnone|]. do 2 wp_step.
  wp_step. apply wp_reads; [apply preserves_content|]. intros [exc|content] _; [by apply Hnone|].
  wp_step. apply wp_start_hosts; [done|]. intros started s2 Hin W2 T2 K2.
  assert (∀ h, h ∈ started → tbl (work s) !! ExecTaskHost.id h = Some h ∧
    ExecTaskHost.exec_task_id h = task_id ∧ ExecTaskHost.status h = "pending") as Hst.
  { intros h Hh. destruct (Hin h Hh) as [Hsel Hp]. apply elem_of_select_rows in Hsel as [Ht [j Hj]].
    pose proof (wf_id Hwf j h Hj) as Hid. change (ExecTaskHost.id h = j) in Hid. subst j.
    split; [done|]. unfold ExecTaskHostRepository.of_task in Ht.
    split; [lia|]. by apply bool_decide_eq_true in Hp. }
  destruct (ExecTaskHost.id <$> started) as [|i0 l0] eqn:El.
  { apply wp_ret. apply fmap_nil_inv in El as ->. split; [|done]. exists [], [].
    split_and!; [done| |done|done|].
    - change (touched [] (tbl (work s)) (tbl (committed s2))). by rewrite <-W2.
    - exact K2. }
  rewrite <-El in *. clear El. wp_step.
  apply (wp_run_hosts (ExecTaskHost.id <$> started) (tbl (work s))).
  { intros h Hh. split; [by apply list_elem_of_fmap_2|by apply Hst]. }
  { unfold both. by rewrite <-W2. }
  intros [exc|[]] s3 leaked HJ Hsuf Hr K3.
  - split; [|done]. exists started, leaked. split_and!; [done|apply HJ|done|done|].
    intros k. change (slot k s3 = slot k s + permits leaked k). rewrite K3, K2. lia.
  - apply wp_preserves with (I := λ s4, both (touched (ExecTaskHost.id <$> started) (tbl (work s))) s4 ∧
      slots_are (slots s3) s4).
    + apply finish_preserves; intros; intros s4 [H1 H2]; (split; [|first [by apply slots_commit|
        by apply slots_rollback|by apply slots_emit|by apply slots_db_cas|by apply slots_db_upd]]);
        first [by apply both_commit|by apply both_rollback|by apply both_emit_out
              |by apply both_cas_ne|by apply both_upd_ne].
    + by split.
    + intros r4 s4 [[HJ4 HJ4'] Hsl]. split; [|done]. rewrite (Hr eq_refl) in *.
      exists started, []. split_and!; [done|exact HJ4'|apply suffix_nil|done|].
      intros k. change (slot k s4 = slot k s + permits [] k). unfold slot at 1. rewrite Hsl.
      change (slot k s3 = slot k s + permits [] k). rewrite K3, K2. lia.
Qed.
End dispatch.

(** ** Witnesses *)

(** Task 9 runs [uptime] on hosts 4 and 5, by [executor]. *)
Definition dispatch_task : ExecTask.ExecTask :=
  ExecTask.mk 9 "20260102-009" "restart" "command" None None (Some "uptime") JNull
    (Some [4; 5]) "batch" 600 0 0 0 None "running" (Some 7) (Some 1767355200000000) None 1 1767355200000000.
Definition dispatch_host (executor : string) (i : Z) : ExecTaskHost.ExecTaskHost :=
  ExecTaskHost.mk i 9 (i + 3) "web" "10.0.0.4" executor "pending" None None None.
Definition dispatch_db (executor : string) : Db :=
  empty_db <| exec_tasks := {[9 := dispatch_task]} |>
           <| exec_task_hosts := {[1 := dispatch_host executor 1; 2 := dispatch_host executor 2]} |>.
Definition dispatch_st (executor : string) : St :=
  on_db (λ _, dispatch_db executor) init_st <| seqs := {["exec_task" := 9; "exec_task_host" := 2]} |>.
(** A threshold that was stored as a string. *)
Definition bad_threshold_st : St :=
  on_db (λ d, d <| config_rules := {[1 := ConfigRule.mk 1 "exec_batch_threshold" (JObj [("threshold", JStr "50")]) ""]} |>)
    (dispatch_st "ssh").

Definition run_dispatch (s : St) : (exn + json) * St :=
  exec_dispatch (λ _, "") (λ _, "") false true (λ _, false) 9 s.

Lemma dispatch_permits_witness :
  (run_dispatch (dispatch_st "agent")).1 =
    inr (JObj [("ok", JBool true); ("task_id", JInt 9); ("status", JStr "success")]) ∧
  dispatch_outcome true 9 (dispatch_st "agent") (run_dispatch (dispatch_st "agent")).1
    (run_dispatch (dispatch_st "agent")).2.
Proof.
  split; [vm_compute; reflexivity|].
  apply (dispatch_permits (λ _, "") (λ _, "") false true (λ _, false) 9 (dispatch_st "agent")).
  - apply wf_tableb_spec. vm_compute. reflexivity.
  - reflexivity.
  - unfold run_dispatch. by destruct (exec_dispatch _ _ _ _ _ _ _).
Defined.

(** The sensitivity test of the first ssh host raises (the threshold is a
    string): the dispatch dies, the permits of the second host stay taken and
    both rows stay running. *)
Lemma dispatch_leaks_permits :
  let s1 := (run_dispatch bad_threshold_st).2 in
  (run_dispatch bad_threshold_st).1 = inl (TypeError "'>=' not supported") ∧
  slot "exec:global" s1 = 1 ∧ slot "exec:host:5" s1 = 1 ∧
  select_rows is_running (tbl (committed s1)) = rows (tbl (committed s1)) ∧
  select_rows is_running (tbl (work s1)) ≠ [].
Proof. vm_compute. split_and!; done. Qed.

Definition sweep_st : St := dispatch_st "agent" <| now := 1767355801000000 |>.
Lemma scan_timeouts_spec_witness :
  (scan_timeouts sweep_st).1 = inr 1 ∧
  scan_timeouts sweep_st =
    (inr (Z.of_nat (length (select_rows (overdue_running (now sweep_st)) (tbl (work sweep_st))))),
     sweep_st <| work := swept_db (now sweep_st) (work sweep_st) |>
              <| committed := swept_db (now sweep_st) (work sweep_st) |>).
Proof.
  split; [vm_compute; reflexivity|].
  apply (scan_timeouts_spec sweep_st); apply wf_tableb_spec; vm_compute; reflexivity.
Defined.
