(* ===== verification/Transfer.v ===== *)
(** * File transfers: [services/transfer_service.py], [tasks/transfer_tasks.py],
      [services/transfer_channels.py] and the transfer frames of [ws/agent_ws.py]

    A transfer task pushes a package to hosts or pulls a path from them. Each host
    has a row with a status; frames from its agent move it on, and when no row is
    active any more the task's status is computed from theirs. *)

From S2P Require Import Prelude.
From S2P Require Import Models.
From S2P Require Import Session.
From S2P Require Import Repositories.
From S2P Require Import Access.
From S2P Require Import Executors.
From S2P Require Import Dispatch.
From S2P Require Import Paths.
From S2P Require Import Security.

Definition DEFAULT_PULL_WHITELIST : list string := ["/var/lib/lark-agent/outbox"].
Definition DEFAULT_CHUNK_SIZE : Z := 1048576.
Definition ACTIVE : list string := ["pending"; "pulling"; "transferring"; "verifying"].

(** [schemas/__init__.py] and an uploaded file *)
Module TransferTaskCreate.
Record TransferTaskCreate := mk {
  mode : string; package_id : option Z; source_host_id : option Z; source_host_path : option string;
  target_path : string; host_ids : list Z; overwrite : Z; verify : Z; limit_mbps : option Z }.
End TransferTaskCreate.
Record UploadFile := mkUpload { filename : string; content : string }.

Abbreviation Task := TransferTask.TransferTask.
Abbreviation THost := TransferHost.TransferHost.
Abbreviation Item := FileItem.FileItem.

(** ** Repositories *)

Module FilePackageRepository.
Definition matches (ilike : string → string → bool) (name : option string) (start stop : option Z)
    (p : FilePackage.FilePackage) : bool :=
  opt_cond name (λ v, ilike v (FilePackage.name p)) &&
  match start with Some v => v <=? FilePackage.created_at p | None => true end &&
  match stop with Some v => FilePackage.created_at p <=? v | None => true end.
Definition search ilike name start stop (page size : Z) : Op (list FilePackage.FilePackage * Z) :=
  l ← db_select (matches ilike name start stop);
  ret (page_of l page size, Z.of_nat (length l)).
Definition referenced_count (package_id : Z) : Op Z :=
  db_count (λ t : Task, bool_decide (TransferTask.package_id t = Some package_id) &&
                        bool_decide (TransferTask.status t = "processing")).
End FilePackageRepository.
Definition items_of (package_id : Z) (i : Item) : bool := FileItem.package_id i =? package_id.
Definition by_package (package_id : Z) : Op (list Item) := db_select (items_of package_id).

Module TransferTaskRepository.
Record Filters := mkFilters {
  f_mode : option string; f_status : option string; f_created_by : option Z; f_start : option Z; f_end : option Z }.
Definition matches (f : Filters) (t : Task) : bool :=
  opt_cond (f_mode f) (λ v, bool_decide (TransferTask.mode t = v)) &&
  opt_cond (f_status f) (λ v, bool_decide (TransferTask.status t = v)) &&
  opt_cond_z (f_created_by f) (λ v, bool_decide (TransferTask.created_by t = Some v)) &&
  match f_start f with Some v => v <=? TransferTask.created_at t | None => true end &&
  match f_end f with Some v => TransferTask.created_at t <=? v | None => true end.
Definition search (f : Filters) (page size : Z) : Op (list Task * Z) :=
  l ← db_select (matches f);
  ret (page_of l page size, Z.of_nat (length l)).
Definition optimistic_update (task_id : Z) (from_status to_status : string) (version : Z) : Op bool :=
  db_cas task_id
    (λ t : Task, bool_decide (TransferTask.status t = from_status) && (TransferTask.version t =? version))
    (λ t, t <| TransferTask.status := to_status |> <| TransferTask.version := version + 1 |>).
End TransferTaskRepository.

Module TransferHostRepository.
Definition of_task (task_id : Z) (h : THost) : bool := TransferHost.transfer_task_id h =? task_id.
Definition by_task (task_id : Z) : Op (list THost) := db_select (of_task task_id).
(** SELECT status, count() ... GROUP BY status *)
Definition count_statuses (l : list THost) : gmap string Z :=
  foldr (λ h m, partial_alter (λ c, Some (default 0 c + 1)) (TransferHost.status h) m) ∅ l.
Definition stats (task_id : Z) : Op (gmap string Z) :=
  l ← by_task task_id; ret (count_statuses l).
Definition active_count (task_id : Z) : Op Z :=
  db_count (λ h, of_task task_id h && str_in (TransferHost.status h) ACTIVE).
Definition update_status (transfer_host_id : Z) (status : string) (fields : THost → THost) : Op () :=
  db_upd transfer_host_id (λ h : THost, fields (h <| TransferHost.status := status |>)).
End TransferHostRepository.

Module TransferLogRepository.
Abbreviation Log := TransferLog.TransferLog.
Definition log_seq_le (a b : Log) : Prop := TransferLog.seq a ≤ TransferLog.seq b.
#[global] Instance log_seq_le_dec : RelDecision log_seq_le.
Proof. intros a b. unfold log_seq_le. apply _. Defined.
(** [session.add] without a flush *)
Definition append (transfer_host_id seq : Z) (level content : string) : Op () :=
  db_add_later (NewTransferLog (TransferLog.mk 0 transfer_host_id seq level content 0)).
Definition after_seq (transfer_host_id after size : Z) : Op (list Log * Z) :=
  l ← db_select (λ r : Log, (TransferLog.transfer_host_id r =? transfer_host_id) && (after <? TransferLog.seq r));
  ret (take (Z.to_nat size) (merge_sort log_seq_le l), Z.of_nat (length l)).
(** The maximum of the rows in the table, or 0 *)
Definition max_of (l : list Log) : Z :=
  z_or (foldr (λ r m, Some (match m with Some x => Z.max (TransferLog.seq r) x | None => TransferLog.seq r end)) None l) 0.
Definition max_seq (transfer_host_id : Z) : Op Z :=
  l ← db_select (λ r : Log, TransferLog.transfer_host_id r =? transfer_host_id);
  ret (max_of l).
End TransferLogRepository.

(** ** What the frames carry *)

Definition file_send_frame (task : Task) (th : THost) (item : Item) (offset : Z) : json :=
  JObj [("type", JStr "file_send"); ("data", JObj [
    ("transfer_host_id", JInt (TransferHost.id th)); ("task_no", JStr (TransferTask.task_no task)); ("mode", JStr "push");
    ("file_item", JObj [("path", JStr (FileItem.rel_path item)); ("size", JInt (FileItem.size item));
       ("sha256", JStr (FileItem.sha256 item)); ("chunk_size", JInt (FileItem.chunk_size item))]);
    ("offset", JInt offset); ("target_path", JStr (TransferTask.target_path task));
    ("overwrite", JInt (TransferTask.overwrite task)); ("verify", JInt (TransferTask.verify task));
    ("limit_mbps", jz (TransferTask.limit_mbps task))])].
Definition file_fetch_frame (task : Task) (th : THost) (path : string) (offset : Z) : json :=
  JObj [("type", JStr "file_fetch"); ("data", JObj [
    ("transfer_host_id", JInt (TransferHost.id th)); ("task_no", JStr (TransferTask.task_no task)); ("mode", JStr "pull");
    ("path", JStr path); ("target_path", JStr (TransferTask.target_path task)); ("offset", JInt offset);
    ("verify", JInt (TransferTask.verify task))])].
Definition stop_frame (th_id : Z) : json :=
  JObj [("type", JStr "stop"); ("data", JObj [("transfer_host_id", JInt th_id)])].
Definition status_message (status : string) (error : option string) : json :=
  JObj [("type", JStr "status"); ("data", JObj [("status", JStr status); ("error", js error)])].
Definition broadcast (th_id : Z) (message : json) : Op () := emit_out (EBroadcast "transfer" th_id message).

Definition agent_of (host : option Host.Host) : option string :=
  match host ≫= Host.agent_id with
  | Some a => if bool_decide (a = "") then None else Some a
  | None => None
  end.
Definition host_of (host_id : Z) : Op (option Host.Host) :=
  if host_id =? 0 then ret None else db_get host_id.

(** [x.get("enabled") == 0]: False and 0.0 are equal to 0 too. *)
Definition equals_zero (x : option json) : bool :=
  match x with
  | Some (JInt z) => z =? 0
  | Some (JBool b) => negb b
  | Some (JFloat q) => Qeq_bool q 0
  | _ => false
  end.
Definition _feature_enabled : Op bool :=
  rule ← ConfigRuleRepository.by_key "feature.transfer";
  ret (match rule with
       | Some r => negb (equals_zero (jget "enabled" (ConfigRule.rule_value r)))
       | None => true
       end).
Definition require_transfer : Op () :=
  on ← _feature_enabled; guard_or on (BadRequestError "transfer feature disabled").
Definition _task_no : Op string :=
  d ← gets today;
  n ← nextval "seq_transfer_no";
  ret ("TF-" +:+ date_prefix d +:+ "-" +:+ zpad 3 n).
Definition _chunk_size : Op Z :=
  rule ← ConfigRuleRepository.by_key "transfer.chunk_size";
  v ← match rule with
      | Some r => int_of (jget_or "chunk_size" (JInt DEFAULT_CHUNK_SIZE) (ConfigRule.rule_value r))
      | None => ret DEFAULT_CHUNK_SIZE
      end;
  ret (if 0 <? v then v else DEFAULT_CHUNK_SIZE).

Section transfer.
Variable float_str : Q → string.
Variable container_str : json → string.
(** an agent with this id is connected to this process and sent a heartbeat of
    late ([agent_online]); the frame could be handed to its connection
    ([dispatch_to_agent_sync]) *)
Variable agent_online : string → bool.
Variable delivered : string → json → bool.
Variable broker_up : bool.
Variable ilike : string → string → bool.
(** [settings.transfer_store_dir] *)
Variable transfer_store_dir : string.
(** hashlib, base64, zlib, the bytes of a file *)
Variable sha256 : string → string.
Variable b64encode : string → string.
Variable b64decode : string → option string.
Variable crc32 : string → Z.
Variable file_bytes : string → option string.
Variable jwt_encode : json → string.
Variable _jti : St → string.

Definition dispatch_to_agent_sync (agent : string) (frame : json) : Op bool :=
  if delivered agent frame then emit_out (EAgentFrame agent frame);; ret true else ret false.

Definition _pull_whitelist : Op (list string) :=
  rule ← ConfigRuleRepository.by_key "transfer.pull_whitelist";
  ret (match rule with
       | Some r =>
           let paths := jget_or "paths" JNull (ConfigRule.rule_value r) in
           match (if truthy paths then paths else jget_or "whitelist" JNull (ConfigRule.rule_value r)) with
           | JArr l => py_str float_str container_str <$> l
           | _ => DEFAULT_PULL_WHITELIST
           end
       | None => DEFAULT_PULL_WHITELIST
       end).

(** ** [tasks/transfer_tasks.py] and [services/transfer_channels.py] *)

Definition _append_log (th : THost) (content level : string) : Op () :=
  n ← TransferLogRepository.max_seq (TransferHost.id th);
  TransferLogRepository.append (TransferHost.id th) (n + 1) level content.
(** [_mark_degraded] and [_mark_failed] differ in the status and the text. *)
Definition mark (status text : string) (th : THost) (reason : string) : Op () :=
  t ← utc_now;
  TransferHostRepository.update_status (TransferHost.id th) status
    (λ h, h <| TransferHost.error := Some reason |> <| TransferHost.finished_at := Some t |>);;
  _append_log th (text +:+ reason) "error";;
  broadcast (TransferHost.id th) (status_message status (Some reason));;
  flush_commit.
Definition _mark_degraded : THost → string → Op () := mark "degraded" "channel unavailable: ".
Definition _mark_failed : THost → string → Op () := mark "failed" "failed: ".

Inductive Channel := AgentChannel | SshChannel.
Definition channel_kind (c : Channel) : string := match c with AgentChannel => "agent" | SshChannel => "ssh" end.
Definition can_handle (host : option Host.Host) (c : Channel) : bool :=
  match c with
  | AgentChannel => match agent_of host with Some a => agent_online a | None => false end
  | SshChannel => false
  end.
Definition resolve_agent_channel (host : option Host.Host) : option Channel :=
  head (filter (λ c, can_handle host c = true) [AgentChannel; SshChannel]).

(** [AgentChannel._proc_agent]: the agent of the row's host *)
Definition _proc_agent (th : THost) : Op (option string) :=
  host ← host_of (TransferHost.host_id th); ret (agent_of host).
Definition push (c : Channel) (task : Task) (th : THost) (item : Item) (offset : Z) : Op bool :=
  match c with
  | SshChannel => ret false
  | AgentChannel =>
      agent ← _proc_agent th;
      match agent with
      | None => ret false
      | Some a =>
          ok ← dispatch_to_agent_sync a (file_send_frame task th item offset);
          if ok then emit_out (EStartStream (TransferHost.id th) (FileItem.id item) offset);; ret true
          else ret false
      end
  end.
Definition fetch (c : Channel) (task : Task) (th : THost) (path : string) (offset : Z) : Op bool :=
  match c with
  | SshChannel => ret false
  | AgentChannel =>
      agent ← _proc_agent th;
      match agent with
      | None => ret false
      | Some a => dispatch_to_agent_sync a (file_fetch_frame task th path offset)
      end
  end.

Definition no_channel : string := "no agent channel available (ssh fallback not enabled in this batch)".
Definition py_bool (z : Z) : string := if z =? 0 then "False" else "True".

(** The loop over the items ends with the first that could not be pushed. *)
Fixpoint push_items (c : Channel) (task : Task) (th : THost) (items : list Item) : Op () :=
  match items with
  | [] => ret ()
  | item :: rest =>
      _append_log th ("transfer file " +:+ FileItem.rel_path item +:+ " size=" +:+ pretty (FileItem.size item) +:+
                      " verify=" +:+ py_bool (TransferTask.verify task)) "info";;
      ok ← push c task th item (TransferHost.current_offset th);
      if ok then push_items c task th rest
      else _mark_degraded th "agent unreachable during dispatch"
  end.
Definition _dispatch_host (task : Task) (th : THost) : Op () :=
  host ← host_of (TransferHost.host_id th);
  match resolve_agent_channel host with
  | None => _mark_degraded th no_channel
  | Some c =>
      t ← utc_now;
      TransferHostRepository.update_status (TransferHost.id th) "transferring"
        (λ h, h <| TransferHost.started_at := Some t |>);;
      flush_commit;;
      _append_log th ("channel=" +:+ channel_kind c +:+ " mode=" +:+ TransferTask.mode task +:+
                      " target=" +:+ TransferTask.target_path task) "info";;
      if bool_decide (TransferTask.mode task = "push") then
        match TransferTask.package_id task with
        | None => _mark_failed th "push task without package"
        | Some p =>
            items ← by_package p;
            match items with
            | [] => _mark_failed th "package has no files"
            | _ => push_items c task th items
            end
        end
      else
        whitelist ← _pull_whitelist;
        match TransferTask.source_host_path task with
        | Some path =>
            if negb (bool_decide (path = "")) && path_within_whitelist path whitelist then
              _append_log th ("fetch " +:+ path +:+ " verify=" +:+ py_bool (TransferTask.verify task)) "info";;
              ok ← fetch c task th path (TransferHost.current_offset th);
              if ok then ret () else _mark_degraded th "agent unreachable during fetch dispatch"
            else _mark_failed th "source_host_path outside pull whitelist"
        | None => _mark_failed th "source_host_path outside pull whitelist"
        end
  end.

(** The status a finished task gets *)
Definition total_of (stats : gmap string Z) : Z := map_fold (λ _ c n, c + n) 0 stats.
Definition verdict (stats : gmap string Z) : string :=
  let n (s : string) := default 0 (stats !! s) in
  let failed := n "failed" + n "verify_failed" + n "canceled" in
  let total := total_of stats in
  if (0 <? total) && (n "success" =? total) then "success"
  else if 0 <? n "success" then "partial"
  else if (failed =? 0) && (0 <? n "degraded") then "partial"
  else "failed".
(** The task's status afterwards, as the object at hand has it *)
Definition _maybe_finalize (task : Task) : Op string :=
  if negb (bool_decide (TransferTask.status task = "processing")) then ret (TransferTask.status task) else
  stats ← TransferHostRepository.stats (TransferTask.id task);
  if bool_decide (stats = ∅) then ret (TransferTask.status task) else
  active ← TransferHostRepository.active_count (TransferTask.id task);
  if 0 <? active then ret (TransferTask.status task) else
  let new_status := verdict stats in
  ok ← TransferTaskRepository.optimistic_update (TransferTask.id task) "processing" new_status (TransferTask.version task);
  if negb ok then ret (TransferTask.status task) else
  t ← utc_now;
  db_upd (TransferTask.id task) (λ r : Task, r <| TransferTask.finished_at := Some t |>);;
  flush_commit;;
  ret new_status.

Definition transfer_dispatch (task_id : Z) : Op json := run_request (
  found ← db_get task_id;
  match found : option Task with
  | None => ret (JObj [("ok", JBool false); ("reason", JStr "task not found")])
  | Some task =>
      if bool_decide (TransferTask.status task = "canceled")
      then ret (JObj [("ok", JBool false); ("reason", JStr "task canceled")]) else
      status ← if bool_decide (TransferTask.status task = "processing") then
          hosts ← TransferHostRepository.by_task task_id;
          for_each hosts (λ th,
            when (bool_decide (TransferHost.status th = "pending")) (_dispatch_host task th));;
          _maybe_finalize task
        else ret (TransferTask.status task);
      ret (JObj [("ok", JBool true); ("task_id", JInt task_id); ("status", JStr status)])
  end).

Definition chunk_frame (th_id : Z) (item : Item) (offset : Z) (data : string) : json :=
  JObj [("type", JStr "file_chunk"); ("data", JObj [
    ("transfer_host_id", JInt th_id); ("path", JStr (FileItem.rel_path item)); ("offset", JInt offset);
    ("bytes", JInt (Z.of_nat (String.length data))); ("crc32", JInt (crc32 data)); ("data", JStr (b64encode data))])].
(** The thread that streams a file: chunk after chunk while they can be handed
    over. What the code would do next, asking the agent to verify, fails: the row
    of a transfer's host has no agent_id, and the exception is only logged. *)
Fixpoint stream_chunks (fuel : nat) (agent : string) (th_id : Z) (item : Item) (offset : Z) (rest : string) : Op () :=
  match fuel with
  | O => ret ()
  | S fuel =>
      let n := if FileItem.chunk_size item <? 0 then String.length rest else Z.to_nat (FileItem.chunk_size item) in
      let data := String.substring 0 n rest in
      if bool_decide (data = "") then ret () else
      ok ← dispatch_to_agent_sync agent (chunk_frame th_id item offset data);
      if ok then stream_chunks fuel agent th_id item (offset + Z.of_nat (String.length data))
                   (String.substring n (String.length rest - n) rest)
      else ret ()
  end.
(** [os.path.join(package.store_path, item.rel_path)], and [fh.seek(offset)], which
    fails for a negative one *)
Definition _stream (agent : string) (th_id : Z) (item : Item) (started_at : Z) : Op () := run_request (
  package ← db_get (FileItem.package_id item);
  match package : option FilePackage.FilePackage with
  | None => ret ()
  | Some p =>
      match file_bytes (FilePackage.store_path p +:+ "/" +:+ FileItem.rel_path item) with
      | None => TransferHostRepository.update_status th_id "failed" (λ h, h);; flush_commit
      | Some bytes =>
          if started_at <? 0 then ret () else
          let from := Z.to_nat started_at in
          let rest := String.substring from (String.length bytes - from) bytes in
          stream_chunks (S (String.length rest)) agent th_id item started_at rest
      end
  end).

(** ** Frames from agents: [ws/agent_ws.py] *)

Definition frame_host (data : json) : Op (option THost) :=
  i ← match jget "transfer_host_id" data with Some x => int_of x | None => raise (KeyError "transfer_host_id") end;
  db_get i.
Definition progress (th : THost) (offset bytes : Z) : Op () :=
  broadcast (TransferHost.id th) (JObj [("type", JStr "progress"); ("data", JObj [
    ("transfer_host_id", JInt (TransferHost.id th)); ("host_id", JInt (TransferHost.host_id th));
    ("offset", JInt offset); ("bytes", JInt bytes)])]).
Definition set_offset (th : THost) (offset : Z) : Op () :=
  TransferHostRepository.update_status (TransferHost.id th) (TransferHost.status th)
    (λ h, h <| TransferHost.current_offset := offset |>);;
  flush_commit.
Definition _transfer_chunk_ack (data : json) : Op () := run_request (
  found ← frame_host data;
  match found with
  | None => ret ()
  | Some th =>
      offset ← int_of (jget_or "offset" (JInt 0) data);
      set_offset th offset;;
      bytes ← int_of (jget_or "bytes" (JInt 0) data);
      progress th offset bytes
  end).

(** [os.path.basename]: what follows the last slash *)
Definition basename (p : string) : string := default "" (last (split_slash p)).
Definition _pull_name (source_host_path : option string) : string :=
  let name := strip (basename (s_or source_host_path "file")) in
  if bool_decide (name = "") then "file" else name.
Definition _pull_store_path (task_id : Z) (source_host_path : option string) : string :=
  transfer_store_dir +:+ "/pull/" +:+ pretty task_id +:+ "/" +:+ _pull_name source_host_path.
(** [open(path, "ab")] of [_pull_store_path]: the directory itself and its parent
    are not files. *)
Definition append_bytes (task_id : Z) (name : string) (size : Z) : Op () :=
  if str_in name ["."; ".."] then raise (OtherError "IsADirectoryError")
  else emit_out (EFileWrite (transfer_store_dir +:+ "/pull/" +:+ pretty task_id +:+ "/" +:+ name) size).
(** [data.get(k) or ""] where a text is needed *)
Definition text_or_empty (k : string) (data : json) : Op string :=
  match jget k data with
  | Some (JStr t) => ret t
  | Some x => if truthy x then raise (TypeError "not a string") else ret ""
  | None => ret ""
  end.
Definition _transfer_pull_chunk (data : json) : Op () := run_request (
  found ← frame_host data;
  match found with
  | None => ret ()
  | Some th =>
      task ← db_get (TransferHost.transfer_task_id th);
      match task : option Task with
      | None => ret ()
      | Some task =>
          if negb (bool_decide (TransferTask.mode task = "pull")) then ret () else
          text ← text_or_empty "data" data;
          payload ← some_or (b64decode text) (ValueError "Incorrect padding");
          if bool_decide (payload = "") then ret () else
          append_bytes (TransferTask.id task) (_pull_name (TransferTask.source_host_path task))
            (Z.of_nat (String.length payload));;
          start ← int_of (jget_or "offset" (JInt 0) data);
          let offset := start + Z.of_nat (String.length payload) in
          set_offset th offset;;
          bytes ← int_of (jget_or "bytes" (JInt 0) data);
          progress th offset bytes
      end
  end).

Definition _expected_sha256 (task : Task) : Op (option string) :=
  match TransferTask.package_id task with
  | Some p =>
      if bool_decide (TransferTask.mode task = "push") && negb (p =? 0) then
        items ← by_package p;
        ret (match items with [item] => Some (FileItem.sha256 item) | _ => None end)
      else ret None
  | None => ret None
  end.
(** [data.get("status", "success")]; what is no text is no known status. *)
Definition reported_status (data : json) : string :=
  match jget "status" data with Some (JStr t) => t | Some _ => "" | None => "success" end.
(** [data.get("error")], for a column of texts *)
Definition reported_error (data : json) : Op (option string) :=
  match jget "error" data with
  | Some (JStr t) => ret (Some t)
  | Some JNull | None => ret None
  | Some _ => raise (OtherError "DataError")
  end.
(** What a report makes of a host: its status and error *)
Definition judged (task : Task) (expected : option string) (status sha : string) (error : option string)
    : string * option string :=
  let r := match expected with
           | Some e =>
               if negb (TransferTask.verify task =? 0) && negb (bool_decide (sha = "")) &&
                  negb (bool_decide (e = "")) && negb (bool_decide (sha = lower e))
               then ("verify_failed", Some ("sha256 mismatch (expect " +:+ e +:+ ", got " +:+ sha +:+ ")"))
               else (status, error)
           | None => (status, error)
           end in
  (if str_in r.1 ["success"; "failed"; "verify_failed"; "canceled"] then r.1 else "failed", r.2).
Definition result_message (th : THost) (status sha : string) (error : option string) (t : Z) : json :=
  JObj [("type", JStr "result"); ("data", JObj [
    ("transfer_host_id", JInt (TransferHost.id th)); ("host_id", JInt (TransferHost.host_id th));
    ("hostname", JStr (TransferHost.hostname th)); ("status", JStr status);
    ("sha256", if bool_decide (sha = "") then JNull else JStr sha); ("error", js error);
    ("finished_at", JStr (isoformat t))])].
Definition _transfer_result (data : json) : Op () := run_request (
  found ← frame_host data;
  match found with
  | None => ret ()
  | Some th =>
      task ← db_get (TransferHost.transfer_task_id th);
      match task : option Task with
      | None => ret ()
      | Some task =>
          text ← text_or_empty "sha256" data;
          let sha := lower text in
          expected ← _expected_sha256 task;
          error ← reported_error data;
          let r := judged task expected (reported_status data) sha error in
          when (bool_decide (TransferTask.mode task = "pull") && bool_decide (r.1 = "success"))
            (_append_log th ("pulled to " +:+
               _pull_store_path (TransferTask.id task) (TransferTask.source_host_path task)) "info");;
          t ← utc_now;
          TransferHostRepository.update_status (TransferHost.id th) r.1
            (λ h, h <| TransferHost.verify_sha256 := if bool_decide (sha = "") then None else Some sha |>
                    <| TransferHost.error := r.2 |> <| TransferHost.finished_at := Some t |>);;
          flush_commit;;
          broadcast (TransferHost.id th) (status_message r.1 r.2);;
          broadcast (TransferHost.id th) (result_message th r.1 sha r.2 t);;
          again ← db_get (TransferHost.transfer_task_id th);
          match again with Some task => _ ← _maybe_finalize task; ret () | None => ret () end
      end
  end).

(** ** Packages: [services/transfer_service.py] *)

(** [Path(settings.transfer_store_dir) / uuid4().hex] *)
Variable uuid4_hex : string.
(** [datetime.now().strftime("%Y%m%d%H%M%S")] *)
Variable now_text : string.
Definition pkg_dir : string := transfer_store_dir +:+ "/" +:+ uuid4_hex.

(** One uploaded file: its path, size and hash *)
Definition store_file (f : UploadFile) : Op (string * Z * string) :=
  rel ← some_or (_safe_rel_path (filename f)) (BadRequestError "invalid file path in upload");
  let size := Z.of_nat (String.length (content f)) in
  emit_out (EFileWrite (pkg_dir +:+ "/" +:+ rel) size);;
  ret (rel, size, sha256 (content f)).
Definition item_out (i : string * Z * string) : json :=
  JObj [("path", JStr i.1.1); ("size", JInt i.1.2); ("sha256", JStr i.2)].
Definition create_package (user : CurrentUser) (files : list UploadFile) (name : string) : Op json :=
  require_perm user "transfer:package:add";;
  require_transfer;;
  guard_or (negb (bool_decide (length files = 0%nat))) (BadRequestError "files[] required");;
  items ← map_each files store_file;
  pkg ← db_add (FilePackage.mk 0 (if bool_decide (name = "") then "pkg-" +:+ now_text else name)
          (Z.of_nat (length items)) (foldr (λ i n, i.1.2 + n) 0 items) pkg_dir (Some (user_id user)) 0);
  cs ← _chunk_size;
  for_each items (λ i, _ ← db_add (FileItem.mk 0 (FilePackage.id pkg) i.1.1 i.1.2 i.2 cs); ret ());;
  db_commit;;
  ret (JObj [("package_id", JInt (FilePackage.id pkg)); ("items", JArr (item_out <$> items))]).

Definition package_fields (p : FilePackage.FilePackage) : list (string * json) := [
  ("id", JInt (FilePackage.id p)); ("name", JStr (FilePackage.name p)); ("file_count", JInt (FilePackage.file_count p));
  ("total_size", JInt (FilePackage.total_size p)); ("created_by", jz (FilePackage.created_by p));
  ("created_at", jtime (Some (FilePackage.created_at p)))].
Definition page_out (l : list json) (total page size : Z) : json :=
  JObj [("list", JArr l); ("total", JInt total); ("page", JInt page); ("size", JInt size)].
Definition list_packages (user : CurrentUser) (name : option string) (start stop : option Z) (page size : Z) : Op json :=
  require_perm user "transfer:package:list";;
  '(l, total) ← FilePackageRepository.search ilike name start stop page size;
  ret (page_out ((λ p, JObj (package_fields p)) <$> l) total page size).
Definition the_package (package_id : Z) : Op FilePackage.FilePackage :=
  found ← db_get package_id; some_or found (NotFoundError "package not found").
Definition get_package (user : CurrentUser) (package_id : Z) : Op json :=
  require_perm user "transfer:package:list";;
  pkg ← the_package package_id;
  items ← by_package package_id;
  ret (JObj (package_fields pkg ++
    [("items", JArr ((λ i, item_out (FileItem.rel_path i, FileItem.size i, FileItem.sha256 i)) <$> items))])).

(** [db.delete(pkg)] and the commit's flush: the items go with it, and the
    foreign key of [transfer_task.package_id] forbids it while any task has the
    package. *)
Definition delete_row (package_id : Z) : Op () :=
  n ← db_count (λ t : Task, bool_decide (TransferTask.package_id t = Some package_id));
  guard_or (n =? 0) (IntegrityError "transfer_task_package_id_fkey");;
  modify (λ s, s <| work := work s <| file_items :=
    filter (λ kv, items_of package_id kv.2 = false) (file_items (work s)) |> |>);;
  db_delete (R:=FilePackage.FilePackage) package_id.
Definition delete_package (user : CurrentUser) (package_id : Z) : Op json :=
  require_perm user "transfer:package:del";;
  pkg ← the_package package_id;
  n ← FilePackageRepository.referenced_count package_id;
  guard_or (negb (0 <? n)) (ConflictError "package referenced by a running transfer task");;
  emit_out (ERemoveTree (FilePackage.store_path pkg));;
  delete_row package_id;;
  db_commit;;
  ret (JObj [("id", JInt package_id); ("deleted", JBool true)]).

(** ** Tasks *)

Definition visible_host (user : CurrentUser) (hid : Z) : Op Host.Host :=
  found ← db_get hid;
  host ← some_or found (NotFoundError ("host " +:+ pretty hid +:+ " not found"));
  guard_or (is_admin user || match Host.group_id host with Some g => z_in g (visible_group_ids user) | None => false end)
    (ForbiddenError ("no data permission for host " +:+ pretty hid));;
  ret host.
(** The package and the source of a new task *)
Definition source_of (data : TransferTaskCreate.TransferTaskCreate) : Op (option Z * option Z * option string) :=
  if bool_decide (TransferTaskCreate.mode data = "push") then
    i ← some_or (TransferTaskCreate.package_id data) (BadRequestError "package_id required for push mode");
    pkg ← the_package i;
    items ← by_package (FilePackage.id pkg);
    guard_or (negb (bool_decide (length items = 0%nat))) (BadRequestError "package has no files");;
    ret (Some (FilePackage.id pkg), None, None)
  else
    guard_or (s_truthy (TransferTaskCreate.source_host_path data)) (BadRequestError "source_host_path required for pull mode");;
    whitelist ← _pull_whitelist;
    guard_or (path_within_whitelist (default "" (TransferTaskCreate.source_host_path data)) whitelist)
      (BadRequestError "source_host_path outside pull whitelist");;
    ret (None, TransferTaskCreate.source_host_id data, TransferTaskCreate.source_host_path data).

Definition agent_row_online (th : THost) : Op bool :=
  host ← host_of (TransferHost.host_id th);
  ret (match agent_of host with Some a => agent_online a | None => false end).
Definition task_has_inprocess_transfer (task_id : Z) : Op bool :=
  hosts ← TransferHostRepository.by_task task_id;
  online ← map_each hosts agent_row_online;
  ret (existsb id online).
Definition dispatch_here (task_id : Z) : Op () := _ ← transfer_dispatch task_id; ret ().
Definition _kick_off_transfer (task_id : Z) : Op () :=
  here ← task_has_inprocess_transfer task_id;
  if here then dispatch_here task_id
  else if broker_up then emit_out (EDelay "transfer_dispatch" task_id) else dispatch_here task_id.

Definition create_task (user : CurrentUser) (data : TransferTaskCreate.TransferTaskCreate) : Op json :=
  require_perm user "transfer:task:run";;
  require_transfer;;
  hosts ← map_each (TransferTaskCreate.host_ids data) (visible_host user);
  guard_or (str_in (TransferTaskCreate.mode data) ["push"; "pull"]) (BadRequestError "invalid mode (push/pull)");;
  src ← source_of data;
  no ← _task_no;
  task ← db_add (TransferTask.mk 0 no (TransferTaskCreate.mode data) src.1.1 src.1.2 src.2
           (TransferTaskCreate.target_path data) (JObj [("ids", JArr (JInt <$> TransferTaskCreate.host_ids data))])
           (TransferTaskCreate.overwrite data) (TransferTaskCreate.verify data) (TransferTaskCreate.limit_mbps data)
           "processing" (Some (user_id user)) 0 None None 0);
  for_each hosts (λ h,
    _ ← db_add (TransferHost.mk 0 (TransferTask.id task) (Host.id h) (Host.hostname h) (Host.ip h) "agent" "pending"
                  0 None None None None); ret ());;
  db_commit;;
  _kick_off_transfer (TransferTask.id task);;
  ret (JObj [("id", JInt (TransferTask.id task)); ("task_no", JStr (TransferTask.task_no task));
             ("status", JStr "processing"); ("pending", JInt (Z.of_nat (length (TransferTaskCreate.host_ids data))))]).

Definition task_fields (t : Task) : list (string * json) := [
  ("id", JInt (TransferTask.id t)); ("task_no", JStr (TransferTask.task_no t)); ("mode", JStr (TransferTask.mode t));
  ("package_id", jz (TransferTask.package_id t)); ("source_host_id", jz (TransferTask.source_host_id t));
  ("source_host_path", js (TransferTask.source_host_path t)); ("target_path", JStr (TransferTask.target_path t));
  ("host_ids", TransferTask.host_ids t); ("overwrite", JInt (TransferTask.overwrite t));
  ("verify", JInt (TransferTask.verify t)); ("limit_mbps", jz (TransferTask.limit_mbps t));
  ("status", JStr (TransferTask.status t)); ("created_by", jz (TransferTask.created_by t));
  ("created_at", jtime (Some (TransferTask.created_at t))); ("started_at", jtime (TransferTask.started_at t));
  ("finished_at", jtime (TransferTask.finished_at t))].
Definition _task_out (t : Task) : json := JObj (task_fields t).
Definition own_filters (user : CurrentUser) (mode status : option string) (start stop : option Z) :
    TransferTaskRepository.Filters :=
  TransferTaskRepository.mkFilters mode status (if is_admin user then None else Some (user_id user)) start stop.
Definition list_tasks (user : CurrentUser) (mode status : option string) (start stop : option Z) (page size : Z) : Op json :=
  require_perm user "transfer:task:list";;
  '(l, total) ← TransferTaskRepository.search (own_filters user mode status start stop) page size;
  ret (page_out (_task_out <$> l) total page size).
Definition _task_out_with_hosts (t : Task) (hosts : list THost) : json :=
  JObj (task_fields t ++ [("hosts", JArr ((λ h, JObj [("id", JInt (TransferHost.id h));
    ("hostname", JStr (TransferHost.hostname h))]) <$> hosts))]).
Definition list_my_tasks (user : CurrentUser) (mode status : option string) (start stop : option Z) (page size : Z) : Op json :=
  require_perm user "transfer:task:log";;
  '(l, total) ← TransferTaskRepository.search (own_filters user mode status start stop) page size;
  out ← map_each l (λ t, hosts ← TransferHostRepository.by_task (TransferTask.id t); ret (_task_out_with_hosts t hosts));
  ret (page_out out total page size).

(** A task its creator or an administrator asks for *)
Definition own_task (user : CurrentUser) (task_id : Z) (refusal : string) : Op Task :=
  found ← db_get task_id;
  task ← some_or found (NotFoundError "task not found");
  guard_or (is_admin user || bool_decide (TransferTask.created_by task = Some (user_id user))) (ForbiddenError refusal);;
  ret task.
Definition no_view : string := "no permission to view this task".
Definition _host_out (h : THost) : json := JObj [
  ("id", JInt (TransferHost.id h)); ("host_id", JInt (TransferHost.host_id h)); ("hostname", JStr (TransferHost.hostname h));
  ("ip", JStr (TransferHost.ip h)); ("channel", JStr (TransferHost.channel h)); ("status", JStr (TransferHost.status h));
  ("current_offset", JInt (TransferHost.current_offset h)); ("verify_sha256", js (TransferHost.verify_sha256 h));
  ("error", js (TransferHost.error h)); ("started_at", jtime (TransferHost.started_at h));
  ("finished_at", jtime (TransferHost.finished_at h))].
Definition _stats (m : gmap string Z) : json :=
  let g (k : string) := default 0 (m !! k) in
  JObj [("total", JInt (total_of m)); ("pending", JInt (g "pending")); ("transferring", JInt (g "transferring" + g "pulling"));
        ("verifying", JInt (g "verifying")); ("verify_failed", JInt (g "verify_failed")); ("success", JInt (g "success"));
        ("failed", JInt (g "failed" + g "canceled" + g "degraded"))].
Definition task_stats_internal (task_id : Z) : Op json :=
  m ← TransferHostRepository.stats task_id; ret (_stats m).
Definition get_task (user : CurrentUser) (task_id : Z) : Op json :=
  require_perm user "transfer:task:list";;
  task ← own_task user task_id no_view;
  hosts ← TransferHostRepository.by_task task_id;
  stats ← task_stats_internal task_id;
  ret (JObj (task_fields task ++ [("hosts", JArr (_host_out <$> hosts)); ("stats", stats)])).
Definition task_stats (user : CurrentUser) (task_id : Z) : Op json :=
  require_perm user "transfer:task:list";;
  _ ← own_task user task_id no_view;
  task_stats_internal task_id.
Definition host_row (task_id transfer_host_id : Z) : Op THost :=
  found ← db_get transfer_host_id;
  match found with
  | Some th => if TransferHost.transfer_task_id th =? task_id then ret th else raise (NotFoundError "task host not found")
  | None => raise (NotFoundError "task host not found")
  end.
Definition get_logs (user : CurrentUser) (task_id transfer_host_id after size : Z) : Op json :=
  require_perm user "transfer:task:log";;
  _ ← own_task user task_id no_view;
  _ ← host_row task_id transfer_host_id;
  '(l, _) ← TransferLogRepository.after_seq transfer_host_id after size;
  ret (JObj [("list", JArr ((λ r, JObj [("seq", JInt (TransferLog.seq r)); ("level", JStr (TransferLog.level r));
               ("content", JStr (TransferLog.content r)); ("created_at", jtime (Some (TransferLog.created_at r)))]) <$> l));
             ("next_seq", JInt (after + Z.of_nat (length l)))]).
Definition ws_token (user : CurrentUser) (task_id transfer_host_id : Z) : Op json :=
  require_perm user "transfer:task:log";;
  _ ← own_task user task_id no_view;
  _ ← host_row task_id transfer_host_id;
  token ← create_token jwt_encode _jti transfer_host_id "ws" (5 * 60 * microseconds) [];
  ret (JObj [("token", JStr token)]).

(** Best effort: whether the agent got it makes no difference. *)
Definition _send_stop (th : THost) : Op () :=
  host ← host_of (TransferHost.host_id th);
  match agent_of host with
  | None => ret ()
  | Some a => _ ← dispatch_to_agent_sync a (stop_frame (TransferHost.id th)); ret ()
  end.
Definition stop_host (th : THost) : Op () :=
  when (str_in (TransferHost.status th) ACTIVE) (
    t ← utc_now;
    TransferHostRepository.update_status (TransferHost.id th) "canceled" (λ h, h <| TransferHost.finished_at := Some t |>);;
    when (negb (bool_decide (TransferHost.status th = "pending"))) (_send_stop th)).
Definition stop_task (user : CurrentUser) (task_id : Z) : Op json :=
  require_perm user "transfer:task:stop";;
  task ← own_task user task_id "no permission to stop this task";
  guard_or (bool_decide (TransferTask.status task = "processing")) (BadRequestError "task not processing");;
  ok ← TransferTaskRepository.optimistic_update (TransferTask.id task) "processing" "canceled" (TransferTask.version task);
  guard_or ok (ConflictError "task state changed concurrently");;
  t ← utc_now;
  db_upd (TransferTask.id task) (λ r : Task, r <| TransferTask.finished_at := Some t |>);;
  hosts ← TransferHostRepository.by_task task_id;
  for_each hosts stop_host;;
  db_commit;;
  ret (JObj [("id", JInt (TransferTask.id task)); ("status", JStr "canceled")]).

Definition retry_host (user : CurrentUser) (task_id transfer_host_id : Z) : Op json :=
  require_perm user "transfer:task:retry";;
  task ← own_task user task_id "no permission to retry this task";
  th ← host_row task_id transfer_host_id;
  guard_or (str_in (TransferHost.status th) ["failed"; "verify_failed"; "degraded"; "canceled"])
    (BadRequestError "host not retryable");;
  when (negb (bool_decide (TransferTask.status task = "processing"))) (
    ok ← TransferTaskRepository.optimistic_update (TransferTask.id task) (TransferTask.status task) "processing"
           (TransferTask.version task);
    guard_or ok (ConflictError "task state changed concurrently");;
    db_upd (TransferTask.id task) (λ r : Task, r <| TransferTask.finished_at := None |>));;
  TransferHostRepository.update_status (TransferHost.id th) "pending" (λ h,
    h <| TransferHost.error := None |> <| TransferHost.verify_sha256 := None |> <| TransferHost.finished_at := None |>);;
  db_commit;;
  _kick_off_transfer task_id;;
  broadcast (TransferHost.id th) (JObj [("type", JStr "status"); ("data", JObj [("status", JStr "pending"); ("retry", JBool true)])]);;
  ret (JObj [("id", JInt transfer_host_id); ("status", JStr "pending")]).
End transfer.

(** ** Logs that wait for a flush *)

Section logs.
(** [s'] is [s] with [k] more log rows of one host and number waiting, and with
    [es] sent out. *)
Definition waiting (th_id n : Z) (u : Unflushed) : Prop :=
  ∃ level text, u = NewTransferLog (TransferLog.mk 0 th_id n level text 0).
Definition logged (th_id n : Z) (k : nat) (es : list Effect) (s s' : St) : Prop :=
  ∃ us, s' = s <| work := work s <| unflushed := unflushed (work s) ++ us |> |> <| out := out s ++ es |> ∧
    Forall (waiting th_id n) us ∧ length us = k.
Definition next_seq (th_id : Z) (s : St) : Z :=
  TransferLogRepository.max_of (select_rows (λ r, TransferLog.transfer_host_id r =? th_id) (transfer_logs (work s))) + 1.

Lemma logged_refl th_id n s : logged th_id n 0 [] s s.
Proof. exists []. split; [|done]. rewrite !app_nil_r. by destruct s as [[]]. Qed.
Lemma logged_trans th_id n k1 k2 es1 es2 s1 s2 s3 :
  logged th_id n k1 es1 s1 s2 → logged th_id n k2 es2 s2 s3 → logged th_id n (k1 + k2) (es1 ++ es2) s1 s3.
Proof.
  intros (us1 & -> & F1 & L1) (us2 & -> & F2 & L2). exists (us1 ++ us2). split.
  - cbn. by rewrite !app_assoc.
  - split; [by apply Forall_app|]. by rewrite length_app, L1, L2.
Qed.
Lemma logged_out th_id n s e : logged th_id n 0 [e] s (s <| out := out s ++ [e] |>).
Proof. exists []. split; [|done]. rewrite app_nil_r. by destruct s as [[]]. Qed.
Lemma logged_next th_id n k es s s' : logged th_id n k es s s' → next_seq th_id s' = next_seq th_id s.
Proof. by intros (us & -> & _). Qed.

Lemma append_log_logged th content level s :
  ∃ s', _append_log th content level s = (inr (), s') ∧
    logged (TransferHost.id th) (next_seq (TransferHost.id th) s) 1 [] s s'.
Proof.
  eexists. split; [reflexivity|]. eexists [_]. split_and!; [|repeat constructor; by eexists _, _|done].
  rewrite app_nil_r. by destruct s as [[]].
Qed.

(** Two rows of one host with one number cannot be flushed: the transaction
    gives both the same time. *)
Lemma flush_twins th_id n u1 u2 us s :
  unflushed (work s) = u1 :: u2 :: us → waiting th_id n u1 → waiting th_id n u2 →
  ∃ s', flush_commit s = (inl (IntegrityError "transfer_log"), s') ∧ committed s' = committed s ∧ out s' = out s.
Proof.
  intros Hu (l1 & t1 & ->) (l2 & t2 & ->). unfold flush_commit, db_flush.
  unfold bind at 1. unfold bind at 1, gets. rewrite Hu. cbn [for_each]. unfold bind at 1, modify.
  set (s0 := s <| work := _ |>). unfold bind at 1. unfold insert_new at 1, bind at 1, db_add at 1. cbv zeta.
  destruct (accepts _ _ _) eqn:Ha1; [|eexists; split; [reflexivity|done]].
  unfold ret at 1. unfold bind at 1, insert_new at 1, bind at 1, db_add at 1. cbv zeta.
  match goal with |- context [accepts ?m ?i ?r] => destruct (accepts m i r) eqn:Ha2 end;
    [|eexists; split; [reflexivity|done]].
  exfalso. apply accepts_spec in Ha2 as (_ & _ & Hc).
  rewrite tbl_put_row in Hc. specialize (Hc _ _ (lookup_insert_eq _ _ _)). revert Hc.
  cbn. rewrite !Z.eqb_refl. done.
Qed.
End logs.

(** ** Dispatching to hosts whose agents answer *)

Section dispatching.
Variable float_str : Q → string.
Variable container_str : json → string.
Variable agent_online : string → bool.
Variable delivered : string → json → bool.
Abbreviation push := (push delivered).
Abbreviation push_items := (push_items delivered).
Abbreviation _dispatch_host := (_dispatch_host float_str container_str agent_online delivered).

(** The row's host has the agent [a], which is connected and takes every frame. *)
Definition reaches (a : string) (th : THost) (d : Db) : Prop :=
  ∃ h, TransferHost.host_id th ≠ 0 ∧ hosts d !! TransferHost.host_id th = Some h ∧ agent_of (Some h) = Some a ∧
    agent_online a = true ∧ ∀ frame, delivered a frame = true.

Lemma host_of_reachable th (s : St) h :
  TransferHost.host_id th ≠ 0 → hosts (work s) !! TransferHost.host_id th = Some h →
  host_of (TransferHost.host_id th) s = (inr (Some h), s).
Proof.
  intros Hn Hh. unfold host_of. rewrite (proj2 (Z.eqb_neq _ _)) by done. unfold db_get, gets.
  change (tbl (work s)) with (hosts (work s)). by rewrite Hh.
Qed.
(** What an agent is handed for an item, and for a host in all: the announcement
    of the file, and the thread that streams it *)
Definition handed (a : string) (task : Task) (th : THost) (item : Item) : list Effect :=
  [EAgentFrame a (file_send_frame task th item (TransferHost.current_offset th));
   EStartStream (TransferHost.id th) (FileItem.id item) (TransferHost.current_offset th)].
Definition handed_all (a : string) (task : Task) (th : THost) (items : list Item) : list Effect :=
  flat_map (handed a task th) items.
Lemma push_logged a task th item s :
  reaches a th (work s) →
  ∃ s', push AgentChannel task th item (TransferHost.current_offset th) s = (inr true, s') ∧
    logged (TransferHost.id th) (next_seq (TransferHost.id th) s) 0 (handed a task th item) s s'.
Proof.
  intros (h & Hn & Hh & Ha & _ & Hd). eexists. split.
  - cbn [Transfer.push]. unfold _proc_agent. erewrite bind_inr.
    2: { erewrite bind_inr by (by apply host_of_reachable). reflexivity. }
    rewrite Ha. unfold dispatch_to_agent_sync. rewrite Hd. reflexivity.
  - eapply (logged_trans _ _ 0 0 [_] [_]); apply logged_out.
Qed.
Lemma push_items_logged a task th items s :
  reaches a th (work s) →
  ∃ s', push_items AgentChannel task th items s = (inr (), s') ∧
    logged (TransferHost.id th) (next_seq (TransferHost.id th) s) (length items) (handed_all a task th items) s s'.
Proof.
  revert s. induction items as [|item items IH]; intros s Hr; [eexists; split; [reflexivity|apply logged_refl]|].
  cbn [Transfer.push_items].
  match goal with |- context [_append_log th ?c "info"] => destruct (append_log_logged th c "info" s) as (s1 & E1 & L1) end.
  pose proof L1 as (us1 & Hs1 & _).
  destruct (push_logged a task th item s1) as (s2 & E2 & L2); [by rewrite Hs1|].
  rewrite (logged_next _ _ _ _ _ _ L1) in L2. pose proof L2 as (us2 & Hs2 & _).
  destruct (IH s2) as (s3 & E3 & L3); [by rewrite Hs2, Hs1|].
  rewrite (logged_next _ _ _ _ _ _ L2), (logged_next _ _ _ _ _ _ L1) in L3.
  exists s3. split.
  - erewrite bind_inr by exact E1. erewrite bind_inr by exact E2. exact E3.
  - exact (logged_trans _ _ _ _ _ _ _ _ _ (logged_trans _ _ _ _ _ _ _ _ _ L1 L2) L3).
Qed.
Lemma resolve_reachable h a :
  agent_of (Some h) = Some a → agent_online a = true → resolve_agent_channel agent_online (Some h) = Some AgentChannel.
Proof. intros Ha Ho. unfold resolve_agent_channel. rewrite filter_cons. cbn. by rewrite Ha, Ho. Qed.

(** The first host: its row is committed as transferring, and two logs or more
    wait. *)
Definition started (th : THost) (s : St) : THost :=
  th <| TransferHost.status := "transferring" |> <| TransferHost.started_at := Some (now s) |>.
Lemma dispatch_first a task th p items s :
  unflushed (work s) = [] → tbl (work s) !! TransferHost.id th = Some th → reaches a th (work s) →
  TransferTask.mode task = "push" → TransferTask.package_id task = Some p →
  select_rows (items_of p) (tbl (work s)) = items → items ≠ [] →
  ∃ s', _dispatch_host task th s = (inr (), s') ∧
    let s1 := put_row (TransferHost.id th) (started th s) s in
    logged (TransferHost.id th) (next_seq (TransferHost.id th) s) (S (length items))
      (handed_all a task th items) (s1 <| committed := work s1 |>) s'.
Proof.
  intros Hu Hth (h & Hn & Hh & Ha & Ho & Hd) Hm Hp Hi Hne.
  set (s1 := put_row (TransferHost.id th) (started th s) s).
  set (s2 := s1 <| committed := work s1 |>).
  unfold Transfer._dispatch_host. erewrite bind_inr by (by apply host_of_reachable).
  rewrite (resolve_reachable h a Ha Ho). erewrite bind_inr by reflexivity.
  assert (∀ f, f (th <| TransferHost.status := "transferring" |>) = started th s →
    TransferHostRepository.update_status (TransferHost.id th) "transferring" f s = (inr (), s1)) as Hupd.
  { intros f Hf. unfold TransferHostRepository.update_status, db_upd, modify. rewrite Hth. by rewrite Hf. }
  erewrite bind_inr by (by apply Hupd).
  assert (flush_commit s1 = (inr (), s2)) as Hfl.
  { unfold flush_commit, db_flush, bind, gets, modify, ret. change (unflushed (work s1)) with (unflushed (work s)).
    rewrite Hu. cbn. f_equal. subst s2. f_equal; destruct s as [[]]; cbn in *; by subst. }
  erewrite bind_inr by exact Hfl.
  match goal with |- context [_append_log th ?c "info"] => destruct (append_log_logged th c "info" s2) as (s3 & E3 & L3) end.
  erewrite bind_inr by exact E3. pose proof L3 as (us3 & Hs3 & _).
  rewrite bool_decide_true by done. rewrite Hp.
  assert (by_package p s3 = (inr items, s3)) as Hby.
  { unfold by_package, db_select, gets. rewrite Hs3. cbn. f_equal. by rewrite <-Hi. }
  erewrite bind_inr by exact Hby.
  destruct (push_items_logged a task th items s3) as (s4 & E4 & L4).
  { rewrite Hs3. by exists h. }
  rewrite (logged_next _ _ _ _ _ _ L3) in L4.
  exists s4. split; [destruct items; [done|exact E4]|].
  exact (logged_trans _ _ _ _ _ _ _ _ _ L3 L4).
Qed.

Lemma dispatch_second a task th n u1 u2 us s th_id :
  unflushed (work s) = u1 :: u2 :: us → waiting th_id n u1 → waiting th_id n u2 → reaches a th (work s) →
  ∃ s', _dispatch_host task th s = (inl (IntegrityError "transfer_log"), s') ∧ committed s' = committed s ∧ out s' = out s.
Proof.
  intros Hu H1 H2 (h & Hn & Hh & Ha & Ho & _).
  unfold Transfer._dispatch_host. erewrite bind_inr by (by apply host_of_reachable).
  rewrite (resolve_reachable h a Ha Ho). erewrite bind_inr by reflexivity.
  set (f := λ x : THost, x <| TransferHost.started_at := Some (now s) |>).
  assert (∃ s1, TransferHostRepository.update_status (TransferHost.id th) "transferring" f s = (inr (), s1) ∧
    unflushed (work s1) = unflushed (work s) ∧ committed s1 = committed s ∧ out s1 = out s) as (s1 & E1 & Hu1 & Hc1 & Ho1).
  { unfold TransferHostRepository.update_status, db_upd, modify. destruct (tbl (work s) !! TransferHost.id th); eauto 6. }
  erewrite bind_inr by exact E1. rewrite Hu in Hu1.
  destruct (flush_twins th_id n u1 u2 us s1 Hu1 H1 H2) as (s2 & E2 & Hc2 & Ho2).
  exists s2. split; [|by rewrite Hc2, Ho2]. by erewrite bind_inl by exact E2.
Qed.

(** C37: Of a push to two or more hosts, the first two of which have agents that
    are connected and take every frame, only the first host is handed its files.
    Its log rows wait, under one number, for a flush that the update of the second
    host triggers and the table's UNIQUE constraint refuses: the dispatch raises.
    All that has gone out are the first host's files; committed is the first host
    as transferring and nothing else, so that the second stays pending and the
    task in processing. *)
Theorem second_host_never_dispatched task_id task p items h1 h2 rest a1 a2 s :
  wf_table THost s → unflushed (work s) = [] →
  tbl (work s) !! task_id = Some task → TransferTask.status task = "processing" →
  TransferTask.mode task = "push" → TransferTask.package_id task = Some p →
  select_rows (items_of p) (tbl (work s)) = items → items ≠ [] →
  select_rows (TransferHostRepository.of_task task_id) (tbl (work s)) = h1 :: h2 :: rest →
  TransferHost.status h1 = "pending" → TransferHost.status h2 = "pending" →
  reaches a1 h1 (work s) → reaches a2 h2 (work s) →
  ∃ s', transfer_dispatch float_str container_str agent_online delivered task_id s =
      (inl (IntegrityError "transfer_log"), s') ∧
    out s' = out s ++ handed_all a1 task h1 items ∧
    committed s' = set_tbl (<[TransferHost.id h1 := started h1 s]> (tbl (work s))) (work s) ∧
    tbl (committed s') !! TransferHost.id h2 = Some h2 ∧
    tbl (committed s') !! task_id = Some task.
Proof.
  intros Hwf Hu Htask Hst Hm Hp Hi Hne Hsel Hp1 Hp2 Hr1 Hr2. destruct Hwf as [Hw _].
  pose proof (NoDup_select_rows (TransferHostRepository.of_task task_id) _ _ Hw) as Hnd. rewrite Hsel in Hnd.
  assert (∀ h, h ∈ h1 :: h2 :: rest → tbl (work s) !! TransferHost.id h = Some h) as Hrow.
  { intros h. rewrite <-Hsel. intros [_ [i Hi']]%elem_of_select_rows. pose proof (wf_id Hw _ _ Hi') as <-. done. }
  pose proof (Hrow h1 ltac:(by apply elem_of_cons; left)) as Hh1.
  pose proof (Hrow h2 ltac:(by do 2 (apply elem_of_cons; first [by left|right]))) as Hh2.
  assert (TransferHost.id h1 ≠ TransferHost.id h2) as Hids.
  { cbn in Hnd. apply NoDup_cons in Hnd as [Hn _]. intros E. apply Hn. apply elem_of_cons. by left. }
  destruct (dispatch_first a1 task h1 p items s Hu Hh1 Hr1 Hm Hp Hi Hne) as (s1 & E1 & us & Hs1 & Hus & Hlen).
  set (s0 := put_row (TransferHost.id h1) (started h1 s) s) in *.
  assert (unflushed (work s1) = us) as Hu1.
  { rewrite Hs1. cbn. change (unflushed (work s0)) with (unflushed (work s)). by rewrite Hu. }
  destruct us as [|u1 [|u2 us]]; [done|destruct items; [done|discriminate Hlen]|].
  apply Forall_cons in Hus as [W1 Hus]. apply Forall_cons in Hus as [W2 _].
  destruct (dispatch_second a2 task h2 _ u1 u2 us s1 _ Hu1 W1 W2) as (s2 & E2 & Hc2 & Ho2).
  { rewrite Hs1. exact Hr2. }
  assert (committed s2 = work s0) as Hc by (rewrite Hc2, Hs1; done).
  exists (s2 <| work := committed s2 |>). split; [|split; [change (out s2 = out s ++ handed_all a1 task h1 items); by rewrite Ho2, Hs1|]].
  2: { change (committed (s2 <| work := committed s2 |>)) with (committed s2). rewrite Hc.
       unfold s0. split; [done|]. split; [|by rewrite tbl_put_row_ne].
       rewrite tbl_put_row, lookup_insert_ne by done. exact Hh2. }
  - unfold transfer_dispatch, run_request.
    erewrite bind_inr by reflexivity. rewrite Htask, Hst. cbn [bool_decide]. rewrite bool_decide_false by done.
    rewrite bool_decide_true by done.
    unfold bind at 1. unfold bind at 1. unfold TransferHostRepository.by_task, db_select, gets. rewrite Hsel.
    unfold bind at 1. cbn [for_each].
    unfold bind at 1. rewrite Hp1. unfold when at 1. rewrite bool_decide_true by done. rewrite E1.
    unfold bind at 1. rewrite Hp2. unfold when at 1. rewrite bool_decide_true by done. rewrite E2. reflexivity.
Qed.
End dispatching.

(** ** The verdict *)

(** In terms of the hosts' statuses *)
Definition verdict_of (l : list string) : string :=
  if forallb (λ st, bool_decide (st = "success")) l then "success"
  else if str_in "success" l then "partial"
  else if negb (existsb (λ st, str_in st ["failed"; "verify_failed"; "canceled"]) l) && str_in "degraded" l then "partial"
  else "failed".

Section verdict.
Abbreviation count_statuses := TransferHostRepository.count_statuses.
Definition occurs (k : string) (l : list THost) : Z :=
  Z.of_nat (length (filter (λ h, TransferHost.status h = k) l)).

Lemma count_lookup l k : default 0 (count_statuses l !! k) = occurs k l.
Proof.
  induction l as [|h l IH]; [done|]. unfold count_statuses, occurs in *. cbn [foldr]. rewrite filter_cons.
  destruct (decide (TransferHost.status h = k)) as [<-|Hne].
  - rewrite lookup_partial_alter_eq, IH. simpl. lia.
  - by rewrite lookup_partial_alter_ne.
Qed.
Lemma total_insert (m : gmap string Z) k c : m !! k = None → total_of (<[k := c]> m) = c + total_of m.
Proof. intros Hk. unfold total_of. rewrite map_fold_insert_L; [lia|intros; lia|done]. Qed.
Lemma total_count l : total_of (count_statuses l) = Z.of_nat (length l).
Proof.
  induction l as [|h l IH]; [done|]. unfold count_statuses in *. cbn [foldr length].
  set (m := foldr _ ∅ l) in *. set (k := TransferHost.status h).
  assert (partial_alter (λ c, Some (default 0 c + 1)) k m = <[k := default 0 (m !! k) + 1]> (delete k m)) as ->.
  { apply map_eq. intros j. destruct (decide (j = k)) as [->|Hne].
    - by rewrite lookup_partial_alter_eq, lookup_insert_eq.
    - by rewrite lookup_partial_alter_ne, lookup_insert_ne, lookup_delete_ne. }
  rewrite total_insert by apply lookup_delete_eq.
  assert (total_of m = default 0 (m !! k) + total_of (delete k m)) as Hm.
  { destruct (m !! k) as [c|] eqn:E; cbn [default].
    - rewrite <-(insert_delete_id m k c E) at 1. rewrite total_insert by apply lookup_delete_eq. done.
    - by rewrite delete_id. }
  lia.
Qed.
Lemma occurs_pos k l : 0 < occurs k l ↔ k ∈ TransferHost.status <$> l.
Proof.
  unfold occurs. rewrite list_elem_of_fmap. split.
  - intros H. destruct (filter _ l) as [|h t] eqn:E; [cbn in H; lia|]. exists h.
    assert (h ∈ h :: t) as Hin by (by apply elem_of_cons; left). rewrite <-E in Hin.
    apply list_elem_of_filter in Hin as [<- ?]. done.
  - intros (h & -> & Hin). assert (h ∈ filter (λ h', TransferHost.status h' = TransferHost.status h) l) as Hf
      by (by apply list_elem_of_filter).
    destruct (filter _ l); [by apply elem_of_nil in Hf|]. cbn. lia.
Qed.
Lemma occurs_nonneg k l : 0 ≤ occurs k l.
Proof. unfold occurs. lia. Qed.
Lemma occurs_all k l : occurs k l = Z.of_nat (length l) ↔ forallb (λ st, bool_decide (st = k)) (TransferHost.status <$> l) = true.
Proof.
  unfold occurs. induction l as [|h l IH]; [done|]. rewrite filter_cons. cbn [length fmap list_fmap forallb].
  destruct (decide (TransferHost.status h = k)) as [Heq|Hne].
  - rewrite bool_decide_true by done. cbn [length andb]. rewrite <-IH. lia.
  - rewrite bool_decide_false by done. cbn [andb]. split; [|done]. intros E. exfalso.
    pose proof (length_filter (λ h', TransferHost.status h' = k) l). lia.
Qed.

Lemma verdict_count l : l ≠ [] → verdict (count_statuses l) = verdict_of (TransferHost.status <$> l).
Proof.
  intros Hne. unfold verdict, verdict_of. rewrite !count_lookup, total_count.
  assert (0 < Z.of_nat (length l)) as Hpos by (destruct l; [done|cbn; lia]).
  rewrite (proj2 (Z.ltb_lt _ _) Hpos). cbn [andb].
  destruct (forallb _ _) eqn:Eall.
  { apply occurs_all in Eall. by rewrite Eall, Z.eqb_refl. }
  rewrite (proj2 (Z.eqb_neq (occurs "success" l) _)) by (intros H%occurs_all; congruence).
  assert (∀ k, (0 <? occurs k l) = str_in k (TransferHost.status <$> l)) as Hin.
  { intros k. apply eq_true_iff_eq. by rewrite Z.ltb_lt, str_in_true, occurs_pos. }
  rewrite !Hin. destruct (str_in "success" _); [done|].
  assert ((occurs "failed" l + occurs "verify_failed" l + occurs "canceled" l =? 0) =
    negb (existsb (λ st, str_in st ["failed"; "verify_failed"; "canceled"]) (TransferHost.status <$> l))) as ->; [|done].
  apply eq_true_iff_eq. rewrite Z.eqb_eq, negb_true_iff, <-not_true_iff_false, existsb_exists.
  pose proof (occurs_nonneg "failed" l). pose proof (occurs_nonneg "verify_failed" l). pose proof (occurs_nonneg "canceled" l).
  split.
  - intros E (st & Hst%list_elem_of_In & Hs%str_in_true).
    rewrite !elem_of_cons, elem_of_nil in Hs. destruct Hs as [->|[->|[->|[]]]]; apply occurs_pos in Hst; lia.
  - intros Hno. assert (∀ k, str_in k ["failed"; "verify_failed"; "canceled"] = true → ¬ 0 < occurs k l) as Hz.
    { intros k Hk Hk2%occurs_pos. apply Hno. exists k. split; [by apply list_elem_of_In|done]. }
    pose proof (Hz "failed" eq_refl). pose proof (Hz "verify_failed" eq_refl). pose proof (Hz "canceled" eq_refl). lia.
Qed.

(** C38: One call of [_maybe_finalize] closes the task exactly when the task is in
    processing and has hosts none of which is pending, pulling, transferring or
    verifying, and changes nothing otherwise. The status it writes is success if
    all hosts succeeded, partial if some but not all did, partial too if none did
    but some are degraded and none failed, failed verification or was canceled,
    and failed in all other cases. *)
Theorem transfer_verdict_spec (task : Task) s :
  tbl (work s) !! TransferTask.id task = Some task → unflushed (work s) = [] →
  let hosts := select_rows (TransferHostRepository.of_task (TransferTask.id task)) (tbl (work s)) in
  let statuses := TransferHost.status <$> hosts in
  ∃ r s', _maybe_finalize task s = (inr r, s') ∧
  if bool_decide (TransferTask.status task = "processing") && negb (bool_decide (hosts = [])) &&
     negb (existsb (λ st, str_in st ACTIVE) statuses)
  then r = verdict_of statuses ∧ committed s' = work s' ∧
       work s' = set_tbl (<[TransferTask.id task := task <| TransferTask.status := verdict_of statuses |>
                    <| TransferTask.version := TransferTask.version task + 1 |>
                    <| TransferTask.finished_at := Some (now s) |>]> (tbl (work s))) (work s)
  else r = TransferTask.status task ∧ s' = s.
Proof.
  intros Htask Hu hs. assert (hs = select_rows (TransferHostRepository.of_task (TransferTask.id task)) (tbl (work s))) as Hhs by done.
  clearbody hs. intros statuses. unfold _maybe_finalize.
  destruct (bool_decide (TransferTask.status task = "processing")) eqn:Est; cbn [negb andb].
  2: { eexists _, _. split; [reflexivity|done]. }
  unfold TransferHostRepository.stats at 1, TransferHostRepository.by_task, db_select.
  erewrite bind_inr by reflexivity. cbv beta. rewrite <-Hhs.
  destruct (decide (hs = [])) as [Hh|Hh].
  { rewrite Hh. rewrite (bool_decide_true (count_statuses [] = ∅)) by done. eexists _, _. split; [reflexivity|done]. }
  rewrite (bool_decide_false (hs = [])) by done. cbn [negb andb].
  rewrite bool_decide_false.
  2: { intros E. pose proof (total_count hs) as Ht. rewrite E in Ht. destruct hs; [done|]. cbn in Ht. discriminate Ht. }
  unfold TransferHostRepository.active_count, db_count. erewrite bind_inr by reflexivity. cbv beta.
  assert ((0 <? Z.of_nat (length (select_rows (λ h, TransferHostRepository.of_task (TransferTask.id task) h &&
      str_in (TransferHost.status h) ACTIVE) (tbl (work s))))) = existsb (λ st, str_in st ACTIVE) statuses) as ->.
  { rewrite select_rows_and, <-Hhs. apply eq_true_iff_eq. rewrite Z.ltb_lt, existsb_exists. split.
    - intros H. destruct (filter _ hs) as [|h t] eqn:E; [cbn in H; lia|].
      assert (h ∈ h :: t) as Hin by (by apply elem_of_cons; left). rewrite <-E in Hin.
      apply list_elem_of_filter in Hin as [Ha Hin]. exists (TransferHost.status h). split; [|done].
      apply list_elem_of_In, list_elem_of_fmap. by exists h.
    - intros (st & (h & -> & Hin)%list_elem_of_In%list_elem_of_fmap & Ha).
      assert (h ∈ filter (λ r, str_in (TransferHost.status r) ACTIVE = true) hs) as Hf by (by apply list_elem_of_filter).
      destruct (filter _ hs); [by apply elem_of_nil in Hf|]. cbn. lia. }
  destruct (existsb _ statuses) eqn:Ea; cbn [negb]. { eexists _, _. split; [reflexivity|done]. }
  rewrite verdict_count by done. fold statuses. cbv zeta.
  unfold TransferTaskRepository.optimistic_update.
  erewrite bind_inr.
  2: { unfold db_cas. rewrite Htask. rewrite Est, Z.eqb_refl. cbn [andb]. reflexivity. }
  cbn [negb]. erewrite bind_inr by reflexivity.
  erewrite bind_inr by (unfold db_upd, modify; rewrite tbl_put_row, lookup_insert_eq; reflexivity).
  rewrite put_row_twice.
  set (t2 := _ <| TransferTask.finished_at := _ |>). set (s1 := put_row _ t2 s).
  assert (flush_commit s1 = (inr (), s1 <| committed := work s1 |>)) as Hfl.
  { unfold flush_commit, db_flush, bind, gets, modify, ret. change (unflushed (work s1)) with (unflushed (work s)).
    rewrite Hu. cbn. f_equal. f_equal; destruct s as [[]]; cbn in *; by subst. }
  erewrite bind_inr by exact Hfl. eexists _, _. split; [reflexivity|]. done.
Qed.
End verdict.

(** ** Streaming a file *)

Section streaming.
Variable delivered : string → json → bool.
Variable b64encode : string → string.
Variable crc32 : string → Z.
Variable file_bytes : string → option string.
Abbreviation chunk_frame := (chunk_frame b64encode crc32).
Abbreviation stream_chunks := (stream_chunks delivered b64encode crc32).

(** The frames of consecutive chunks from an offset on *)
Fixpoint chunk_frames (agent : string) (th_id : Z) (item : Item) (offset : Z) (chunks : list string) : list Effect :=
  match chunks with
  | [] => []
  | c :: cs => EAgentFrame agent (chunk_frame th_id item offset c) ::
               chunk_frames agent th_id item (offset + Z.of_nat (String.length c)) cs
  end.
Fixpoint concat_strings (l : list string) : string :=
  match l with [] => "" | c :: cs => c +:+ concat_strings cs end.

Lemma substring_all s : String.substring 0 (String.length s) s = s.
Proof. induction s as [|c s IH]; [done|]. cbn. by rewrite IH. Qed.
Lemma substring_split n s :
  String.substring 0 n s +:+ String.substring n (String.length s - n) s = s.
Proof.
  revert n. induction s as [|c s IH]; intros n.
  - by destruct n.
  - destruct n as [|n]; [exact (substring_all (String c s))|].
    exact (f_equal (String c) (IH n)).
Qed.
Lemma length_substring n s : (String.length (String.substring 0 n s) ≤ n)%nat.
Proof. revert n. induction s as [|c s IH]; intros [|n]; cbn; try lia. specialize (IH n). lia. Qed.
Lemma length_substring_rest n s : String.length (String.substring n (String.length s - n) s) = (String.length s - n)%nat.
Proof.
  revert n. induction s as [|c s IH]; intros [|n]; cbn; try done.
  by rewrite substring_all.
Qed.
Lemma substring_empty n s : (0 < n)%nat → String.substring 0 n s = "" → s = "".
Proof. destruct s, n; try done. lia. Qed.

(** The loop: the chunks joined are what is left of the file. *)
Lemma stream_chunks_spec fuel agent th_id item offset rest s :
  (∀ frame, delivered agent frame = true) → 0 < FileItem.chunk_size item → (String.length rest < fuel)%nat →
  ∃ chunks, stream_chunks fuel agent th_id item offset rest s =
      (inr (), s <| out := out s ++ chunk_frames agent th_id item offset chunks |>) ∧
    concat_strings chunks = rest ∧
    Forall (λ c, c ≠ "" ∧ Z.of_nat (String.length c) ≤ FileItem.chunk_size item) chunks.
Proof.
  intros Hd Hc. revert offset rest s. induction fuel as [|fuel IH]; intros offset rest s Hf; [lia|].
  cbn [Transfer.stream_chunks]. rewrite (proj2 (Z.ltb_ge _ _)) by lia.
  set (n := Z.to_nat (FileItem.chunk_size item)). assert (0 < n)%nat as Hn by lia. cbv zeta.
  destruct (bool_decide_reflect (String.substring 0 n rest = "")) as [He|He].
  - apply substring_empty in He as ->; [|done]. exists []. split; [|split; [done|constructor]]. cbn. rewrite app_nil_r. by destruct s.
  - set (c := String.substring 0 n rest) in *.
    destruct (IH (offset + Z.of_nat (String.length c)) (String.substring n (String.length rest - n) rest)
      (s <| out := out s ++ [EAgentFrame agent (chunk_frame th_id item offset c)] |>)) as (chunks & E & Hcat & Hall).
    { rewrite length_substring_rest. assert (rest ≠ "") as Hr by (intros ->; apply He; unfold c; clearbody n; by destruct n).
      destruct rest; [done|cbn in *; lia]. }
    exists (c :: chunks). split_and!.
    + unfold dispatch_to_agent_sync. rewrite Hd. erewrite bind_inr by reflexivity.
      etransitivity; [exact E|]. cbn. by rewrite <-app_assoc.
    + cbn [concat_strings]. rewrite Hcat. apply substring_split.
    + constructor; [|done]. split; [done|]. pose proof (length_substring n rest). unfold c. lia.
Qed.
Lemma length_substring_min n s : String.length (String.substring 0 n s) = Nat.min n (String.length s).
Proof. revert n. induction s as [|c s IH]; intros [|n]; cbn; try done. by rewrite IH. Qed.

(** C40: When the file of an item can be read, its chunk size is positive and the
    agent takes every frame, [_stream] from an offset of at least zero sends the
    file from that offset on: the file is what comes before the offset followed by
    the chunks joined in order. None of them is empty or longer than the chunk
    size, and each goes out once, in order, under the offset at which it belongs. *)
Theorem stream_roundtrip agent th_id item started_at package bytes s :
  tbl (work s) !! FileItem.package_id item = Some package →
  file_bytes (FilePackage.store_path package +:+ "/" +:+ FileItem.rel_path item) = Some bytes →
  (∀ frame, delivered agent frame = true) → 0 < FileItem.chunk_size item → 0 ≤ started_at →
  work s = committed s →
  ∃ before chunks,
    _stream delivered b64encode crc32 file_bytes agent th_id item started_at s =
      (inr (), s <| out := out s ++ chunk_frames agent th_id item started_at chunks |>) ∧
    bytes = before +:+ concat_strings chunks ∧
    Z.of_nat (String.length before) = Z.min started_at (Z.of_nat (String.length bytes)) ∧
    Forall (λ c, c ≠ "" ∧ Z.of_nat (String.length c) ≤ FileItem.chunk_size item) chunks.
Proof.
  intros Hp Hb Hd Hc Hst Hw. set (from := Z.to_nat started_at).
  set (rest := String.substring from (String.length bytes - from) bytes).
  destruct (stream_chunks_spec (S (String.length rest)) agent th_id item started_at rest s Hd Hc) as (chunks & E & Hcat & Hall); [lia|].
  exists (String.substring 0 from bytes), chunks. split_and!; [| |rewrite length_substring_min; lia|exact Hall].
  - unfold _stream, run_request. erewrite bind_inr by reflexivity. rewrite Hp, Hb.
    rewrite (proj2 (Z.ltb_ge _ _)) by lia. cbv zeta. fold from. fold rest. rewrite E. cbn. f_equal.
    rewrite <-Hw. by destruct s.
  - rewrite Hcat. symmetry. apply substring_split.
Qed.
End streaming.

(** ** Late reports *)

(** A report that comes after the task was stopped makes a canceled host a
    successful one; the task stays canceled. *)
Theorem late_result_uncancels transfer_store_dir data (task : Task) (th : THost) s :
  unflushed (work s) = [] →
  jget "transfer_host_id" data = Some (JInt (TransferHost.id th)) → jget "sha256" data = None → jget "error" data = None →
  jget "status" data = Some (JStr "success") →
  tbl (work s) !! TransferHost.id th = Some th → TransferHost.status th = "canceled" →
  tbl (work s) !! TransferHost.transfer_task_id th = Some task → TransferTask.id task = TransferHost.transfer_task_id th →
  TransferTask.status task = "canceled" → TransferTask.mode task = "push" →
  ∃ s', _transfer_result transfer_store_dir data s = (inr (), s') ∧
    (∃ th', tbl (committed s') !! TransferHost.id th = Some th' ∧ TransferHost.status th' = "success") ∧
    tbl (committed s') !! TransferHost.transfer_task_id th = Some task.
Proof.
  intros Hu Hi Hsha Herr Hst Hth Hc Htask Hid Hts Hm. unfold _transfer_result, run_request.
  set (sx := _ s). assert (∃ s1, (let '(r, s') := sx in r = inr () ∧ s' = s1) ∧
    (∃ th', tbl (committed s1) !! TransferHost.id th = Some th' ∧ TransferHost.status th' = "success") ∧
    tbl (committed s1) !! TransferHost.transfer_task_id th = Some task) as (s1 & H1 & H2 & H3).
  2: { destruct sx as [r s2]. destruct H1 as [-> ->]. by eexists. }
  subst sx. unfold frame_host. erewrite bind_inr.
  2: { erewrite bind_inr; [reflexivity|]. rewrite Hi. reflexivity. }
  cbv beta. rewrite Hth. erewrite bind_inr by reflexivity. cbv beta. rewrite Htask.
  erewrite bind_inr by (unfold text_or_empty; rewrite Hsha; reflexivity).
  assert (∃ e, _expected_sha256 task s = (inr e, s)) as [e He].
  { unfold _expected_sha256. destruct (TransferTask.package_id task); [|by eexists].
    destruct (_ && _); [|by eexists]. by eexists. }
  erewrite bind_inr by exact He. erewrite bind_inr by (unfold reported_error; rewrite Herr; reflexivity).
  assert (judged task e (reported_status data) (lower "") None = ("success", None)) as ->.
  { unfold judged, reported_status. rewrite Hst. destruct e; [|done]. cbn. by rewrite andb_false_r. }
  cbn [fst snd]. rewrite (bool_decide_false (TransferTask.mode task = "pull")) by (by rewrite Hm).
  erewrite bind_inr by reflexivity. erewrite bind_inr by reflexivity.
  erewrite bind_inr by (unfold TransferHostRepository.update_status, db_upd, modify; rewrite Hth; reflexivity).
  set (s1 := put_row _ _ _).
  assert (flush_commit s1 = (inr (), s1 <| committed := work s1 |>)) as Hfl.
  { unfold flush_commit, db_flush, bind, gets, modify, ret. change (unflushed (work s1)) with (unflushed (work s)).
    rewrite Hu. cbn. f_equal. f_equal; destruct s as [[]]; cbn in *; by subst. }
  erewrite bind_inr by exact Hfl. erewrite bind_inr by reflexivity. erewrite bind_inr by reflexivity.
  erewrite bind_inr by reflexivity. cbv beta.
  assert (tbl (work s1) !! TransferHost.transfer_task_id th = Some task) as Ht1 by (unfold s1; by rewrite tbl_put_row_ne).
  eexists. split; [|split].
  - match goal with |- context [match ?o with Some _ => _ | None => _ end] =>
      replace o with (Some task) by (symmetry; exact Ht1) end.
    unfold _maybe_finalize. rewrite Hts. rewrite bool_decide_false by done. cbn. done.
  - cbn. unfold s1. rewrite tbl_put_row, lookup_insert_eq. by eexists.
  - exact Ht1.
Qed.

(** ** Whom a task reaches *)

Section targets.
Variable float_str : Q → string.
Variable container_str : json → string.
Variable agent_online : string → bool.
Variable delivered : string → json → bool.
Variable broker_up : bool.
Variable user : CurrentUser.
Variable before : St.

(** The hosts the user may see *)
Definition allowed (hid : Z) : Prop :=
  ∃ host, hosts (work before) !! hid = Some host ∧
    (is_admin user = true ∨ ∃ g, Host.group_id host = Some g ∧ g ∈ visible_group_ids user).
(** A row is an old one, or of such a host. *)
Definition targets (m : gmap Z THost) : Prop := ∀ i h, m !! i = Some h →
  (∃ h0, tbl (work before) !! i = Some h0 ∧ TransferHost.host_id h0 = TransferHost.host_id h) ∨
  allowed (TransferHost.host_id h).

Lemma targets_put i h0 h m :
  m !! i = Some h0 → TransferHost.host_id h = TransferHost.host_id h0 → targets m → targets (<[i := h]> m).
Proof.
  intros Hi E Hm j x [[<- <-]|[_ Hj]]%lookup_insert_Some; [|by apply Hm]. rewrite E. by apply Hm.
Qed.
Lemma targets_update i st f : (∀ h, TransferHost.host_id (f h) = TransferHost.host_id h) →
  preserves (both targets) (TransferHostRepository.update_status i st f).
Proof.
  intros Hf. apply preserves_db_upd. intros s h [Hw Hc] Hi. split; [|done]. rewrite tbl_put_row.
  eapply targets_put; [exact Hi| |done]. by rewrite Hf.
Qed.
Lemma targets_add h : allowed (TransferHost.host_id h) → preserves (both targets) (db_add h).
Proof.
  intros Ha. apply preserves_db_add; [by intros s n [? ?]|]. intros s n [Hw Hc] _ _. split; [|done].
  rewrite tbl_put_row. intros j x [[<- <-]|[_ Hj]]%lookup_insert_Some; [by right|by apply Hw].
Qed.
Lemma targets_flush : preserves (both targets) flush_commit.
Proof.
  unfold flush_commit, db_flush. preserves_auto.
  match goal with |- preserves _ (insert_new ?u) => destruct u; unfold insert_new; preserves_auto end.
Qed.
Lemma targets_log th c lv : preserves (both targets) (_append_log th c lv).
Proof.
  unfold _append_log, TransferLogRepository.max_seq, TransferLogRepository.append, db_add_later. preserves_auto.
Qed.
#[local] Hint Resolve targets_flush targets_log : preserves.
#[local] Hint Extern 1 (preserves _ (TransferHostRepository.update_status _ _ _)) =>
  (apply targets_update; reflexivity) : preserves.

Lemma targets_mark status text th reason : preserves (both targets) (mark status text th reason).
Proof. unfold mark, broadcast. preserves_auto. Qed.
Lemma targets_send a f : preserves (both targets) (dispatch_to_agent_sync delivered a f).
Proof. unfold dispatch_to_agent_sync. preserves_auto. Qed.
#[local] Hint Resolve targets_mark targets_send : preserves.
Lemma targets_push_items c task th items : preserves (both targets) (push_items delivered c task th items).
Proof.
  induction items as [|item items IH]; cbn [push_items]; [apply preserves_ret|].
  unfold push, _proc_agent, host_of, _mark_degraded. preserves_auto.
Qed.
#[local] Hint Resolve targets_push_items : preserves.
Lemma targets_dispatch_host task th :
  preserves (both targets) (_dispatch_host float_str container_str agent_online delivered task th).
Proof.
  unfold _dispatch_host, host_of, _mark_degraded, _mark_failed, by_package, fetch, _proc_agent, host_of, _pull_whitelist.
  preserves_auto.
Qed.
Lemma targets_finalize task : preserves (both targets) (_maybe_finalize task).
Proof.
  unfold _maybe_finalize, TransferHostRepository.stats, TransferHostRepository.by_task,
    TransferHostRepository.active_count, TransferTaskRepository.optimistic_update. preserves_auto.
Qed.
#[local] Hint Resolve targets_dispatch_host targets_finalize : preserves.
Lemma targets_kick_off i :
  preserves (both targets) (_kick_off_transfer float_str container_str agent_online delivered broker_up i).
Proof.
  unfold _kick_off_transfer, task_has_inprocess_transfer, agent_row_online, host_of, dispatch_here, transfer_dispatch,
    TransferHostRepository.by_task. preserves_auto.
  all: apply both_run_request; preserves_auto.
Qed.
#[local] Hint Resolve targets_kick_off : preserves.

Lemma visible_hosts_wp l :
  wf_table Host.Host before →
  wp (map_each l (visible_host user)) (λ r s', s' = before ∧ ∀ hs, r = inr hs → Forall (λ h, allowed (Host.id h)) hs) before.
Proof.
  intros [Hw _]. induction l as [|hid l IH]; [split; [done|]; by intros hs [= <-]|]. cbn [map_each].
  apply wp_bind. unfold visible_host. wp_run; try (split; [done|]; intros; discriminate).
  eapply wp_mono; [exact IH|]. intros [e|hs] s' [-> Hhs]; [by split|]. wp_run. split; [done|]. intros ? [= <-].
  constructor; [|by apply Hhs].
  match goal with H : tbl (work before) !! hid = Some ?h |- allowed (Host.id ?h) =>
    rename H into Hh; pose proof (wf_id Hw _ _ Hh) as Hid; change (row_id h) with (Host.id h) in Hid end.
  rewrite Hid. eexists. split; [exact Hh|].
  match goal with H : _ || _ = true |- _ => apply orb_true_iff in H as [|H]; [by left|right] end.
  destruct (Host.group_id _) as [g|]; [|done]. exists g. split; [done|]. by apply z_in_true.
Qed.

(** C39: A transfer task reaches only hosts its creator may see: whatever becomes
    of the request, every row of a host in the database was there before or is of
    a host the user has the data permission for. *)
Theorem transfer_targets_visible data r s' :
  wf_table Host.Host before → committed before = work before →
  run_request (create_task float_str container_str agent_online delivered broker_up user data) before = (r, s') →
  ∀ i h, tbl (committed s') !! i = Some h →
    (∃ h0, tbl (work before) !! i = Some h0 ∧ TransferHost.host_id h0 = TransferHost.host_id h) ∨
    allowed (TransferHost.host_id h).
Proof.
  intros Hwf Hc H. assert (both targets before) as H0.
  { split; rewrite ?Hc; intros i h Hi; left; by exists h. }
  assert (wp (create_task float_str container_str agent_online delivered broker_up user data)
    (λ _ s1, both targets s1) before) as Hp.
  { unfold create_task. apply wp_bind, wp_require_perm; [intros _|done]. apply wp_bind.
    apply wp_reads; [unfold require_transfer, _feature_enabled; preserves_auto|]. intros [e|[]] _; [done|].
    apply wp_bind. eapply wp_mono; [by apply visible_hosts_wp|].
    intros [e|hs] s1 [-> Hhs]; [done|]. specialize (Hhs hs eq_refl). rewrite Forall_forall in Hhs.
    apply (wp_preserves (both targets)); [|done|done]. unfold source_of, the_package, by_package, _task_no, _pull_whitelist.
    preserves_auto. apply targets_add. by apply Hhs. }
  unfold run_request in H. unfold wp in Hp. destruct (create_task _ _ _ _ _ _ _ _) as [r1 s1]. injection H as _ <-.
  exact (proj2 Hp).
Qed.
End targets.

(** ** Witnesses *)

Definition agent_host (i : Z) (agent : string) : Host.Host :=
  Host.mk i ("h" +:+ pretty i) ("10.0.0." +:+ pretty i) "linux" "" (Some 5) "prod" JNull "normal" "online" "agent" (Some agent) "" None "" None 0.
Definition push_task : Task :=
  TransferTask.mk 1 "TF-20260102-001" "push" (Some 3) None None "/opt" JNull 0 1 None "processing" (Some 7) 0 None None 0.
Definition target_row (i hid : Z) (st : string) : THost :=
  TransferHost.mk i 1 hid "h" "10.0.0.1" "agent" st 0 None None None None.
Definition transfer_db : Db :=
  empty_db <| hosts := {[4 := agent_host 4 "a4"; 5 := agent_host 5 "a5"]} |>
    <| file_packages := {[3 := FilePackage.mk 3 "pkg" 1 4 "store/p3" (Some 7) 0]} |>
    <| file_items := {[8 := FileItem.mk 8 3 "a.txt" 4 "00" 2]} |>
    <| transfer_tasks := {[1 := push_task]} |>
    <| transfer_hosts := {[1 := target_row 1 4 "pending"; 2 := target_row 2 5 "pending"]} |>.
Definition transfer_st : St :=
  on_db (λ _, transfer_db) init_st <| seqs := {["transfer_host" := 2; "asset_host" := 5]} |>.
Definition all_online (a : string) : bool := true.
Definition all_taken (a : string) (frame : json) : bool := true.

Lemma second_host_never_dispatched_witness :
  let item := FileItem.mk 8 3 "a.txt" 4 "00" 2 in
  ∃ s', transfer_dispatch (λ _, "") (λ _, "") all_online all_taken 1 transfer_st = (inl (IntegrityError "transfer_log"), s') ∧
    out s' = [EAgentFrame "a4" (file_send_frame push_task (target_row 1 4 "pending") item 0); EStartStream 1 8 0] ∧
    tbl (committed s') !! 2 = Some (target_row 2 5 "pending").
Proof.
  cbv zeta.
  destruct (second_host_never_dispatched (λ _, "") (λ _, "") all_online all_taken 1 push_task 3
    [FileItem.mk 8 3 "a.txt" 4 "00" 2] (target_row 1 4 "pending") (target_row 2 5 "pending") [] "a4" "a5" transfer_st)
    as (s' & H & Ho & _ & H2 & _); try reflexivity.
  - apply wf_tableb_spec. vm_compute. reflexivity.
  - discriminate.
  - exists (agent_host 4 "a4"). by repeat split.
  - exists (agent_host 5 "a5"). by repeat split.
  - exists s'. by split_and!.
Defined.

Definition finished_st : St :=
  let d := transfer_db <| transfer_hosts := {[1 := target_row 1 4 "success"; 2 := target_row 2 5 "degraded"]} |> in
  transfer_st <| work := d |> <| committed := d |>.
(** The comment of [_maybe_finalize] calls this a success. *)
Lemma transfer_verdict_spec_witness :
  ∃ s', _maybe_finalize push_task finished_st = (inr "partial", s') ∧
    TransferTask.status <$> (tbl (committed s') !! 1) = Some "partial".
Proof.
  destruct (transfer_verdict_spec push_task finished_st) as (r & s' & E & H); [reflexivity..|].
  assert (select_rows (TransferHostRepository.of_task (TransferTask.id push_task)) (tbl (work finished_st)) =
    [target_row 1 4 "success"; target_row 2 5 "degraded"]) as Hsel by (vm_compute; reflexivity).
  rewrite Hsel in H. cbv zeta in H.
  change (bool_decide (TransferTask.status push_task = "processing") &&
    negb (bool_decide ([target_row 1 4 "success"; target_row 2 5 "degraded"] = [])) && _) with true in H.
  destruct H as (Hr & Hc & Hw). cbn in Hr. subst r.
  exists s'. split; [exact E|]. rewrite Hc, Hw. reflexivity.
Defined.

Lemma stream_roundtrip_witness :
  let item := FileItem.mk 8 3 "a.txt" 5 "00" 2 in
  let disk path := if bool_decide (path = "store/p3/a.txt") then Some "hello" else None in
  ∃ before chunks, _stream all_taken id (λ _, 0) disk "a4" 1 item 1 transfer_st =
      (inr (), transfer_st <| out := out transfer_st ++ chunk_frames id (λ _, 0) "a4" 1 item 1 chunks |>) ∧
    "hello" = before +:+ concat_strings chunks ∧ Z.of_nat (String.length before) = 1.
Proof.
  cbv zeta.
  destruct (stream_roundtrip all_taken id (λ _, 0) (λ path, if bool_decide (path = "store/p3/a.txt") then Some "hello" else None)
    "a4" 1 (FileItem.mk 8 3 "a.txt" 5 "00" 2) 1 (FilePackage.mk 3 "pkg" 1 4 "store/p3" (Some 7) 0) "hello" transfer_st)
    as (before & chunks & E & Hc & Hl & _); [reflexivity|reflexivity|done|done|done|done|]. by exists before, chunks.
Defined.

Definition numbered_st : St :=
  transfer_st <| seqs := {["transfer_host" := 2; "asset_host" := 5; "transfer_task" := 1; "seq_transfer_no" := 1]} |>.
Definition operator : CurrentUser := plain_user 7 ["transfer:task:run"] [5].
Definition order : TransferTaskCreate.TransferTaskCreate :=
  TransferTaskCreate.mk "push" (Some 3) None None "/opt" [4] 0 1 None.
Definition ordered : (exn + json) * St :=
  run_request (create_task (λ _, "") (λ _, "") (λ _, false) all_taken true operator order) numbered_st.

Lemma transfer_targets_visible_witness :
  (∃ j, ordered.1 = inr j) ∧
  ∃ h, tbl (committed ordered.2) !! 3 = Some h ∧ TransferHost.host_id h = 4 ∧
    ((∃ h0, tbl (work numbered_st) !! 3 = Some h0 ∧ TransferHost.host_id h0 = TransferHost.host_id h) ∨
     allowed operator numbered_st (TransferHost.host_id h)).
Proof.
  split; [eexists; vm_compute; reflexivity|].
  assert (∃ h, tbl (committed ordered.2) !! 3 = Some h ∧ TransferHost.host_id h = 4) as (h & Hh & Hid).
  { eexists. split; [vm_compute; reflexivity|reflexivity]. }
  exists h. split; [exact Hh|]. split; [exact Hid|].
  apply (transfer_targets_visible (λ _, "") (λ _, "") (λ _, false) all_taken true operator
    numbered_st order ordered.1 ordered.2).
  - apply wf_tableb_spec. vm_compute. reflexivity.
  - reflexivity.
  - unfold ordered. by destruct (run_request _ _).
  - exact Hh.
Defined.
