(* ===== verification/Monitor.v ===== *)
(** * Alerts: the rule engine of [services/monitor_service.py]

    Rules, the life of an alert ([pending], [firing], [acknowledged],
    [resolved]) as events, people and the periodic sweep move it, its audit
    trail [mon_alert_event_log], escalation and notification. The events
    themselves come from MonitorIngest.v. *)

From S2P Require Import Prelude.
From S2P Require Import Models.
From S2P Require Import Session.
From S2P Require Import Repositories.
From S2P Require Import Access.
From S2P Require Import Notify.
From S2P Require Import Dispatch.

(** db/models/monitor.py *)
Definition MON_LEVELS : list string := ["info"; "warning"; "critical"].
Definition MON_RULE_OPS : list string := [">"; "<"; ">="; "<="; "=="; "!="].
Definition MON_ALERT_STATUSES : list string := ["pending"; "firing"; "acknowledged"; "resolved"].
Definition MON_ALERT_ACTIONS : list string := ["fire"; "acknowledge"; "escalate"; "resolve"; "suppress"].

Definition NOTIFY_SCENE : string := "alert".
Definition DEFAULT_METRIC_FRESHNESS_SECONDS : Z := 300.
Definition DEFAULT_SWEEP_INTERVAL_SECONDS : Z := 30.
Definition seconds (n : Z) : Z := n * 1000000.

(** ** Repositories (repositories/__init__.py) *)

Module MonRuleRepository.
Definition enabled_rules : Op (list MonRule.MonRule) :=
  db_select (λ r, (MonRule.deleted r =? 0) && (MonRule.enabled r =? 1)).
End MonRuleRepository.

(** [entity ->> 'entity_id' = e]; [IS NULL] for [None]. *)
Definition of_entity (e : option string) (a : MonAlert.MonAlert) : bool :=
  bool_decide (entity_key (MonAlert.entity a) = e).
Definition of_rule (rule_id : Z) (a : MonAlert.MonAlert) : bool := bool_decide (MonAlert.rule_id a = Some rule_id).

Module MonAlertRepository.
Definition active_by_rule_entity (rule_id : Z) (e : option string) : Op (option MonAlert.MonAlert) :=
  l ← db_select (λ a, of_rule rule_id a && of_entity e a && active_alert a); ret (last l).
Definition recently_resolved (rule_id : Z) (e : option string) (window_sec : Z) : Op (option MonAlert.MonAlert) :=
  n ← utc_now;
  l ← db_select (λ a, of_rule rule_id a && of_entity e a && bool_decide (MonAlert.status a = "resolved") &&
        match MonAlert.resolved_at a with Some t => n - seconds (Z.max window_sec 0) <=? t | None => false end);
  ret (last l).
Definition active (limit : nat) : Op (list MonAlert.MonAlert) :=
  l ← db_select active_alert; ret (take limit l).
(** The compare-and-swap; [fields] are the other columns it sets. *)
Definition optimistic_update (alert_id : Z) (from_status to_status : string) (version : Z)
    (fields : MonAlert.MonAlert → MonAlert.MonAlert) : Op bool :=
  db_cas alert_id (λ a, bool_decide (MonAlert.status a = from_status) && (MonAlert.version a =? version))
    (λ a, fields a <| MonAlert.status := to_status |> <| MonAlert.version := version + 1 |>).
End MonAlertRepository.

Module MonAlertEventLogRepository.
Definition append (alert_id : Z) (action : string) (from_status to_status severity : option string)
    (detail : json) (operator_id : option Z) : Op () :=
  _ ← db_add (MonAlertEventLog.mk 0 alert_id action from_status to_status severity detail operator_id 0); ret ().
Definition timeline (alert_id : Z) : Op (list MonAlertEventLog.MonAlertEventLog) :=
  db_select (λ e, MonAlertEventLog.alert_id e =? alert_id).
End MonAlertEventLogRepository.

Definition visible_entity_ids (group_ids : list Z) : Op (list string) :=
  match group_ids with
  | [] => ret []
  | _ =>
    l ← db_select (λ h : Host.Host, match Host.group_id h with Some g => z_in g group_ids | None => false end);
    ret (concat ((λ h,
      (if bool_decide (Host.ip h = "") then [] else [Host.ip h]) ++
      (if bool_decide (Host.hostname h = "") then [] else [Host.hostname h]) ++
      [pretty (Host.id h)]) <$> l))
  end.

(** [j == 0] *)
Definition is_zero (j : json) : bool :=
  match j with JBool b => negb b | JInt z => z =? 0 | JFloat q => Qnum q =? 0 | _ => false end.
Definition _feature_enabled : Op bool :=
  o ← ConfigRuleRepository.by_key "feature.monitor";
  match o with
  | Some rule =>
      if truthy (ConfigRule.rule_value rule) then
        e ← dict_get "enabled" (ConfigRule.rule_value rule); ret (negb (is_zero e))
      else ret true
  | None => ret true
  end.
Definition _config_seconds (key : string) (d : Z) : Op Z :=
  o ← ConfigRuleRepository.by_key key;
  match o with
  | Some rule =>
      let raw := ConfigRule.rule_value rule in
      let val := match raw with JObj items => default JNull (assoc_get "seconds" items) | _ => raw end in
      ret (match val with
           | JNull => d
           | _ => match py_int val with inr z => z | inl _ => d end
           end)
  | None => ret d
  end.

Section monitor.
Variable float_str : Q → string.
Variable container_str : json → string.
(** [float(s)]: [None] when it raises. *)
Variable float_of_str : string → option Q.
Variable decrypt_secret : string → option string.
Variable loads : string → option json.
Variable http_post : json → json → option exn.
Variable exc_text : exn → string.
Variable redis_up : bool.
#[local] Abbreviation str := (py_str float_str container_str).

Definition _to_float (value : json) : option Q :=
  match value with
  | JBool _ => None
  | JInt z => Some (inject_Z z)
  | JFloat q => Some q
  | _ => float_of_str (str value)
  end.

(** ** Rules and events *)

Definition _resolve_metric_name (raw : json) : Op (option string) :=
  l ← dict_get "labels" raw;
  let labels := j_or l (JObj []) in
  a ← dict_get "metric_name" labels;
  b ← dict_get "__name__" labels;
  c ← dict_get "metric_name" raw;
  d ← dict_get "name" raw;
  let name := j_or a (j_or b (j_or c d)) in
  ret (if truthy name then
         let s := strip (str name) in
         if bool_decide (s = "") || bool_decide (lower s = "unknown") then None else Some s
       else None).

Definition event_entity (event : json) : Op json :=
  e ← dict_get "entity" event; ret (j_or e (JObj [])).
Definition _rule_pertains (rule : MonRule.MonRule) (event : json) : Op bool :=
  kind ← dict_get "kind" event;
  source ← dict_get "source" event;
  let same (j : json) (s : string) := match j with JStr x => bool_decide (x = s) | _ => false end in
  if negb (same kind (MonRule.event_kind rule)) then ret false else
  if s_truthy (MonRule.event_source rule) && negb (same source (default "" (MonRule.event_source rule))) then ret false else
  other ← (if bool_decide (MonRule.event_kind rule = "metric") then
             name ← _resolve_metric_name event;
             ret (s_truthy (MonRule.metric_name rule) && negb (bool_decide (Some (default "" name) = MonRule.metric_name rule)))
           else ret false);
  if other : bool then ret false else
  if s_truthy (MonRule.scope_type rule) then
    entity ← event_entity event;
    i ← dict_get "entity_id" entity;
    let scope := default [] (MonRule.scope_ids rule) in
    ret (bool_decide (scope = []) || str_in (str i) scope)
  else ret true.

(** [None] stands for a value that is not a number: only [!=] holds of it. *)
Definition _check_condition (rule : MonRule.MonRule) (value : option Q) : bool :=
  let op := MonRule.condition_operator rule in
  let t := MonRule.condition_threshold rule in
  match value with
  | None => bool_decide (op = "!=")
  | Some v =>
      if bool_decide (op = "==") then Qeq_bool v t
      else if bool_decide (op = "!=") then negb (Qeq_bool v t)
      else if bool_decide (op = ">") then negb (Qle_bool v t)
      else if bool_decide (op = "<") then negb (Qle_bool t v)
      else if bool_decide (op = ">=") then Qle_bool t v
      else if bool_decide (op = "<=") then Qle_bool v t
      else false
  end.
(** [value if isinstance(value, (int, float)) else _to_float(value)] *)
Definition number_of (value : json) : option Q :=
  match value with JBool b => Some (if b then 1 else 0)%Q | _ => _to_float value end.
Definition _condition_met (rule : MonRule.MonRule) (event : json) : Op bool :=
  value ← dict_get "value" event;
  match value with
  | JNull => ret true
  | _ => ret (_check_condition rule (number_of value))
  end.

(** ** The audit trail, broadcasts and notifications *)

(** Assigning attributes of the alert that the session tracks. *)
Definition stamp (a : MonAlert.MonAlert) (f : MonAlert.MonAlert → MonAlert.MonAlert) : Op MonAlert.MonAlert :=
  db_upd (MonAlert.id a) f;; ret (f a).

Definition _log_alert_event (a : MonAlert.MonAlert) (action : string) (from_status to_status : option string)
    (detail : json) : Op () :=
  if negb (str_in action MON_ALERT_ACTIONS) then ret () else
  db_flush;;
  MonAlertEventLogRepository.append (MonAlert.id a) action from_status to_status (Some (MonAlert.severity a)) detail None.

Definition jq (x : option Q) : json := match x with Some q => JFloat q | None => JNull end.
Definition _alert_out (a : MonAlert.MonAlert) : json :=
  let created := jtime (Some (MonAlert.created_at a)) in
  JObj [
    ("id", JInt (MonAlert.id a)); ("rule_id", jz (MonAlert.rule_id a)); ("rule_name", JStr (MonAlert.rule_name a));
    ("entity", j_or (MonAlert.entity a) (JObj [])); ("entity_id", jget_or "entity_id" JNull (MonAlert.entity a));
    ("source", JStr (MonAlert.source a)); ("status", JStr (MonAlert.status a));
    ("severity", JStr (MonAlert.severity a)); ("last_value", jq (MonAlert.last_value a));
    ("fired_at", jtime (MonAlert.fired_at a)); ("resolved_at", jtime (MonAlert.resolved_at a));
    ("start", match MonAlert.fired_at a with Some _ => jtime (MonAlert.fired_at a) | None => created end);
    ("end", jtime (MonAlert.resolved_at a)); ("action", JStr "fire"); ("ts", created)].
Definition _broadcast_alert (a : MonAlert.MonAlert) : Op () :=
  emit_out (EBroadcast "monitor" (MonAlert.id a) (JObj [("type", JStr "alert"); ("data", _alert_out a)])).

Definition newline : string := String (Ascii.ascii_of_N 10) "".
Definition alert_text (a : MonAlert.MonAlert) : string :=
  let e := j_or (jget_or "entity_name" JNull (MonAlert.entity a)) (jget_or "entity_id" JNull (MonAlert.entity a)) in
  "告警对象: " +:+ str e +:+ newline +:+ "级别: " +:+ MonAlert.severity a +:+ newline +:+
  "状态: " +:+ MonAlert.status a +:+ newline +:+ "最近值: " +:+ str (jq (MonAlert.last_value a)) +:+ newline +:+
  "源: " +:+ MonAlert.source a.
(** [notify_service.send] answers for the channel's own errors. Its commit can
    only fail by a row that was not flushed; then the session refuses every
    later statement, so the exception is taken to leave the request here. *)
Definition _send_alert_notify (a : MonAlert.MonAlert) (rule : MonRule.MonRule) (title : string) : Op () :=
  for_each (default [] (MonRule.notify_channel_ids rule)) (λ cid,
    _ ← send decrypt_secret loads http_post exc_text (Some cid) NOTIFY_SCENE "" title (alert_text a); ret ()).

Definition latest (l : list Z) : option Z :=
  foldr (λ t m, Some (match m with Some x => Z.max t x | None => t end)) None l.
Definition _maybe_notify (a : MonAlert.MonAlert) (rule : MonRule.MonRule) : Op string :=
  let cooldown_sec := Z.max (MonRule.cooldown_seconds rule) 0 in
  n ← utc_now;
  sends ← MonAlertEventLogRepository.timeline (MonAlert.id a);
  let last_at := latest (MonAlertEventLog.at_ <$> filter (λ e, MonAlertEventLog.action e = "fire") sends) in
  if (0 <? cooldown_sec) && match last_at with Some t => n - t <? seconds cooldown_sec | None => false end then
    _log_alert_event a "suppress" (Some (MonAlert.status a)) (Some (MonAlert.status a)) (JObj [("cooldown_window", JInt 1)]);;
    ret "suppress"
  else
    _send_alert_notify a rule ("告警触发：" +:+ MonAlert.rule_name a);;
    ret "fire".

(** The next level of the escalation path: its place and its name. *)
Definition next_level (a : MonAlert.MonAlert) (rule : MonRule.MonRule) : option (nat * string) :=
  let levels := default [] (MonRule.escalate_levels rule) in
  let next_idx := match list_find (.= MonAlert.severity a) levels with Some (i, _) => S i | None => 0%nat end in
  (λ l, (next_idx, l)) <$> levels !! next_idx.
(** The alert after the escalation, when there is one. *)
Definition _maybe_escalate (a : MonAlert.MonAlert) (rule : MonRule.MonRule) : Op (option MonAlert.MonAlert) :=
  let after := z_or (MonRule.escalation_after_seconds rule) 0 in
  match MonAlert.fired_at a with
  | Some fired =>
      if (MonRule.escalation_enabled rule =? 0) || (after <=? 0) then ret None else
      match next_level a rule with
      | None => ret None
      | Some (next_idx, target) =>
          n ← utc_now;
          if n - fired <? seconds (after * (Z.of_nat next_idx + 1)) then ret None else
          a ← stamp a (λ a, a <| MonAlert.severity := target |>);
          _log_alert_event a "escalate" (Some (MonAlert.status a)) (Some (MonAlert.status a))
            (JObj [("after_seconds", JInt after); ("level", JStr target)]);;
          _send_alert_notify a rule ("升级告警提醒：" +:+ MonAlert.rule_name a);;
          ret (Some a)
      end
  | None => ret None
  end.

(** ** One event against one rule *)

Definition outcome (rule : MonRule.MonRule) (action : string) (to_status : option string) : json :=
  JObj (("rule_id", JInt (MonRule.id rule)) :: ("action", JStr action) ::
        match to_status with Some s => [("to_status", JStr s)] | None => [] end).

(** The SQL argument for [entity_id]: text compares with nothing else. *)
Definition entity_arg (entity_id : json) : Op (option string) :=
  match entity_id with
  | JNull => ret None
  | JStr s => ret (Some s)
  | _ => raise (OtherError "ProgrammingError: operator does not exist")
  end.

Definition _resolve_alert_engine (a : MonAlert.MonAlert) (reason : string) : Op bool :=
  if bool_decide (MonAlert.status a = "resolved") then ret false else
  n ← utc_now;
  let from_status := MonAlert.status a in
  won ← MonAlertRepository.optimistic_update (MonAlert.id a) from_status "resolved" (MonAlert.version a)
          (λ x, x <| MonAlert.resolved_at := Some n |>);
  if negb won then ret false else
  a ← stamp a (λ x, x <| MonAlert.version := MonAlert.version a + 1 |> <| MonAlert.status := "resolved" |>
                      <| MonAlert.resolved_at := Some n |>);
  _log_alert_event a "resolve" (Some from_status) (Some "resolved") (JObj [("reason", JStr reason)]);;
  rule ← match MonAlert.rule_id a with
         | Some i => if i =? 0 then ret None else db_get i
         | None => ret None
         end;
  match rule with
  | Some rule => _send_alert_notify a rule ("告警恢复：" +:+ MonAlert.rule_name a)
  | None => ret ()
  end;;
  ret true.

Definition _try_converge (rule : MonRule.MonRule) (event : json) (e : option string) : Op (option MonAlert.MonAlert) :=
  let window := MonRule.converge_sec rule in
  if window <=? 0 then ret None else
  o ← MonAlertRepository.recently_resolved (MonRule.id rule) e window;
  match o with
  | None => ret None
  | Some recent =>
      n ← utc_now;
      won ← MonAlertRepository.optimistic_update (MonAlert.id recent) "resolved" "pending" (MonAlert.version recent)
              (λ x, x <| MonAlert.resolved_at := None |> <| MonAlert.fired_at := None |>);
      if negb won then ret None else
      value ← dict_get "value" event;
      a ← stamp recent (λ x, x
            <| MonAlert.version := MonAlert.version recent + 1 |> <| MonAlert.status := "pending" |>
            <| MonAlert.resolved_at := None |> <| MonAlert.fired_at := None |>
            <| MonAlert.pending_since := Some n |> <| MonAlert.last_event_at := Some n |>
            <| MonAlert.hit_count := MonAlert.hit_count recent + 1 |> <| MonAlert.last_value := _to_float value |>);
      _log_alert_event a "fire" (Some "resolved") (Some "pending")
        (JObj [("reason", JStr "converge window reopen"); ("converge_sec", JInt window)]);;
      _broadcast_alert a;;
      ret (Some a)
  end.

Definition fallback_entity : json :=
  JObj [("entity_type", JStr "host"); ("entity_id", JStr "unknown"); ("entity_name", JStr "unknown")].
Definition no_cast : exn := OtherError "ProgrammingError: can't adapt".
(** A text column given a JSON value. *)
Definition text_of (j : json) : Op string := match j with JStr s => ret s | _ => raise no_cast end.
Definition new_alert (rule : MonRule.MonRule) (entity : json) (source severity : string) (value : option Q) (n : Z)
    : MonAlert.MonAlert := {|
  MonAlert.id := 0; MonAlert.rule_id := Some (MonRule.id rule); MonAlert.rule_name := MonRule.name rule;
  MonAlert.entity := entity; MonAlert.source := source; MonAlert.status := "pending";
  MonAlert.severity := severity; MonAlert.last_value := value; MonAlert.hit_count := 1;
  MonAlert.fired_at := None; MonAlert.resolved_at := None; MonAlert.last_event_at := Some n;
  MonAlert.pending_since := Some n; MonAlert.version := 0; MonAlert.created_at := 0 |}.
Definition open_alert (rule : MonRule.MonRule) (event : json) (n : Z) : Op json :=
  e ← dict_get "entity" event;
  source ← text_of (jget_or "source" (JStr "agent") event);
  sev ← dict_get "severity" event;
  severity ← text_of (j_or (JStr (MonRule.level rule)) (j_or sev (JStr "warning")));
  value ← dict_get "value" event;
  db_flush;;
  a ← db_add (new_alert rule (j_or e fallback_entity) source severity (_to_float value) n);
  _log_alert_event a "fire" None (Some "pending") (JObj [("reason", JStr "first condition hit")]);;
  _broadcast_alert a;;
  ret (outcome rule "fire" (Some "pending")).

(** A pending alert whose condition still holds. *)
Definition fire_or_wait (rule : MonRule.MonRule) (a : MonAlert.MonAlert) (n : Z) : Op (option json) :=
  let anchor := default (MonAlert.created_at a) (MonAlert.pending_since a) in
  if seconds (MonRule.condition_duration_seconds rule) <=? n - anchor then
    won ← MonAlertRepository.optimistic_update (MonAlert.id a) "pending" "firing" (MonAlert.version a)
            (λ x, x <| MonAlert.fired_at := Some n |> <| MonAlert.last_value := MonAlert.last_value a |>);
    if negb won then ret None else
    a ← stamp a (λ x, x <| MonAlert.version := MonAlert.version a + 1 |> <| MonAlert.status := "firing" |>
                        <| MonAlert.fired_at := Some n |>);
    _log_alert_event a "fire" (Some "pending") (Some "firing")
      (JObj [("condition_duration_seconds", JInt (MonRule.condition_duration_seconds rule))]);;
    action ← _maybe_notify a rule;
    _broadcast_alert a;;
    ret (Some (outcome rule action (Some "firing")))
  else
    _log_alert_event a "suppress" (Some "pending") (Some "pending") (JObj [("waiting_duration", JBool true)]);;
    ret (Some (outcome rule "suppress" None)).
(** A firing or acknowledged alert whose condition still holds. *)
Definition keep_firing (rule : MonRule.MonRule) (a : MonAlert.MonAlert) : Op (option json) :=
  won ← MonAlertRepository.optimistic_update (MonAlert.id a) (MonAlert.status a) (MonAlert.status a) (MonAlert.version a)
          (λ x, x <| MonAlert.last_value := MonAlert.last_value a |>);
  a ← (if won : bool then stamp a (λ x, x <| MonAlert.version := MonAlert.version a + 1 |>) else ret a);
  out ← _maybe_notify a rule;
  escalated ← _maybe_escalate a rule;
  let a := default a escalated in
  let action := match escalated with Some _ => "escalate" | None => out end in
  when (negb (bool_decide (action = "suppress"))) (_broadcast_alert a);;
  ret (Some (outcome rule action (Some (MonAlert.status a)))).

Definition evaluate_rule (event entity_id : json) (rule : MonRule.MonRule) : Op (option json) :=
  e ← entity_arg entity_id;
  found ← MonAlertRepository.active_by_rule_entity (MonRule.id rule) e;
  pertains ← _rule_pertains rule event;
  if negb pertains then ret None else
  n ← utc_now;
  met ← _condition_met rule event;
  if negb met then
    match found with
    | Some a =>
        if bool_decide (MonAlert.status a = "resolved") then ret None else
        _ ← _resolve_alert_engine a "condition not met";
        ret (Some (outcome rule "resolve" None))
    | None => ret None
    end
  else
    match found with
    | None =>
        reopened ← _try_converge rule event e;
        match reopened with
        | Some a => ret (Some (outcome rule "converge" (Some (MonAlert.status a))))
        | None => o ← open_alert rule event n; ret (Some o)
        end
    | Some a =>
        value ← dict_get "value" event;
        a ← stamp a (λ x, x <| MonAlert.last_event_at := Some n |>
                            <| MonAlert.hit_count := MonAlert.hit_count a + 1 |>
                            <| MonAlert.last_value := _to_float value |>);
        if bool_decide (MonAlert.status a = "pending") then fire_or_wait rule a n
        else if str_in (MonAlert.status a) ["firing"; "acknowledged"] then keep_firing rule a
        else ret None
    end.

Definition evaluate_event (event : json) : Op (list json) :=
  entity ← event_entity event;
  entity_id ← dict_get "entity_id" entity;
  rules ← MonRuleRepository.enabled_rules;
  l ← map_each rules (evaluate_rule event entity_id);
  ret (omap id l).

(** ** The sweep of the beat *)

Definition _is_stale (a : MonAlert.MonAlert) (n freshness_sec : Z) : bool :=
  match MonAlert.last_event_at a with Some l => seconds freshness_sec <? n - l | None => false end.

Definition sweep_key : string := "mon:sweep:last".
Definition _sweep_due (n : Z) : Op bool :=
  interval ← _config_seconds "monitor.sweep_interval" DEFAULT_SWEEP_INTERVAL_SECONDS;
  if interval <=? 0 then ret true else
  if negb redis_up then ret true else
  l ← gets (λ s, slots s !! sweep_key);
  if match l with Some t => n - t <? seconds interval | None => false end then ret false else
  modify (λ s, s <| slots := <[sweep_key := n]> (slots s) |>);;
  ret true.

(** [(fired, escalated)] so far, after one alert. *)
Definition sweep_alert (freshness : Z) (count : Z * Z) (a : MonAlert.MonAlert) : Op (Z * Z) :=
  o ← match MonAlert.rule_id a with
      | Some i => if i =? 0 then ret None else db_get i
      | None => ret None
      end;
  match o with
  | None => ret count
  | Some rule =>
      if negb (MonRule.deleted rule =? 0) || (MonRule.enabled rule =? 0) then ret count else
      n ← utc_now;
      if _is_stale a n freshness then ret count else
      if bool_decide (MonAlert.status a = "pending") then
        let anchor := default (MonAlert.created_at a) (MonAlert.pending_since a) in
        if negb (seconds (MonRule.condition_duration_seconds rule) <=? n - anchor) then ret count else
        won ← MonAlertRepository.optimistic_update (MonAlert.id a) "pending" "firing" (MonAlert.version a)
                (λ x, x <| MonAlert.fired_at := Some n |>);
        if negb won then ret count else
        a ← stamp a (λ x, x <| MonAlert.version := MonAlert.version a + 1 |> <| MonAlert.status := "firing" |>
                            <| MonAlert.fired_at := Some n |>);
        _log_alert_event a "fire" (Some "pending") (Some "firing") (JObj [("reason", JStr "sweep duration elapsed")]);;
        _ ← _maybe_notify a rule;
        _broadcast_alert a;;
        ret (count.1 + 1, count.2)
      else
        escalated ← _maybe_escalate a rule;
        match escalated with
        | Some a => _broadcast_alert a;; ret (count.1, count.2 + 1)
        | None => ret count
        end
  end.

Inductive swept := SweptAll (fired escalated : Z) | FeatureDisabled | NotDue.
Definition sweep_active_alerts : Op swept :=
  on ← _feature_enabled;
  if negb on then ret FeatureDisabled else
  n ← utc_now;
  due ← _sweep_due n;
  if negb due then ret NotDue else
  freshness ← _config_seconds "monitor.metric_freshness_seconds" DEFAULT_METRIC_FRESHNESS_SECONDS;
  alerts ← MonAlertRepository.active 500;
  count ← fold_each alerts (0, 0) (sweep_alert freshness);
  flush_commit;;
  ret (SweptAll count.1 count.2).

(** ** Alerts through the API *)

Definition _visible_entity_ids (user : CurrentUser) : Op (option (list string)) :=
  if is_admin user then ret None else
  l ← visible_entity_ids (visible_group_ids user); ret (Some l).
(** [str((entity or {}).get("entity_id")) in visible] *)
Definition _entity_in_scope (visible : option (list string)) (entity : json) : bool :=
  match visible with
  | None => true
  | Some l => str_in (str (jget_or "entity_id" JNull entity)) l
  end.

Definition _alert_event_out (e : MonAlertEventLog.MonAlertEventLog) : json := JObj [
  ("id", JInt (MonAlertEventLog.id e)); ("action", JStr (MonAlertEventLog.action e));
  ("from_status", js (MonAlertEventLog.from_status e)); ("to_status", js (MonAlertEventLog.to_status e));
  ("severity", js (MonAlertEventLog.severity e)); ("detail", MonAlertEventLog.detail e);
  ("operator_id", jz (MonAlertEventLog.operator_id e)); ("at", jtime (Some (MonAlertEventLog.at_ e)))].

(** The filters of [MonAlertRepository.search]. *)
Record AlertFilter := mkFilter {
  f_rule_id : option Z; f_status : option string; f_source : option string; f_entity_id : option string;
  f_start : option Z; f_end : option Z }.
Definition at_least (x t : option Z) : bool :=
  match x with Some l => match t with Some t => l <=? t | None => false end | None => true end.
Definition at_most (x t : option Z) : bool :=
  match x with Some h => match t with Some t => t <=? h | None => false end | None => true end.
Definition alert_matches (f : AlertFilter) (visible : option (list string)) (a : MonAlert.MonAlert) : bool :=
  (if z_truthy (f_rule_id f) then bool_decide (MonAlert.rule_id a = f_rule_id f) else true) &&
  opt_cond (f_status f) (λ x, bool_decide (MonAlert.status a = x)) &&
  opt_cond (f_source f) (λ x, bool_decide (MonAlert.source a = x)) &&
  opt_cond (f_entity_id f) (λ x, of_entity (Some x) a) &&
  at_least (f_start f) (MonAlert.fired_at a) && at_most (f_end f) (MonAlert.fired_at a) &&
  match visible, entity_key (MonAlert.entity a) with
  | Some l, Some e => str_in e l
  | Some _, None => false
  | None, _ => true
  end.
Definition list_alerts (user : CurrentUser) (f : AlertFilter) (page size : Z) : Op json :=
  require_perm user "monitor:alert:list";;
  visible ← _visible_entity_ids user;
  l ← db_select (alert_matches f visible);
  ret (JObj [("list", JArr (_alert_out <$> page_of l page size)); ("total", JInt (Z.of_nat (length l)));
             ("page", JInt page); ("size", JInt size)]).

(** An alert the user may see. *)
Definition seen_alert (user : CurrentUser) (alert_id : Z) : Op MonAlert.MonAlert :=
  o ← db_get alert_id;
  a ← some_or o (NotFoundError "alert not found");
  visible ← _visible_entity_ids user;
  guard_or (_entity_in_scope visible (MonAlert.entity a)) (NotFoundError "alert not found");;
  ret a.
Definition get_alert (user : CurrentUser) (alert_id : Z) : Op json :=
  require_perm user "monitor:alert:view";;
  a ← seen_alert user alert_id;
  l ← MonAlertEventLogRepository.timeline alert_id;
  ret (jset "events" (JArr (_alert_event_out <$> l)) (_alert_out a)).
Definition alert_events (user : CurrentUser) (alert_id : Z) : Op json :=
  require_perm user "monitor:alert:view";;
  _ ← seen_alert user alert_id;
  l ← MonAlertEventLogRepository.timeline alert_id;
  ret (JObj [("list", JArr (_alert_event_out <$> l))]).

Definition acknowledge_alert (user : CurrentUser) (alert_id : Z) (remark : string) : Op json :=
  require_perm user "monitor:alert:ack";;
  a ← seen_alert user alert_id;
  guard_or (bool_decide (MonAlert.status a = "firing"))
    (BadRequestError ("alert not firing (status=" +:+ MonAlert.status a +:+ ")"));;
  won ← MonAlertRepository.optimistic_update (MonAlert.id a) "firing" "acknowledged" (MonAlert.version a) id;
  guard_or won (ForbiddenError "alert changed concurrently");;
  a ← stamp a (λ x, x <| MonAlert.version := MonAlert.version a + 1 |> <| MonAlert.status := "acknowledged" |>);
  MonAlertEventLogRepository.append (MonAlert.id a) "acknowledge" (Some "firing") (Some "acknowledged")
    (Some (MonAlert.severity a)) (JObj [("remark", JStr remark)]) (Some (user_id user));;
  db_commit;;
  _broadcast_alert a;;
  ret (_alert_out a).
Definition resolve_alert (user : CurrentUser) (alert_id : Z) (remark : string) : Op json :=
  require_perm user "monitor:alert:resolve";;
  a ← seen_alert user alert_id;
  guard_or (str_in (MonAlert.status a) ["pending"; "firing"; "acknowledged"])
    (BadRequestError ("alert already resolved (status=" +:+ MonAlert.status a +:+ ")"));;
  n ← utc_now;
  let from_status := MonAlert.status a in
  won ← MonAlertRepository.optimistic_update (MonAlert.id a) from_status "resolved" (MonAlert.version a)
          (λ x, x <| MonAlert.resolved_at := Some n |>);
  guard_or won (ForbiddenError "alert changed concurrently");;
  a ← stamp a (λ x, x <| MonAlert.version := MonAlert.version a + 1 |> <| MonAlert.status := "resolved" |>
                      <| MonAlert.resolved_at := Some n |>);
  MonAlertEventLogRepository.append (MonAlert.id a) "resolve" (Some from_status) (Some "resolved")
    (Some (MonAlert.severity a)) (JObj [("remark", JStr remark)]) (Some (user_id user));;
  db_commit;;
  _broadcast_alert a;;
  ret (_alert_out a).

(** ** Rules *)

Definition jlist (l : list string) : json := JArr (JStr <$> l).
Definition _rule_out (r : MonRule.MonRule) : json := JObj [
  ("id", JInt (MonRule.id r)); ("name", JStr (MonRule.name r)); ("description", js (MonRule.description r));
  ("event_kind", JStr (MonRule.event_kind r)); ("event_source", js (MonRule.event_source r));
  ("metric_name", js (MonRule.metric_name r)); ("condition_operator", JStr (MonRule.condition_operator r));
  ("condition_threshold", JFloat (MonRule.condition_threshold r));
  ("condition_duration_seconds", JInt (MonRule.condition_duration_seconds r));
  ("scope_type", js (MonRule.scope_type r)); ("scope_ids", jlist (default [] (MonRule.scope_ids r)));
  ("level", JStr (MonRule.level r)); ("cooldown_seconds", JInt (MonRule.cooldown_seconds r));
  ("converge_sec", JInt (MonRule.converge_sec r)); ("escalation_enabled", JInt (MonRule.escalation_enabled r));
  ("escalation_after_seconds", jz (MonRule.escalation_after_seconds r));
  ("escalation_severity", js (MonRule.escalation_severity r));
  ("escalate_levels", jlist (default [] (MonRule.escalate_levels r)));
  ("notify_scene", JStr (MonRule.notify_scene r));
  ("notify_channel_ids", JArr (JInt <$> default [] (MonRule.notify_channel_ids r)));
  ("enabled", JInt (MonRule.enabled r)); ("created_by", jz (MonRule.created_by r));
  ("created_at", jtime (Some (MonRule.created_at r)))].

Record RuleFilter := mkRuleFilter {
  r_name : option string; r_event_kind : option string; r_event_source : option string; r_enabled : option Z }.
Variable ilike : string → string → bool.
Definition rule_matches (f : RuleFilter) (r : MonRule.MonRule) : bool :=
  (MonRule.deleted r =? 0) &&
  opt_cond (r_name f) (λ x, ilike (MonRule.name r) ("%" +:+ x +:+ "%")) &&
  opt_cond (r_event_kind f) (λ x, bool_decide (MonRule.event_kind r = x)) &&
  opt_cond (r_event_source f) (λ x, bool_decide (MonRule.event_source r = Some x)) &&
  match r_enabled f with Some e => MonRule.enabled r =? e | None => true end.
Definition list_rules (user : CurrentUser) (f : RuleFilter) (page size : Z) : Op json :=
  require_perm user "monitor:rule:list";;
  l ← db_select (rule_matches f);
  ret (JObj [("list", JArr (_rule_out <$> page_of l page size)); ("total", JInt (Z.of_nat (length l)));
             ("page", JInt page); ("size", JInt size)]).

(** [MonRuleCreate] and [MonRuleUpdate] of schemas/__init__.py: a rule without
    the columns of the server, and a change of each field that is not null. *)
Record MonRuleUpdate := mkRuleUpdate {
  u_name : option string; u_description : option string; u_enabled : option Z; u_event_source : option string;
  u_event_kind : option string; u_metric_name : option string; u_condition_operator : option string;
  u_condition_threshold : option Q; u_condition_duration_seconds : option Z; u_cooldown_seconds : option Z;
  u_scope_type : option string; u_level : option string; u_converge_sec : option Z;
  u_escalation_enabled : option Z; u_escalation_after_seconds : option Z; u_escalation_severity : option string;
  u_notify_scene : option string; u_notify_channel_ids : option (list Z); u_scope_ids : option (list string);
  u_escalate_levels : option (list string) }.
(** [{"ids": l} if l else None] *)
Definition ids_or_none {A} (l : option (list A)) : option (list A) :=
  match l with Some (_ :: _) => l | _ => None end.
Definition create_rule (user : CurrentUser) (data : MonRule.MonRule) : Op json :=
  require_perm user "monitor:rule:add";;
  on ← _feature_enabled;
  guard_or on (BadRequestError "monitor feature disabled");;
  guard_or (str_in (MonRule.condition_operator data) MON_RULE_OPS)
    (BadRequestError ("invalid operator: " +:+ MonRule.condition_operator data));;
  r ← db_add (data <| MonRule.scope_ids := ids_or_none (MonRule.scope_ids data) |>
                   <| MonRule.escalate_levels := ids_or_none (MonRule.escalate_levels data) |>
                   <| MonRule.notify_channel_ids := Some (default [] (MonRule.notify_channel_ids data)) |>
                   <| MonRule.created_by := Some (user_id user) |> <| MonRule.deleted := 0 |>);
  db_commit;;
  ret (_rule_out r).
Definition live_rule (rule_id : Z) : Op MonRule.MonRule :=
  o ← db_get rule_id;
  some_or (match o with Some r => if MonRule.deleted r =? 0 then Some r else None | None => None end)
    (NotFoundError "rule not found").
Definition or_old {A} (new old : option A) : option A := match new with Some _ => new | None => old end.
Definition updated_rule (d : MonRuleUpdate) (r : MonRule.MonRule) : MonRule.MonRule :=
  r <| MonRule.name := default (MonRule.name r) (u_name d) |>
    <| MonRule.description := or_old (u_description d) (MonRule.description r) |>
    <| MonRule.enabled := default (MonRule.enabled r) (u_enabled d) |>
    <| MonRule.event_source := or_old (u_event_source d) (MonRule.event_source r) |>
    <| MonRule.event_kind := default (MonRule.event_kind r) (u_event_kind d) |>
    <| MonRule.metric_name := or_old (u_metric_name d) (MonRule.metric_name r) |>
    <| MonRule.condition_operator := default (MonRule.condition_operator r) (u_condition_operator d) |>
    <| MonRule.condition_threshold := default (MonRule.condition_threshold r) (u_condition_threshold d) |>
    <| MonRule.condition_duration_seconds := default (MonRule.condition_duration_seconds r) (u_condition_duration_seconds d) |>
    <| MonRule.cooldown_seconds := default (MonRule.cooldown_seconds r) (u_cooldown_seconds d) |>
    <| MonRule.scope_type := or_old (u_scope_type d) (MonRule.scope_type r) |>
    <| MonRule.level := default (MonRule.level r) (u_level d) |>
    <| MonRule.converge_sec := default (MonRule.converge_sec r) (u_converge_sec d) |>
    <| MonRule.escalation_enabled := default (MonRule.escalation_enabled r) (u_escalation_enabled d) |>
    <| MonRule.escalation_after_seconds := or_old (u_escalation_after_seconds d) (MonRule.escalation_after_seconds r) |>
    <| MonRule.escalation_severity := or_old (u_escalation_severity d) (MonRule.escalation_severity r) |>
    <| MonRule.notify_scene := default (MonRule.notify_scene r) (u_notify_scene d) |>
    <| MonRule.notify_channel_ids := or_old (u_notify_channel_ids d) (MonRule.notify_channel_ids r) |>
    <| MonRule.scope_ids := or_old (u_scope_ids d) (MonRule.scope_ids r) |>
    <| MonRule.escalate_levels := or_old (u_escalate_levels d) (MonRule.escalate_levels r) |>.
Definition update_rule (user : CurrentUser) (rule_id : Z) (data : MonRuleUpdate) : Op json :=
  require_perm user "monitor:rule:edit";;
  r ← live_rule rule_id;
  db_upd rule_id (updated_rule data);;
  db_commit;;
  ret (_rule_out (updated_rule data r)).
Definition delete_rule (user : CurrentUser) (rule_id : Z) : Op json :=
  require_perm user "monitor:rule:del";;
  r ← live_rule rule_id;
  db_upd rule_id (λ r : MonRule.MonRule, r <| MonRule.deleted := 1 |>);;
  db_commit;;
  ret (JObj [("id", JInt (MonRule.id r)); ("deleted", JBool true)]).
Definition set_rule_status (user : CurrentUser) (rule_id enabled : Z) : Op json :=
  require_perm user "monitor:rule:status";;
  r ← live_rule rule_id;
  db_upd rule_id (λ r : MonRule.MonRule, r <| MonRule.enabled := enabled |>);;
  db_commit;;
  ret (JObj [("id", JInt (MonRule.id r)); ("enabled", JInt enabled)]).

(** ** The audit trail accounts for every alert *)

(** The changes of status an alert may go through; [None] is before it exists. *)
Definition alert_moves : list (option string * string) := [
  (None, "pending"); (Some "pending", "firing"); (Some "pending", "resolved"); (Some "firing", "acknowledged");
  (Some "firing", "resolved"); (Some "acknowledged", "resolved"); (Some "resolved", "pending")].
Definition legal_move (from : option string) (to : string) : bool :=
  bool_decide (from = Some to) || bool_decide ((from, to) ∈ alert_moves).
(** The status a trail leads to from [st], if each entry starts where the one
    before it ended and makes a legal move. *)
Fixpoint replay (st : option string) (l : list MonAlertEventLog.MonAlertEventLog) : option (option string) :=
  match l with
  | [] => Some st
  | e :: l =>
      match MonAlertEventLog.to_status e with
      | Some to =>
          if bool_decide (MonAlertEventLog.from_status e = st) && legal_move st to then replay (Some to) l else None
      | None => None
      end
  end.
Lemma replay_app st l1 l2 : replay st (l1 ++ l2) = replay st l1 ≫= λ st', replay st' l2.
Proof.
  revert st. induction l1 as [|e l1 IH]; intros st; [done|]. cbn.
  destruct (MonAlertEventLog.to_status e); [|done]. by destruct (_ && _).
Qed.

#[local] Abbreviation Alert := MonAlert.MonAlert.
#[local] Abbreviation Log := MonAlertEventLog.MonAlertEventLog.

Definition trail (i : Z) (logs : gmap Z Log) : list Log := select_rows (λ e, MonAlertEventLog.alert_id e =? i) logs.

Section audit.
(** The entries written before. *)
Context (old : gmap Z Log).

(** [debt]: an alert whose last change is not written down yet, and the status
    its trail leads to. *)
Definition owed (debt : option (Z * option string)) (i : Z) (a : Alert) : option string :=
  match debt with
  | Some (j, from) => if j =? i then from else Some (MonAlert.status a)
  | None => Some (MonAlert.status a)
  end.
Record audited (debt : option (Z * option string)) (na nl : Z) (alerts : gmap Z Alert) (logs : gmap Z Log) : Prop := {
  au_id : ∀ i a, alerts !! i = Some a → MonAlert.id a = i ∧ i ≤ na;
  au_log : ∀ j e, logs !! j = Some e → j ≤ nl ∧ is_Some (alerts !! MonAlertEventLog.alert_id e);
  au_trail : ∀ i a, alerts !! i = Some a → replay None (trail i logs) = Some (owed debt i a);
  au_kept : old ⊆ logs;
  au_unique : ∀ i j a b, alerts !! i = Some a → alerts !! j = Some b → conflict a b = true → i = j;
}.
Definition count_of (name : string) (s : St) : Z := default 0 (seqs s !! name).
Definition audit (debt : option (Z * option string)) (s : St) : Prop :=
  audited debt (count_of "mon_alert" s) (count_of "mon_alert_event_log" s) (tbl (work s)) (tbl (work s)).
Definition safe (s : St) : Prop :=
  audited None (count_of "mon_alert" s) (count_of "mon_alert_event_log" s) (tbl (committed s)) (tbl (committed s)).
Lemma audited_mono debt na nl na' nl' alerts logs :
  na ≤ na' → nl ≤ nl' → audited debt na nl alerts logs → audited debt na' nl' alerts logs.
Proof.
  intros Ha Hl [H1 H2 H3 H4 H5]. split; [|..]; auto.
  - intros i a Hi. destruct (H1 i a Hi). split; [done|lia].
  - intros j e Hj. destruct (H2 j e Hj). split; [lia|done].
Qed.

(** A row [a] replaced by [a'] of the same rule and entity. *)
Lemma audited_put debt debt' na nl alerts logs i a a' :
  audited debt na nl alerts logs → alerts !! i = Some a →
  MonAlert.id a' = MonAlert.id a →
  owed debt' i a' = owed debt i a → (∀ j b, j ≠ i → owed debt' j b = owed debt j b) →
  (∀ j b, j ≠ i → alerts !! j = Some b → conflict a' b = false ∧ conflict b a' = false) →
  audited debt' na nl (<[i := a']> alerts) logs.
Proof.
  intros [H1 H2 H3 H4 H5] Hi Hid Ho Ho' Hu. split.
  - intros j b [[<- <-]|[_ Hj]]%lookup_insert_Some; [rewrite Hid|]; by apply H1.
  - intros j e Hj. destruct (H2 j e Hj) as [? Hs]. split; [done|]. rewrite lookup_insert_is_Some'. by right.
  - intros j b [[<- <-]|[Hne Hj]]%lookup_insert_Some; [rewrite Ho|rewrite Ho' by done]; by apply H3.
  - done.
  - intros j k x y [[<- <-]|[Hj Hx]]%lookup_insert_Some [[<- <-]|[Hk Hy]]%lookup_insert_Some Hc; [done| | |eauto].
    + destruct (Hu k y (not_eq_sym Hk) Hy). congruence.
    + destruct (Hu j x (not_eq_sym Hj) Hx). congruence.
Qed.
Lemma audited_add na nl alerts logs i a :
  audited None na nl alerts logs → MonAlert.id a = i → na < i → accepts alerts i a = true →
  MonAlert.status a = "pending" → audited (Some (i, None)) i nl (<[i := a]> alerts) logs.
Proof.
  intros [H1 H2 H3 H4 H5] Hid Hlt (_ & Hn & Hc)%accepts_spec Hst. split.
  - intros j b [[<- <-]|[_ Hj]]%lookup_insert_Some; [split; [done|lia]|]. destruct (H1 j b Hj). split; [done|lia].
  - intros j e Hj. destruct (H2 j e Hj) as [? Hs]. split; [done|]. rewrite lookup_insert_is_Some'. by right.
  - intros j b [[<- <-]|[Hne Hj]]%lookup_insert_Some; cbn.
    + rewrite Z.eqb_refl. unfold trail. replace (select_rows _ logs) with ([] : list Log); [done|].
      symmetry. apply elem_of_nil_inv. intros e [He [k Hk]]%elem_of_select_rows. destruct (H2 k e Hk) as [_ [x Hx]].
      apply Z.eqb_eq in He. rewrite He in Hx. congruence.
    + rewrite (proj2 (Z.eqb_neq i j) Hne). by apply H3.
  - done.
  - intros j k x y [[<- <-]|[Hj Hx]]%lookup_insert_Some [[<- <-]|[Hk Hy]]%lookup_insert_Some Hxy; [done| | |eauto].
    + by rewrite (Hc k y Hy) in Hxy.
    + assert (conflict a x = true) as Hax; [|by rewrite (Hc j x Hx) in Hax].
      cbn in Hxy |- *. apply andb_true_iff in Hxy as [[[-> ->]%andb_true_iff Hr]%andb_true_iff He].
      cbn. unfold same_key in *. repeat case_match; try done. 
      apply bool_decide_eq_true in Hr, He. by rewrite !bool_decide_eq_true_2.
Qed.

Lemma trail_insert i k e (logs : gmap Z Log) :
  (∀ j x, logs !! j = Some x → j < k) →
  trail i (<[k := e]> logs) = trail i logs ++ (if MonAlertEventLog.alert_id e =? i then [e] else []).
Proof.
  intros Hlt. unfold trail, select_rows. rewrite (rows_insert_last logs k e Hlt), filter_app. f_equal.
  rewrite filter_cons, filter_nil. by destruct (MonAlertEventLog.alert_id e =? i).
Qed.
Lemma audited_log na nl alerts logs i a from k e :
  audited (Some (i, from)) na nl alerts logs → alerts !! i = Some a → nl < k →
  MonAlertEventLog.alert_id e = i → MonAlertEventLog.from_status e = from →
  MonAlertEventLog.to_status e = Some (MonAlert.status a) → legal_move from (MonAlert.status a) = true →
  audited None na k alerts (<[k := e]> logs).
Proof.
  intros [H1 H2 H3 H4 H5] Hi Hk Hei Hf Hto Hleg.
  assert (∀ j x, logs !! j = Some x → j < k) as Hlt by (intros j x Hj; destruct (H2 j x Hj); lia).
  split; [done| | | |done].
  - intros j x [[<- <-]|[_ Hj]]%lookup_insert_Some; [rewrite Hei; split; [lia|eauto]|].
    destruct (H2 j x Hj). split; [lia|done].
  - intros j b Hj. rewrite trail_insert, Hei by done. pose proof (H3 j b Hj) as Ht. cbn in Ht.
    destruct (i =? j) eqn:E.
    + apply Z.eqb_eq in E as <-. rewrite replay_app, Ht. cbn. rewrite Hto, Hf, bool_decide_eq_true_2, Hleg by done.
      cbn. by simplify_eq.
    + by rewrite app_nil_r.
  - apply map_subseteq_spec. intros j x Hj. rewrite map_subseteq_spec in H4. specialize (H4 j x Hj).
    rewrite lookup_insert_ne; [done|]. intros <-. specialize (Hlt k x H4). lia.
Qed.
(** No change yet: the trail already leads to the present status. *)
Lemma audited_owe na nl alerts logs i a :
  audited None na nl alerts logs → alerts !! i = Some a →
  audited (Some (i, Some (MonAlert.status a))) na nl alerts logs.
Proof.
  intros [H1 H2 H3 H4 H5] Hi. split; [done..| |done|done]. intros j b Hj. rewrite (H3 j b Hj). cbn.
  destruct (i =? j) eqn:E; [|done]. apply Z.eqb_eq in E as <-. by simplify_eq.
Qed.
End audit.

Section audit_ops.
Context (old : gmap Z Log).
#[local] Abbreviation audit := (audit old).
#[local] Abbreviation safe := (safe old).

(** Every exit leaves the committed rows accounted for; a result has [Q]. *)
Definition ok {A} (m : Op A) (Q : A → St → Prop) (s : St) : Prop :=
  wp m (λ r s', safe s' ∧ match r with inl _ => True | inr x => Q x s' end) s.
Definition inv (debt : option (Z * option string)) (P : gmap Z Alert → Prop) (s : St) : Prop :=
  safe s ∧ audit debt s ∧ P (tbl (work s)).
(** [a] is the row the session has of it. *)
Definition at_ (a : Alert) (m : gmap Z Alert) : Prop := m !! MonAlert.id a = Some a.

Lemma ok_bind {A B} (m : Op A) (k : A → Op B) Q s : ok m (λ x s', ok (k x) Q s') s → ok (m >>= k) Q s.
Proof. unfold ok, wp, bind. intros [Hs H]. destruct (m s) as [[e|x] s']; [by split|exact H]. Qed.
Lemma ok_mono {A} (m : Op A) (Q Q' : A → St → Prop) s : ok m Q s → (∀ x s', Q x s' → Q' x s') → ok m Q' s.
Proof. unfold ok, wp. intros [Hs H] HQ. destruct (m s) as [[e|x] s']; (split; [exact Hs|]); [done|by apply HQ]. Qed.
Lemma ok_ret {A} (x : A) (Q : A → St → Prop) s : safe s → Q x s → ok (ret x) Q s.
Proof. by split. Qed.
Lemma ok_reads {A} (m : Op A) (Q : A → St → Prop) s :
  preserves (eq s) m → safe s → (∀ x, m s = (inr x, s) → Q x s) → ok m Q s.
Proof. intros Hm Hs HQ. apply wp_reads; [done|]. intros [e|x] E; (split; [exact Hs|]); [done|by apply HQ]. Qed.
Lemma ok_inv {A} debt P (m : Op A) (Q : A → St → Prop) s :
  preserves (inv debt P) m → inv debt P s → (∀ x s', inv debt P s' → Q x s') → ok m Q s.
Proof.
  intros Hm Hs HQ. unfold ok, wp. specialize (Hm s Hs). destruct (m s) as [[e|x] s']; 
    (split; [exact (proj1 Hm)|]); [done|by apply HQ].
Qed.
Lemma ok_guard b e (Q : () → St → Prop) s : safe s → (b = true → Q () s) → ok (guard_or b e) Q s.
Proof. intros Hs HQ. destruct b; (split; [exact Hs|]); [by apply HQ|done]. Qed.
Lemma ok_some_or {A} (o : option A) e (Q : A → St → Prop) s :
  safe s → (∀ x, o = Some x → Q x s) → ok (some_or o e) Q s.
Proof. intros Hs HQ. destruct o; (split; [exact Hs|]); [by apply HQ|done]. Qed.

(** Writes elsewhere. *)
Lemma inv_ext debt P s s' :
  tbl (R:=Alert) (work s') = tbl (work s) → tbl (R:=Log) (work s') = tbl (work s) →
  tbl (R:=Alert) (committed s') = tbl (committed s) → tbl (R:=Log) (committed s') = tbl (committed s) →
  count_of "mon_alert" s' = count_of "mon_alert" s → count_of "mon_alert_event_log" s' = count_of "mon_alert_event_log" s →
  inv debt P s → inv debt P s'.
Proof. unfold inv, monitor.safe, monitor.audit. intros -> -> -> -> -> ->. done. Qed.
Lemma count_of_insert name k n s : name ≠ k → count_of name (s <| seqs := <[k := n]> (seqs s) |>) = count_of name s.
Proof. intros Hne. unfold count_of. cbn. by rewrite lookup_insert_ne. Qed.

Section elsewhere.
Context {R : Type} `{Table R, !TableNe Alert R, !TableNe Log R}.
Lemma inv_put debt P i (r : R) s : inv debt P s → inv debt P (put_row i r s).
Proof. apply inv_ext; rewrite ?tbl_put_row_ne; try done; unfold count_of; by rewrite seqs_put_row. Qed.
Lemma inv_db_add debt P (r : R) : preserves (inv debt P) (db_add r).
Proof.
  intros s Hs. unfold db_add.
  assert (inv debt P (s <| seqs := <[tbl_name (R:=R) := next_value (tbl_name (R:=R)) s]> (seqs s) |>)) as Hs'.
  { revert Hs. apply inv_ext; try done; apply count_of_insert.
    - exact (tbl_name_ne (R:=Alert) (R':=R)).
    - exact (tbl_name_ne (R:=Log) (R':=R)). }
  case_match; [by apply inv_put|done].
Qed.
Lemma inv_db_upd debt P i (f : R → R) : preserves (inv debt P) (db_upd i f).
Proof. apply preserves_db_upd. intros s r Hs _. by apply inv_put. Qed.
End elsewhere.
Lemma inv_emit debt P e : preserves (inv debt P) (emit_out e).
Proof. apply preserves_modify. intros s Hs. revert Hs. by apply inv_ext. Qed.
Lemma inv_commit P : preserves (inv None P) db_commit.
Proof. apply preserves_modify. intros s (_ & Ha & Hp). by split. Qed.
Lemma inv_flush debt P : preserves (inv debt P) db_flush.
Proof.
  unfold db_flush. apply preserves_bind; [auto with preserves|intros l].
  apply preserves_bind; [apply preserves_modify; intros s Hs; revert Hs; by apply inv_ext|intros _].
  apply preserves_for_each. intros u _; destruct u; apply preserves_bind; intros; try apply inv_db_add; apply preserves_ret.
Qed.
#[local] Hint Resolve inv_db_add inv_db_upd inv_emit inv_commit inv_flush : preserves.

Lemma inv_send P cid scene target title content :
  preserves (inv None P) (send decrypt_secret loads http_post exc_text cid scene target title content).
Proof.
  assert (∀ c a b d, preserves (inv None P) (channel_send decrypt_secret loads http_post exc_text c a b d)) as Hch.
  { intros c a b d s Hs. destruct (channel_send_run decrypt_secret loads http_post exc_text c a b d s) as (e & posts & -> & _).
    revert Hs. by apply inv_ext. }
  assert (∀ r : NotifyRecord.NotifyRecord, preserves (inv None P) (db_add r)) as Hadd by (intros; apply inv_db_add).
  unfold send, store_record. preserves_auto.
Qed.
Lemma inv_notify P a rule title :
  preserves (inv None P) (_send_alert_notify a rule title).
Proof. unfold _send_alert_notify. pose proof (inv_send P). preserves_auto. Qed.
Lemma inv_broadcast debt P a : preserves (inv debt P) (_broadcast_alert a).
Proof. apply inv_emit. Qed.

(** ** The steps of a change *)

Lemma inv_weaken debt (P P' : gmap Z Alert → Prop) s : (∀ m, P m → P' m) → inv debt P s → inv debt P' s.
Proof. intros HP (? & ? & ?). split_and!; auto. Qed.

(** The row of alert [a], and what is known of the other rows. *)
Definition here (a : Alert) (rest : gmap Z Alert → Prop) (m : gmap Z Alert) : Prop :=
  m !! MonAlert.id a = Some a ∧ rest m.
Definition apart (i : Z) (rest : gmap Z Alert → Prop) : Prop := ∀ m x, rest m → rest (<[i := x]> m).

Section change.
Context (rest : gmap Z Alert → Prop) (i : Z) (Hrest : apart i rest).

Lemma inv_put_alert debt debt' a a' s :
  inv debt (here a rest) s → MonAlert.id a = i → MonAlert.id a' = i →
  owed debt' i a' = owed debt i a → (∀ j b, j ≠ i → owed debt' j b = owed debt j b) →
  (∀ j b, j ≠ i → tbl (work s) !! j = Some b → conflict a' b = false ∧ conflict b a' = false) →
  inv debt' (here a' rest) (put_row i a' s).
Proof.
  intros (Hs & Ha & Hat & Hr) Hi Hi' Ho Ho' Hc. rewrite Hi in Hat. split; [|split; [|split]].
  - unfold monitor.safe, count_of. rewrite seqs_put_row, committed_put_row. exact Hs.
  - unfold monitor.audit, count_of. rewrite seqs_put_row, tbl_put_row, tbl_put_row_ne.
    eapply audited_put; [exact Ha|exact Hat|congruence|done..].
  - rewrite Hi', tbl_put_row. apply lookup_insert_eq.
  - rewrite tbl_put_row. by apply Hrest.
Qed.
Lemma no_conflict debt P a a' s :
  inv debt P s → tbl (work s) !! i = Some a →
  (active_alert a' = true → active_alert a = true) →
  MonAlert.rule_id a' = MonAlert.rule_id a → MonAlert.entity a' = MonAlert.entity a →
  ∀ j b, j ≠ i → tbl (work s) !! j = Some b → conflict a' b = false ∧ conflict b a' = false.
Proof.
  intros (_ & Ha & _) Hi Hact Hr He j b Hj Hb. pose proof (au_unique _ _ _ _ _ _ Ha) as Hu.
  assert ((conflict a' b = true → conflict a b = true) ∧ (conflict b a' = true → conflict b a = true)) as [H1 H2].
  { cbn. rewrite Hr, He. rewrite !andb_true_iff. naive_solver. }
  split; apply not_true_iff_false; intros Hc; apply Hj; [symmetry|]; eauto.
Qed.

(** An update of the alert's row that leaves its status alone. *)
Lemma ok_stamp debt a (f : Alert → Alert) (Q : Alert → St → Prop) s :
  inv debt (here a rest) s → MonAlert.id a = i → MonAlert.id (f a) = i → MonAlert.status (f a) = MonAlert.status a →
  MonAlert.rule_id (f a) = MonAlert.rule_id a → MonAlert.entity (f a) = MonAlert.entity a →
  (∀ s', inv debt (here (f a) rest) s' → Q (f a) s') → ok (stamp a f) Q s.
Proof.
  intros Hs Hi Hid Hst Hr He HQ. unfold stamp. apply ok_bind. unfold ok.
  pose proof (proj1 (proj2 (proj2 Hs))) as Hat. eapply wp_upd_hit; [exact Hat|]. rewrite Hi in *.
  assert (inv debt (here (f a) rest) (put_row i (f a) s)) as Hinv.
  { eapply inv_put_alert; [exact Hs|done|done| |done|].
    - unfold owed. by rewrite Hst.
    - eapply no_conflict; [exact Hs|exact Hat| |done|done]. unfold active_alert. by rewrite Hst. }
  split; [apply Hinv|]. apply ok_ret; [apply Hinv|]. by apply HQ.
Qed.
(** A compare-and-swap and the assignments that follow it. *)
Lemma ok_change {B} a to (fields : Alert → Alert) (k : bool → Op B) (Q : B → St → Prop) s :
  inv None (here a rest) s → MonAlert.id a = i →
  (∀ s1, safe s1 → (∀ (f : Alert → Alert) Q', MonAlert.id (f a) = i →
       f (fields a <| MonAlert.status := to |> <| MonAlert.version := MonAlert.version a + 1 |>) = f a →
       (∀ j b, j ≠ i → tbl (work s) !! j = Some b → conflict (f a) b = false ∧ conflict b (f a) = false) →
       (∀ s2, inv (Some (i, Some (MonAlert.status a))) (here (f a) rest) s2 → Q' (f a) s2) → ok (stamp a f) Q' s1) →
     ok (k true) Q s1) →
  ok (MonAlertRepository.optimistic_update (MonAlert.id a) (MonAlert.status a) to (MonAlert.version a) fields >>= k) Q s.
Proof.
  intros Hs Hi HQ. apply ok_bind. unfold ok at 1. pose proof (proj1 (proj2 (proj2 Hs))) as Hat.
  eapply wp_cas_hit; [exact Hat|by rewrite bool_decide_eq_true_2, Z.eqb_refl|]. cbv beta iota.
  set (s1 := put_row _ _ s).
  assert (safe s1) as Hs1.
  { unfold s1, monitor.safe, count_of. rewrite seqs_put_row, committed_put_row. apply Hs. }
  split; [done|]. apply HQ; [done|]. intros f Q' Hid Hf Hc HQ'. unfold stamp. apply ok_bind. unfold ok.
  eapply wp_upd_hit; [unfold s1; rewrite tbl_put_row; apply lookup_insert_eq|].
  unfold s1. rewrite put_row_twice, Hf, Hi.
  assert (inv (Some (i, Some (MonAlert.status a))) (here (f a) rest) (put_row i (f a) s)) as Hinv.
  { eapply inv_put_alert; [exact Hs|done|done| | |exact Hc].
    - cbn. by rewrite Z.eqb_refl.
    - intros j b Hj. cbn. by rewrite (proj2 (Z.eqb_neq i j) (not_eq_sym Hj)). }
  split; [apply Hinv|]. apply ok_ret; [apply Hinv|]. by apply HQ'.
Qed.
End change.

(** Writing the change down. *)
Lemma ok_append rest a action from detail op (Q : () → St → Prop) s :
  inv (Some (MonAlert.id a, from)) (here a rest) s → legal_move from (MonAlert.status a) = true →
  (∀ s', inv None (here a rest) s' → Q () s') →
  ok (MonAlertEventLogRepository.append (MonAlert.id a) action from (Some (MonAlert.status a)) (Some (MonAlert.severity a)) detail op) Q s.
Proof.
  intros (Hs & Ha & Hat) Hleg HQ. unfold MonAlertEventLogRepository.append. apply ok_bind.
  set (e := MonAlertEventLog.mk _ _ _ _ _ _ _ _ _). unfold ok at 1, wp, db_add. cbn zeta.
  set (k := next_value (tbl_name (R:=Log)) s). set (s0 := s <| seqs := _ |>).
  assert (count_of "mon_alert" s0 = count_of "mon_alert" s) as Ea by by apply count_of_insert.
  assert (count_of "mon_alert_event_log" s0 = k ∧ count_of "mon_alert_event_log" s < k) as [El Hlt].
  { unfold count_of, s0, k, next_value. cbn. rewrite lookup_insert_eq. cbn. split; [done|]. lia. }
  assert (safe s0) as Hs0.
  { unfold monitor.safe in *. rewrite Ea, El. revert Hs. apply audited_mono; [done|]. lia. }
  destruct (accepts _ _ _); [|by split]. set (row := tbl_init k (now s) e).
  assert (inv None (here a rest) (put_row k row s0)) as Hinv.
  { split; [|split].
    - unfold monitor.safe, count_of. rewrite seqs_put_row, committed_put_row. exact Hs0.
    - unfold monitor.audit, count_of. rewrite seqs_put_row, tbl_put_row, tbl_put_row_ne.
      fold (count_of "mon_alert" s0) (count_of "mon_alert_event_log" s0). rewrite Ea, El.
      eapply audited_log; [exact Ha|apply Hat|exact Hlt|done..].
    - rewrite tbl_put_row_ne. exact Hat. }
  cbn. split; [apply Hinv|]. apply ok_ret; [apply Hinv|]. by apply HQ.
Qed.
Lemma ok_log rest a action from to detail (Q : () → St → Prop) s :
  inv (Some (MonAlert.id a, from)) (here a rest) s → str_in action MON_ALERT_ACTIONS = true →
  to = MonAlert.status a → legal_move from to = true →
  (∀ s', inv None (here a rest) s' → Q () s') →
  ok (_log_alert_event a action from (Some to) detail) Q s.
Proof.
  intros Hs Hact -> Hleg HQ. unfold _log_alert_event. rewrite Hact. cbn [negb]. apply ok_bind.
  eapply ok_inv; [apply inv_flush|exact Hs|]. intros _ s' Hs'. by eapply ok_append.
Qed.
(** An entry that records no change of status. *)
Lemma ok_note rest a action detail (Q : () → St → Prop) s :
  inv None (here a rest) s → str_in action MON_ALERT_ACTIONS = true →
  (∀ s', inv None (here a rest) s' → Q () s') →
  ok (_log_alert_event a action (Some (MonAlert.status a)) (Some (MonAlert.status a)) detail) Q s.
Proof.
  intros (Hs & Ha & Hat) Hact HQ. apply (ok_log rest); [|done|done| |done].
  - split_and!; [done|by eapply audited_owe; [|apply Hat]|done].
  - unfold legal_move. by rewrite bool_decide_eq_true_2.
Qed.

Lemma ok_maybe_notify rest a rule (Q : string → St → Prop) s :
  inv None (here a rest) s → (∀ x s', inv None (here a rest) s' → Q x s') → ok (_maybe_notify a rule) Q s.
Proof.
  intros Hs HQ. unfold _maybe_notify. apply ok_bind, ok_reads; [auto with preserves|apply Hs|]. intros n _.
  apply ok_bind, ok_reads; [unfold MonAlertEventLogRepository.timeline; auto with preserves|apply Hs|]. intros l _.
  cbv zeta. destruct (_ && _); apply ok_bind.
  - apply (ok_note rest); [done|done|]. intros s' Hs'. apply ok_ret; [apply Hs'|by apply HQ].
  - eapply ok_inv; [apply inv_notify|exact Hs|]. intros _ s' Hs'. apply ok_ret; [apply Hs'|by apply HQ].
Qed.
Lemma ok_maybe_escalate rest a rule (Q : option Alert → St → Prop) s :
  apart (MonAlert.id a) rest → inv None (here a rest) s →
  (∀ o s', inv None (here (default a o) rest) s' → MonAlert.id (default a o) = MonAlert.id a → Q o s') →
  ok (_maybe_escalate a rule) Q s.
Proof.
  intros Hrest Hs HQ. unfold _maybe_escalate. cbv zeta.
  assert (ok (ret None) Q s) as Hnone by (apply ok_ret; [apply Hs|by apply HQ]).
  destruct (MonAlert.fired_at a) as [fired|]; [|done]. destruct (_ || _); [done|].
  destruct (next_level a rule) as [[k target]|]; [|done].
  apply ok_bind, ok_reads; [auto with preserves|apply Hs|]. intros n _. destruct (_ <? _); [done|].
  apply ok_bind. eapply (ok_stamp rest _ Hrest); [exact Hs|done..|]. intros s1 Hs1.
  apply ok_bind, (ok_note rest); [exact Hs1|done|]. intros s2 Hs2.
  apply ok_bind. eapply ok_inv; [apply inv_notify|exact Hs2|]. intros _ s3 Hs3.
  apply ok_ret; [apply Hs3|]. by apply HQ.
Qed.

Lemma ok_resolve_engine rest a reason (Q : bool → St → Prop) s :
  apart (MonAlert.id a) rest → inv None (here a rest) s →
  MonAlert.status a ∈ ["pending"; "firing"; "acknowledged"] →
  (∀ x s', inv None rest s' → Q x s') → ok (_resolve_alert_engine a reason) Q s.
Proof.
  intros Hrest Hs Hact HQ. unfold _resolve_alert_engine.
  rewrite bool_decide_eq_false_2 by (intros E; rewrite E in Hact; str_absurd Hact).
  apply ok_bind, ok_reads; [auto with preserves|apply Hs|]. intros n _. cbv zeta.
  apply (ok_change rest _ Hrest); [exact Hs|done|]. intros s1 Hs1 Hstamp. cbn [negb].
  apply ok_bind, Hstamp; [done..| |].
  { eapply no_conflict; [exact Hs|apply Hs| |done|done]. intros _. by apply str_in_true. }
  intros s2 Hs2.
  apply ok_bind. eapply (ok_log rest); [exact Hs2|done|done| |].
  { revert Hact. generalize (MonAlert.status a). intros x Hx.
    repeat (apply elem_of_cons in Hx as [->|Hx]; [reflexivity|]). by apply elem_of_nil in Hx. }
  intros s3 Hs3. apply ok_bind, ok_reads; [|apply Hs3|].
  { destruct (MonAlert.rule_id _) as [r|]; [destruct (r =? 0)|]; auto with preserves. }
  intros o _. apply ok_bind.
  assert (∀ b s', inv None (here b rest) s' → ok (ret true) Q s') as Hend.
  { intros b s' Hs'. apply ok_ret; [apply Hs'|]. apply HQ. revert Hs'. apply inv_weaken. by intros m [_ ?]. }
  destruct o as [rule|].
  - eapply ok_inv; [apply inv_notify|exact Hs3|]. intros _ s4 Hs4. by eapply Hend.
  - apply ok_ret; [apply Hs3|]. by eapply Hend.
Qed.

(** No alert of this rule and entity is active. *)
Definition none_active (rule_id : Z) (e : option string) (m : gmap Z Alert) : Prop :=
  ∀ j b, m !! j = Some b → of_rule rule_id b && of_entity e b && active_alert b = false.
Lemma conflict_same (a b : Alert) :
  conflict a b = true →
  active_alert b = true ∧ MonAlert.rule_id b = MonAlert.rule_id a ∧
  entity_key (MonAlert.entity b) = entity_key (MonAlert.entity a).
Proof.
  cbn. rewrite !andb_true_iff. intros [[[_ ?] Hr] He]. split; [done|].
  unfold same_key in *. repeat case_match; try done. apply bool_decide_eq_true in Hr, He. by subst.
Qed.
Lemma conflict_sym (a b : Alert) : conflict a b = conflict b a.
Proof.
  assert (∀ {A} `{EqDecision A} (x y : option A), same_key x y = same_key y x) as Hk.
  { intros A ? [x|] [y|]; cbn; try done. by apply bool_decide_ext. }
  cbn. rewrite (Hk _ _ (MonAlert.rule_id a)), (Hk _ _ (entity_key (MonAlert.entity a))).
  by rewrite (andb_comm (active_alert a)).
Qed.
Lemma none_active_conflict rule_id e a b (m : gmap Z Alert) j :
  none_active rule_id e m → m !! j = Some b → MonAlert.rule_id a = Some rule_id →
  entity_key (MonAlert.entity a) = e → conflict a b = false ∧ conflict b a = false.
Proof.
  intros Hn Hj Hr He. rewrite (conflict_sym b a). split; (apply not_true_iff_false; intros Hc;
    apply conflict_same in Hc as (Hb & Hbr & Hbe); specialize (Hn j b Hj);
    unfold of_rule, of_entity in Hn; rewrite Hbr, Hr, Hbe, He, Hb, !bool_decide_eq_true_2 in Hn by done; discriminate Hn).
Qed.

Lemma ok_try_converge rule event e (Q : option Alert → St → Prop) s :
  inv None (none_active (MonRule.id rule) e) s →
  (∀ s', inv None (none_active (MonRule.id rule) e) s' → Q None s') →
  (∀ a s', inv None (λ _, True) s' → Q (Some a) s') →
  ok (_try_converge rule event e) Q s.
Proof.
  intros Hs Hnone Hsome. unfold _try_converge. cbv zeta.
  assert (ok (ret None) Q s) as Hno by (apply ok_ret; [apply Hs|by apply Hnone]).
  destruct (_ <=? _); [done|]. apply ok_bind, ok_reads; [|apply Hs|].
  { unfold MonAlertRepository.recently_resolved. auto with preserves. preserves_auto. }
  intros o Ho. destruct o as [a|]; [|done].
  assert (tbl (work s) !! MonAlert.id a = Some a ∧ MonAlert.rule_id a = Some (MonRule.id rule) ∧
    entity_key (MonAlert.entity a) = e ∧ MonAlert.status a = "resolved") as (Hat & Hr & He & Hst).
  { unfold MonAlertRepository.recently_resolved, bind, utc_now, gets, db_select, ret in Ho. injection Ho as Ho.
    apply last_Some_elem_of in Ho as Hin. apply elem_of_select_rows in Hin as [Hp [j Hj]].
    apply andb_true_iff in Hp as [[[Hr He]%andb_true_iff Hst]%andb_true_iff _].
    apply bool_decide_eq_true in Hr, He, Hst. destruct (au_id _ _ _ _ _ _ (proj1 (proj2 Hs)) j a Hj) as [-> _]. done. }
  apply ok_bind, ok_reads; [auto with preserves|apply Hs|]. intros n _.
  assert (inv None (here a (λ _, True)) s) as Hs' by (split_and!; [apply Hs..|by split]).
  rewrite <-Hst. 
  apply (ok_change (λ _, True) (MonAlert.id a) (λ m x _, I)); [exact Hs'|done|]. intros s1 Hs1 Hstamp. cbn [negb].
  apply ok_bind, ok_reads; [unfold dict_get; destruct event; auto with preserves|done|]. intros v _.
  apply ok_bind, Hstamp; [done..| |].
  { intros j b _ Hb. eapply none_active_conflict; [apply Hs|exact Hb|exact Hr|exact He]. }
  intros s2 Hs2. apply ok_bind. eapply (ok_log (λ _, True)); [exact Hs2|done|done|by rewrite Hst|].
  intros s3 Hs3. apply ok_bind. eapply ok_inv; [apply inv_broadcast|exact Hs3|]. intros _ s4 Hs4.
  apply ok_ret; [apply Hs4|]. apply Hsome. revert Hs4. by apply inv_weaken.
Qed.

Lemma reads_dict_get k j I : preserves I (dict_get (S:=St) k j).
Proof. unfold dict_get. destruct j; auto with preserves. Qed.
Lemma reads_text_of j I : preserves I (text_of j).
Proof. unfold text_of. destruct j; auto with preserves. Qed.
#[local] Hint Resolve reads_dict_get reads_text_of : preserves.
Lemma reads_metric_name j I : preserves I (_resolve_metric_name j).
Proof. unfold _resolve_metric_name. preserves_auto. Qed.
Lemma reads_entity j I : preserves I (event_entity j).
Proof. unfold event_entity. preserves_auto. Qed.
#[local] Hint Resolve reads_metric_name reads_entity : preserves.
Lemma reads_pertains r j I : preserves I (_rule_pertains r j).
Proof. unfold _rule_pertains. cbv zeta. preserves_auto. Qed.
Lemma reads_condition r j I : preserves I (_condition_met r j).
Proof. unfold _condition_met. preserves_auto. Qed.
#[local] Hint Resolve reads_pertains reads_condition : preserves.

Lemma ok_add_alert P a (Q : Alert → St → Prop) s :
  inv None P s → MonAlert.status a = "pending" →
  (∀ row s', inv (Some (MonAlert.id row, None)) (here row (λ _, True)) s' → MonAlert.status row = "pending" → Q row s') →
  ok (db_add a) Q s.
Proof.
  intros (Hs & Ha & _) Hst HQ. unfold ok, wp, db_add. cbn zeta.
  set (k := next_value (tbl_name (R:=Alert)) s). set (s0 := s <| seqs := _ |>).
  assert (count_of "mon_alert_event_log" s0 = count_of "mon_alert_event_log" s) as El by by apply count_of_insert.
  assert (count_of "mon_alert" s0 = k ∧ count_of "mon_alert" s < k) as [Ea Hlt].
  { unfold count_of, s0, k, next_value. cbn. rewrite lookup_insert_eq. cbn. split; [done|]. lia. }
  assert (safe s0) as Hs0.
  { unfold monitor.safe in *. rewrite Ea, El. revert Hs. apply audited_mono; [lia|done]. }
  destruct (accepts _ _ _) eqn:Hacc; [|by split]. set (row := tbl_init k (now s) a) in *.
  assert (inv (Some (MonAlert.id row, None)) (here row (λ _, True)) (put_row k row s0)) as Hinv.
  { split; [|split; [|split]].
    - unfold monitor.safe, count_of. rewrite seqs_put_row, committed_put_row. exact Hs0.
    - unfold monitor.audit, count_of. rewrite seqs_put_row, tbl_put_row, tbl_put_row_ne.
      fold (count_of "mon_alert" s0) (count_of "mon_alert_event_log" s0). rewrite Ea, El.
      eapply audited_add; [exact Ha|done|exact Hlt|exact Hacc|exact Hst].
    - rewrite tbl_put_row. apply lookup_insert_eq.
    - done. }
  cbn. split; [apply Hinv|]. by apply HQ.
Qed.
Lemma ok_open_alert P rule event n (Q : json → St → Prop) s :
  inv None P s → (∀ j s', inv None (λ _, True) s' → Q j s') → ok (open_alert rule event n) Q s.
Proof.
  intros Hs HQ. unfold open_alert. do 5 (apply ok_bind, ok_reads; [auto with preserves|apply Hs|]; intros ? _).
  apply ok_bind. eapply ok_inv; [apply inv_flush|exact Hs|]. intros _ s1 Hs1.
  apply ok_bind. eapply ok_add_alert; [exact Hs1|done|]. intros row s2 Hs2 Hst.
  apply ok_bind. eapply (ok_log (λ _, True)); [exact Hs2|done|done|done|]. intros s3 Hs3.
  apply ok_bind. eapply ok_inv; [apply inv_broadcast|exact Hs3|]. intros _ s4 Hs4.
  apply ok_ret; [apply Hs4|]. apply HQ. revert Hs4. by apply inv_weaken.
Qed.

Lemma ok_fire_or_wait rest rule a n (Q : option json → St → Prop) s :
  apart (MonAlert.id a) rest → inv None (here a rest) s → MonAlert.status a = "pending" →
  (∀ x s', inv None rest s' → Q x s') → ok (fire_or_wait rule a n) Q s.
Proof.
  intros Hrest Hs Hst HQ. unfold fire_or_wait. cbv zeta. rewrite <-Hst.
  assert (∀ b x s', inv None (here b rest) s' → ok (ret x) Q s') as Hend.
  { intros b x s' Hs'. apply ok_ret; [apply Hs'|]. apply HQ. revert Hs'. apply inv_weaken. by intros m [_ ?]. }
  destruct (_ <=? _).
  - apply (ok_change rest _ Hrest); [exact Hs|done|]. intros s1 Hs1 Hstamp. cbn [negb].
    apply ok_bind, Hstamp; [done..| |].
    { eapply no_conflict; [exact Hs|apply Hs| |done|done]. intros _. unfold active_alert. by rewrite Hst. }
    intros s2 Hs2. apply ok_bind. eapply (ok_log rest); [exact Hs2|done|done|by rewrite Hst|]. intros s3 Hs3.
    apply ok_bind. eapply ok_maybe_notify; [exact Hs3|]. intros x s4 Hs4.
    apply ok_bind. eapply ok_inv; [apply inv_broadcast|exact Hs4|]. intros _ s5 Hs5. by eapply Hend.
  - apply ok_bind. eapply ok_note; [exact Hs|done|]. intros s1 Hs1. by eapply Hend.
Qed.
(** A change of nothing is written down already. *)
Lemma inv_settle rest i st a s :
  inv (Some (i, Some st)) (here a rest) s → i = MonAlert.id a → st = MonAlert.status a → inv None (here a rest) s.
Proof.
  intros (Hs & [H1 H2 H3 H4 H5] & Hat) -> ->. split_and!; [done| |done]. split; [done..| |done|done].
  intros j b Hj. rewrite (H3 j b Hj). cbn. destruct (MonAlert.id a =? j) eqn:E; [|done].
  apply Z.eqb_eq in E as <-. destruct Hat as [Hat _]. by simplify_eq.
Qed.
Lemma ok_keep_firing rest rule a (Q : option json → St → Prop) s :
  apart (MonAlert.id a) rest → inv None (here a rest) s →
  (∀ x s', inv None rest s' → Q x s') → ok (keep_firing rule a) Q s.
Proof.
  intros Hrest Hs HQ. unfold keep_firing. apply (ok_change rest _ Hrest); [exact Hs|done|].
  intros s1 Hs1 Hstamp. apply ok_bind, Hstamp; [done| | |].
  { cbn. by destruct a. }
  { eapply no_conflict; [exact Hs|apply Hs|done|done|done]. }
  intros s2 Hs2.
  eapply inv_settle in Hs2; [|done..]. apply ok_bind. eapply ok_maybe_notify; [exact Hs2|]. intros x s3 Hs3.
  apply ok_bind. eapply (ok_maybe_escalate rest); [exact Hrest|exact Hs3|]. intros o s4 Hs4 _. cbv zeta.
  apply ok_bind. eapply ok_inv; [|exact Hs4|].
  { apply preserves_when. intros _. apply inv_broadcast. }
  intros _ s5 Hs5. apply ok_ret; [apply Hs5|]. apply HQ. revert Hs5. apply inv_weaken. by intros m [_ ?].
Qed.

Lemma ok_evaluate_rule event entity_id rule (Q : option json → St → Prop) s :
  inv None (λ _, True) s → (∀ x s', inv None (λ _, True) s' → Q x s') → ok (evaluate_rule event entity_id rule) Q s.
Proof.
  intros Hs HQ. unfold evaluate_rule. assert (apart_any : ∀ i, apart i (λ _, True)) by done.
  assert (∀ x, ok (ret x) Q s) as Hend by (intros; apply ok_ret; [apply Hs|by apply HQ]).
  apply ok_bind, ok_reads; [destruct entity_id; cbn; auto with preserves|apply Hs|]. intros e _.
  apply ok_bind, ok_reads; [unfold MonAlertRepository.active_by_rule_entity; preserves_auto|apply Hs|]. intros found Hf.
  unfold MonAlertRepository.active_by_rule_entity, bind, db_select, gets, ret in Hf. injection Hf as Hf.
  apply ok_bind, ok_reads; [auto with preserves|apply Hs|]. intros p _. destruct p; cbn [negb]; [|apply Hend].
  apply ok_bind, ok_reads; [auto with preserves|apply Hs|]. intros n _.
  apply ok_bind, ok_reads; [auto with preserves|apply Hs|]. intros met _.
  destruct found as [a|].
  - apply last_Some_elem_of in Hf as Hin. apply elem_of_select_rows in Hin as [Hp [j Hj]].
    apply andb_true_iff in Hp as [_ Hact%str_in_true].
    destruct (au_id _ _ _ _ _ _ (proj1 (proj2 Hs)) j a Hj) as [<- _].
    assert (inv None (here a (λ _, True)) s) as Hs' by (split_and!; [apply Hs..|by split]).
    destruct met; cbn [negb].
    + apply ok_bind, ok_reads; [auto with preserves|apply Hs|]. intros v _.
      apply ok_bind. eapply (ok_stamp (λ _, True)); [done|exact Hs'|done..|]. intros s1 Hs1.
      destruct (bool_decide _) eqn:Hst.
      { apply bool_decide_eq_true in Hst. eapply ok_fire_or_wait; [done|exact Hs1|exact Hst|done]. }
      destruct (str_in _ _); [eapply ok_keep_firing; [done|exact Hs1|done]|].
      apply ok_ret; [apply Hs1|]. apply HQ. revert Hs1. by apply inv_weaken.
    + destruct (bool_decide _); [apply Hend|]. apply ok_bind.
      eapply (ok_resolve_engine (λ _, True)); [done|exact Hs'|exact Hact|]. intros x s1 Hs1.
      apply ok_ret; [apply Hs1|by apply HQ].
  - destruct met; cbn [negb]; [|apply Hend]. apply ok_bind.
    assert (none_active (MonRule.id rule) e (tbl (work s))) as Hnone.
    { intros j b Hj. apply not_true_iff_false. intros Hb. apply last_None in Hf. eapply not_elem_of_nil.
      rewrite <-Hf. apply elem_of_select_rows. split; [exact Hb|eauto]. }
    apply ok_try_converge; [split_and!; [apply Hs..|done]| |].
    + intros s1 Hs1. apply ok_bind. eapply ok_open_alert; [exact Hs1|]. intros o s2 Hs2.
      apply ok_ret; [apply Hs2|by apply HQ].
    + intros a s1 Hs1. apply ok_ret; [apply Hs1|by apply HQ].
Qed.
Lemma ok_map_each {A B} (I : St → Prop) (f : A → Op B) l (Q : list B → St → Prop) s :
  (∀ x s, I s → safe s → ok (f x) (λ _ s', I s') s) → I s → safe s → (∀ ys s', I s' → safe s' → Q ys s') → ok (map_each l f) Q s.
Proof.
  intros Hf. revert Q s. induction l as [|x l IH]; intros Q s HI Hs HQ; cbn [map_each].
  - apply ok_ret; auto.
  - apply ok_bind. assert (ok (f x) (λ _ s', I s' ∧ safe s') s) as H1.
    { specialize (Hf x s HI Hs). unfold ok, wp in *. destruct (f x s) as [[e|y] s1]; naive_solver. }
    eapply ok_mono; [exact H1|]. intros y s1 [HI1 Hs1]. apply ok_bind, IH; [done..|]. intros ys s2 HI2 Hs2.
    apply ok_ret; auto.
Qed.
Lemma ok_evaluate_event event (Q : list json → St → Prop) s :
  inv None (λ _, True) s → (∀ x s', inv None (λ _, True) s' → Q x s') → ok (evaluate_event event) Q s.
Proof.
  intros Hs HQ. unfold evaluate_event. do 3 (apply ok_bind, ok_reads; [unfold MonRuleRepository.enabled_rules; auto with preserves|apply Hs|]; intros ? _).
  apply ok_bind. apply (ok_map_each (inv None (λ _, True))); [|exact Hs|apply Hs|].
  - intros rule s1 Hs1 _. by apply ok_evaluate_rule.
  - intros ys s1 Hs1 Hsafe. apply ok_ret; [done|by apply HQ].
Qed.

Lemma ok_sweep_alert rest freshness count a (Q : Z * Z → St → Prop) s :
  apart (MonAlert.id a) rest → inv None (here a rest) s → (∀ x s', inv None rest s' → Q x s') →
  ok (sweep_alert freshness count a) Q s.
Proof.
  intros Hrest Hs HQ. unfold sweep_alert.
  assert (∀ b x s', inv None (here b rest) s' → ok (ret x) Q s') as Hend.
  { intros b x s' Hs'. apply ok_ret; [apply Hs'|]. apply HQ. revert Hs'. apply inv_weaken. by intros m [_ ?]. }
  apply ok_bind, ok_reads; [destruct (MonAlert.rule_id a) as [r|]; [destruct (r =? 0)|]; auto with preserves|apply Hs|].
  intros [rule|] _; [|by eapply Hend]. destruct (_ || _); [by eapply Hend|].
  apply ok_bind, ok_reads; [auto with preserves|apply Hs|]. intros n _. destruct (_is_stale _ _ _); [by eapply Hend|].
  destruct (bool_decide _) eqn:Hst.
  - apply bool_decide_eq_true in Hst. cbv zeta. destruct (negb _); [by eapply Hend|]. rewrite <-Hst.
    apply (ok_change rest _ Hrest); [exact Hs|done|]. intros s1 Hs1 Hstamp. cbn [negb].
    apply ok_bind, Hstamp; [done..| |].
    { eapply no_conflict; [exact Hs|apply Hs| |done|done]. intros _. unfold active_alert. by rewrite Hst. }
    intros s2 Hs2. apply ok_bind. eapply (ok_log rest); [exact Hs2|done|done|by rewrite Hst|]. intros s3 Hs3.
    apply ok_bind. eapply ok_maybe_notify; [exact Hs3|]. intros x s4 Hs4.
    apply ok_bind. eapply ok_inv; [apply inv_broadcast|exact Hs4|]. intros _ s5 Hs5. by eapply Hend.
  - apply ok_bind. eapply (ok_maybe_escalate rest); [exact Hrest|exact Hs|]. intros [b|] s1 Hs1 _; [|by eapply Hend].
    apply ok_bind. eapply ok_inv; [apply inv_broadcast|exact Hs1|]. intros _ s2 Hs2. by eapply Hend.
Qed.
Definition all_here (l : list Alert) (m : gmap Z Alert) : Prop := ∀ a, a ∈ l → m !! MonAlert.id a = Some a.
Lemma ok_sweep_alerts freshness l count (Q : Z * Z → St → Prop) s :
  NoDup (MonAlert.id <$> l) → inv None (all_here l) s → (∀ x s', inv None (λ _, True) s' → Q x s') →
  ok (fold_each l count (sweep_alert freshness)) Q s.
Proof.
  revert count s. induction l as [|a l IH]; intros count s Hnd Hs HQ; cbn [fold_each].
  - apply ok_ret; [apply Hs|]. apply HQ. revert Hs. by apply inv_weaken.
  - rewrite fmap_cons in Hnd. apply NoDup_cons in Hnd as [Hni Hnd].
    apply ok_bind. eapply (ok_sweep_alert (all_here l)).
    + intros m x Hm b Hb. rewrite lookup_insert_ne; [by apply Hm|]. intros E. apply Hni. rewrite E. by apply list_elem_of_fmap_2.
    + revert Hs. apply inv_weaken. intros m Hm. split; [apply Hm; set_solver|]. intros b Hb. apply Hm. set_solver.
    + intros x s1 Hs1. by apply IH.
Qed.
Lemma audited_wf debt na nl alerts logs : audited old debt na nl alerts logs → wf_rows alerts na.
Proof.
  intros [H1 _ _ _ H5]. split.
  - intros i a Hi. by apply H1.
  - intros i a Hi. by apply (H1 i a).
  - intros i j a b Hi Hj Hne. left. apply not_true_iff_false. intros Hc. by apply Hne, (H5 i j a b).
Qed.
Lemma ok_sweep (Q : swept → St → Prop) s :
  inv None (λ _, True) s → (∀ x s', inv None (λ _, True) s' → Q x s') → ok sweep_active_alerts Q s.
Proof.
  intros Hs HQ. unfold sweep_active_alerts.
  assert (∀ key d (I : St → Prop), preserves I (_config_seconds key d)) as Hcfg.
  { intros. unfold _config_seconds, ConfigRuleRepository.by_key. cbv zeta. preserves_auto. }
  apply ok_bind, ok_reads; [unfold _feature_enabled, ConfigRuleRepository.by_key; preserves_auto|apply Hs|].
  intros on _. destruct on; cbn [negb]; [|apply ok_ret; [apply Hs|by apply HQ]].
  apply ok_bind, ok_reads; [auto with preserves|apply Hs|]. intros n _.
  apply ok_bind. eapply (ok_inv None (λ _, True)); [|exact Hs|].
  { unfold _sweep_due. preserves_auto; try apply Hcfg.
    all: apply preserves_modify; intros s1 Hs1; revert Hs1; by apply inv_ext. }
  intros due s1 Hs1. destruct due; cbn [negb]; [|apply ok_ret; [apply Hs1|by apply HQ]].
  apply ok_bind, ok_reads; [apply Hcfg|apply Hs1|]. intros fr _.
  apply ok_bind, ok_reads; [unfold MonAlertRepository.active; preserves_auto|apply Hs1|]. intros l Hl.
  unfold MonAlertRepository.active, bind, db_select, gets, ret in Hl. injection Hl as Hl.
  apply ok_bind. assert (wf_rows (tbl (R:=Alert) (work s1)) (count_of "mon_alert" s1)) as Hwf
    by (eapply audited_wf, (proj1 (proj2 Hs1))).
  pose proof (NoDup_select_rows active_alert _ _ Hwf) as Hnd.
  apply ok_sweep_alerts.
  - rewrite <-Hl. rewrite <-(take_drop 500 (select_rows _ _)), fmap_app in Hnd. by apply NoDup_app in Hnd as [? _].
  - split_and!; [apply Hs1..|]. intros a Ha. rewrite <-Hl in Ha.
    assert (a ∈ select_rows active_alert (tbl (work s1))) as [_ [j Hj]]%elem_of_select_rows.
    { rewrite <-(take_drop 500 (select_rows _ _)). apply elem_of_app. by left. }
    by rewrite (proj1 (au_id _ _ _ _ _ _ (proj1 (proj2 Hs1)) j a Hj)).
  - intros x s2 Hs2. apply ok_bind. unfold flush_commit. apply ok_bind.
    eapply ok_inv; [apply inv_flush|exact Hs2|]. intros _ s3 Hs3.
    eapply ok_inv; [apply inv_commit|exact Hs3|]. intros _ s4 Hs4. apply ok_ret; [apply Hs4|by apply HQ].
Qed.

(** ** Alerts and rules through the API *)

Lemma reads_seen user i I : preserves I (seen_alert user i).
Proof. unfold seen_alert, _visible_entity_ids, visible_entity_ids. preserves_auto. Qed.
Lemma seen_alert_at user i (a : Alert) s :
  seen_alert user i s = (inr a, s) → inv None (λ _, True) s → inv None (here a (λ _, True)) s.
Proof.
  intros Hr (Hs & Ha & _). split_and!; [done..|]. split; [|done]. unfold seen_alert in Hr. inv_run. simplify_eq.
  match goal with H : tbl (work _) !! i = Some _ |- _ => rename H into Hi end.
  by destruct (au_id _ _ _ _ _ _ Ha i _ Hi) as [-> _].
Qed.
Lemma ok_acknowledge user i remark (Q : json → St → Prop) s :
  inv None (λ _, True) s → (∀ x s', inv None (λ _, True) s' → Q x s') → ok (acknowledge_alert user i remark) Q s.
Proof.
  intros Hs HQ. unfold acknowledge_alert. apply ok_bind, ok_reads; [auto with preserves|apply Hs|]. intros _ _.
  apply ok_bind, ok_reads; [apply reads_seen|apply Hs|]. intros a Ha. apply seen_alert_at in Ha; [|done].
  apply ok_bind, ok_guard; [apply Hs|]. intros Hst%bool_decide_eq_true. rewrite <-Hst.
  apply (ok_change (λ _, True) (MonAlert.id a) (λ m x _, I)); [exact Ha|done|]. intros s1 Hs1 Hstamp.
  apply ok_bind, ok_guard; [done|]. intros _. apply ok_bind, Hstamp; [done|by destruct a| |].
  { eapply no_conflict; [exact Ha|apply Ha| |done|done]. intros _. unfold active_alert. by rewrite Hst. }
  intros s2 Hs2. apply ok_bind. eapply (ok_append (λ _, True)); [exact Hs2|by rewrite Hst|]. intros s3 Hs3.
  apply ok_bind. eapply ok_inv; [apply inv_commit|exact Hs3|]. intros _ s4 Hs4.
  apply ok_bind. eapply ok_inv; [apply inv_broadcast|exact Hs4|]. intros _ s5 Hs5.
  apply ok_ret; [apply Hs5|]. apply HQ. revert Hs5. by apply inv_weaken.
Qed.
Lemma ok_resolve user i remark (Q : json → St → Prop) s :
  inv None (λ _, True) s → (∀ x s', inv None (λ _, True) s' → Q x s') → ok (resolve_alert user i remark) Q s.
Proof.
  intros Hs HQ. unfold resolve_alert. apply ok_bind, ok_reads; [auto with preserves|apply Hs|]. intros _ _.
  apply ok_bind, ok_reads; [apply reads_seen|apply Hs|]. intros a Ha. apply seen_alert_at in Ha; [|done].
  apply ok_bind, ok_guard; [apply Hs|]. intros Hst. apply ok_bind, ok_reads; [auto with preserves|apply Hs|]. intros n _.
  cbv zeta. apply (ok_change (λ _, True) (MonAlert.id a) (λ m x _, I)); [exact Ha|done|]. intros s1 Hs1 Hstamp.
  apply ok_bind, ok_guard; [done|]. intros _. apply ok_bind, Hstamp; [done..| |].
  { eapply no_conflict; [exact Ha|apply Ha|done|done|done]. }
  intros s2 Hs2. apply ok_bind. eapply (ok_append (λ _, True)); [exact Hs2| |].
  { apply str_in_true in Hst. revert Hst. generalize (MonAlert.status a). intros x Hx.
    repeat (apply elem_of_cons in Hx as [->|Hx]; [reflexivity|]). by apply elem_of_nil in Hx. }
  intros s3 Hs3. apply ok_bind. eapply ok_inv; [apply inv_commit|exact Hs3|]. intros _ s4 Hs4.
  apply ok_bind. eapply ok_inv; [apply inv_broadcast|exact Hs4|]. intros _ s5 Hs5.
  apply ok_ret; [apply Hs5|]. apply HQ. revert Hs5. by apply inv_weaken.
Qed.

(** The requests that touch no alert. *)
Lemma inv_rules (I : St → Prop) user :
  (∀ r : MonRule.MonRule, preserves I (db_add r)) → (∀ i (f : MonRule.MonRule → MonRule.MonRule), preserves I (db_upd i f)) →
  preserves I db_commit → (∀ d, preserves I (create_rule user d)) ∧ (∀ i d, preserves I (update_rule user i d)) ∧
  (∀ i, preserves I (delete_rule user i)) ∧ (∀ i e, preserves I (set_rule_status user i e)).
Proof.
  intros Ha Hu Hc. unfold create_rule, update_rule, delete_rule, set_rule_status, live_rule, _feature_enabled, ConfigRuleRepository.by_key.
  split_and!; intros; preserves_auto.
Qed.
End audit_ops.

Inductive alert_request :=
  | AList (u : CurrentUser) (f : AlertFilter) (page size : Z)
  | AGet (u : CurrentUser) (i : Z)
  | AEvents (u : CurrentUser) (i : Z)
  | AAcknowledge (u : CurrentUser) (i : Z) (remark : string)
  | AResolve (u : CurrentUser) (i : Z) (remark : string)
  | ARules (u : CurrentUser) (f : RuleFilter) (page size : Z)
  | ARuleCreate (u : CurrentUser) (d : MonRule.MonRule)
  | ARuleUpdate (u : CurrentUser) (i : Z) (d : MonRuleUpdate)
  | ARuleDelete (u : CurrentUser) (i : Z)
  | ARuleStatus (u : CurrentUser) (i enabled : Z)
  | ASweep.
Definition alert_handle (q : alert_request) : Op json :=
  match q with
  | AList u f p z => list_alerts u f p z
  | AGet u i => get_alert u i
  | AEvents u i => alert_events u i
  | AAcknowledge u i r => acknowledge_alert u i r
  | AResolve u i r => resolve_alert u i r
  | ARules u f p z => list_rules u f p z
  | ARuleCreate u d => create_rule u d
  | ARuleUpdate u i d => update_rule u i d
  | ARuleDelete u i => delete_rule u i
  | ARuleStatus u i e => set_rule_status u i e
  | ASweep => _ ← sweep_active_alerts; ret JNull
  end.
Lemma ok_alert_handle old q s :
  inv old None (λ _, True) s → ok old (alert_handle q) (λ _ s', inv old None (λ _, True) s') s.
Proof.
  intros Hs. destruct (inv_rules (inv old None (λ _, True)) (match q with
      ARuleCreate u _ | ARuleUpdate u _ _ | ARuleDelete u _ | ARuleStatus u _ _ => u | _ => admin end))
    as (H1 & H2 & H3 & H4); [intros; refine (inv_db_add _ _ _ _)|intros; refine (inv_db_upd _ _ _ _ _)|apply inv_commit|].
  assert (∀ m : Op json, preserves (inv old None (λ _, True)) m → ok old m (λ _ s', inv old None (λ _, True) s') s) as Hp.
  { intros m Hm. by eapply ok_inv. }
  pose proof (reads_seen) as Hseen.
  destruct q; cbn [alert_handle]; try (by apply Hp; auto).
  - apply Hp. unfold list_alerts, _visible_entity_ids, visible_entity_ids. preserves_auto.
  - apply Hp. unfold get_alert, MonAlertEventLogRepository.timeline. preserves_auto. 
  - apply Hp. unfold alert_events, MonAlertEventLogRepository.timeline. preserves_auto.
  - by apply ok_acknowledge.
  - by apply ok_resolve.
  - apply Hp. unfold list_rules. preserves_auto.
  - apply ok_bind, ok_sweep; [done|]. intros x s1 Hs1. apply ok_ret; [apply Hs1|done].
Qed.

(** ** The first notification *)

Lemma latest_ge l t : t ∈ l → ∃ m, latest l = Some m ∧ t ≤ m.
Proof.
  induction l as [|x l IH]; [intros []%elem_of_nil|]. unfold latest in *. cbn [foldr].
  intros [->|Hin]%elem_of_cons.
  - destruct (foldr _ _ l); eexists; (split; [done|lia]).
  - destruct (IH Hin) as (m & -> & Hm). eexists. split; [done|]. lia.
Qed.
(** An entry of the trail is written down under a new key, now. *)
Lemma wp_log_alert_event a action from to detail (Q : exn + () → St → Prop) s :
  wf_table Log s → unflushed (work s) = [] → str_in action MON_ALERT_ACTIONS = true →
  (∀ e s1, wf_table Log s1 → only_table Log s s1 → tbl (work s1) = <[MonAlertEventLog.id e := e]> (tbl (work s)) →
     tbl (R:=Log) (work s) !! MonAlertEventLog.id e = None →
     e = MonAlertEventLog.mk (MonAlertEventLog.id e) (MonAlert.id a) action from to (Some (MonAlert.severity a)) detail None (now s) →
     Q (inr ()) s1) →
  wp (_log_alert_event a action from to detail) Q s.
Proof.
  intros Hwf Hu Hact HQ. unfold _log_alert_event. rewrite Hact. cbn [negb]. wp_step. unfold wp at 1.
  rewrite (db_flush_empty s Hu). cbn [fst snd]. unfold MonAlertEventLogRepository.append. wp_step.
  apply wp_db_add_fresh; [exact Hwf|done|done|]. intros e s1 He Hw Ho Ht Hn. wp_step. by apply (HQ e).
Qed.
Lemma only_log_unflushed s s1 : only_table Log s s1 → unflushed (work s1) = unflushed (work s).
Proof. intros (-> & _). done. Qed.

(** A cooldown that began when the clock last moved is not over. *)
Lemma wp_notify_cooling a rule (Q : exn + string → St → Prop) s e :
  wf_table Log s → unflushed (work s) = [] → 0 < MonRule.cooldown_seconds rule →
  tbl (work s) !! MonAlertEventLog.id e = Some e → MonAlertEventLog.alert_id e = MonAlert.id a →
  MonAlertEventLog.action e = "fire" → MonAlertEventLog.at_ e = now s →
  (∀ s1, only_table Log s s1 → Q (inr "suppress") s1) → wp (_maybe_notify a rule) Q s.
Proof.
  intros Hwf Hu Hcd He Hid Hact Hat HQ. unfold _maybe_notify, MonAlertEventLogRepository.timeline. cbv zeta. do 4 wp_step.
  destruct (latest_ge (MonAlertEventLog.at_ <$> filter (λ x, MonAlertEventLog.action x = "fire")
    (select_rows (λ x, MonAlertEventLog.alert_id x =? MonAlert.id a) (tbl (work s)))) (now s)) as (m & -> & Hm).
  { rewrite <-Hat. apply list_elem_of_fmap_2, list_elem_of_filter. split; [done|].
    apply elem_of_select_rows. split; [by apply Z.eqb_eq|eauto]. }
  unfold seconds. rewrite (proj2 (Z.ltb_lt 0 _)), (proj2 (Z.ltb_lt (now s - m) _)) by lia. cbn [andb].
  wp_step. apply wp_log_alert_event; [done..|]. intros e' s1 _ Ho _ _ _. wp_step. by apply HQ.
Qed.

(** The row after an event that found it active. *)
Definition touched_alert (a : Alert) (value : json) (n : Z) : Alert :=
  a <| MonAlert.last_event_at := Some n |> <| MonAlert.hit_count := MonAlert.hit_count a + 1 |>
    <| MonAlert.last_value := _to_float value |>.
Definition fired_alert (a : Alert) (n : Z) : Alert :=
  a <| MonAlert.version := MonAlert.version a + 1 |> <| MonAlert.status := "firing" |> <| MonAlert.fired_at := Some n |>.

(** An event that meets a rule with a pending alert makes it fire exactly
    when the rule's duration has passed since the alert became pending; the row
    then is [firing] at one version more. But the entry that records the firing
    is itself the latest [fire] entry, so a rule with a cooldown sends no
    notification of it: nothing but the broadcast leaves the process. *)
Theorem first_firing_not_notified event entity_id rule e a value s r s1 :
  wf_table Log s → unflushed (work s) = [] → tbl (work s) !! MonAlert.id a = Some a → MonAlert.status a = "pending" →
  entity_arg entity_id s = (inr e, s) →
  MonAlertRepository.active_by_rule_entity (MonRule.id rule) e s = (inr (Some a), s) →
  _rule_pertains rule event s = (inr true, s) → _condition_met rule event s = (inr true, s) →
  dict_get "value" event s = (inr value, s) →
  0 < MonRule.cooldown_seconds rule →
  evaluate_rule event entity_id rule s = (r, s1) →
  let anchor := default (MonAlert.created_at a) (MonAlert.pending_since a) in
  let a1 := touched_alert a value (now s) in
  committed s1 = committed s ∧
  if seconds (MonRule.condition_duration_seconds rule) <=? now s - anchor then
    let a2 := fired_alert a1 (now s) in
    tbl (work s1) !! MonAlert.id a = Some a2 ∧
    r = inr (Some (outcome rule "suppress" (Some "firing"))) ∧
    out s1 = out s ++ [EBroadcast "monitor" (MonAlert.id a) (JObj [("type", JStr "alert"); ("data", _alert_out a2)])]
  else
    tbl (work s1) !! MonAlert.id a = Some a1 ∧ r = inr (Some (outcome rule "suppress" None)) ∧ out s1 = out s.
Proof.
  intros Hwf Hu Hi Hst He Hf Hp Hm Hv Hcd Hrun anchor a1. by_wp Hrun. unfold evaluate_rule.
  wp_step. unfold wp at 1. rewrite He. cbn [fst snd]. wp_step. unfold wp at 1. rewrite Hf. cbn [fst snd].
  wp_step. unfold wp at 1. rewrite Hp. cbn [fst snd negb]. do 2 wp_step. wp_step. unfold wp at 1. rewrite Hm. cbn [fst snd negb].
  wp_step. unfold wp at 1. rewrite Hv. cbn [fst snd]. wp_step. unfold stamp at 1. wp_step.
  eapply wp_upd_hit; [exact Hi|]. cbv beta iota. wp_step. fold (touched_alert a value (now s)). fold a1.
  assert (MonAlert.status a1 = "pending") as Hst1 by exact Hst. rewrite Hst1, bool_decide_eq_true_2 by done.
  set (s2 := put_row (MonAlert.id a) a1 s).
  assert (wf_table Log s2) as Hwf2 by by apply wf_table_put_ne.
  assert (unflushed (work s2) = []) as Hu2 by exact Hu.
  assert (tbl (work s2) !! MonAlert.id a = Some a1) as Hi2 by (unfold s2; rewrite tbl_put_row; apply lookup_insert_eq).
  unfold fire_or_wait. cbv zeta. change (default (MonAlert.created_at a1) (MonAlert.pending_since a1)) with anchor.
  destruct (_ <=? _).
  - wp_step. unfold MonAlertRepository.optimistic_update. change (MonAlert.id a1) with (MonAlert.id a).
    eapply wp_cas_hit; [exact Hi2|by rewrite Hst1, Z.eqb_refl|]. cbv beta iota. cbn [negb].
    wp_step. unfold stamp. wp_step. eapply wp_upd_hit; [rewrite tbl_put_row; apply lookup_insert_eq|]. cbv beta iota.
    rewrite put_row_twice. wp_step. unfold s2. rewrite put_row_twice. set (a2 := fired_alert a1 (now s)).
    match goal with |- context [put_row _ ?x s] => change x with a2 end.
    match goal with |- context [_log_alert_event ?x] => change x with a2 end.
    set (s3 := put_row _ a2 s). wp_step.
    apply wp_log_alert_event; [by apply wf_table_put_ne|exact Hu|done|]. intros log s4 Hwf4 Ho Ht Hn Hlog.
    pose proof Ho as (_ & _ & Hc4 & Hn4 & _ & _ & Ho4).
    wp_step. apply (wp_notify_cooling a2 rule _ s4 log); [done| |done| |by rewrite Hlog..| |].
    { by rewrite (only_log_unflushed _ _ Ho). }
    { rewrite Ht. apply lookup_insert_eq. }
    { rewrite Hlog, Hn4. done. }
    intros s5 Ho5. pose proof Ho5 as (_ & _ & Hc5 & _ & _ & _ & Hout5). wp_step. unfold _broadcast_alert. do 2 wp_step.
    split; [by cbn; rewrite Hc5, Hc4|]. cbn. rewrite (only_table_ne _ _ Ho5), (only_table_ne _ _ Ho). split_and!.
    + unfold s3. rewrite tbl_put_row. apply lookup_insert_eq.
    + done.
    + by rewrite Hout5, Ho4.
  - wp_step. apply wp_log_alert_event; [done..|]. intros log s3 _ Ho Ht Hn _. wp_step.
    pose proof Ho as (_ & _ & Hc & _ & _ & _ & Hout). split; [by rewrite Hc|].
    rewrite (only_table_ne _ _ Ho). split_and!; [exact Hi2|done|by rewrite Hout].
Qed.
End monitor.

(** ** Witnesses *)

(** Rule 1 of all cpu metrics above 90 for a minute, with the default cooldown
    of five minutes and channel 1 to tell. *)
Definition cpu_rule : MonRule.MonRule :=
  MonRule.mk 1 "cpu" None 1 None "metric" (Some "cpu") ">" 90 60 None None "warning" 300 0 0 None None None "alert"
    (Some [1]) None 0 0.
Definition cpu_event (v : Q) : json := JObj [
  ("source", JStr "prometheus"); ("kind", JStr "metric"); ("entity", JObj [("entity_id", JStr "10.0.0.4")]);
  ("value", JFloat v); ("labels", JObj [("metric_name", JStr "cpu")])].
Definition cpu_alert (status : string) (since : Z) : MonAlert.MonAlert :=
  MonAlert.mk 7 (Some 1) "cpu" (JObj [("entity_id", JStr "10.0.0.4")]) "prometheus" status "warning" (Some (95 : Q)) 1
    None None (Some since) (Some since) 0 since.
Definition cpu_log (since : Z) : MonAlertEventLog.MonAlertEventLog :=
  MonAlertEventLog.mk 3 7 "fire" None (Some "pending") (Some "warning") JNull None since.
Definition monitor_st : St :=
  on_db (λ _, empty_db
    <| notify_channels := {[1 := NotifyChannel.mk 1 "ops" "webhook" "http://ok" 1 0]} |>
    <| mon_rules := {[1 := cpu_rule]} |>
    <| mon_alerts := {[7 := cpu_alert "pending" (1767355200000000 - seconds 400)]} |>
    <| mon_alert_logs := {[3 := cpu_log (1767355200000000 - seconds 400)]} |>) init_st
  <| seqs := {["notify_channel" := 1; "mon_rule" := 1; "mon_alert" := 7; "mon_alert_event_log" := 3]} |>.
Definition cpu_step : (exn + option json) * St :=
  evaluate_rule (λ _, "") (λ _, "") (λ _, None) Some (λ u, Some (JObj [("url", JStr u)])) (λ _ _, None) (λ _, "")
    (cpu_event 95) (JStr "10.0.0.4") cpu_rule monitor_st.
Lemma first_firing_not_notified_witness :
  cpu_step.1 = inr (Some (outcome cpu_rule "suppress" (Some "firing"))) ∧
  MonAlert.status <$> rows (tbl (work cpu_step.2)) = ["firing"] ∧
  length (out cpu_step.2) = 1%nat ∧ committed cpu_step.2 = committed monitor_st.
Proof.
  do 3 (split; [vm_compute; reflexivity|]).
  refine (proj1 (first_firing_not_notified (λ _, "") (λ _, "") (λ _, None) Some (λ u, Some (JObj [("url", JStr u)]))
    (λ _ _, None) (λ _, "") (cpu_event 95) (JStr "10.0.0.4") cpu_rule (Some "10.0.0.4")
    (cpu_alert "pending" (1767355200000000 - seconds 400)) (JFloat 95) monitor_st
    (inr (Some (outcome cpu_rule "suppress" (Some "firing")))) cpu_step.2 _ _ _ _ _ _ _ _ _ _ _)).
  - apply wf_tableb_spec. vm_compute. reflexivity.
  - reflexivity.
  - reflexivity.
  - reflexivity.
  - reflexivity.
  - vm_compute. reflexivity.
  - vm_compute. reflexivity.
  - vm_compute. reflexivity.
  - reflexivity.
  - reflexivity.
  - unfold cpu_step. apply run_pair. vm_compute. reflexivity.
Defined.
