(* ===== verification/MonitorIngest.v ===== *)
(** * Monitoring events: the ingestion of [services/monitor_service.py]

    Payloads of the sources are normalized, validated, stored and handed to the
    rule engine of Monitor.v; what cannot be used goes to a dead letter. The
    session is created with [autoflush=False]: a row that was added and not yet
    flushed ([db_add_later]) is found by no select. Floats are rationals. *)

From S2P Require Import Prelude.
From S2P Require Import Models.
From S2P Require Import Session.
From S2P Require Import Repositories.
From S2P Require Import Access.
From S2P Require Import Notify.
From S2P Require Import Dispatch.
From S2P Require Import Monitor.

Definition MON_SOURCES : list string := ["agent"; "prometheus"; "elk"; "skywalking"; "alertmanager"; "webhook"].
Definition MON_KINDS : list string := ["metric"; "alert"; "log"; "apm"].

(** [for x in j] *)
Fixpoint characters (s : string) (acc : list string) : list string :=
  match s with
  | EmptyString => reverse acc
  | String c s' =>
      match acc with
      | x :: acc' => if continues c then characters s' ((x +:+ String c "") :: acc') else characters s' (String c "" :: acc)
      | [] => characters s' [String c ""]
      end
  end.
Definition iterate {S} (j : json) : M S (list json) :=
  match j with
  | JArr l => ret l
  | JObj o => ret ((λ kv, JStr kv.1) <$> o)
  | JStr s => ret (JStr <$> characters s [])
  | _ => raise (TypeError "object is not iterable")
  end.
(** [dict(j)] of a dict, or of a list of pairs. *)
Definition dict_of {S} (j : json) : M S (list (string * json)) :=
  match j with
  | JObj o => ret o
  | JArr l => fold_each l [] (λ acc x, match x with
      | JArr [JStr k; v] => ret (assoc_set k v acc)
      | _ => raise (TypeError "cannot convert dictionary update sequence")
      end)
  | _ => raise (TypeError "object is not iterable")
  end.
(** [s.lower()] *)
Definition lower_of {S} (j : json) : M S string :=
  match j with JStr s => ret (lower s) | _ => raise (OtherError "AttributeError: object has no attribute 'lower'") end.
(** [j in {...}] for a set of strings: lists and dicts have no hash. *)
Definition in_set {S} (j : json) (l : list string) : M S bool :=
  match j with
  | JStr s => ret (str_in s l)
  | JArr _ | JObj _ => raise (TypeError "unhashable type")
  | _ => ret false
  end.

(** ** Repositories (repositories/__init__.py) *)

Module MonEventInboxRepository.
Definition by_event_key (key : string) : Op (option MonEventInbox.MonEventInbox) :=
  db_find (λ e, bool_decide (MonEventInbox.event_key e = Some key)).
End MonEventInboxRepository.

Definition day_of (ts : Z * Z) : Z := (ts.1 + ts.2) / seconds 86400.
Module MonMetricSampleRepository.
Definition daily_key (source entity_type entity_id metric_name : string) (day : Z) (r : MonMetricDaily.MonMetricDaily) : bool :=
  bool_decide (MonMetricDaily.source r = source) && bool_decide (MonMetricDaily.entity_id r = entity_id) &&
  bool_decide (MonMetricDaily.entity_type r = entity_type) &&
  bool_decide (MonMetricDaily.metric_name r = metric_name) && (MonMetricDaily.day r =? day).
Definition upsert_daily (source entity_type entity_id metric_name : string) (day : Z) (value : Q) : Op () :=
  o ← db_find (daily_key source entity_type entity_id metric_name day);
  match o with
  | None =>
      db_add_later (NewDaily (MonMetricDaily.mk 0 source metric_name entity_type entity_id day value value value 1))
  | Some row =>
      let n := MonMetricDaily.sample_count row + 1 in
      let max_of a b := if Qle_bool a b then b else a in
      let min_of a b := if Qle_bool a b then a else b in
      db_upd (MonMetricDaily.id row) (λ r, r <| MonMetricDaily.sample_count := n |>
        <| MonMetricDaily.avg_value := ((MonMetricDaily.avg_value row * inject_Z (n - 1) + value) / inject_Z n)%Q |>
        <| MonMetricDaily.max_value := max_of (MonMetricDaily.max_value row) value |>
        <| MonMetricDaily.min_value := min_of (MonMetricDaily.min_value row) value |>)
  end.
End MonMetricSampleRepository.

Section ingest.
Variable float_str : Q → string.
Variable container_str : json → string.
Variable float_of_str : string → option Q.
Variable decrypt_secret : string → option string.
Variable loads : string → option json.
Variable http_post : json → json → option exn.
Variable exc_text : exn → string.
(** [json.dumps(j, sort_keys=True, ...)], [json.dumps(j)], [hashlib.sha256(s).hexdigest()]. *)
Variables canonical dumps : json → string.
Variable sha256_hex : string → string.
(** [datetime.fromisoformat]: the instant and its offset from UTC, in microseconds. *)
Variable fromisoformat : string → option (Z * Z).
#[local] Abbreviation str := (py_str float_str container_str).
#[local] Abbreviation _to_float := (_to_float float_str container_str float_of_str).
#[local] Abbreviation _resolve_metric_name := (_resolve_metric_name float_str container_str).

(** ** Validation *)

Definition validate_event (event : json) : Op (option string) :=
  source ← dict_get "source" event;
  kind ← dict_get "kind" event;
  s ← in_set source MON_SOURCES;
  if negb s then ret (Some ("invalid source: " +:+ str source)) else
  k ← in_set kind MON_KINDS;
  if negb k then ret (Some ("invalid kind: " +:+ str kind)) else
  entity ← dict_get "entity" event;
  if negb (match entity with JObj _ => truthy (jget_or "entity_id" JNull entity) | _ => false end)
  then ret (Some "entity.entity_id required") else
  ts ← dict_get "ts" event;
  if negb (truthy ts) then ret (Some "ts required") else
  value ← dict_get "value" event;
  ret (match kind, value with
       | JStr "metric", (JInt _ | JFloat _ | JBool _) => None
       | JStr "metric", _ => Some "metric kind requires numeric value"
       | _, _ => None
       end).

Definition build_fingerprint (event : json) : string :=
  let get k := jget_or k JNull event in
  sha256_hex (canonical (JObj [
    ("source", get "source"); ("kind", get "kind"); ("entity", get "entity");
    ("ts", if truthy (get "ts") then JStr (str (get "ts")) else get "ts"); ("value", get "value");
    ("severity", get "severity"); ("labels", j_or (get "labels") (JObj []))])).
Definition build_event_key (source : string) (event_id : json) : option string :=
  if truthy event_id then Some (source +:+ ":" +:+ str event_id) else None.

(** ** Normalization *)

Definition _severity_from_status (status : json) : Op string :=
  s ← lower_of (j_or status (JStr ""));
  ret (default "warning" (assoc_get s [("critical", "critical"); ("error", "warning"); ("warning", "warning");
    ("warn", "warning"); ("info", "info"); ("firing", "warning"); ("pending", "info")])).
Definition _now_iso : Op json := n ← utc_now; ret (JStr (isoformat n)).
(** [x.get(k1) or x.get(k2) or ... or d] *)
Definition first_of (keys : list string) (d : json) (o : json) : json :=
  foldr (λ k acc, j_or (jget_or k JNull o) acc) d keys.
Definition host_entity (entity_type : string) (entity_id entity_name : json) : json :=
  JObj [("entity_type", JStr entity_type); ("entity_id", entity_id); ("entity_name", entity_name)].
Definition event_of (source kind : string) (entity ts value severity labels raw event_id : json) : json := JObj [
  ("source", JStr source); ("kind", JStr kind); ("entity", entity); ("ts", ts); ("value", value);
  ("severity", severity); ("labels", labels); ("raw", raw); ("event_id", event_id)].

Definition normalize_alert (payload alert : json) : Op json :=
  l ← dict_get "labels" alert;
  items ← dict_of (j_or l (JObj []));
  let labels := JObj items in
  let entity_id := first_of ["instance"; "host"] (JStr "unknown") labels in
  let entity_name := first_of ["hostname"; "node"] entity_id labels in
  let status := j_or (jget_or "status" JNull payload) (first_of ["status"] (JStr "firing") alert) in
  now_ ← _now_iso;
  sev ← _severity_from_status (first_of ["severity"] status labels);
  ret (event_of "alertmanager" "alert" (host_entity "host" entity_id entity_name)
    (first_of ["startsAt"] (first_of ["now"] now_ payload) alert) JNull (JStr sev) labels
    (JObj [("alert", alert); ("status", status)])
    (first_of ["alertname"] (JStr (str (first_of ["fingerprint"] (JStr "") alert))) labels)).
Definition normalize_alertmanager (payload : json) : Op (list json) :=
  alerts ← iterate (j_or (jget_or "alerts" (JArr []) payload) (JArr []));
  map_each alerts (normalize_alert payload).

(** A sample [{"ts": t, "value": v}] or [[t, v]]. *)
Definition sample_field (k : string) (i : nat) (s : json) : json :=
  match s with
  | JObj _ => jget_or k JNull s
  | JArr (x :: y :: l) => default JNull ((x :: y :: l) !! i)
  | _ => JNull
  end.
Definition normalize_series (series : json) : Op (list json) :=
  l ← dict_get "labels" series;
  items ← dict_of (j_or l (JObj []));
  let labels := JObj items in
  values ← iterate (first_of ["samples"; "values"] (JArr []) series);
  let entity_id := first_of ["instance"] (JStr "unknown") labels in
  let entity_name := first_of ["hostname"] entity_id labels in
  let label_name := first_of ["__name__"; "metric_name"] (jget_or "name" JNull series) labels in
  let unknown := match entity_id with JStr s => bool_decide (s = "unknown") | _ => false end in
  let scrape_error := if unknown then (if truthy label_name then "missing_instance_label"
                                       else "missing_instance_label,missing_metric_name")
                      else if truthy label_name then "" else "missing_metric_name" in
  let job := ("job", jget_or "job" JNull labels) in
  map_each values (λ s,
    now_ ← _now_iso;
    ret (event_of "prometheus" "metric" (host_entity "host" entity_id entity_name)
      (j_or (sample_field "ts" 0 s) now_) (jq (_to_float (sample_field "value" 1 s))) JNull
      (if truthy label_name then jset "metric_name" label_name labels else labels)
      (JObj (if bool_decide (scrape_error = "") then [job] else [job; ("scrape_error", JStr scrape_error)])) JNull)).
Definition normalize_prometheus_remote (payload : json) : Op (list json) :=
  series ← iterate (j_or (jget_or "metric" (JArr []) payload) (JArr []));
  l ← map_each series normalize_series;
  ret (concat l).

Definition normalize_doc (doc : json) : Op json :=
  let src := match doc with JObj _ => match jget_or "_source" JNull doc with JObj o => JObj o | _ => JObj [] end
             | _ => JObj [] end in
  let log_level := first_of ["log.level"; "level"] (JStr "info") src in
  level ← lower_of log_level;
  now_ ← _now_iso;
  sev ← _severity_from_status log_level;
  let host := first_of ["host.name"] (JStr "unknown") src in
  let service := match jget "service" src with
                 | Some (JObj o) => default JNull (assoc_get "name" o)
                 | Some v => v
                 | None => JNull end in
  ret (event_of "elk" (if str_in level ["error"; "fatal"] then "alert" else "log") (host_entity "host" host host)
    (first_of ["@timestamp"] now_ src) JNull (JStr sev)
    (JObj [("log_level", log_level); ("service", service)])
    src (jget_or "event_id" JNull src)).
Definition normalize_trace (payload : json) : Op json :=
  let status := first_of ["status"; "statusCode"] (JStr "UNKNOWN") payload in
  now_ ← _now_iso;
  sev ← _severity_from_status status;
  items ← match first_of ["labels"] (JObj []) payload with
          | JObj o => ret o
          | _ => raise (TypeError "argument after ** must be a mapping") end;
  ret (event_of "skywalking" "apm"
    (host_entity "app" (first_of ["entity"; "service"] (JStr "unknown") payload)
                       (first_of ["service"; "entity"] (JStr "unknown") payload))
    (first_of ["ts"] now_ payload) (jq (_to_float (jget_or "value" JNull payload))) (JStr sev)
    (JObj (foldl (λ o kv, assoc_set kv.1 kv.2 o) [("statusCode", status)] items)) payload
    (jget_or "event_id" JNull payload)).
(** The second component of the source's result is not read. *)
Definition normalize_event (source : string) (payload : json) : Op (list json) :=
  if bool_decide (source = "prometheus") then normalize_prometheus_remote payload
  else if str_in source ["alertmanager"; "webhook"] || (match jget "alerts" payload with Some _ => true | None => false end)
  then normalize_alertmanager payload
  else if bool_decide (source = "elk") then
    docs ← iterate (first_of ["hits"; "docs"] (JArr []) payload); map_each docs normalize_doc
  else if bool_decide (source = "skywalking") then e ← normalize_trace payload; ret [e]
  else ret [].

(** ** Storing an event *)

(** A JSON value written to a text column: scalars are cast. *)
Definition column_text (j : json) : Op string :=
  match j with
  | JStr s => ret s
  | JInt z => ret (pretty z)
  | JBool b => ret (if b then "true" else "false")
  | JFloat q => ret (float_str q)
  | JNull => raise (IntegrityError "null value in column")
  | _ => raise no_cast
  end.
Definition nullable_text (j : json) : Op (option string) :=
  match j with JNull => ret None | _ => s ← column_text j; ret (Some s) end.

(** [datetime.fromtimestamp(t, utc)] of [t] microseconds. *)
Definition fromtimestamp (t : Z) : Op (Z * Z) :=
  if (seconds (-62135596800) <=? t) && (t <? seconds 253402300800) then ret (t, 0)
  else raise (ValueError "year is out of range").
Definition _coerce_ts (value : json) : Op (Z * Z) :=
  let stamp (q : Q) := fromtimestamp (Qfloor ((if Qle_bool q 1000000000000 then q * inject_Z (seconds 1) else q * 1000)%Q + (1 # 2))%Q) in
  match value with
  | JInt z => stamp (inject_Z z)
  | JBool b => stamp (if b then 1 else 0)%Q
  | JFloat q => stamp q
  | _ =>
      match fromisoformat (str_replace "Z" "+00:00" (str value)) with
      | Some t => ret t
      | None => n ← utc_now; ret (n, 0)
      end
  end.

(** The label is what storing, matching and the fingerprint all read. *)
Definition _normalize_metric_name (raw : json) : Op json :=
  name ← _resolve_metric_name raw;
  match name with
  | Some n => ret (jset "labels" (jset "metric_name" (JStr n) (j_or (jget_or "labels" JNull raw) (JObj []))) raw)
  | None => ret raw
  end.

Definition _persist_metric_sample (raw entity : json) (ts : Z * Z) (metric_name : string) : Op () :=
  match _to_float (jget_or "value" JNull raw) with
  | None => ret ()
  | Some value =>
      entity_type ← column_text (first_of ["entity_type"] (JStr "host") entity);
      let entity_id := str (first_of ["entity_id"] (JStr "unknown") entity) in
      entity_name ← column_text (first_of ["entity_name"] (JStr entity_id) entity);
      fingerprint ← column_text (first_of ["fingerprint"] (JStr (build_fingerprint raw)) raw);
      source ← column_text (jget_or "source" JNull raw);
      db_add_later (NewSample (MonMetricSample.mk 0 source metric_name entity_type entity_id entity_name value
        (jget_or "labels" JNull raw) fingerprint ts.1 0));;
      MonMetricSampleRepository.upsert_daily source entity_type entity_id metric_name (day_of ts) value
  end.

(** The row is written within a savepoint: if it cannot be, there is none, and
    the event counts as dead-lettered all the same. *)
Definition _dead_letter (raw : json) (error : string) (detail : option json) : Op () :=
  db_flush;;
  try_catch (
    let raw' := j_or raw (JObj []) in
    source ← dict_get "source" raw';
    source ← column_text (jget_or "source" (JStr "webhook") raw');
    kind ← column_text (jget_or "kind" (JStr "metric") raw');
    ts ← (if truthy raw then _coerce_ts (jget_or "ts" JNull raw') else n ← utc_now; ret (n, 0));
    severity ← nullable_text (jget_or "severity" JNull raw');
    fingerprint ← column_text (first_of ["fingerprint"] (JStr "dead-letter") raw');
    _ ← db_add (MonEventInbox.mk 0 source kind (first_of ["entity"] fallback_entity raw') ts.1
          (if truthy raw then _to_float (jget_or "value" JNull raw') else None) severity
          (jget_or "labels" JNull raw') raw fingerprint None 0 "dead_letter"
          (Some (match detail with
                 | None => str_take 512 error
                 | Some d => str_take 464 error +:+ str_take 64 (dumps d) end)) 0);
    ret ()) (λ _, ret ()).

Inductive processed := Accepted (dedup : bool) | Rejected (error : string) | DeadLettered (error : string).

(** A valid new event is stored, [pending], with its sample, and evaluated. *)
Definition store_event (raw entity : json) (source : string) (kind : json) (ts : Z * Z) (severity : string)
    (event_key : option string) (warning : bool) (sample : option string) : Op processed :=
  kind_text ← column_text kind;
  fingerprint ← column_text (first_of ["fingerprint"] (JStr (build_fingerprint raw)) raw);
  db_add_later (NewEvent (MonEventInbox.mk 0 source kind_text entity ts.1
    (_to_float (jget_or "value" JNull raw)) (Some severity) (first_of ["labels"] (JObj []) raw)
    (jget_or "raw" JNull raw) fingerprint event_key (if warning then 1 else 0) "pending" None 0));;
  match sample with Some n => _persist_metric_sample raw entity ts n | None => ret () end;;
  _ ← evaluate_event float_str container_str float_of_str decrypt_secret loads http_post exc_text raw;
  ret (Accepted false).
Definition is_metric (raw : json) : bool :=
  match jget_or "kind" (JStr "metric") raw with JStr k => bool_decide (k = "metric") | _ => false end.
Definition _process_event (adapter : MonAdapter.MonAdapter) (raw : json) : Op processed :=
  error ← validate_event raw;
  match error with
  | Some e => ret (Rejected e)
  | None =>
      raw ← (if is_metric raw then _normalize_metric_name raw else ret raw);
      source ← column_text (jget_or "source" (JStr (MonAdapter.type adapter)) raw);
      let event_key := build_event_key source (jget_or "event_id" JNull raw) in
      existing ← match event_key with Some k => MonEventInboxRepository.by_event_key k | None => ret None end;
      match existing with
      | Some _ => ret (Accepted true)
      | None =>
          let entity := first_of ["entity"] fallback_entity raw in
          let no_entity := match jget_or "entity_id" JNull entity with
                           | JNull => true | JStr s => str_in s [""; "unknown"] | _ => false end in
          severity ← lower_of (first_of ["severity"] (JStr "warning") raw);
          let known := str_in severity MON_LEVELS in
          ts ← _coerce_ts (jget_or "ts" JNull raw);
          name ← (if is_metric raw then _resolve_metric_name raw else ret None);
          if is_metric raw && match name with None => true | Some _ => false end then
            _dead_letter raw "unresolvable metric_name" None;;
            ret (DeadLettered "unresolvable metric_name")
          else
            store_event raw entity source (jget_or "kind" (JStr "metric") raw) ts
              (if known then severity else "warning") event_key (no_entity || negb known) name
      end
  end.

Definition ingest_one (adapter : MonAdapter.MonAdapter) (count : Z * Z) (raw : json) : Op (Z * Z) :=
  result ← _process_event adapter raw;
  match result with
  | Accepted _ => ret (count.1 + 1, count.2)
  | Rejected e => when (negb (bool_decide (e = ""))) (_dead_letter raw e None);; ret (count.1, count.2 + 1)
  | DeadLettered _ => ret (count.1, count.2 + 1)
  end.
Definition events_of (adapter : MonAdapter.MonAdapter) (payload : json) : Op json :=
  if truthy (jget_or "source" JNull payload) &&
     (match jget_or "adapter" JNull payload with JNull => true | _ => false end)
  then ret (match jget_or "kind" JNull payload with
            | JStr _ => JArr [payload]
            | _ => jget_or "events" (JArr []) payload
            end)
  else l ← normalize_event (MonAdapter.type adapter) payload; ret (JArr l).
Definition ingest (adapter_id : Z) (payload : json) : Op json :=
  on ← _feature_enabled;
  guard_or on (BadRequestError "monitor feature disabled");;
  o ← db_get adapter_id;
  adapter ← some_or o (NotFoundError "adapter not found");
  guard_or (MonAdapter.enabled adapter =? 1) (BadRequestError "adapter disabled");;
  events ← events_of adapter payload;
  if negb (truthy events) then
    _dead_letter JNull "unsupported payload shape" (Some (JObj [("adapter_id", JInt adapter_id)]));;
    flush_commit;;
    ret (JObj [("accepted", JBool false); ("error", JStr "unsupported payload shape"); ("dead_lettered", JBool true)])
  else
    l ← iterate events;
    count ← fold_each l (0, 0) (ingest_one adapter);
    flush_commit;;
    ret (JObj [("accepted", JInt count.1); ("rejected", JInt count.2); ("adapter_id", JInt adapter_id)]).

(** ** The audit trail of alerts under ingestion *)

Section reads.
Context (I : St → Prop).
Lemma reads_lower j : preserves I (lower_of (S:=St) j).
Proof. unfold lower_of. destruct j; auto with preserves. Qed.
Lemma reads_iterate j : preserves I (iterate (S:=St) j).
Proof. unfold iterate. destruct j; auto with preserves. Qed.
Lemma reads_dict_of j : preserves I (dict_of (S:=St) j).
Proof. unfold dict_of. destruct j; auto with preserves. apply preserves_fold_each. intros acc x _. repeat case_match; auto with preserves. Qed.
Lemma reads_in_set j l : preserves I (in_set (S:=St) j l).
Proof. unfold in_set. destruct j; auto with preserves. Qed.
Lemma reads_get k j : preserves I (dict_get (S:=St) k j).
Proof. unfold dict_get. destruct j; auto with preserves. Qed.
Lemma reads_column_text j : preserves I (column_text j).
Proof. unfold column_text. destruct j; auto with preserves. Qed.
#[local] Hint Resolve reads_lower reads_iterate reads_dict_of reads_in_set reads_get reads_column_text : preserves.
Lemma reads_nullable j : preserves I (nullable_text j).
Proof. unfold nullable_text. preserves_auto. Qed.
Lemma reads_severity j : preserves I (_severity_from_status j).
Proof. unfold _severity_from_status. preserves_auto. Qed.
Lemma reads_now : preserves I _now_iso.
Proof. unfold _now_iso. preserves_auto. Qed.
#[local] Hint Resolve reads_nullable reads_severity reads_now : preserves.
Lemma reads_validate j : preserves I (validate_event j).
Proof. unfold validate_event. preserves_auto. Qed.
Lemma reads_coerce j : preserves I (_coerce_ts j).
Proof. unfold _coerce_ts, fromtimestamp. cbv zeta. preserves_auto. Qed.
Lemma reads_normalize t j : preserves I (normalize_event t j).
Proof.
  unfold normalize_event, normalize_alertmanager, normalize_alert, normalize_prometheus_remote, normalize_series,
    normalize_doc, normalize_trace. preserves_auto.
Qed.
Lemma reads_events a j : preserves I (events_of a j).
Proof. unfold events_of. pose proof reads_normalize. preserves_auto. Qed.
Lemma reads_normalize_name j : preserves I (_normalize_metric_name j).
Proof. unfold _normalize_metric_name, Monitor._resolve_metric_name. cbv zeta. preserves_auto. Qed.
End reads.
#[local] Hint Resolve reads_lower reads_iterate reads_get reads_column_text reads_nullable reads_validate reads_coerce
  reads_events reads_normalize_name : preserves.

Section ingest_audit.
Context (old : gmap Z MonAlertEventLog.MonAlertEventLog).
#[local] Abbreviation calm := (inv old None (λ _, True)).

Lemma inv_add_later u : preserves calm (db_add_later u).
Proof. apply preserves_modify. intros s Hs. revert Hs. by apply inv_ext. Qed.
Lemma inv_upsert a b c d e v : preserves calm (MonMetricSampleRepository.upsert_daily a b c d e v).
Proof.
  unfold MonMetricSampleRepository.upsert_daily. cbv zeta. preserves_auto; first [apply inv_add_later|refine (inv_db_upd _ _ _ _ _)].
Qed.
#[local] Hint Resolve inv_add_later inv_upsert inv_flush : preserves.
Lemma inv_persist raw e ts n : preserves calm (_persist_metric_sample raw e ts n).
Proof. unfold _persist_metric_sample. preserves_auto. Qed.
Lemma inv_dead_letter raw e d : preserves calm (_dead_letter raw e d).
Proof.
  assert (∀ r : MonEventInbox.MonEventInbox, preserves calm (db_add r)) by (intros; refine (inv_db_add _ _ _ _)).
  unfold _dead_letter. cbv zeta. preserves_auto.
Qed.

Lemma ok_store raw e src k ts sev key w name s :
  calm s → ok old (store_event raw e src k ts sev key w name) (λ _ s', calm s') s.
Proof.
  intros Hs. unfold store_event. do 2 (apply ok_bind, ok_reads; [auto with preserves|apply Hs|]; intros ? _).
  apply ok_bind. eapply ok_inv; [apply inv_add_later|exact Hs|]. intros _ s1 Hs1.
  apply ok_bind. eapply (ok_inv old None (λ _, True)); [|exact Hs1|].
  { destruct name; [apply inv_persist|auto with preserves]. }
  intros _ s2 Hs2. apply ok_bind, ok_evaluate_event; [exact Hs2|]. intros ? s3 Hs3. apply ok_ret; [apply Hs3|done].
Qed.
Lemma ok_process a raw s : calm s → ok old (_process_event a raw) (λ _ s', calm s') s.
Proof.
  intros Hs. unfold _process_event. apply ok_bind, ok_reads; [auto with preserves|apply Hs|]. intros [e|] _.
  { apply ok_ret; [apply Hs|done]. }
  apply ok_bind, ok_reads; [destruct (is_metric raw); auto with preserves|apply Hs|]. intros raw' _.
  apply ok_bind, ok_reads; [auto with preserves|apply Hs|]. intros source _. cbv zeta.
  apply ok_bind, ok_reads; [unfold MonEventInboxRepository.by_event_key; preserves_auto|apply Hs|]. intros [x|] _.
  { apply ok_ret; [apply Hs|done]. }
  apply ok_bind, ok_reads; [auto with preserves|apply Hs|]. intros sev _.
  apply ok_bind, ok_reads; [auto with preserves|apply Hs|]. intros ts _.
  apply ok_bind, ok_reads; [destruct (is_metric raw'); [apply reads_metric_name|auto with preserves]|apply Hs|].
  intros name _. destruct (_ && _); [|by apply ok_store].
  apply ok_bind. eapply ok_inv; [apply inv_dead_letter|exact Hs|]. intros _ s1 Hs1. apply ok_ret; [apply Hs1|done].
Qed.
Lemma ok_ingest_one a count raw s : calm s → ok old (ingest_one a count raw) (λ _ s', calm s') s.
Proof.
  intros Hs. unfold ingest_one. apply ok_bind. eapply ok_mono; [by apply ok_process|]. intros r s1 Hs1.
  destruct r as [d|e|e]; [apply ok_ret; [apply Hs1|done]| |apply ok_ret; [apply Hs1|done]].
  apply ok_bind. eapply ok_inv; [apply preserves_when; intros; apply inv_dead_letter|exact Hs1|]. intros _ s2 Hs2.
  apply ok_ret; [apply Hs2|done].
Qed.
Lemma ok_ingest adapter_id payload s : calm s → ok old (ingest adapter_id payload) (λ _ s', calm s') s.
Proof.
  intros Hs. unfold ingest. assert (∀ s', calm s' → ok old flush_commit (λ _ s', calm s') s') as Hcommit.
  { intros s1 Hs1. apply ok_bind. eapply ok_inv; [apply inv_flush|exact Hs1|]. intros _ s2 Hs2.
    by eapply ok_inv; [apply inv_commit|exact Hs2|]. }
  apply ok_bind, ok_reads; [unfold _feature_enabled, ConfigRuleRepository.by_key; preserves_auto|apply Hs|]. intros on _.
  apply ok_bind, ok_guard; [apply Hs|]. intros _. apply ok_bind, ok_reads; [auto with preserves|apply Hs|]. intros o _.
  apply ok_bind, ok_some_or; [apply Hs|]. intros a _. apply ok_bind, ok_guard; [apply Hs|]. intros _.
  apply ok_bind, ok_reads; [auto with preserves|apply Hs|]. intros ev _. destruct (negb _).
  - apply ok_bind. eapply ok_inv; [apply inv_dead_letter|exact Hs|]. intros _ s1 Hs1.
    apply ok_bind. eapply ok_mono; [by apply Hcommit|]. intros ? s2 Hs2. apply ok_ret; [apply Hs2|done].
  - apply ok_bind, ok_reads; [auto with preserves|apply Hs|]. intros l _. apply ok_bind.
    assert (∀ l count s, calm s → ok old (fold_each l count (ingest_one a)) (λ _ s', calm s') s) as Hfold.
    { clear. induction l as [|x l IH]; intros count s Hs; cbn [fold_each]; [apply ok_ret; [apply Hs|done]|].
      apply ok_bind. eapply ok_mono; [by apply ok_ingest_one|]. intros c s1 Hs1. by apply IH. }
    eapply ok_mono; [by apply Hfold|]. intros c s1 Hs1.
    apply ok_bind. eapply ok_mono; [by apply Hcommit|]. intros ? s2 Hs2. apply ok_ret; [apply Hs2|done].
Qed.
End ingest_audit.

(** ** Histories *)

Section history.
Variable ilike : string → string → bool.
Variable redis_up : bool.
Variable encrypt_secret : string → string.

Inductive monitor_request :=
  | Alerts (q : alert_request)
  | Ingest (adapter_id : Z) (payload : json)
  | Channels (q : notify_request).
Definition monitor_handle (q : monitor_request) : Op json :=
  match q with
  | Alerts q => alert_handle float_str container_str decrypt_secret loads http_post exc_text redis_up ilike q
  | Ingest i p => ingest i p
  | Channels q => notify_handle encrypt_secret decrypt_secret dumps loads http_post exc_text q
  end.

Section calm.
Context (old : gmap Z MonAlertEventLog.MonAlertEventLog).
#[local] Abbreviation calm := (inv old None (λ _, True)).
Lemma ok_channels q s :
  calm s → ok old (notify_handle encrypt_secret decrypt_secret dumps loads http_post exc_text q) (λ _ s', calm s') s.
Proof.
  intros Hs. eapply ok_inv; [|exact Hs|done].
  pose proof (inv_send decrypt_secret loads http_post exc_text old (λ _, True)) as Hsend.
  assert (∀ r : NotifyChannel.NotifyChannel, preserves calm (db_add r)) by (intros; refine (inv_db_add _ _ _ _)).
  assert (∀ i (f : NotifyChannel.NotifyChannel → NotifyChannel.NotifyChannel), preserves calm (db_upd i f))
    by (intros; refine (inv_db_upd _ _ _ _ _)).
  assert (∀ i, preserves calm (db_delete (R:=NotifyChannel.NotifyChannel) i))
    by (intros; apply preserves_modify; intros s1 Hs1; revert Hs1; by apply inv_ext).
  pose proof (inv_commit old (λ _, True)).
  destruct q; cbn [notify_handle]; apply preserves_bind; auto with preserves; intros _.
  - unfold list_channels, channel_out. preserves_auto.
  - unfold create_channel. preserves_auto.
  - unfold update_channel, the_channel. preserves_auto.
  - unfold delete_channel, the_channel. preserves_auto.
  - unfold set_channel_status, the_channel. preserves_auto.
  - apply Hsend.
  - unfold list_records. preserves_auto.
  - unfold resend. preserves_auto.
Qed.
Lemma ok_monitor q s : calm s → ok old (monitor_handle q) (λ _ s', calm s') s.
Proof. destruct q; [apply ok_alert_handle|apply ok_ingest|apply ok_channels]. Qed.
Lemma serve_calm q s : calm s → calm (serve monitor_handle q s).
Proof.
  intros Hs. assert (calm (s <| now := q.1 |>)) as Hs0 by (revert Hs; by apply inv_ext).
  pose proof (ok_monitor q.2 _ Hs0) as Hok. unfold serve, run_request, ok, wp in *.
  destruct (monitor_handle q.2 _) as [r s1]. destruct Hok as [Hsafe _]. by split_and!.
Qed.
Lemma serve_all_calm qs s : calm s → calm (serve_all monitor_handle qs s).
Proof. unfold serve_all. revert s. induction qs as [|q qs IH]; intros s Hs; [done|]. by apply IH, serve_calm. Qed.
End calm.

(** The audit trail of a database: each alert's entries lead, by legal moves,
    from nothing to the status the alert has. *)
Definition trail_complete (d : Db) : Prop :=
  ∀ i a, mon_alerts d !! i = Some a → replay None (trail i (mon_alert_logs d)) = Some (Some (MonAlert.status a)).
Definition one_active (d : Db) : Prop :=
  ∀ i j a b, mon_alerts d !! i = Some a → mon_alerts d !! j = Some b → active_alert a = true → active_alert b = true →
    is_Some (MonAlert.rule_id a) → MonAlert.rule_id a = MonAlert.rule_id b →
    is_Some (entity_key (MonAlert.entity a)) → entity_key (MonAlert.entity a) = entity_key (MonAlert.entity b) → i = j.
(** Keys were drawn from their sequences, and entries are about alerts. *)
Definition keyed (s : St) : Prop :=
  (∀ i a, mon_alerts (committed s) !! i = Some a → MonAlert.id a = i ∧ i ≤ count_of "mon_alert" s) ∧
  (∀ j e, mon_alert_logs (committed s) !! j = Some e →
     j ≤ count_of "mon_alert_event_log" s ∧ is_Some (mon_alerts (committed s) !! MonAlertEventLog.alert_id e)).

Lemma same_key_eq {A} `{EqDecision A} (x y : option A) : is_Some x → x = y → same_key x y = true.
Proof. intros [z ->] <-. cbn. by apply bool_decide_eq_true_2. Qed.

(** C24: over any history of ingested payloads, acknowledged and resolved
    alerts, sweeps, rule changes and channel changes, the event log accounts for
    every alert: its entries are never changed or lost, they form a chain of
    legal moves that starts at nothing and ends at the alert's present status,
    and no rule ever has two active alerts of one entity. *)
Theorem alerts_audited qs s :
  work s = committed s → keyed s → trail_complete (committed s) → one_active (committed s) →
  let s' := serve_all monitor_handle qs s in
  trail_complete (committed s') ∧ one_active (committed s') ∧
  mon_alert_logs (committed s) ⊆ mon_alert_logs (committed s').
Proof.
  intros Hq [Hka Hkl] Ht Hone s'.
  assert (inv (mon_alert_logs (committed s)) None (λ _, True) s) as Hs.
  { assert (safe (mon_alert_logs (committed s)) s) as Hsafe.
    { split; [exact Hka|exact Hkl|exact Ht|done|].
      intros i j a b Hi Hj Hc. cbn in Hc. apply andb_true_iff in Hc as [[[Ha Hb]%andb_true_iff Hr]%andb_true_iff He].
      unfold same_key in Hr, He. repeat case_match; try done. apply bool_decide_eq_true in Hr, He.
      eapply Hone; [exact Hi|exact Hj|..]; try done; try congruence; eauto. }
    split_and!; [exact Hsafe| |done]. unfold audit. rewrite Hq. exact Hsafe. }
  apply (serve_all_calm _ qs) in Hs. fold s' in Hs. destruct Hs as ([_ _ H3 H4 H5] & _). split_and!.
  - intros i a Hi. exact (H3 i a Hi).
  - intros i j a b Hi Hj Ha Hb Hr Er He Ee. eapply H5; [exact Hi|exact Hj|]. cbn.
    rewrite Ha, Hb. cbn. by rewrite !same_key_eq.
  - exact H4.
Qed.
End history.

(** ** What normalization promises *)

Lemma truthy_or x y : truthy x = true ∨ truthy y = true → truthy (j_or x y) = true.
Proof. unfold j_or. destruct (truthy x) eqn:E; [done|]. by intros [|]. Qed.
Lemma truthy_first_of keys d o : truthy d = true → truthy (first_of keys d o) = true.
Proof. intros Hd. unfold first_of. induction keys as [|k keys IH]; [done|]. cbn. apply truthy_or. by right. Qed.
Lemma app_ne_nil a b c : (a +:+ String c b) ≠ "".
Proof. by destruct a. Qed.
Lemma truthy_iso t : truthy (JStr (isoformat t)) = true.
Proof.
  cbn [truthy]. apply negb_true_iff, bool_decide_eq_false_2. unfold isoformat. cbv zeta.
  destruct (civil (t / 1000000 / 86400)) as [[y m] d]. apply app_ne_nil.
Qed.

(** An event the validator takes, up to the value of a metric. *)
Definition well_formed (e : json) : Prop :=
  ∃ source kind entity ts, jget "source" e = Some (JStr source) ∧ source ∈ MON_SOURCES ∧
    jget "kind" e = Some (JStr kind) ∧ kind ∈ MON_KINDS ∧
    jget "entity" e = Some (JObj entity) ∧ truthy (jget_or "entity_id" JNull (JObj entity)) = true ∧
    jget "ts" e = Some ts ∧ truthy ts = true.
Lemma well_formed_event source kind ty i name ts value sev labels raw key :
  source ∈ MON_SOURCES → kind ∈ MON_KINDS → truthy i = true → truthy ts = true →
  well_formed (event_of source kind (host_entity ty i name) ts value sev labels raw key).
Proof. intros Hs Hk Hi Hts. by exists source, kind, [("entity_type", JStr ty); ("entity_id", i); ("entity_name", name)], ts. Qed.

Lemma map_each_all {S A B} (P : B → Prop) (f : A → M S B) l ys s s' :
  (∀ x y s s', f x s = (inr y, s') → P y) → map_each l f s = (inr ys, s') → Forall P ys.
Proof.
  intros Hf. revert ys s s'. induction l as [|x l IH]; intros ys s s' H; cbn [map_each] in H; inv_run; simplify_eq; [done|].
  constructor; eauto.
Qed.

Definition good_event (e : json) : Prop :=
  well_formed e ∧ (jget "kind" e = Some (JStr "metric") → jget "source" e = Some (JStr "prometheus")).
Ltac good_event :=
  split; [apply well_formed_event; [str_mem|str_mem| |]; repeat first [apply truthy_or; right|apply truthy_first_of]; first [done|apply truthy_iso]
         |try done].
Lemma normalize_alert_good payload alert e s s' : normalize_alert payload alert s = (inr e, s') → good_event e.
Proof. unfold normalize_alert, _now_iso. intros H. inv_run. simplify_eq. good_event. Qed.
Lemma normalize_series_good series l s s' : normalize_series series s = (inr l, s') → Forall good_event l.
Proof.
  unfold normalize_series, _now_iso. intros H. inv_run. eapply map_each_all; [|exact H]. intros x y s8 s9 Hy. cbv beta in Hy. inv_run. simplify_eq.
  good_event.
Qed.
Lemma normalize_doc_good doc e s s' : normalize_doc doc s = (inr e, s') → good_event e.
Proof.
  unfold normalize_doc, _now_iso. intros H. inv_run. simplify_eq. destruct (str_in _ _); good_event.
Qed.
Lemma normalize_trace_good payload e s s' : normalize_trace payload s = (inr e, s') → good_event e.
Proof. unfold normalize_trace, _now_iso. intros H. inv_run; simplify_eq; good_event. Qed.
Lemma normalize_good source payload l s s' : normalize_event source payload s = (inr l, s') → Forall good_event l.
Proof.
  unfold normalize_event, normalize_prometheus_remote, normalize_alertmanager. intros H. inv_run; simplify_eq.
  - apply Forall_concat. eapply map_each_all; [|eassumption]. intros. by eapply normalize_series_good.
  - eapply map_each_all; [|eassumption]. intros. by eapply normalize_alert_good.
  - eapply map_each_all; [|eassumption]. intros. by eapply normalize_doc_good.
  - repeat constructor; by eapply normalize_trace_good.
  - constructor.
Qed.

Lemma dict_get_some {S} k d v (s : S) : jget k d = Some v → dict_get k d s = (inr v, s).
Proof. destruct d; [done..|]. cbn. by intros ->. Qed.
Lemma dict_get_obj {S} k d (s : S) : jget "kind" d ≠ None → ∃ v, dict_get k d s = (inr v, s).
Proof. destruct d; [done..|]. by eexists. Qed.

(** C25: whatever its payload, a normalizer that returns yields only events the
    validator takes: it refuses none of them but a prometheus sample whose value
    is not a number. *)
Theorem normalized_events_valid source payload s l s' e :
  normalize_event source payload s = (inr l, s') → e ∈ l →
  validate_event e s = (inr None, s) ∨
  validate_event e s = (inr (Some "metric kind requires numeric value"), s) ∧
    jget "kind" e = Some (JStr "metric") ∧ jget "source" e = Some (JStr "prometheus").
Proof.
  intros Hn He. apply normalize_good in Hn. rewrite Forall_forall in Hn. destruct (Hn e He) as [Hw Hm].
  destruct Hw as (src & kind & ent & ts & Hs & Hsin & Hk & Hkin & Hent & Hid & Hts & Htst).
  rewrite <- str_in_true in Hsin, Hkin. destruct (dict_get_obj "value" e s) as [v Hv]; [by rewrite Hk|].
  unfold validate_event, bind. rewrite (dict_get_some _ _ _ _ Hs), (dict_get_some _ _ _ _ Hk). cbn [in_set]. unfold ret.
  rewrite Hsin. cbn [negb]. rewrite Hkin. cbn [negb]. rewrite (dict_get_some _ _ _ _ Hent), Hid. cbn [negb].
  rewrite (dict_get_some _ _ _ _ Hts), Htst. cbn [negb]. rewrite Hv.
  destruct (decide (kind = "metric")) as [->|Hne]; [destruct v; by auto|]. left. repeat case_match; congruence.
Qed.
End ingest.

(** ** Daily aggregates of one batch *)

#[local] Abbreviation Daily := MonMetricDaily.MonMetricDaily.
(** The columns of the table's UNIQUE constraint; [daily_key] also compares the entity's type. *)
Definition same_day (source id name : string) (day : Z) (r : Daily) : Prop :=
  MonMetricDaily.source r = source ∧ MonMetricDaily.metric_name r = name ∧
  MonMetricDaily.entity_id r = id ∧ MonMetricDaily.day r = day.
Definition first_sample (source ty id name : string) (day : Z) (v : Q) : Daily :=
  MonMetricDaily.mk 0 source name ty id day v v v 1.
Definition new_series (source id name : string) (day : Z) (s : St) : Prop :=
  ∀ i r, tbl (R:=Daily) (work s) !! i = Some r → ¬ same_day source id name day r.

Lemma upsert_daily_new source ty id name day v (Q : exn + () → St → Prop) s :
  new_series source id name day s →
  Q (inr ()) (s <| work := work s <| unflushed := unflushed (work s) ++ [NewDaily (first_sample source ty id name day v)] |> |>) →
  wp (MonMetricSampleRepository.upsert_daily source ty id name day v) Q s.
Proof.
  intros Hn HQ. unfold MonMetricSampleRepository.upsert_daily. apply wp_bind, wp_db_find.
  destruct (select_rows _ _) as [|r l] eqn:E; [exact HQ|]. exfalso.
  assert (r ∈ select_rows (MonMetricSampleRepository.daily_key source ty id name day) (tbl (R:=Daily) (work s)))
    as [Hp [i Hi]]%elem_of_select_rows by (rewrite E; left).
  apply (Hn i r Hi). unfold MonMetricSampleRepository.daily_key in Hp.
  rewrite !andb_true_iff, !bool_decide_eq_true, Z.eqb_eq in Hp. unfold same_day. naive_solver.
Qed.
Lemma daily_conflict i t r source ty id name day v :
  same_day source id name day r ↔ conflict (R:=Daily) (tbl_init i t (first_sample source ty id name day v)) r = true.
Proof. cbn. rewrite !andb_true_iff, !bool_decide_eq_true, Z.eqb_eq. unfold same_day. naive_solver. Qed.
Lemma add_taken source ty id name day v i r (Q : exn + Daily → St → Prop) s :
  tbl (R:=Daily) (work s) !! i = Some r → same_day source id name day r →
  (∀ q, Q (inl (IntegrityError "mon_metric_daily")) (s <| seqs := q |>)) →
  wp (db_add (first_sample source ty id name day v)) Q s.
Proof.
  intros Hi Hr HQ. apply wp_db_add. intros n row -> ->. split; [|intros _; apply HQ].
  intros (_ & _ & Hc)%accepts_spec. specialize (Hc i r Hi). rewrite daily_conflict in Hr. by rewrite Hr in Hc.
Qed.

(** Two samples of a series that has no aggregate of the day yet cannot be
    stored by one batch: no select sees the first row before the flush, the
    second INSERT violates the UNIQUE constraint and the commit stores nothing
    of the batch. *)
Theorem second_sample_of_day_fails source ty ty' id name day v v' s r s' :
  wf_table Daily s → unflushed (work s) = [] → new_series source id name day s →
  (MonMetricSampleRepository.upsert_daily source ty id name day v;;
   MonMetricSampleRepository.upsert_daily source ty' id name day v';;
   flush_commit) s = (r, s') →
  r = inl (IntegrityError "mon_metric_daily") ∧ committed s' = committed s.
Proof.
  intros Hwf Hu Hn H. by_wp H. apply wp_bind, upsert_daily_new; [exact Hn|]. cbv beta iota.
  apply wp_bind, upsert_daily_new; [exact Hn|]. cbv beta iota. unfold flush_commit, db_flush.
  do 4 wp_step. cbn. rewrite Hu. cbn [app for_each insert_new].
  do 2 wp_step. refine (wp_db_add_fresh _ _ _ _ _ _ _); [exact Hwf|done| |].
  { intros i t j x Hj. apply not_true_iff_false. intros Hc. apply (Hn j x Hj). by eapply daily_conflict. }
  intros row s1 Erow _ (_ & _ & Hc & _) Ht _. cbv beta iota. wp_step. cbn [for_each insert_new]. do 2 wp_step. cbv beta iota. cbn [for_each insert_new]. eapply (add_taken _ _ _ _ _ _ (row_id row)).
  - rewrite Ht. apply lookup_insert_eq.
  - rewrite Erow. by split_and!.
  - intros q. cbv beta iota. split; [done|]. exact Hc.
Qed.

(** ** Witnesses *)

(** Adapter 2 takes prometheus payloads; one of them carries [samples] of a series of host 10.0.0.4. *)
Definition ingest_st : St :=
  on_db (λ d, d <| mon_adapters := {[2 := MonAdapter.mk 2 "prometheus" "prom" "" (JObj []) 1 "unknown" None None 0 None 0]} |>) monitor_st.
Definition series_payload (name : string) (samples : list Q) : json := JObj [("metric", JArr [JObj [
  ("labels", JObj [("__name__", JStr name); ("instance", JStr "10.0.0.4")]);
  ("samples", JArr ((λ v, JObj [("ts", JInt 1767355200); ("value", JFloat v)]) <$> samples))]])].
Definition ingest_at (payload : json) : (exn + json) * St :=
  run_request (ingest (λ _, "") (λ _, "") (λ _, None) Some (λ u, Some (JObj [("url", JStr u)])) (λ _ _, None) (λ _, "")
    (λ _, "") (λ _, "") (λ _, "") (λ _, None) 2 payload) ingest_st.
Definition ingest_history : list (Z * monitor_request) := [
  (1767355200000000, Ingest 2 (series_payload "cpu" [95 : Q]));
  (1767355260000000, Alerts (AAcknowledge admin 7 "on it"));
  (1767355320000000, Ingest 2 (series_payload "cpu" [20 : Q]))].
Definition ingest_run : St :=
  serve_all (monitor_handle (λ _, "") (λ _, "") (λ _, None) Some (λ u, Some (JObj [("url", JStr u)])) (λ _ _, None) (λ _, "")
    (λ _, "") (λ _, "") (λ _, "") (λ _, None) (λ _ _, true) true (λ x, x)) ingest_history ingest_st.
Lemma alerts_audited_witness :
  MonAlert.status <$> rows (mon_alerts (committed ingest_run)) = ["resolved"] ∧
  ((λ l, (MonAlertEventLog.from_status l, MonAlertEventLog.to_status l)) <$> rows (mon_alert_logs (committed ingest_run)))
    = [(None, Some "pending"); (Some "pending", Some "firing"); (Some "firing", Some "firing");
       (Some "firing", Some "acknowledged"); (Some "acknowledged", Some "resolved")] ∧
  trail_complete (committed ingest_run).
Proof.
  do 2 (split; [vm_compute; reflexivity|]).
  refine (proj1 (alerts_audited (λ _, "") (λ _, "") (λ _, None) Some (λ u, Some (JObj [("url", JStr u)])) (λ _ _, None) (λ _, "")
    (λ _, "") (λ _, "") (λ _, "") (λ _, None) (λ _ _, true) true (λ x, x) ingest_history ingest_st _ _ _ _)).
  - reflexivity.
  - split; cbn; intros i x [<- <-]%lookup_singleton_Some.
    + split; [done|]. vm_compute. discriminate.
    + split; [vm_compute; discriminate|]. by eexists.
  - intros i a Hi. cbn in Hi. apply lookup_singleton_Some in Hi as [<- <-]. vm_compute. reflexivity.
  - intros i j a b Hi Hj. cbn in Hi, Hj. apply lookup_singleton_Some in Hi as [<- <-], Hj as [<- <-]. done.
Defined.

Lemma normalized_events_valid_witness :
  let l := match normalize_event (λ _, "") (λ _, "") (λ _, None) "prometheus" (series_payload "cpu" [95 : Q]) ingest_st with
           | (inr l, _) => l | _ => [] end in
  length l = 1%nat ∧ Forall (λ e, validate_event (λ _, "") (λ _, "") e ingest_st = (inr None, ingest_st)) l.
Proof.
  cbv zeta. split; [vm_compute; reflexivity|].
  destruct (normalize_event _ _ _ _ _ _) as [[e|l] s'] eqn:E; [constructor|]. apply Forall_forall. intros e He.
  destruct (normalized_events_valid (λ _, "") (λ _, "") (λ _, None) "prometheus" (series_payload "cpu" [95 : Q]) ingest_st l s' e E He)
    as [H|(H & _)]; [exact H|].
  exfalso. vm_compute in E. injection E as <- _. apply list_elem_of_singleton in He. subst e. vm_compute in H. discriminate H.
Defined.

(** Two samples of [mem], of which no rule is: the payload is refused. *)
Definition mem_twice : (exn + ()) * St :=
  (MonMetricSampleRepository.upsert_daily "prometheus" "host" "10.0.0.4" "mem" 20455 (1 : Q);;
   MonMetricSampleRepository.upsert_daily "prometheus" "host" "10.0.0.4" "mem" 20455 (2 : Q);;
   flush_commit) ingest_st.
Lemma second_sample_of_day_fails_witness :
  (ingest_at (series_payload "mem" [1 : Q])).1 =
    inr (JObj [("accepted", JInt 1); ("rejected", JInt 0); ("adapter_id", JInt 2)]) ∧
  (ingest_at (series_payload "mem" [1 : Q; 2 : Q])).1 = inl (IntegrityError "mon_metric_daily") ∧
  committed mem_twice.2 = committed ingest_st.
Proof.
  do 2 (split; [vm_compute; reflexivity|]).
  refine (proj2 (second_sample_of_day_fails "prometheus" "host" "host" "10.0.0.4" "mem" 20455 1 2 ingest_st mem_twice.1 mem_twice.2 _ _ _ _)).
  - apply wf_tableb_spec. vm_compute. reflexivity.
  - reflexivity.
  - intros i r Hi. vm_compute in Hi. discriminate Hi.
  - unfold mem_twice. apply run_pair. vm_compute. reflexivity.
Defined.
