(* ===== verification/MonitorApi.v ===== *)
(** * Monitoring: adapters, metrics and events of [services/monitor_service.py]

    Adapters keep a configuration whose secrets are stored encrypted and shown
    masked. Metrics and events are read through the hosts a user may see. Equal
    times are sorted as the primary key; the database's time zone is UTC. *)

From S2P Require Import Prelude.
From S2P Require Import Models.
From S2P Require Import Session.
From S2P Require Import Repositories.
From S2P Require Import Access.
From S2P Require Import Notify.
From S2P Require Import Executors.
From S2P Require Import Dispatch.
From S2P Require Import Monitor.

Definition MON_ADAPTER_TYPES : list string := ["prometheus"; "elk"; "skywalking"; "alertmanager"; "webhook"].
Definition _SECRET_KEYS : list string :=
  ["token"; "password"; "api_key"; "secret"; "client_secret"; "secret_key"; "access_key"; "app_secret"; "access_token"].

(** Request bodies (schemas/__init__.py). *)
Module MonAdapterCreate.
Record MonAdapterCreate := mk {
  name : string; type : string; endpoint : string; config : list (string * json); enabled : Z }.
End MonAdapterCreate.
Module MonAdapterUpdate.
Record MonAdapterUpdate := mk {
  name : option string; type : option string; endpoint : option string;
  config : option (list (string * json)); enabled : option Z }.
End MonAdapterUpdate.

(** [s[-n:]] *)
Fixpoint str_drop (n : nat) (s : string) : string :=
  match s with
  | EmptyString => ""
  | String c s' =>
      match n with
      | O => if continues c then str_drop O s' else s
      | S n' => str_drop (if continues c then n else n') s'
      end
  end.
Definition str_last (n : nat) (s : string) : string := str_drop (str_len s - n)%nat s.
Example str_last_ex : str_last 2 "é€ab" = "ab" ∧ str_last 3 "é€ab" = "€ab".
Proof. split; reflexivity. Qed.

(** [x if isinstance(x, dict) else {}] and the like for lists. *)
Definition dict_or_empty (x : option json) : list (string * json) :=
  match x with Some (JObj o) => o | _ => [] end.
Definition list_or_empty (x : option json) : list json := match x with Some (JArr l) => l | _ => [] end.

Definition is_encrypted (s : string) : bool := starts_with "enc:" s.
Definition _is_masked_secret (s : string) : bool := str_contains "*" s.
(** ** The configuration an adapter has *)

Section sealed.
Variable text_ok : string → string → bool.
(** [text_ok k s] of every string [s] stored under a key [k]; the keys of a dict
    are distinct. What a list within a list holds is never looked at. *)
Fixpoint all_texts (k : string) (v : json) : bool :=
  match v with
  | JStr s => text_ok k s
  | JObj o => bool_decide (NoDup o.*1) && forallb (λ kv, all_texts kv.1 kv.2) o
  | JArr l => forallb (λ x, match x with JObj _ => all_texts "" x | _ => true end) l
  | _ => true
  end.
Lemma all_texts_obj k o :
  all_texts k (JObj o) = true ↔ NoDup o.*1 ∧ ∀ k' v, (k', v) ∈ o → all_texts k' v = true.
Proof.
  cbn. rewrite andb_true_iff, bool_decide_eq_true, forallb_forall. split; intros [H1 H2]; (split; [done|]).
  - intros k' v Hin. apply (H2 (k', v)). by apply list_elem_of_In.
  - intros [k' v] Hin%list_elem_of_In. by apply H2.
Qed.
Lemma all_texts_arr k l :
  all_texts k (JArr l) = true ↔ ∀ o, JObj o ∈ l → all_texts "" (JObj o) = true.
Proof.
  change (all_texts k (JArr l)) with (forallb (λ x, match x with JObj _ => all_texts "" x | _ => true end) l).
  rewrite forallb_forall. split; intros H.
  - intros o Hin%list_elem_of_In. exact (H _ Hin).
  - intros x Hin%list_elem_of_In. destruct x; try done. by apply H.
Qed.
End sealed.
(** What may be sent: a text that looks encrypted only under a secret key. *)
Definition clean : string → json → bool := all_texts (λ k s, str_in k _SECRET_KEYS || negb (is_encrypted s)).
(** What is stored: a text is encrypted under a secret key only, and there it is
    unless it contains a [*]. *)
Definition sealed : string → json → bool :=
  all_texts (λ k s, if str_in k _SECRET_KEYS then is_encrypted s || _is_masked_secret s else negb (is_encrypted s)).

Lemma assoc_get_elem {A} k (v : A) o : NoDup o.*1 → (k, v) ∈ o → assoc_get k o = Some v.
Proof.
  induction o as [|[k' v'] o IH]; cbn; [set_solver|]. intros [Hn Hd]%NoDup_cons [[= <- <-]|Hin]%elem_of_cons.
  - by rewrite bool_decide_eq_true_2.
  - rewrite bool_decide_eq_false_2; [by apply IH|]. intros ->. apply Hn, list_elem_of_fmap. by exists (k, v).
Qed.
Lemma assoc_get_in {A} k (v : A) o : assoc_get k o = Some v → (k, v) ∈ o.
Proof.
  induction o as [|[k' v'] o IH]; cbn; [done|]. destruct (bool_decide_reflect (k' = k)) as [->|].
  - intros [= ->]. left.
  - intros H. right. by apply IH.
Qed.
Lemma assoc_set_same {A} k (v : A) o : assoc_get k o = Some v → assoc_set k v o = o.
Proof.
  induction o as [|[k' v'] o IH]; cbn; [done|]. destruct (bool_decide_reflect (k' = k)) as [->|].
  - by intros [= ->].
  - intros H. by rewrite IH.
Qed.
Lemma elem_of_assoc_set {A} k (v : A) o k' v' :
  (k', v') ∈ assoc_set k v o → (k' = k ∧ v' = v) ∨ (k', v') ∈ o.
Proof.
  induction o as [|[k0 v0] o IH]; cbn.
  - intros [= -> ->]%list_elem_of_singleton. by left.
  - destruct (bool_decide_reflect (k0 = k)) as [->|]; intros [[= -> ->]|Hin]%elem_of_cons; set_solver.
Qed.
Lemma NoDup_assoc_set {A} k (v : A) o : NoDup o.*1 → NoDup (assoc_set k v o).*1.
Proof.
  induction o as [|[k0 v0] o IH]; cbn; [intros _; apply NoDup_singleton|]. intros [Hn Hd]%NoDup_cons.
  destruct (bool_decide_reflect (k0 = k)) as [->|Hne]; cbn; apply NoDup_cons; (split; [|auto]); [done|].
  intros [[k1 v1] [Hk [[Hk1 _]|Hin]%elem_of_assoc_set]]%list_elem_of_fmap; cbn in *; [congruence|].
  apply Hn, list_elem_of_fmap. by exists (k1, v1).
Qed.

Section adapters.
Variable encrypt_secret : string → string.
Variable decrypt_secret : string → option string.

(** ** Secrets of a configuration *)

(** core/security.py *)
Definition mask_secret (encrypted : string) : json :=
  if bool_decide (encrypted = "") then JNull else
  match decrypt_secret encrypted with
  | None => JStr "***"
  | Some plain => if (str_len plain <=? 4)%nat then JStr "****" else JStr (str_take 2 plain +:+ "******" +:+ str_last 2 plain)
  end.

Fixpoint mask_value (v : json) : json :=
  match v with
  | JStr s => if is_encrypted s then mask_secret s else v
  | JObj o => JObj ((λ kv, (kv.1, mask_value kv.2)) <$> o)
  | JArr l => JArr ((λ x, match x with JObj _ => mask_value x | _ => x end) <$> l)
  | _ => v
  end.
Definition _mask_adapter_config (config : list (string * json)) : list (string * json) :=
  (λ kv, (kv.1, mask_value kv.2)) <$> config.

(** The value stored for [v], sent under the key [k] where [old] is stored. *)
Fixpoint stored_value (k : string) (v : json) (old : option json) : json :=
  let merge := fix merge items merged :=
    match items with
    | [] => merged
    | (k, v) :: items => merge items (assoc_set k (stored_value k v (assoc_get k merged)) merged)
    end in
  let zip := fix zip items prev :=
    match items with
    | [] => []
    | x :: items =>
        match x with JObj _ => stored_value "" x (head prev) | _ => x end :: zip items (tail prev)
    end in
  match v with
  | JStr s =>
      if negb (str_in k _SECRET_KEYS) then v
      else if is_encrypted s || _is_masked_secret s then default v old
      else JStr ("enc:" +:+ encrypt_secret s)
  | JObj items => JObj (merge items (dict_or_empty old))
  | JArr items => JArr (zip items (list_or_empty old))
  | _ => v
  end.
Definition _encrypt_config_secrets (config existing : list (string * json)) : list (string * json) :=
  dict_or_empty (Some (stored_value "" (JObj config) (Some (JObj existing)))).

(** [decrypt_secret(v[4:])], "" if it raises; lists are left as they are. *)
Fixpoint decrypted_value (v : json) : json :=
  match v with
  | JStr s => if is_encrypted s then JStr (default "" (decrypt_secret (str_drop 4 s))) else v
  | JObj o => JObj ((λ kv, (kv.1, decrypted_value kv.2)) <$> o)
  | _ => v
  end.
Definition _decrypted_adapter_config (config : list (string * json)) : list (string * json) :=
  (λ kv, (kv.1, decrypted_value kv.2)) <$> config.

(** ** Adapters *)

(** [adapter.config or {}] of a row that was stored by this service. *)
Definition config_of (a : MonAdapter.MonAdapter) : list (string * json) := dict_or_empty (Some (MonAdapter.config a)).
Definition _adapter_out (a : MonAdapter.MonAdapter) : json := JObj [
  ("id", JInt (MonAdapter.id a)); ("name", JStr (MonAdapter.name a)); ("type", JStr (MonAdapter.type a));
  ("endpoint", JStr (MonAdapter.endpoint a)); ("config_mask", JObj (_mask_adapter_config (config_of a)));
  ("enabled", JInt (MonAdapter.enabled a)); ("status", JStr (MonAdapter.status a));
  ("last_heartbeat", jtime (MonAdapter.last_heartbeat a)); ("metrics_received_count", JInt (MonAdapter.metrics_received_count a));
  ("error_msg", js (MonAdapter.error_message a)); ("created_by", jz (MonAdapter.created_by a));
  ("created_at", jtime (Some (MonAdapter.created_at a)))].

Definition list_adapters (user : CurrentUser) (enabled : option Z) (type_ : option string) (page size : Z) : Op json :=
  require_perm user "monitor:rule:list";;
  l ← db_select (λ a : MonAdapter.MonAdapter,
        (match enabled with Some e => MonAdapter.enabled a =? e | None => true end) &&
        opt_cond type_ (λ t, bool_decide (MonAdapter.type a = t)));
  ret (JObj [("list", JArr (_adapter_out <$> page_of l page size)); ("total", JInt (Z.of_nat (length l)));
             ("page", JInt page); ("size", JInt size)]).

Definition create_adapter (user : CurrentUser) (data : MonAdapterCreate.MonAdapterCreate) : Op json :=
  require_perm user "monitor:rule:add";;
  on ← _feature_enabled;
  guard_or on (BadRequestError "monitor feature disabled");;
  guard_or (str_in (MonAdapterCreate.type data) MON_ADAPTER_TYPES)
    (BadRequestError ("invalid adapter type: " +:+ MonAdapterCreate.type data));;
  a ← db_add (MonAdapter.mk 0 (MonAdapterCreate.type data) (MonAdapterCreate.name data) (MonAdapterCreate.endpoint data)
        (JObj (_encrypt_config_secrets (MonAdapterCreate.config data) [])) (MonAdapterCreate.enabled data)
        "healthy" None None 0 (Some (user_id user)) 0);
  db_commit;;
  ret (_adapter_out a).

Definition updated_adapter (data : MonAdapterUpdate.MonAdapterUpdate) (a : MonAdapter.MonAdapter) : MonAdapter.MonAdapter :=
  a <| MonAdapter.name := default (MonAdapter.name a) (MonAdapterUpdate.name data) |>
    <| MonAdapter.type := default (MonAdapter.type a) (MonAdapterUpdate.type data) |>
    <| MonAdapter.endpoint := default (MonAdapter.endpoint a) (MonAdapterUpdate.endpoint data) |>
    <| MonAdapter.enabled := default (MonAdapter.enabled a) (MonAdapterUpdate.enabled data) |>
    <| MonAdapter.config := match MonAdapterUpdate.config data with
                            | Some c => JObj (_encrypt_config_secrets c (config_of a))
                            | None => MonAdapter.config a end |>.
Definition the_adapter (i : Z) : Op MonAdapter.MonAdapter :=
  o ← db_get i; some_or o (NotFoundError "adapter not found").
Definition update_adapter (user : CurrentUser) (adapter_id : Z) (data : MonAdapterUpdate.MonAdapterUpdate) : Op json :=
  require_perm user "monitor:rule:edit";;
  a ← the_adapter adapter_id;
  db_upd_checked adapter_id (updated_adapter data);;
  db_commit;;
  ret (_adapter_out (updated_adapter data a)).
Definition delete_adapter (user : CurrentUser) (adapter_id : Z) : Op json :=
  require_perm user "monitor:rule:del";;
  _ ← the_adapter adapter_id;
  db_delete (R:=MonAdapter.MonAdapter) adapter_id;;
  db_commit;;
  ret (JObj [("id", JInt adapter_id); ("deleted", JBool true)]).
Definition set_adapter_status (user : CurrentUser) (adapter_id enabled : Z) : Op json :=
  require_perm user "monitor:rule:status";;
  a ← the_adapter adapter_id;
  let status := if enabled =? 0 then "disabled"
                else if bool_decide (MonAdapter.status a = "disabled") then "healthy" else MonAdapter.status a in
  db_upd adapter_id (λ a, a <| MonAdapter.enabled := enabled |> <| MonAdapter.status := status |>);;
  db_commit;;
  ret (JObj [("id", JInt adapter_id); ("enabled", JInt enabled); ("status", JStr status)]).
(** Nothing is contacted: only the presence of an address is tested. *)
Definition test_adapter (user : CurrentUser) (adapter_id : Z) : Op json :=
  require_perm user "monitor:rule:test";;
  a ← the_adapter adapter_id;
  let config := JObj (_decrypted_adapter_config (config_of a)) in
  let endpoint := j_or (jget_or "endpoint" JNull config) (j_or (jget_or "url" JNull config) (jget_or "server_uri" JNull config)) in
  let outcome ok error := JObj [("ok", JBool ok); ("latency_ms", JNull); ("error_message", js error)] in
  let missing := str_in (MonAdapter.type a) ["prometheus"; "elk"; "webhook"] && negb (truthy endpoint) in
  let error := if missing then Some "endpoint not configured" else None in
  db_upd adapter_id (λ a, a <| MonAdapter.status := if missing then "degraded" else "healthy" |>
                            <| MonAdapter.error_message := error |>);;
  db_commit;;
  ret (outcome (negb missing) error).

Definition merged (items old : list (string * json)) : list (string * json) :=
  foldl (λ o kv, assoc_set kv.1 (stored_value kv.1 kv.2 (assoc_get kv.1 o)) o) old items.
Fixpoint zipped (items prev : list json) : list json :=
  match items with
  | [] => []
  | x :: items => match x with JObj _ => stored_value "" x (head prev) | _ => x end :: zipped items (tail prev)
  end.
Lemma stored_obj k items old : stored_value k (JObj items) old = JObj (merged items (dict_or_empty old)).
Proof.
  cbn. f_equal. unfold merged. generalize (dict_or_empty old). induction items as [|[k' v] items IH]; intros o; [done|]. cbn. apply IH.
Qed.
Lemma stored_arr k items old : stored_value k (JArr items) old = JArr (zipped items (list_or_empty old)).
Proof. reflexivity. Qed.
Lemma contains_star a b : _is_masked_secret (a +:+ String "*" b) = true.
Proof. unfold _is_masked_secret. induction a as [|c a IH]; [done|]. apply orb_true_iff. right. exact IH. Qed.
Lemma mask_secret_star s : s ≠ "" → ∃ m, mask_secret s = JStr m ∧ _is_masked_secret m = true.
Proof.
  intros Hs. unfold mask_secret. rewrite bool_decide_eq_false_2 by done. destruct (decrypt_secret s) as [p|].
  - destruct (str_len p <=? 4)%nat; eexists; (split; [done|]); [done|]. apply contains_star.
  - by exists "***".
Qed.
Lemma encrypted_enc s : is_encrypted ("enc:" +:+ s) = true.
Proof. done. Qed.

Lemma stored_str k s old :
  stored_value k (JStr s) old =
  if negb (str_in k _SECRET_KEYS) then JStr s
  else if is_encrypted s || _is_masked_secret s then default (JStr s) old else JStr ("enc:" +:+ encrypt_secret s).
Proof. reflexivity. Qed.
Lemma mask_str s : mask_value (JStr s) = if is_encrypted s then mask_secret s else JStr s.
Proof. reflexivity. Qed.

(** What a reader is shown of a sealed value and sends back leaves the value. *)
Lemma echo_value v k : sealed k v = true → stored_value k (mask_value v) (Some v) = v.
Proof.
  revert k. induction v as [| | | |s|l IH|o IH] using json_ind; intros k Hv; try done.
  - unfold sealed in Hv. cbn [all_texts] in Hv. rewrite mask_str. destruct (is_encrypted s) eqn:Es.
    + destruct (str_in k _SECRET_KEYS) eqn:Ek; [|done].
      destruct (mask_secret_star s) as (m & -> & Hm); [by intros ->|]. by rewrite stored_str, Ek, Hm, orb_true_r.
    + rewrite stored_str. destruct (str_in k _SECRET_KEYS); [|done]. cbn [negb]. rewrite Es. cbn [orb] in Hv |- *. by rewrite Hv.
  - change (mask_value (JArr l)) with (JArr ((λ x, match x with JObj _ => mask_value x | _ => x end) <$> l)).
    rewrite stored_arr. f_equal. cbn [list_or_empty]. unfold sealed in Hv. rewrite all_texts_arr in Hv.
    induction l as [|x l IHl]; [done|]. apply Forall_cons in IH as [IHx IH]. cbn [fmap list_fmap zipped head tail]. f_equal.
    + destruct x; try done. cbn [mask_value]. apply IHx, Hv. left.
    + apply IHl; [done|]. intros o Ho. apply Hv. by right.
  - change (mask_value (JObj o)) with (JObj ((λ kv, (kv.1, mask_value kv.2)) <$> o)).
    rewrite stored_obj. f_equal. cbn [dict_or_empty]. unfold sealed in Hv. apply all_texts_obj in Hv as [Hd Hv].
    assert (∀ items, items ⊆ o → merged ((λ kv, (kv.1, mask_value kv.2)) <$> items) o = o) as H by
    (intros items; induction items as [|[k' v] items IHi]; intros Hsub; [done|];
     cbn; rewrite Forall_forall in IH;
     assert ((k', v) ∈ o) as Hin by (apply Hsub; left);
     rewrite (assoc_get_elem _ _ _ Hd Hin), (IH _ Hin) by (by apply Hv);
     rewrite assoc_set_same by (by apply assoc_get_elem); apply IHi; set_solver).
    by apply H.
Qed.

(** Sending clean values to a sealed configuration leaves it sealed. *)
Lemma stored_old_dict k items old : stored_value k (JObj items) old = stored_value k (JObj items) (Some (JObj (dict_or_empty old))).
Proof. by rewrite !stored_obj. Qed.
Lemma sealed_dict k old : (∀ o, old = Some o → sealed k o = true) → sealed "" (JObj (dict_or_empty old)) = true.
Proof. intros H. destruct old as [[]|]; try done. exact (H _ eq_refl). Qed.
Lemma seal_value v k old :
  clean k v = true → (∀ o, old = Some o → sealed k o = true) → sealed k (stored_value k v old) = true.
Proof.
  revert k old. induction v as [| | | |s|l IH|o IH] using json_ind; intros k old Hv Ho; try done.
  - unfold clean in Hv. cbn [all_texts] in Hv. rewrite stored_str. destruct (str_in k _SECRET_KEYS) eqn:Ek; cbn [negb].
    + destruct (is_encrypted s || _is_masked_secret s) eqn:E.
      * destruct old as [o|]; [by apply Ho|]. unfold sealed. cbn [all_texts default]. by rewrite Ek, E.
      * unfold sealed. cbn [all_texts]. by rewrite Ek.
    + unfold sealed. cbn [all_texts]. by rewrite Ek.
  - rewrite stored_arr. unfold sealed. apply all_texts_arr. unfold clean in Hv. rewrite all_texts_arr in Hv.
    assert (∀ o, JObj o ∈ list_or_empty old → sealed "" (JObj o) = true) as Hold.
    { intros o Hin. destruct old as [[]|]; cbn in Hin; try (by apply elem_of_nil in Hin).
      specialize (Ho _ eq_refl). unfold sealed in Ho. rewrite all_texts_arr in Ho. by apply Ho. }
    clear Ho. revert Hold. generalize (list_or_empty old). induction l as [|x l IHl]; intros prev Hold o Hin; [by apply elem_of_nil in Hin|].
    apply Forall_cons in IH as [IHx IH]. cbn [zipped] in Hin. apply elem_of_cons in Hin as [E|Hin].
    + destruct x as [| | | | | |items]; try done. change (sealed "" (JObj o) = true). rewrite E, stored_old_dict. apply IHx.
      * apply Hv. left.
      * intros o' [= <-]. destruct prev as [|[] prev]; try done. apply Hold. left.
    + eapply IHl; [done| | |exact Hin].
      * intros o' Ho'. apply Hv. by right.
      * intros o' Ho'. apply Hold. destruct prev; [done|]. by right.
  - rewrite stored_obj. unfold clean in Hv. apply all_texts_obj in Hv as [_ Hv]. apply sealed_dict in Ho.
    revert Ho. generalize (dict_or_empty old). induction o as [|[k' v] o IHo]; intros old' Hold; [done|].
    apply Forall_cons in IH as [IHv IH]. apply IHo; [done|intros k1 v1 Hin; apply Hv; by right|].
    unfold sealed in Hold. apply all_texts_obj in Hold as [Hd Hold]. unfold sealed. apply all_texts_obj. cbn [fst snd]. split.
    + by apply NoDup_assoc_set.
    + intros k1 v1 [[-> ->]|Hin]%elem_of_assoc_set; [|by apply Hold].
      apply IHv; [apply Hv; left|]. intros x Hx%assoc_get_in. by apply Hold.
Qed.
Lemma seal_config c e :
  clean "" (JObj c) = true → sealed "" (JObj e) = true → sealed "" (JObj (_encrypt_config_secrets c e)) = true.
Proof.
  intros Hc He. assert (JObj (_encrypt_config_secrets c e) = stored_value "" (JObj c) (Some (JObj e))) as ->
    by (unfold _encrypt_config_secrets; by rewrite stored_obj).
  apply seal_value; [done|]. by intros o [= <-].
Qed.

(** ** Histories *)

Inductive adapter_request :=
  | AdList (u : CurrentUser) (enabled : option Z) (type_ : option string) (page size : Z)
  | AdCreate (u : CurrentUser) (d : MonAdapterCreate.MonAdapterCreate)
  | AdUpdate (u : CurrentUser) (i : Z) (d : MonAdapterUpdate.MonAdapterUpdate)
  | AdDelete (u : CurrentUser) (i : Z)
  | AdStatus (u : CurrentUser) (i enabled : Z)
  | AdTest (u : CurrentUser) (i : Z).
Definition adapter_handle (q : adapter_request) : Op json :=
  match q with
  | AdList u e t p z => list_adapters u e t p z
  | AdCreate u d => create_adapter u d
  | AdUpdate u i d => update_adapter u i d
  | AdDelete u i => delete_adapter u i
  | AdStatus u i e => set_adapter_status u i e
  | AdTest u i => test_adapter u i
  end.
Definition clean_request (q : adapter_request) : bool :=
  match q with
  | AdCreate _ d => clean "" (JObj (MonAdapterCreate.config d))
  | AdUpdate _ _ d => match MonAdapterUpdate.config d with Some c => clean "" (JObj c) | None => true end
  | _ => true
  end.

#[local] Abbreviation Adapter := MonAdapter.MonAdapter.
Definition sealed_row (a : Adapter) : Prop := ∃ o, MonAdapter.config a = JObj o ∧ sealed "" (JObj o) = true.
Definition sealed_rows (m : gmap Z Adapter) : Prop := map_Forall (λ _ a, sealed_row a) m.
#[local] Abbreviation kept := (both (R:=Adapter) sealed_rows).

Lemma kept_put i a s : sealed_row a → kept s → kept (put_row i a s).
Proof.
  intros Ha [Hw Hc]. split; [|exact Hc]. rewrite tbl_put_row. by apply map_Forall_insert_2.
Qed.
Lemma kept_upd i (f : Adapter → Adapter) : (∀ a, sealed_row a → sealed_row (f a)) → preserves kept (db_upd i f).
Proof. intros Hf. apply preserves_db_upd. intros s a Hs Ha. apply kept_put; [|done]. apply Hf. by apply Hs in Ha. Qed.
Lemma kept_upd_checked i (f : Adapter → Adapter) : (∀ a, sealed_row a → sealed_row (f a)) → preserves kept (db_upd_checked i f).
Proof.
  intros Hf s Hs. unfold db_upd_checked. destruct (tbl (work s) !! i) as [a|] eqn:E; [|done]. destruct (_ && _); [|done].
  apply kept_put; [|done]. apply Hf. by apply Hs in E.
Qed.
Lemma kept_add (a : Adapter) : sealed_row a → preserves kept (db_add a).
Proof.
  intros (o & Ho & Hso). apply preserves_db_add; [by intros s n [? ?]|]. intros s n Hs _ _. apply kept_put; [|done]. by exists o.
Qed.
Lemma kept_delete i : preserves kept (db_delete (R:=Adapter) i).
Proof. apply preserves_modify. intros s [Hw Hc]. split; [|exact Hc]. cbn. by apply map_Forall_delete. Qed.
Lemma sealed_config a : sealed_row a → sealed "" (JObj (config_of a)) = true ∧ MonAdapter.config a = JObj (config_of a).
Proof. intros (o & Ho & Hs). unfold config_of. rewrite Ho. by split. Qed.
Lemma sealed_updated d a :
  (match MonAdapterUpdate.config d with Some c => clean "" (JObj c) | None => true end) = true →
  sealed_row a → sealed_row (updated_adapter d a).
Proof.
  intros Hd Ha. unfold sealed_row, updated_adapter. cbn. destruct (MonAdapterUpdate.config d) as [c|]; [|exact Ha].
  eexists. split; [done|]. apply seal_config; [done|]. by apply sealed_config.
Qed.
Lemma kept_handle q : clean_request q = true → preserves kept (adapter_handle q).
Proof.
  assert (∀ i, preserves kept (the_adapter i)) as Hthe by (intros; unfold the_adapter; preserves_auto).
  destruct q as [u e t p z|u d|u i d|u i|u i e|u i]; cbn [adapter_handle clean_request]; intros Hq.
  - unfold list_adapters. preserves_auto.
  - unfold create_adapter, _feature_enabled, dict_get. preserves_auto. apply kept_add. eexists. split; [done|]. by apply seal_config.
  - unfold update_adapter. preserves_auto. apply kept_upd_checked. intros a1. by apply sealed_updated.
  - unfold delete_adapter. preserves_auto. apply kept_delete.
  - unfold set_adapter_status. preserves_auto. apply kept_upd. by intros a1 (o & ? & ?); exists o.
  - unfold test_adapter. preserves_auto. apply kept_upd. by intros a1 (o & ? & ?); exists o.
Qed.

Lemma kept_serve_all qs s :
  forallb (λ q, clean_request q.2) qs = true → kept s → kept (serve_all adapter_handle qs s).
Proof.
  unfold serve_all. revert s. induction qs as [|q qs IH]; intros s Hq Hs; [done|]. cbn in Hq |- *.
  apply andb_true_iff in Hq as [Hq Hqs]. apply IH; [done|]. unfold serve.
  apply (both_run_request _ (adapter_handle q.2)); [by apply kept_handle|exact Hs].
Qed.

(** C28: Over any history of adapter requests in whose configurations no text
    outside the secret keys begins with [enc:], of a stored configuration each text
    that is the value of a secret key begins with [enc:] or contains a star, and no
    other text that is a value in a dict begins with [enc:]. The elements of lists
    that are no dicts, and secrets that are no texts, are stored as sent: nothing is
    said of them. And an update that sends back the masked configuration a reader is
    shown leaves the adapter as it is. *)
Theorem masked_echo_keeps_adapter qs s i a :
  sealed_rows (tbl (work s)) → sealed_rows (tbl (committed s)) →
  forallb (λ q, clean_request q.2) qs = true →
  tbl (R:=Adapter) (committed (serve_all adapter_handle qs s)) !! i = Some a →
  sealed "" (MonAdapter.config a) = true ∧
  updated_adapter (MonAdapterUpdate.mk None None None (Some (_mask_adapter_config (config_of a))) None) a = a.
Proof.
  intros Hw Hc Hq Ha. destruct (kept_serve_all qs s Hq (conj Hw Hc)) as [_ Hk].
  apply Hk in Ha. apply sealed_config in Ha as [Hs Ha]. rewrite Ha. split; [done|].
  apply (echo_value _ "") in Hs. unfold updated_adapter, _encrypt_config_secrets. cbn [MonAdapterUpdate.config].
  change (JObj (_mask_adapter_config (config_of a))) with (mask_value (JObj (config_of a))).
  rewrite Hs. destruct a. cbn in *. by rewrite <-Ha.
Qed.

(** A secret that contains a star and has no stored predecessor is taken for
    a mask: it is stored as it was sent, and readers are shown it. *)
Theorem starred_secret_in_clear k v :
  k ∈ _SECRET_KEYS → _is_masked_secret v = true → is_encrypted v = false →
  _encrypt_config_secrets [(k, JStr v)] [] = [(k, JStr v)] ∧ _mask_adapter_config [(k, JStr v)] = [(k, JStr v)].
Proof.
  intros Hk%str_in_true Hv He. split.
  - unfold _encrypt_config_secrets. rewrite stored_obj. cbn [dict_or_empty merged foldl fst snd assoc_get assoc_set].
    by rewrite stored_str, Hk, Hv, orb_true_r.
  - unfold _mask_adapter_config. cbn [fmap list_fmap fst snd]. by rewrite mask_str, He.
Qed.
End adapters.

Section metrics.
Variable float_str : Q → string.
Variable container_str : json → string.
(** [j ->> 'entity_id'] of a value that is not a string. *)
Variable as_text : json → string.

(** ** Metrics *)

#[local] Abbreviation Sample := MonMetricSample.MonMetricSample.

(** The first of a list for each key. *)
Fixpoint first_per {A} `{EqDecision K} (key : A → K) (seen : list K) (l : list A) : list A :=
  match l with
  | [] => []
  | x :: l => if bool_decide (key x ∈ seen) then first_per key seen l else x :: first_per key (key x :: seen) l
  end.
(** [if entity_ids and r.entity_id not in entity_ids: continue], and the same as a condition of a query. *)
Definition in_ids (ids : option (list string)) (e : string) : bool :=
  match ids with None | Some [] => true | Some l => str_in e l end.
Definition latest_first (r1 r2 : Sample) : Prop := MonMetricSample.ts r2 ≤ MonMetricSample.ts r1.
#[local] Instance latest_first_dec : RelDecision latest_first := λ r1 r2, decide (MonMetricSample.ts r2 ≤ MonMetricSample.ts r1).

(** [MonMetricSampleRepository.latest_by_entity] *)
Definition latest_by_entity (ids : option (list string)) (metric_name : option string) : Op (list Sample) :=
  l ← db_select (λ _, true);
  let window := take 500 (merge_sort latest_first l) in
  ret (first_per (λ r, (MonMetricSample.entity_id r, MonMetricSample.metric_name r)) []
    (filter (λ r, (opt_cond metric_name (λ n, bool_decide (MonMetricSample.metric_name r = n)) &&
                   in_ids ids (MonMetricSample.entity_id r)) = true) window)).
Definition sample_matches (ids : option (list string)) (metric_name : string) (start end_ : option Z) (r : Sample) : bool :=
  opt_cond (Some metric_name) (λ n, bool_decide (MonMetricSample.metric_name r = n)) &&
  in_ids ids (MonMetricSample.entity_id r) &&
  at_least start (Some (MonMetricSample.ts r)) && at_most end_ (Some (MonMetricSample.ts r)).

(** [query_bucketed]: [date_trunc] to the minute, the hour or the day. *)
Definition bucket_width (agg : string) : Z :=
  seconds (if bool_decide (agg = "5m") then 60 else if bool_decide (agg = "1d") then 86400 else 3600).
Definition bucket_of (agg : string) (r : Sample) : string * Z :=
  (MonMetricSample.entity_id r, MonMetricSample.ts r - MonMetricSample.ts r mod bucket_width agg).
Definition bucket_le (a b : string * Z) : Prop :=
  match String.compare a.1 b.1 with Lt => True | Eq => a.2 ≤ b.2 | Gt => False end.
#[local] Instance bucket_le_dec : RelDecision bucket_le.
Proof. intros a b. unfold bucket_le. destruct (String.compare a.1 b.1); apply _. Defined.
Record Bucket := mkBucket {
  b_entity_id : string; b_bucket : Z; b_avg : Q; b_max : Q; b_min : Q; b_count : Z }.
Definition qmax (a b : Q) : Q := if Qle_bool a b then b else a.
Definition qmin (a b : Q) : Q := if Qle_bool a b then a else b.
Definition bucket (k : string * Z) (values : list Q) : option Bucket :=
  match values with
  | [] => None
  | v :: vs => Some (mkBucket k.1 k.2 (foldl Qplus v vs / inject_Z (Z.of_nat (length values)))%Q
                       (foldl qmax v vs) (foldl qmin v vs) (Z.of_nat (length values)))
  end.
Definition group_buckets (agg : string) (l : list Sample) : list Bucket :=
  omap (λ k, bucket k (MonMetricSample.value <$> filter (λ r, bucket_of agg r = k) l))
    (merge_sort bucket_le (remove_dups (bucket_of agg <$> l))).
Definition query_bucketed (ids : option (list string)) (metric_name : string) (start end_ : option Z) (agg : string) : Op (list Bucket) :=
  l ← db_select (sample_matches ids metric_name start end_); ret (group_buckets agg l).

(** [str] of a datetime that is not naive. *)
Definition str_datetime (t : Z) : string := str_replace "T" " " (isoformat t).
(** The bucket under its own names and under those of a plain point. *)
Definition bucket_out (b : Bucket) : json := JObj [
  ("entity_id", JStr (b_entity_id b)); ("bucket", JStr (str_datetime (b_bucket b))); ("avg", JFloat (b_avg b));
  ("max", JFloat (b_max b)); ("min", JFloat (b_min b)); ("count", JInt (b_count b));
  ("ts", JStr (str_datetime (b_bucket b))); ("value", JFloat (b_avg b))].
Definition point_out (r : Sample) : json := JObj [
  ("ts", jtime (Some (MonMetricSample.ts r))); ("entity_id", JStr (MonMetricSample.entity_id r));
  ("value", JFloat (MonMetricSample.value r)); ("source", JStr (MonMetricSample.source r))].

(** The ids asked for, those of the group and those the user may see: their intersection. *)
Definition narrow (ids : option (list string)) (by_ : list string) : option (list string) :=
  Some (match ids with None => by_ | Some l => filter (λ e, e ∈ by_) l end).
Definition _scope_metric_ids (user : CurrentUser) (entity_ids : option (list string)) (group_id : option Z) : Op (option (list string)) :=
  ids ← (if z_truthy group_id then l ← visible_entity_ids [default 0 group_id]; ret (narrow entity_ids l) else ret entity_ids);
  visible ← _visible_entity_ids user;
  ret (match visible with Some l => narrow ids l | None => ids end).

Definition query_metrics (user : CurrentUser) (entity_ids : option (list string)) (group_id : option Z) (metric_name : string)
    (start end_ : option Z) (agg : string) (page size : Z) : Op json :=
  require_perm user "monitor:metric:view";;
  ids ← _scope_metric_ids user entity_ids group_id;
  if str_in agg ["5m"; "1h"; "1d"] then
    l ← query_bucketed ids metric_name start end_ agg;
    ret (JObj [("agg", JStr agg); ("points", JArr (bucket_out <$> l))])
  else
    l ← db_select (sample_matches ids metric_name start end_);
    ret (JObj [("agg", JNull);
      ("points", JArr (point_out <$> take (Z.to_nat size) (drop (Z.to_nat ((page - 1) * size)) (merge_sort latest_first l))));
      ("total", JInt (Z.of_nat (length l))); ("page", JInt page); ("size", JInt size)]).
Definition current_out (r : Sample) : json := JObj [
  ("entity_id", JStr (MonMetricSample.entity_id r)); ("metric_name", JStr (MonMetricSample.metric_name r));
  ("value", JFloat (MonMetricSample.value r)); ("ts", jtime (Some (MonMetricSample.ts r)))].
Definition current_metrics (user : CurrentUser) (entity_ids : option (list string)) (metric_name : option string) : Op json :=
  require_perm user "monitor:metric:view";;
  ids ← _scope_metric_ids user entity_ids None;
  rows ← latest_by_entity ids metric_name;
  ret (JObj [("list", JArr (current_out <$> rows))]).

(** The condition of a rule, its duration aside, on the latest samples of its metric. *)
Definition test_rule (user : CurrentUser) (rule_id : Z) : Op json :=
  require_perm user "monitor:rule:test";;
  rule ← live_rule rule_id;
  latest ← latest_by_entity None (MonRule.metric_name rule);
  let matched := length (filter (λ r, _check_condition rule (Some (MonMetricSample.value r)) = true) latest) in
  ret (JObj [("rule_id", JInt (MonRule.id rule)); ("matched_samples", JInt (Z.of_nat matched));
    ("recent_samples", JInt (Z.of_nat (length latest))); ("would_fire", JBool (0 <? matched)%nat)]).

(** ** Events *)

#[local] Abbreviation Event := MonEventInbox.MonEventInbox.
Record EventFilter := mkEventFilter {
  e_source : option string; e_kind : option string; e_status : option string; e_entity_id : option string;
  e_start : option Z; e_end : option Z }.
(** [entity ->> 'entity_id'] *)
Definition event_entity_id (e : Event) : option string :=
  match jget "entity_id" (MonEventInbox.entity e) with
  | Some (JStr s) => Some s
  | Some JNull | None => None
  | Some j => Some (as_text j)
  end.
Definition event_matches (f : EventFilter) (visible : option (list string)) (e : Event) : bool :=
  opt_cond (e_source f) (λ x, bool_decide (MonEventInbox.source e = x)) &&
  opt_cond (e_kind f) (λ x, bool_decide (MonEventInbox.kind e = x)) &&
  opt_cond (e_status f) (λ x, bool_decide (MonEventInbox.status e = x)) &&
  opt_cond (e_entity_id f) (λ x, bool_decide (event_entity_id e = Some x)) &&
  at_least (e_start f) (Some (MonEventInbox.ts e)) && at_most (e_end f) (Some (MonEventInbox.ts e)) &&
  match visible with
  | None => true
  | Some l => match event_entity_id e with Some x => str_in x l | None => false end
  end.
Definition newest_first (e1 e2 : Event) : Prop := MonEventInbox.received_at e2 ≤ MonEventInbox.received_at e1.
#[local] Instance newest_first_dec : RelDecision newest_first :=
  λ e1 e2, decide (MonEventInbox.received_at e2 ≤ MonEventInbox.received_at e1).
Definition _event_out (e : Event) : json :=
  let entity := j_or (MonEventInbox.entity e) (JObj []) in
  let ts := jtime (Some (MonEventInbox.ts e)) in
  JObj [("id", JInt (MonEventInbox.id e)); ("source", JStr (MonEventInbox.source e)); ("kind", JStr (MonEventInbox.kind e));
    ("entity", entity); ("entity_id", jget_or "entity_id" JNull entity); ("ts", ts); ("start", ts); ("end", ts);
    ("value", jq (MonEventInbox.value e)); ("severity", js (MonEventInbox.severity e));
    ("labels", MonEventInbox.labels e); ("raw", MonEventInbox.raw e); ("fingerprint", JStr (MonEventInbox.fingerprint e));
    ("mapping_warning", JInt (MonEventInbox.mapping_warning e)); ("status", JStr (MonEventInbox.status e));
    ("error", js (MonEventInbox.error e)); ("received_at", jtime (Some (MonEventInbox.received_at e)))].
Definition list_events (user : CurrentUser) (f : EventFilter) (page size : Z) : Op json :=
  require_perm user "monitor:alert:view";;
  visible ← _visible_entity_ids user;
  l ← db_select (event_matches f visible);
  ret (JObj [("list", JArr (_event_out <$> take (Z.to_nat size) (drop (Z.to_nat ((page - 1) * size)) (merge_sort newest_first l))));
             ("total", JInt (Z.of_nat (length l))); ("page", JInt page); ("size", JInt size)]).
Definition get_event (user : CurrentUser) (event_id : Z) : Op json :=
  require_perm user "monitor:alert:view";;
  o ← db_get event_id;
  e ← some_or o (NotFoundError "event not found");
  visible ← _visible_entity_ids user;
  guard_or (_entity_in_scope float_str container_str visible (MonEventInbox.entity e)) (NotFoundError "event not found");;
  ret (_event_out e).

(** ** Aggregates *)

Lemma sum_filters {A} `{EqDecision K} (f : A → K) (l : list A) (ks : list K) :
  NoDup ks → (∀ x, x ∈ l → f x ∈ ks) → sum_list ((λ k, length (filter (λ x, f x = k) l)) <$> ks) = length l.
Proof.
  intros Hd Hin. induction l as [|x l IH].
  - clear. induction ks as [|k ks IH]; [done|]. exact IH.
  - cbn [length]. rewrite <-IH by set_solver. assert (f x ∈ ks) as Hx by (apply Hin; left). clear IH Hin.
    induction ks as [|k ks IHk]; [by apply elem_of_nil in Hx|]. apply NoDup_cons in Hd as [Hk Hd]. cbn [fmap list_fmap sum_list].
    rewrite filter_cons. destruct (decide (f x = k)) as [<-|Hne].
    + assert ((λ k, length (filter (λ y, f y = k) (x :: l))) <$> ks = (λ k, length (filter (λ y, f y = k) l)) <$> ks) as ->; [|cbn; lia].
      apply list_fmap_ext. intros i k Hi. rewrite filter_cons_False; [done|]. intros <-. by apply Hk; eapply list_elem_of_lookup_2.
    + rewrite IHk; [lia|done|]. apply elem_of_cons in Hx as [|]; [congruence|done].
Qed.

Lemma qmax_spec a b : (a <= qmax a b /\ b <= qmax a b)%Q.
Proof.
  unfold qmax. destruct (Qle_bool a b) eqn:E.
  - apply Qle_bool_iff in E. split; [done|apply Qle_refl].
  - split; [apply Qle_refl|]. apply Qlt_le_weak, Qnot_le_lt. intros H%Qle_bool_iff. congruence.
Qed.
Lemma qmin_spec a b : (qmin a b <= a /\ qmin a b <= b)%Q.
Proof.
  unfold qmin. destruct (Qle_bool a b) eqn:E.
  - apply Qle_bool_iff in E. split; [apply Qle_refl|done].
  - split; [|apply Qle_refl]. apply Qlt_le_weak, Qnot_le_lt. intros H%Qle_bool_iff. congruence.
Qed.
Lemma fold_max_ge vs v : (v <= foldl qmax v vs)%Q ∧ Forall (λ x, x <= foldl qmax v vs)%Q vs.
Proof.
  revert v. induction vs as [|w vs IH]; intros v; cbn; [split; [apply Qle_refl|done]|].
  destruct (IH (qmax v w)) as [H1 H2], (qmax_spec v w) as [Hv Hw]. split; [by eapply Qle_trans|]. constructor; [by eapply Qle_trans|done].
Qed.
Lemma fold_min_le vs v : (foldl qmin v vs <= v)%Q ∧ Forall (λ x, foldl qmin v vs <= x)%Q vs.
Proof.
  revert v. induction vs as [|w vs IH]; intros v; cbn; [split; [apply Qle_refl|done]|].
  destruct (IH (qmin v w)) as [H1 H2], (qmin_spec v w) as [Hv Hw]. split; [by eapply Qle_trans|]. constructor; [by eapply Qle_trans|done].
Qed.
Lemma sum_bounds lo hi vs v n :
  (n * lo <= v <= n * hi)%Q → Forall (λ x, lo <= x <= hi)%Q vs →
  ((n + inject_Z (Z.of_nat (length vs))) * lo <= foldl Qplus v vs <= (n + inject_Z (Z.of_nat (length vs))) * hi)%Q.
Proof.
  revert v n. induction vs as [|w vs IH]; intros v n Hv Hvs; cbn [length foldl].
  - change (inject_Z (Z.of_nat 0)) with 0%Q. by rewrite Qplus_0_r.
  - apply Forall_cons in Hvs as [[Hw1 Hw2] Hvs]. destruct Hv as [Hv1 Hv2].
    assert (n + inject_Z (Z.of_nat (S (length vs))) == (n + 1) + inject_Z (Z.of_nat (length vs)))%Q as ->.
    { rewrite Nat2Z.inj_succ, <-Z.add_1_l, inject_Z_plus. ring. }
    apply IH; [|done]. split.
    + assert ((n + 1) * lo == n * lo + lo)%Q as -> by ring. by apply Qplus_le_compat.
    + assert ((n + 1) * hi == n * hi + hi)%Q as -> by ring. by apply Qplus_le_compat.
Qed.

Lemma bucket_spec k vs b :
  bucket k vs = Some b →
  (b_entity_id b, b_bucket b) = k ∧ b_count b = Z.of_nat (length vs) ∧
  (b_min b <= b_avg b <= b_max b)%Q ∧ Forall (λ x, b_min b <= x <= b_max b)%Q vs.
Proof.
  destruct vs as [|v vs]; [done|]. intros [= <-]. cbn [b_entity_id b_bucket b_count b_min b_max b_avg].
  destruct (fold_max_ge vs v) as [Hm1 Hm2], (fold_min_le vs v) as [Hn1 Hn2].
  assert (Forall (λ x, foldl qmin v vs <= x <= foldl qmax v vs)%Q vs) as Hvs.
  { apply Forall_forall. intros x Hx. rewrite Forall_forall in Hm2, Hn2. by split; [apply Hn2|apply Hm2]. }
  split; [by destruct k|]. split; [done|]. split; [|by constructor].
  destruct (sum_bounds (foldl qmin v vs) (foldl qmax v vs) vs v 1) as [H1 H2]; [by rewrite !Qmult_1_l|done|].
  assert (1 + inject_Z (Z.of_nat (length vs)) == inject_Z (Z.of_nat (length (v :: vs))))%Q as E.
  { cbn [length]. by rewrite Nat2Z.inj_succ, <-Z.add_1_l, inject_Z_plus. }
  rewrite E in H1, H2. assert (0 < inject_Z (Z.of_nat (length (v :: vs))))%Q as Hpos by (unfold Qlt; cbn; lia).
  split; [apply Qle_shift_div_l|apply Qle_shift_div_r]; try done; by rewrite Qmult_comm.
Qed.

Lemma omap_buckets (f : string * Z → list Q) ks :
  let bs := omap (λ k, bucket k (f k)) ks in
  ((λ b, (b_entity_id b, b_bucket b)) <$> bs) = filter (λ k, f k ≠ []) ks ∧
  sum_list ((λ b, Z.to_nat (b_count b)) <$> bs) = sum_list ((λ k, length (f k)) <$> ks) ∧
  Forall (λ b, 0 < b_count b ∧ (b_min b <= b_avg b <= b_max b)%Q) bs.
Proof.
  induction ks as [|k ks (IH1 & IH2 & IH3)]; [by split_and!|]. cbv zeta. rewrite filter_cons. cbn [omap list_omap fmap list_fmap].
  destruct (bucket k (f k)) as [b|] eqn:E.
  - apply bucket_spec in E as E'. destruct E' as (Hk & Hn & Hb & _).
    assert (f k ≠ []) as Hne by (intros Hf; by rewrite Hf in E). rewrite decide_True by done.
    cbn [fmap list_fmap sum_list]. split_and!.
    + by rewrite Hk, <-IH1.
    + rewrite Hn, Nat2Z.id. f_equal. exact IH2.
    + constructor; [split; [|done]|exact IH3]. rewrite Hn. destruct (f k); [done|]. cbn. lia.
  - assert (f k = []) as Hf by (by destruct (f k)). rewrite decide_False by naive_solver. split_and!; [done| |done].
    rewrite Hf. cbn [sum_list length]. exact IH2.
Qed.

(** The buckets of a metrics query partition its samples: no two are of the
    same entity and time, none is empty, their counts add up to the number of
    samples, and the average of each lies between its minimum and its maximum. *)
Theorem buckets_partition agg l :
  let bs := group_buckets agg l in
  NoDup ((λ b, (b_entity_id b, b_bucket b)) <$> bs) ∧
  sum_list ((λ b, Z.to_nat (b_count b)) <$> bs) = length l ∧
  Forall (λ b, 0 < b_count b ∧ (b_min b <= b_avg b <= b_max b)%Q) bs.
Proof.
  cbv zeta. unfold group_buckets. set (ks := merge_sort bucket_le _).
  assert (Hk : NoDup ks) by (unfold ks; rewrite merge_sort_Permutation; apply NoDup_remove_dups).
  assert (Hall : ∀ r, r ∈ l → bucket_of agg r ∈ ks).
  { intros r Hr. unfold ks. rewrite merge_sort_Permutation. apply elem_of_remove_dups, list_elem_of_fmap. by exists r. }
  destruct (omap_buckets (λ k, MonMetricSample.value <$> filter (λ r, bucket_of agg r = k) l) ks) as (-> & -> & Hb).
  split_and!; [by apply NoDup_filter| |done]. rewrite <-(sum_filters (bucket_of agg) l ks Hk Hall).
  f_equal. apply list_fmap_ext. intros i k _. apply length_fmap.
Qed.

(** ** Who sees which metrics *)

(** An entity that the user may see, by one of the names a host goes by, and one
    that was asked for *)
Definition may_see (u : CurrentUser) (s : St) (e : string) : Prop :=
  is_admin u = true ∨
  ∃ i h g, tbl (R:=Host.Host) (work s) !! i = Some h ∧ Host.group_id h = Some g ∧ g ∈ visible_group_ids u ∧
    ((e = Host.ip h ∧ e ≠ "") ∨ (e = Host.hostname h ∧ e ≠ "") ∨ e = pretty (Host.id h)).
Definition asked (ids : option (list string)) (e : string) : Prop := match ids with Some l => e ∈ l | None => True end.
Definition in_scope (u : CurrentUser) (ids : option (list string)) (s : St) (e : string) : Prop :=
  may_see u s e ∧ asked ids e.

(** The [n] newest samples, and the latest of its entity and metric among them *)
Definition newest (n : nat) (all window : list Sample) : Prop :=
  ∃ rest, all ≡ₚ window ++ rest ∧ length window = Nat.min n (length all) ∧ StronglySorted latest_first window ∧
    ∀ x y, x ∈ window → y ∈ rest → latest_first x y.
Definition key_of (r : Sample) : string * string := (MonMetricSample.entity_id r, MonMetricSample.metric_name r).
Definition latest_of (window : list Sample) (r : Sample) : Prop :=
  ∃ pre post, window = pre ++ r :: post ∧ ∀ x, x ∈ pre → key_of x ≠ key_of r.
Definition named (metric_name : option string) (r : Sample) : Prop :=
  match metric_name with Some n => n = "" ∨ MonMetricSample.metric_name r = n | None => True end.

#[local] Instance latest_first_trans : Transitive latest_first.
Proof. intros x y z. unfold latest_first. lia. Qed.
#[local] Instance latest_first_total : Total latest_first.
Proof. intros x y. unfold latest_first. lia. Qed.
Lemma newest_window n l : newest n l (take n (merge_sort latest_first l)).
Proof.
  pose proof (StronglySorted_merge_sort latest_first l) as Hs. pose proof (merge_sort_Permutation latest_first l) as Hp.
  set (w := merge_sort latest_first l) in *. clearbody w. exists (drop n w).
  assert (w = take n w ++ drop n w) as E by (by rewrite take_drop). rewrite E in Hs. split_and!.
  - rewrite take_drop. by symmetry.
  - by rewrite length_take, (Permutation_length Hp).
  - by apply StronglySorted_app_1_l in Hs.
  - intros x y Hx Hy. by eapply (StronglySorted_app_1_elem_of latest_first).
Qed.

Section first_per_lemmas.
Context {A K : Type} `{!EqDecision K} (key : A → K).
Lemma elem_of_first_per seen l x :
  x ∈ first_per key seen l ↔ key x ∉ seen ∧ ∃ pre post, l = pre ++ x :: post ∧ ∀ y, y ∈ pre → key y ≠ key x.
Proof.
  revert seen. induction l as [|z l IH]; intros seen.
  - split; [by intros ?%elem_of_nil|]. by intros (_ & [|] & ? & ? & _).
  - cbn [first_per]. destruct (bool_decide_reflect (key z ∈ seen)) as [Hz|Hz]; [|rewrite elem_of_cons]; rewrite IH; split.
    + intros (Hx & pre & post & -> & Hp). split; [done|]. exists (z :: pre), post. split; [done|].
      intros y [->|Hy]%elem_of_cons; [congruence|by apply Hp].
    + intros (Hx & [|z' pre] & post & [= <- ->] & Hp); [done|]. split; [done|]. exists pre, post. split; [done|].
      intros y Hy. apply Hp. by right.
    + intros [->|(Hx & pre & post & -> & Hp)]; [split; [done|]; exists [], l; split; [done|]; by intros ? ?%elem_of_nil|].
      apply not_elem_of_cons in Hx as [Hne Hx]. split; [done|]. exists (z :: pre), post. split; [done|].
      intros y [->|Hy]%elem_of_cons; [congruence|by apply Hp].
    + intros (Hx & [|z' pre] & post & [= <- ->] & Hp); [by left|]. right. split.
      * apply not_elem_of_cons. split; [|done]. intros E. by apply (Hp z); [left|].
      * exists pre, post. split; [done|]. intros y Hy. apply Hp. by right.
Qed.
Lemma NoDup_first_per seen l : NoDup (key <$> first_per key seen l).
Proof.
  revert seen. induction l as [|z l IH]; intros seen; cbn [first_per]; [constructor|].
  destruct (bool_decide _); [apply IH|]. rewrite fmap_cons. constructor; [|apply IH].
  intros (x & E & Hx)%list_elem_of_fmap. apply elem_of_first_per in Hx as [Hx _]. apply Hx. rewrite E. left.
Qed.
(** The first of its key among those that satisfy what depends on the key alone *)
Lemma elem_of_first_filter (p : A → bool) l x :
  (∀ y, key y = key x → p y = p x) →
  x ∈ first_per key [] (filter (λ y, p y = true) l) ↔
  p x = true ∧ ∃ pre post, l = pre ++ x :: post ∧ ∀ y, y ∈ pre → key y ≠ key x.
Proof.
  intros Hp. rewrite elem_of_first_per. split.
  - intros (_ & pre & post & E & Hpre).
    assert (x ∈ filter (λ y, p y = true) l) as [Hx Hin]%list_elem_of_filter
      by (rewrite E; apply elem_of_app; right; left).
    split; [done|]. revert pre E Hpre. induction l as [|z l IH]; intros pre E Hpre; [by apply elem_of_nil in Hin|].
    rewrite filter_cons in E. destruct (decide (p z = true)) as [Hz|Hz].
    + destruct pre as [|z' pre]; injection E as <- E; [exists [], l; split; [done|]; by intros ? ?%elem_of_nil|].
      apply elem_of_cons in Hin as [->|Hin]; [destruct (Hpre z ltac:(left) eq_refl)|].
      destruct (IH Hin pre E) as (p1 & p2 & -> & Hp1); [intros; apply Hpre; by right|].
      exists (z :: p1), p2. split; [done|]. intros y [->|Hy]%elem_of_cons; [apply Hpre; left|by apply Hp1].
    + apply elem_of_cons in Hin as [->|Hin]; [done|]. destruct (IH Hin pre E Hpre) as (p1 & p2 & -> & Hp1).
      exists (z :: p1), p2. split; [done|]. intros y [->|Hy]%elem_of_cons; [|by apply Hp1]. intros Ek. by rewrite (Hp z Ek) in Hz.
  - intros (Hx & pre & post & -> & Hpre). split; [by intros ?%elem_of_nil|].
    exists (filter (λ y, p y = true) pre), (filter (λ y, p y = true) post). rewrite filter_app, filter_cons, decide_True by done.
    split; [done|]. intros y [_ Hy]%list_elem_of_filter. by apply Hpre.
Qed.
End first_per_lemmas.

(** The ids the query is narrowed to are those in scope, and if there are none
    they are dropped. *)
Lemma elem_of_concat {A} (x : A) (ll : list (list A)) : x ∈ concat ll ↔ ∃ l, x ∈ l ∧ l ∈ ll.
Proof. rewrite list_elem_of_In, in_concat. setoid_rewrite list_elem_of_In. naive_solver. Qed.
Lemma entity_ids_spec u s : is_admin u = false →
  ∃ l, visible_entity_ids (visible_group_ids u) s = (inr l, s) ∧ ∀ e, e ∈ l ↔ may_see u s e.
Proof.
  intros Hu. unfold visible_entity_ids.
  assert (∀ e, may_see u s e ↔ ∃ h, HostRepository.in_groups (visible_group_ids u) h = true ∧
    (∃ i, tbl (R:=Host.Host) (work s) !! i = Some h) ∧ e ∈ HostRepository.entity_ids_of h) as Hsee.
  { intros e. unfold may_see, HostRepository.entity_ids_of, HostRepository.in_groups. split.
    - intros [?|(i & h & g & Hi & Hg & Hin & He)]; [congruence|]. exists h. rewrite Hg.
      split; [by apply z_in_true|]. split; [by exists i|]. repeat case_bool_decide; set_solver.
    - intros (h & Hg & [i Hi] & He). right. destruct (Host.group_id h) as [g|] eqn:Eg; [|done]. exists i, h, g.
      split_and!; [done|done|by apply z_in_true|]. repeat case_bool_decide; set_solver. }
  destruct (visible_group_ids u) as [|g gs] eqn:Eg.
  - exists []. split; [done|]. intros e. rewrite Hsee. split; [by intros ?%elem_of_nil|]. intros (h & Hg & _).
    unfold HostRepository.in_groups in Hg. by destruct (Host.group_id h).
  - eexists. split; [reflexivity|]. intros e. rewrite elem_of_concat, Hsee. split.
    + intros (? & He & (h & -> & [Hg [i Hi]]%elem_of_select_rows)%list_elem_of_fmap). exists h. split_and!; [done|by exists i|done].
    + intros (h & Hg & [i Hi] & He). exists (HostRepository.entity_ids_of h). split; [done|].
      apply list_elem_of_fmap. exists h. split; [done|]. apply elem_of_select_rows. split; [done|by exists i].
Qed.
Lemma scope_spec u ids s : ∃ k, _scope_metric_ids u ids None s = (inr k, s) ∧
  ∀ e, in_ids k e = true ↔ ((∃ e', in_scope u ids s e') → in_scope u ids s e).
Proof.
  unfold _scope_metric_ids, _visible_entity_ids, in_scope. cbn [z_truthy]. unfold bind, ret.
  destruct (is_admin u) eqn:Hu.
  - exists ids. split; [done|]. intros e. assert (∀ e', may_see u s e') as Hall by (by left).
    destruct ids as [[|x l]|]; cbn; [|rewrite str_in_true|naive_solver].
    + split; [|done]. intros _ (e' & _ & []%elem_of_nil).
    + split; [by intros|]. intros H. apply H. exists x. split; [done|left].
  - destruct (entity_ids_spec u s Hu) as (l & -> & Hl). eexists. split; [reflexivity|]. intros e. unfold narrow.
    set (k := match ids with None => l | Some i => filter (λ e, e ∈ l) i end).
    assert (∀ e', e' ∈ k ↔ may_see u s e' ∧ asked ids e') as Hk.
    { intros e'. subst k. rewrite <-Hl. destruct ids as [i|]; cbn; [rewrite list_elem_of_filter; tauto|tauto]. }
    unfold in_ids. destruct k as [|x k]; [|rewrite str_in_true, Hk].
    + split; [|done]. intros _ (e' & []%Hk%elem_of_nil).
    + split; [by intros|]. intros H. apply H. exists x. apply Hk. left.
Qed.

(** C27: The current metrics are read off the 500 newest samples: of each entity
    and metric the latest one among these, if the metric is the one asked for and
    the entity is one asked for that the user may see. But when no entity at all is
    both asked for and visible, as for a user who may see no host, the entities
    are not restricted. *)
Theorem current_metrics_scope u ids name s :
  has_perm u "monitor:metric:view" = true →
  ∃ window rows,
    newest 500 (select_rows (λ _, true) (tbl (R:=Sample) (work s))) window ∧
    current_metrics u ids name s = (inr (JObj [("list", JArr (current_out <$> rows))]), s) ∧
    NoDup (key_of <$> rows) ∧
    ∀ r, r ∈ rows ↔ latest_of window r ∧ named name r ∧
      ((∃ e, in_scope u ids s e) → in_scope u ids s (MonMetricSample.entity_id r)).
Proof.
  intros Hp. destruct (scope_spec u ids s) as (k & Hk & Hin).
  set (all := select_rows (λ _, true) (tbl (R:=Sample) (work s))). set (window := take 500 (merge_sort latest_first all)).
  eexists window, _. split_and!; [apply newest_window| |apply NoDup_first_per|].
  - unfold current_metrics, require_perm. rewrite Hp. unfold bind at 1. cbn [ret]. unfold bind at 1. rewrite Hk. reflexivity.
  - intros r. rewrite (elem_of_first_filter key_of (λ r, opt_cond name (λ n, bool_decide (MonMetricSample.metric_name r = n)) &&
      in_ids k (MonMetricSample.entity_id r))) by (intros y [= E1 E2]; by rewrite E1, E2).
    rewrite andb_true_iff, Hin. unfold latest_of, named, opt_cond.
    destruct name as [n|]; [|naive_solver]. destruct (bool_decide_reflect (n = "")); [naive_solver|].
    rewrite bool_decide_eq_true. naive_solver.
Qed.
End metrics.

(** ** Witnesses *)

Definition enc (s : string) : string := "<" +:+ s +:+ ">".
Definition api_adapters : list (Z * adapter_request) := [
  (1767355200000000, AdCreate admin (MonAdapterCreate.mk "prom" "prometheus" ""
     [("url", JStr "http://prom"); ("auth", JObj [("token", JStr "t0p"); ("realm", JStr "ops")])] 1));
  (1767355260000000, AdUpdate admin 1 (MonAdapterUpdate.mk None None None
     (Some [("auth", JObj [("token", JStr "***"); ("realm", JStr "dev")])]) None));
  (1767355320000000, AdStatus admin 1 0)].
Definition api_run : St := serve_all (adapter_handle enc (λ _, None)) api_adapters init_st.
Definition api_config : list (string * json) :=
  [("url", JStr "http://prom"); ("auth", JObj [("token", JStr "enc:<t0p>"); ("realm", JStr "dev")])].
Lemma masked_echo_keeps_adapter_witness :
  ∃ a, tbl (R:=MonAdapter.MonAdapter) (committed api_run) !! 1 = Some a ∧ MonAdapter.config a = JObj api_config ∧
    _mask_adapter_config (λ _, None) api_config =
      [("url", JStr "http://prom"); ("auth", JObj [("token", JStr "***"); ("realm", JStr "dev")])] ∧
    updated_adapter enc (MonAdapterUpdate.mk None None None
      (Some (_mask_adapter_config (λ _, None) (config_of a))) None) a = a.
Proof.
  destruct (tbl (R:=MonAdapter.MonAdapter) (committed api_run) !! 1) as [a|] eqn:E; [|vm_compute in E; discriminate E].
  exists a. split; [reflexivity|]. split; [vm_compute in E; injection E as <-; reflexivity|]. split; [vm_compute; reflexivity|].
  refine (proj2 (masked_echo_keeps_adapter enc (λ _, None) api_adapters init_st 1 a _ _ _ E)).
  - apply map_Forall_empty.
  - apply map_Forall_empty.
  - vm_compute. reflexivity.
Defined.

Lemma starred_secret_in_clear_witness :
  _encrypt_config_secrets enc [("password", JStr "p*ss")] [] = [("password", JStr "p*ss")].
Proof.
  refine (proj1 (starred_secret_in_clear enc (λ _, None) "password" "p*ss" _ _ _)); [str_mem|reflexivity|reflexivity].
Defined.

(** Two hosts report their load; the user sees no host. *)
Definition load_of (i : Z) (ip : string) (v : Q) : MonMetricSample.MonMetricSample :=
  MonMetricSample.mk i "agent" "load" "host" ip ip v (JObj []) "auto" (1767355200000000 + seconds i) 0.
Definition metrics_st : St :=
  on_db (λ _, empty_db <| mon_metric_samples := {[
    1 := load_of 1 "10.0.0.4" 1; 2 := load_of 2 "10.0.0.5" 3; 3 := load_of 3 "10.0.0.4" 2]} |>) init_st.
Definition lone_user : CurrentUser := plain_user 9 ["monitor:metric:view"] [].
Example buckets_ex :
  (λ b, (b_entity_id b, b_count b, b_min b, b_max b)) <$> group_buckets "1h" (rows (mon_metric_samples (work metrics_st))) =
  [("10.0.0.4", 2, 1 : Q, 2 : Q); ("10.0.0.5", 1, 3 : Q, 3 : Q)].
Proof. vm_compute. reflexivity. Qed.
Lemma current_metrics_scope_witness :
  current_metrics lone_user None (Some "load") metrics_st =
    (inr (JObj [("list", JArr (current_out <$> [load_of 3 "10.0.0.4" 2; load_of 2 "10.0.0.5" 3]))]), metrics_st) ∧
  ∃ rows, current_metrics lone_user None (Some "load") metrics_st =
      (inr (JObj [("list", JArr (current_out <$> rows))]), metrics_st) ∧
    NoDup (key_of <$> rows) ∧ ∀ r, r ∈ rows → named (Some "load") r.
Proof.
  split; [vm_compute; reflexivity|].
  destruct (current_metrics_scope lone_user None (Some "load") metrics_st eq_refl) as (window & rows & _ & E & Hd & Hr).
  exists rows. split; [exact E|]. split; [exact Hd|]. intros r Hin. apply Hr, Hin.
Defined.
