(* ===== verification/Cmdb.v ===== *)
(** * CMDB relations: [services/cmdb_service.py]

    A relation is a directed edge between entities. Topology and impact are
    breadth-first searches from an entity, [depth] levels far, of which the caller
    is shown the entities he may see. *)

From S2P Require Import Prelude.
From S2P Require Import Models.
From S2P Require Import Session.
From S2P Require Import Repositories.
From S2P Require Import Access.
From S2P Require Import Notify.
From S2P Require Import Monitor.

Definition ENTITY_TYPES : list string := ["host"; "host_group"].
Definition REL_TYPES : list string := ["depends_on"; "runs_on"; "connects_to"; "member_of"; "hosts"].
Definition _DEPTH_DEFAULT : Z := 2.
Definition _DEPTH_MAX : Z := 3.
Definition _DIRECTIONS : list string := ["up"; "down"; "both"].

Definition key : Type := string * Z.
Abbreviation Relation := EntityRelation.EntityRelation.
Definition skey (r : Relation) : key := (EntityRelation.src_type r, EntityRelation.src_id r).
Definition dkey (r : Relation) : key := (EntityRelation.dst_type r, EntityRelation.dst_id r).

(** schemas/asset.py *)
Module RelationCreate.
Record RelationCreate := mk {
  src_type : string; src_id : Z; dst_type : string; dst_id : Z; rel_type : string; properties : json; remark : string }.
End RelationCreate.

(** ** Helpers *)

Definition _require_feature : Op () := require_feature "feature.cmdb_topology".
(** What of hosts and of groups is visible: [None] is all. *)
Definition Scope : Type := option (list string) * option (list Z).
Definition _visible_scope (user : CurrentUser) : Op Scope :=
  if is_admin user then ret (None, None) else
  hosts ← visible_entity_ids (visible_group_ids user);
  ret (Some hosts, Some (visible_group_ids user)).
Definition _entity_visible (scope : Scope) (k : key) : bool :=
  let hosts_ok := match scope.1 with None => true | Some l => str_in (pretty k.2) l end in
  let groups_ok := match scope.2 with None => true | Some l => z_in k.2 l end in
  if bool_decide (k.1 = "host") then hosts_ok
  else if bool_decide (k.1 = "host_group") then groups_ok
  else match scope with (None, None) => true | _ => false end.

Definition _clamp_depth (depth : option Z) : Op nat :=
  match depth with
  | None => ret (Z.to_nat _DEPTH_DEFAULT)
  | Some d => if (d <? 0) || (_DEPTH_MAX <? d) then raise (ValidationError "depth must be 0..3") else ret (Z.to_nat d)
  end.
Definition _check_direction (direction : option string) : Op string :=
  let d := s_or direction "both" in
  if str_in d _DIRECTIONS then ret d
  else raise (ValidationError "direction must be one of ['both', 'down', 'up']").
Definition _validate_create (data : RelationCreate.RelationCreate) : Op () :=
  guard_or (str_in (RelationCreate.src_type data) ENTITY_TYPES && str_in (RelationCreate.dst_type data) ENTITY_TYPES)
    (ValidationError "entity_type must be one of ['host', 'host_group']");;
  guard_or (str_in (RelationCreate.rel_type data) REL_TYPES)
    (ValidationError "rel_type must be one of ['connects_to', 'depends_on', 'hosts', 'member_of', 'runs_on']");;
  guard_or (negb (bool_decide (RelationCreate.src_type data = RelationCreate.dst_type data) &&
                  (RelationCreate.src_id data =? RelationCreate.dst_id data)))
    (ValidationError "self relation is not allowed").

(** No row is updated after its INSERT. *)
Definition _relation_out (r : Relation) : json := JObj [
  ("id", JInt (EntityRelation.id r)); ("src_type", JStr (EntityRelation.src_type r)); ("src_id", JInt (EntityRelation.src_id r));
  ("dst_type", JStr (EntityRelation.dst_type r)); ("dst_id", JInt (EntityRelation.dst_id r));
  ("rel_type", JStr (EntityRelation.rel_type r)); ("properties", EntityRelation.properties r);
  ("remark", JStr (EntityRelation.remark r)); ("created_by", jz (EntityRelation.created_by r));
  ("created_at", jtime (Some (EntityRelation.created_at r))); ("updated_at", jtime (Some (EntityRelation.created_at r)))].

Definition _labels (keys : list key) : Op (list (key * string)) :=
  let ids t := (omap (λ k : key, if bool_decide (k.1 = t) then Some k.2 else None) keys) in
  hosts ← (match ids "host" with [] => ret [] | l => db_select (λ h : Host.Host, z_in (Host.id h) l) end);
  groups ← (match ids "host_group" with [] => ret [] | l => db_select (λ g : AssetGroup.AssetGroup, z_in (AssetGroup.id g) l) end);
  ret (((λ h, (("host", Host.id h), if bool_decide (Host.hostname h = "") then Host.ip h else Host.hostname h)) <$> hosts) ++
       ((λ g, (("host_group", AssetGroup.id g), AssetGroup.name g)) <$> groups)).
(** [labels.get(k, "")] *)
Definition label (labels : list (key * string)) (k : key) : string :=
  match find (λ kv, bool_decide (kv.1 = k)) labels with Some kv => kv.2 | None => "" end.

(** Whether [r] is an edge that a search from [node] in [direction] follows. *)
Definition edge_at (node : key) (direction : string) (rel_types : list string) (r : Relation) : bool :=
  (match rel_types with [] => true | _ => str_in (EntityRelation.rel_type r) rel_types end) &&
  (if bool_decide (direction = "down") then bool_decide (skey r = node)
   else if bool_decide (direction = "up") then bool_decide (dkey r = node)
   else bool_decide (skey r = node) || bool_decide (dkey r = node)).
Definition _edges_for (node : key) (direction : string) (rel_types : list string) : Op (list Relation) :=
  db_select (edge_at node direction rel_types).

(** ** Relations *)

Record RelationFilter := mkRelationFilter {
  r_src_type : option string; r_src_id : option Z; r_dst_type : option string; r_dst_id : option Z; r_rel_type : option string }.
Definition is_or_none {A} `{EqDecision A} (x : option A) (y : A) : bool := match x with Some v => bool_decide (y = v) | None => true end.
Definition relation_matches (f : RelationFilter) (r : Relation) : bool :=
  is_or_none (r_src_type f) (EntityRelation.src_type r) && is_or_none (r_src_id f) (EntityRelation.src_id r) &&
  is_or_none (r_dst_type f) (EntityRelation.dst_type r) && is_or_none (r_dst_id f) (EntityRelation.dst_id r) &&
  is_or_none (r_rel_type f) (EntityRelation.rel_type r).
Definition both_visible (scope : Scope) (r : Relation) : bool := _entity_visible scope (skey r) && _entity_visible scope (dkey r).
Definition list_relations (user : CurrentUser) (f : RelationFilter) (page size : Z) : Op json :=
  _require_feature;;
  require_perm user "asset:relation:list";;
  rows ← db_select (relation_matches f);
  scope ← _visible_scope user;
  let rows := filter (λ r, both_visible scope r = true) rows in
  ret (JObj [("list", JArr (_relation_out <$> page_of rows page size)); ("total", JInt (Z.of_nat (length rows)));
             ("page", JInt page); ("size", JInt size)]).

Definition not_visible : exn := ForbiddenError "relation endpoints not visible to caller".
Definition new_relation (user : CurrentUser) (data : RelationCreate.RelationCreate) : Relation :=
  EntityRelation.mk 0 (RelationCreate.src_type data) (RelationCreate.src_id data) (RelationCreate.dst_type data)
    (RelationCreate.dst_id data) (RelationCreate.rel_type data) (RelationCreate.properties data) (RelationCreate.remark data)
    (Some (user_id user)) 0.
Definition same_edge (a b : Relation) : bool :=
  bool_decide (skey a = skey b) && bool_decide (dkey a = dkey b) &&
  bool_decide (EntityRelation.rel_type a = EntityRelation.rel_type b).
Definition create_relation (user : CurrentUser) (data : RelationCreate.RelationCreate) : Op json :=
  _require_feature;;
  require_perm user "asset:relation:add";;
  _validate_create data;;
  scope ← _visible_scope user;
  let row := new_relation user data in
  guard_or (both_visible scope row) not_visible;;
  existing ← db_find (same_edge row);
  match existing with
  | Some r => ret (_relation_out r)
  | None =>
      row ← db_add row;
      db_commit;;
      ret (_relation_out row)
  end.
Definition delete_relation (user : CurrentUser) (relation_id : Z) : Op () :=
  _require_feature;;
  require_perm user "asset:relation:del";;
  o ← db_get (R:=Relation) relation_id;
  row ← some_or o (NotFoundError "relation not found");
  scope ← _visible_scope user;
  guard_or (both_visible scope row) not_visible;;
  db_delete (R:=Relation) relation_id;;
  db_commit.

(** ** Topology and impact *)

Definition other_end (node : key) (r : Relation) : key := if bool_decide (skey r = node) then dkey r else skey r.

(** What the two searches keep: the nodes found, those found at this level, and
    what an edge met at a node adds. *)
Class Search (S : Type) := {
  found : S → list key;
  nxt : S → list key;
  clear : S → S;
  meet : key → S → Relation → S }.
Definition expand {S} `{Search S} (direction : string) (rel_types : list string) (s : S) (node : key) : Op S :=
  l ← _edges_for node direction rel_types; ret (foldl (meet node) s l).
(** [for level in range(depth)] of either search: every node of the frontier is
    expanded, the nodes first met are the next frontier. The flag is [truncated]. *)
Fixpoint levels {S} `{Search S} (direction : string) (rel_types : list string) (depth : nat) (s : S) (frontier : list key) : Op (S * bool) :=
  match depth with
  | O => ret (s, false)
  | Datatypes.S depth' =>
      s ← fold_each frontier (clear s) (expand direction rel_types);
      let cut := bool_decide (depth' = O) && negb (bool_decide (nxt s = [])) in
      if bool_decide (nxt s = []) then ret (s, cut) else
      '(s, more) ← levels direction rel_types depth' s (nxt s);
      ret (s, cut || more)
  end.

Record Topology := mkTopology {
  node_role : list (key * string);        (* insertion order is [order] *)
  edge_map : list Relation;               (* one per 5-tuple *)
  t_nxt : list key }.
Definition meet_topology (node : key) (t : Topology) (r : Relation) : Topology :=
  let edges := if existsb (same_edge r) (edge_map t) then edge_map t else edge_map t ++ [r] in
  let other := other_end node r in
  if bool_decide (other ∈ (node_role t).*1) then mkTopology (node_role t) edges (t_nxt t)
  else mkTopology (node_role t ++ [(other, if bool_decide (skey r = node) then "down" else "up")]) edges (t_nxt t ++ [other]).
#[local] Instance topology_search : Search Topology := {
  found t := (node_role t).*1; nxt := t_nxt; clear t := mkTopology (node_role t) (edge_map t) []; meet := meet_topology }.
Definition key_fields (k : key) : list (string * json) := [("type", JStr k.1); ("id", JInt k.2)].
Definition edge_out (r : Relation) : json := JObj [
  ("src", JObj (key_fields (skey r))); ("dst", JObj (key_fields (dkey r))); ("rel_type", JStr (EntityRelation.rel_type r))].
Definition node_out (labels : list (key * string)) (kr : key * string) : json :=
  JObj (key_fields kr.1 ++ [("label", JStr (label labels kr.1)); ("role", JStr kr.2)]).
Definition topology (user : CurrentUser) (entity_type : string) (entity_id : Z) (direction : option string)
    (depth : option Z) (rel_types : list string) : Op json :=
  _require_feature;;
  require_perm user "asset:topo:view";;
  direction ← _check_direction direction;
  depth ← _clamp_depth depth;
  scope ← _visible_scope user;
  let root := (entity_type, entity_id) in
  '(t, truncated) ← levels direction rel_types depth
     (mkTopology [(root, "root")] [] []) [root];
  let nodes := filter (λ kr, _entity_visible scope kr.1 = true) (node_role t) in
  labels ← _labels nodes.*1;
  ret (JObj [("nodes", JArr (node_out labels <$> nodes));
             ("edges", JArr (edge_out <$> filter (λ r, both_visible scope r = true) (edge_map t)));
             ("truncated", JBool truncated)]).

Record Impact := mkImpact { visited : list key; order : list key; i_nxt : list key }.
Definition meet_impact (node : key) (i : Impact) (r : Relation) : Impact :=
  let other := other_end node r in
  if bool_decide (other ∈ visited i) then i
  else mkImpact (other :: visited i) (order i ++ [other]) (i_nxt i ++ [other]).
#[local] Instance impact_search : Search Impact := {
  found := visited; nxt := i_nxt; clear i := mkImpact (visited i) (order i) []; meet := meet_impact }.
Definition affected_out (labels : list (key * string)) (k : key) : json :=
  JObj (key_fields k ++ [("label", JStr (label labels k))]).
Definition impact (user : CurrentUser) (entity_type : string) (entity_id : Z) (direction : option string)
    (depth : option Z) (rel_types : list string) : Op json :=
  _require_feature;;
  require_perm user "asset:topo:view";;
  direction ← _check_direction (Some (default "down" direction));
  depth ← _clamp_depth depth;
  scope ← _visible_scope user;
  let root := (entity_type, entity_id) in
  '(i, truncated) ← levels direction rel_types depth (mkImpact [root] [] []) [root];
  let affected := filter (λ k, _entity_visible scope k = true) (order i) in
  labels ← _labels (affected ++ [root]);
  ret (JObj [("root", affected_out labels root); ("affected", JArr (affected_out labels <$> affected));
             ("count", JInt (Z.of_nat (length affected))); ("truncated", JBool truncated)]).

(** ** The search *)

Section search.
Context (m : gmap Z Relation) (direction : string) (rel_types : list string) (root : key).

(** [adj x y]: an edge leads the search from [x] to [y]. *)
Definition edges_at (x : key) : list Relation := select_rows (edge_at x direction rel_types) m.
Definition adj (x y : key) : Prop := ∃ r, r ∈ edges_at x ∧ other_end x r = y.
Inductive walk : nat → key → Prop :=
  | walk_root : walk 0 root
  | walk_step n x y : walk n x → adj x y → walk (Datatypes.S n) y.
Definition within (n : nat) (k : key) : Prop := ∃ j, (j ≤ n)%nat ∧ walk j k.

Lemma within_0 k : within 0 k ↔ k = root.
Proof.
  split.
  - intros (j & Hj & Hw). assert (j = 0)%nat as -> by lia. by inversion Hw.
  - intros ->. exists 0%nat. split; [lia|constructor].
Qed.
Lemma within_S n k : within (S n) k ↔ within n k ∨ ∃ x, within n x ∧ adj x k.
Proof.
  split.
  - intros (j & Hj & Hw). destruct Hw as [|j x k Hw Ha].
    + left. exists 0%nat. split; [lia|constructor].
    + right. exists x. split; [|done]. exists j. split; [lia|done].
  - intros [(j & Hj & Hw)|(x & (j & Hj & Hw) & Ha)]; [exists j; split; [lia|done]|].
    exists (S j). split; [lia|]. by econstructor.
Qed.

(** What the search has found after [i] levels, and its frontier. *)
Record after (i : nat) (f frontier : list key) : Prop := {
  after_found : ∀ k, k ∈ f ↔ within i k;
  after_frontier : frontier ⊆ f;
  after_closed : ∀ x y, x ∈ f → x ∉ frontier → adj x y → y ∈ f }.
Lemma after_root : after 0 [root] [root].
Proof. split; [intros k; rewrite within_0; set_solver|done|set_solver]. Qed.
Lemma after_level i f frontier f' frontier' :
  after i f frontier → (∀ k, k ∈ f' ↔ k ∈ f ∨ ∃ x, x ∈ frontier ∧ adj x k) →
  (∀ k, k ∈ frontier' ↔ k ∈ f' ∧ k ∉ f) → after (S i) f' frontier'.
Proof.
  intros [Hf Hfr Hc] Hf' Hfr'. split.
  - intros k. rewrite Hf', within_S, Hf. split; [|intros [H|(x & Hx & Ha)]].
    + intros [H|(x & Hx & Ha)]; [by left|]. right. exists x. split; [apply Hf; by apply Hfr|done].
    + by left.
    + destruct (decide (x ∈ frontier)) as [Hin|Hin]; [right; by exists x|]. left. apply Hf. eapply Hc; [by apply Hf|done..].
  - intros k Hk. by apply Hfr'.
  - intros x y Hx Hn Ha. apply Hf'. destruct (decide (x ∈ f)) as [Hxf|Hxf]; [|exfalso; apply Hn, Hfr'; by split].
    destruct (decide (x ∈ frontier)) as [Hin|Hin]; [right; by exists x|]. left. by eapply Hc.
Qed.
(** An empty frontier ends the search: nothing is farther away. *)
Lemma after_end i f j : after i f [] → (i ≤ j)%nat → ∀ k, within j k ↔ within i k.
Proof.
  intros [Hf _ Hc] Hij. induction Hij as [|j Hij IH]; intros k; [done|]. rewrite within_S. split; [|left; by apply IH].
  intros [H|(x & Hx & Ha)]; [by apply IH|]. apply Hf. eapply Hc; [|apply not_elem_of_nil|exact Ha]. apply Hf. by apply IH.
Qed.
End search.

(** The laws a search obeys. *)
Class SearchLaws (S : Type) `{Search S} := {
  found_meet x s r k : k ∈ found (meet x s r) ↔ k ∈ found s ∨ k = other_end x r;
  nxt_meet x s r k : k ∈ nxt (meet x s r) ↔ k ∈ nxt s ∨ (k = other_end x r ∧ k ∉ found s);
  found_clear s : found (clear s) = found s;
  nxt_clear s : nxt (clear s) = [] }.
#[local] Instance topology_laws : SearchLaws Topology.
Proof.
  split; [| |done..]; intros x t r k; unfold meet; cbn; unfold meet_topology; case_bool_decide as E; cbn; rewrite ?fmap_app;
    cbn; rewrite ?elem_of_app, ?list_elem_of_singleton; naive_solver.
Qed.
#[local] Instance impact_laws : SearchLaws Impact.
Proof.
  split; [| |done..]; intros x t r k; unfold meet; cbn; unfold meet_impact; case_bool_decide as E; cbn;
    rewrite ?elem_of_cons, ?elem_of_app, ?list_elem_of_singleton; naive_solver.
Qed.

Section levels.
Context {T : Type} `{SearchLaws T} (direction : string) (rel_types : list string).
#[local] Abbreviation edges m := (edges_at m direction rel_types).
#[local] Abbreviation adj m := (adj m direction rel_types).

Definition expanded (m : gmap Z Relation) (s : T) (x : key) : T := foldl (meet x) s (edges m x).
Lemma expand_run m s x st : tbl (work st) = m → expand direction rel_types s x st = (inr (expanded m s x), st).
Proof. intros <-. reflexivity. Qed.
Lemma fold_expand_run m l s st :
  tbl (work st) = m → fold_each l s (expand direction rel_types) st = (inr (foldl (expanded m) s l), st).
Proof.
  intros Hm. revert s. induction l as [|x l IH]; intros s; [done|]. cbn [fold_each foldl]. unfold bind.
  rewrite (expand_run m) by done. apply IH.
Qed.

Lemma found_meets x s l k : k ∈ found (foldl (meet x) s l) ↔ k ∈ found s ∨ ∃ r, r ∈ l ∧ other_end x r = k.
Proof.
  revert s. induction l as [|r l IH]; intros s; cbn [foldl]; [set_solver|]. rewrite IH, found_meet. set_solver.
Qed.
Lemma nxt_meets x s l k :
  k ∈ nxt (foldl (meet x) s l) ↔ k ∈ nxt s ∨ (k ∉ found s ∧ ∃ r, r ∈ l ∧ other_end x r = k).
Proof.
  revert s. induction l as [|r l IH]; intros s; cbn [foldl]; [set_solver|]. rewrite IH, nxt_meet, found_meet.
  destruct (decide (k = other_end x r)); set_solver.
Qed.
Lemma found_level m s l k : k ∈ found (foldl (expanded m) s l) ↔ k ∈ found s ∨ ∃ x, x ∈ l ∧ adj m x k.
Proof.
  revert s. induction l as [|x l IH]; intros s; cbn [foldl]; [set_solver|].
  rewrite IH. unfold expanded at 1. rewrite found_meets. unfold Cmdb.adj. set_solver.
Qed.
Lemma nxt_level m s l k :
  (∀ k, k ∈ nxt s → k ∈ found s) →
  k ∈ nxt (foldl (expanded m) s l) ↔ k ∈ nxt s ∨ (k ∈ found (foldl (expanded m) s l) ∧ k ∉ found s).
Proof.
  revert s. induction l as [|x l IH]; intros s Hs; cbn [foldl]; [naive_solver|].
  pose proof (nxt_meets x s (edges m x)) as Hn. pose proof (found_meets x s (edges m x)) as Hf.
  rewrite IH; [|intros k'; unfold expanded; rewrite Hn, Hf; pose proof (Hs k'); tauto].
  rewrite found_level. change (expanded m s x) with (foldl (meet x) s (edges m x)). specialize (Hn k). specialize (Hf k). specialize (Hs k).
  destruct (decide (k ∈ found s)), (decide (k ∈ found (foldl (meet x) s (edges m x)))); tauto.
Qed.

(** The search has found what is within [i + depth] steps; it was cut off iff
    the last of the levels met something new. *)
Lemma levels_spec m root depth i s frontier st s' cut st' :
  tbl (work st) = m → after m direction rel_types root i (found s) frontier →
  levels direction rel_types depth s frontier st = (inr (s', cut), st') →
  st' = st ∧ (∀ k, k ∈ found s' ↔ within m direction rel_types root (i + depth) k) ∧
  (cut = true ↔ depth ≠ 0%nat ∧
     ∃ k, within m direction rel_types root (i + depth) k ∧ ¬ within m direction rel_types root (i + depth - 1) k).
Proof.
  intros Hm. revert i s frontier s' cut. induction depth as [|depth IH]; intros i s frontier s' cut Ha; cbn [levels].
  { intros [= <- <- <-]. rewrite Nat.add_0_r. split; [done|]. split; [apply Ha|]. naive_solver. }
  unfold bind at 1. rewrite (fold_expand_run m) by done. set (s1 := foldl _ _ _).
  assert (Hf : ∀ k, k ∈ found s1 ↔ k ∈ found s ∨ ∃ x, x ∈ frontier ∧ adj m x k)
    by (intros k; unfold s1; by rewrite found_level, found_clear).
  assert (Hn : ∀ k, k ∈ nxt s1 ↔ k ∈ found s1 ∧ k ∉ found s).
  { intros k. unfold s1. rewrite nxt_level by (intros k'; rewrite nxt_clear; intros []%elem_of_nil).
    rewrite nxt_clear, found_clear. set_solver. }
  pose proof (after_level _ _ _ _ _ _ _ _ _ Ha Hf Hn) as Ha1. case_bool_decide as E.
  - intros [= <- <- <-]. rewrite andb_false_r. rewrite E in Ha1.
    pose proof (after_end _ _ _ _ _ _ (i + S depth) Ha1 ltac:(lia)) as Hend. split; [done|]. split; [intros k; rewrite Hend; apply Ha1|].
    split; [done|]. intros (_ & k & Hk & Hnk). exfalso. apply Hnk. destruct depth as [|depth].
    + replace (i + 1 - 1)%nat with i by lia. apply Ha. apply Hend, Ha1 in Hk. destruct (decide (k ∈ found s)) as [|Hni]; [done|].
      assert (k ∈ nxt s1) as Hin by (by apply Hn). rewrite E in Hin. by apply elem_of_nil in Hin.
    + apply Hend in Hk. by apply (after_end _ _ _ _ _ _ (i + S (S depth) - 1) Ha1 ltac:(lia)).
  - unfold bind. destruct (levels direction rel_types depth s1 (nxt s1) st) as [[e|[s2 more]] st2] eqn:El; [done|].
    intros [= <- <- <-]. destruct (IH _ _ _ _ _ Ha1 El) as (-> & Hfound & Hmore).
    replace (S i + depth)%nat with (i + S depth)%nat in * by lia. split; [done|]. split; [done|].
    cbn [negb]. rewrite andb_true_r, orb_true_iff, bool_decide_eq_true. destruct depth as [|depth].
    + split; [intros _|by left]. split; [done|]. destruct (nxt s1) as [|k l] eqn:El1; [done|]. exists k.
      assert (k ∈ k :: l) as [Hk1 Hk2]%Hn by left. replace (i + 1)%nat with (S i) by lia. split; [by apply Ha1|].
      replace (S i - 1)%nat with i by lia. intros Hw. by apply Hk2, Ha.
    + rewrite Hmore. naive_solver.
Qed.
End levels.

Lemma levels_inv {T} `{Search T} (P : T → Prop) direction rel_types m depth s frontier st s' cut st' :
  tbl (work st) = m → (∀ s, P s → P (clear s)) →
  (∀ x s r, r ∈ edges_at m direction rel_types x → P s → P (meet x s r)) → P s →
  levels direction rel_types depth s frontier st = (inr (s', cut), st') → P s'.
Proof.
  intros Hm Hc Hmeet. revert s frontier cut. induction depth as [|depth IH]; intros s frontier cut Hs; cbn [levels]; [by intros [= <- _ _]|].
  unfold bind at 1. rewrite (fold_expand_run direction rel_types m) by done.
  assert (P (foldl (expanded direction rel_types m) (clear s) frontier)) as H1.
  { apply Hc in Hs. revert Hs. generalize (clear s). induction frontier as [|x l IHl]; intros t Ht; [done|]. cbn [foldl]. apply IHl.
    unfold expanded. assert (∀ r, r ∈ edges_at m direction rel_types x → r ∈ edges_at m direction rel_types x) as Hsub by done.
    revert Hsub Ht. generalize (edges_at m direction rel_types x) at 1 3. intros rs. revert t.
    induction rs as [|r rs IHr]; intros t Hsub Ht; [done|]. cbn [foldl]. apply IHr; [set_solver|]. apply Hmeet; [set_solver|done]. }
  case_bool_decide; [by intros [= <- _ _]|]. unfold bind.
  destruct (levels direction rel_types depth _ _ st) as [[e|[s2 more]] st2] eqn:El; [done|]. intros [= <- _ <-]. by eapply IH.
Qed.

(** What [_check_direction] and [_clamp_depth] let through. *)
Definition checked_direction (direction : option string) (d : string) : Prop := d = s_or direction "both" ∧ d ∈ _DIRECTIONS.
Definition checked_depth (depth : option Z) (n : nat) : Prop := Z.of_nat n = default 2 depth ∧ (n ≤ 3)%nat.
Lemma check_direction_inv direction s d s' : _check_direction direction s = (inr d, s') → s' = s ∧ checked_direction direction d.
Proof.
  unfold _check_direction. cbv zeta. destruct (str_in _ _) eqn:E; [|done]. intros [= <- <-]. split; [done|]. split; [done|]. by apply str_in_true.
Qed.
Lemma clamp_depth_inv depth s n s' : _clamp_depth depth s = (inr n, s') → s' = s ∧ checked_depth depth n.
Proof.
  unfold _clamp_depth, checked_depth, _DEPTH_MAX. destruct depth as [d|]; [|intros [= <- <-]; split_and!; [done|done|unfold _DEPTH_DEFAULT; lia]].
  destruct ((d <? 0) || (3 <? d)) eqn:E; [done|]. intros [= <- <-]. apply orb_false_iff in E as [E1%Z.ltb_ge E2%Z.ltb_ge].
  split; [done|]. cbn. split; lia.
Qed.
Lemma visible_scope_run user s : ∃ scope, _visible_scope user s = (inr scope, s).
Proof.
  unfold _visible_scope. destruct (is_admin user); [by eexists|]. unfold bind, visible_entity_ids. destruct (visible_group_ids user); by eexists.
Qed.
Lemma labels_run keys s : ∃ l, _labels keys s = (inr l, s).
Proof. unfold _labels. cbv zeta. destruct (omap _ keys), (omap _ keys); eexists; reflexivity. Qed.

(** ** Properties *)

#[local] Abbreviation relations := (tbl (R:=Relation)).
Definition found_by (s : St) (d : string) (rel_types : list string) (root : key) (n : nat) (k : key) : Prop :=
  within (relations (work s)) d rel_types root n k.
(** Level [n] of the search was the last and it met something new. *)
Definition cut_at (s : St) (d : string) (rel_types : list string) (root : key) (n : nat) : Prop :=
  n ≠ 0%nat ∧ ∃ k, found_by s d rel_types root n k ∧ ¬ found_by s d rel_types root (n - 1) k.

Lemma search_run {T} `{SearchLaws T} s d rel_types root n (t t' : T) cut s' :
  found t = [root] → levels d rel_types n t [root] s = (inr (t', cut), s') →
  s' = s ∧ (∀ k, k ∈ found t' ↔ found_by s d rel_types root n k) ∧ (cut = true ↔ cut_at s d rel_types root n).
Proof.
  intros Ht Hl. assert (after (relations (work s)) d rel_types root 0 (found t) [root]) as Ha by (rewrite Ht; apply after_root).
  destruct (levels_spec d rel_types _ root n 0 t [root] s t' cut s' eq_refl Ha Hl) as (-> & Hf & Hc). done.
Qed.

Definition impact_out (root : key) (labels : list (key * string)) (affected : list key) (truncated : bool) : json :=
  JObj [("root", affected_out labels root); ("affected", JArr (affected_out labels <$> affected));
        ("count", JInt (Z.of_nat (length affected))); ("truncated", JBool truncated)].
Definition impact_inv (root : key) (i : Impact) : Prop :=
  NoDup (root :: order i) ∧ ∀ k, k ∈ visited i ↔ k ∈ root :: order i.
Lemma impact_inv_meet root x i r : impact_inv root i → impact_inv root (meet x i r).
Proof.
  intros [Hd Hv]. cbn [meet impact_search]. unfold meet_impact. case_bool_decide as E; [by split|]. rewrite Hv in E. split; cbn [order visited].
  - rewrite app_comm_cons. apply NoDup_app. split; [done|]. split; [|apply NoDup_singleton].
    intros k Hk ->%list_elem_of_singleton. done.
  - intros k. rewrite app_comm_cons, elem_of_app, elem_of_cons, Hv, list_elem_of_singleton. tauto.
Qed.

(** C29: an impact analysis that returns has found exactly the entities within
    [depth] steps of the root, each once, and shows of them those the caller may
    see; it says it was cut off exactly if its last level met something new. *)
Theorem impact_spec user entity_type entity_id direction depth rel_types s j s' :
  impact user entity_type entity_id direction depth rel_types s = (inr j, s') →
  let root := (entity_type, entity_id) in
  s' = s ∧ ∃ d n scope labels affected truncated,
    checked_direction (Some (default "down" direction)) d ∧ checked_depth depth n ∧ _visible_scope user s = (inr scope, s) ∧
    _labels (affected ++ [root]) s = (inr labels, s) ∧ j = impact_out root labels affected truncated ∧ NoDup affected ∧
    (∀ k, k ∈ affected ↔ k ≠ root ∧ found_by s d rel_types root n k ∧ _entity_visible scope k = true) ∧
    (truncated = true ↔ cut_at s d rel_types root n).
Proof.
  intros H. cbv zeta. unfold impact, _require_feature, require_feature, is_feature_enabled, ConfigRuleRepository.by_key, require_perm in H.
  inv_run.
  destruct (check_direction_inv _ _ _ _ ltac:(eassumption)) as [-> Hd]. destruct (clamp_depth_inv _ _ _ _ ltac:(eassumption)) as [-> Hn].
  destruct (visible_scope_run user s1) as [scope Hs]. rewrite Hs in Hr3. injection Hr3 as <- <-.
  assert (impact_inv (entity_type, entity_id) i) as [Hdup Hv].
  { refine (levels_inv (impact_inv (entity_type, entity_id)) _ _ _ _ _ _ _ _ _ _ eq_refl _ _ _ Hr4).
    - intros t [? ?]. by split.
    - intros x t r _. apply impact_inv_meet.
    - split; [apply NoDup_singleton|done]. }
  apply search_run in Hr4 as (-> & Hf & Hc); [|reflexivity]. destruct (labels_run (filter (λ k, _entity_visible scope k = true) (order i) ++ [(entity_type, entity_id)]) s1) as [l Hl].
  rewrite Hl in Hr. injection Hr as <- <-. split; [done|].
  exists a1, a2, scope, l, (filter (λ k, _entity_visible scope k = true) (order i)), b. apply NoDup_cons in Hdup as [Hroot Hdup].
  split_and!; try done; [by apply NoDup_filter|]. intros k. rewrite list_elem_of_filter, <-Hf. cbn [found impact_search].
  rewrite Hv, elem_of_cons. split; [|naive_solver]. intros [Hvis Hk]. split_and!; [|by right|done]. by intros ->.
Qed.

Definition topology_out (labels : list (key * string)) (nodes : list (key * string)) (edges : list Relation) (truncated : bool) : json :=
  JObj [("nodes", JArr (node_out labels <$> nodes)); ("edges", JArr (edge_out <$> edges)); ("truncated", JBool truncated)].
Definition topology_inv (m : gmap Z Relation) (t : Topology) : Prop :=
  NoDup (node_role t).*1 ∧ ∀ r, r ∈ edge_map t → ∃ i, m !! i = Some r.
Lemma topology_inv_meet m d rel_types x t r :
  r ∈ edges_at m d rel_types x → topology_inv m t → topology_inv m (meet x t r).
Proof.
  intros Hr [Hd He]. cbn [meet topology_search]. unfold meet_topology. cbv zeta.
  set (edges := if existsb _ _ then _ else _). assert (∀ r', r' ∈ edges → ∃ i, m !! i = Some r') as Hedges.
  { unfold edges. destruct (existsb _ _); [done|]. intros r' [Hr'| ->%list_elem_of_singleton]%elem_of_app; [by apply He|].
    by apply elem_of_select_rows in Hr as [_ Hr]. }
  case_bool_decide as E; split; try done. cbn [node_role]. rewrite fmap_app. apply NoDup_app. split; [done|]. split; [|apply NoDup_singleton].
  intros k Hk ->%list_elem_of_singleton. done.
Qed.

(** C30: a topology that returns shows exactly the entities within [depth] steps of
    the root that the caller may see, each once, and only stored relations of
    which he may see both ends. *)
Theorem topology_spec user entity_type entity_id direction depth rel_types s j s' :
  topology user entity_type entity_id direction depth rel_types s = (inr j, s') →
  let root := (entity_type, entity_id) in
  s' = s ∧ ∃ d n scope labels nodes edges truncated,
    checked_direction direction d ∧ checked_depth depth n ∧ _visible_scope user s = (inr scope, s) ∧
    j = topology_out labels nodes edges truncated ∧ NoDup nodes.*1 ∧
    (∀ k, k ∈ nodes.*1 ↔ found_by s d rel_types root n k ∧ _entity_visible scope k = true) ∧
    (∀ r, r ∈ edges → both_visible scope r = true ∧ ∃ i, relations (work s) !! i = Some r) ∧
    (truncated = true ↔ cut_at s d rel_types root n).
Proof.
  intros H. cbv zeta. unfold topology, _require_feature, require_feature, is_feature_enabled, ConfigRuleRepository.by_key, require_perm in H.
  inv_run.
  destruct (check_direction_inv _ _ _ _ ltac:(eassumption)) as [-> Hd]. destruct (clamp_depth_inv _ _ _ _ ltac:(eassumption)) as [-> Hn].
  destruct (visible_scope_run user s1) as [scope Hs]. rewrite Hs in Hr3. injection Hr3 as <- <-.
  assert (topology_inv (relations (work s1)) t) as [Hdup He].
  { refine (levels_inv (topology_inv _) _ _ _ _ _ _ _ _ _ _ eq_refl _ _ _ Hr4).
    - intros t' [? ?]. by split.
    - intros x t' r. apply topology_inv_meet.
    - split; [apply NoDup_singleton|]. by intros r ?%elem_of_nil. }
  apply search_run in Hr4 as (-> & Hf & Hc); [|reflexivity].
  destruct (labels_run (filter (λ kr : key * string, _entity_visible scope kr.1 = true) (node_role t)).*1 s1) as [l Hl].
  rewrite Hl in Hr. injection Hr as <- <-. split; [done|].
  exists a1, a2, scope, l, (filter (λ kr, _entity_visible scope kr.1 = true) (node_role t)), (filter (λ r, both_visible scope r = true) (edge_map t)), b.
  split_and!; try done; [by apply NoDup_fmap_filter| |].
  - intros k. rewrite <-Hf. cbn [found topology_search]. rewrite !list_elem_of_fmap. split.
    + intros (kr & -> & [Hv Hin]%list_elem_of_filter). split; [by exists kr|done].
    + intros [(kr & -> & Hin) Hv]. exists kr. split; [done|]. by apply list_elem_of_filter.
  - intros r [Hv Hin]%list_elem_of_filter. split; [done|]. by apply He.
Qed.

Definition valid_relation (data : RelationCreate.RelationCreate) : Prop :=
  RelationCreate.src_type data ∈ ENTITY_TYPES ∧ RelationCreate.dst_type data ∈ ENTITY_TYPES ∧ RelationCreate.rel_type data ∈ REL_TYPES ∧
  (RelationCreate.src_type data, RelationCreate.src_id data) ≠ (RelationCreate.dst_type data, RelationCreate.dst_id data).
Lemma validate_create_spec data (Q : exn + () → St → Prop) s :
  (∀ m, Q (inl (ValidationError m)) s) → (valid_relation data → Q (inr ()) s) → wp (_validate_create data) Q s.
Proof.
  intros He HQ. unfold _validate_create. wp_run; try done. apply HQ. unfold valid_relation.
  repeat match goal with H : _ && _ = true |- _ => apply andb_true_iff in H as [? ?] end. rewrite !str_in_true in *.
  split_and!; try done. intros [= Ht Hi].
  match goal with H : negb _ = true |- _ => apply negb_true_iff in H; rewrite Ht, Hi, Z.eqb_refl, bool_decide_eq_true_2 in H by done end. done.
Qed.
Lemma conflict_same_edge (a b : Relation) i t : conflict (tbl_init i t a) b = true → same_edge a b = true.
Proof.
  cbn. unfold same_edge, skey, dkey. rewrite !andb_true_iff, !bool_decide_eq_true, !Z.eqb_eq. intros ((((-> & ->) & ->) & ->) & ->). done.
Qed.

(** C31: creating a relation that returns: it is a valid one between two entities
    the caller may see, and either it was stored already, which changes nothing,
    or it is the one row added. What is refused changes nothing committed, and no
    creation fails on the constraints of the table. *)
Theorem create_relation_spec user data s r s' :
  wf_table Relation s → create_relation user data s = (r, s') →
  match r with
  | inl e => committed s' = committed s ∧ ∀ c, e ≠ IntegrityError c
  | inr j =>
      valid_relation data ∧
      (∃ scope, _visible_scope user s = (inr scope, s) ∧ both_visible scope (new_relation user data) = true) ∧
      ∃ row, j = _relation_out row ∧ same_edge (new_relation user data) row = true ∧
        (s' = s ∧ (∃ i, relations (work s) !! i = Some row) ∨
         relations (work s) !! EntityRelation.id row = None ∧
         relations (committed s') = <[EntityRelation.id row := row]> (relations (work s)))
  end.
Proof.
  intros Hwf H. by_wp H. unfold create_relation, _require_feature.
  wp_step. apply wp_require_feature; [intros _|done]. wp_step. apply wp_require_perm; [intros _|done].
  wp_step. apply validate_create_spec; [done|intros Hvalid]. wp_step. destruct (visible_scope_run user s) as [scope Hs].
  unfold wp at 1. rewrite Hs. cbn [fst snd]. wp_step. wp_step; [|done]. wp_step. apply wp_db_find.
  destruct (select_rows _ _) as [|row l] eqn:El; cbn [head].
  - wp_step. refine (wp_db_add_fresh _ _ _ Hwf _ _ _).
    + intros i t. cbn. apply negb_true_iff. destruct Hvalid as (_ & _ & _ & Hne). apply andb_false_iff.
      destruct (decide (RelationCreate.src_type data = RelationCreate.dst_type data)) as [E|E]; [right|left; by apply bool_decide_eq_false_2].
      apply Z.eqb_neq. intros E'. apply Hne. by rewrite E, E'.
    + intros i t k x Hk. apply not_true_iff_false. intros Hc%conflict_same_edge.
      assert (x ∈ select_rows (same_edge (new_relation user data)) (relations (work s))) as Hin by (apply elem_of_select_rows; eauto).
      rewrite El in Hin. by apply elem_of_nil in Hin.
    + intros row s1 Hrow _ _ Ht Hnone. cbv beta iota. wp_run. split; [done|]. split; [by exists scope|]. exists row. split_and!; [done| |].
      * rewrite Hrow. unfold same_edge, skey, dkey. cbn. by rewrite !bool_decide_eq_true_2.
      * right. split; [exact Hnone|exact Ht].
  - assert (row ∈ select_rows (same_edge (new_relation user data)) (relations (work s))) as [He [i Hi]]%elem_of_select_rows
      by (rewrite El; left).
    wp_run. split; [done|]. split; [by exists scope|]. exists row. split_and!; try done. left. by eauto.
Qed.

(** ** Witnesses *)

(** Hosts 1 and 3 are in group 5, host 2 is in group 6; 1 depends on 2, which depends on 3. *)
Definition host_of (i : Z) (name : string) (group : Z) : Host.Host :=
  Host.mk i name "10.0.0.1" "linux" "" (Some group) "prod" JNull "normal" "online" "ssh" None "" None "" None 0.
Definition depends_on (i src dst : Z) : Relation := EntityRelation.mk i "host" src "host" dst "depends_on" JNull "" None 0.
Definition cmdb_st : St :=
  on_db (λ _, flags_on 1 ["feature.cmdb_topology"] empty_db
    <| hosts := {[1 := host_of 1 "web" 5; 2 := host_of 2 "db" 6; 3 := host_of 3 "disk" 5]} |>
    <| entity_relations := {[1 := depends_on 1 1 2; 2 := depends_on 2 2 3]} |>) init_st <| seqs := {["entity_relation" := 2]} |>.
Definition group5_user : CurrentUser := plain_user 9 ["asset:topo:view"; "asset:relation:add"] [5].

(** The user is shown the name of host 2, which he may not see, and that there is more. *)
Lemma impact_spec_witness :
  (impact group5_user "host" 1 None (Some 2) [] cmdb_st).1 =
    inr (impact_out ("host", 1) [(("host", 1), "web"); (("host", 3), "disk")] [("host", 3)] true) ∧
  ∃ labels, (impact group5_user "host" 2 None (Some 0) [] cmdb_st).1 = inr (impact_out ("host", 2) labels [] false) ∧
    label labels ("host", 2) = "db".
Proof.
  split; [vm_compute; reflexivity|]. set (run := impact group5_user "host" 2 None (Some 0) [] cmdb_st).
  assert (∃ j, run = (inr j, cmdb_st)) as [j Hj] by (eexists; unfold run; apply run_pair; vm_compute; reflexivity).
  destruct (impact_spec group5_user "host" 2 None (Some 0) [] cmdb_st j cmdb_st Hj)
    as (_ & d & n & scope & labels & affected & truncated & _ & [Hn _] & _ & Hl & -> & _ & Ha & Ht).
  exists labels. cbn in Hn. assert (n = 0%nat) as -> by lia.
  assert (affected = []) as ->.
  { destruct affected as [|k affected]; [done|]. destruct (proj1 (Ha k)) as (Hne & Hw & _); [left|]. by apply within_0 in Hw. }
  destruct truncated; [by destruct (proj1 Ht eq_refl) as [[] _]|]. split; [by rewrite Hj|].
  vm_compute in Hl. injection Hl as <-. reflexivity.
Defined.

Lemma topology_spec_witness :
  (topology group5_user "host" 1 (Some "down") None [] cmdb_st).1 =
    inr (topology_out [(("host", 1), "web"); (("host", 3), "disk")] [(("host", 1), "root"); (("host", 3), "down")] [] true) ∧
  ∃ nodes : list (key * string), NoDup nodes.*1.
Proof.
  split; [vm_compute; reflexivity|]. set (run := topology group5_user "host" 1 (Some "down") None [] cmdb_st).
  assert (∃ j, run = (inr j, cmdb_st)) as [j Hj] by (eexists; unfold run; apply run_pair; vm_compute; reflexivity).
  destruct (topology_spec group5_user "host" 1 (Some "down") None [] cmdb_st j cmdb_st Hj)
    as (_ & d & n & scope & labels & nodes & edges & truncated & _ & _ & _ & _ & Hd & _).
  by exists nodes.
Defined.

Definition new_edge (src dst : Z) : RelationCreate.RelationCreate :=
  RelationCreate.mk "host" src "host" dst "connects_to" JNull "".
Lemma create_relation_spec_witness :
  (create_relation group5_user (new_edge 1 2) cmdb_st).1 = inl not_visible ∧
  ∃ row, relations (committed (create_relation group5_user (new_edge 1 3) cmdb_st).2) !! EntityRelation.id row = Some row ∧
    same_edge (new_relation group5_user (new_edge 1 3)) row = true.
Proof.
  split; [vm_compute; reflexivity|]. set (run := create_relation group5_user (new_edge 1 3) cmdb_st).
  assert (∃ j s', run = (inr j, s')) as (j & s' & Hj) by (do 2 eexists; unfold run; apply run_pair; vm_compute; reflexivity).
  destruct (create_relation_spec group5_user (new_edge 1 3) cmdb_st (inr j) s') as (_ & _ & row & -> & He & Hrow).
  - apply wf_tableb_spec. vm_compute. reflexivity.
  - exact Hj.
  - exists row. split; [|exact He]. rewrite Hj. cbn [snd]. destruct Hrow as [(-> & i & Hi)|(_ & ->)]; [|apply lookup_insert_eq].
    exfalso. assert ((fst <$> map_to_list (filter (λ kv, same_edge (new_relation group5_user (new_edge 1 3)) kv.2 = true)
      (relations (work cmdb_st)))) = []) as Hnone by (vm_compute; reflexivity).
    apply fmap_nil_inv, map_to_list_empty_iff in Hnone. eapply map_filter_empty_not_lookup in Hnone; [|exact He]. by apply Hnone.
Defined.
