(* ===== verification/Approval.v ===== *)
(** * Approvals: [services/approval_service.py]

    A request is decided once, by compare-and-swap on its status and version,
    and the decision is carried over to what it is about: an exec task is
    dispatched or cancelled, a terminal session opened or closed. *)

From S2P Require Import Prelude.
From S2P Require Import Models.
From S2P Require Import Session.
From S2P Require Import Repositories.
From S2P Require Import Access.
From S2P Require Import Terminal.

(** [str(int(n)).zfill(4)] of the sequence [seq_approval_no]. *)
Definition _approval_no : Op string :=
  d ← gets today; n ← nextval "seq_approval_no";
  ret ("AP-" +:+ date_prefix d +:+ "-" +:+ zpad 4 n).

Definition _approval_out (a : ApprovalRequest.ApprovalRequest) : list (string * json) := [
  ("id", JInt (ApprovalRequest.id a)); ("request_no", JStr (ApprovalRequest.request_no a));
  ("biz_type", JStr (ApprovalRequest.biz_type a)); ("biz_id", JInt (ApprovalRequest.biz_id a));
  ("title", JStr (ApprovalRequest.title a)); ("reason", JStr (ApprovalRequest.reason a));
  ("requester_id", JInt (ApprovalRequest.requester_id a));
  ("sensitive_hit", JStr (ApprovalRequest.sensitive_hit a));
  ("status", JStr (ApprovalRequest.status a)); ("approver_id", jz (ApprovalRequest.approver_id a));
  ("decided_at", jtime (ApprovalRequest.decided_at a));
  ("created_at", jtime (Some (ApprovalRequest.created_at a)));
  ("version", JInt (ApprovalRequest.version a))].

Definition list_approvals (user : CurrentUser) (status biz_type : option string) (mine todo : bool)
    (page size : Z) : Op json :=
  '(rows, total) ← ApprovalRepository.search
    (ApprovalRepository.mkFilters status biz_type (if mine then Some (user_id user) else None) todo)
    page size;
  ret (JObj [("list", JArr ((λ a, JObj (_approval_out a)) <$> rows)); ("total", JInt total);
             ("page", JInt page); ("size", JInt size)]).

Definition detail (approval_id : Z) : Op json :=
  o ← db_get approval_id;
  a ← some_or o (NotFoundError "approval not found");
  timeline ← ApprovalRecordRepository.timeline approval_id;
  ret (JObj (_approval_out a ++ [("timeline", JArr ((λ r, JObj [
    ("action", JStr (ApprovalRecord.action r)); ("operator_id", JInt (ApprovalRecord.operator_id r));
    ("comment", JStr (ApprovalRecord.comment r));
    ("created_at", jtime (Some (ApprovalRecord.created_at r)))]) <$> timeline))])).

Definition _require_pending (approval_id : Z) : Op ApprovalRequest.ApprovalRequest :=
  o ← db_get approval_id;
  a ← some_or o (NotFoundError "approval not found");
  guard_or (bool_decide (ApprovalRequest.status a = "pending"))
    (ConflictError "approval already decided");;
  ret a.

Definition _KNOWN_BIZ_TYPES : list string := ["exec"; "terminal"; "workflow"].
Definition _assert_biz_type (a : ApprovalRequest.ApprovalRequest) : Op () :=
  guard_or (str_in (ApprovalRequest.biz_type a) _KNOWN_BIZ_TYPES)
    (NotFoundError ("unknown approval biz_type " +:+ ApprovalRequest.biz_type a)).

Definition concurrent_approval : exn := ConflictError "approval modified concurrently, refresh and retry".

(** The compare-and-swap of a decision, the columns it stamps (the version the
    handler read, plus one) and its audit record. *)
Definition decide_request (a : ApprovalRequest.ApprovalRequest) (status : string)
    (approver : option Z) (action : string) (operator : Z) (comment : string) : Op () :=
  won ← ApprovalRepository.optimistic_update (ApprovalRequest.id a) "pending" status
          (ApprovalRequest.version a);
  guard_or won concurrent_approval;;
  n ← utc_now;
  db_upd (ApprovalRequest.id a) (λ r,
    r <| ApprovalRequest.version := ApprovalRequest.version a + 1 |>
      <| ApprovalRequest.approver_id := match approver with Some u => Some u
                                        | None => ApprovalRequest.approver_id r end |>
      <| ApprovalRequest.decided_at := Some n |>);;
  _ ← db_add (ApprovalRecord.mk 0 (ApprovalRequest.id a) action operator comment 0);
  ret ().

(** [except (NotFoundError, ConflictError): db.rollback(); raise] *)
Definition rollback_on_linkage_error (m : Op ()) : Op () :=
  try_catch m (λ e, match e with
    | AppExc CNotFound _ _ | AppExc CConflict _ _ => db_rollback;; raise e
    | _ => raise e
    end).

Definition decided_out (a : ApprovalRequest.ApprovalRequest) (status : string) : json :=
  JObj [("id", JInt (ApprovalRequest.id a)); ("status", JStr status)].

Section approval.
(** The message broker accepts [exec_dispatch.delay]. *)
Variable broker_up : bool.

(** [exec_dispatch.delay(task.id)] *)
Definition exec_dispatch_delay (task_id : Z) : Op () :=
  if broker_up then emit_out (EDelay "exec_dispatch" task_id)
  else raise (OtherError "OperationalError").

Definition _approve_exec (a : ApprovalRequest.ApprovalRequest) : Op () :=
  o ← db_get (ApprovalRequest.biz_id a);
  task ← some_or o (NotFoundError "linked exec task not found");
  won ← ExecTaskRepository.optimistic_update (ExecTask.id task) "awaiting_approval" "running"
          (ExecTask.version task);
  guard_or won (ConflictError "exec task state changed concurrently");;
  n ← utc_now;
  db_upd (ExecTask.id task) (λ t, t <| ExecTask.version := ExecTask.version task + 1 |>
                                    <| ExecTask.started_at := Some n |>);;
  try_catch (exec_dispatch_delay (ExecTask.id task)) (λ _, ret ()).

Definition _approve_linkages (a : ApprovalRequest.ApprovalRequest) : Op () :=
  if bool_decide (ApprovalRequest.biz_type a = "terminal") then activate_on_approval a
  else if bool_decide (ApprovalRequest.biz_type a = "workflow") then ret ()
  else if bool_decide (ApprovalRequest.biz_type a = "exec") then _approve_exec a
  else raise (NotFoundError ("approval biz_type " +:+ ApprovalRequest.biz_type a
                             +:+ " has no approve linkage")).

Definition approve (user : CurrentUser) (approval_id : Z) (comment : string) : Op json :=
  require_perm user "approval:approve";;
  a ← _require_pending approval_id;
  _assert_biz_type a;;
  decide_request a "approved" (Some (user_id user)) "approve" (user_id user) comment;;
  rollback_on_linkage_error (_approve_linkages a);;
  db_commit;;
  ret (decided_out a "approved").

(** An awaiting task is cancelled; a lost race is not an error. *)
Definition cancel_awaiting_task (task_id : Z) : Op () :=
  o ← db_get task_id;
  match o with
  | Some task =>
      when (bool_decide (ExecTask.status task = "awaiting_approval"))
        (won ← ExecTaskRepository.optimistic_update (ExecTask.id task) "awaiting_approval" "canceled"
                 (ExecTask.version task);
         when won
           (n ← utc_now;
            db_upd (ExecTask.id task) (λ t, t <| ExecTask.version := ExecTask.version task + 1 |>
                                              <| ExecTask.finished_at := Some n |>)))
  | None => ret ()
  end.

Definition reject (user : CurrentUser) (approval_id : Z) (comment : string) : Op json :=
  require_perm user "approval:approve";;
  a ← _require_pending approval_id;
  _assert_biz_type a;;
  decide_request a "rejected" (Some (user_id user)) "reject" (user_id user) comment;;
  when (bool_decide (ApprovalRequest.biz_type a = "exec"))
    (cancel_awaiting_task (ApprovalRequest.biz_id a));;
  db_commit;;
  ret (decided_out a "rejected").

Definition _cancel_linkages (a : ApprovalRequest.ApprovalRequest) : Op () :=
  if bool_decide (ApprovalRequest.biz_type a = "terminal") then close_on_cancel a
  else when (bool_decide (ApprovalRequest.biz_type a = "exec"))
         (cancel_awaiting_task (ApprovalRequest.biz_id a)).

Definition cancel (user : CurrentUser) (approval_id : Z) : Op json :=
  a ← _require_pending approval_id;
  _assert_biz_type a;;
  guard_or (negb (negb (ApprovalRequest.requester_id a =? user_id user) && negb (is_admin user)))
    (ForbiddenError "only requester can cancel");;
  decide_request a "canceled" None "cancel" (user_id user) "requester cancel";;
  rollback_on_linkage_error (_cancel_linkages a);;
  db_commit;;
  ret (decided_out a "canceled").

(** ** Rules *)

Definition rule_out (r : ApprovalRule.ApprovalRule) : json := JObj [
  ("id", JInt (ApprovalRule.id r)); ("name", JStr (ApprovalRule.name r));
  ("kind", JStr (ApprovalRule.kind r)); ("value", ApprovalRule.value r);
  ("enabled", JInt (ApprovalRule.enabled r)); ("created_at", jtime (Some (ApprovalRule.created_at r)))].
Definition list_rules : Op json :=
  on ← ApprovalRuleRepository.enabled;
  l ← match on with [] => db_select (λ _ : ApprovalRule.ApprovalRule, true) | _ => ret on end;
  ret (JArr (rule_out <$> l)).
Definition create_rule (name kind : string) (value : json) (enabled : Z) : Op Z :=
  guard_or (str_in kind ["keyword"; "count"]) (BadRequestError "invalid rule kind");;
  rule ← db_add (ApprovalRule.mk 0 name kind value "create" enabled 0);
  db_commit;;
  ret (ApprovalRule.id rule).
Definition update_rule (rule_id : Z) (name : option string) (value : option json)
    (enabled : option Z) : Op () :=
  o ← db_get rule_id;
  rule ← some_or o (NotFoundError "rule not found");
  db_upd (ApprovalRule.id rule) (λ r,
    r <| ApprovalRule.name := default (ApprovalRule.name r) name |>
      <| ApprovalRule.value := default (ApprovalRule.value r) value |>
      <| ApprovalRule.enabled := default (ApprovalRule.enabled r) enabled |>);;
  db_commit.
Definition delete_rule (rule_id : Z) : Op () :=
  o ← db_get (R:=ApprovalRule.ApprovalRule) rule_id;
  rule ← some_or o (NotFoundError "rule not found");
  db_delete (R:=ApprovalRule.ApprovalRule) (ApprovalRule.id rule);;
  db_commit.
(** ** Requests *)

Inductive approval_request :=
  | AList (user : CurrentUser) (status biz_type : option string) (mine todo : bool) (page size : Z)
  | ADetail (user : CurrentUser) (i : Z)
  | AApprove (user : CurrentUser) (i : Z) (comment : string)
  | AReject (user : CurrentUser) (i : Z) (comment : string)
  | ACancel (user : CurrentUser) (i : Z).

Definition approval_handle (r : approval_request) : Op json :=
  match r with
  | AList u st ty mine todo p n =>
      require_perm u "approval:list";; list_approvals u st ty mine todo p n
  | ADetail u i => require_perm u "approval:list";; detail i
  | AApprove u i c => approve u i c
  | AReject u i c => reject u i c
  | ACancel u i => cancel u i
  end.

(** ** A decision *)

(** The row of a decided request. *)
Definition decided (status : string) (approver : option Z) (at_ : Z)
    (a : ApprovalRequest.ApprovalRequest) : ApprovalRequest.ApprovalRequest :=
  a <| ApprovalRequest.status := status |>
    <| ApprovalRequest.version := ApprovalRequest.version a + 1 |>
    <| ApprovalRequest.approver_id := match approver with Some u => Some u
                                      | None => ApprovalRequest.approver_id a end |>
    <| ApprovalRequest.decided_at := Some at_ |>.

(** [d] is [d0] with request [a] decided and the decision on record. *)
Definition decision (a : ApprovalRequest.ApprovalRequest) (status action comment : string)
    (approver : option Z) (operator at_ : Z) (d0 d : Db) : Prop :=
  tbl d = <[ApprovalRequest.id a := decided status approver at_ a]> (tbl d0) ∧
  ∃ n r, tbl d0 !! n = None (A:=ApprovalRecord.ApprovalRecord) ∧ tbl d = <[n := r]> (tbl d0) ∧
    ApprovalRecord.approval_id r = ApprovalRequest.id a ∧ ApprovalRecord.action r = action ∧
    ApprovalRecord.operator_id r = operator ∧ ApprovalRecord.comment r = comment.

Lemma wp_decide_request a status approver action operator comment (Q : exn + () → St → Prop) s :
  tbl (work s) !! ApprovalRequest.id a = Some a → ApprovalRequest.status a = "pending" →
  (∀ e s1, committed s1 = committed s → out s1 = out s → Q (inl e) s1) →
  (∀ s1, committed s1 = committed s → out s1 = out s → now s1 = now s →
     decision a status action comment approver operator (now s) (work s) (work s1) →
     tbl (work s1) = tbl (R:=TerminalSession.TerminalSession) (work s) →
     tbl (work s1) = tbl (R:=ExecTask.ExecTask) (work s) → Q (inr ()) s1) →
  wp (decide_request a status approver action operator comment) Q s.
Proof.
  intros Hi Hst Herr Hok.
  unfold decide_request, ApprovalRepository.optimistic_update. wp_run; try by apply Herr.
  all: rows_simpl; simplify_eq.
  match goal with Ha : accepts (R:=ApprovalRecord.ApprovalRecord) _ _ _ = true |- _ =>
    pose proof (accepts_none _ _ _ Ha) as Hn end.
  apply Hok; rows_simpl; try done. unfold decision. rows_simpl. rewrite insert_insert_eq.
  split; [done|]. eexists _, _. split; [exact Hn|]. by split.
Qed.

(** What approving [a] does besides the decision. *)
Definition activated (a : ApprovalRequest.ApprovalRequest) (at_ : Z)
    (m : gmap Z TerminalSession.TerminalSession) : gmap Z TerminalSession.TerminalSession :=
  match m !! ApprovalRequest.biz_id a with
  | Some t =>
      if bool_decide (TerminalSession.status t = "awaiting_approval")
      then <[ApprovalRequest.biz_id a :=
               t <| TerminalSession.status := "open" |> <| TerminalSession.started_at := Some at_ |>]> m
      else m
  | None => m
  end.

Definition dispatched (t : ExecTask.ExecTask) (at_ : Z) : ExecTask.ExecTask :=
  t <| ExecTask.status := "running" |> <| ExecTask.version := ExecTask.version t + 1 |>
    <| ExecTask.started_at := Some at_ |>.

(** The state [activate_on_approval] leaves: it commits on its own. *)
Definition activate_state (a : ApprovalRequest.ApprovalRequest) (s : St) : St :=
  match tbl (work s) !! ApprovalRequest.biz_id a with
  | Some t =>
      if bool_decide (TerminalSession.status t = "awaiting_approval") then
        let s' := put_row (ApprovalRequest.biz_id a)
          (t <| TerminalSession.status := "open" |> <| TerminalSession.started_at := Some (now s) |>) s in
        s' <| committed := work s' |>
      else s
  | None => s
  end.

Definition dispatch_frames (task_id : Z) : list Effect :=
  if broker_up then [EDelay "exec_dispatch" task_id] else [].

Definition approved_effect (a : ApprovalRequest.ApprovalRequest) (s s1 : St) : Prop :=
  let sessions := tbl (R:=TerminalSession.TerminalSession) in
  let tasks := tbl (R:=ExecTask.ExecTask) in
  if bool_decide (ApprovalRequest.biz_type a = "terminal") then
    sessions (committed s1) = activated a (now s) (sessions (work s)) ∧
    tasks (committed s1) = tasks (work s) ∧ out s1 = out s
  else if bool_decide (ApprovalRequest.biz_type a = "workflow") then
    sessions (committed s1) = sessions (work s) ∧ tasks (committed s1) = tasks (work s) ∧ out s1 = out s
  else
    ApprovalRequest.biz_type a = "exec" ∧
    sessions (committed s1) = sessions (work s) ∧
    ∃ t, tasks (work s) !! ApprovalRequest.biz_id a = Some t ∧
      ExecTask.status t = "awaiting_approval" ∧
      tasks (committed s1) = <[ApprovalRequest.biz_id a := dispatched t (now s)]> (tasks (work s)) ∧
      out s1 = out s ++ dispatch_frames (ApprovalRequest.biz_id a).

Lemma decision_ext a status action comment approver operator at_ d0 d d' :
  tbl (R:=ApprovalRequest.ApprovalRequest) d' = tbl d → tbl (R:=ApprovalRecord.ApprovalRecord) d' = tbl d →
  decision a status action comment approver operator at_ d0 d →
  decision a status action comment approver operator at_ d0 d'.
Proof. unfold decision. by intros -> ->. Qed.

Lemma activate_frame a s :
  let s' := activate_state a s in
  tbl (R:=ApprovalRequest.ApprovalRequest) (work s') = tbl (work s) ∧
  tbl (R:=ApprovalRecord.ApprovalRecord) (work s') = tbl (work s) ∧
  tbl (R:=ExecTask.ExecTask) (work s') = tbl (work s) ∧
  tbl (work s') = activated a (now s) (tbl (work s)) ∧ out s' = out s.
Proof.
  unfold activate_state, activated. destruct (tbl _ !! _) as [t|]; [|done].
  destruct (bool_decide _); [|done]. cbv zeta. by rows_simpl.
Qed.

(** The tasks after cancelling an awaiting one, and the sessions likewise. *)
Definition task_canceled (i at_ : Z) (m : gmap Z ExecTask.ExecTask) : gmap Z ExecTask.ExecTask :=
  match m !! i with
  | Some t =>
      if bool_decide (ExecTask.status t = "awaiting_approval")
      then <[i := t <| ExecTask.status := "canceled" |> <| ExecTask.version := ExecTask.version t + 1 |>
                    <| ExecTask.finished_at := Some at_ |>]> m
      else m
  | None => m
  end.
Definition session_canceled (i at_ : Z) (m : gmap Z TerminalSession.TerminalSession)
    : gmap Z TerminalSession.TerminalSession :=
  match m !! i with
  | Some t =>
      if bool_decide (TerminalSession.status t = "awaiting_approval")
      then <[i := close_row "canceled_before_approval" at_ t]> m
      else m
  | None => m
  end.

Section decisions.
Context (s : St).
Hypothesis wf_a : wf_table ApprovalRequest.ApprovalRequest s.
Hypothesis wf_t : wf_table TerminalSession.TerminalSession s.
Hypothesis wf_e : wf_table ExecTask.ExecTask s.

Lemma wp_require_pending i (Q : exn + ApprovalRequest.ApprovalRequest → St → Prop) :
  (∀ e, Q (inl e) s) →
  (∀ a, tbl (work s) !! i = Some a → ApprovalRequest.id a = i →
     ApprovalRequest.status a = "pending" → Q (inr a) s) →
  wp (_require_pending i) Q s.
Proof.
  intros Herr Hok. unfold _require_pending. wp_run; auto.
  apply Hok; [done| |by eapply bool_decide_eq_true_1]. destruct wf_a as [Hw _]. by apply (wf_id Hw i).
Qed.

Lemma activate_run a s1 :
  ApprovalRequest.biz_type a = "terminal" →
  (∀ t, tbl (work s1) !! ApprovalRequest.biz_id a = Some t → TerminalSession.id t = ApprovalRequest.biz_id a) →
  activate_on_approval a s1 = (inr (), activate_state a s1).
Proof.
  intros Hb Hid. unfold activate_on_approval, activate_state. rewrite bool_decide_eq_true_2 by done.
  cbn [negb]. erewrite bind_inr by reflexivity.
  destruct (tbl (work s1) !! ApprovalRequest.biz_id a) as [t|] eqn:E; [|done].
  specialize (Hid t eq_refl). unfold when.
  destruct (bool_decide (TerminalSession.status t = "awaiting_approval")); [|done].
  erewrite bind_inr by reflexivity. erewrite bind_inr by reflexivity.
  unfold db_upd, modify, db_commit. by rewrite Hid, E.
Qed.

Lemma wp_approve_exec a (Q : exn + () → St → Prop) s1 :
  (∀ t, tbl (work s1) !! ApprovalRequest.biz_id a = Some t → ExecTask.id t = ApprovalRequest.biz_id a) →
  (∀ e s2, committed s2 = committed s1 → out s2 = out s1 → Q (inl e) s2) →
  (∀ t, tbl (work s1) !! ApprovalRequest.biz_id a = Some t → ExecTask.status t = "awaiting_approval" →
     ∀ s2, work s2 = work (put_row (ApprovalRequest.biz_id a) (dispatched t (now s1)) s1) →
       committed s2 = committed s1 → out s2 = out s1 ++ dispatch_frames (ApprovalRequest.biz_id a) →
       Q (inr ()) s2) →
  wp (_approve_exec a) Q s1.
Proof.
  intros Hid Herr Hok. unfold _approve_exec, ExecTaskRepository.optimistic_update, exec_dispatch_delay,
    dispatch_frames in *.
  wp_run; try by apply Herr.
  all: try discriminate.
  all: match goal with H : tbl _ !! ApprovalRequest.biz_id _ = Some ?t |- _ =>
         rewrite (Hid t H) in *; specialize (Hok t H) end.
  all: rows_simpl; simplify_eq; rewrite ?put_row_twice.
  all: match goal with H : _ && _ = true |- _ => apply andb_true_iff in H as [Hst%bool_decide_eq_true _] end.
  all: apply Hok; rewrite ?app_nil_r; done.
Qed.

Lemma wp_approve user i comment (Q : exn + json → St → Prop) :
  (∀ e s1, committed s1 = committed s → out s1 = out s → Q (inl e) s1) →
  (∀ a j s1, has_perm user "approval:approve" = true →
     tbl (work s) !! i = Some a → ApprovalRequest.id a = i → ApprovalRequest.status a = "pending" →
     decision a "approved" "approve" comment (Some (user_id user)) (user_id user) (now s)
       (work s) (committed s1) →
     approved_effect a s s1 → Q (inr j) s1) →
  wp (approve user i comment) Q s.
Proof.
  intros Herr Hok. unfold approve, _assert_biz_type.
  wp_step. wp_step; [|by apply Herr]. wp_step. apply wp_require_pending; [by intros; apply Herr|].
  intros a Ha Hid Hp. do 2 wp_step; [|by apply Herr]. wp_step.
  apply wp_decide_request; [by rewrite Hid|done|by intros; apply Herr|].
  intros s1 Hc Ho Hn Hd Ht He. unfold rollback_on_linkage_error, _approve_linkages.
  wp_step. wp_step. specialize (Hok a). unfold approved_effect in Hok.
  case_bool_decide as Hbt; [|case_bool_decide as Hbw; [|case_bool_decide as Hbe]].
  - eapply wp_of_run; [apply activate_run; [done|]|].
    { intros t. rewrite Ht. destruct wf_t as [Hw _]. apply (wf_id Hw). }
    destruct (activate_frame a s1) as (F1 & F2 & F3 & F4 & F5). wp_run. apply Hok; rows_simpl; try done.
    + by eapply decision_ext.
    + rewrite F4, Hn, Ht. split_and!; congruence.
  - wp_run. by apply Hok.
  - apply wp_approve_exec.
    { intros t. rewrite He. destruct wf_e as [Hw _]. apply (wf_id Hw). }
    { intros e s2 E1 E2. destruct e as [[]| | | | |]; wp_run; apply Herr; rows_simpl; congruence. }
    intros t Ht' Hst s2 Ew Ec Eo. wp_run. rewrite He in Ht'. apply Hok; rows_simpl; rewrite ?Ew; try done.
    rows_simpl. split_and!; [done..|]. exists t. rewrite He, Hn, Eo, Ho. done.
  - exfalso. apply str_in_true in H0. unfold _KNOWN_BIZ_TYPES in H0.
    rewrite !elem_of_cons, elem_of_nil in H0. tauto.
Qed.

Lemma wp_cancel_awaiting i (Q : exn + () → St → Prop) s1 :
  (∀ t, tbl (work s1) !! i = Some t → ExecTask.id t = i) →
  (∀ s2, committed s2 = committed s1 → out s2 = out s1 →
     tbl (work s2) = task_canceled i (now s1) (tbl (work s1)) →
     tbl (work s2) = tbl (R:=ApprovalRequest.ApprovalRequest) (work s1) →
     tbl (work s2) = tbl (R:=ApprovalRecord.ApprovalRecord) (work s1) →
     tbl (work s2) = tbl (R:=TerminalSession.TerminalSession) (work s1) → Q (inr ()) s2) →
  wp (cancel_awaiting_task i) Q s1.
Proof.
  intros Hid Hok. unfold cancel_awaiting_task, ExecTaskRepository.optimistic_update, task_canceled in *.
  wp_run; try discriminate.
  1-4: match goal with H : bool_decide _ = _ |- _ => rewrite H in * end.
  1-3: rewrite (Hid _ eq_refl) in *.
  - rows_simpl; simplify_eq; rewrite ?put_row_twice. apply Hok; by rows_simpl.
  - rows_simpl. congruence.
  - match goal with H : ∀ r, _ → _ = false |- _ => specialize (H e Heqo) end.
    by rewrite H, Z.eqb_refl in *.
  - by apply Hok.
  - by apply Hok.
Qed.

Lemma wp_reject user i comment (Q : exn + json → St → Prop) :
  (∀ e s1, committed s1 = committed s → out s1 = out s → Q (inl e) s1) →
  (∀ a j s1, has_perm user "approval:approve" = true →
     tbl (work s) !! i = Some a → ApprovalRequest.id a = i → ApprovalRequest.status a = "pending" →
     decision a "rejected" "reject" comment (Some (user_id user)) (user_id user) (now s)
       (work s) (committed s1) →
     tbl (committed s1) = tbl (R:=TerminalSession.TerminalSession) (work s) →
     tbl (committed s1) = (if bool_decide (ApprovalRequest.biz_type a = "exec")
       then task_canceled (ApprovalRequest.biz_id a) (now s) (tbl (work s)) else tbl (work s)) →
     out s1 = out s → Q (inr j) s1) →
  wp (reject user i comment) Q s.
Proof.
  intros Herr Hok. unfold reject, _assert_biz_type.
  wp_step. wp_step; [|by apply Herr]. wp_step. apply wp_require_pending; [by intros; apply Herr|].
  intros a Ha Hid Hp. do 2 wp_step; [|by apply Herr]. wp_step.
  apply wp_decide_request; [by rewrite Hid|done|by intros; apply Herr|].
  intros s1 Hc Ho Hn Hd Ht He. specialize (Hok a). wp_step. wp_step.
  - apply wp_cancel_awaiting.
    { intros t. rewrite He. destruct wf_e as [Hw _]. apply (wf_id Hw). }
    intros s2 E1 E2 E3 E4 E5 E6. wp_run. apply Hok; rows_simpl; try done; try congruence.
    + by eapply decision_ext.
    + match goal with H : bool_decide _ = true |- _ => rewrite H end. congruence.
  - wp_run. apply Hok; rows_simpl; try done.
    match goal with H : bool_decide _ = false |- _ => rewrite H end. done.
Qed.

Definition cancel_state (a : ApprovalRequest.ApprovalRequest) (s : St) : St :=
  match tbl (work s) !! ApprovalRequest.biz_id a with
  | Some t =>
      if bool_decide (TerminalSession.status t = "awaiting_approval") then
        let s' := put_row (ApprovalRequest.biz_id a) (close_row "canceled_before_approval" (now s) t) s in
        s' <| committed := work s' |>
      else s
  | None => s
  end.

Lemma close_on_cancel_run a s1 :
  ApprovalRequest.biz_type a = "terminal" →
  (∀ t, tbl (work s1) !! ApprovalRequest.biz_id a = Some t → TerminalSession.id t = ApprovalRequest.biz_id a) →
  close_on_cancel a s1 = (inr (), cancel_state a s1).
Proof.
  intros Hb Hid. unfold close_on_cancel, cancel_state. rewrite bool_decide_eq_true_2 by done.
  cbn [negb]. erewrite bind_inr by reflexivity.
  destruct (tbl (work s1) !! ApprovalRequest.biz_id a) as [t|] eqn:E; [|done].
  specialize (Hid t eq_refl). unfold when.
  destruct (bool_decide (TerminalSession.status t = "awaiting_approval")); [|done].
  erewrite bind_inr by reflexivity. erewrite bind_inr by reflexivity.
  unfold db_upd, modify, db_commit. by rewrite Hid, E.
Qed.

Lemma cancel_frame a s1 :
  let s' := cancel_state a s1 in
  tbl (R:=ApprovalRequest.ApprovalRequest) (work s') = tbl (work s1) ∧
  tbl (R:=ApprovalRecord.ApprovalRecord) (work s') = tbl (work s1) ∧
  tbl (R:=ExecTask.ExecTask) (work s') = tbl (work s1) ∧
  tbl (work s') = session_canceled (ApprovalRequest.biz_id a) (now s1) (tbl (work s1)) ∧ out s' = out s1.
Proof.
  unfold cancel_state, session_canceled. destruct (tbl _ !! _) as [t|]; [|done].
  destruct (bool_decide _); [|done]. cbv zeta. by rows_simpl.
Qed.

Lemma wp_cancel user i (Q : exn + json → St → Prop) :
  (∀ e s1, committed s1 = committed s → out s1 = out s → Q (inl e) s1) →
  (∀ a j s1, (ApprovalRequest.requester_id a = user_id user ∨ is_admin user = true) →
     tbl (work s) !! i = Some a → ApprovalRequest.id a = i → ApprovalRequest.status a = "pending" →
     decision a "canceled" "cancel" "requester cancel" None (user_id user) (now s)
       (work s) (committed s1) →
     tbl (committed s1) = (if bool_decide (ApprovalRequest.biz_type a = "terminal")
       then session_canceled (ApprovalRequest.biz_id a) (now s) (tbl (work s)) else tbl (work s)) →
     tbl (committed s1) = (if bool_decide (ApprovalRequest.biz_type a = "exec")
       then task_canceled (ApprovalRequest.biz_id a) (now s) (tbl (work s)) else tbl (work s)) →
     out s1 = out s → Q (inr j) s1) →
  wp (cancel user i) Q s.
Proof.
  intros Herr Hok. unfold cancel, _assert_biz_type.
  wp_step. apply wp_require_pending; [by intros; apply Herr|].
  intros a Ha Hid Hp. do 2 wp_step; [|by apply Herr]. do 2 wp_step; [|by apply Herr]. wp_step.
  apply wp_decide_request; [by rewrite Hid|done|by intros; apply Herr|].
  intros s1 Hc Ho Hn Hd Ht He. unfold rollback_on_linkage_error, _cancel_linkages.
  assert (ApprovalRequest.requester_id a = user_id user ∨ is_admin user = true) as Hreq
    by (destruct (is_admin user); [by right|left; destruct (Z.eqb_spec (ApprovalRequest.requester_id a) (user_id user)); done]).
  specialize (Hok a). wp_step. wp_step. case_bool_decide as Hbt.
  - eapply wp_of_run; [apply close_on_cancel_run; [done|]|].
    { intros t. rewrite Ht. destruct wf_t as [Hw _]. apply (wf_id Hw). }
    destruct (cancel_frame a s1) as (F1 & F2 & F3 & F4 & F5). wp_run. apply Hok; rows_simpl; try done.
    + by eapply decision_ext.
    + by rewrite F4, Hn, Ht.
    + rewrite bool_decide_eq_false_2 by congruence. congruence.
    + congruence.
  - wp_step.
    + apply wp_cancel_awaiting.
      { intros t. rewrite He. destruct wf_e as [Hw _]. apply (wf_id Hw). }
      intros s2 E1 E2 E3 E4 E5 E6. wp_run. apply Hok; rows_simpl; try done; try congruence.
      * by eapply decision_ext.
      * match goal with H : bool_decide _ = true |- _ => rewrite H end. congruence.
    + wp_run. apply Hok; rows_simpl; try done.
      match goal with H : bool_decide _ = false |- _ => rewrite H end. done.
Qed.
End decisions.

(** ** Properties *)

(** C9: Approving is all or nothing: a refused approval leaves the committed
    database and the outside untouched; a granted one needs the permission and a
    pending request, records who decided and when, and carries the decision over
    to exactly what the request is about (the exec task starts and is sent to the
    workers once, the terminal session opens, a workflow node is left to its
    engine). *)
Theorem approve_all_or_nothing user i comment s r s1 :
  wf_table ApprovalRequest.ApprovalRequest s → wf_table TerminalSession.TerminalSession s →
  wf_table ExecTask.ExecTask s →
  approve user i comment s = (r, s1) →
  match r with
  | inl _ => committed s1 = committed s ∧ out s1 = out s
  | inr _ =>
      has_perm user "approval:approve" = true ∧
      ∃ a, tbl (work s) !! i = Some a ∧ ApprovalRequest.status a = "pending" ∧
        decision a "approved" "approve" comment (Some (user_id user)) (user_id user) (now s)
          (work s) (committed s1) ∧
        approved_effect a s s1
  end.
Proof.
  intros Ha Ht He Hrun. by_wp Hrun. apply wp_approve; [done..|]. cbv beta iota. intros a j s2. intros. split; [done|]. eauto 6.
Qed.

(** *** Deciding once *)

Definition records_of (i : Z) (d : Db) : Z :=
  Z.of_nat (length (select_rows (λ r, ApprovalRecord.approval_id r =? i) (tbl d))).

(** Requests already there are as they were, or were decided, with one more
    record each. *)
Definition decided_once (d d' : Db) : Prop :=
  ∀ i a, tbl d !! i = Some a → ∃ a', tbl d' !! i = Some a' ∧
    (a' = a ∧ records_of i d' = records_of i d ∨
     ApprovalRequest.status a = "pending" ∧
     ApprovalRequest.status a' ∈ ["approved"; "rejected"; "canceled"] ∧
     ApprovalRequest.decided_at a' ≠ None ∧ records_of i d' = records_of i d + 1).

#[export] Instance decided_once_preorder : PreOrder decided_once.
Proof.
  split.
  - intros d i a Hi. eauto.
  - intros d1 d2 d3 H12 H23 i a Hi. destruct (H12 i a Hi) as (a2 & Hi2 & H2).
    destruct (H23 i a2 Hi2) as (a3 & Hi3 & H3). exists a3. split; [done|].
    destruct H2 as [[-> E2]|(Hp & Hd & Ht & E2)], H3 as [[-> E3]|(Hp3 & Hd3 & Ht3 & E3)].
    + left. split; [done|congruence].
    + right. rewrite <-E2. done.
    + right. by rewrite E3.
    + exfalso. rewrite Hp3 in Hd. str_absurd Hd.
Qed.

Lemma decision_once a status action comment approver operator at_ d0 d :
  decision a status action comment approver operator at_ d0 d →
  tbl d0 !! ApprovalRequest.id a = Some a →
  ApprovalRequest.status a = "pending" → status ∈ ["approved"; "rejected"; "canceled"] →
  (∀ i b, tbl d0 !! i = Some b → ApprovalRequest.id b = i) →
  decided_once d0 d.
Proof.
  intros (Ea & n & r & Hn & Er & Hr & _) Ha Hp Hst Hid i b Hi. rewrite Ea.
  unfold records_of. rewrite Er, count_insert_new by done.
  destruct (decide (i = ApprovalRequest.id a)) as [->|Hne].
  - rewrite lookup_insert_eq. eexists. split; [done|]. right. simplify_eq.
    rewrite Hr, Z.eqb_refl. done.
  - rewrite lookup_insert_ne by done. exists b. split; [done|]. left. split; [done|].
    rewrite Hr. destruct (Z.eqb_spec (ApprovalRequest.id a) i); [congruence|lia].
Qed.

Definition gate_tables (s : St) : Prop :=
  wf_table ApprovalRequest.ApprovalRequest s ∧ wf_table TerminalSession.TerminalSession s ∧
  wf_table ExecTask.ExecTask s.

Lemma approval_handle_tables r : preserves gate_tables (run_request (approval_handle r)).
Proof.
  enough (preserves (wf_table ApprovalRequest.ApprovalRequest) (run_request (approval_handle r)) ∧
          preserves (wf_table TerminalSession.TerminalSession) (run_request (approval_handle r)) ∧
          preserves (wf_table ExecTask.ExecTask) (run_request (approval_handle r))) as (Ha & Ht & He).
  { intros s (H1 & H2 & H3). split_and!; auto. }
  split_and!; apply wf_preserves_run_request; destruct r; cbn [approval_handle];
    unfold list_approvals, ApprovalRepository.search, detail, ApprovalRecordRepository.timeline,
      approve, reject, cancel, _require_pending, _assert_biz_type, decide_request,
      ApprovalRepository.optimistic_update, rollback_on_linkage_error, _approve_linkages,
      activate_on_approval, _approve_exec, ExecTaskRepository.optimistic_update, exec_dispatch_delay,
      _cancel_linkages, close_on_cancel, cancel_awaiting_task, ExecTaskRepository.optimistic_update.
  all: preserves_auto.
Qed.

Lemma wf_table_now {R} `{Table R} s t : wf_table R s → wf_table R (s <| now := t |>).
Proof. done. Qed.

Lemma approval_handle_once r s :
  gate_tables s → work s = committed s →
  wp (approval_handle r) (λ _ s', decided_once (work s) (committed s')) s.
Proof.
  intros (Ha & Ht & He) Hc.
  assert (∀ i b, tbl (work s) !! i = Some b → ApprovalRequest.id b = i) as Hid.
  { destruct Ha as [Hw _]. apply (wf_id Hw). }
  assert (∀ s1, committed s1 = committed s → decided_once (work s) (committed s1)) as Hsame.
  { intros s1 ->. rewrite Hc. reflexivity. }
  assert (∀ op : Op json, preserves (eq s) op → wp op (λ _ s', decided_once (work s) (committed s')) s) as Hread.
  { intros op Hp. apply wp_reads; [done|]. intros; by apply Hsame. }
  destruct r as [u st ty mine todo p n|u i|u i c|u i c|u i]; cbn [approval_handle].
  - apply Hread. unfold list_approvals, ApprovalRepository.search. preserves_auto.
  - apply Hread. unfold detail, ApprovalRecordRepository.timeline. preserves_auto.
  - apply wp_approve; auto. intros a j s1 _ Hi Hai Hp Hd _.
    eapply decision_once; [exact Hd|by rewrite Hai|done|by str_mem|done].
  - apply wp_reject; auto. intros a j s1 _ Hi Hai Hp Hd _ _ _.
    eapply decision_once; [exact Hd|by rewrite Hai|done|by str_mem|done].
  - apply wp_cancel; auto. intros a j s1 _ Hi Hai Hp Hd _ _ _.
    eapply decision_once; [exact Hd|by rewrite Hai|done|by str_mem|done].
Qed.

(** C10: However approval requests follow one another, a request is decided at
    most once, and then for good: once decided its row never changes, and every
    decision leaves exactly one audit record. *)
Theorem approvals_decided_once qs s :
  gate_tables s → work s = committed s →
  decided_once (work s) (work (serve_all approval_handle qs s)) ∧
  ∀ i a, tbl (work s) !! i = Some a → ApprovalRequest.status a ≠ "pending" →
    tbl (work (serve_all approval_handle qs s)) !! i = Some a.
Proof.
  intros Hg Hc.
  destruct (serve_all_rel approval_handle gate_tables decided_once qs s) as (Hd & _);
    [done|apply approval_handle_once|apply approval_handle_tables|done..|].
  split; [done|]. intros i a Hi Hp. destruct (Hd i a Hi) as (a' & Hi' & [[-> _]|[? _]]); done.
Qed.
End approval.

(** ** Witnesses *)

(** The terminal example, plus exec task 9 waiting for approval 2. *)
Definition ex_task (i : Z) (status : string) : ExecTask.ExecTask :=
  ExecTask.mk i ("EX-" +:+ pretty i) "restart" "command" None None (Some "systemctl restart web") JNull
    (Some [4; 5]) "immediate" 600 0 1 1 (Some 2) status (Some 7) None None 1 0.
Definition approval_db : Db :=
  terminal_db
    <| exec_tasks := {[9 := ex_task 9 "awaiting_approval"]} |>
    <| approval_requests :=
         <[2 := ApprovalRequest.mk 2 "AP-2" "exec" 9 "" "" 7 "" "pending" "manual" None None None None 0 0]>
           (approval_requests terminal_db) |>.
Definition approval_st : St :=
  on_db (λ _, approval_db) init_st
    <| seqs := {["terminal_session" := 1; "approval_request" := 2; "exec_task" := 9]} |>.
Definition approver : CurrentUser := plain_user 11 ["approval:list"; "approval:approve"] [].

Lemma approval_st_tables : gate_tables approval_st.
Proof. split_and!; apply wf_tableb_spec; vm_compute; reflexivity. Qed.

Lemma approve_all_or_nothing_witness :
  match approve true approver 2 "ok" approval_st with
  | (inr _, s1) => out s1 = [EDelay "exec_dispatch" 9] ∧
      ∃ a, tbl (work approval_st) !! 2 = Some a ∧ approved_effect true a approval_st s1
  | (inl _, _) => False
  end.
Proof.
  destruct (approve true approver 2 "ok" approval_st) as [r s1] eqn:E.
  destruct approval_st_tables as (H1 & H2 & H3).
  pose proof (approve_all_or_nothing true approver 2 "ok" approval_st r s1 H1 H2 H3 E) as H.
  vm_compute in E. destruct r as [e|j]; [discriminate|].
  split; [by injection E as _ <-|]. destruct H as (_ & a & Ha & _ & _ & He). by exists a.
Defined.

Definition ex_decisions : list (Z * approval_request) :=
  [(1767355300000000, AApprove approver 1 "ok"); (1767355400000000, AReject approver 1 "too late");
   (1767355500000000, AReject approver 2 "no")].
Lemma approvals_decided_once_witness :
  decided_once (work approval_st) (work (serve_all (approval_handle true) ex_decisions approval_st)) ∧
  records_of 1 (work (serve_all (approval_handle true) ex_decisions approval_st)) = 1.
Proof.
  split; [|vm_compute; reflexivity].
  apply (approvals_decided_once true ex_decisions approval_st); [apply approval_st_tables|reflexivity].
Defined.
