(* ===== verification/Gate.v ===== *)
(** * The approval gate of sensitive hosts, end to end

    Terminal requests (Terminal.v) and approval requests (Approval.v) on one
    database, in any order. *)

From S2P Require Import Prelude.
From S2P Require Import Models.
From S2P Require Import Session.
From S2P Require Import Repositories.
From S2P Require Import Access.
From S2P Require Import Terminal.
From S2P Require Import Approval.

Section gate.
Variable broker_up : bool.
Variable pid : Z.
Variable encrypt_secret : string → string.
Variable decrypt_secret : string → option string.
Variable create_ws_token : Z → string.

Inductive gate_request :=
  | GTerminal (r : term_request)
  | GApproval (r : approval_request).

Definition gate_handle (r : gate_request) : Op json :=
  match r with
  | GTerminal r => term_handle pid encrypt_secret decrypt_secret create_ws_token r
  | GApproval r => approval_handle broker_up r
  end.

(** Every open session on a sensitive host has its approved request. *)
Definition approved_for (i : Z) (m : gmap Z ApprovalRequest.ApprovalRequest) : Prop :=
  ∃ j a, m !! j = Some a ∧ ApprovalRequest.biz_type a = "terminal" ∧
    ApprovalRequest.biz_id a = i ∧ ApprovalRequest.status a = "approved".
Definition gate_inv (d : Db) : Prop :=
  ∀ i t, tbl d !! i = Some t → TerminalSession.sensitive t ≠ 0 → TerminalSession.status t = "open" →
    approved_for i (tbl d).

Definition approved_kept (m m' : gmap Z ApprovalRequest.ApprovalRequest) : Prop :=
  ∀ j a, m !! j = Some a → ApprovalRequest.status a = "approved" → m' !! j = Some a.

Lemma approved_for_kept i m m' : approved_kept m m' → approved_for i m → approved_for i m'.
Proof. intros Hk (j & a & Hj & H1 & H2 & H3). exists j, a. auto. Qed.
Lemma approved_kept_refl m : approved_kept m m.
Proof. by intros j a Hj _. Qed.
Lemma approved_kept_insert m i a :
  (∀ b, m !! i = Some b → ApprovalRequest.status b ≠ "approved") → approved_kept m (<[i := a]> m).
Proof. intros Hn j b Hj Hb. rewrite lookup_insert_ne; [done|]. intros ->. by eapply Hn. Qed.

(** Sessions only closing or being created, and approvals kept, keep the gate. *)
Lemma gate_inv_term d d' :
  term_evolves (tbl d) (tbl d') → approved_kept (tbl d) (tbl d') → gate_inv d → gate_inv d'.
Proof.
  intros [Hold Hnew] Hk Hg i t' Hi' Hs Ho.
  destruct (tbl (R:=TerminalSession.TerminalSession) d !! i) as [t|] eqn:E.
  - destruct (Hold i t E) as (t2 & Hi2 & _ & Hs2 & Hst). simplify_eq.
    eapply approved_for_kept; [done|]. eapply (Hg i t); [done|congruence|].
    destruct Hst as [<-|[_ Hc]]; [done|congruence].
  - destruct (Hnew i t' Hi' E) as [Hst|Hst]; [|congruence].
    rewrite Ho in Hst. destruct (Z.eqb_spec (TerminalSession.sensitive t') 0); done.
Qed.

Lemma wp_term_kept r s :
  work s = committed s →
  wp (term_handle pid encrypt_secret decrypt_secret create_ws_token r)
    (λ _ s', approved_kept (tbl (work s)) (tbl (committed s'))) s.
Proof.
  intros Hc.
  assert (∀ op : Op json, preserves (still (R:=ApprovalRequest.ApprovalRequest) (tbl (work s))) op →
    wp op (λ _ s', approved_kept (tbl (work s)) (tbl (committed s'))) s) as Hstill.
  { intros op Hp. unfold wp. destruct (Hp s) as [_ ->]; [|apply approved_kept_refl].
    split; [done|]. by rewrite Hc. }
  destruct r; cbn [term_handle].
  - apply wp_create_session; [intros e s1 ->; rewrite Hc; apply approved_kept_refl|].
    intros j s1 (_ & h & rules & i & t & _ & _ & _ & _ & _ & _ & _ & _ & _ & Hst).
    destruct (is_sensitive h).
    + destruct Hst as (_ & _ & a & row & _ & Hn & -> & _). apply approved_kept_insert. congruence.
    + destruct Hst as (_ & _ & _ & ->). apply approved_kept_refl.
  - apply Hstill. unfold get_session. preserves_auto.
  - apply Hstill. unfold list_sessions, TerminalSessionRepository.search. preserves_auto.
  - apply Hstill. unfold issue_token. preserves_auto.
  - unfold close_session, TerminalSessionRepository.optimistic_close, cancel_linked_approval,
      ApprovalRepository.optimistic_update, _require_visible_session.
    wp_run. all: rows_simpl; rewrite <-?Hc; try apply approved_kept_refl.
    all: apply approved_kept_insert; intros b Hb; simplify_eq.
    all: match goal with H : _ && _ = true |- _ => apply andb_true_iff in H as [->%bool_decide_eq_true _] end.
    all: congruence.
  - apply Hstill. unfold replay_recording, TerminalRecordingRepository.after_offset,
      TerminalRecordingRepository.max_offset. preserves_auto.
  - apply Hstill. unfold record_output, TerminalRecordingRepository.append,
      TerminalRecordingRepository.max_offset. preserves_auto.
  - apply Hstill. unfold mark_idle_timeout, _finalize, TerminalSessionRepository.optimistic_close. preserves_auto.
  - apply Hstill. unfold mark_duration_limit, _finalize, TerminalSessionRepository.optimistic_close. preserves_auto.
Qed.

(** A pending request being decided keeps the approved ones. *)
Lemma decided_kept a st ap at_ (m : gmap Z ApprovalRequest.ApprovalRequest) :
  m !! ApprovalRequest.id a = Some a → ApprovalRequest.status a = "pending" →
  approved_kept m (<[ApprovalRequest.id a := decided st ap at_ a]> m).
Proof. intros Hi Hp. apply approved_kept_insert. intros b Hb. simplify_eq. by rewrite Hp. Qed.

Lemma gate_inv_kept d d' :
  tbl (R:=TerminalSession.TerminalSession) d' = tbl d → approved_kept (tbl d) (tbl d') →
  gate_inv d → gate_inv d'.
Proof. intros E Hk Hg i t. rewrite E. intros. eapply approved_for_kept; [done|eauto]. Qed.

Lemma gate_inv_approved a at_ by_ d d' :
  tbl d !! ApprovalRequest.id a = Some a → ApprovalRequest.status a = "pending" →
  ApprovalRequest.biz_type a = "terminal" →
  tbl d' = <[ApprovalRequest.id a := decided "approved" by_ at_ a]> (tbl d) →
  tbl d' = activated a at_ (tbl d) → gate_inv d → gate_inv d'.
Proof.
  intros Hi Hp Hb Ea Et Hg i t. rewrite Et, Ea. unfold activated.
  assert (approved_kept (tbl d) (<[ApprovalRequest.id a := decided "approved" by_ at_ a]> (tbl d))) as Hk
    by by apply decided_kept.
  assert (∀ i t, tbl d !! i = Some t → TerminalSession.sensitive t ≠ 0 → TerminalSession.status t = "open" →
    approved_for i (<[ApprovalRequest.id a := decided "approved" by_ at_ a]> (tbl d))) as Hold.
  { intros. eapply approved_for_kept; [done|eauto]. }
  destruct (tbl d !! ApprovalRequest.biz_id a) as [t0|] eqn:E; [|eauto].
  destruct (bool_decide _) eqn:Hst; [|eauto].
  intros [[<- <-]|[Hne Ht]]%lookup_insert_Some; [|eauto]. intros _ _.
  exists (ApprovalRequest.id a), (decided "approved" by_ at_ a).
  split; [apply lookup_insert_eq|]. by split.
Qed.

Lemma gate_inv_canceled i at_ d d' :
  tbl d' = session_canceled i at_ (tbl d) → approved_kept (tbl d) (tbl d') → gate_inv d → gate_inv d'.
Proof.
  intros Et Hk Hg j t. rewrite Et. unfold session_canceled.
  assert (∀ i t, tbl d !! i = Some t → TerminalSession.sensitive t ≠ 0 → TerminalSession.status t = "open" →
    approved_for i (tbl d')) as Hold.
  { intros. eapply approved_for_kept; [done|eauto]. }
  destruct (tbl d !! i) as [t0|] eqn:E; [|eauto]. destruct (bool_decide _); [|eauto].
  intros [[<- <-]|[Hne Ht]]%lookup_insert_Some; [done|eauto].
Qed.

Lemma wp_approval_gate r s :
  gate_tables s → work s = committed s → gate_inv (work s) →
  wp (approval_handle broker_up r) (λ _ s', gate_inv (committed s')) s.
Proof.
  intros (Ha & Ht & He) Hc Hg.
  assert (∀ s1, committed s1 = committed s → gate_inv (committed s1)) as Hsame
    by (intros s1 ->; by rewrite <-Hc).
  assert (∀ op : Op json, preserves (eq s) op → wp op (λ _ s', gate_inv (committed s')) s) as Hread.
  { intros op Hp. apply wp_reads; [done|]. intros; by apply Hsame. }
  destruct r as [u st ty mine todo p n|u i|u i c|u i c|u i]; cbn [approval_handle].
  - apply Hread. unfold list_approvals, ApprovalRepository.search. preserves_auto.
  - apply Hread. unfold detail, ApprovalRecordRepository.timeline. preserves_auto.
  - apply wp_approve; auto. intros a j s1 _ Hi Hai Hp (Ed & _) Heff. unfold approved_effect in Heff.
    destruct (bool_decide_reflect (ApprovalRequest.biz_type a = "terminal")) as [Hb|Hb].
    + destruct Heff as (Et & _). eapply gate_inv_approved; eauto. by rewrite Hai.
    + apply (gate_inv_kept (work s)); [|rewrite Ed; apply decided_kept; [by rewrite Hai|done]|done].
      destruct (bool_decide _); [exact (proj1 Heff)|exact (proj1 (proj2 Heff))].
  - apply wp_reject; auto. intros a j s1 _ Hi Hai Hp (Ed & _) Et _ _.
    apply (gate_inv_kept (work s)); [done|rewrite Ed; apply decided_kept; [by rewrite Hai|done]|done].
  - apply wp_cancel; auto. intros a j s1 _ Hi Hai Hp (Ed & _) Et _ _.
    assert (approved_kept (tbl (work s)) (tbl (committed s1))) as Hk
      by (rewrite Ed; apply decided_kept; [by rewrite Hai|done]).
    case_bool_decide; [by eapply gate_inv_canceled|by eapply gate_inv_kept].
Qed.

Lemma gate_handle_tables r : preserves gate_tables (run_request (gate_handle r)).
Proof.
  destruct r as [r|r]; cbn [gate_handle]; [|apply approval_handle_tables].
  intros s (Ha & Ht & He).
  split_and!; [by apply term_handle_wf_approvals|by apply term_handle_wf|by apply term_handle_wf_tasks].
Qed.

Definition gate_serve_all : list (Z * gate_request) → St → St := serve_all gate_handle.

#[local] Instance gate_inv_preorder : PreOrder (λ d d', gate_inv d → gate_inv d').
Proof. split; red; auto. Qed.

(** C8: The approval gate, end to end: however terminal and approval requests
    follow one another, an open session on a sensitive host has an approval
    request that was approved. *)
Theorem open_session_was_approved qs s :
  gate_tables s → work s = committed s → gate_inv (work s) →
  gate_inv (work (gate_serve_all qs s)).
Proof.
  intros Hg Hc.
  destruct (serve_all_rel gate_handle gate_tables (λ d d', gate_inv d → gate_inv d') qs s) as [Hi _];
    [done| |apply gate_handle_tables|done..|exact Hi].
  intros [r|r] s0 Hg0 Hc0; cbn [gate_handle].
  - destruct Hg0 as (_ & Ht & _).
    eapply wp_mono; [apply wp_and; [by apply term_handle_evolves|by apply wp_term_kept]|].
    intros r0 s1 [H1 H2]. cbv beta. by apply gate_inv_term.
  - unfold wp. intros Hi. by apply (wp_approval_gate r s0).
Qed.

(** ** A rejected terminal request *)

(** Rejecting the request of a terminal session leaves the session waiting:
    it stays [awaiting_approval], counts against its user's limit as before, and
    since the request is decided, approving it later fails. *)
Theorem reject_leaves_session_waiting user i comment s j s1 a t user' comment' r' s2 :
  gate_tables s → work s = committed s →
  tbl (work s) !! i = Some a → ApprovalRequest.biz_type a = "terminal" →
  tbl (work s) !! ApprovalRequest.biz_id a = Some t → TerminalSession.status t = "awaiting_approval" →
  run_request (reject user i comment) s = (inr j, s1) →
  run_request (approve broker_up user' i comment') s1 = (r', s2) →
  tbl (work s1) !! ApprovalRequest.biz_id a = Some t ∧
  live_sessions (λ t', TerminalSession.user_id t' =? TerminalSession.user_id t) (tbl (work s1)) =
    live_sessions (λ t', TerminalSession.user_id t' =? TerminalSession.user_id t) (tbl (work s)) ∧
  (has_perm user' "approval:approve" = true → r' = inl (ConflictError "approval already decided")) ∧
  tbl (work s2) !! ApprovalRequest.biz_id a = Some t.
Proof.
  intros (Ha & Ht & He) Hc Hi Hb Hti Hst Hrej Happ.
  assert (tbl (work s1) = tbl (R:=TerminalSession.TerminalSession) (work s) ∧
          ∃ a', tbl (work s1) !! i = Some a' ∧ ApprovalRequest.status a' = "rejected")
    as (Ets & a' & Hi' & Hst').
  { unfold run_request in Hrej. destruct (reject user i comment s) as [r s0] eqn:E.
    injection Hrej as -> <-. rows_simpl.
    refine (wp_run _ (λ r s0, match r with inl _ => True | inr _ => _ end) _ _ _ E _).
    apply wp_reject; [done..|]. cbv beta iota. intros a0 j0 s3 _ Hi0 Hai _ (Ed & _) Ets _ _. simplify_eq.
    split; [done|]. rewrite Ed, lookup_insert_eq. by eexists. }
  assert (approve broker_up user' i comment' s1 =
    (inl (if has_perm user' "approval:approve" then ConflictError "approval already decided"
          else ForbiddenError "permission denied: approval:approve"), s1)) as Eapp.
  { unfold approve, _require_pending, bind. rewrite require_perm_eq.
    destruct (has_perm user' _); [|done]. cbn -[bool_decide]. unfold db_get, gets. rewrite Hi'. cbn -[bool_decide].
    by rewrite bool_decide_eq_false_2 by congruence. }
  unfold run_request in Happ. rewrite Eapp in Happ. injection Happ as <- <-. rows_simpl.
  assert (work s1 = committed s1) as <-.
  { unfold run_request in Hrej. destruct (reject _ _ _ s). by injection Hrej as _ <-. }
  rewrite Ets. split_and!; [done..|by intros ->|done].
Qed.
End gate.

(** ** Witnesses *)

Lemma gate_inv_st : gate_inv (work approval_st).
Proof.
  intros i t Hi Hs Ho.
  change (({[1 := ex_session "awaiting_approval" 1 1767355200000000]} : gmap Z _) !! i = Some t) in Hi.
  apply lookup_singleton_Some in Hi as [<- <-]. discriminate Ho.
Qed.

Definition ex_gate_history : list (Z * gate_request) :=
  [(1767355300000000, GApproval (AApprove approver 1 "ok"));
   (1767355400000000, GTerminal (TToken admin 1)); (1767355500000000, GTerminal (TCreate admin 4))].
Definition ex_gate_serve : St :=
  gate_serve_all true 4711 ex_encrypt ex_decrypt ex_token ex_gate_history approval_st.

Lemma open_session_was_approved_witness :
  (TerminalSession.status <$> terminal_sessions (work ex_gate_serve) !! 1) = Some "open" ∧
  approved_for 1 (tbl (work ex_gate_serve)).
Proof.
  split; [vm_compute; reflexivity|].
  destruct (terminal_sessions (work ex_gate_serve) !! 1) as [t|] eqn:E; [|vm_compute in E; discriminate].
  apply (open_session_was_approved true 4711 ex_encrypt ex_decrypt ex_token ex_gate_history approval_st
    approval_st_tables eq_refl gate_inv_st 1 t E); vm_compute in E; injection E as <-; [discriminate|reflexivity].
Defined.

Lemma reject_leaves_session_waiting_witness :
  let s1 := (run_request (reject approver 1 "no") approval_st).2 in
  terminal_sessions (work s1) !! 1 = terminal_sessions (work approval_st) !! 1 ∧
  (run_request (approve true approver 1 "sorry") s1).1 = inl (ConflictError "approval already decided").
Proof.
  cbv zeta.
  destruct (run_request (reject approver 1 "no") approval_st) as [r s1] eqn:E.
  destruct (run_request (approve true approver 1 "sorry") s1) as [r' s2] eqn:E'.
  destruct r as [e|j]; [vm_compute in E; discriminate|]. cbn [fst snd]. rewrite E'. cbn [fst].
  destruct (reject_leaves_session_waiting true approver 1 "no" approval_st j s1
    (ApprovalRequest.mk 1 "AP-1" "terminal" 1 "" "" 7 "" "pending" "manual" None None None None 0 0)
    (ex_session "awaiting_approval" 1 1767355200000000) approver "sorry" r' s2
    approval_st_tables eq_refl eq_refl eq_refl eq_refl eq_refl E E') as (H1 & _ & H3 & _).
  split; [exact H1|by apply H3].
Defined.
