(* ===== verification/Exec.v ===== *)
(** * Exec tasks: [services/exec_service.py]

    Creating a task (targets, sensitivity test, approval or immediate start,
    automatic approval of remediations), stopping, retrying and reading it.
    The sensitivity test is [Executors.detect_sensitive], the run itself
    [Dispatch.exec_dispatch]. *)

From S2P Require Import Prelude.
From S2P Require Import Models.
From S2P Require Import Session.
From S2P Require Import Repositories.
From S2P Require Import Access.
From S2P Require Import AutoPolicy.
From S2P Require Import Approval.
From S2P Require Import Executors.
From S2P Require Import Dispatch.

(** The keyword arguments of [create_exec_task_record]. *)
Module NewTask.
Record NewTask := mk {
  name : string; kind : string; target_host_ids : list Z;
  script_id : option Z; script_version : option Z; command : option string; params : json;
  mode : string; timeout_sec : Z; retry : Z;
  created_by : option Z; requester_id : option Z;
  visible_group_ids : option (list Z); remediation : json }.
End NewTask.

(** The dict it returns. *)
Module Created.
Record Created := mk {
  id : Z; task_no : string; status : string;
  approve_required : bool; approval_id : option Z; sensitive_flag : bool }.
Definition to_json (c : Created) : json := JObj [
  ("id", JInt (id c)); ("task_no", JStr (task_no c)); ("status", JStr (status c));
  ("approve_required", JBool (approve_required c)); ("approval_id", jz (approval_id c));
  ("sensitive_flag", JBool (sensitive_flag c))].
End Created.

(** [schemas.ExecTaskCreate] *)
Module ExecTaskCreate.
Record ExecTaskCreate := mk {
  name : string; kind : string; script_id : option Z; script_version : option Z;
  command : option string; params : json; target_host_ids : list Z;
  mode : string; timeout_sec : Z; retry : Z }.
End ExecTaskCreate.

Section exec.
Variable float_str : Q → string.
Variable container_str : json → string.
Variable paramiko : bool.
Variable redis_up : bool.
Variable agent_connected : string → bool.
Variable broker_up : bool.
(** [agent_ws.agent_online]: connected to this process with a recent heartbeat *)
Variable agent_online : string → bool.
(** [exec_ws.create_ws_token]: a five-minute JWT bound to the host row *)
Variable create_ws_token : Z → string.
(** [ILIKE] of the database *)
Variable ilike : string → string → bool.

Definition _task_no : Op string :=
  d ← gets today; n ← nextval "seq_exec_no";
  ret (date_prefix d +:+ "-" +:+ zpad 3 n).

Definition _executor_ssh_fallback : Op bool :=
  rule ← ConfigRuleRepository.by_key "executor.ssh_fallback";
  ret (match rule with
       | Some r => match ConfigRule.rule_value r with
                   | JObj o => truthy (default (JBool false) (assoc_get "value" o))
                   | _ => false
                   end
       | None => false
       end).

(** ** Creation *)

Definition check_target (visible : option (list Z)) (hid : Z) : Op Host.Host :=
  o ← db_get hid;
  host ← some_or o (NotFoundError ("host " +:+ pretty hid +:+ " not found"));
  guard_or (match visible, Host.group_id host with
            | Some gs, Some g => z_in g gs
            | Some _, None => false
            | None, _ => true
            end) (ForbiddenError ("no data permission for host " +:+ pretty hid));;
  ret host.

Definition resolve_script (d : NewTask.NewTask) : Op (option string) :=
  if bool_decide (NewTask.kind d = "script") then
    guard_or (z_truthy (NewTask.script_id d)) (BadRequestError "script_id required for kind=script");;
    o ← db_get (z_or (NewTask.script_id d) 0);
    script ← some_or o (NotFoundError "script not found");
    v ← ScriptVersionRepository.by_script_version (Script.id script)
          (z_or (NewTask.script_version d) (Script.current_version script));
    sv ← some_or v (NotFoundError "script version not found");
    ret (Some (ScriptVersion.content sv))
  else if bool_decide (NewTask.kind d = "command") then
    guard_or (s_truthy (NewTask.command d)) (BadRequestError "command required for kind=command");;
    ret None
  else raise (BadRequestError "invalid kind").

Definition new_task (d : NewTask.NewTask) (no : string) (sensitive : bool) : ExecTask.ExecTask := {|
  ExecTask.id := 0; ExecTask.task_no := no; ExecTask.name := NewTask.name d;
  ExecTask.kind := NewTask.kind d; ExecTask.script_id := NewTask.script_id d;
  ExecTask.script_version := NewTask.script_version d; ExecTask.command := NewTask.command d;
  ExecTask.params := NewTask.params d; ExecTask.target_host_ids := Some (NewTask.target_host_ids d);
  ExecTask.mode := NewTask.mode d; ExecTask.timeout_sec := NewTask.timeout_sec d;
  ExecTask.retry := NewTask.retry d;
  ExecTask.sensitive_flag := if sensitive then 1 else 0;
  ExecTask.approve_required := if sensitive then 1 else 0;
  ExecTask.approval_id := None; ExecTask.status := "created";
  ExecTask.created_by := NewTask.created_by d; ExecTask.started_at := None;
  ExecTask.finished_at := None; ExecTask.version := 0; ExecTask.created_at := 0 |}.

Definition new_task_host (task_id : Z) (ssh_fallback : bool) (h : Host.Host)
    : ExecTaskHost.ExecTaskHost :=
  ExecTaskHost.mk 0 task_id (Host.id h) (Host.hostname h) (Host.ip h)
    (resolve_executor paramiko (Host.connector h) ssh_fallback) "pending" None None None.

Definition exec_approval (task_id : Z) (no title reason hit : string) (requester : Z)
    : ApprovalRequest.ApprovalRequest := {|
  ApprovalRequest.id := 0; ApprovalRequest.request_no := no;
  ApprovalRequest.biz_type := "exec"; ApprovalRequest.biz_id := task_id;
  ApprovalRequest.title := title; ApprovalRequest.reason := reason;
  ApprovalRequest.requester_id := requester; ApprovalRequest.sensitive_hit := hit;
  ApprovalRequest.status := "pending"; ApprovalRequest.approval_mode := "manual";
  ApprovalRequest.policy_ref := None; ApprovalRequest.approver_role_id := None;
  ApprovalRequest.approver_id := None; ApprovalRequest.decided_at := None;
  ApprovalRequest.version := 0; ApprovalRequest.created_at := 0 |}.

(** [requester_id if requester_id is not None else (created_by or 0)] *)
Definition requester_of (d : NewTask.NewTask) : Z :=
  match NewTask.requester_id d with Some r => r | None => z_or (NewTask.created_by d) 0 end.

Definition auto_action (task_no policy_ref : string) (actor : Z) : AiAction.AiAction :=
  AiAction.mk 0 "e6-auto-remediate" None JNull None JNull (Some task_no) (Some actor)
    "auto" (Some "auto_policy") (Some policy_ref) None None 0.

(** The approval row of a remediation that policy lets through. *)
Definition auto_approve (d : NewTask.NewTask) (task_no policy_ref : string)
    (a : ApprovalRequest.ApprovalRequest) : Op () :=
  _ ← db_add (auto_action task_no policy_ref (requester_of d));
  db_upd (ApprovalRequest.id a) (λ r, r <| ApprovalRequest.approval_mode := "auto_policy" |>
    <| ApprovalRequest.status := "approved" |> <| ApprovalRequest.policy_ref := Some policy_ref |>);;
  _approve_linkages broker_up a.

Definition state_changed : exn := ConflictError "task state changed concurrently".

(** The sensitive branch: an approval request, unless policy decides it. *)
Definition await_approval (d : NewTask.NewTask) (task : ExecTask.ExecTask) (reason : string)
    : Op Created.Created :=
  no ← _approval_no;
  a ← db_add (exec_approval (ExecTask.id task) no ("执行审批：" +:+ ExecTask.name task)
                ("敏感操作需审批：" +:+ reason) reason (requester_of d));
  won ← ExecTaskRepository.optimistic_update (ExecTask.id task) "created" "awaiting_approval"
          (ExecTask.version task);
  guard_or won state_changed;;
  db_upd (ExecTask.id task) (λ t, t <| ExecTask.approval_id := Some (ApprovalRequest.id a) |>
                                    <| ExecTask.version := ExecTask.version task + 1 |>);;
  resolved ← resolve_auto_policy (NewTask.remediation d);
  let created status := Created.mk (ExecTask.id task) (ExecTask.task_no task) status true
                          (Some (ApprovalRequest.id a)) true in
  match resolved with
  | Some policy_ref =>
      auto_approve d (ExecTask.task_no task) policy_ref a;;
      db_commit;;
      ret (created "running")
  | None =>
      db_commit;;
      ret (created "awaiting_approval")
  end.

Definition start_now (task : ExecTask.ExecTask) : Op Created.Created :=
  won ← ExecTaskRepository.optimistic_update (ExecTask.id task) "created" "running" (ExecTask.version task);
  guard_or won state_changed;;
  n ← utc_now;
  db_upd (ExecTask.id task) (λ t, t <| ExecTask.version := ExecTask.version task + 1 |>
                                    <| ExecTask.started_at := Some n |>);;
  db_commit;;
  ret (Created.mk (ExecTask.id task) (ExecTask.task_no task) "running" false None false).

Definition create_exec_task_record (d : NewTask.NewTask) : Op Created.Created :=
  hosts ← map_each (NewTask.target_host_ids d) (check_target (NewTask.visible_group_ids d));
  script_content ← resolve_script d;
  '(sensitive, reason) ← detect_sensitive float_str (NewTask.command d) script_content
    (Z.of_nat (length (remove_dups (NewTask.target_host_ids d))));
  no ← _task_no;
  task ← db_add (new_task d no sensitive);
  ssh_fallback ← _executor_ssh_fallback;
  for_each hosts (λ h, _ ← db_add (new_task_host (ExecTask.id task) ssh_fallback h); ret ());;
  if sensitive : bool then await_approval d task reason else start_now task.

(** ** Dispatch *)

Definition dispatch_here (task_id : Z) : Op () :=
  _ ← exec_dispatch float_str container_str paramiko redis_up agent_connected task_id; ret ().

Definition host_agent_online (th : ExecTaskHost.ExecTaskHost) : Op bool :=
  host ← if ExecTaskHost.host_id th =? 0 then ret None else db_get (ExecTaskHost.host_id th);
  ret (match host ≫= Host.agent_id with
       | Some a => negb (bool_decide (a = "")) && agent_online a
       | None => false
       end).
Definition task_has_inprocess_agent (task_id : Z) : Op bool :=
  hosts ← ExecTaskHostRepository.by_task task_id;
  online ← map_each hosts host_agent_online;
  ret (existsb id online).

Definition _kick_off_exec (task_id : Z) (in_process : bool) : Op () :=
  here ← if in_process then ret true else task_has_inprocess_agent task_id;
  if here : bool then dispatch_here task_id
  else try_catch (exec_dispatch_delay broker_up task_id) (λ _, dispatch_here task_id).

Definition create_task (user : CurrentUser) (data : ExecTaskCreate.ExecTaskCreate) : Op json :=
  require_perm user "exec:task:run";;
  c ← create_exec_task_record {|
    NewTask.name := ExecTaskCreate.name data; NewTask.kind := ExecTaskCreate.kind data;
    NewTask.target_host_ids := ExecTaskCreate.target_host_ids data;
    NewTask.script_id := ExecTaskCreate.script_id data;
    NewTask.script_version := ExecTaskCreate.script_version data;
    NewTask.command := ExecTaskCreate.command data; NewTask.params := ExecTaskCreate.params data;
    NewTask.mode := ExecTaskCreate.mode data; NewTask.timeout_sec := ExecTaskCreate.timeout_sec data;
    NewTask.retry := ExecTaskCreate.retry data;
    NewTask.created_by := Some (user_id user); NewTask.requester_id := Some (user_id user);
    NewTask.visible_group_ids := if is_admin user then None else Some (visible_group_ids user);
    NewTask.remediation := JNull |};
  when (bool_decide (Created.status c = "running")) (_kick_off_exec (Created.id c) false);;
  ret (Created.to_json c).

(** ** Reading *)

Definition _exec_task_out (t : ExecTask.ExecTask) : list (string * json) := [
  ("id", JInt (ExecTask.id t)); ("task_no", JStr (ExecTask.task_no t)); ("name", JStr (ExecTask.name t));
  ("kind", JStr (ExecTask.kind t)); ("script_id", jz (ExecTask.script_id t));
  ("script_version", jz (ExecTask.script_version t)); ("command", js (ExecTask.command t));
  ("params", ExecTask.params t);
  ("target_host_ids", match ExecTask.target_host_ids t with
                      | Some ids => JObj [("ids", JArr (JInt <$> ids))] | None => JNull end);
  ("mode", JStr (ExecTask.mode t)); ("timeout_sec", JInt (ExecTask.timeout_sec t));
  ("retry", JInt (ExecTask.retry t)); ("sensitive_flag", JInt (ExecTask.sensitive_flag t));
  ("approve_required", JInt (ExecTask.approve_required t)); ("approval_id", jz (ExecTask.approval_id t));
  ("status", JStr (ExecTask.status t)); ("created_by", jz (ExecTask.created_by t));
  ("created_at", jtime (Some (ExecTask.created_at t))); ("started_at", jtime (ExecTask.started_at t));
  ("finished_at", jtime (ExecTask.finished_at t))].

Definition _exec_host_out (h : ExecTaskHost.ExecTaskHost) : json := JObj [
  ("id", JInt (ExecTaskHost.id h)); ("host_id", JInt (ExecTaskHost.host_id h));
  ("hostname", JStr (ExecTaskHost.hostname h)); ("ip", JStr (ExecTaskHost.ip h));
  ("executor", JStr (ExecTaskHost.executor h)); ("status", JStr (ExecTaskHost.status h));
  ("exit_code", jz (ExecTaskHost.exit_code h)); ("started_at", jtime (ExecTaskHost.started_at h));
  ("finished_at", jtime (ExecTaskHost.finished_at h))].

Definition list_tasks (user : CurrentUser) (task_no name status kind : option string)
    (start end_ : option Z) (page size : Z) : Op json :=
  require_perm user "exec:task:list";;
  '(rows, total) ← ExecTaskRepository.search ilike
    (ExecTaskRepository.mkFilters task_no name status kind
       (if is_admin user then None else Some (user_id user)) start end_) page size;
  ret (JObj [("list", JArr ((λ t, JObj (_exec_task_out t)) <$> rows)); ("total", JInt total);
             ("page", JInt page); ("size", JInt size)]).

(** [if not user.is_admin and task.created_by != user.id: raise ForbiddenError] *)
Definition owned_task (user : CurrentUser) (task_id : Z) (verb : string) : Op ExecTask.ExecTask :=
  o ← db_get task_id;
  task ← some_or o (NotFoundError "task not found");
  guard_or (is_admin user || bool_decide (ExecTask.created_by task = Some (user_id user)))
    (ForbiddenError ("no permission to " +:+ verb +:+ " this task"));;
  ret task.

Definition get_task (user : CurrentUser) (task_id : Z) : Op json :=
  require_perm user "exec:task:list";;
  task ← owned_task user task_id "view";
  hosts ← ExecTaskHostRepository.by_task task_id;
  approval_status ←
    if z_truthy (ExecTask.approval_id task) then
      a ← db_get (z_or (ExecTask.approval_id task) 0);
      ret [("approval_status", js (ApprovalRequest.status <$> a))]
    else ret [];
  ret (JObj (_exec_task_out task ++ [("hosts", JArr (_exec_host_out <$> hosts))] ++ approval_status)).

Definition task_stats (user : CurrentUser) (task_id : Z) : Op json :=
  require_perm user "exec:task:list";;
  owned_task user task_id "view";;
  stats ← ExecTaskHostRepository.stats task_id;
  ret (JObj (("total", JInt (stats_total stats)) ::
    ((λ k, (k, JInt (count_of stats k))) <$>
       ["pending"; "running"; "success"; "failed"; "timed_out"; "canceled"]))).

Definition task_host (task_id task_host_id : Z) : Op ExecTaskHost.ExecTaskHost :=
  o ← db_get task_host_id;
  th ← some_or o (NotFoundError "task host not found");
  guard_or (ExecTaskHost.exec_task_id th =? task_id) (NotFoundError "task host not found");;
  ret th.

Definition log_out (r : ExecLog.ExecLog) : json := JObj [
  ("seq", JInt (ExecLog.seq r)); ("level", JStr (ExecLog.level r));
  ("content", JStr (ExecLog.content r)); ("created_at", jtime (Some (ExecLog.created_at r)))].

Definition get_logs (user : CurrentUser) (task_id task_host_id after_seq size : Z) : Op json :=
  require_perm user "exec:task:log";;
  owned_task user task_id "view";;
  task_host task_id task_host_id;;
  '(rows, _) ← ExecLogRepository.after_seq task_host_id after_seq size;
  ret (JObj [("list", JArr (log_out <$> rows));
             ("next_seq", JInt (after_seq + Z.of_nat (length rows)))]).

Definition ws_token (user : CurrentUser) (task_id task_host_id : Z) : Op json :=
  require_perm user "exec:task:log";;
  owned_task user task_id "view";;
  task_host task_id task_host_id;;
  ret (JObj [("token", JStr (create_ws_token task_host_id))]).

(** ** Stopping and retrying *)

Definition _EXEC_CANCELLABLE_STATUSES : list string :=
  ["created"; "awaiting_approval"; "approved"; "running"; "pending"].

Definition _close_orphan_approval (task : ExecTask.ExecTask) : Op () :=
  when (z_truthy (ExecTask.approval_id task))
    (o ← db_get (z_or (ExecTask.approval_id task) 0);
     match o with
     | Some a =>
         when (bool_decide (ApprovalRequest.status a = "pending"))
           (_ ← ApprovalRepository.optimistic_update (ApprovalRequest.id a) "pending" "canceled"
                  (ApprovalRequest.version a); ret ())
     | None => ret ()
     end).

Definition stop_frame (th_id : Z) : json :=
  JObj [("type", JStr "stop"); ("data", JObj [("task_host_id", JInt th_id)])].
(** Best effort: an agent that is not connected is skipped. *)
Definition _send_agent_stop (th : ExecTaskHost.ExecTaskHost) : Op () :=
  host ← if ExecTaskHost.host_id th =? 0 then ret None else db_get (ExecTaskHost.host_id th);
  match host ≫= Host.agent_id with
  | Some a => when (negb (bool_decide (a = "")))
                (_ ← dispatch_to_agent_sync agent_connected a (stop_frame (ExecTaskHost.id th)); ret ())
  | None => ret ()
  end.

Definition cancel_host (th : ExecTaskHost.ExecTaskHost) : Op () :=
  when (is_pending th || is_running th)
    (n ← utc_now;
     ExecTaskHostRepository.update_status (ExecTaskHost.id th) "canceled"
       (λ h, h <| ExecTaskHost.finished_at := Some n |>);;
     when (is_running th) (_send_agent_stop th)).

Definition cancel_exec_task_record (task : ExecTask.ExecTask) : Op bool :=
  if negb (str_in (ExecTask.status task) _EXEC_CANCELLABLE_STATUSES) then ret false else
  won ← ExecTaskRepository.optimistic_update (ExecTask.id task) (ExecTask.status task) "canceled"
          (ExecTask.version task);
  if negb won then ret false else
  n ← utc_now;
  db_upd (ExecTask.id task) (λ t, t <| ExecTask.version := ExecTask.version task + 1 |>
                                    <| ExecTask.finished_at := Some n |>);;
  _close_orphan_approval task;;
  hosts ← ExecTaskHostRepository.by_task (ExecTask.id task);
  for_each hosts cancel_host;;
  ret true.

Definition stop_task (user : CurrentUser) (task_id : Z) : Op json :=
  require_perm user "exec:task:stop";;
  task ← owned_task user task_id "stop";
  guard_or (str_in (ExecTask.status task) ["running"; "pending"]) (BadRequestError "task not running");;
  ok ← cancel_exec_task_record task;
  guard_or ok state_changed;;
  db_commit;;
  ret (JObj [("id", JInt (ExecTask.id task)); ("status", JStr "canceled")]).

(** The text the sensitivity test of a retry reads. *)
Definition retry_content (task : ExecTask.ExecTask) : Op string :=
  if bool_decide (ExecTask.kind task = "script") && z_truthy (ExecTask.script_id task) then
    script ← db_get (z_or (ExecTask.script_id task) 0);
    match script with
    | Some sc =>
        sv ← ScriptVersionRepository.by_script_version (Script.id sc)
               (z_or (ExecTask.script_version task) (Script.current_version sc));
        ret (match sv with Some v => ScriptVersion.content v | None => "" end)
    | None => ret (s_or (ExecTask.command task) "")
    end
  else ret (s_or (ExecTask.command task) "").

Definition retry_sensitive (user : CurrentUser) (task : ExecTask.ExecTask) (reason : string) : Op json :=
  won ← ExecTaskRepository.optimistic_update (ExecTask.id task) (ExecTask.status task) "awaiting_approval"
          (ExecTask.version task);
  guard_or won state_changed;;
  _close_orphan_approval task;;
  no ← _approval_no;
  a ← db_add (exec_approval (ExecTask.id task) no ("执行审批：" +:+ ExecTask.name task)
                ("重试触发敏感复检：" +:+ reason) reason (user_id user));
  db_upd (ExecTask.id task) (λ t, t <| ExecTask.version := ExecTask.version task + 1 |>
    <| ExecTask.approval_id := Some (ApprovalRequest.id a) |> <| ExecTask.sensitive_flag := 1 |>);;
  db_commit;;
  ret (JObj [("id", JInt (ExecTask.id task)); ("status", JStr "awaiting_approval");
             ("approve_required", JBool true); ("approval_id", JInt (ApprovalRequest.id a));
             ("sensitive_flag", JBool true)]).

Definition retry_now (task : ExecTask.ExecTask) : Op json :=
  won ← ExecTaskRepository.optimistic_update (ExecTask.id task) (ExecTask.status task) "running"
          (ExecTask.version task);
  guard_or won state_changed;;
  n ← utc_now;
  db_upd (ExecTask.id task) (λ t, t <| ExecTask.version := ExecTask.version task + 1 |>
    <| ExecTask.started_at := Some n |> <| ExecTask.finished_at := None |>);;
  _close_orphan_approval task;;
  hosts ← ExecTaskHostRepository.by_task (ExecTask.id task);
  for_each hosts (λ th,
    when (str_in (ExecTaskHost.status th) ["failed"; "timed_out"; "canceled"])
      (ExecTaskHostRepository.update_status (ExecTaskHost.id th) "pending" id));;
  db_commit;;
  _kick_off_exec (ExecTask.id task) false;;
  ret (JObj [("id", JInt (ExecTask.id task)); ("status", JStr "running")]).

Definition retry_task (user : CurrentUser) (task_id : Z) : Op json :=
  require_perm user "exec:task:retry";;
  task ← owned_task user task_id "retry";
  guard_or (str_in (ExecTask.status task) ["failed"; "timed_out"; "canceled"])
    (BadRequestError "task not retryable");;
  content ← retry_content task;
  '(sensitive, reason) ← detect_sensitive float_str (ExecTask.command task) (Some content)
    (Z.of_nat (length (default [] (ExecTask.target_host_ids task))));
  if sensitive : bool then retry_sensitive user task reason else retry_now task.

(** ** The API *)

Inductive exec_request :=
  | XList (user : CurrentUser) (task_no name status kind : option string) (start end_ : option Z) (page size : Z)
  | XCreate (user : CurrentUser) (data : ExecTaskCreate.ExecTaskCreate)
  | XGet (user : CurrentUser) (task_id : Z)
  | XStats (user : CurrentUser) (task_id : Z)
  | XStop (user : CurrentUser) (task_id : Z)
  | XRetry (user : CurrentUser) (task_id : Z)
  | XLogs (user : CurrentUser) (task_id task_host_id after_seq size : Z)
  | XToken (user : CurrentUser) (task_id task_host_id : Z).
Definition exec_handle (r : exec_request) : Op json :=
  match r with
  | XList u no nm st k s e p n => list_tasks u no nm st k s e p n
  | XCreate u d => create_task u d
  | XGet u i => get_task u i
  | XStats u i => task_stats u i
  | XStop u i => stop_task u i
  | XRetry u i => retry_task u i
  | XLogs u i h a n => get_logs u i h a n
  | XToken u i h => ws_token u i h
  end.

(** ** What creating a task leaves *)

Definition may_target (visible : option (list Z)) (d : Db) (hid : Z) (h : Host.Host) : Prop :=
  tbl d !! hid = Some h ∧ ∀ gs, visible = Some gs → ∃ g, Host.group_id h = Some g ∧ g ∈ gs.

Lemma wp_check_targets visible ids (Q : exn + list Host.Host → St → Prop) s :
  (∀ e, Q (inl e) s) → (∀ hs, Forall2 (may_target visible (work s)) ids hs → Q (inr hs) s) →
  wp (map_each ids (check_target visible)) Q s.
Proof.
  intros Herr. revert Q Herr. induction ids as [|hid ids IH]; intros Q Herr HQ; cbn [map_each].
  - apply wp_ret. by apply HQ.
  - unfold check_target. wp_run; auto. apply IH; [done|]. intros hs Hhs. wp_run. apply HQ.
    constructor; [|done]. split; [done|]. intros gs ->.
    match goal with H : match Host.group_id ?h with _ => _ end = true |- _ =>
      destruct (Host.group_id h) as [g|]; [|done] end.
    exists g. split; [done|]. by apply z_in_true.
Qed.

Lemma wp_add_hosts (f : Host.Host → ExecTaskHost.ExecTaskHost) hs (Q : exn + () → St → Prop) s :
  wf_table ExecTaskHost.ExecTaskHost s →
  (∀ e s1, committed s1 = committed s → out s1 = out s → Q (inl e) s1) →
  (∀ added s1, wf_table ExecTaskHost.ExecTaskHost s1 → only_table ExecTaskHost.ExecTaskHost s s1 →
     rows (tbl (work s1)) = rows (tbl (work s)) ++ added →
     Forall2 (λ h r, r = f h <| ExecTaskHost.id := ExecTaskHost.id r |>) hs added →
     Q (inr ()) s1) →
  wp (for_each hs (λ h, _ ← db_add (f h); ret ())) Q s.
Proof.
  revert Q s. induction hs as [|h hs IH]; intros Q s Hwf Herr HQ; cbn [for_each].
  - apply wp_ret. apply (HQ []); [done|apply only_table_refl|by rewrite app_nil_r|done].
  - wp_step. wp_step. apply wp_db_add_last; [done|done|]. intros row s1 Hrow Hwf1 Hf Hr _ _.
    apply wp_ret. cbv beta iota. apply IH; [done| |].
    + intros e s2 E1 E2. destruct Hf as (_ & _ & ? & _ & _ & _ & ?). apply Herr; congruence.
    + intros added s2 Hwf2 Hf2 Hr2 Hadd. apply (HQ (row :: added)); [done|by eapply only_table_trans| |].
      * by rewrite Hr2, Hr, <-app_assoc.
      * constructor; [|done]. rewrite Hrow. done.
Qed.

(** What the automatic policy says of a remediation *)
Definition auto_policy (remediation : json) (s : St) : exn + option string := outcome remediation s.

Lemma auto_policy_run remediation s :
  resolve_auto_policy remediation s = (auto_policy remediation s, s).
Proof. apply resolve_auto_policy_run. Qed.

Lemma auto_policy_ext remediation s s' :
  tbl (R:=ConfigRule.ConfigRule) (work s') = tbl (work s) →
  tbl (R:=AutomationLevel.AutomationLevel) (work s') = tbl (work s) →
  tbl (R:=CircuitBreakerState.CircuitBreakerState) (work s') = tbl (work s) →
  tbl (R:=RemediationPolicy.RemediationPolicy) (work s') = tbl (work s) →
  tbl (R:=AutomationWhitelist.AutomationWhitelist) (work s') = tbl (work s) →
  auto_policy remediation s' = auto_policy remediation s.
Proof.
  unfold tbl. cbn. intros E1 E2 E3 E4 E5. unfold auto_policy, outcome, AutoPolicy.decided, level_now, breaker_now.
  by rewrite E2, E3, E4, E5, (feature_on_ext _ s s').
Qed.

Definition auto_approved (ref : string) (a : ApprovalRequest.ApprovalRequest) : ApprovalRequest.ApprovalRequest :=
  a <| ApprovalRequest.approval_mode := "auto_policy" |> <| ApprovalRequest.status := "approved" |>
    <| ApprovalRequest.policy_ref := Some ref |>.
Definition auto_logged (no ref : string) (l : AiAction.AiAction) : Prop :=
  AiAction.decision l = "auto" ∧ AiAction.policy_ref l = Some ref ∧ AiAction.trace_id l = Some no.

(** The task, approval and effects after the sensitive branch. *)
Definition awaiting (d : NewTask.NewTask) (no reason : string) (c : Created.Created) (s s1 : St) : Prop :=
  ∃ aid ano task a,
    Created.approve_required c = true ∧ Created.sensitive_flag c = true ∧
    Created.approval_id c = Some aid ∧
    tbl (committed s1) = <[Created.id c := task]> (tbl (work s)) ∧
    ExecTask.approval_id task = Some aid ∧
    tbl (R:=ApprovalRequest.ApprovalRequest) (work s) !! aid = None ∧ tbl (committed s1) = <[aid := a]> (tbl (work s)) ∧
    let t0 := new_task d no true <| ExecTask.id := Created.id c |>
                <| ExecTask.created_at := now s |> <| ExecTask.approval_id := Some aid |> in
    let a0 := exec_approval (Created.id c) ano ("执行审批：" +:+ NewTask.name d)
                ("敏感操作需审批：" +:+ reason) reason (requester_of d)
                <| ApprovalRequest.id := aid |> <| ApprovalRequest.created_at := now s |> in
    match auto_policy (NewTask.remediation d) s with
    | inl _ => False
    | inr None =>
        Created.status c = "awaiting_approval" ∧ a = a0 ∧
        task = t0 <| ExecTask.status := "awaiting_approval" |> <| ExecTask.version := 1 |> ∧
        out s1 = out s
    | inr (Some ref) =>
        Created.status c = "running" ∧
        a = auto_approved ref a0 ∧
        task = t0 <| ExecTask.status := "running" |> <| ExecTask.version := 2 |>
                  <| ExecTask.started_at := Some (now s) |> ∧
        out s1 = out s ++ dispatch_frames broker_up (Created.id c) ∧
        ∃ l, l ∈ rows (tbl (committed s1)) ∧ auto_logged no ref l
    end.

Lemma wp_auto_approve d no ref a t (Q : exn + () → St → Prop) s :
  ApprovalRequest.biz_type a = "exec" → tbl (work s) !! ApprovalRequest.id a = Some a →
  tbl (work s) !! ApprovalRequest.biz_id a = Some t → ExecTask.id t = ApprovalRequest.biz_id a →
  (∀ e s1, committed s1 = committed s → out s1 = out s → Q (inl e) s1) →
  (∀ l s1, committed s1 = committed s → out s1 = out s ++ dispatch_frames broker_up (ApprovalRequest.biz_id a) →
     tbl (work s1) = <[ApprovalRequest.biz_id a := dispatched t (now s)]> (tbl (work s)) →
     tbl (work s1) = <[ApprovalRequest.id a := auto_approved ref a]> (tbl (work s)) →
     tbl (R:=ExecTaskHost.ExecTaskHost) (work s1) = tbl (work s) →
     l ∈ rows (tbl (work s1)) → auto_logged no ref l → Q (inr ()) s1) →
  wp (auto_approve d no ref a) Q s.
Proof.
  intros Hb Ha Ht Hid Herr Hok. unfold auto_approve. do 2 wp_step; [|by apply Herr].
  wp_step. eapply wp_upd_hit; [rewrite tbl_put_row_ne; exact Ha|]. cbv beta iota.
  unfold _approve_linkages. rewrite Hb. cbn [bool_decide]. 
  rewrite (bool_decide_eq_false_2 ("exec" = "terminal")), (bool_decide_eq_false_2 ("exec" = "workflow")),
    (bool_decide_eq_true_2 ("exec" = "exec")) by done.
  apply wp_approve_exec.
  - rows_simpl. intros t' Ht'. simplify_eq. done.
  - intros e s2 E1 E2. apply Herr; rows_simpl; congruence.
  - intros t' Ht' _ s2 W C O. rows_simpl. assert (t' = t) as -> by congruence.
    apply (Hok row); rewrite ?W; rows_simpl; try done.
    + apply elem_of_rows. exists n. apply lookup_insert_eq.
    + by subst row.
Qed.

Lemma wp_await_approval d no reason task (Q : exn + Created.Created → St → Prop) s :
  wf_table ApprovalRequest.ApprovalRequest s →
  task = new_task d no true <| ExecTask.id := ExecTask.id task |> <| ExecTask.created_at := now s |> →
  tbl (work s) !! ExecTask.id task = Some task →
  (∀ e s1, committed s1 = committed s → out s1 = out s → Q (inl e) s1) →
  (∀ c s1, Created.id c = ExecTask.id task → Created.task_no c = no → awaiting d no reason c s s1 →
     tbl (R:=ExecTaskHost.ExecTaskHost) (committed s1) = tbl (work s) → Q (inr c) s1) →
  wp (await_approval d task reason) Q s.
Proof.
  intros Hwf Ht Hi Herr Hok. set (i := ExecTask.id task) in *. unfold await_approval, _approval_no,
    ExecTaskRepository.optimistic_update. fold i.
  assert (ExecTask.task_no task = no ∧ ExecTask.status task = "created" ∧ ExecTask.version task = 0 ∧
    ExecTask.name task = NewTask.name d) as (Eno & Est & Ev & Ename) by by rewrite Ht.
  rewrite Eno, Ename, Ev. do 7 wp_step. apply wp_db_add_last; [by apply wf_table_seq|by intros; apply Herr|].
  intros a s1 Ha _ (W1 & _ & C1 & N1 & _ & _ & O1) _ Ta Fa. rows_simpl.
  assert (tbl (work s1) !! i = Some task) as Hi1 by by rewrite W1, tbl_set_ne.
  wp_step. eapply wp_cas_hit; [exact Hi1|by rewrite Est, Ev|]. cbv beta iota. wp_step. wp_step; [|done].
  wp_step. eapply wp_upd_hit; [rewrite tbl_put_row; apply lookup_insert_eq|]. cbv beta iota.
  rewrite put_row_twice. wp_step. eapply wp_of_run; [apply auto_policy_run|]. cbv beta iota zeta.
  set (s2 := put_row i _ s1).
  assert (auto_policy (NewTask.remediation d) s2 = auto_policy (NewTask.remediation d) s) as Epol.
  { apply auto_policy_ext; subst s2; rewrite tbl_put_row_ne, W1; apply tbl_set_ne. }
  assert (tbl (R:=ExecTask.ExecTask) (work s1) = tbl (work s)) as Et by (rewrite W1; apply tbl_set_ne).
  assert (tbl (R:=ExecTaskHost.ExecTaskHost) (work s1) = tbl (work s)) as Eh by (rewrite W1; apply tbl_set_ne).
  change (row_id a) with (ApprovalRequest.id a) in *.
  rewrite Epol. unfold awaiting in Hok. destruct (auto_policy _ s) as [e|[ref|]] eqn:Ep.
  1: { apply Herr; subst s2; rows_simpl; congruence. }
  2: { wp_run. apply Hok; [done..| |subst s2; rows_simpl; done].
       eexists _, _, _, a. split_and!; [done..| | |exact Fa| |done|rewrite Ha at 1; reflexivity| |done].
       - subst s2. rows_simpl. by rewrite Et.
       - done.
       - subst s2. rows_simpl. done.
       - cbn [Created.id]. rewrite Ht. done. }
  assert (ApprovalRequest.biz_type a = "exec" ∧ ApprovalRequest.biz_id a = i) as [Hb Hbi] by by rewrite Ha.
  wp_step. eapply (wp_auto_approve d no ref a); [done| | | | |].
  - subst s2. rows_simpl. rewrite Ta. apply lookup_insert_eq.
  - rewrite Hbi. subst s2. rows_simpl. done.
  - by rewrite Hbi.
  - intros e s3 E1 E2. apply Herr; subst s2; rows_simpl; congruence.
  - rewrite Hbi. intros l s3 C3 O3 T3 A3 H3 Hl Hlog. wp_run. apply Hok; [done..| |subst s2; rows_simpl; congruence].
    eexists _, _, _, (auto_approved ref a).
    split_and!; [done..| | |exact Fa| |done|exact (f_equal (auto_approved ref) Ha)| | |].
    + subst s2. rows_simpl. rewrite T3. by rewrite insert_insert_eq, Et.
    + done.
    + subst s2. rows_simpl. rewrite A3, Ta. apply insert_insert_eq.
    + cbn [Created.id]. rewrite Ht, N1. done.
    + subst s2. rows_simpl. cbn [Created.id]; by rewrite O3, O1.
    + exists l. split; [done|exact Hlog].
Qed.

Definition started (d : NewTask.NewTask) (no : string) (c : Created.Created) (s s1 : St) : Prop :=
  Created.approve_required c = false ∧ Created.sensitive_flag c = false ∧
  Created.approval_id c = None ∧ Created.status c = "running" ∧
  tbl (committed s1) =
    <[Created.id c := new_task d no false <| ExecTask.id := Created.id c |>
        <| ExecTask.created_at := now s |> <| ExecTask.status := "running" |>
        <| ExecTask.version := 1 |> <| ExecTask.started_at := Some (now s) |>]> (tbl (work s)) ∧
  tbl (R:=ApprovalRequest.ApprovalRequest) (committed s1) = tbl (work s) ∧ out s1 = out s.

Lemma wp_start_now d no task (Q : exn + Created.Created → St → Prop) s :
  task = new_task d no false <| ExecTask.id := ExecTask.id task |> <| ExecTask.created_at := now s |> →
  tbl (work s) !! ExecTask.id task = Some task →
  (∀ c s1, Created.id c = ExecTask.id task → Created.task_no c = no → started d no c s s1 →
     tbl (R:=ExecTaskHost.ExecTaskHost) (committed s1) = tbl (work s) → Q (inr c) s1) →
  wp (start_now task) Q s.
Proof.
  intros Ht Hi Hok. set (i := ExecTask.id task) in *. unfold start_now, ExecTaskRepository.optimistic_update. fold i.
  assert (ExecTask.task_no task = no ∧ ExecTask.status task = "created" ∧ ExecTask.version task = 0)
    as (Eno & Est & Ev) by by rewrite Ht.
  rewrite Eno, Ev. wp_step. eapply wp_cas_hit; [exact Hi|by rewrite Est, Ev|]. cbv beta iota.
  do 2 wp_step; [|done]. do 3 wp_step. eapply wp_upd_hit; [rewrite tbl_put_row; apply lookup_insert_eq|].
  cbv beta iota. rewrite put_row_twice. wp_run. apply Hok; rows_simpl; try done.
  split_and!; rows_simpl; try done. cbn [Created.id]. rewrite Ht. done.
Qed.

Lemma awaiting_ext d no reason c s s0 s1 :
  (∃ t, tbl (work s0) = <[Created.id c := t]> (tbl (R:=ExecTask.ExecTask) (work s))) →
  tbl (R:=ApprovalRequest.ApprovalRequest) (work s0) = tbl (work s) →
  auto_policy (NewTask.remediation d) s0 = auto_policy (NewTask.remediation d) s →
  now s0 = now s → out s0 = out s → awaiting d no reason c s0 s1 → awaiting d no reason c s s1.
Proof.
  intros [t Et] Ea Ep En Eo (aid & ano & task & a & H). exists aid, ano, task, a.
  by rewrite Et, insert_insert_eq, Ea, Ep, En, Eo in H.
Qed.

Lemma added_distinct (s : St) (old added : list ExecTaskHost.ExecTaskHost) task_id :
  wf_table ExecTaskHost.ExecTaskHost s → rows (tbl (work s)) = old ++ added →
  Forall (λ r, ExecTaskHost.exec_task_id r = task_id) added →
  NoDup (ExecTaskHost.host_id <$> added).
Proof.
  intros [Hwf _] Hrows Hf. pose proof (NoDup_rows _ _ Hwf) as Hnd. rewrite Hrows, fmap_app, NoDup_app in Hnd.
  destruct Hnd as (_ & _ & Hnd).
  assert (∀ r, r ∈ added → tbl (work s) !! ExecTaskHost.id r = Some r) as Hin.
  { intros r Hr. assert (r ∈ rows (tbl (work s))) as [i Hi]%elem_of_rows
      by (rewrite Hrows; apply elem_of_app; by right).
    pose proof (wf_id Hwf i r Hi) as E. change (ExecTaskHost.id r = i) in E. by rewrite E. }
  clear Hrows. induction added as [|r added IH]; [constructor|].
  rewrite fmap_cons in *. apply NoDup_cons in Hnd as [Hr Hnd]. apply Forall_cons in Hf as [Hrt Hf].
  constructor; [|apply IH; [done..|]; intros; apply Hin, elem_of_cons; by right].
  intros (r' & Eh & Hr')%list_elem_of_fmap. pose proof (proj1 (Forall_forall _ _) Hf _ Hr') as Ht'.
  assert (ExecTaskHost.id r ≠ ExecTaskHost.id r') as Hne.
  { intros E. apply Hr. change (row_id r) with (ExecTaskHost.id r). rewrite E.
    change (ExecTaskHost.id r') with (row_id r'). by apply list_elem_of_fmap_2. }
  destruct (wf_unique Hwf _ _ r r' (Hin r ltac:(apply elem_of_cons; by left))
    (Hin r' ltac:(apply elem_of_cons; by right)) Hne) as [Hc|Hc]; cbn in Hc;
    rewrite Hrt, Ht', Eh, !Z.eqb_refl in Hc; done.
Qed.

(** The rows added for a list of targets show that the targets are distinct. *)
Lemma added_targets (s s2 : St) ids task_id f hosts old added :
  wf_table Host.Host s → wf_table ExecTaskHost.ExecTaskHost s2 →
  (∀ h, ExecTaskHost.host_id (f h) = Host.id h) → (∀ h, ExecTaskHost.exec_task_id (f h) = task_id) →
  Forall2 (λ hid h, tbl (work s) !! hid = Some h) ids hosts →
  rows (tbl (work s2)) = old ++ added →
  Forall2 (λ h r, r = f h <| ExecTaskHost.id := ExecTaskHost.id r |>) hosts added →
  NoDup ids.
Proof.
  intros [Wo _] Wh Hfh Hft Hhosts Hr Hadd.
  assert (ExecTaskHost.host_id <$> added = ids) as <-.
  { clear -Hhosts Hadd Wo Hfh. revert hosts added Hhosts Hadd. induction ids as [|hid ids IH]; intros hosts added.
    - by intros ->%Forall2_nil_inv_l ->%Forall2_nil_inv_l.
    - intros (h & hs & Hh & Hhs & ->)%Forall2_cons_inv_l (r & rs & Hr & Hrs & ->)%Forall2_cons_inv_l.
      rewrite fmap_cons. f_equal; [|by eapply IH]. rewrite Hr. cbn. rewrite Hfh. by apply (wf_id Wo hid h). }
  eapply (added_distinct s2 _ _ task_id); [done|exact Hr|].
  eapply Forall2_Forall_r; [exact Hadd|]. apply Forall_true. intros h r ->. apply Hft.
Qed.

Definition created_ok (d : NewTask.NewTask) (s : St) (c : Created.Created) (s1 : St) : Prop :=
  ∃ hosts content sensitive reason fb added,
    Forall2 (may_target (NewTask.visible_group_ids d) (work s)) (NewTask.target_host_ids d) hosts ∧
    NoDup (NewTask.target_host_ids d) ∧
    resolve_script d s = (inr content, s) ∧
    detect_sensitive float_str (NewTask.command d) content
      (Z.of_nat (length (NewTask.target_host_ids d))) s = (inr (sensitive, reason), s) ∧
    _executor_ssh_fallback s = (inr fb, s) ∧
    tbl (R:=ExecTask.ExecTask) (work s) !! Created.id c = None ∧
    (if sensitive : bool then awaiting d (Created.task_no c) reason c s s1
     else started d (Created.task_no c) c s s1) ∧
    rows (tbl (committed s1)) = rows (tbl (work s)) ++ added ∧
    Forall2 (λ h r, r = new_task_host (Created.id c) fb h <| ExecTaskHost.id := ExecTaskHost.id r |>)
      hosts added.

Lemma wp_create_record d (Q : exn + Created.Created → St → Prop) s :
  wf_table ExecTask.ExecTask s → wf_table ExecTaskHost.ExecTaskHost s →
  wf_table ApprovalRequest.ApprovalRequest s → wf_table Host.Host s →
  (∀ e s1, committed s1 = committed s → out s1 = out s → Q (inl e) s1) →
  (∀ c s1, created_ok d s c s1 → Q (inr c) s1) →
  wp (create_exec_task_record d) Q s.
Proof.
  intros Wt Wh Wa Wo Herr Hok. unfold create_exec_task_record. wp_step.
  apply wp_check_targets; [by intros; apply Herr|]. intros hosts Hhosts. wp_step.
  apply wp_reads.
  { unfold resolve_script, ScriptVersionRepository.by_script_version. preserves_auto. }
  intros [e|content] Hcontent; [by apply Herr|]. wp_step.
  apply wp_reads; [apply preserves_detect_sensitive|]. intros [e|[sensitive reason]] Hsens; [by apply Herr|].
  wp_step. unfold _task_no. do 6 wp_step. apply wp_db_add_last; [by apply wf_table_seq|by intros; apply Herr|].
  set (no := date_prefix _ +:+ _). intros task s1 Htask Wt1 F1 _ Ta Fa. wp_step.
  apply wp_reads; [unfold _executor_ssh_fallback; preserves_auto|].
  intros [e|fb] Hfb; [destruct F1 as (_ & _ & ? & _ & _ & _ & ?); by apply Herr|]. wp_step.
  change (row_id task) with (ExecTask.id task) in *.
  set (i := ExecTask.id task) in *.
  apply wp_add_hosts; [eapply (only_table_wf (R:=ExecTask.ExecTask) _ _ F1); by apply wf_table_seq| |].
  { intros e s2 E1 E2. destruct F1 as (_ & _ & ? & _ & _ & _ & ?). apply Herr; rows_simpl; congruence. }
  intros added s2 Wh2 F2 Hr Hadd. cbv beta iota.
  assert (NoDup (NewTask.target_host_ids d)) as Hnd.
  { eapply (added_targets s s2 _ i (new_task_host i fb)); [done|done|done|done| |exact Hr|exact Hadd].
    eapply Forall2_impl; [exact Hhosts|]. by intros hid h [? _]. }
  rewrite remove_dups_NoDup in Hsens by done.
  assert (tbl (R:=ExecTask.ExecTask) (work s2) = <[i := task]> (tbl (work s))) as Et2
    by (rewrite (only_table_ne _ _ F2), Ta; by rows_simpl).
  assert (tbl (R:=ApprovalRequest.ApprovalRequest) (work s2) = tbl (work s)) as Ea2
    by (rewrite (only_table_ne _ _ F2), (only_table_ne _ _ F1); by rows_simpl).
  assert (now s2 = now s ∧ out s2 = out s ∧ committed s2 = committed s) as (En2 & Eo2 & Ec2).
  { destruct F1 as (_ & _ & ? & ? & _ & _ & ?), F2 as (_ & _ & ? & ? & _ & _ & ?). rows_simpl.
    split_and!; congruence. }
  assert (_executor_ssh_fallback s = (inr fb, s)) as Hfb0.
  { unfold _executor_ssh_fallback, ConfigRuleRepository.by_key, db_find, bind, gets, ret in *.
    rewrite (only_table_ne _ _ F1) in Hfb. rows_simpl. by injection Hfb as ->. }
  assert (auto_policy (NewTask.remediation d) s2 = auto_policy (NewTask.remediation d) s) as Ep2.
  { apply auto_policy_ext; rewrite (only_table_ne _ _ F2), (only_table_ne _ _ F1); by rows_simpl. }
  assert (∀ c s3, Created.id c = i → Created.task_no c = no →
    tbl (R:=ExecTaskHost.ExecTaskHost) (committed s3) = tbl (work s2) →
    (if sensitive then awaiting d no reason c s2 s3 else started d no c s2 s3) → Q (inr c) s3) as Hfin.
  { intros c s3 Ec En Eh Hs. apply Hok. exists hosts, content, sensitive, reason, fb, added.
    rewrite En, Ec. rows_simpl. split_and!; try done.
    2: { rewrite Eh, Hr. f_equal. f_equal. by rewrite (only_table_ne _ _ F1). }
    destruct sensitive.
    - eapply awaiting_ext; [|exact Ea2|exact Ep2|exact En2|exact Eo2|exact Hs]. rewrite Ec. by exists task.
    - unfold started in *. rewrite Et2, Ea2, En2, Eo2, Ec in Hs. rewrite insert_insert_eq, <-Ec in Hs. exact Hs. }
  assert (task = new_task d no sensitive <| ExecTask.id := i |> <| ExecTask.created_at := now s2 |>) as Et.
  { rewrite En2. exact Htask. }
  assert (tbl (work s2) !! i = Some task) as Hi2 by (rewrite Et2; apply lookup_insert_eq).
  destruct sensitive.
  - apply (wp_await_approval d no); [|done|done| |by intros; apply Hfin].
    + apply (only_table_wf _ _ F2), (only_table_wf _ _ F1). by apply wf_table_seq.
    + intros e s3 E1 E2. apply Herr; congruence.
  - apply (wp_start_now d no); [done..|by intros; apply Hfin].
Qed.

(** C12: Creating an exec task either fails, and then nothing was committed and
    nothing sent, or every target exists, is visible and distinct, exactly one
    pending host row per target is added, and the task is either running at once
    (not sensitive) or, when the sensitivity test hits, waits for a linked
    pending approval request with nothing dispatched, unless exactly one
    governed policy lets the remediation through, which is then recorded. *)
Theorem create_exec_task_record_spec d s r s1 :
  wf_table ExecTask.ExecTask s → wf_table ExecTaskHost.ExecTaskHost s →
  wf_table ApprovalRequest.ApprovalRequest s → wf_table Host.Host s →
  create_exec_task_record d s = (r, s1) →
  match r with
  | inl _ => committed s1 = committed s ∧ out s1 = out s
  | inr c => created_ok d s c s1
  end.
Proof. intros Wt Wh Wa Wo Hrun. by_wp Hrun. by apply wp_create_record. Qed.

(** ** What stopping a task leaves *)

Definition canceled_task (n : Z) (t : ExecTask.ExecTask) : ExecTask.ExecTask :=
  t <| ExecTask.status := "canceled" |> <| ExecTask.version := ExecTask.version t + 1 |>
    <| ExecTask.finished_at := Some n |>.
Definition canceled_host (n : Z) (h : ExecTaskHost.ExecTaskHost) : ExecTaskHost.ExecTaskHost :=
  if is_pending h || is_running h
  then h <| ExecTaskHost.status := "canceled" |> <| ExecTaskHost.finished_at := Some n |> else h.
Definition canceled_approval (a : ApprovalRequest.ApprovalRequest) : ApprovalRequest.ApprovalRequest :=
  if bool_decide (ApprovalRequest.status a = "pending")
  then a <| ApprovalRequest.status := "canceled" |> <| ApprovalRequest.version := ApprovalRequest.version a + 1 |>
  else a.
(** The approval of a task, if it has one. *)
Definition closed_approval (approval_id : option Z) (m : gmap Z ApprovalRequest.ApprovalRequest)
    : gmap Z ApprovalRequest.ApprovalRequest :=
  if z_truthy approval_id then alter canceled_approval (z_or approval_id 0) m else m.
(** The stop frames of a host that was running on a connected agent. *)
Definition stop_effects (d : Db) (h : ExecTaskHost.ExecTaskHost) : list Effect :=
  match (if is_running h && negb (ExecTaskHost.host_id h =? 0) then tbl d !! ExecTaskHost.host_id h else None)
          ≫= Host.agent_id with
  | Some a => if negb (bool_decide (a = "")) && agent_connected a
              then [EAgentFrame a (stop_frame (ExecTaskHost.id h))] else []
  | None => []
  end.
Definition canceled_db (t : ExecTask.ExecTask) (n : Z) (d : Db) : Db :=
  set_tbl ((λ h, if ExecTaskHostRepository.of_task (ExecTask.id t) h then canceled_host n h else h) <$> tbl d)
    (set_tbl (closed_approval (ExecTask.approval_id t) (tbl d))
       (set_tbl (<[ExecTask.id t := canceled_task n t]> (tbl d)) d)).

Lemma close_orphan_run t s :
  wf_table ApprovalRequest.ApprovalRequest s →
  _close_orphan_approval t s =
    (inr (), s <| work := set_tbl (closed_approval (ExecTask.approval_id t) (tbl (work s))) (work s) |>).
Proof using.
  intros [Hwf _]. unfold _close_orphan_approval, closed_approval, when.
  destruct (z_truthy _); [|rewrite set_tbl_tbl; by destruct s].
  erewrite bind_inr by reflexivity.
  destruct (tbl (R:=ApprovalRequest.ApprovalRequest) (work s) !! z_or (ExecTask.approval_id t) 0) as [a|] eqn:Ha.
  2: { unfold ret. do 2 f_equal.
       rewrite alter_id' by done. rewrite set_tbl_tbl. by destruct s. }
  pose proof (wf_id Hwf _ _ Ha) as Hid. change (row_id a) with (ApprovalRequest.id a) in Hid.
  rewrite (alter_Some _ _ _ a Ha). unfold canceled_approval.
  destruct (bool_decide_reflect (ApprovalRequest.status a = "pending")) as [Hp|Hp].
  2: { rewrite insert_id by done. rewrite set_tbl_tbl. by destruct s. }
  erewrite bind_inr; [reflexivity|]. unfold ApprovalRepository.optimistic_update, db_cas.
  rewrite Hid, Ha, Hp, Z.eqb_refl. reflexivity.
Qed.

Lemma send_stop_run h d s :
  (∃ m : gmap Z ExecTaskHost.ExecTaskHost, work s = set_tbl m d) → is_running h = true →
  _send_agent_stop h s = (inr (), s <| out := out s ++ stop_effects d h |>).
Proof using agent_connected.
  intros [m Hm] Hr. unfold _send_agent_stop, stop_effects, dispatch_to_agent_sync, when. rewrite Hr.
  assert (tbl (R:=Host.Host) (work s) = tbl d) as Ed by (rewrite Hm; apply tbl_set_ne).
  cbn [andb]. destruct (_ =? 0); cbn [negb].
  - erewrite bind_inr by reflexivity. cbn. rewrite app_nil_r. by destruct s.
  - erewrite bind_inr by reflexivity. rewrite Ed. destruct (_ ≫= _) as [a|].
    2: { unfold ret. rewrite app_nil_r. by destruct s. }
    destruct (bool_decide _); cbn [negb andb]; [unfold ret; rewrite app_nil_r; by destruct s|].
    destruct (agent_connected a); [by erewrite bind_inr by reflexivity|].
    erewrite bind_inr by reflexivity. unfold ret. rewrite app_nil_r. by destruct s.
Qed.

Lemma cancel_hosts_run i s :
  wf_table ExecTaskHost.ExecTaskHost s →
  for_each (select_rows (ExecTaskHostRepository.of_task i) (tbl (work s))) cancel_host s =
    (inr (), s <| work := set_tbl ((λ h, if ExecTaskHostRepository.of_task i h then canceled_host (now s) h else h)
                                     <$> tbl (work s)) (work s) |>
               <| out := out s ++ (select_rows (ExecTaskHostRepository.of_task i) (tbl (work s)) ≫= stop_effects (work s)) |>).
Proof using agent_connected.
  intros [Hwf _]. apply (for_each_selected_run _ _ _ _ _ _ Hwf). intros h s1 _ Hh [m Hm] Hn.
  change (row_id h) with (ExecTaskHost.id h) in *.
  unfold cancel_host, canceled_host, when. destruct (is_pending h || is_running h) eqn:Ha.
  2: { apply orb_false_iff in Ha as [_ Hr]. unfold stop_effects. rewrite Hr. cbn.
       rewrite put_row_id, app_nil_r by done. by destruct s1. }
  erewrite bind_inr by reflexivity. erewrite bind_inr.
  2: { unfold ExecTaskHostRepository.update_status, db_upd, modify. rewrite Hh. reflexivity. }
  rewrite Hn. destruct (is_running h) eqn:Hr.
  - rewrite (send_stop_run h (work s)); [done| |done]. eexists. unfold put_row. cbn. rewrite Hm. apply set_tbl_set.
  - unfold stop_effects, ret. rewrite Hr. cbn. rewrite app_nil_r. done.
Qed.

Lemma cancel_exec_task_record_run t s :
  wf_table ExecTaskHost.ExecTaskHost s → wf_table ApprovalRequest.ApprovalRequest s →
  tbl (work s) !! ExecTask.id t = Some t →
  cancel_exec_task_record t s =
    if str_in (ExecTask.status t) _EXEC_CANCELLABLE_STATUSES
    then (inr true, s <| work := canceled_db t (now s) (work s) |>
            <| out := out s ++ (select_rows (ExecTaskHostRepository.of_task (ExecTask.id t)) (tbl (work s))
                                ≫= stop_effects (work s)) |>)
    else (inr false, s).
Proof using agent_connected.
  intros Wh Wa Ht. unfold cancel_exec_task_record. destruct (str_in _ _) eqn:Hst; [|done]. cbn [negb].
  erewrite bind_inr.
  2: { unfold ExecTaskRepository.optimistic_update, db_cas. rewrite Ht, bool_decide_eq_true_2, Z.eqb_refl by done.
       reflexivity. }
  cbn [negb]. erewrite bind_inr by reflexivity. erewrite bind_inr.
  2: { unfold db_upd, modify. rewrite tbl_put_row, lookup_insert_eq, put_row_twice. reflexivity. }
  erewrite bind_inr by (apply close_orphan_run; by apply wf_table_put_ne).
  erewrite bind_inr by reflexivity. erewrite bind_inr.
  2: { apply cancel_hosts_run. destruct Wh as [Wh Whc]. split; [|exact Whc].
       change (work (?s0 <| work := ?d |>)) with d. by rewrite tbl_set_ne, tbl_put_row_ne. }
  done.
Qed.

(** Who may stop which task. *)
Definition may_stop (user : CurrentUser) (i : Z) (s : St) (t : ExecTask.ExecTask) : Prop :=
  has_perm user "exec:task:stop" = true ∧ tbl (work s) !! i = Some t ∧
  (is_admin user = true ∨ ExecTask.created_by t = Some (user_id user)) ∧
  ExecTask.status t ∈ ["running"; "pending"].

Lemma wp_owned_task user i verb (Q : exn + ExecTask.ExecTask → St → Prop) s :
  (∀ e, Q (inl e) s) →
  (∀ t, tbl (work s) !! i = Some t → is_admin user = true ∨ ExecTask.created_by t = Some (user_id user) →
     Q (inr t) s) → wp (owned_task user i verb) Q s.
Proof using.
  intros Herr Hok. unfold owned_task. wp_run; auto. apply Hok; [done|].
  match goal with H : _ || _ = true |- _ => apply orb_true_iff in H as [|H%bool_decide_eq_true_1] end; auto.
Qed.

(** C13: Stopping a task cancels it with one version step, cancels exactly its
    pending and running hosts (finished ones keep their result), closes its
    approval if that is still pending, and sends a stop frame to exactly the
    connected agents of its running hosts, in host order; whoever may not stop it
    gets an error and nothing is committed or sent. *)
Theorem stop_task_spec user i s r s1 :
  wf_table ExecTask.ExecTask s → wf_table ExecTaskHost.ExecTaskHost s →
  wf_table ApprovalRequest.ApprovalRequest s →
  stop_task user i s = (r, s1) →
  (∃ t, may_stop user i s t ∧
     r = inr (JObj [("id", JInt i); ("status", JStr "canceled")]) ∧
     committed s1 = canceled_db t (now s) (work s) ∧
     out s1 = out s ++ (select_rows (ExecTaskHostRepository.of_task i) (tbl (work s)) ≫= stop_effects (work s))) ∨
  ((∀ t, ~ may_stop user i s t) ∧ (∃ e, r = inl e) ∧ s1 = s).
Proof using agent_connected.
  intros [Wt _] Wh Wa Hrun. by_wp Hrun. unfold stop_task, owned_task.
  assert (∀ e : exn, ~ (∃ t, may_stop user i s t) →
    (λ r s1, (∃ t, may_stop user i s t ∧ r = inr (JObj [("id", JInt i); ("status", JStr "canceled")]) ∧
       committed s1 = canceled_db t (now s) (work s) ∧
       out s1 = out s ++ (select_rows (ExecTaskHostRepository.of_task i) (tbl (work s)) ≫= stop_effects (work s))) ∨
     ((∀ t, ~ may_stop user i s t) ∧ (∃ e, r = inl e) ∧ s1 = s)) (inl e) s) as Herr.
  { intros e Hn. right. split_and!; [|eauto|done]. intros t Ht. apply Hn. by exists t. }
  unfold may_stop in *. do 2 wp_step; [|apply Herr; intros (t & H1 & _); congruence].
  do 4 wp_step. wp_step; [|apply Herr; intros (t & _ & H1 & _); congruence].
  rename a into t. assert (tbl (work s) !! i = Some t) as Ht by assumption.
  do 2 wp_step.
  2: { apply Herr. intros (t' & _ & Ht' & Hown & _). simplify_eq.
       match goal with H : _ || _ = false |- _ => apply orb_false_iff in H as [Ha Ho%bool_decide_eq_false] end.
       destruct Hown; congruence. }
  wp_step. do 2 wp_step.
  2: { apply Herr. intros (t' & _ & Ht' & _ & Hst). simplify_eq.
       match goal with H : str_in _ _ = false |- _ => apply (proj2 (str_in_true _ _)) in Hst; congruence end. }
  match goal with H : str_in _ _ = true |- _ => rename H into Hst end.
  assert (ExecTask.id t = i) as Hid by by apply (wf_id Wt i t).
  pose proof (cancel_exec_task_record_run t s Wh Wa ltac:(by rewrite Hid)) as Hcancel. apply str_in_true in Hst.
  rewrite (proj2 (str_in_true (ExecTask.status t) _EXEC_CANCELLABLE_STATUSES)) in Hcancel.
  2: { unfold _EXEC_CANCELLABLE_STATUSES. clear -Hst. rewrite !elem_of_cons, elem_of_nil in Hst. rewrite !elem_of_cons. tauto. }
  wp_step. eapply wp_of_run; [exact Hcancel|].
  cbv beta iota. wp_run; [|done]. left. exists t. rewrite Hid. split_and!; try done.
  match goal with H : _ || _ = true |- _ => apply orb_true_iff in H as [|H%bool_decide_eq_true] end; auto.
Qed.

(** ** Retrying *)

Definition may_retry (user : CurrentUser) (i : Z) (s : St) (t : ExecTask.ExecTask) : Prop :=
  has_perm user "exec:task:retry" = true ∧ tbl (work s) !! i = Some t ∧
  (is_admin user = true ∨ ExecTask.created_by t = Some (user_id user)) ∧
  ExecTask.status t ∈ ["failed"; "timed_out"; "canceled"].

(** What the sensitivity test of a retry says. *)
Definition retry_test (t : ExecTask.ExecTask) (s : St) (sensitive : bool) (reason : string) : Prop :=
  ∃ content, retry_content t s = (inr content, s) ∧
    detect_sensitive float_str (ExecTask.command t) (Some content)
      (Z.of_nat (length (default [] (ExecTask.target_host_ids t)))) s = (inr (sensitive, reason), s).

Lemma retry_task_run user i t sensitive reason s :
  may_retry user i s t → retry_test t s sensitive reason →
  retry_task user i s = (if sensitive then retry_sensitive user t reason else retry_now t) s.
Proof.
  intros (Hp & Ht & Hown & Hst) (content & Hc & Hd). unfold retry_task, owned_task.
  erewrite bind_inr by (rewrite require_perm_eq, Hp; reflexivity).
  erewrite bind_inr.
  2: { erewrite bind_inr by reflexivity. rewrite Ht. erewrite bind_inr by reflexivity.
       erewrite bind_inr; [reflexivity|]. unfold guard_or.
       replace (_ || _) with true; [reflexivity|]. symmetry. apply orb_true_iff.
       destruct Hown; [by left|right; by apply bool_decide_eq_true]. }
  erewrite bind_inr by (unfold guard_or; rewrite (proj2 (str_in_true _ _) Hst); reflexivity).
  erewrite bind_inr by exact Hc. by erewrite bind_inr by exact Hd.
Qed.

Lemma closed_approval_biz o (m : gmap Z ApprovalRequest.ApprovalRequest) j a :
  m !! j = Some a → ∃ a', closed_approval o m !! j = Some a' ∧ ApprovalRequest.biz_id a' = ApprovalRequest.biz_id a.
Proof.
  intros Hj. unfold closed_approval. destruct (z_truthy o); [|eauto].
  destruct (decide (z_or o 0 = j)) as [<-|Hne]; [|rewrite lookup_alter_ne by done; eauto].
  rewrite lookup_alter_eq, Hj. eexists. split; [done|]. unfold canceled_approval. by case_match.
Qed.

(** A retry of a task that already has an approval request cannot go through
    the approval gate again: when the sensitivity test hits, the second request
    violates the UNIQUE constraint on [biz_id], whatever became of the first,
    and the retry fails with nothing committed. *)
Theorem retry_needs_second_approval user i s r s1 t reason j a :
  wf_table ExecTask.ExecTask s → wf_table ApprovalRequest.ApprovalRequest s →
  may_retry user i s t → retry_test t s true reason →
  tbl (work s) !! j = Some a → ApprovalRequest.biz_id a = i →
  retry_task user i s = (r, s1) →
  r = inl (IntegrityError "approval_request") ∧ committed s1 = committed s ∧ out s1 = out s.
Proof.
  intros [Wt _] Wa Hm Htest Ha Hb Hrun. rewrite (retry_task_run _ _ _ _ _ _ Hm Htest) in Hrun.
  destruct Hm as (_ & Ht & _ & _). assert (ExecTask.id t = i) as Hid by by apply (wf_id Wt i t).
  by_wp Hrun. unfold retry_sensitive, ExecTaskRepository.optimistic_update. rewrite Hid. wp_step.
  eapply wp_cas_hit; [exact Ht|by rewrite bool_decide_eq_true_2, Z.eqb_refl|]. cbv beta iota.
  do 2 wp_step; [|done]. wp_step. eapply wp_of_run; [apply close_orphan_run; by apply wf_table_put_ne|]. cbv beta iota.
  unfold _approval_no. do 8 wp_step; [|done]. exfalso.
  match goal with H : accepts _ _ _ = true |- _ => apply accepts_spec in H as (_ & _ & Hu) end.
  destruct (closed_approval_biz (ExecTask.approval_id t) _ j a Ha) as (a' & Ha' & Hb').
  assert (conflict row a' = false) as Hcf.
  { apply (Hu j). change (work (?s0 <| work := ?d |> <| seqs := ?q |>)) with d.
    rewrite tbl_set_tbl, tbl_put_row_ne. exact Ha'. }
  subst row. cbn in Hcf. by rewrite Hb', Hb, Z.eqb_refl, orb_true_r in Hcf.
Qed.

Definition requeued_host (h : ExecTaskHost.ExecTaskHost) : ExecTaskHost.ExecTaskHost :=
  if str_in (ExecTaskHost.status h) ["failed"; "timed_out"; "canceled"]
  then h <| ExecTaskHost.status := "pending" |> else h.
Definition restarted_task (n : Z) (t : ExecTask.ExecTask) : ExecTask.ExecTask :=
  t <| ExecTask.status := "running" |> <| ExecTask.version := ExecTask.version t + 1 |>
    <| ExecTask.started_at := Some n |> <| ExecTask.finished_at := None |>.
Definition retried_db (t : ExecTask.ExecTask) (n : Z) (d : Db) : Db :=
  set_tbl ((λ h, if ExecTaskHostRepository.of_task (ExecTask.id t) h then requeued_host h else h) <$> tbl d)
    (set_tbl (closed_approval (ExecTask.approval_id t) (tbl d))
       (set_tbl (<[ExecTask.id t := restarted_task n t]> (tbl d)) d)).

Lemma retry_now_run t s :
  wf_table ExecTaskHost.ExecTaskHost s → wf_table ApprovalRequest.ApprovalRequest s →
  tbl (work s) !! ExecTask.id t = Some t →
  let d := retried_db t (now s) (work s) in
  retry_now t s =
    (_kick_off_exec (ExecTask.id t) false;;
     ret (JObj [("id", JInt (ExecTask.id t)); ("status", JStr "running")]))
      (s <| work := d |> <| committed := d |>).
Proof.
  intros Wh Wa Ht d. unfold retry_now.
  erewrite bind_inr.
  2: { unfold ExecTaskRepository.optimistic_update, db_cas. rewrite Ht, bool_decide_eq_true_2, Z.eqb_refl by done.
       reflexivity. }
  erewrite bind_inr by reflexivity. erewrite bind_inr by reflexivity. erewrite bind_inr.
  2: { unfold db_upd, modify. rewrite tbl_put_row, lookup_insert_eq, put_row_twice. reflexivity. }
  erewrite bind_inr by (apply close_orphan_run; by apply wf_table_put_ne).
  erewrite bind_inr by reflexivity. erewrite bind_inr.
  2: { eapply (for_each_selected_put _ requeued_host).
       - change (work (?s0 <| work := ?d |>)) with d. rewrite tbl_set_ne, tbl_put_row_ne. apply Wh.
       - intros h s1 _ Hh _. change (row_id h) with (ExecTaskHost.id h) in *.
         unfold requeued_host, ExecTaskHostRepository.update_status, when.
         destruct (str_in _ _); [|by rewrite put_row_id]. unfold db_upd, modify. by rewrite Hh. }
  by erewrite bind_inr by reflexivity.
Qed.

Lemma task_has_inprocess_agent_off i s :
  (∀ a, agent_online a = false) → task_has_inprocess_agent i s = (inr false, s).
Proof.
  intros Hoff. unfold task_has_inprocess_agent. erewrite bind_inr by reflexivity.
  assert (∀ l : list ExecTaskHost.ExecTaskHost, ∃ bs, map_each l host_agent_online s = (inr bs, s) ∧ existsb id bs = false)
    as Hl.
  { induction l as [|h l (bs & IH & Hbs)]; [by exists []|]. exists (false :: bs). split; [|done]. cbn.
    erewrite bind_inr; [by erewrite bind_inr by exact IH|]. unfold host_agent_online.
    destruct (_ =? 0); erewrite bind_inr by reflexivity; unfold ret; do 2 f_equal.
    destruct (_ ≫= _); [by rewrite Hoff, andb_false_r|done]. }
  destruct (Hl (select_rows (ExecTaskHostRepository.of_task i) (tbl (work s)))) as (bs & Hbs & E).
  erewrite bind_inr by exact Hbs. by rewrite E.
Qed.

(** A retry that the sensitivity test lets through puts the task back to
    running with one version step, requeues exactly its failed, timed-out and
    canceled hosts (successful ones are not run again), closes a pending
    approval, commits, and only then hands the task to a worker. *)
Theorem retry_requeues user i t reason s :
  wf_table ExecTask.ExecTask s → wf_table ExecTaskHost.ExecTaskHost s →
  wf_table ApprovalRequest.ApprovalRequest s →
  may_retry user i s t → retry_test t s false reason →
  broker_up = true → (∀ a, agent_online a = false) →
  let d := retried_db t (now s) (work s) in
  retry_task user i s =
    (inr (JObj [("id", JInt i); ("status", JStr "running")]),
     s <| work := d |> <| committed := d |> <| out := out s ++ [EDelay "exec_dispatch" i] |>).
Proof.
  intros [Wt _] Wh Wa Hm Htest Hb Hoff d. rewrite (retry_task_run _ _ _ _ _ _ Hm Htest).
  destruct Hm as (_ & Ht & _). assert (ExecTask.id t = i) as Hid by by apply (wf_id Wt i t).
  rewrite retry_now_run by (done || by rewrite Hid). rewrite Hid. fold d.
  erewrite bind_inr; [reflexivity|]. unfold _kick_off_exec. erewrite bind_inr.
  2: { apply (task_has_inprocess_agent_off i). exact Hoff. }
  unfold exec_dispatch_delay. by rewrite Hb.
Qed.

(** ** A sensitive retry that is approved *)

Lemma start_hosts_none g hl hosts s :
  (∀ h, h ∈ hosts → is_pending h = false) → start_hosts redis_up g hl hosts s = (inr [], s).
Proof.
  induction hosts as [|h hosts IH]; intros Hn; [done|]. cbn [start_hosts].
  rewrite (Hn h) by (apply elem_of_cons; by left). cbn [negb]. apply IH.
  intros h' Hh'. apply Hn, elem_of_cons. by right.
Qed.

(** A running task with no pending host is never worked on: a dispatch
    reports the concurrency limit (or raises), commits nothing, sends nothing and
    leaves the task running.  A sensitive retry puts a task there: it asks for
    approval without requeueing the hosts, so once approved it only ends by the
    timeout sweep. *)
Theorem dispatch_needs_pending_host i t s r s1 :
  tbl (work s) !! i = Some t → ExecTask.status t = "running" → work s = committed s →
  (∀ j h, tbl (work s) !! j = Some h → ExecTaskHost.exec_task_id h = i → ExecTaskHost.status h ≠ "pending") →
  exec_dispatch float_str container_str paramiko redis_up agent_connected i s = (r, s1) →
  s1 = s ∧ ∀ x, r = inr x → x = JObj [("ok", JBool false); ("reason", JStr "concurrency limit")].
Proof.
  intros Ht Hst Hc Hn Hrun. by_wp Hrun. unfold exec_dispatch, ExecTaskHostRepository.by_task.
  assert (s <| work := committed s |> = s) as Hs by (rewrite <-Hc; by destruct s).
  wp_step. wp_step. wp_step. rewrite Ht, (bool_decide_eq_true_2 _ Hst). cbv beta iota. cbn [negb]. wp_step.
  apply wp_reads; [apply preserves_limits|]. intros [exc|[g hl]] _; [by rewrite Hs|]. do 2 wp_step.
  wp_step. apply wp_reads; [apply preserves_content|]. intros [exc|content] _; [by rewrite Hs|].
  wp_step. eapply wp_of_run; [apply start_hosts_none|].
  { intros h [Hof [j Hj]]%elem_of_select_rows. apply bool_decide_eq_false.
    apply (Hn j h Hj). unfold ExecTaskHostRepository.of_task in Hof. lia. }
  cbv beta iota. apply wp_ret. rewrite Hs. split; [done|]. by intros x [= <-].
Qed.
End exec.

(** ** Witnesses *)

(** Host 4 is in group 5; [reboot] is a sensitive word. *)
Definition sensitive_words : ConfigRule.ConfigRule :=
  ConfigRule.mk 1 "exec_sensitive_word" (JObj [("words", JArr [JStr "reboot"])]) "".
Definition exec_db : Db :=
  empty_db
    <| config_rules := {[1 := sensitive_words]} |>
    <| hosts := {[4 := Host.mk 4 "web1" "10.0.0.4" "linux" "" (Some 5) "prod" JNull "normal" "online" "agent" (Some "a4") "" None "" None 0;
                  5 := Host.mk 5 "web2" "10.0.0.5" "linux" "" (Some 5) "prod" JNull "normal" "online" "agent" None "" None "" None 0]} |>.
Definition exec_st : St := on_db (λ _, exec_db) init_st <| seqs := {["asset_host" := 5]} |>.
Definition new_command (cmd : string) (ids : list Z) : NewTask.NewTask :=
  NewTask.mk "job" "command" ids None None (Some cmd) JNull "batch" 300 0 (Some 7) (Some 7) (Some [5]) JNull.
Definition run_create (d : NewTask.NewTask) (s : St) : (exn + Created.Created) * St :=
  create_exec_task_record (λ _, "") false true d s.

Lemma create_exec_task_record_spec_witness :
  (run_create (new_command "uptime; reboot" [4; 5]) exec_st).1 =
    inr (Created.mk 1 "20260102-001" "awaiting_approval" true (Some 1) true) ∧
  (run_create (new_command "uptime" [4; 4]) exec_st).1 = inl (IntegrityError "exec_task_host") ∧
  created_ok (λ _, "") false true (new_command "uptime; reboot" [4; 5]) exec_st
    (Created.mk 1 "20260102-001" "awaiting_approval" true (Some 1) true)
    (run_create (new_command "uptime; reboot" [4; 5]) exec_st).2.
Proof.
  split; [vm_compute; reflexivity|]. split; [vm_compute; reflexivity|].
  apply (create_exec_task_record_spec (λ _, "") false true (new_command "uptime; reboot" [4; 5]) exec_st
    (inr (Created.mk 1 "20260102-001" "awaiting_approval" true (Some 1) true))
    (run_create (new_command "uptime; reboot" [4; 5]) exec_st).2).
  1-4: apply wf_tableb_spec; vm_compute; reflexivity.
  vm_compute. reflexivity.
Defined.

(** Task 9 of user 7 on hosts 4 and 5, the first of which reached [st1]. *)
Definition ran_task (cmd status : string) : ExecTask.ExecTask :=
  ExecTask.mk 9 "20260102-009" "job" "command" None None (Some cmd) JNull
    (Some [4; 5]) "batch" 600 0 0 0 None status (Some 7) (Some 1767355200000000) None 1 1767355200000000.
Definition ran_host (i : Z) (status : string) : ExecTaskHost.ExecTaskHost :=
  ExecTaskHost.mk i 9 (i + 3) "web" "10.0.0.4" "agent" status None (Some 1767355200000000) None.
Definition ran_st (cmd status st1 : string) : St :=
  on_db (λ _, exec_db <| exec_tasks := {[9 := ran_task cmd status]} |>
                      <| exec_task_hosts := {[1 := ran_host 1 st1; 2 := ran_host 2 "success"]} |>) init_st
    <| seqs := {["asset_host" := 5; "exec_task" := 9; "exec_task_host" := 2; "approval_request" := 2]} |>.
Definition exec_operator : CurrentUser :=
  plain_user 7 ["exec:task:run"; "exec:task:stop"; "exec:task:retry"; "exec:task:log"] [5].

Lemma stop_task_spec_witness :
  let s := ran_st "uptime" "running" "running" in
  let s1 := (stop_task (λ _, true) exec_operator 9 s).2 in
  out s1 = [EAgentFrame "a4" (stop_frame 1)] ∧
  ExecTaskHost.status <$> rows (tbl (committed s1)) = ["canceled"; "success"] ∧
  (∃ t, may_stop exec_operator 9 s t ∧ committed s1 = canceled_db t (now s) (work s)).
Proof.
  intros s s1. split; [vm_compute; reflexivity|]. split; [vm_compute; reflexivity|].
  destruct (stop_task (λ _, true) exec_operator 9 s) as [r s2] eqn:E.
  destruct (stop_task_spec (λ _, true) exec_operator 9 s r s2) as [(t & Hm & _ & Hc & _)|(Hn & _)].
  1-3: apply wf_tableb_spec; vm_compute; reflexivity.
  - exact E.
  - exists t. split; [exact Hm|]. exact Hc.
  - destruct (Hn (ran_task "uptime" "running")). split_and!; [reflexivity..|by right|by str_mem].
Defined.

(** The request of task 9 was approved before. *)
Definition approved_before (s : St) : St :=
  on_db (λ d, d <| approval_requests := {[2 := ApprovalRequest.mk 2 "AP-2" "exec" 9 "" "" 7 "" "approved" "manual"
                                           None None (Some 11) None 1 0]} |>) s.
Lemma retry_needs_second_approval_witness :
  let s := approved_before (ran_st "reboot" "failed" "failed") in
  ∃ s1, retry_task (λ _, "") (λ _, "") false true (λ _, false) true (λ _, false) exec_operator 9 s =
    (inl (IntegrityError "approval_request"), s1) ∧ committed s1 = committed s.
Proof.
  intros s.
  destruct (retry_task (λ _, "") (λ _, "") false true (λ _, false) true (λ _, false) exec_operator 9 s) as [r s1] eqn:E.
  destruct (retry_needs_second_approval (λ _, "") (λ _, "") false true (λ _, false) true (λ _, false)
    exec_operator 9 s r s1 (ran_task "reboot" "failed") "sensitive word: reboot" 2
    (ApprovalRequest.mk 2 "AP-2" "exec" 9 "" "" 7 "" "approved" "manual" None None (Some 11) None 1 0))
    as (-> & Hc & _).
  1-2: apply wf_tableb_spec; vm_compute; reflexivity.
  - split_and!; [reflexivity..|by right|by str_mem].
  - exists "reboot". split; vm_compute; reflexivity.
  - reflexivity.
  - reflexivity.
  - exact E.
  - by exists s1.
Defined.

Lemma retry_requeues_witness :
  let s := ran_st "uptime" "failed" "failed" in
  let d := retried_db (ran_task "uptime" "failed") (now s) (work s) in
  ExecTaskHost.status <$> rows (tbl d) = ["pending"; "success"] ∧
  retry_task (λ _, "") (λ _, "") false true (λ _, false) true (λ _, false) exec_operator 9 s =
    (inr (JObj [("id", JInt 9); ("status", JStr "running")]),
     s <| work := d |> <| committed := d |> <| out := out s ++ [EDelay "exec_dispatch" 9] |>).
Proof.
  intros s d. split; [vm_compute; reflexivity|].
  apply (retry_requeues (λ _, "") (λ _, "") false true (λ _, false) true (λ _, false)
    exec_operator 9 (ran_task "uptime" "failed") "" s).
  1-3: apply wf_tableb_spec; vm_compute; reflexivity.
  - split_and!; [reflexivity..|by right|by str_mem].
  - exists "uptime". split; vm_compute; reflexivity.
  - reflexivity.
  - done.
Defined.

(** Task 9 failed before [reboot] became a sensitive word: retried, approved by
    a manager, and then left running with its failed host. *)
Definition stalled_st : St :=
  let s1 := (run_request (retry_task (λ _, "") (λ _, "") false true (λ _, false) true (λ _, false) exec_operator 9)
               (ran_st "reboot" "failed" "failed")).2 in
  (run_request (approve true approver 3 "ok") s1).2.
Lemma dispatch_needs_pending_host_witness :
  ExecTask.status <$> rows (tbl (committed stalled_st)) = ["running"] ∧
  ExecTaskHost.status <$> rows (tbl (committed stalled_st)) = ["failed"; "success"] ∧
  exec_dispatch (λ _, "") (λ _, "") false true (λ _, false) 9 stalled_st =
    (inr (JObj [("ok", JBool false); ("reason", JStr "concurrency limit")]), stalled_st).
Proof.
  split; [vm_compute; reflexivity|]. split; [vm_compute; reflexivity|].
  assert (∀ m : gmap Z ExecTaskHost.ExecTaskHost,
    forallb (λ h, negb (bool_decide (ExecTaskHost.status h = "pending"))) (map_to_list m).*2 = true →
    ∀ j h, m !! j = Some h → ExecTaskHost.status h ≠ "pending") as Hnone.
  { intros m Hm j h Hj Hp. rewrite forallb_forall in Hm. specialize (Hm h). rewrite Hp in Hm.
    discriminate Hm. apply list_elem_of_In, list_elem_of_fmap. exists (j, h).
    split; [done|]. by apply elem_of_map_to_list. }
  destruct (tbl (R:=ExecTask.ExecTask) (work stalled_st) !! 9) as [t|] eqn:Ht; [|vm_compute in Ht; discriminate].
  destruct (exec_dispatch (λ _, "") (λ _, "") false true (λ _, false) 9 stalled_st) as [r s1] eqn:E.
  destruct (dispatch_needs_pending_host (λ _, "") (λ _, "") false true (λ _, false) 9 t stalled_st r s1)
    as [-> Hr]; [exact Ht| |vm_compute; reflexivity| |exact E|].
  - vm_compute in Ht. by injection Ht as <-.
  - intros j h Hj _. apply (Hnone (tbl (work stalled_st))) with j; [vm_compute; reflexivity|done].
  - assert (is_Some (match r with inr x => Some x | inl _ => None end)) as [x Hx].
    { vm_compute in E. injection E as <-; eauto. }
    clear E. destruct r as [|x']; [discriminate Hx|]. rewrite (Hr x' eq_refl). reflexivity.
Defined.

(** ** Dispatching leaves the other tables alone *)

Section quiet_dispatch.
Context {R : Type} `{Table R, !TableNe R ExecTask.ExecTask, !TableNe R ExecTaskHost.ExecTaskHost, !TableNe R ExecLog.ExecLog}.
Variable float_str : Q → string.
Variable container_str : json → string.
Variables paramiko redis_up : bool.
Variable agent_connected : string → bool.
#[local] Hint Resolve preserves_detect_sensitive preserves_limits preserves_content : preserves.

Lemma acquire_still (m : gmap Z R) key limit : preserves (still m) (acquire_semaphore redis_up key limit).
Proof. intros s [? ?]. unfold acquire_semaphore. by repeat case_match. Qed.
Lemma release_still (m : gmap Z R) key : preserves (still m) (release_semaphore redis_up key).
Proof. intros s [? ?]. unfold release_semaphore. by repeat case_match. Qed.
#[local] Hint Resolve acquire_still release_still : preserves.

Lemma start_hosts_still (m : gmap Z R) g hl hosts : preserves (still m) (start_hosts redis_up g hl hosts).
Proof.
  induction hosts as [|th hosts IH]; cbn [start_hosts]; unfold release_host, mark_running; preserves_auto.
Qed.
Lemma run_host_still (m : gmap Z R) task content n i :
  preserves (still m) (run_host float_str paramiko redis_up agent_connected task content n i).
Proof.
  unfold run_host. apply preserves_bind; [preserves_auto|]. intros [th|]; [|apply preserves_ret].
  intros s Hs. unfold finally.
  assert (preserves (still m) (run_host_body float_str paramiko agent_connected task content n th))
    as Hbody.
  { apply run_host_body_preserves; [unfold ExecLogRepository.append|..]; intros; unfold finalize_host;
      preserves_auto. }
  specialize (Hbody s Hs). destruct (run_host_body _ _ _ _ _ _ _ s) as [r s1].
  assert (preserves (still m) (release_host redis_up (ExecTaskHost.host_id th))) as Hrel
    by (unfold release_host; preserves_auto).
  specialize (Hrel s1 Hbody). by destruct (release_host _ _ s1) as [[?|?] ?].
Qed.

Lemma dispatch_still (m : gmap Z R) task_id :
  preserves (still m) (dispatch_here float_str container_str paramiko redis_up agent_connected task_id).
Proof.
  assert (∀ i, preserves (still m) (finish_task redis_up i)) as Hfin.
  { intros i. apply finish_preserves; intros; eauto with preserves. }
  unfold dispatch_here. apply preserves_bind; [|intros; apply preserves_ret]. unfold exec_dispatch.
  apply preserves_run_request; [|by intros s [? ?]]. unfold ExecTaskHostRepository.by_task.
  pose proof start_hosts_still. pose proof run_host_still. preserves_auto.
Qed.
End quiet_dispatch.
