(* ===== verification/Schedule.v ===== *)
(** * Schedules: [services/schedule_service.py]

    Cron and interval schedules, the sweep of the beat that triggers those that
    are due, and the runs they spawn. The exec tasks of a run are those of
    [Exec], and so are their approvals and dispatch. *)

From S2P Require Import Prelude.
From S2P Require Import Models.
From S2P Require Import Session.
From S2P Require Import Repositories.
From S2P Require Import Access.
From S2P Require Import Executors.
From S2P Require Import Dispatch.
From S2P Require Import Approval.
From S2P Require Import Exec.

(** Request bodies (schemas/__init__.py). *)
Module ScheduleCreate.
Record ScheduleCreate := mk {
  name : string; kind : string; script_id : option Z; command : option string; params : json;
  trigger_type : string; cron_expr : option string; timezone : string; interval_sec : option Z;
  target_host_ids : list Z; timeout_sec : Z; retry : Z; concurrency_limit : Z; enabled : Z }.
End ScheduleCreate.
(** A field that is [None] was not sent or was sent as null. *)
Module ScheduleUpdate.
Record ScheduleUpdate := mk {
  name : option string; kind : option string; script_id : option Z; command : option string;
  params : option json; trigger_type : option string; cron_expr : option string;
  timezone : option string; interval_sec : option Z; target_host_ids : option (list Z);
  timeout_sec : option Z; retry : option Z; concurrency_limit : option Z }.
End ScheduleUpdate.

(** What [_spawn_run] has stored, before the task is dispatched. *)
Module Spawned.
Record Spawned := mk { run_id : Z; task_id : Z; approval_id : option Z }.
Definition to_json (c : Spawned) : json := JObj [
  ("run_id", JInt (run_id c)); ("task_id", JInt (task_id c));
  ("status", JStr (match approval_id c with Some _ => "awaiting_approval" | None => "running" end));
  ("approve_required", JBool (match approval_id c with Some _ => true | None => false end));
  ("approval_id", jz (approval_id c));
  ("sensitive_flag", JBool (match approval_id c with Some _ => true | None => false end))].
End Spawned.

Definition microseconds : Z := 1000000.
(** [strftime('%Y%m%d%H%M%S')] of now. *)
Definition time_stamp (day : Z * Z * Z) (t : Z) : string :=
  let sec := (t / microseconds) mod 86400 in
  date_prefix day +:+ zpad 2 (sec / 3600) +:+ zpad 2 ((sec / 60) mod 60) +:+ zpad 2 (sec mod 60).
Example time_stamp_ex : time_stamp (2026, 1, 2) 1767355205999999 = "20260102120005".
Proof. reflexivity. Qed.

Section schedule.
Variable float_str : Q → string.
Variable container_str : json → string.
Variable paramiko : bool.
Variable redis_up : bool.
Variable agent_connected : string → bool.
Variable broker_up : bool.
Variable agent_online : string → bool.
Variable ilike : string → string → bool.
(** [croniter(expr)]: its error message, and [croniter(expr, base).get_next],
    [None] when either raises. *)
Variable cron_error : string → option string.
Variable cron_next : string → Z → option Z.
(** [str(exc)[:500]] *)
Variable exc_text : exn → string.

Definition _validate_schedule (data : ScheduleCreate.ScheduleCreate) : Op () :=
  guard_or (negb (bool_decide (ScheduleCreate.kind data = "script") && negb (z_truthy (ScheduleCreate.script_id data))))
    (BadRequestError "script_id required for kind=script");;
  guard_or (negb (bool_decide (ScheduleCreate.kind data = "command") && negb (s_truthy (ScheduleCreate.command data))))
    (BadRequestError "command required for kind=command");;
  if bool_decide (ScheduleCreate.trigger_type data = "cron") then
    guard_or (s_truthy (ScheduleCreate.cron_expr data)) (BadRequestError "cron_expr required for cron trigger");;
    match cron_error (default "" (ScheduleCreate.cron_expr data)) with
    | Some m => raise (BadRequestError ("invalid cron expression: " +:+ m))
    | None => ret ()
    end
  else if bool_decide (ScheduleCreate.trigger_type data = "interval") then
    guard_or (1 <=? z_or (ScheduleCreate.interval_sec data) 0)
      (BadRequestError "interval_sec required for interval trigger")
  else raise (BadRequestError "invalid trigger_type").

(** ** What is due *)

(** [max(started_at)] of the runs of a schedule *)
Definition last_start (schedule_id : Z) (runs : list ScheduleRun.ScheduleRun) : option Z :=
  foldr (λ r m, if ScheduleRun.schedule_task_id r =? schedule_id
                then Some (match m with Some x => Z.max (ScheduleRun.started_at r) x
                                   | None => ScheduleRun.started_at r end)
                else m) None runs.
Definition is_due (now : Z) (last : option Z) (t : ScheduleTask.ScheduleTask) : bool :=
  if bool_decide (ScheduleTask.trigger_type t = "interval") then
    match last with
    | None => true
    | Some l => z_or (ScheduleTask.interval_sec t) 0 * microseconds <=? now - l
    end
  else if bool_decide (ScheduleTask.trigger_type t = "cron") then
    match ScheduleTask.cron_expr t ≫= λ e, cron_next e (default now last) with
    | Some next_run => (next_run <=? now) && match last with None => true | Some _ => next_run <=? now end
    | None => false
    end
  else false.
Definition enabled_task (t : ScheduleTask.ScheduleTask) : bool := ScheduleTask.enabled t =? 1.
Definition enabled_tasks : Op (list ScheduleTask.ScheduleTask) := db_select enabled_task.
Definition _due_tasks : Op (list ScheduleTask.ScheduleTask) :=
  tasks ← enabled_tasks;
  t ← utc_now;
  runs ← db_select (λ _ : ScheduleRun.ScheduleRun, true);
  ret (filter (λ x, is_due t (last_start (ScheduleTask.id x) runs) x = true) tasks).

(** ** Spawning a run *)

Definition _run_no (schedule_id : Z) : Op string :=
  d ← gets today; t ← utc_now;
  ret ("R-" +:+ pretty schedule_id +:+ "-" +:+ time_stamp d t).

Definition schedule_hosts (sched : ScheduleTask.ScheduleTask) : list Z := default [] (ScheduleTask.target_host_ids sched).
Definition get_host (hid : Z) : Op Host.Host :=
  o ← db_get hid; some_or o (NotFoundError ("host " +:+ pretty hid +:+ " not found")).

(** The script of the schedule at its current version. *)
Definition schedule_content (sched : ScheduleTask.ScheduleTask) : Op (option string * option Z) :=
  if bool_decide (ScheduleTask.kind sched = "script") then
    guard_or (z_truthy (ScheduleTask.script_id sched)) (BadRequestError "script_id required for kind=script");;
    o ← db_get (z_or (ScheduleTask.script_id sched) 0);
    script ← some_or o (NotFoundError "script not found");
    v ← ScriptVersionRepository.by_script_version (Script.id script) (Script.current_version script);
    sv ← some_or v (NotFoundError "script version not found");
    ret (Some (ScriptVersion.content sv), Some (Script.current_version script))
  else if bool_decide (ScheduleTask.kind sched = "command") then
    guard_or (s_truthy (ScheduleTask.command sched)) (BadRequestError "command required for kind=command");;
    ret (None, None)
  else raise (BadRequestError "invalid kind").

Definition scheduled_task (sched : ScheduleTask.ScheduleTask) (run_id requester_id : Z) (name_prefix : string)
    (script_version : option Z) (sensitive : bool) : ExecTask.ExecTask := {|
  ExecTask.id := 0; ExecTask.task_no := "SC-" +:+ pretty run_id;
  ExecTask.name := name_prefix +:+ " " +:+ ScheduleTask.name sched;
  ExecTask.kind := ScheduleTask.kind sched; ExecTask.script_id := ScheduleTask.script_id sched;
  ExecTask.script_version := script_version; ExecTask.command := ScheduleTask.command sched;
  ExecTask.params := ScheduleTask.params sched; ExecTask.target_host_ids := Some (schedule_hosts sched);
  ExecTask.mode := "batch"; ExecTask.timeout_sec := ScheduleTask.timeout_sec sched;
  ExecTask.retry := ScheduleTask.retry sched;
  ExecTask.sensitive_flag := if sensitive then 1 else 0;
  ExecTask.approve_required := if sensitive then 1 else 0;
  ExecTask.approval_id := None; ExecTask.status := "created";
  ExecTask.created_by := Some requester_id; ExecTask.started_at := None;
  ExecTask.finished_at := None; ExecTask.version := 0; ExecTask.created_at := 0 |}.
Definition scheduled_host (task_id : Z) (h : Host.Host) : ExecTaskHost.ExecTaskHost :=
  ExecTaskHost.mk 0 task_id (Host.id h) (Host.hostname h) (Host.ip h) (Host.connector h) "pending" None None None.

(** The sensitive branch: an approval request, and no dispatch. *)
Definition hold_for_approval (task : ExecTask.ExecTask) (why reason : string) (requester_id : Z) : Op Z :=
  no ← _approval_no;
  a ← db_add (exec_approval (ExecTask.id task) no ("执行审批：" +:+ ExecTask.name task) (why +:+ reason) reason requester_id);
  won ← ExecTaskRepository.optimistic_update (ExecTask.id task) "created" "awaiting_approval" (ExecTask.version task);
  guard_or won state_changed;;
  db_upd (ExecTask.id task) (λ t, t <| ExecTask.approval_id := Some (ApprovalRequest.id a) |>
                                    <| ExecTask.version := ExecTask.version task + 1 |>);;
  ret (ApprovalRequest.id a).
Definition run_at_once (task : ExecTask.ExecTask) : Op () :=
  won ← ExecTaskRepository.optimistic_update (ExecTask.id task) "created" "running" (ExecTask.version task);
  guard_or won state_changed;;
  n ← utc_now;
  db_upd (ExecTask.id task) (λ t, t <| ExecTask.version := ExecTask.version task + 1 |>
                                    <| ExecTask.started_at := Some n |>).

Definition spawn_record (sched : ScheduleTask.ScheduleTask) (requester_id : Z) (name_prefix : string)
    : Op Spawned.Spawned :=
  hosts ← map_each (schedule_hosts sched) get_host;
  '(content, version) ← schedule_content sched;
  '(sensitive, reason) ← detect_sensitive float_str (ScheduleTask.command sched) content
    (Z.of_nat (length (remove_dups (schedule_hosts sched))));
  run_no ← _run_no (ScheduleTask.id sched);
  run ← db_add (ScheduleRun.mk 0 (ScheduleTask.id sched) run_no "running" None 0 None None);
  task ← db_add (scheduled_task sched (ScheduleRun.id run) requester_id name_prefix version sensitive);
  for_each hosts (λ h, _ ← db_add (scheduled_host (ExecTask.id task) h); ret ());;
  db_upd (ScheduleRun.id run) (λ r, r <| ScheduleRun.task_id := Some (ExecTask.id task) |>);;
  if sensitive : bool then
    a ← hold_for_approval task "定时任务敏感操作需审批：" reason requester_id;
    db_commit;;
    ret (Spawned.mk (ScheduleRun.id run) (ExecTask.id task) (Some a))
  else
    run_at_once task;;
    db_commit;;
    ret (Spawned.mk (ScheduleRun.id run) (ExecTask.id task) None).

Definition kick_off (task_id : Z) : Op () :=
  _kick_off_exec float_str container_str paramiko redis_up agent_connected broker_up agent_online task_id false.
Definition _spawn_run (sched : ScheduleTask.ScheduleTask) (requester_id : Z) (name_prefix : string) : Op json :=
  c ← spawn_record sched requester_id name_prefix;
  match Spawned.approval_id c with
  | Some _ => ret (Spawned.to_json c)
  | None => kick_off (Spawned.task_id c);; ret (Spawned.to_json c)
  end.

(** ** The sweep of the beat *)

Definition record_failure (sched : ScheduleTask.ScheduleTask) (e : exn) : Op () :=
  db_rollback;;
  run_no ← _run_no (ScheduleTask.id sched);
  try_catch (_ ← db_add (ScheduleRun.mk 0 (ScheduleTask.id sched) run_no "failed" None 0 None (Some (exc_text e)));
             db_commit)
    (λ _, db_rollback).
Definition trigger_one (count : Z) (sched : ScheduleTask.ScheduleTask) : Op Z :=
  try_catch (_ ← _spawn_run sched (z_or (ScheduleTask.created_by sched) 0) "[schedule]"; ret (count + 1))
    (λ e, record_failure sched e;; ret count).
Definition trigger_due : Op Z := run_request (
  due ← _due_tasks;
  fold_each due 0 trigger_one).

(** ** Schedules *)

Definition _get_schedule (schedule_id : Z) : Op ScheduleTask.ScheduleTask :=
  o ← db_get schedule_id; some_or o (NotFoundError "schedule not found").

Definition schedule_out (t : ScheduleTask.ScheduleTask) : json := JObj [
  ("id", JInt (ScheduleTask.id t)); ("name", JStr (ScheduleTask.name t)); ("kind", JStr (ScheduleTask.kind t));
  ("script_id", jz (ScheduleTask.script_id t)); ("command", js (ScheduleTask.command t));
  ("params", ScheduleTask.params t); ("trigger_type", JStr (ScheduleTask.trigger_type t));
  ("cron_expr", js (ScheduleTask.cron_expr t)); ("timezone", JStr (ScheduleTask.timezone t));
  ("interval_sec", jz (ScheduleTask.interval_sec t));
  ("target_host_ids", match ScheduleTask.target_host_ids t with
                      | Some l => JObj [("ids", JArr (JInt <$> l))] | None => JNull end);
  ("timeout_sec", JInt (ScheduleTask.timeout_sec t)); ("retry", JInt (ScheduleTask.retry t));
  ("concurrency_limit", JInt (ScheduleTask.concurrency_limit t)); ("enabled", JInt (ScheduleTask.enabled t));
  ("created_by", jz (ScheduleTask.created_by t)); ("created_at", jtime (Some (ScheduleTask.created_at t)))].
Definition run_out (r : ScheduleRun.ScheduleRun) : json := JObj [
  ("id", JInt (ScheduleRun.id r)); ("schedule_task_id", JInt (ScheduleRun.schedule_task_id r));
  ("run_no", JStr (ScheduleRun.run_no r)); ("status", JStr (ScheduleRun.status r));
  ("task_id", jz (ScheduleRun.task_id r)); ("started_at", jtime (Some (ScheduleRun.started_at r)));
  ("finished_at", jtime (ScheduleRun.finished_at r)); ("error_msg", js (ScheduleRun.error_msg r))].

Definition list_schedules (name : option string) (enabled : option Z) (page size : Z) : Op json :=
  rows ← db_select (λ t : ScheduleTask.ScheduleTask,
    (if s_truthy name then ilike (ScheduleTask.name t) ("%" +:+ default "" name +:+ "%") else true) &&
    (match enabled with Some e => ScheduleTask.enabled t =? e | None => true end));
  ret (JObj [("list", JArr (schedule_out <$> page_of rows page size));
             ("total", JInt (Z.of_nat (length rows))); ("page", JInt page); ("size", JInt size)]).

Definition create_schedule (user : CurrentUser) (data : ScheduleCreate.ScheduleCreate) : Op Z :=
  _validate_schedule data;;
  sched ← db_add {|
    ScheduleTask.id := 0; ScheduleTask.name := ScheduleCreate.name data; ScheduleTask.kind := ScheduleCreate.kind data;
    ScheduleTask.script_id := ScheduleCreate.script_id data; ScheduleTask.command := ScheduleCreate.command data;
    ScheduleTask.params := ScheduleCreate.params data; ScheduleTask.trigger_type := ScheduleCreate.trigger_type data;
    ScheduleTask.cron_expr := ScheduleCreate.cron_expr data; ScheduleTask.timezone := ScheduleCreate.timezone data;
    ScheduleTask.interval_sec := ScheduleCreate.interval_sec data;
    ScheduleTask.target_host_ids := Some (ScheduleCreate.target_host_ids data);
    ScheduleTask.timeout_sec := ScheduleCreate.timeout_sec data; ScheduleTask.retry := ScheduleCreate.retry data;
    ScheduleTask.concurrency_limit := ScheduleCreate.concurrency_limit data;
    ScheduleTask.enabled := ScheduleCreate.enabled data; ScheduleTask.created_by := Some (user_id user);
    ScheduleTask.version := 0; ScheduleTask.created_at := 0 |};
  db_commit;;
  ret (ScheduleTask.id sched).

Definition some_else {A} (new old : option A) : option A := match new with Some _ => new | None => old end.
Definition updated_schedule (data : ScheduleUpdate.ScheduleUpdate) (t : ScheduleTask.ScheduleTask) : ScheduleTask.ScheduleTask :=
  t <| ScheduleTask.name := default (ScheduleTask.name t) (ScheduleUpdate.name data) |>
    <| ScheduleTask.kind := default (ScheduleTask.kind t) (ScheduleUpdate.kind data) |>
    <| ScheduleTask.script_id := some_else (ScheduleUpdate.script_id data) (ScheduleTask.script_id t) |>
    <| ScheduleTask.command := some_else (ScheduleUpdate.command data) (ScheduleTask.command t) |>
    <| ScheduleTask.params := default (ScheduleTask.params t) (ScheduleUpdate.params data) |>
    <| ScheduleTask.trigger_type := default (ScheduleTask.trigger_type t) (ScheduleUpdate.trigger_type data) |>
    <| ScheduleTask.cron_expr := some_else (ScheduleUpdate.cron_expr data) (ScheduleTask.cron_expr t) |>
    <| ScheduleTask.timezone := default (ScheduleTask.timezone t) (ScheduleUpdate.timezone data) |>
    <| ScheduleTask.interval_sec := some_else (ScheduleUpdate.interval_sec data) (ScheduleTask.interval_sec t) |>
    <| ScheduleTask.target_host_ids := some_else (ScheduleUpdate.target_host_ids data) (ScheduleTask.target_host_ids t) |>
    <| ScheduleTask.timeout_sec := default (ScheduleTask.timeout_sec t) (ScheduleUpdate.timeout_sec data) |>
    <| ScheduleTask.retry := default (ScheduleTask.retry t) (ScheduleUpdate.retry data) |>
    <| ScheduleTask.concurrency_limit := default (ScheduleTask.concurrency_limit t) (ScheduleUpdate.concurrency_limit data) |>.
(** The object is only written back by the commit, after the expression was checked. *)
Definition update_schedule (schedule_id : Z) (data : ScheduleUpdate.ScheduleUpdate) : Op () :=
  sched ← _get_schedule schedule_id;
  let sched' := updated_schedule data sched in
  match (if bool_decide (ScheduleTask.trigger_type sched' = "cron")
         then cron_error (default "" (ScheduleTask.cron_expr sched')) else None) with
  | Some m => raise (BadRequestError ("invalid cron expression: " +:+ m))
  | None => db_upd schedule_id (updated_schedule data);; db_commit
  end.

(** The runs of a deleted schedule go with it (ON DELETE CASCADE). *)
Definition delete_schedule (schedule_id : Z) : Op () :=
  _ ← _get_schedule schedule_id;
  runs ← db_select (λ r : ScheduleRun.ScheduleRun, ScheduleRun.schedule_task_id r =? schedule_id);
  for_each runs (λ r, db_delete (R:=ScheduleRun.ScheduleRun) (ScheduleRun.id r));;
  db_delete (R:=ScheduleTask.ScheduleTask) schedule_id;;
  db_commit.

Definition set_schedule_status (schedule_id enabled : Z) : Op () :=
  _ ← _get_schedule schedule_id;
  db_upd schedule_id (λ t : ScheduleTask.ScheduleTask, t <| ScheduleTask.enabled := enabled |>);;
  db_commit.

Definition run_now (user : CurrentUser) (schedule_id : Z) : Op json :=
  sched ← _get_schedule schedule_id;
  _spawn_run sched (user_id user) "[run-now]".

Definition list_runs (schedule_id page size : Z) : Op json :=
  rows ← db_select (λ r : ScheduleRun.ScheduleRun, ScheduleRun.schedule_task_id r =? schedule_id);
  ret (JObj [("list", JArr (run_out <$> page_of rows page size));
             ("total", JInt (Z.of_nat (length rows))); ("page", JInt page); ("size", JInt size)]).

(** ** Retrying a run *)

Definition reopen_run (run_id : Z) : Op () :=
  db_upd run_id (λ r : ScheduleRun.ScheduleRun,
    r <| ScheduleRun.status := "running" |> <| ScheduleRun.finished_at := None |>).
Definition retry_held (user : CurrentUser) (run_id : Z) (task : ExecTask.ExecTask) (reason : string) : Op json :=
  won ← ExecTaskRepository.optimistic_update (ExecTask.id task) (ExecTask.status task) "awaiting_approval"
          (ExecTask.version task);
  guard_or won state_changed;;
  _close_orphan_approval task;;
  no ← _approval_no;
  a ← db_add (exec_approval (ExecTask.id task) no ("执行审批：" +:+ ExecTask.name task)
                ("重试触发敏感复检：" +:+ reason) reason (user_id user));
  db_upd (ExecTask.id task) (λ t, t <| ExecTask.version := ExecTask.version task + 1 |>
    <| ExecTask.approval_id := Some (ApprovalRequest.id a) |> <| ExecTask.sensitive_flag := 1 |>);;
  reopen_run run_id;;
  db_commit;;
  ret (Spawned.to_json (Spawned.mk run_id (ExecTask.id task) (Some (ApprovalRequest.id a)))).
Definition retry_task_now (run_id : Z) (task : ExecTask.ExecTask) : Op json :=
  won ← ExecTaskRepository.optimistic_update (ExecTask.id task) (ExecTask.status task) "running" (ExecTask.version task);
  guard_or won state_changed;;
  n ← utc_now;
  db_upd (ExecTask.id task) (λ t, t <| ExecTask.version := ExecTask.version task + 1 |>
    <| ExecTask.started_at := Some n |> <| ExecTask.finished_at := None |>);;
  _close_orphan_approval task;;
  hosts ← ExecTaskHostRepository.by_task (ExecTask.id task);
  for_each hosts (λ th,
    when (str_in (ExecTaskHost.status th) ["failed"; "timed_out"; "canceled"])
      (ExecTaskHostRepository.update_status (ExecTaskHost.id th) "pending" id));;
  reopen_run run_id;;
  db_commit;;
  kick_off (ExecTask.id task);;
  ret (JObj [("run_id", JInt run_id); ("task_id", JInt (ExecTask.id task)); ("status", JStr "running")]).

(** The task of a run, when it can be retried. *)
Definition retryable_task (run : ScheduleRun.ScheduleRun) : Op (option ExecTask.ExecTask) :=
  let i := z_or (ScheduleRun.task_id run) 0 in
  if i =? 0 then ret None else
  o ← db_get i;
  ret (match o with
       | Some t => if str_in (ExecTask.status t) ["failed"; "timed_out"; "canceled"] then Some t else None
       | None => None
       end).
Definition retry_run (user : CurrentUser) (schedule_id run_id : Z) : Op json :=
  o ← db_get run_id;
  run ← some_or (match o with
                 | Some r => if ScheduleRun.schedule_task_id r =? schedule_id then Some r else None
                 | None => None end) (NotFoundError "run not found");
  sched ← _get_schedule schedule_id;
  t ← retryable_task run;
  match t with
  | Some task =>
      content ← retry_content task;
      '(sensitive, reason) ← detect_sensitive float_str (ExecTask.command task) (Some content)
        (Z.of_nat (length (default [] (ExecTask.target_host_ids task))));
      if sensitive : bool then retry_held user (ScheduleRun.id run) task reason
      else retry_task_now (ScheduleRun.id run) task
  | None => _spawn_run sched (user_id user) "[retry]"
  end.

(** ** The API (api/v1/endpoints/schedule.py) *)

Inductive schedule_request :=
  | SList (u : CurrentUser) (name : option string) (enabled : option Z) (page size : Z)
  | SCreate (u : CurrentUser) (d : ScheduleCreate.ScheduleCreate)
  | SUpdate (u : CurrentUser) (i : Z) (d : ScheduleUpdate.ScheduleUpdate)
  | SDelete (u : CurrentUser) (i : Z)
  | SStatus (u : CurrentUser) (i enabled : Z)
  | SRunNow (u : CurrentUser) (i : Z)
  | SRuns (u : CurrentUser) (i page size : Z)
  | SRetry (u : CurrentUser) (i run_id : Z)
  | STrigger.
Definition schedule_handle (q : schedule_request) : Op json :=
  match q with
  | SList u n e p z => require_perm u "schedule:list";; list_schedules n e p z
  | SCreate u d => require_perm u "schedule:add";; i ← create_schedule u d; ret (JObj [("id", JInt i)])
  | SUpdate u i d => require_perm u "schedule:edit";; update_schedule i d;; ret JNull
  | SDelete u i => require_perm u "schedule:del";; delete_schedule i;; ret JNull
  | SStatus u i e => require_perm u "schedule:edit";; set_schedule_status i e;; ret JNull
  | SRunNow u i => require_perm u "schedule:run";; run_now u i
  | SRuns u i p z => require_perm u "schedule:list";; list_runs i p z
  | SRetry u i r => require_perm u "schedule:retry";; retry_run u i r
  | STrigger => n ← trigger_due; ret (JInt n)
  end.

(** ** What a spawned run is *)

(** The task once its run is spawned. *)
Definition held_task (t : ExecTask.ExecTask) (approval_id : Z) : ExecTask.ExecTask :=
  t <| ExecTask.status := "awaiting_approval" |> <| ExecTask.approval_id := Some approval_id |>
    <| ExecTask.version := ExecTask.version t + 1 |>.
Definition running_task (t : ExecTask.ExecTask) (now : Z) : ExecTask.ExecTask :=
  t <| ExecTask.status := "running" |> <| ExecTask.version := ExecTask.version t + 1 |>
    <| ExecTask.started_at := Some now |>.
Definition waits_for_approval (s s1 : St) (aid : Z) (task_id : Z) : Prop :=
  ∃ a, tbl (R:=ApprovalRequest.ApprovalRequest) (work s) !! aid = None ∧
    tbl (committed s1) = <[aid := a]> (tbl (work s)) ∧
    ApprovalRequest.biz_type a = "exec" ∧ ApprovalRequest.biz_id a = task_id ∧
    ApprovalRequest.status a = "pending".

Definition spawned_ok (sched : ScheduleTask.ScheduleTask) (requester : Z) (prefix : string) (s : St)
    (c : Spawned.Spawned) (s1 : St) : Prop :=
  ∃ hosts content version sensitive reason added run_no,
    Forall2 (λ hid h, tbl (work s) !! hid = Some h) (schedule_hosts sched) hosts ∧
    NoDup (schedule_hosts sched) ∧
    schedule_content sched s = (inr (content, version), s) ∧
    detect_sensitive float_str (ScheduleTask.command sched) content
      (Z.of_nat (length (schedule_hosts sched))) s = (inr (sensitive, reason), s) ∧
    _run_no (ScheduleTask.id sched) s = (inr run_no, s) ∧
    tbl (committed s1) = <[Spawned.run_id c := ScheduleRun.mk (Spawned.run_id c) (ScheduleTask.id sched) run_no
      "running" (Some (Spawned.task_id c)) (now s) None None]> (tbl (work s)) ∧
    tbl (R:=ScheduleRun.ScheduleRun) (work s) !! Spawned.run_id c = None ∧
    tbl (R:=ExecTask.ExecTask) (work s) !! Spawned.task_id c = None ∧
    rows (tbl (committed s1)) = rows (tbl (work s)) ++ added ∧
    Forall2 (λ h r, r = scheduled_host (Spawned.task_id c) h <| ExecTaskHost.id := ExecTaskHost.id r |>) hosts added ∧
    out s1 = out s ∧
    let t := scheduled_task sched (Spawned.run_id c) requester prefix version sensitive
      <| ExecTask.id := Spawned.task_id c |> <| ExecTask.created_at := now s |> in
    if sensitive : bool then
      ∃ aid, Spawned.approval_id c = Some aid ∧ waits_for_approval s s1 aid (Spawned.task_id c) ∧
        tbl (committed s1) = <[Spawned.task_id c := held_task t aid]> (tbl (work s))
    else
      Spawned.approval_id c = None ∧
      tbl (R:=ApprovalRequest.ApprovalRequest) (committed s1) = tbl (work s) ∧
      tbl (committed s1) = <[Spawned.task_id c := running_task t (now s)]> (tbl (work s)).

Lemma wp_get_hosts ids (Q : exn + list Host.Host → St → Prop) s :
  (∀ e, Q (inl e) s) → (∀ hs, Forall2 (λ hid h, tbl (work s) !! hid = Some h) ids hs → Q (inr hs) s) →
  wp (map_each ids get_host) Q s.
Proof.
  intros Herr. revert Q Herr. induction ids as [|hid ids IH]; intros Q Herr HQ; cbn [map_each].
  - apply wp_ret. by apply HQ.
  - unfold get_host. wp_run; auto. apply IH; [done|]. intros hs Hhs. wp_run. apply HQ. by constructor.
Qed.
Lemma reads_schedule_content I sched : preserves I (schedule_content sched).
Proof. unfold schedule_content, ScriptVersionRepository.by_script_version. preserves_auto. Qed.
Lemma reads_run_no I i : preserves I (_run_no i).
Proof. unfold _run_no. preserves_auto. Qed.

Lemma wp_hold task why reason requester (Q : exn + Z → St → Prop) s :
  wf_table ApprovalRequest.ApprovalRequest s → tbl (work s) !! ExecTask.id task = Some task →
  ExecTask.status task = "created" →
  (∀ e s1, committed s1 = committed s → out s1 = out s → Q (inl e) s1) →
  (∀ a s1, committed s1 = committed s → out s1 = out s →
     tbl (R:=ApprovalRequest.ApprovalRequest) (work s) !! ApprovalRequest.id a = None →
     tbl (work s1) = <[ApprovalRequest.id a := a]> (tbl (work s)) →
     ApprovalRequest.biz_type a = "exec" → ApprovalRequest.biz_id a = ExecTask.id task →
     ApprovalRequest.status a = "pending" →
     tbl (work s1) = <[ExecTask.id task := held_task task (ApprovalRequest.id a)]> (tbl (work s)) →
     tbl (R:=ExecTaskHost.ExecTaskHost) (work s1) = tbl (work s) →
     tbl (R:=ScheduleRun.ScheduleRun) (work s1) = tbl (work s) → Q (inr (ApprovalRequest.id a)) s1) →
  wp (hold_for_approval task why reason requester) Q s.
Proof.
  intros Hwf Hi Hst Herr Hok. set (i := ExecTask.id task) in *. unfold hold_for_approval, _approval_no,
    ExecTaskRepository.optimistic_update. fold i.
  do 7 wp_step. apply wp_db_add_last; [by apply wf_table_seq|by intros; apply Herr|].
  intros a s1 Ha _ (W1 & _ & C1 & N1 & _ & _ & O1) _ Ta Fa. rows_simpl.
  assert (tbl (work s1) !! i = Some task) as Hi1 by by rewrite W1, tbl_set_ne.
  wp_step. eapply wp_cas_hit; [exact Hi1|by rewrite Hst, bool_decide_eq_true_2, Z.eqb_refl by done|]. cbv beta iota.
  wp_step. wp_step; [|done]. wp_step. eapply wp_upd_hit; [rewrite tbl_put_row; apply lookup_insert_eq|]. cbv beta iota.
  rewrite put_row_twice. wp_step. change (row_id a) with (ApprovalRequest.id a) in *.
  apply Hok; rows_simpl; try done; try (by rewrite W1, tbl_set_ne); by rewrite Ha.
Qed.

Lemma wp_run_at_once task (Q : exn + () → St → Prop) s :
  tbl (work s) !! ExecTask.id task = Some task → ExecTask.status task = "created" →
  Q (inr ()) (put_row (ExecTask.id task) (running_task task (now s)) s) →
  wp (run_at_once task) Q s.
Proof.
  intros Hi Hst Hok. unfold run_at_once, ExecTaskRepository.optimistic_update. wp_step.
  eapply wp_cas_hit; [exact Hi|by rewrite Hst, bool_decide_eq_true_2, Z.eqb_refl by done|]. cbv beta iota.
  do 2 wp_step; [|done]. do 2 wp_step. eapply wp_upd_hit; [rewrite tbl_put_row; apply lookup_insert_eq|].
  cbv beta iota. by rewrite put_row_twice.
Qed.

Lemma wp_spawn_record sched requester prefix (Q : exn + Spawned.Spawned → St → Prop) s :
  wf_table ExecTask.ExecTask s → wf_table ExecTaskHost.ExecTaskHost s → wf_table ScheduleRun.ScheduleRun s →
  wf_table ApprovalRequest.ApprovalRequest s → wf_table Host.Host s →
  (∀ e s1, committed s1 = committed s → out s1 = out s → Q (inl e) s1) →
  (∀ c s1, work s1 = committed s1 → spawned_ok sched requester prefix s c s1 → Q (inr c) s1) →
  wp (spawn_record sched requester prefix) Q s.
Proof.
  intros Wt Wh Wr Wa Wo Herr Hok. unfold spawn_record. wp_step.
  apply wp_get_hosts; [by intros; apply Herr|]. intros hosts Hhosts. wp_step.
  apply wp_reads; [apply reads_schedule_content|]. intros [e|[content version]] Hcontent; [by apply Herr|]. cbv beta iota. wp_step.
  apply wp_reads; [apply preserves_detect_sensitive|]. intros [e|[sensitive reason]] Hsens; [by apply Herr|]. cbv beta iota. wp_step.
  apply wp_reads; [apply reads_run_no|]. intros [e|run_no] Hno; [by apply Herr|]. wp_step.
  apply wp_db_add_last; [exact Wr|by intros; apply Herr|]. intros run s1 Hrun Wr1 F1 _ Tr Fr. wp_step.
  pose proof F1 as (_ & _ & C1 & N1 & _ & _ & O1).
  apply wp_db_add_last; [by apply (only_table_wf _ _ F1)|intros; apply Herr; congruence|].
  intros task s2 Htask Wt2 F2 _ Tt Ft. pose proof F2 as (_ & _ & C2 & N2 & _ & _ & O2).
  change (row_id task) with (ExecTask.id task) in *. change (row_id run) with (ScheduleRun.id run) in *.
  set (i := ExecTask.id task) in *. set (k := ScheduleRun.id run) in *. wp_step.
  apply wp_add_hosts; [by apply (only_table_wf _ _ F2), (only_table_wf _ _ F1)|intros; apply Herr; congruence|].
  intros added s3 Wh3 F3 Hr Hadd. cbv beta iota. pose proof F3 as (_ & _ & C3 & N3 & _ & _ & O3).
  assert (NoDup (schedule_hosts sched)) as Hnd.
  { eapply (added_targets s s3 _ i (scheduled_host i)); [done..|exact Hhosts|exact Hr|exact Hadd]. }
  rewrite remove_dups_NoDup in Hsens by done.
  assert (tbl (R:=ScheduleRun.ScheduleRun) (work s3) = <[k := run]> (tbl (work s))) as Er
    by (by rewrite (only_table_ne _ _ F3), (only_table_ne _ _ F2)).
  wp_step. eapply wp_upd_hit; [rewrite Er; apply lookup_insert_eq|]. cbv beta iota. set (s4 := put_row k _ s3).
  set (run' := run <| ScheduleRun.task_id := Some i |>) in s4.
  assert (tbl (work s4) = <[k := run']> (tbl (R:=ScheduleRun.ScheduleRun) (work s))) as Er4
    by (unfold s4; by rewrite tbl_put_row, Er, insert_insert_eq).
  assert (tbl (R:=ExecTask.ExecTask) (work s4) = <[i := task]> (tbl (work s))) as Et4.
  { unfold s4. rewrite tbl_put_row_ne, (only_table_ne _ _ F3), Tt. by rewrite (only_table_ne _ _ F1). }
  assert (tbl (R:=ApprovalRequest.ApprovalRequest) (work s4) = tbl (work s)) as Ea4.
  { unfold s4. by rewrite tbl_put_row_ne, (only_table_ne _ _ F3), (only_table_ne _ _ F2), (only_table_ne _ _ F1). }
  assert (rows (tbl (R:=ExecTaskHost.ExecTaskHost) (work s4)) = rows (tbl (work s)) ++ added) as Eh4.
  { unfold s4. rewrite tbl_put_row_ne, Hr. by rewrite (only_table_ne _ _ F2), (only_table_ne _ _ F1). }
  assert (now s4 = now s ∧ out s4 = out s ∧ committed s4 = committed s) as (En & Eo & Ec)
    by (unfold s4; rows_simpl; split_and!; congruence).
  assert (tbl (work s4) !! i = Some task) as Hi4 by (rewrite Et4; apply lookup_insert_eq).
  assert (ExecTask.status task = "created") as Hst by by rewrite Htask.
  assert (∀ c s5, Spawned.run_id c = k → Spawned.task_id c = i → work s5 = committed s5 →
    tbl (R:=ScheduleRun.ScheduleRun) (committed s5) = tbl (work s4) →
    tbl (R:=ExecTaskHost.ExecTaskHost) (committed s5) = tbl (work s4) → out s5 = out s →
    (if sensitive then ∃ aid, Spawned.approval_id c = Some aid ∧ waits_for_approval s s5 aid i ∧
       tbl (committed s5) = <[i := held_task task aid]> (tbl (work s4))
     else Spawned.approval_id c = None ∧ tbl (R:=ApprovalRequest.ApprovalRequest) (committed s5) = tbl (work s) ∧
       tbl (committed s5) = <[i := running_task task (now s)]> (tbl (work s4))) → Q (inr c) s5) as Hfin.
  { intros c s5 Ek Ei Hq E1 E2 E3 Hs. apply Hok; [done|].
    exists hosts, content, version, sensitive, reason, added, run_no. rewrite Ek, Ei.
    split_and!; try done.
    - rewrite E1, Er4. unfold run'. rewrite Hrun. done.
    - by rewrite <-(only_table_ne _ _ F1).
    - by rewrite E2, Eh4.
    - rewrite Htask in Hs. rewrite Et4 in Hs. rewrite N1 in Hs. destruct sensitive.
      + destruct Hs as (aid & ? & ? & Hs). exists aid. split_and!; [done..|]. by rewrite insert_insert_eq in Hs.
      + destruct Hs as (? & ? & Hs). split_and!; [done..|]. by rewrite insert_insert_eq in Hs. }
  destruct sensitive; wp_step.
  - apply wp_hold; [|exact Hi4|exact Hst|intros; apply Herr; congruence|].
    { apply wf_table_put_ne, (only_table_wf _ _ F3), (only_table_wf _ _ F2), (only_table_wf _ _ F1). exact Wa. }
    intros a s5 C5 O5 Fa Ta Hb Hbi Hbs T5 H5 R5. do 3 wp_step.
    apply Hfin; cbn; try done; [by rewrite O5|].
    exists (ApprovalRequest.id a). split_and!; [done| |done]. exists a. rewrite Ea4 in *. split_and!; done.
  - apply wp_run_at_once; [exact Hi4|exact Hst|]. do 3 wp_step.
    apply Hfin; cbn; rewrite ?tbl_put_row_ne, ?tbl_put_row; try done. rewrite En. by split_and!.
Qed.

(** ** The sweep *)

Lemma record_failure_returns sched e s : ∃ s', record_failure sched e s = (inr (), s').
Proof.
  unfold record_failure, db_rollback, _run_no, try_catch, utc_now, modify, gets, bind, ret. cbn.
  destruct (db_add _ _) as [[?|?] ?]; by eexists.
Qed.
Lemma trigger_one_returns count sched s :
  ∃ n s', trigger_one count sched s = (inr n, s') ∧ (n = count ∨ n = count + 1).
Proof.
  unfold trigger_one, try_catch. destruct (bind _ _ s) as [[e|n] s1] eqn:Hb.
  - destruct (record_failure_returns sched e s1) as [s2 E]. exists count, s2.
    unfold bind, ret. rewrite E. by split; [|left].
  - unfold bind, ret in Hb. destruct (_spawn_run _ _ _ s) as [[e|j] s2]; [done|]. injection Hb as <- <-.
    exists (count + 1), s2. split; [done|by right].
Qed.
Lemma sweep_returns due count s :
  ∃ n s', fold_each due count trigger_one s = (inr n, s') ∧ count ≤ n ≤ count + Z.of_nat (length due).
Proof.
  revert count s. induction due as [|sched due IH]; intros count s; cbn [fold_each length].
  - exists count, s. split; [done|lia].
  - destruct (trigger_one_returns count sched s) as (n & s1 & E & Hn).
    destruct (IH n s1) as (n' & s2 & E' & Hn'). exists n', s2. unfold bind. rewrite E. split; [done|lia].
Qed.
Definition due_now (s : St) : list ScheduleTask.ScheduleTask :=
  filter (λ t, is_due (now s) (last_start (ScheduleTask.id t) (select_rows (λ _, true) (tbl (work s)))) t = true)
    (select_rows enabled_task (tbl (work s))).
Lemma due_tasks_run s : _due_tasks s = (inr (due_now s), s).
Proof. done. Qed.

(** The sweep of the beat always returns: whatever a schedule raises, at
    its targets, its script, its approval or its dispatch, the sweep goes on with
    the next one; the number it returns is at most the number of due schedules. *)
Theorem trigger_due_total s :
  ∃ n s', trigger_due s = (inr n, s') ∧ 0 ≤ n ≤ Z.of_nat (length (due_now s)).
Proof.
  unfold trigger_due, run_request, bind. rewrite due_tasks_run.
  destruct (sweep_returns (due_now s) 0 s) as (n & s1 & -> & Hn). by eexists _, _.
Qed.

(** ** Cron schedules *)

(** No run of schedule [i]. *)
Definition never_run (i : Z) (m : gmap Z ScheduleRun.ScheduleRun) : Prop :=
  ∀ k r, m !! k = Some r → ScheduleRun.schedule_task_id r ≠ i.
Lemma never_run_last i m p : never_run i m → last_start i (select_rows p m) = None.
Proof.
  intros Hn. assert (∀ r, r ∈ select_rows p m → ScheduleRun.schedule_task_id r ≠ i) as Hl
    by (intros r [_ [k Hk]]%elem_of_select_rows; by eapply Hn).
  induction (select_rows p m) as [|r l IH]; [done|]. cbn.
  destruct (ScheduleRun.schedule_task_id r =? i) eqn:E.
  - exfalso. apply (Hl r); [apply elem_of_cons; by left|lia].
  - apply IH. intros x Hx. apply Hl, elem_of_cons. by right.
Qed.

Section other_schedule.
Context (i : Z) (m0 : gmap Z ScheduleTask.ScheduleTask).
#[local] Abbreviation runs_ok := (both (R:=ScheduleRun.ScheduleRun) (never_run i)).
#[local] Abbreviation tasks_ok := (both (R:=ScheduleTask.ScheduleTask) (eq m0)).

Lemma never_run_add r : ScheduleRun.schedule_task_id r ≠ i → preserves runs_ok (db_add r).
Proof.
  intros Hr. apply preserves_db_add; [done|]. intros s n [Hw Hc] _ _. split; [|done]. rewrite tbl_put_row.
  intros k x [[_ <-]|[_ Hx]]%lookup_insert_Some; [exact Hr|by eapply Hw].
Qed.
Lemma never_run_upd k f :
  (∀ r, ScheduleRun.schedule_task_id (f r) = ScheduleRun.schedule_task_id r) → preserves runs_ok (db_upd k f).
Proof.
  intros Hf. apply preserves_db_upd. intros s r [Hw Hc] Hk. split; [|done]. rewrite tbl_put_row.
  intros j x [[_ <-]|[_ Hx]]%lookup_insert_Some; [rewrite Hf|]; by eapply Hw.
Qed.

Lemma spawn_record_ok (I : St → Prop) sched requester prefix :
  (∀ r, ScheduleRun.schedule_task_id r = ScheduleTask.id sched → preserves I (db_add r)) →
  (∀ k f, (∀ r, ScheduleRun.schedule_task_id (f r) = ScheduleRun.schedule_task_id r) →
     preserves I (db_upd (R:=ScheduleRun.ScheduleRun) k f)) →
  (∀ t : ExecTask.ExecTask, preserves I (db_add t)) → (∀ h : ExecTaskHost.ExecTaskHost, preserves I (db_add h)) →
  (∀ a : ApprovalRequest.ApprovalRequest, preserves I (db_add a)) →
  (∀ k (f : ExecTask.ExecTask → ExecTask.ExecTask), preserves I (db_upd k f)) →
  (∀ k p (f : ExecTask.ExecTask → ExecTask.ExecTask), preserves I (db_cas k p f)) →
  (∀ name, preserves I (nextval name)) → preserves I db_commit →
  preserves I (spawn_record sched requester prefix).
Proof.
  intros Hrun Hupd ???????. unfold spawn_record, get_host. pose proof (reads_schedule_content I). pose proof (reads_run_no I).
  pose proof (preserves_detect_sensitive float_str I). unfold hold_for_approval, run_at_once, _approval_no, ExecTaskRepository.optimistic_update.
  preserves_auto; [by apply Hrun|by apply Hupd].
Qed.
Lemma spawn_record_runs sched requester prefix :
  ScheduleTask.id sched ≠ i → preserves runs_ok (spawn_record sched requester prefix).
Proof.
  intros Hne. apply spawn_record_ok; intros; eauto with preserves.
  - apply never_run_add. congruence.
  - by apply never_run_upd.
Qed.
Lemma spawn_record_tasks sched requester prefix : preserves tasks_ok (spawn_record sched requester prefix).
Proof. apply spawn_record_ok; intros; eauto with preserves. Qed.

(** A spawned run was committed. *)
Lemma wp_bind_any {A B} (m : Op A) (k : A → Op B) (Q : exn + B → St → Prop) s :
  (∀ e s1, Q (inl e) s1) → (∀ a s1, wp (k a) Q s1) → wp (m >>= k) Q s.
Proof. intros He Hk. apply wp_bind. unfold wp. destruct (m s) as [[e|a] s1]; [apply He|apply Hk]. Qed.
Lemma spawn_record_quiet sched requester prefix s :
  wp (spawn_record sched requester prefix) (λ r s', ∀ c, r = inr c → work s' = committed s') s.
Proof.
  unfold spawn_record. do 8 (apply wp_bind_any; [by intros|intros ? ?; try case_match]).
  - apply wp_bind_any; [by intros|intros ? ?]. do 3 wp_step. by intros.
  - apply wp_bind_any; [by intros|intros ? ?]. do 3 wp_step. by intros.
Qed.

Lemma kick_off_still {R} `{Table R, !TableNe R ExecTask.ExecTask, !TableNe R ExecTaskHost.ExecTaskHost,
    !TableNe R ExecLog.ExecLog} (m : gmap Z R) task_id : preserves (still m) (kick_off task_id).
Proof.
  pose proof (dispatch_still float_str container_str paramiko redis_up agent_connected m).
  unfold kick_off, _kick_off_exec, task_has_inprocess_agent, host_agent_online, exec_dispatch_delay,
    ExecTaskHostRepository.by_task. preserves_auto.
Qed.
Lemma spawn_run_both {R} `{Table R, !TableNe R ExecTask.ExecTask, !TableNe R ExecTaskHost.ExecTaskHost,
    !TableNe R ExecLog.ExecLog} (P : gmap Z R → Prop) sched requester prefix :
  preserves (both P) (spawn_record sched requester prefix) →
  preserves (both P) (_spawn_run sched requester prefix).
Proof.
  intros Hp s Hs. pose proof (Hp s Hs) as H1. pose proof (spawn_record_quiet sched requester prefix s) as Hq.
  unfold wp in Hq. unfold _spawn_run, bind. destruct (spawn_record _ _ _ s) as [[e|c] s1]; [exact H1|]. cbn in *.
  destruct (Spawned.approval_id c); [exact H1|]. pose proof (kick_off_still (tbl (work s1)) (Spawned.task_id c) s1) as Hk.
  destruct (kick_off _ s1) as [[e|u] s2]; cbn in *; (destruct Hk as [E1 E2]; [split; [done|by rewrite (Hq c eq_refl)]|]);
    (split; [rewrite E1|rewrite E2]; apply H1).
Qed.

Lemma record_failure_runs sched e : ScheduleTask.id sched ≠ i → preserves runs_ok (record_failure sched e).
Proof.
  intros Hne. pose proof (reads_run_no runs_ok). pose proof (both_rollback (never_run i)).
  unfold record_failure. apply preserves_bind; [auto with preserves|intros _].
  apply preserves_bind; [auto|intros no]. apply preserves_try; [|intros; auto with preserves].
  apply preserves_bind; [by apply never_run_add|intros; auto with preserves].
Qed.
Lemma trigger_one_runs n sched : ScheduleTask.id sched ≠ i → preserves runs_ok (trigger_one n sched).
Proof.
  intros Hne. unfold trigger_one. apply preserves_try.
  - apply preserves_bind; [|intros; apply preserves_ret]. by apply spawn_run_both, spawn_record_runs.
  - intros e. apply preserves_bind; [by apply record_failure_runs|intros; apply preserves_ret].
Qed.
Lemma trigger_one_tasks n sched : preserves tasks_ok (trigger_one n sched).
Proof.
  unfold trigger_one. apply preserves_try.
  - apply preserves_bind; [|intros; apply preserves_ret]. apply spawn_run_both, spawn_record_tasks.
  - intros e. pose proof (reads_run_no tasks_ok). unfold record_failure. preserves_auto.
Qed.
End other_schedule.

(** Beats, and whatever else happens that starts no run and changes no schedule. *)
Definition beside_schedules (s s' : St) : Prop :=
  work s' = committed s' ∧ tbl (R:=ScheduleTask.ScheduleTask) (committed s') = tbl (committed s) ∧
  tbl (R:=ScheduleRun.ScheduleRun) (committed s') = tbl (committed s).
Inductive beat : St → St → Prop :=
  | beat_sweep s : beat s (trigger_due s).2
  | beat_elsewhere s s' : beside_schedules s s' → beat s s'.

(** Schedule [i] is a cron schedule that never ran. *)
Definition idle_cron (m0 : gmap Z ScheduleTask.ScheduleTask) (i : Z) (s : St) : Prop :=
  work s = committed s ∧ tbl (committed s) = m0 ∧ never_run i (tbl (committed s)).

Lemma sweep_idle m0 i t s :
  (∀ e b n, cron_next e b = Some n → b < n) →
  (∀ k x, m0 !! k = Some x → ScheduleTask.id x = k) → m0 !! i = Some t → ScheduleTask.trigger_type t = "cron" →
  idle_cron m0 i s → idle_cron m0 i (trigger_due s).2.
Proof.
  intros Hnext Hids Ht Hcron (Hq & Hm & Hn).
  assert (∀ x, x ∈ due_now s → ScheduleTask.id x ≠ i) as Hdue.
  { intros x [Hd Hx]%list_elem_of_filter Hi. apply elem_of_select_rows in Hx as [_ [k Hk]].
    rewrite Hq, Hm in Hk. pose proof (Hids k x Hk) as Hkx. rewrite Hi in Hkx. subst k.
    assert (x = t) as -> by congruence. rewrite Hi, never_run_last in Hd by by rewrite Hq.
    unfold is_due in Hd. rewrite Hcron in Hd. cbn in Hd.
    destruct (ScheduleTask.cron_expr t) as [e|]; [|done]. cbn in Hd.
    destruct (cron_next e (now s)) as [n|] eqn:He; [|done]. specialize (Hnext _ _ _ He). apply andb_true_iff in Hd as [Hd _]. lia. }
  assert (both (R:=ScheduleRun.ScheduleRun) (never_run i) s ∧ both (R:=ScheduleTask.ScheduleTask) (eq m0) s) as Hs
    by (unfold both; rewrite Hq, Hm; by split).
  unfold trigger_due, run_request, bind. rewrite due_tasks_run.
  pose proof (preserves_fold_each (both (R:=ScheduleRun.ScheduleRun) (never_run i)) (due_now s) 0 trigger_one
    (λ n x Hx, trigger_one_runs i n x (Hdue x Hx)) s (proj1 Hs)) as [_ H1].
  pose proof (preserves_fold_each (both (R:=ScheduleTask.ScheduleTask) (eq m0)) (due_now s) 0 trigger_one
    (λ n x _, trigger_one_tasks m0 n x) s (proj2 Hs)) as [_ H2].
  destruct (fold_each (due_now s) 0 trigger_one s) as [o s1]. cbn in *. by split_and!.
Qed.

(** A cron schedule never starts by itself. [croniter] yields times after
    its base, and the sweep takes the present as the base of a schedule that has
    no run yet, so the next time is never due: over any sequence of beats, at
    whatever times, no run of it is ever made unless somebody runs it by hand. *)
Theorem cron_never_starts i t s s' :
  (∀ e b n, cron_next e b = Some n → b < n) →
  quiet ScheduleTask.ScheduleTask s → tbl (committed s) !! i = Some t → ScheduleTask.trigger_type t = "cron" →
  never_run i (tbl (committed s)) → rtc beat s s' → never_run i (tbl (committed s')).
Proof.
  intros Hnext [Hq Hwf] Ht Hcron Hn Hh.
  assert (idle_cron (tbl (committed s)) i s) as H0 by done.
  assert (∀ k x, tbl (committed s) !! k = Some x → ScheduleTask.id x = k) as Hids by (destruct Hwf as [_ Hw]; apply (wf_id Hw)).
  revert H0 Hids Ht. generalize (tbl (R:=ScheduleTask.ScheduleTask) (committed s)). intros m0 H0 Hids Ht. clear Hq Hwf Hn.
  enough (idle_cron m0 i s') as (_ & _ & H) by exact H.
  induction Hh as [s|s s1 s' He _ IH]; [done|]. apply IH. destruct He as [s|s s1 (Hq & E1 & E2)].
  - by eapply sweep_idle.
  - destruct H0 as (_ & H1 & H2). split; [done|]. by rewrite E1, E2.
Qed.

(** ** What a spawned run stores *)

(** C23: spawning a run of a schedule is one transaction. Either nothing is
    stored and nothing sent, or the run, its exec task and one pending host row
    per target were stored, with exactly the verdict of the exec rules of what is
    sensitive: a sensitive run is left waiting for a pending exec approval and is
    not dispatched, whoever or whatever asked for it; any other is stored as
    running and then dispatched. *)
Theorem spawn_run_spec sched requester prefix s r s1 :
  wf_table ExecTask.ExecTask s → wf_table ExecTaskHost.ExecTaskHost s → wf_table ScheduleRun.ScheduleRun s →
  wf_table ApprovalRequest.ApprovalRequest s → wf_table Host.Host s →
  _spawn_run sched requester prefix s = (r, s1) →
  (∃ e, r = inl e ∧ committed s1 = committed s ∧ out s1 = out s) ∨
  ∃ c s2, work s2 = committed s2 ∧ spawned_ok sched requester prefix s c s2 ∧
    match Spawned.approval_id c with
    | Some _ => r = inr (Spawned.to_json c) ∧ s1 = s2
    | None => (kick_off (Spawned.task_id c);; ret (Spawned.to_json c)) s2 = (r, s1)
    end.
Proof.
  intros Wt Wh Wr Wa Wo Hrun.
  assert (wp (spawn_record sched requester prefix) (λ o s2, match o with
    | inl _ => committed s2 = committed s ∧ out s2 = out s
    | inr c => work s2 = committed s2 ∧ spawned_ok sched requester prefix s c s2 end) s) as Hw
    by (apply wp_spawn_record; auto).
  unfold wp in Hw. unfold _spawn_run, bind in Hrun. destruct (spawn_record _ _ _ s) as [[e|c] s2].
  - injection Hrun as <- <-. left. by exists e.
  - destruct Hw as [Hq Hs]. right. exists c, s2. split_and!; [done..|].
    destruct (Spawned.approval_id c); [by injection Hrun as <- <-|exact Hrun].
Qed.
End schedule.

(** ** Witnesses *)

Definition reboot_at_night (trigger : string) (cmd : string) : ScheduleTask.ScheduleTask :=
  ScheduleTask.mk 3 "nightly" "command" None (Some cmd) JNull trigger (Some "0 2 * * *") "UTC" (Some 3600)
    (Some [4; 5]) 60 0 1 1 (Some 7) 0 0.
Definition schedule_st (sched : ScheduleTask.ScheduleTask) : St :=
  on_db (λ _, exec_db <| schedule_tasks := {[3 := sched]} |>) init_st
    <| seqs := {["asset_host" := 5; "schedule_task" := 3]} |>.
Definition spawn_at_night (cmd : string) : (exn + json) * St :=
  let sched := reboot_at_night "cron" cmd in
  _spawn_run (λ _, "") (λ _, "") false true (λ _, false) true (λ _, true) sched 7 "[schedule]" (schedule_st sched).

Lemma spawn_run_spec_witness :
  let sched := reboot_at_night "cron" "reboot" in
  let s1 := (spawn_at_night "reboot").2 in
  (spawn_at_night "reboot").1 = inr (Spawned.to_json (Spawned.mk 1 1 (Some 1))) ∧
  ExecTask.status <$> rows (tbl (committed s1)) = ["awaiting_approval"] ∧ out s1 = [] ∧
  ExecTask.status <$> rows (tbl (committed (spawn_at_night "uptime").2)) = ["success"] ∧
  ∃ c s2, spawned_ok (λ _, "") sched 7 "[schedule]" (schedule_st sched) c s2.
Proof.
  intros sched s1. do 4 (split; [vm_compute; reflexivity|]).
  destruct (spawn_run_spec (λ _, "") (λ _, "") false true (λ _, false) true (λ _, true) sched 7 "[schedule]"
    (schedule_st sched) (inr (Spawned.to_json (Spawned.mk 1 1 (Some 1)))) s1) as [(e & He & _)|(c & s2 & _ & Hok & Hc)].
  1-5: apply wf_tableb_spec; vm_compute; reflexivity.
  - unfold s1, spawn_at_night. apply run_pair. vm_compute. reflexivity.
  - discriminate He.
  - by exists c, s2.
Defined.

(** Every minute a cron expression of every hour is never due before its first run. *)
Lemma cron_never_starts_witness :
  let s := schedule_st (reboot_at_night "cron" "uptime") in
  let hourly (e : string) (b : Z) := Some (b + 3600 * microseconds) in
  let beat_once := trigger_due (λ _, "") (λ _, "") false true (λ _, false) true (λ _, true) hourly (λ _, "") in
  (beat_once s).1 = inr 0 ∧
  (beat_once (schedule_st (reboot_at_night "interval" "uptime"))).1 = inr 1 ∧
  never_run 3 (tbl (committed (beat_once (s <| now := now s + 86400 * microseconds |>)).2)).
Proof.
  intros s hourly beat_once. split; [vm_compute; reflexivity|]. split; [vm_compute; reflexivity|].
  apply (cron_never_starts (λ _, "") (λ _, "") false true (λ _, false) true (λ _, true) hourly (λ _, "")
    3 (reboot_at_night "cron" "uptime") (s <| now := now s + 86400 * microseconds |>)).
  - intros e b n [= <-]. unfold microseconds. lia.
  - split; [reflexivity|]. apply wf_tableb_spec. vm_compute. reflexivity.
  - reflexivity.
  - reflexivity.
  - intros k r Hk. discriminate Hk.
  - eapply rtc_l; [apply beat_sweep|apply rtc_refl].
Defined.
