(* ===== verification/WorkflowDef.v ===== *)
(** * Workflow definitions: [_validate_definition] of services/workflow_service.py

    The structural checks of a playbook definition and the three-colour search
    that refuses cycles, with the graph theory that makes the search right. *)

From S2P Require Import Prelude.
From S2P Require Import Models.

Definition NODE_TYPES : list string := ["exec_task"; "manual_approval"; "wait"; "callback"; "sleep"].
Definition _MAX_NODES : Z := 100.
Definition _MAX_EDGES : Z := 500.

(** ** The search *)

Inductive color := WHITE | GRAY | BLACK.
#[export] Instance color_eq_dec : EqDecision color.
Proof. solve_decision. Defined.

Definition cycle_error : exn := ValidationError "workflow definition contains a cycle".

(** [adj[src]] *)
Definition successors (edges : list (string * string)) (src : string) : list string :=
  (filter (λ e, e.1 = src) edges).*2.

Section search.
Variable edges : list (string * string).

(** The loop over [adj[node]], [visit] being the recursive call.  [None] is an
    exhausted fuel. *)
Fixpoint visit_successors (visit : string → gmap string color → option (exn + gmap string color))
    (l : list string) (c : gmap string color) : option (exn + gmap string color) :=
  match l with
  | [] => Some (inr c)
  | nxt :: l =>
      match c !! nxt with
      | None => Some (inl (KeyError nxt))
      | Some GRAY => Some (inl cycle_error)
      | Some WHITE =>
          match visit nxt c with
          | Some (inr c) => visit_successors visit l c
          | r => r
          end
      | Some BLACK => visit_successors visit l c
      end
  end.

Fixpoint visit (fuel : nat) (node : string) (c : gmap string color) : option (exn + gmap string color) :=
  match fuel with
  | O => None
  | S fuel =>
      match visit_successors (visit fuel) (successors edges node) (<[node := GRAY]> c) with
      | Some (inr c) => Some (inr (<[node := BLACK]> c))
      | r => r
      end
  end.

Fixpoint visit_keys (fuel : nat) (keys : list string) (c : gmap string color)
    : option (exn + gmap string color) :=
  match keys with
  | [] => Some (inr c)
  | k :: keys =>
      match c !! k with
      | None => Some (inl (KeyError k))
      | Some WHITE =>
          match visit fuel k c with
          | Some (inr c) => visit_keys fuel keys c
          | r => r
          end
      | Some _ => visit_keys fuel keys c
      end
  end.
End search.

(** [color = {k: WHITE for k in keys}] *)
Definition all_white (keys : list string) : gmap string color := list_to_map ((λ k, (k, WHITE)) <$> keys).

Section validate.
Context {S : Type}.
(** [str(ref)] of a reference that is not a string *)
Variable ref_str : json → string.

(** One more call than there are keys is enough fuel
    ([assert_acyclic_terminates]). *)
Definition _assert_acyclic (keys : list string) (edges : list (string * string)) : M S () :=
  match visit_keys edges (length keys) keys (all_white keys) with
  | Some (inr _) => ret ()
  | Some (inl e) => raise e
  | None => raise (OtherError "RecursionError")
  end.

(** ** The structural checks *)

Definition node_key (n : json) : option string :=
  match jget "key" n with Some (JStr k) => Some k | _ => None end.

Definition check_key (i : nat) (n : json) (keys : list string) : M S string :=
  match n with
  | JObj _ =>
      match node_key n with
      | Some k =>
          guard_or (negb (bool_decide (k = "")))
            (ValidationError ("node[" +:+ pretty i +:+ "].key is required"));;
          guard_or (negb (str_in k keys)) (ValidationError ("duplicate node key: " +:+ k));;
          ret k
      | None => raise (ValidationError ("node[" +:+ pretty i +:+ "].key is required"))
      end
  | _ => raise (ValidationError ("node[" +:+ pretty i +:+ "] must be an object"))
  end.

Definition known_type (n : json) : bool :=
  match jget "type" n with Some (JStr t) => str_in t NODE_TYPES | _ => false end.

Fixpoint check_nodes (i : nat) (nodes : list json) (keys : list string) : M S (list string) :=
  match nodes with
  | [] => ret keys
  | n :: nodes =>
      k ← check_key i n keys;
      guard_or (known_type n)
        (ValidationError ("node '" +:+ k +:+ "' type must be one of "
           +:+ "['callback', 'exec_task', 'manual_approval', 'sleep', 'wait']"));;
      check_nodes (1 + i)%nat nodes (keys ++ [k])
  end.

(** [ref not in keys]: a list or dict is not hashable. *)
Definition check_ref (keys : list string) (key field : string) (r : json) : M S (string * string) :=
  let unknown s := ValidationError ("node '" +:+ key +:+ "'." +:+ field +:+ " references unknown node '"
                                    +:+ s +:+ "'") in
  match r with
  | JStr s => guard_or (str_in s keys) (unknown s);; ret (s, key)
  | JArr _ | JObj _ => raise (TypeError "unhashable type")
  | _ => raise (unknown (ref_str r))
  end.

(** [node.get(field) or []] *)
Definition raw_refs (field : string) (n : json) : json :=
  match jget field n with Some v => if truthy v then v else JArr [] | None => JArr [] end.

Definition check_field (keys : list string) (n : json) (field : string) : M S (list (string * string)) :=
  let key := default "" (node_key n) in
  match raw_refs field n with
  | JArr refs => map_each refs (check_ref keys key field)
  | _ => raise (ValidationError ("node '" +:+ key +:+ "'." +:+ field +:+ " must be a list"))
  end.

Definition EDGE_FIELDS : list string := ["depends_on"; "on_success"; "on_failure"].
Definition check_edges (keys : list string) (nodes : list json) : M S (list (string * string)) :=
  ls ← map_each nodes (λ n, l ← map_each EDGE_FIELDS (check_field keys n); ret (mjoin l));
  ret (mjoin ls).

Definition _validate_definition (definition : json) : M S json :=
  match definition with
  | JObj _ =>
      match jget "nodes" definition with
      | Some (JArr nodes) =>
          guard_or (Z.of_nat (length nodes) <=? _MAX_NODES)
            (ValidationError ("definition exceeds node cap " +:+ pretty _MAX_NODES));;
          keys ← check_nodes 0 nodes [];
          edges ← check_edges keys nodes;
          guard_or (Z.of_nat (length edges) <=? _MAX_EDGES)
            (ValidationError ("definition exceeds edge cap " +:+ pretty _MAX_EDGES));;
          _assert_acyclic keys edges;;
          ret definition
      | _ => raise (ValidationError "definition.nodes must be a list")
      end
  | _ => raise (ValidationError "definition must be an object")
  end.
End validate.

(** ** The search finds a cycle exactly when there is one *)

Section acyclic.
Context (edges : list (string * string)).
#[local] Abbreviation edge x y := ((x, y) ∈ edges).
Definition acyclic : Prop := ∀ x, ~ tc (λ x y, edge x y) x x.

Lemma elem_of_successors x y : y ∈ successors edges x ↔ edge x y.
Proof.
  unfold successors. rewrite list_elem_of_fmap. split.
  - intros ([a b] & -> & [Ha Hin]%list_elem_of_filter). cbn in *. by subst.
  - intros Hin. exists (x, y). split; [done|]. by apply list_elem_of_filter.
Qed.

Definition whites (c : gmap string color) : gset string := dom (filter (λ kv, kv.2 = WHITE) c).
Lemma elem_of_whites c x : x ∈ whites c ↔ c !! x = Some WHITE.
Proof.
  unfold whites. rewrite elem_of_dom. split.
  - intros [v [Hv Hw]%map_lookup_filter_Some]. cbn in Hw. by subst.
  - intros Hx. exists WHITE. by apply map_lookup_filter_Some.
Qed.

(** Black nodes are finished: so are their successors, and no cycle passes
    through them. *)
Record finished (c : gmap string color) : Prop := {
  fin_closed : ∀ x y, c !! x = Some BLACK → edge x y → c !! y = Some BLACK;
  fin_acyclic : ∀ x, c !! x = Some BLACK → ~ tc (λ x y, edge x y) x x;
}.
(** What a call leaves: the grey path is back, black nodes stay, nothing turns
    white. *)
Record visited (c c' : gmap string color) : Prop := {
  vis_gray : ∀ x, c' !! x = Some GRAY ↔ c !! x = Some GRAY;
  vis_black : ∀ x, c !! x = Some BLACK → c' !! x = Some BLACK;
  vis_white : ∀ x, c' !! x = Some WHITE → c !! x = Some WHITE;
  vis_dom : ∀ x, is_Some (c !! x) → is_Some (c' !! x);
}.
#[local] Instance visited_preorder : PreOrder visited.
Proof.
  split; [by split|]. intros c1 c2 c3 [G1 B1 W1 D1] [G2 B2 W2 D2]. split; intros x; [by rewrite G2, G1|auto..].
Qed.

Lemma whites_visited c c' : visited c c' → (size (whites c') ≤ size (whites c))%nat.
Proof. intros Hv. apply subseteq_size. intros x. rewrite !elem_of_whites. apply (vis_white _ _ Hv). Qed.

Lemma whites_gray c x :
  c !! x = Some WHITE → (size (whites (<[x := GRAY]> c)) < size (whites c))%nat.
Proof.
  intros Hx. apply subset_size. split.
  - intros y. rewrite !elem_of_whites. by intros [[_ ?]|[_ ?]]%lookup_insert_Some.
  - intros Hsub. specialize (Hsub x (proj2 (elem_of_whites c x) Hx)).
    apply elem_of_whites in Hsub. by rewrite lookup_insert_eq in Hsub.
Qed.

(** A reached end: either a cycle exists, or the nodes [done] are finished. *)
Definition search_post (c : gmap string color) (done : list string)
    (r : option (exn + gmap string color)) : Prop :=
  match r with
  | Some (inl e) => e = cycle_error ∧ ~ acyclic
  | Some (inr c') => finished c' ∧ visited c c' ∧ ∀ y, y ∈ done → c' !! y = Some BLACK
  | None => False
  end.
Definition targets_known (c : gmap string color) : Prop := ∀ x y, edge x y → is_Some (c !! y).

Lemma visited_targets c c' : visited c c' → targets_known c → targets_known c'.
Proof. intros Hv Ht x y Hxy. by eapply vis_dom, Ht. Qed.

Definition gray_path (c : gmap string color) (node : string) : Prop :=
  ∀ g, c !! g = Some GRAY → rtc (λ x y, edge x y) g node.

Lemma gray_path_visited c c' node : visited c c' → gray_path c node → gray_path c' node.
Proof. intros Hv Hg g Hgray. apply Hg. by apply (vis_gray _ _ Hv). Qed.

Lemma visit_successors_post (rec : string → gmap string color → option (exn + gmap string color)) n node l c :
  (∀ nxt c, finished c → targets_known c → c !! nxt = Some WHITE → edge node nxt →
     gray_path c node → (size (whites c) ≤ n)%nat → search_post c [nxt] (rec nxt c)) →
  finished c → targets_known c → c !! node = Some GRAY → gray_path c node →
  (size (whites c) ≤ n)%nat → (∀ y, y ∈ l → edge node y) →
  search_post c l (visit_successors rec l c).
Proof.
  intros Hrec. revert c. induction l as [|nxt l IH]; intros c Hf Ht Hn Hg Hw Hl; cbn [visit_successors].
  { split_and!; [done|done|]. intros y Hy. by apply elem_of_nil in Hy. }
  assert (edge node nxt) as Hedge by (apply Hl, elem_of_cons; by left).
  assert (∀ y, y ∈ l → edge node y) as Hl' by (intros; apply Hl, elem_of_cons; by right).
  destruct (Ht _ _ Hedge) as [[] Hc]; rewrite Hc.
  - specialize (Hrec nxt c Hf Ht Hc Hedge Hg Hw). destruct (rec nxt c) as [[e|c1]|]; [exact Hrec| |done].
    destruct Hrec as (Hf1 & Hv1 & Hb1). assert (search_post c1 l (visit_successors rec l c1)) as Hpost.
    { apply IH; [done|by eapply visited_targets|by apply (vis_gray _ _ Hv1)|by eapply gray_path_visited| |done].
      etrans; [by apply whites_visited|done]. }
    destruct (visit_successors rec l c1) as [[e|c2]|]; [exact Hpost| |done].
    destruct Hpost as (Hf2 & Hv2 & Hb2). split_and!; [done|by etrans|].
    intros y [->|Hy]%elem_of_cons; [|by apply Hb2]. apply (vis_black _ _ Hv2), Hb1. by apply list_elem_of_singleton.
  - split; [done|]. intros Hac. apply (Hac nxt). eapply tc_rtc_l; [by apply Hg|]. by apply tc_once.
  - specialize (IH c Hf Ht Hn Hg Hw Hl'). destruct (visit_successors rec l c) as [[e|c2]|]; [exact IH| |done].
    destruct IH as (Hf2 & Hv2 & Hb2). split_and!; [done..|].
    intros y [->|Hy]%elem_of_cons; [by apply (vis_black _ _ Hv2)|by apply Hb2].
Qed.

(** Painting [node] black when all its successors are. *)
Lemma finished_black c node :
  finished c → c !! node = Some GRAY → (∀ y, edge node y → c !! y = Some BLACK) →
  finished (<[node := BLACK]> c).
Proof.
  intros [Hcl Hac] Hn Hs. split.
  - intros x y [[<- _]|[Hne Hx]]%lookup_insert_Some Hxy; (destruct (decide (node = y)) as [<-|Hy];
      [apply lookup_insert_eq|rewrite lookup_insert_ne by done]); eauto.
  - intros x [[<- _]|[Hne Hx]]%lookup_insert_Some Htc; [|by eapply Hac].
    assert (∀ y, rtc (λ x y, edge x y) y node → c !! y = Some BLACK → c !! node = Some BLACK) as Hreach.
    { intros y Hy. induction Hy as [|y z w Hyz _ IH]; [done|]. eauto. }
    assert (∃ y, edge node y ∧ rtc (λ x y, edge x y) y node) as (y & Hy & Hback).
    { inversion Htc as [? ? He|? y ? He Htc']; subst; [by exists node|]. exists y. split; [done|by apply tc_rtc]. }
    pose proof (Hreach y Hback (Hs y Hy)). congruence.
Qed.

Lemma finished_gray c node : finished c → c !! node = Some WHITE → finished (<[node := GRAY]> c).
Proof.
  intros [Hcl Hac] Hn. assert (∀ x, <[node := GRAY]> c !! x = Some BLACK ↔ c !! x = Some BLACK) as Hiff.
  { intros x. rewrite lookup_insert_Some. split; [by intros [[]|[]]|]. intros Hx. right. split; [congruence|done]. }
  split.
  - intros x y. rewrite !Hiff. apply Hcl.
  - intros x. rewrite Hiff. apply Hac.
Qed.

Lemma visit_post fuel node c :
  finished c → targets_known c → c !! node = Some WHITE → gray_path c node →
  (size (whites c) ≤ fuel)%nat → search_post c [node] (visit edges fuel node c).
Proof.
  revert node c. induction fuel as [|fuel IH]; intros node c Hf Ht Hn Hg Hw; pose proof (whites_gray _ _ Hn); [lia|].
  cbn [visit]. set (c1 := <[node := GRAY]> c).
  assert (search_post c1 (successors edges node)
            (visit_successors (visit edges fuel) (successors edges node) c1)) as Hpost.
  { apply visit_successors_post with fuel node.
    - intros nxt c2 Hf2 Ht2 Hn2 He Hg2 Hw2. apply IH; try done. intros g Hgr. by eapply rtc_r; [apply Hg2|].
    - by apply finished_gray.
    - intros x y Hxy. subst c1. destruct (Ht _ _ Hxy) as [v Hv].
      destruct (decide (node = y)) as [<-|]; [by rewrite lookup_insert_eq|by rewrite lookup_insert_ne, Hv].
    - apply lookup_insert_eq.
    - intros g [[<- _]|[_ ?]]%lookup_insert_Some; [done|by apply Hg].
    - subst c1. lia.
    - intros y. by rewrite elem_of_successors. }
  destruct (visit_successors _ _ c1) as [[e|c2]|]; [exact Hpost| |done].
  destruct Hpost as (Hf2 & [G B W D] & Hb). subst c1.
  assert (c2 !! node = Some GRAY) as Hn2 by (apply G, lookup_insert_eq). split_and!.
  - apply finished_black; [done..|]. intros y Hy. by apply Hb, elem_of_successors.
  - split; intros x; (destruct (decide (x = node)) as [->|Hne];
      [rewrite ?lookup_insert_eq; first [congruence|by eauto|naive_solver]
      |specialize (G x); specialize (B x); specialize (W x); specialize (D x);
       rewrite lookup_insert_ne in * by done; rewrite ?lookup_insert_ne by done; auto]).
  - intros y ->%list_elem_of_singleton. apply lookup_insert_eq.
Qed.

Lemma visit_keys_post fuel keys c :
  finished c → targets_known c → (∀ x, c !! x ≠ Some GRAY) → (∀ k, k ∈ keys → is_Some (c !! k)) →
  (size (whites c) ≤ fuel)%nat → search_post c keys (visit_keys edges fuel keys c).
Proof.
  revert c. induction keys as [|k keys IH]; intros c Hf Ht Hg Hk Hw; cbn [visit_keys].
  { split_and!; [done|done|]. intros y Hy. by apply elem_of_nil in Hy. }
  assert (∀ k, k ∈ keys → is_Some (c !! k)) as Hk' by (intros; apply Hk, elem_of_cons; by right).
  destruct (Hk k) as [[] Hc]; [apply elem_of_cons; by left|..]; rewrite Hc.
  - assert (search_post c [k] (visit edges fuel k c)) as Hpost.
    { apply visit_post; try done. intros g Hgr. by destruct (Hg g). }
    destruct (visit edges fuel k c) as [[e|c1]|]; [exact Hpost| |done]. destruct Hpost as (Hf1 & Hv1 & Hb1).
    assert (search_post c1 keys (visit_keys edges fuel keys c1)) as Hpost.
    { apply IH; [done|by eapply visited_targets| | |].
      - intros x Hx. by apply (Hg x), (vis_gray _ _ Hv1).
      - intros x Hx. by apply (vis_dom _ _ Hv1), Hk'.
      - etrans; [by apply whites_visited|done]. }
    destruct (visit_keys edges fuel keys c1) as [[e|c2]|]; [exact Hpost| |done].
    destruct Hpost as (Hf2 & Hv2 & Hb2). split_and!; [done|by etrans|].
    intros y [->|Hy]%elem_of_cons; [|by apply Hb2]. apply (vis_black _ _ Hv2), Hb1. by apply list_elem_of_singleton.
  - by destruct (Hg k).
  - specialize (IH c Hf Ht Hg Hk' Hw). destruct (visit_keys edges fuel keys c) as [[e|c2]|]; [exact IH| |done].
    destruct IH as (Hf2 & Hv2 & Hb2). split_and!; [done..|].
    intros y [->|Hy]%elem_of_cons; [by apply (vis_black _ _ Hv2)|by apply Hb2].
Qed.

Lemma all_white_lookup keys k v : all_white keys !! k = Some v ↔ k ∈ keys ∧ v = WHITE.
Proof.
  unfold all_white. induction keys as [|k' keys IH]; cbn.
  { rewrite lookup_empty, elem_of_nil. split; [done|by intros [[] _]]. }
  rewrite lookup_insert_Some, elem_of_cons, IH. destruct (decide (k = k')); naive_solver.
Qed.
Lemma all_white_size keys : (size (whites (all_white keys)) ≤ length keys)%nat.
Proof.
  transitivity (size (list_to_set keys : gset string)).
  - apply subseteq_size. intros x Hx%elem_of_whites%all_white_lookup. apply elem_of_list_to_set. by destruct Hx.
  - induction keys as [|k keys IH]; cbn; [by rewrite size_empty|].
    rewrite size_union_alt, size_singleton. etrans; [|apply le_n_S, IH]. apply le_n_S, subseteq_size. set_solver.
Qed.

Definition known_edges (keys : list string) : Prop := ∀ x y, edge x y → x ∈ keys ∧ y ∈ keys.

Lemma assert_acyclic_run {S} keys (s : S) :
  known_edges keys →
  (acyclic ∧ _assert_acyclic keys edges s = (inr (), s)) ∨
  (~ acyclic ∧ _assert_acyclic keys edges s = (inl cycle_error, s)).
Proof.
  intros Hk. unfold _assert_acyclic.
  assert (search_post (all_white keys) keys (visit_keys edges (length keys) keys (all_white keys))) as Hpost.
  { apply visit_keys_post.
    - split; [intros x y Hx|intros x Hx]; by apply all_white_lookup in Hx as [_ [=]].
    - intros x y [_ Hy]%Hk. exists WHITE. by apply all_white_lookup.
    - intros x [_ [=]]%all_white_lookup.
    - intros k Hin. exists WHITE. by apply all_white_lookup.
    - apply all_white_size. }
  destruct (visit_keys _ _ _ _) as [[e|c]|]; [right|left|done].
  - destruct Hpost as [-> ?]. done.
  - destruct Hpost as (Hf & _ & Hb). split; [|done]. intros x Htc. apply (fin_acyclic _ Hf x); [|done].
    apply Hb. inversion Htc as [? ? He|? y ? He _]; subst; by apply Hk in He as [].
Qed.
End acyclic.

(** ** Checks against their declarative reading *)

(** [m] leaves the state alone; it returns [v] when [c] holds and raises
    otherwise. *)
Definition decides {S A} (m : M S A) (c : Prop) (v : A) : Prop :=
  ∀ s, (c ∧ m s = (inr v, s)) ∨ (~ c ∧ ∃ e, m s = (inl e, s)).

Section decides.
Context {S : Type}.
Lemma decides_ret {A} (x : A) : decides (ret x : M S A) True x.
Proof. intros s. by left. Qed.
Lemma decides_raise {A} e (x : A) : decides (raise e : M S A) False x.
Proof. intros s. right. split; [intros []|by eexists]. Qed.
Lemma decides_guard b e : decides (guard_or b e : M S ()) (b = true) ().
Proof. intros s. destruct b; [by left|right]. split; [by intros|by eexists]. Qed.
Lemma decides_bind {A B} (m : M S A) (f : A → M S B) c c' v v' :
  decides m c v → (c → decides (f v) c' v') → decides (m >>= f) (c ∧ c') v'.
Proof.
  intros Hm Hf s. unfold bind. destruct (Hm s) as [[Hc ->]|[Hc [e ->]]].
  - destruct (Hf Hc s) as [[Hc' ->]|[Hc' [e ->]]]; [by left|right]. split; [tauto|by eexists].
  - right. split; [tauto|by eexists].
Qed.
Lemma decides_iff {A} (m : M S A) c c' v : (c ↔ c') → decides m c v → decides m c' v.
Proof. intros Hiff Hm s. destruct (Hm s) as [[? ?]|[? ?]]; [left|right]; tauto. Qed.
Lemma decides_map_each {A B} (l : list A) (f : A → M S B) (c : A → Prop) v :
  (∀ x, x ∈ l → decides (f x) (c x) (v x)) → decides (map_each l f) (Forall c l) (v <$> l).
Proof.
  induction l as [|x l IH]; intros Hf; cbn [map_each fmap list_fmap].
  { eapply decides_iff, decides_ret. by split. }
  eapply decides_iff; cycle 1.
  { eapply decides_bind; [apply Hf, elem_of_cons; by left|intros _].
    eapply decides_bind; [apply IH; intros; apply Hf, elem_of_cons; by right|intros _]. apply decides_ret. }
  rewrite Forall_cons. tauto.
Qed.
End decides.

(** The keys, references and edges a definition writes down. *)
Definition node_name (n : json) : string := default "" (node_key n).
Definition ref_name (r : json) : string := match r with JStr s => s | _ => "" end.
Definition field_refs (field : string) (n : json) : list json :=
  match raw_refs field n with JArr refs => refs | _ => [] end.
Definition node_edges (n : json) : list (string * string) :=
  mjoin ((λ field, (λ r, (ref_name r, node_name n)) <$> field_refs field n) <$> EDGE_FIELDS).
Definition def_edges (nodes : list json) : list (string * string) := mjoin (node_edges <$> nodes).

Definition good_node (n : json) : Prop :=
  (∃ o, n = JObj o) ∧ (∃ k, node_key n = Some k ∧ k ≠ "") ∧ known_type n = true.
Definition good_refs (keys : list string) (n : json) (field : string) : Prop :=
  ∃ refs, raw_refs field n = JArr (JStr <$> refs) ∧ ∀ r, r ∈ refs → r ∈ keys.

(** A definition the engine can run. *)
Record well_formed_nodes (nodes : list json) : Prop := {
  wfn_few : Z.of_nat (length nodes) <= _MAX_NODES;
  wfn_nodes : Forall good_node nodes;
  wfn_keys : NoDup (node_name <$> nodes);
  wfn_refs : ∀ n field, n ∈ nodes → field ∈ EDGE_FIELDS → good_refs (node_name <$> nodes) n field;
  wfn_edges : Z.of_nat (length (def_edges nodes)) <= _MAX_EDGES;
  wfn_acyclic : acyclic (def_edges nodes);
}.
Definition well_formed_definition (d : json) : Prop :=
  ∃ o nodes, d = JObj o ∧ jget "nodes" d = Some (JArr nodes) ∧ well_formed_nodes nodes.

Section checks.
Context {S : Type} (ref_str : json → string).

Lemma decides_check_key i n keys :
  decides (check_key i n keys : M S string)
    ((∃ o, n = JObj o) ∧ (∃ k, node_key n = Some k ∧ k ≠ "") ∧ node_name n ∉ keys) (node_name n).
Proof.
  destruct n as [| | | | | |o]; try (eapply decides_iff, decides_raise; split; [done|by intros ([? [=]] & _)]).
  unfold check_key, node_name. destruct (node_key (JObj o)) as [k|]; cbn [default from_option id].
  - eapply decides_iff; cycle 1.
    { eapply decides_bind; [apply decides_guard|intros _]. eapply decides_bind; [apply decides_guard|intros _].
      apply decides_ret. }
    rewrite !negb_true_iff, bool_decide_eq_false. split.
    + intros (Hk & Hn & _). split_and!; [by eexists|by eexists|]. by intros Hin%str_in_true; rewrite Hin in Hn.
    + intros (_ & (k' & [= <-] & Hk) & Hn). split_and!; [done| |done]. apply not_true_is_false. by rewrite str_in_true.
  - eapply decides_iff, decides_raise. split; [done|]. intros (_ & (k & ? & _) & _). done.
Qed.

Lemma decides_check_nodes nodes : ∀ i keys,
  decides (check_nodes i nodes keys : M S (list string))
    (Forall good_node nodes ∧ NoDup (node_name <$> nodes) ∧ ∀ k, k ∈ node_name <$> nodes → k ∉ keys)
    (keys ++ (node_name <$> nodes)).
Proof.
  induction nodes as [|n nodes IH]; intros i keys; cbn [check_nodes fmap list_fmap].
  { rewrite app_nil_r. eapply decides_iff, decides_ret. split; [|done]. intros _.
    split_and!; [done|apply NoDup_nil_2|]. intros k Hk. by apply elem_of_nil in Hk. }
  eapply decides_iff; cycle 1.
  { eapply decides_bind; [apply decides_check_key|intros _]. eapply decides_bind; [apply decides_guard|intros _].
    specialize (IH (1 + i)%nat (keys ++ [node_name n])). rewrite <-app_assoc in IH. exact IH. }
  rewrite Forall_cons, NoDup_cons. unfold good_node. setoid_rewrite not_elem_of_app.
  setoid_rewrite list_elem_of_singleton. setoid_rewrite elem_of_cons. split.
  - intros ((Ho & Hk & Hn) & Ht & Hall & Hnd & Hnew). split_and!; try done.
    + intros Hin. by apply (Hnew _ Hin).
    + intros k [->|Hin]; [done|by apply Hnew].
  - intros (((Ho & Hk & Ht) & Hall) & (Hn & Hnd) & Hnew). split_and!; try done; [by apply Hnew; left|].
    intros k Hin. split; [by apply Hnew; right|congruence].
Qed.

Lemma decides_check_ref keys key field r :
  decides (check_ref ref_str keys key field r : M S (string * string))
    (∃ s, r = JStr s ∧ s ∈ keys) (ref_name r, key).
Proof.
  destruct r as [| | | |r| |]; try (eapply decides_iff, decides_raise; split; [done|by intros (? & [=] & _)]).
  eapply decides_iff; cycle 1.
  { eapply decides_bind; [apply decides_guard|intros _]. apply decides_ret. }
  rewrite str_in_true. naive_solver.
Qed.

Lemma decides_check_field keys n field :
  decides (check_field ref_str keys n field : M S (list (string * string)))
    (good_refs keys n field) ((λ r, (ref_name r, node_name n)) <$> field_refs field n).
Proof.
  unfold check_field, field_refs, good_refs, node_name.
  destruct (raw_refs field n) as [| | | | |refs|];
    try (eapply decides_iff, decides_raise; split; [done|by intros (? & [=] & _)]).
  eapply decides_iff; [|apply decides_map_each; intros; apply decides_check_ref].
  rewrite Forall_forall. split.
  - intros Hall. exists (ref_name <$> refs). split.
    + f_equal. rewrite <-list_fmap_compose, <-(list_fmap_id refs) at 1. apply list_fmap_ext.
      intros i r Hr%list_elem_of_lookup_2. by destruct (Hall r Hr) as (s & -> & _).
    + intros r (r' & -> & Hr)%list_elem_of_fmap. by destruct (Hall r' Hr) as (s & -> & ?).
  - intros (rs & [= ->] & Hin) r (s & -> & Hs)%list_elem_of_fmap. eexists. by split; [|apply Hin].
Qed.

Lemma decides_check_edges keys nodes :
  decides (check_edges ref_str keys nodes : M S (list (string * string)))
    (∀ n field, n ∈ nodes → field ∈ EDGE_FIELDS → good_refs keys n field) (def_edges nodes).
Proof.
  eapply decides_iff; cycle 1.
  { unfold check_edges. eapply decides_bind; [|intros _; apply decides_ret].
    apply decides_map_each with (c := λ n, Forall (good_refs keys n) EDGE_FIELDS ∧ True) (v := node_edges).
    intros n _. eapply decides_bind; [|intros _; apply decides_ret].
    apply decides_map_each. intros field _. apply decides_check_field. }
  rewrite Forall_forall. setoid_rewrite Forall_forall. naive_solver.
Qed.

Lemma def_edges_known keys nodes :
  (∀ n field, n ∈ nodes → field ∈ EDGE_FIELDS → good_refs keys n field) →
  ∀ x y, (x, y) ∈ def_edges nodes → x ∈ keys ∧ y ∈ node_name <$> nodes.
Proof.
  intros Hg x y (es & Hxy & (n & -> & Hn)%list_elem_of_fmap)%list_elem_of_join.
  apply list_elem_of_join in Hxy as (rs & Hxy & (field & -> & Hf)%list_elem_of_fmap).
  apply list_elem_of_fmap in Hxy as (r & [= -> ->] & Hr). split; [|by apply list_elem_of_fmap_2].
  destruct (Hg _ _ Hn Hf) as (refs & Hraw & Hk). unfold field_refs in Hr. rewrite Hraw in Hr.
  apply list_elem_of_fmap in Hr as (s & -> & Hs). by apply Hk.
Qed.

Lemma decides_assert_acyclic keys edges :
  known_edges edges keys → decides (_assert_acyclic keys edges : M S ()) (acyclic edges) ().
Proof.
  intros Hk s. destruct (assert_acyclic_run edges keys s Hk) as [[? ?]|[? ?]]; [by left|right].
  split; [done|by eexists].
Qed.

Lemma decides_validate d : decides (_validate_definition ref_str d : M S json) (well_formed_definition d) d.
Proof.
  destruct d as [| | | | | |o]; try (eapply decides_iff, decides_raise; split; [done|by intros (? & ? & [=] & _)]).
  cbn [_validate_definition]. destruct (jget "nodes" (JObj o)) as [[| | | | |nodes|]|] eqn:Hn;
    try (eapply decides_iff, decides_raise; split; [done|intros (? & ? & _ & ? & _); congruence]).
  eapply decides_iff; cycle 1.
  { eapply decides_bind; [apply decides_guard|intros _].
    eapply decides_bind; [apply decides_check_nodes|intros _].
    eapply decides_bind; [apply decides_check_edges|intros Hrefs].
    eapply decides_bind; [apply decides_guard|intros _].
    eapply decides_bind; [|intros _; apply decides_ret].
    apply decides_assert_acyclic. intros x y [? ?]%(def_edges_known _ _ Hrefs). by split. }
  cbn [app]. rewrite !Z.leb_le. unfold well_formed_definition. split.
  - intros (Hfew & (Hall & Hnd & _) & Hrefs & He & Hac & _). exists o, nodes. by split_and!.
  - intros (? & nodes' & _ & Hn' & []). rewrite Hn in Hn'. injection Hn' as <-. split_and!; try done.
    intros k _ Hk. by apply elem_of_nil in Hk.
Qed.
End checks.

(** ** Properties *)

(** C17: the cycle search always ends: one call per key is enough fuel; it
    returns exactly when no node reaches itself through the edges, and
    otherwise raises the cycle error.  It never meets an unknown key. *)
Theorem assert_acyclic_terminates {S} keys edges (s : S) :
  known_edges edges keys →
  (∃ r, visit_keys edges (length keys) keys (all_white keys) = Some r) ∧
  (_assert_acyclic keys edges s = (inr (), s) ↔ acyclic edges) ∧
  (_assert_acyclic keys edges s = (inl cycle_error, s) ↔ ~ acyclic edges).
Proof.
  intros Hk. split.
  - pose proof (assert_acyclic_run edges keys s Hk) as Hrun. unfold _assert_acyclic in Hrun.
    destruct (visit_keys _ _ _ _) as [r|]; [by eexists|]. by destruct Hrun as [[_ [=]]|[_ [=]]].
  - destruct (assert_acyclic_run edges keys s Hk) as [[Hac ->]|[Hac ->]]; (split; split); first [done|intros [=]|by intros []].
Qed.

Definition diamond : list (string * string) := [("a", "b"); ("a", "c"); ("b", "d"); ("c", "d")].
Lemma assert_acyclic_terminates_witness :
  acyclic diamond ∧ ~ acyclic (("d", "a") :: diamond) ∧
  ∃ r, visit_keys diamond 4 ["a"; "b"; "c"; "d"] (all_white ["a"; "b"; "c"; "d"]) = Some r.
Proof.
  assert (known_edges (("d", "a") :: diamond) ["a"; "b"; "c"; "d"]) as Hk.
  { intros x y Hxy. repeat apply elem_of_cons in Hxy as [[= -> ->]|Hxy]; [..|by apply elem_of_nil in Hxy];
      split; by apply (bool_decide_eq_true (_ ∈ _)). }
  split_and!.
  - eapply (assert_acyclic_terminates (S := ()) ["a"; "b"; "c"; "d"] diamond ()); [|reflexivity].
    intros x y Hxy. apply Hk, elem_of_cons. by right.
  - eapply (assert_acyclic_terminates (S := ()) ["a"; "b"; "c"; "d"] (("d", "a") :: diamond) ()); [exact Hk|reflexivity].
  - by eexists.
Defined.

(** C18: the validator accepts exactly the well formed definitions (at most 100
    nodes, each an object with a fresh non-empty key and a known type, every
    reference a known key, at most 500 references, no cycle) and returns them
    unchanged; everything else is refused, and nothing is written. *)
Theorem validate_definition_spec {S} (ref_str : json → string) (d : json) (s : S) :
  (well_formed_definition d ∧ _validate_definition ref_str d s = (inr d, s)) ∨
  (~ well_formed_definition d ∧ ∃ e, _validate_definition ref_str d s = (inl e, s)).
Proof. apply decides_validate. Qed.
