(* ===== verification/Cicd.v ===== *)
(** * Releases: the state machine of services/cicd_service.py and the seam the
    workflow engine calls when a run fails. *)

From S2P Require Import Prelude.
From S2P Require Import Models.
From S2P Require Import Session.
From S2P Require Import Repositories.
From S2P Require Import Access.

Definition RELEASE_TRANSITIONS (action : string) : option (list string * string) :=
  assoc_get action [
    ("deploy", (["pending"], "deploying"));
    ("canary", (["pending"; "deploying"], "canary"));
    ("promote", (["canary"], "succeeded"));
    ("fail", (["deploying"; "canary"], "failed"));
    ("rollback", (["deploying"; "canary"; "failed"], "rolled_back"));
    ("cancel", (["pending"; "deploying"; "canary"], "cancelled"))].

(** The audit row of a change; the engine's are made by no user. *)
Definition release_audit (user : option CurrentUser) (action : string) (r : Release.Release) : AuditLog.AuditLog := {|
  AuditLog.id := 0; AuditLog.user_id := user_id <$> user; AuditLog.username := default "" (username <$> user); AuditLog.module := "cicd";
  AuditLog.action := action; AuditLog.method := "POST";
  AuditLog.path := "/api/v1/releases/" +:+ pretty (Release.id r);
  AuditLog.params := JObj [("release_id", JInt (Release.id r)); ("app", JStr (Release.app r));
    ("env", JStr (Release.env r)); ("status", JStr (Release.status r));
    ("workflow_run_id", jz (Release.workflow_run_id r))];
  AuditLog.ip := ""; AuditLog.user_agent := "";
  AuditLog.status := 1; AuditLog.cost_ms := 0; AuditLog.trace_id := ""; AuditLog.created_at := 0 |}.

Definition of_run (run_id : Z) (r : Release.Release) : bool :=
  bool_decide (Release.workflow_run_id r = Some run_id).

Definition fail_release_for_run (run : WorkflowRun.WorkflowRun) : Op bool :=
  if negb (bool_decide (WorkflowRun.trigger_type run = "release")) then ret false else
  o ← db_find (of_run (WorkflowRun.id run));
  match o, RELEASE_TRANSITIONS "fail" with
  | Some r, Some (allowed_from, target) =>
      if str_in (Release.status r) allowed_from then
        db_upd (Release.id r) (λ r, r <| Release.status := target |>);;
        _ ← db_add (release_audit None "release.fail" (r <| Release.status := target |>));
        ret true
      else ret false
  | _, _ => ret false
  end.
