(* ===== verification/WorkflowEngine.v ===== *)
(** * The workflow engine: [services/workflow_engine.py]

    [step] activates the ready nodes of a run, advances the running and waiting
    ones and closes the run when every node has ended.  Definitions come from
    [WorkflowDef], exec nodes go through [Exec.create_exec_task_record] and the
    in-process dispatch, failed runs tell [Cicd.fail_release_for_run]. *)

From S2P Require Import Prelude.
From S2P Require Import Models.
From S2P Require Import Session.
From S2P Require Import Repositories.
From S2P Require Import Access.
From S2P Require Import AutoPolicy.
From S2P Require Import Terminal.
From S2P Require Import Approval.
From S2P Require Import Executors.
From S2P Require Import Dispatch.
From S2P Require Import Exec.
From S2P Require Import WorkflowDef.
From S2P Require Import Security.
From S2P Require Import Cicd.

Definition RUN_STATUSES : list string := ["pending"; "running"; "succeeded"; "failed"; "cancelled"].
Definition NODE_STATUSES : list string :=
  ["pending"; "running"; "succeeded"; "failed"; "skipped"; "waiting"].
Definition _RUN_TERMINAL : list string := ["succeeded"; "failed"; "cancelled"].
Definition _NODE_TERMINAL : list string := ["succeeded"; "failed"; "skipped"; "cancelled"].
Definition _CALLBACK_TTL_HOURS : Z := 24.
Definition _CALLBACK_DEFAULT_TIMEOUT : Z := 86400.
Definition _MAX_TIMEOUT : Z := 86400.
Definition _WORKFLOW_APPROVAL_BIZ_OFFSET : Z := 5000000000.

(** ** Untyped definitions *)

(** [d.get(k)] where [d] need not be a dict *)
Definition dict_get (k : string) (d : json) : Op (option json) :=
  match d with
  | JObj o => ret (assoc_get k o)
  | _ => raise (OtherError "AttributeError: get")
  end.
(** [x or d] *)
Definition json_or (x : option json) (d : json) : json :=
  match x with Some v => if truthy v then v else d | None => d end.
(** [k in d] *)
Definition py_in (k : string) (d : json) : Op bool :=
  match d with
  | JObj o => ret (match assoc_get k o with Some _ => true | None => false end)
  | JArr l => ret (existsb (λ x, match x with JStr s => bool_decide (s = k) | _ => false end) l)
  | JStr s => ret (match String.index 0 k s with Some _ => true | None => false end)
  | _ => raise (TypeError "argument is not iterable")
  end.
(** [x] as a key of a dict of strings: an unhashable value raises, a hashable
    one of another type is no such key. *)
Definition as_key (x : json) : Op (option string) :=
  match x with
  | JStr s => ret (Some s)
  | JArr _ | JObj _ => raise (TypeError "unhashable type")
  | _ => ret None
  end.
(** [any(p(x) for x in l)], stopping at the first hit *)
Fixpoint any_each {A} (l : list A) (p : A → Op bool) : Op bool :=
  match l with
  | [] => ret false
  | x :: l => b ← p x; if b : bool then ret true else any_each l p
  end.

Definition of_version (run : WorkflowRun.WorkflowRun) (v : WorkflowVersion.WorkflowVersion) : bool :=
  (WorkflowVersion.workflow_id v =? WorkflowRun.workflow_id run) &&
  (WorkflowVersion.version v =? WorkflowRun.workflow_version run).

(** The nodes of a definition, a later node replacing one with its key. *)
Definition def_nodes (nodes : list json) : gmap string json :=
  foldl (λ m n, match n, node_key n with JObj _, Some k => <[k := n]> m | _, _ => m end) ∅ nodes.

Definition _load_definition (run : WorkflowRun.WorkflowRun) : Op (json * gmap string json) :=
  row ← db_find (of_version run);
  let definition := json_or (WorkflowVersion.definition <$> row) (JObj []) in
  ns ← dict_get "nodes" definition;
  nodes ← iter_of (json_or ns (JArr []));
  ret (definition, def_nodes nodes).

(** [defnodes.get(key) or {}] *)
Definition node_def (defnodes : gmap string json) (key : string) : json :=
  json_or (defnodes !! key) (JObj []).

(** [(defnode or {}).get("config") or {}] *)
Definition _cfg (defnode : json) : Op json :=
  c ← dict_get "config" defnode; ret (json_or c (JObj [])).

(** The [int(t)] of a timeout, clipped to the allowed range. *)
Definition clip_timeout (t : json) : option Z :=
  match t with
  | JNull => None
  | _ => match py_int t with
         | inr t => Some (Z.min (Z.max t 0) _MAX_TIMEOUT)
         | inl _ => None
         end
  end.
Definition index_key (k : string) (d : json) : Op json :=
  match d with
  | JObj o => some_or (assoc_get k o) (KeyError k)
  | _ => raise (TypeError "indices must be integers")
  end.
Definition _timeout_sec (defnode definition : json) (node_type : string) : Op (option Z) :=
  cfg ← _cfg defnode;
  own ← py_in "timeout_sec" cfg;
  if own : bool then t ← index_key "timeout_sec" cfg; ret (clip_timeout t) else
  d ← dict_get "defaults" definition;
  shared ← py_in "timeout_sec" (json_or d (JObj []));
  if shared : bool then t ← index_key "timeout_sec" (json_or d (JObj [])); ret (clip_timeout t)
  else if bool_decide (node_type = "callback") then ret (Some _CALLBACK_DEFAULT_TIMEOUT)
  else ret None.

(** ** Routing *)

(** [setdefault(target, set()).add(key)] for the targets of one field *)
Definition add_sources (key : string) (targets : list (option string)) (m : gmap string (gset string))
    : gmap string (gset string) :=
  foldl (λ m t, match t with
                | Some t => <[t := {[key]} ∪ default ∅ (m !! t)]> m
                | None => m
                end) m targets.
Definition field_targets (field : string) (dn : json) : Op (list (option string)) :=
  l ← iter_of (raw_refs field dn); map_each l as_key.
Definition _edges (defnodes : gmap string json) : Op (gmap string (gset string) * gmap string (gset string)) :=
  fold_each (map_to_list defnodes) (∅, ∅) (λ acc kv,
    succ ← field_targets "on_success" kv.2;
    fail ← field_targets "on_failure" kv.2;
    ret (add_sources kv.1 succ acc.1, add_sources kv.1 fail acc.2)).

Inductive verdict := Ready | Skip | Wait.
#[export] Instance verdict_eq_dec : EqDecision verdict.
Proof. solve_decision. Defined.

Definition status_in (status : gmap string string) (l : list string) (k : string) : bool :=
  match status !! k with Some st => str_in st l | None => false end.
Definition dep_in (status : gmap string string) (l : list string) (d : json) : Op bool :=
  k ← as_key d; ret (match k with Some k => status_in status l k | None => false end).

Definition _verdict (key : string) (defnodes : gmap string json)
    (on_succ on_fail : gmap string (gset string)) (status : gmap string string) : Op verdict :=
  deps ← iter_of (raw_refs "depends_on" (node_def defnodes key));
  let fail_srcs := elements (default ∅ (on_fail !! key)) in
  let succ_srcs := elements (default ∅ (on_succ !! key)) in
  if existsb (status_in status ["failed"]) fail_srcs then ret Ready else
  if existsb (status_in status ["failed"]) succ_srcs then ret Skip else
  dead ← any_each deps (dep_in status ["failed"; "skipped"; "cancelled"]);
  if dead : bool then ret Skip else
  open ← any_each deps (λ d, b ← dep_in status ["succeeded"] d; ret (negb b));
  if open : bool then ret Wait else
  if existsb (λ k, negb (status_in status ["succeeded"] k)) succ_srcs then ret Wait else
  ret Ready.

(** ** Node state *)

Abbreviation Node := WorkflowNodeRun.WorkflowNodeRun.
Abbreviation Run := WorkflowRun.WorkflowRun.

(** [dict(output or {})] updated with [extra] *)
Definition merge_output (extra : list (string * json)) (output : json) : json :=
  foldl (λ o kv, jset kv.1 kv.2 o) output extra.

Definition succeeded_node (t : Z) (extra : list (string * json)) (n : Node) : Node :=
  n <| WorkflowNodeRun.status := "succeeded" |> <| WorkflowNodeRun.finished_at := Some t |>
    <| WorkflowNodeRun.error := None |>
    <| WorkflowNodeRun.output := merge_output extra (WorkflowNodeRun.output n) |>.
Definition failed_node (t : Z) (reason code : string) (n : Node) : Node :=
  n <| WorkflowNodeRun.status := "failed" |> <| WorkflowNodeRun.error := Some reason |>
    <| WorkflowNodeRun.output := merge_output [("reason", JStr code)] (WorkflowNodeRun.output n) |>
    <| WorkflowNodeRun.finished_at := Some t |>.
(** [node.started_at or _now()], and the node waits *)
Definition waiting_node (t : Z) (n : Node) : Node :=
  n <| WorkflowNodeRun.started_at := Some (default t (WorkflowNodeRun.started_at n)) |>
    <| WorkflowNodeRun.status := "waiting" |>.

Definition _succeed (node : Node) (extra : list (string * json)) : Op () :=
  t ← utc_now; db_upd (WorkflowNodeRun.id node) (succeeded_node t extra).
Definition _fail (node : Node) (reason code : string) : Op () :=
  t ← utc_now; db_upd (WorkflowNodeRun.id node) (failed_node t reason code).

Section engine.
Variable float_str : Q → string.
Variable container_str : json → string.
Variable paramiko : bool.
Variable redis_up : bool.
Variable agent_connected : string → bool.
Variable broker_up : bool.
Variable jwt_encode : json → string.
Variable _jti : St → string.
(** [updated_at or created_at] of a node row: columns the database maintains *)
Variable touched : Node → option Z.
(** [float(s)] of a string *)
Variable float_of_str : string → option Q.
(** [datetime.fromisoformat(str(x).replace("Z", "+00:00"))] in UTC *)
Variable fromisoformat : json → option Z.

Definition _elapsed (node : Node) : Op Z :=
  t ← utc_now;
  ret (match WorkflowNodeRun.started_at node, touched node with
       | Some start, _ | None, Some start => t - start
       | None, None => 0
       end).

Definition _pending_callback_info (run : Run) (node : Node) : Op json :=
  token ← create_token jwt_encode _jti (WorkflowRun.id run) "wf_callback" (hours _CALLBACK_TTL_HOURS)
    [("run_id", JInt (WorkflowRun.id run)); ("node_key", JStr (WorkflowNodeRun.node_key node))];
  t ← utc_now;
  ret (JObj [("token", JStr token);
    ("url", JStr ("/api/v1/workflow-runs/" +:+ pretty (WorkflowRun.id run) +:+ "/callback/"
                  +:+ WorkflowNodeRun.node_key node));
    ("expires_at", JStr (isoformat (t + hours _CALLBACK_TTL_HOURS)))]).

Definition _enter_waiting_callback (run : Run) (node : Node) : Op () :=
  info ← _pending_callback_info run node;
  t ← utc_now;
  db_upd (WorkflowNodeRun.id node) (λ n,
    waiting_node t (n <| WorkflowNodeRun.output :=
                          merge_output [("callback", info)] (WorkflowNodeRun.output n) |>)).

(** ** Exec nodes

    A configuration value of the wrong type is refused by the database driver. *)

Definition data_error : exn := OtherError "DataError".
Definition int_value (x : json) : Op Z :=
  match x with JInt z => ret z | _ => raise data_error end.
Definition opt_int (x : option json) : Op (option Z) :=
  match x with
  | None | Some JNull => ret None
  | Some (JInt z) => ret (Some z)
  | _ => raise data_error
  end.
Definition opt_str (x : option json) : Op (option string) :=
  match x with
  | None | Some JNull => ret None
  | Some (JStr s) => ret (Some s)
  | _ => raise data_error
  end.

(** The keyword arguments an exec node passes on. *)
Definition exec_request (run : Run) (node : Node) (defnode : json) : Op NewTask.NewTask :=
  cfg ← _cfg defnode;
  hs ← dict_get "host_ids" cfg;
  l ← iter_of (json_or hs (JArr []));
  host_ids ← map_each l int_value;
  script_id ← opt_int (jget "script_id" cfg);
  kind ← opt_str (Some (json_or (jget "kind" cfg)
                          (JStr (if z_truthy script_id then "script" else "command"))));
  script_version ← opt_int (jget "script_version" cfg);
  command ← opt_str (jget "command" cfg);
  timeout_sec ← int_of (json_or (jget "timeout_sec" cfg) (JInt 300));
  ret {| NewTask.name := String.substring 0 128 ("workflow:" +:+ WorkflowNodeRun.node_key node);
         NewTask.kind := default "" kind; NewTask.target_host_ids := host_ids;
         NewTask.script_id := script_id; NewTask.script_version := script_version;
         NewTask.command := command; NewTask.params := jget_or "params" JNull cfg;
         NewTask.mode := "batch"; NewTask.timeout_sec := timeout_sec; NewTask.retry := 0;
         NewTask.created_by := WorkflowRun.created_by run;
         NewTask.requester_id := WorkflowRun.created_by run;
         NewTask.visible_group_ids := None;
         NewTask.remediation := jget_or "remediation" JNull (WorkflowRun.context run) |}.

Definition _create_exec_task (run : Run) (node : Node) (defnode : json) : Op () :=
  req ← exec_request run node defnode;
  c ← create_exec_task_record float_str paramiko broker_up req;
  db_upd (WorkflowNodeRun.id node) (λ n, n <| WorkflowNodeRun.exec_task_id := Some (Created.id c) |>);;
  if Created.approve_required c then
    t ← utc_now;
    db_upd (WorkflowNodeRun.id node) (λ n,
      waiting_node t (n <| WorkflowNodeRun.approval_id := Created.approval_id c |>))
  else
    db_commit;;
    try_catch (dispatch_here float_str container_str paramiko redis_up agent_connected (Created.id c))
      (λ _, ret ()).

Definition _poll_exec_task (node : Node) : Op bool :=
  o ← db_get (default 0 (WorkflowNodeRun.exec_task_id node));
  match o with
  | None => _fail node "engine_restart" "engine_restart";; ret true
  | Some task =>
      if str_in (ExecTask.status task) ["success"; "partial"] then
        _succeed node [("exec_task_id", jz (WorkflowNodeRun.exec_task_id node))];; ret true
      else if str_in (ExecTask.status task) ["failed"; "timed_out"; "canceled"; "cancelled"] then
        _fail node "exec_task_failed" "exec_task_failed";; ret true
      else if bool_decide (ExecTask.status task = "running") &&
              bool_decide (WorkflowNodeRun.status node = "waiting") then
        db_upd (WorkflowNodeRun.id node) (λ n, n <| WorkflowNodeRun.status := "running" |>);; ret true
      else ret false
  end.

(** ** Approval nodes *)

Definition workflow_approval (run : Run) (node : Node) (no : string) : ApprovalRequest.ApprovalRequest := {|
  ApprovalRequest.id := 0; ApprovalRequest.request_no := no;
  ApprovalRequest.biz_type := "workflow";
  ApprovalRequest.biz_id := _WORKFLOW_APPROVAL_BIZ_OFFSET + WorkflowNodeRun.id node;
  ApprovalRequest.title := String.substring 0 256 ("编排审批：" +:+ WorkflowNodeRun.node_key node);
  ApprovalRequest.reason := ""; ApprovalRequest.requester_id := z_or (WorkflowRun.created_by run) 0;
  ApprovalRequest.sensitive_hit := ""; ApprovalRequest.status := "pending";
  ApprovalRequest.approval_mode := "manual"; ApprovalRequest.policy_ref := None;
  ApprovalRequest.approver_role_id := None; ApprovalRequest.approver_id := None;
  ApprovalRequest.decided_at := None; ApprovalRequest.version := 0; ApprovalRequest.created_at := 0 |}.

Definition _create_approval (run : Run) (node : Node) : Op () :=
  no ← _approval_no;
  a ← db_add (workflow_approval run node no);
  t ← utc_now;
  db_upd (WorkflowNodeRun.id node) (λ n,
    waiting_node t (n <| WorkflowNodeRun.approval_id := Some (ApprovalRequest.id a) |>)).

(** ** Advancing *)

(** [float(x)] *)
Definition py_float (x : json) : exn + Q :=
  match x with
  | JInt z => inr (inject_Z z)
  | JBool b => inr (inject_Z (if b then 1 else 0))
  | JFloat q => inr q
  | JStr s => match float_of_str s with Some q => inr q | None => inl (ValueError "could not convert string to float") end
  | _ => inl (TypeError "float() argument must be a string or a real number")
  end.

(** [to is not None and _elapsed(node) >= to] *)
Definition overdue (elapsed : Z) (timeout : option Z) : bool :=
  match timeout with Some t => t * microseconds <=? elapsed | None => false end.
Definition timed_out (defnode definition : json) (node : Node) : Op bool :=
  timeout ← _timeout_sec defnode definition (WorkflowNodeRun.node_type node);
  e ← _elapsed node;
  ret (overdue e timeout).

Definition due (node : Node) (cfg : json) : Op bool :=
  until ← dict_get "until" cfg;
  if bool_decide (WorkflowNodeRun.node_type node = "wait") && truthy (default JNull until) then
    t ← utc_now;
    ret (match fromisoformat (default JNull until) with Some due_at => due_at <=? t | None => true end)
  else
    e ← _elapsed node;
    match py_float (json_or (jget "duration_sec" cfg) (JInt 0)) with
    | inr d => ret (Qle_bool (d * inject_Z microseconds) (inject_Z e))
    | inl err => raise err
    end.

Definition _advance_running (run : Run) (node : Node) (defnode definition : json) : Op bool :=
  let ntype := WorkflowNodeRun.node_type node in
  if str_in ntype ["sleep"; "wait"] then
    late ← timed_out defnode definition node;
    if late : bool then _fail node "timeout" "timeout";; ret true else
    cfg ← _cfg defnode;
    reached ← due node cfg;
    if reached : bool then _succeed node [];; ret true else ret false
  else if bool_decide (ntype = "callback") then _enter_waiting_callback run node;; ret true
  else if bool_decide (ntype = "manual_approval") then
    match WorkflowNodeRun.approval_id node with
    | None => _create_approval run node;; ret true
    | Some _ => ret false
    end
  else if bool_decide (ntype = "exec_task") then
    match WorkflowNodeRun.exec_task_id node with
    | None => _create_exec_task run node defnode;; ret true
    | Some _ => _poll_exec_task node
    end
  else ret false.

Definition is_waiting (n : Node) : bool := bool_decide (WorkflowNodeRun.status n = "waiting").

(** The tail of [_advance_waiting]: the deadline of a node that waits. *)
Definition wait_timeout (node : Node) (defnode definition : json) (progressed : bool) : Op bool :=
  late ← timed_out defnode definition node;
  if late : bool then _fail node "timeout" "timeout";; ret true else ret progressed.

Definition _advance_waiting (node : Node) (defnode definition : json) : Op bool :=
  progressed ←
    (if bool_decide (WorkflowNodeRun.node_type node = "exec_task") &&
        bool_decide (WorkflowNodeRun.exec_task_id node ≠ None)
     then _poll_exec_task node else ret false);
  o ← db_get (WorkflowNodeRun.id node);
  if negb (default false (is_waiting <$> o)) then ret progressed else
  match WorkflowNodeRun.approval_id node with
  | Some i =>
      if bool_decide (WorkflowNodeRun.node_type node = "manual_approval") then
        approval ← db_get i;
        match ApprovalRequest.status <$> approval with
        | Some st =>
            if bool_decide (st = "approved") then _succeed node [];; ret true
            else if str_in st ["rejected"; "cancelled"; "canceled"] then
              _fail node "approval_rejected" "approval_rejected";; ret true
            else wait_timeout node defnode definition progressed
        | None => wait_timeout node defnode definition progressed
        end
      else wait_timeout node defnode definition progressed
  | None => wait_timeout node defnode definition progressed
  end.

(** ** One step *)

Definition in_run (run_id : Z) (n : Node) : bool := WorkflowNodeRun.run_id n =? run_id.
Definition statuses (nodes : list Node) : gmap string string :=
  list_to_map (reverse ((λ n, (WorkflowNodeRun.node_key n, WorkflowNodeRun.status n)) <$> nodes)).

Record Activation := mkActivation {
  act_status : gmap string string; activated : gset string; act_progressed : bool }.

Definition running_node (t : Z) (n : Node) : Node :=
  n <| WorkflowNodeRun.status := "running" |>
    <| WorkflowNodeRun.attempt := WorkflowNodeRun.attempt n + 1 |>
    <| WorkflowNodeRun.started_at := Some t |>.
Definition skipped_node (t : Z) (n : Node) : Node :=
  n <| WorkflowNodeRun.status := "skipped" |> <| WorkflowNodeRun.finished_at := Some t |>.

Definition activate_node (defnodes : gmap string json) (on_succ on_fail : gmap string (gset string))
    (acc : Activation) (node : Node) : Op Activation :=
  if negb (bool_decide (WorkflowNodeRun.status node = "pending")) then ret acc else
  let key := WorkflowNodeRun.node_key node in
  v ← _verdict key defnodes on_succ on_fail (act_status acc);
  t ← utc_now;
  match v with
  | Ready =>
      db_upd (WorkflowNodeRun.id node) (running_node t);;
      ret (mkActivation (<[key := "running"]> (act_status acc)) ({[key]} ∪ activated acc) true)
  | Skip =>
      db_upd (WorkflowNodeRun.id node) (skipped_node t);;
      ret (mkActivation (<[key := "skipped"]> (act_status acc)) (activated acc) true)
  | Wait => ret acc
  end.

(** [for node in nodes: if p(node): if advance(node): progressed = True] *)
Definition advance_nodes (nodes : list Node) (p : Node → bool) (advance : Node → Op bool)
    (progressed : bool) : Op bool :=
  fold_each nodes progressed (λ progressed n,
    o ← db_get (WorkflowNodeRun.id n);
    match o with
    | Some node => if p node then b ← advance node; ret (progressed || b) else ret progressed
    | None => ret progressed
    end).

(** The run and its nodes as the finalisation sees them. *)
Definition node_done (n : Node) : bool := str_in (WorkflowNodeRun.status n) _NODE_TERMINAL.
Definition node_failed (n : Node) : bool := bool_decide (WorkflowNodeRun.status n = "failed").

Definition _on_run_failed (run : Run) : Op () :=
  try_catch (_ ← fail_release_for_run run; ret ()) (λ _, ret ()).

Definition finalise (run_id : Z) (progressed : bool) : Op bool :=
  nodes ← db_select (in_run run_id);
  o ← db_get run_id;
  match o with
  | Some run =>
      if negb (bool_decide (WorkflowRun.status run = "cancelled")) && negb (bool_decide (nodes = [])) &&
         forallb node_done nodes then
        match filter (λ n, node_failed n = true) nodes with
        | n :: _ =>
            let run' := run <| WorkflowRun.status := "failed" |>
              <| WorkflowRun.error := Some (s_or (WorkflowNodeRun.error n) "workflow node failed") |> in
            db_upd run_id (λ _, run');;
            _on_run_failed run'
        | [] => db_upd run_id (λ r, r <| WorkflowRun.status := "succeeded" |>)
        end;;
        t ← utc_now;
        db_upd run_id (λ r, r <| WorkflowRun.finished_at := Some t |>);;
        ret true
      else ret progressed
  | None => ret progressed
  end.

Definition _broadcast (run_id : Z) : Op () :=
  emit_out (EBroadcast "workflow_run" run_id
    (JObj [("type", JStr "run"); ("data", JObj [("run_id", JInt run_id)])])).

Definition start_run (run : Run) : Op bool :=
  if bool_decide (WorkflowRun.status run = "pending") then
    t ← utc_now;
    db_upd (WorkflowRun.id run) (λ r, r <| WorkflowRun.status := "running" |>
      <| WorkflowRun.started_at := Some (default t (WorkflowRun.started_at r)) |>);;
    ret true
  else ret false.

(** The three passes over the nodes of the run. *)
Definition step_nodes (run : Run) (started : bool) (definition : json) (defnodes : gmap string json) : Op bool :=
  nodes ← db_select (in_run (WorkflowRun.id run));
  '(on_succ, on_fail) ← _edges defnodes;
  act ← fold_each nodes (mkActivation (statuses nodes) ∅ started)
          (activate_node defnodes on_succ on_fail);
  let defnode n := node_def defnodes (WorkflowNodeRun.node_key n) in
  p ← advance_nodes nodes
        (λ n, bool_decide (WorkflowNodeRun.status n = "running") &&
              negb (bool_decide (WorkflowNodeRun.node_key n ∈ activated act)))
        (λ n, _advance_running run n (defnode n) definition) (act_progressed act);
  advance_nodes nodes is_waiting (λ n, _advance_waiting n (defnode n) definition) p.

Definition step (run_id : Z) : Op bool :=
  o ← db_get run_id;
  match o with
  | None => ret false
  | Some run =>
      if str_in (WorkflowRun.status run) _RUN_TERMINAL then ret false else
      started ← start_run run;
      '(definition, defnodes) ← _load_definition run;
      p ← step_nodes run started definition defnodes;
      p ← finalise run_id p;
      db_commit;;
      when p (_broadcast run_id);;
      ret p
  end.

(** ** Drivers

    [DRIVER_AUTOSTART] is the module switch, [driver_alive run] says that the
    registry [_DRIVERS] holds a live thread for [run]. *)

Variable DRIVER_AUTOSTART : bool.
Variable driver_alive : Z → bool.

Definition start_driver (run_id : Z) : Op () :=
  if negb DRIVER_AUTOSTART then ret () else
  if driver_alive run_id then ret () else emit_out (EStartDriver run_id).

(** The driver thread: one session per tick.  [world n] is what the other
    requests and the clock did before tick [n]; [true] when the thread ends. *)
Fixpoint _driver_loop (fuel : nat) (world : nat → St → St) (run_id : Z) : Op bool :=
  match fuel with
  | O => ret false
  | S fuel =>
      modify (world fuel);;
      o ← db_get run_id;
      if match o with Some run => str_in (WorkflowRun.status run) _RUN_TERMINAL | None => true end
      then ret true
      else
        run_request (try_catch (_ ← step run_id; ret ()) (λ _, ret ()));;
        _driver_loop fuel world run_id
  end.

Definition recover_runs : Op Z :=
  runs ← db_select (λ r : Run, bool_decide (WorkflowRun.status r = "running"));
  for_each (WorkflowRun.id <$> runs) start_driver;;
  ret (Z.of_nat (length runs)).

(** All runs in one session: an error other than a failed flush leaves the
    pending writes to the next commit, a failed flush makes every later use of
    the session raise. *)
Fixpoint sweep (run_ids : list Z) (count : Z) : Op Z := λ s,
  match run_ids with
  | [] => (inr count, s)
  | i :: run_ids =>
      match step i s with
      | (inr _, s1) => sweep run_ids (count + 1) s1
      | (inl (IntegrityError _), s1) => (inr count, s1 <| work := committed s1 |>)
      | (inl _, s1) => sweep run_ids count s1
      end
  end.
Definition scan_timeouts : Op Z := run_request (
  runs ← db_select (λ r : Run, str_in (WorkflowRun.status r) ["pending"; "running"]);
  sweep (WorkflowRun.id <$> runs) 0).
End engine.

(** ** What a step writes

    [Node] rows are only written by the engine: everything an exec node calls
    leaves them alone. *)

Section quiet_calls.
Context {R : Type} `{Table R}.
Variable float_str : Q → string.
Variable container_str : json → string.
Variables paramiko redis_up broker_up : bool.
Variable agent_connected : string → bool.
Context `{!TableNe R ExecTask.ExecTask, !TableNe R ExecTaskHost.ExecTaskHost, !TableNe R ExecLog.ExecLog,
  !TableNe R ApprovalRequest.ApprovalRequest, !TableNe R ApprovalRecord.ApprovalRecord,
  !TableNe R AiAction.AiAction, !TableNe R TerminalSession.TerminalSession}.

Lemma preserves_iter_of I x : preserves I (iter_of x).
Proof. unfold iter_of. preserves_auto. Qed.
#[local] Hint Resolve preserves_iter_of preserves_detect_sensitive preserves_limits preserves_content : preserves.

Lemma create_record_held (m : gmap Z R) P d :
  preserves (held m P) (create_exec_task_record float_str paramiko broker_up d).
Proof.
  unfold create_exec_task_record, check_target, resolve_script, await_approval, start_now,
    auto_approve, _approve_linkages, _approve_exec, Terminal.activate_on_approval, exec_dispatch_delay, resolve_auto_policy, get_of, varchar,
    is_feature_enabled, _current_level, _breaker_state, ConfigRuleRepository.by_key, _task_no, _approval_no,
    _executor_ssh_fallback, ScriptVersionRepository.by_script_version, ExecTaskRepository.optimistic_update.
  preserves_auto.
Qed.
End quiet_calls.

(** ** Node life cycle *)

(** The steps a node's status takes: waiting and running alternate while an
    exec task is polled, ended nodes never move. *)
Inductive node_next : string → string → Prop :=
  | next_activate : node_next "pending" "running"
  | next_skip : node_next "pending" "skipped"
  | next_wait : node_next "running" "waiting"
  | next_done a : a ∈ ["running"; "waiting"] → node_next a "succeeded"
  | next_fail a : a ∈ ["running"; "waiting"] → node_next a "failed"
  | next_resume : node_next "waiting" "running".

Lemma node_next_done a b : node_next a b → str_in a _NODE_TERMINAL = false.
Proof. destruct 1; try reflexivity; repeat (apply elem_of_cons in H as [->|H]; [reflexivity|]); by apply elem_of_nil in H. Qed.
Lemma node_done_frozen a b : rtc node_next a b → str_in a _NODE_TERMINAL = true → b = a.
Proof. intros [|? ? ? H _] Ht; [done|]. apply node_next_done in H. congruence. Qed.
Lemma node_next_typed a b : rtc node_next a b → a ∈ NODE_STATUSES → b ∈ NODE_STATUSES.
Proof. induction 1 as [|a b c Hab _ IH]; [done|]. intros _. apply IH. destruct Hab; str_mem. Qed.

(** Row [b] is a later state of row [a] while run [run] is stepped. *)
Record node_evolves (run : Z) (a b : Node) : Prop := {
  nev_id : WorkflowNodeRun.id b = WorkflowNodeRun.id a;
  nev_run : WorkflowNodeRun.run_id b = WorkflowNodeRun.run_id a;
  nev_key : WorkflowNodeRun.node_key b = WorkflowNodeRun.node_key a;
  nev_type : WorkflowNodeRun.node_type b = WorkflowNodeRun.node_type a;
  nev_status : rtc node_next (WorkflowNodeRun.status a) (WorkflowNodeRun.status b);
  nev_other : WorkflowNodeRun.run_id a ≠ run → b = a;
  nev_frozen : node_done a = true → b = a;
}.
#[export] Instance node_evolves_preorder run : PreOrder (node_evolves run).
Proof.
  split; [by split|]. intros a b c [I1 R1 K1 T1 S1 O1 F1] [I2 R2 K2 T2 S2 O2 F2].
  split; [congruence..|by etrans|naive_solver|]. intros Hd. rewrite (F1 Hd) in *. auto.
Qed.

Definition nodes_evolve (run : Z) (m0 m : gmap Z Node) : Prop :=
  ∀ i, option_Forall2 (node_evolves run) (m0 !! i) (m !! i).
#[export] Instance nodes_evolve_preorder run : PreOrder (nodes_evolve run).
Proof.
  split; [intros m i; destruct (m !! i); by constructor|].
  intros m1 m2 m3 H1 H2 i. specialize (H1 i). specialize (H2 i).
  destruct H1; inversion H2; subst; constructor. by etrans.
Qed.
Lemma nodes_evolve_insert run m0 m i a b :
  nodes_evolve run m0 m → m !! i = Some a → node_evolves run a b → nodes_evolve run m0 (<[i := b]> m).
Proof.
  intros Hm Hi Hab j. destruct (decide (i = j)) as [<-|Hne].
  - rewrite lookup_insert_eq. specialize (Hm i). rewrite Hi in Hm. inversion Hm; subst. constructor. by etrans.
  - by rewrite lookup_insert_ne.
Qed.

Definition node_table (s : St) : gmap Z Node := tbl (work s).

Section moves.
Variable float_str : Q → string.
Variable container_str : json → string.
Variables paramiko redis_up broker_up : bool.
Variable agent_connected : string → bool.
Variable jwt_encode : json → string.
Variable _jti : St → string.
Variable touched : Node → option Z.
Variable float_of_str : string → option Q.
Variable fromisoformat : json → option Z.
Context (run : Z) (m0 : gmap Z Node).
#[local] Abbreviation J := (both (R:=Node) (nodes_evolve run m0)).

(** A write to the row [n] of the run that moves it along its life cycle. *)
Lemma wp_node_upd n (f : Node → Node) (Q : exn + () → St → Prop) s :
  J s → node_table s !! WorkflowNodeRun.id n = Some n → node_evolves run n (f n) →
  (∀ s', J s' → node_table s' = <[WorkflowNodeRun.id n := f n]> (node_table s) → Q (inr ()) s') →
  wp (db_upd (WorkflowNodeRun.id n) f) Q s.
Proof.
  intros [Hw Hc] Hn Hf HQ. eapply wp_upd_hit; [exact Hn|]. apply HQ; [|by unfold node_table; rewrite tbl_put_row].
  split; [|done]. rewrite tbl_put_row. by eapply nodes_evolve_insert.
Qed.

Lemma reads_elapsed I n : preserves I (_elapsed touched n).
Proof. unfold _elapsed. preserves_auto. Qed.
Lemma reads_cfg I d : preserves I (_cfg d).
Proof. unfold _cfg, dict_get. preserves_auto. Qed.
Lemma reads_timed_out I d def n : preserves I (timed_out touched d def n).
Proof. unfold timed_out, _timeout_sec, _cfg, _elapsed, dict_get, py_in, index_key. preserves_auto. Qed.
Lemma reads_due I n cfg : preserves I (due touched float_of_str fromisoformat n cfg).
Proof. unfold due, _elapsed, dict_get. preserves_auto. Qed.

Definition active (n : Node) : Prop := WorkflowNodeRun.status n ∈ ["running"; "waiting"].
Lemma active_open n : active n → node_done n = false.
Proof.
  intros Ha. unfold node_done. unfold active in Ha.
  repeat (apply elem_of_cons in Ha as [->|Ha]; [reflexivity|]). by apply elem_of_nil in Ha.
Qed.

(** A write that keeps the identity of an open node of the run. *)
Lemma moves_open n b :
  WorkflowNodeRun.run_id n = run → node_done n = false →
  WorkflowNodeRun.id b = WorkflowNodeRun.id n → WorkflowNodeRun.run_id b = WorkflowNodeRun.run_id n →
  WorkflowNodeRun.node_key b = WorkflowNodeRun.node_key n →
  WorkflowNodeRun.node_type b = WorkflowNodeRun.node_type n →
  rtc node_next (WorkflowNodeRun.status n) (WorkflowNodeRun.status b) → node_evolves run n b.
Proof. intros Hr Hd ?????. split; congruence. Qed.
Lemma moves_to_end n b st :
  WorkflowNodeRun.run_id n = run → active n → st ∈ ["succeeded"; "failed"] →
  WorkflowNodeRun.id b = WorkflowNodeRun.id n → WorkflowNodeRun.run_id b = WorkflowNodeRun.run_id n →
  WorkflowNodeRun.node_key b = WorkflowNodeRun.node_key n →
  WorkflowNodeRun.node_type b = WorkflowNodeRun.node_type n →
  WorkflowNodeRun.status b = st → node_evolves run n b.
Proof.
  intros Hr Ha Hst ???? Hb. apply moves_open; try done; [by apply active_open|]. rewrite Hb. apply rtc_once.
  apply elem_of_cons in Hst as [->|Hst]; [by apply next_done|].
  apply list_elem_of_singleton in Hst as ->. by apply next_fail.
Qed.

(** A node of the run that the loop has just read. *)
Record at_node (n : Node) (s : St) : Prop := {
  at_inv : J s;
  at_row : node_table s !! WorkflowNodeRun.id n = Some n;
  at_run : WorkflowNodeRun.run_id n = run;
}.

Definition settled (n : Node) (s : St) : Prop :=
  default false (is_waiting <$> node_table s !! WorkflowNodeRun.id n) = false.
Lemma settled_insert n b s m :
  node_table s = <[WorkflowNodeRun.id n := b]> m → is_waiting b = false → settled n s.
Proof. unfold settled. intros -> Hb. by rewrite lookup_insert_eq. Qed.

Lemma wp_succeed n extra s :
  at_node n s → active n → wp (_succeed n extra) (λ r s', r = inr () ∧ J s' ∧ settled n s') s.
Proof.
  intros [HJ Hn Hr] Ha. unfold _succeed. do 2 wp_step. eapply wp_node_upd; [done..| |].
  - by eapply (moves_to_end _ _ "succeeded"); [done|done|str_mem|..].
  - intros s' HJ' Hw. split_and!; [done|done|]. by eapply settled_insert.
Qed.
Lemma wp_fail n reason code s :
  at_node n s → active n → wp (_fail n reason code) (λ r s', r = inr () ∧ J s' ∧ settled n s') s.
Proof.
  intros [HJ Hn Hr] Ha. unfold _fail. do 2 wp_step. eapply wp_node_upd; [done..| |].
  - by eapply (moves_to_end _ _ "failed"); [done|done|str_mem|..].
  - intros s' HJ' Hw. split_and!; [done|done|]. by eapply settled_insert.
Qed.
(** The node starts to wait. *)
Lemma wp_wait n t (f : Node → Node) s :
  at_node n s → WorkflowNodeRun.status n = "running" →
  WorkflowNodeRun.id (f n) = WorkflowNodeRun.id n → WorkflowNodeRun.run_id (f n) = WorkflowNodeRun.run_id n →
  WorkflowNodeRun.node_key (f n) = WorkflowNodeRun.node_key n →
  WorkflowNodeRun.node_type (f n) = WorkflowNodeRun.node_type n →
  wp (db_upd (WorkflowNodeRun.id n) (λ n, waiting_node t (f n))) (λ r s', r = inr () ∧ J s') s.
Proof.
  intros [HJ Hn Hr] Hst ????. eapply wp_node_upd; [done..| |by intros].
  apply moves_open; try done; [unfold node_done; by rewrite Hst|]. rewrite Hst. apply rtc_once, next_wait.
Qed.
#[local] Abbreviation advance_running := (_advance_running float_str container_str paramiko redis_up
  agent_connected broker_up jwt_encode _jti touched float_of_str fromisoformat).

(** Before an external call: the row is there, and what is committed evolved. *)
Lemma at_node_held n s : at_node n s → held (node_table s) (nodes_evolve run m0) s.
Proof. intros [[Hw Hc] _ _]. by split_and!. Qed.
Lemma held_at_node n s s' :
  at_node n s → held (node_table s) (nodes_evolve run m0) s' → at_node n s' ∧ node_table s' = node_table s.
Proof.
  intros [HJ Hn Hr] (Hw & Hc & Hm). split; [|done]. split; [|unfold node_table in *; congruence|done].
  split; [by rewrite Hw|done].
Qed.

Lemma reads_exec_request I r n d : preserves I (exec_request r n d).
Proof.
  unfold exec_request, int_value, opt_int, opt_str, int_of, _cfg, dict_get, iter_of. preserves_auto.
Qed.

Lemma create_exec_task_moves r n d s :
  at_node n s → WorkflowNodeRun.status n = "running" →
  wp (_create_exec_task float_str container_str paramiko redis_up agent_connected broker_up r n d)
    (λ _ s', J s') s.
Proof.
  intros Hat Hst. unfold _create_exec_task. wp_step. apply wp_reads; [apply reads_exec_request|].
  intros [e|req] _; [apply Hat|]. wp_step.
  apply wp_preserves with (I := held (node_table s) (nodes_evolve run m0));
    [apply create_record_held; apply _|by eapply at_node_held|].
  intros [e|c] s1 Hs1; pose proof (held_at_node _ _ _ Hat Hs1) as [[HJ1 Hn1 Hr] _]; [done|].
  set (g := λ n : Node, n <| WorkflowNodeRun.exec_task_id := Some (Created.id c) |>).
  wp_step. eapply wp_node_upd; [done|exact Hn1| |].
  { apply moves_open; try done. unfold node_done. by rewrite Hst. }
  intros s2 HJ2 Hw2.
  assert (at_node (g n) s2) as Hat2 by (split; [done| |done]; rewrite Hw2; apply lookup_insert_eq).
  destruct (Created.approve_required c); do 2 wp_step.
  - eapply wp_mono; [apply (wp_wait (g n) (now s2)
      (λ n, n <| WorkflowNodeRun.approval_id := Created.approval_id c |>)); done|]. by intros ? ? [_ ?].
  - apply wp_preserves with (I := still (R:=Node) (node_table s2)).
    + apply preserves_try; [apply dispatch_still; apply _|intros; apply preserves_ret].
    + by split.
    + destruct HJ2 as [HJ2 _]. intros ? s3 [E1 E2]. unfold both. by rewrite E1, E2.
Qed.

Lemma create_approval_moves r n s :
  at_node n s → WorkflowNodeRun.status n = "running" → wp (_create_approval r n) (λ _ s', J s') s.
Proof.
  intros Hat Hst. unfold _create_approval. wp_step.
  apply wp_preserves with (I := held (node_table s) (nodes_evolve run m0));
    [unfold _approval_no; preserves_auto|by eapply at_node_held|].
  intros [e|no] s1 Hs1; pose proof (held_at_node _ _ _ Hat Hs1) as [Hat1 _]; [apply Hat1|].
  wp_step. apply wp_preserves with (I := held (node_table s1) (nodes_evolve run m0));
    [preserves_auto|by eapply at_node_held|].
  intros [e|a] s2 Hs2; pose proof (held_at_node _ _ _ Hat1 Hs2) as [Hat2 _]; [apply Hat2|].
  do 2 wp_step. eapply wp_mono; [apply (wp_wait n (now s2)
      (λ n, n <| WorkflowNodeRun.approval_id := Some (ApprovalRequest.id a) |>)); done|]. by intros ? ? [_ ?].
Qed.

Lemma poll_moves n s :
  at_node n s → active n → wp (_poll_exec_task n) (λ _ s', J s' ∧ (s' = s ∨ settled n s')) s.
Proof.
  intros Hat Ha. unfold _poll_exec_task. wp_step. apply wp_db_get. cbv beta iota.
  destruct (tbl _ !! _) as [task|].
  - destruct (str_in _ _).
    { wp_step. eapply wp_mono; [by apply wp_succeed|]. intros [] s' (? & ? & ?); wp_run; auto. }
    destruct (str_in _ _).
    { wp_step. eapply wp_mono; [by apply wp_fail|]. intros [] s' (? & ? & ?); wp_run; auto. }
    destruct (bool_decide (_ = "running") && _) eqn:Hst; [|wp_step; split; [apply Hat|by left]].
    apply andb_true_iff in Hst as [_ Hst%bool_decide_eq_true]. destruct Hat as [HJ Hn Hr].
    wp_step. eapply wp_node_upd; [done|exact Hn| |].
    + apply moves_open; try done; [by apply active_open|]. rewrite Hst. apply rtc_once, next_resume.
    + intros s' HJ' Hw. wp_step. split; [done|]. right. by eapply settled_insert.
  - wp_step. eapply wp_mono; [by apply wp_fail|]. intros [] s' (? & ? & ?); wp_run; auto.
Qed.

Lemma advance_running_moves r n d def s :
  at_node n s → WorkflowNodeRun.status n = "running" → wp (advance_running r n d def) (λ _ s', J s') s.
Proof.
  intros Hat Hst. assert (active n) as Ha by (unfold active; rewrite Hst; str_mem).
  unfold _advance_running. destruct (str_in _ _).
  { wp_step. apply wp_reads; [apply reads_timed_out|]. intros [e|[]] _; [apply Hat| |].
    - wp_step. eapply wp_mono; [by apply wp_fail|]. intros [] s' (? & ? & ?); by wp_run.
    - wp_step. apply wp_reads; [apply reads_cfg|]. intros [e|cfg] _; [apply Hat|].
      wp_step. apply wp_reads; [apply reads_due|]. intros [e|[]] _; [apply Hat| |wp_step; apply Hat].
      wp_step. eapply wp_mono; [by apply wp_succeed|]. intros [] s' (? & ? & ?); by wp_run. }
  destruct (bool_decide (_ = "callback")).
  { wp_step. unfold _enter_waiting_callback. wp_step.
    apply wp_reads; [unfold _pending_callback_info, create_token; preserves_auto|].
    intros [e|info] _; [apply Hat|]. do 2 wp_step. eapply wp_mono; [apply (wp_wait n (now s)
      (λ n, n <| WorkflowNodeRun.output := merge_output [("callback", info)] (WorkflowNodeRun.output n) |>)); done|].
    intros [] ? [_ ?]; by wp_run. }
  destruct (bool_decide (_ = "manual_approval")).
  { destruct (WorkflowNodeRun.approval_id n); wp_step; [apply Hat|].
    eapply wp_mono; [by apply create_approval_moves|]. intros [] ? ?; by wp_run. }
  destruct (bool_decide (_ = "exec_task")); [|wp_step; apply Hat].
  destruct (WorkflowNodeRun.exec_task_id n); [|wp_step].
  { eapply wp_mono; [by apply poll_moves|]. by intros ? ? [? _]. }
  eapply wp_mono; [by apply create_exec_task_moves|]. intros [] ? ?; by wp_run.
Qed.

Lemma wait_timeout_moves n d def p s :
  at_node n s → active n → wp (wait_timeout touched n d def p) (λ _ s', J s') s.
Proof.
  intros Hat Ha. unfold wait_timeout. wp_step. apply wp_reads; [apply reads_timed_out|].
  intros [e|[]] _; [apply Hat| |wp_step; apply Hat].
  wp_step. eapply wp_mono; [by apply wp_fail|]. intros [] s' (? & ? & ?); by wp_run.
Qed.

Lemma advance_waiting_moves n d def s :
  at_node n s → WorkflowNodeRun.status n = "waiting" →
  wp (_advance_waiting touched n d def) (λ _ s', J s') s.
Proof.
  intros Hat Hst. assert (active n) as Ha by (unfold active; rewrite Hst; str_mem).
  unfold _advance_waiting. wp_step.
  eapply wp_mono with (Q := λ _ s', J s' ∧ (s' = s ∨ settled n s')).
  { destruct (_ && _); [by apply poll_moves|wp_step; split; [apply Hat|by left]]. }
  intros [e|p] s1 [HJ1 Hs1]; [done|]. wp_step. apply wp_db_get. cbv beta iota.
  destruct Hs1 as [->|Hset]; [|unfold settled, node_table in Hset; rewrite Hset; by wp_step].
  pose proof (at_row _ _ Hat) as Hn. unfold node_table in Hn. rewrite Hn.
  assert (default false (is_waiting <$> Some n) = true) as -> by (cbn; unfold is_waiting; by rewrite Hst).
  cbn [negb].
  destruct (WorkflowNodeRun.approval_id n) as [i|]; [|by apply wait_timeout_moves].
  destruct (bool_decide _); [|by apply wait_timeout_moves].
  wp_step. apply wp_db_get. cbv beta iota. destruct (ApprovalRequest.status <$> _) as [st|];
    [|by apply wait_timeout_moves].
  destruct (bool_decide _).
  { wp_step. eapply wp_mono; [by apply wp_succeed|]. intros [] s' (? & ? & ?); by wp_run. }
  destruct (str_in _ _); [|by apply wait_timeout_moves].
  wp_step. eapply wp_mono; [by apply wp_fail|]. intros [] s' (? & ? & ?); by wp_run.
Qed.

(** The loops over the nodes. *)
Lemma node_still_there n s : J s → m0 !! WorkflowNodeRun.id n = Some n → WorkflowNodeRun.run_id n = run →
  ∃ n', node_table s !! WorkflowNodeRun.id n = Some n' ∧ node_evolves run n n'.
Proof. intros [Hw _] Hn _. specialize (Hw (WorkflowNodeRun.id n)). rewrite Hn in Hw. inversion Hw; eauto. Qed.

Lemma advance_nodes_moves nodes p adv b s :
  J s → (∀ n, n ∈ nodes → m0 !! WorkflowNodeRun.id n = Some n ∧ WorkflowNodeRun.run_id n = run) →
  (∀ n s, at_node n s → p n = true → wp (adv n) (λ _ s', J s') s) →
  wp (advance_nodes nodes p adv b) (λ _ s', J s') s.
Proof.
  intros HJ Hns Hadv. unfold advance_nodes. apply wp_fold_each with (I := λ _ _ s', J s'); [done| |done].
  intros done_ n rest b0 s1 -> HJ1. destruct (Hns n) as [Hn Hr]; [apply elem_of_app; right; apply elem_of_cons; by left|].
  destruct (node_still_there n s1 HJ1 Hn Hr) as (n' & Hn' & [Hid Hrun _ _ _ _ _]).
  wp_step. apply wp_db_get. cbv beta iota. unfold node_table in Hn'. rewrite Hn'.
  destruct (p n') eqn:Hp; [|by wp_step]. wp_step.
  eapply wp_mono; [apply Hadv; [|exact Hp]|by intros [] s' ?; wp_run].
  split; [done|by rewrite Hid|congruence].
Qed.

Lemma reads_verdict I k ds os fs st : preserves I (_verdict k ds os fs st).
Proof.
  assert (∀ A (l : list A) (q : A → Op bool), (∀ x, preserves I (q x)) → preserves I (any_each l q)) as Hany.
  { intros A l q Hq. induction l as [|x l IH]; cbn [any_each]; preserves_auto. }
  assert (∀ l d, preserves I (dep_in st l d)) as Hdep by (intros; unfold dep_in, as_key; preserves_auto).
  unfold _verdict. pose proof (preserves_iter_of I). preserves_auto.
  all: apply Hany; intros; preserves_auto.
Qed.

Lemma activate_moves ds os fs acc n s :
  J s → node_table s !! WorkflowNodeRun.id n = Some n → WorkflowNodeRun.run_id n = run →
  wp (activate_node ds os fs acc n) (λ _ s', J s') s.
Proof.
  intros HJ Hn Hr. unfold activate_node.
  destruct (bool_decide_reflect (WorkflowNodeRun.status n = "pending")) as [Hp|]; [|by wp_step].
  cbn [negb]. wp_step. apply wp_reads; [apply reads_verdict|]. intros [e|v] _; [done|]. do 2 wp_step.
  destruct v; [| |by wp_step]; wp_step; (eapply wp_node_upd; [done|exact Hn| |by intros; wp_step]);
    (apply moves_open; try done; [unfold node_done; by rewrite Hp|]; rewrite Hp; apply rtc_once; constructor).
Qed.
End moves.

(** ** Runs are written at the two ends of a step only *)

Section between.
Variable float_str : Q → string.
Variable container_str : json → string.
Variables paramiko redis_up broker_up : bool.
Variable agent_connected : string → bool.
Variable jwt_encode : json → string.
Variable _jti : St → string.
Variable touched : Node → option Z.
Variable float_of_str : string → option Q.
Variable fromisoformat : json → option Z.
Context {R : Type} `{Table R}.
Context `{!TableNe R ExecTask.ExecTask, !TableNe R ExecTaskHost.ExecTaskHost, !TableNe R ExecLog.ExecLog,
  !TableNe R ApprovalRequest.ApprovalRequest, !TableNe R ApprovalRecord.ApprovalRecord,
  !TableNe R AiAction.AiAction, !TableNe R TerminalSession.TerminalSession, !TableNe R Node}.
Context (m : gmap Z R) (P : gmap Z R → Prop).
#[local] Hint Resolve preserves_iter_of reads_cfg reads_elapsed reads_timed_out reads_due reads_exec_request
  reads_verdict : preserves.

Lemma create_exec_task_held r n d :
  preserves (held m P) (_create_exec_task float_str container_str paramiko redis_up agent_connected broker_up r n d).
Proof.
  assert (∀ i, preserves (held m P)
    (db_commit;; try_catch (dispatch_here float_str container_str paramiko redis_up agent_connected i) (λ _, ret ())))
    as Hdispatch.
  { intros i s (Hw & Hc & Hm). unfold bind, db_commit, modify. cbn [fst snd].
    assert (preserves (still m) (try_catch
      (dispatch_here float_str container_str paramiko redis_up agent_connected i) (λ _, ret ()))) as Hd
      by (apply preserves_try; [apply dispatch_still; apply _|intros; apply preserves_ret]).
    destruct (Hd (s <| committed := work s |>)) as [E1 E2]; [by split|]. by split_and!; [|rewrite E2|]. }
  unfold _create_exec_task. apply preserves_bind; [auto with preserves|]. intros req.
  apply preserves_bind; [apply create_record_held; apply _|]. intros c. preserves_auto.
Qed.

Lemma advance_running_held r n d def :
  preserves (held m P) (_advance_running float_str container_str paramiko redis_up agent_connected broker_up
    jwt_encode _jti touched float_of_str fromisoformat r n d def).
Proof.
  pose proof create_exec_task_held.
  unfold _advance_running, _enter_waiting_callback, _pending_callback_info, create_token, _create_approval,
    _approval_no, _poll_exec_task, _succeed, _fail. preserves_auto.
Qed.
Lemma advance_waiting_held n d def : preserves (held m P) (_advance_waiting touched n d def).
Proof. unfold _advance_waiting, wait_timeout, _poll_exec_task, _succeed, _fail. preserves_auto. Qed.
Lemma activate_held ds os fs acc n : preserves (held m P) (activate_node ds os fs acc n).
Proof. unfold activate_node. preserves_auto. Qed.
Lemma advance_nodes_held nodes p adv b :
  (∀ n, preserves (held m P) (adv n)) → preserves (held m P) (advance_nodes nodes p adv b).
Proof. intros Hadv. unfold advance_nodes. preserves_auto. Qed.
End between.
Lemma reads_load I run : preserves I (_load_definition run).
Proof. unfold _load_definition, dict_get, iter_of. preserves_auto. Qed.
Lemma reads_edges I ds : preserves I (_edges ds).
Proof. unfold _edges, field_targets, as_key, iter_of. preserves_auto. Qed.

(** ** A whole step *)

Inductive run_next : string → string → Prop :=
  | run_starts : run_next "pending" "running"
  | run_succeeds : run_next "running" "succeeded"
  | run_fails : run_next "running" "failed".
Definition run_done (r : Run) : bool := str_in (WorkflowRun.status r) _RUN_TERMINAL.

(** Row [b] is a later state of row [a] of the run table while [run] is stepped. *)
Record run_evolves (run : Z) (a b : Run) : Prop := {
  rev_same : ∃ st t1 t2 e, b = a <| WorkflowRun.status := st |> <| WorkflowRun.started_at := t1 |>
               <| WorkflowRun.finished_at := t2 |> <| WorkflowRun.error := e |>;
  rev_status : rtc run_next (WorkflowRun.status a) (WorkflowRun.status b);
  rev_other : WorkflowRun.id a ≠ run → b = a;
  rev_frozen : run_done a = true → b = a;
}.
Definition runs_evolve (run : Z) (m0 m : gmap Z Run) : Prop :=
  ∀ i, option_Forall2 (run_evolves run) (m0 !! i) (m !! i).
#[export] Instance run_evolves_refl run : Reflexive (run_evolves run).
Proof.
  intros a. split; [|done..].
  exists (WorkflowRun.status a), (WorkflowRun.started_at a), (WorkflowRun.finished_at a), (WorkflowRun.error a).
  by destruct a.
Qed.
Lemma runs_evolve_refl run m : runs_evolve run m m.
Proof. intros i. destruct (m !! i); by constructor. Qed.
Lemma runs_evolve_insert run m a b :
  m !! run = Some a → run_evolves run a b → runs_evolve run m (<[run := b]> m).
Proof.
  intros Hi Hab j. destruct (decide (run = j)) as [<-|Hne].
  - rewrite lookup_insert_eq, Hi. by constructor.
  - rewrite lookup_insert_ne by done. apply runs_evolve_refl.
Qed.

Section step.
Variable float_str : Q → string.
Variable container_str : json → string.
Variables paramiko redis_up broker_up : bool.
Variable agent_connected : string → bool.
Variable jwt_encode : json → string.
Variable _jti : St → string.
Variable touched : Node → option Z.
Variable float_of_str : string → option Q.
Variable fromisoformat : json → option Z.
#[local] Abbreviation run_nodes := (step_nodes float_str container_str paramiko redis_up
  agent_connected broker_up jwt_encode _jti touched float_of_str fromisoformat).
#[local] Abbreviation one_step := (step float_str container_str paramiko redis_up
  agent_connected broker_up jwt_encode _jti touched float_of_str fromisoformat).

Lemma selected_nodes (m : gmap Z Node) hi run :
  wf_rows m hi → ∀ n, n ∈ select_rows (in_run run) m → m !! WorkflowNodeRun.id n = Some n ∧ WorkflowNodeRun.run_id n = run.
Proof.
  intros Hwf n (Hp & i & Hi)%elem_of_select_rows. pose proof (wf_id Hwf i n Hi) as Hid. cbn in Hid. subst i.
  split; [done|]. by apply Z.eqb_eq.
Qed.

Lemma activation_moves run m0 hi ds os fs acc s :
  wf_rows m0 hi → node_table s = m0 → both (R:=Node) (nodes_evolve run m0) s →
  wp (fold_each (select_rows (in_run run) m0) acc (activate_node ds os fs))
    (λ _ s', both (R:=Node) (nodes_evolve run m0) s') s.
Proof.
  intros Hwf Hm HJ. pose proof (NoDup_select_rows (in_run run) m0 hi Hwf) as Hnd.
  pose proof (selected_nodes m0 hi run Hwf) as Hsel.
  apply wp_fold_each with (I := λ done_ _ s', both (R:=Node) (nodes_evolve run m0) s' ∧
    ∀ n, n ∈ select_rows (in_run run) m0 → n ∉ done_ → node_table s' !! WorkflowNodeRun.id n = Some n);
    [split; [done|]; intros n Hn _; rewrite Hm; by apply Hsel| |by intros ? ? [? _]].
  intros done_ n rest acc1 s1 Hl [HJ1 Hrows].
  assert (n ∈ select_rows (in_run run) m0 ∧ n ∉ done_) as [Hn Hnew].
  { rewrite Hl in *. split; [set_solver|]. intros Hin. rewrite fmap_app, fmap_cons in Hnd.
    apply NoDup_app in Hnd as (_ & Hd & _). apply (Hd (row_id n)); [by apply list_elem_of_fmap_2|set_solver]. }
  pose proof (Hrows n Hn Hnew) as Hrow. destruct (Hsel n Hn) as [_ Hr].
  assert (wp (activate_node ds os fs acc1 n) (λ _ s', ∀ j, j ≠ WorkflowNodeRun.id n →
            node_table s' !! j = node_table s1 !! j) s1) as Hframe.
  { unfold activate_node. destruct (negb _); [by wp_step|]. wp_step. apply wp_reads; [apply reads_verdict|].
    intros [e|v] _; [done|]. do 2 wp_step.
    destruct v; [| |by wp_step]; wp_step; (eapply wp_upd_hit; [exact Hrow|]); wp_step; intros j Hj;
      unfold node_table; rewrite tbl_put_row; by apply lookup_insert_ne. }
  eapply wp_mono; [apply (wp_and _ _ _ _ (activate_moves run m0 ds os fs acc1 n s1 HJ1 Hrow Hr) Hframe)|].
  intros [e|acc2] s2 [HJ2 Hfr]; [done|]. split; [done|].
  intros x Hx Hnx. rewrite not_elem_of_app in Hnx. destruct Hnx as [Hnx Hne].
  rewrite Hfr; [by apply Hrows|]. intros Heq. apply Hne, list_elem_of_singleton.
  destruct (Hsel x Hx) as [Hx0 _]. destruct (Hsel n Hn) as [Hn0 _]. congruence.
Qed.

Lemma step_nodes_moves run started def ds hi s :
  wf_rows (node_table s) hi → nodes_evolve (WorkflowRun.id run) (node_table s) (tbl (committed s)) →
  wp (run_nodes run started def ds)
    (λ _ s', both (R:=Node) (nodes_evolve (WorkflowRun.id run) (node_table s)) s') s.
Proof.
  intros Hwf Hc. assert (both (R:=Node) (nodes_evolve (WorkflowRun.id run) (node_table s)) s) as HJ by by split.
  pose proof (selected_nodes _ _ (WorkflowRun.id run) Hwf) as Hsel.
  unfold step_nodes. wp_step. apply wp_db_select. cbv beta iota. wp_step.
  apply wp_reads; [apply reads_edges|]. intros [e|[on_succ on_fail]] _; [done|]. cbv beta iota. wp_step.
  eapply wp_mono; [by eapply activation_moves|]. intros [e|act] s1 HJ1; [done|]. cbv zeta. wp_step.
  eapply wp_mono; [apply advance_nodes_moves with (run := WorkflowRun.id run) (m0 := node_table s); [done|exact Hsel|]|].
  { intros n s2 Hat [Hst%bool_decide_eq_true _]%andb_true_iff. by apply advance_running_moves. }
  intros [e|p] s2 HJ2; [done|].
  apply advance_nodes_moves with (run := WorkflowRun.id run) (m0 := node_table s); [done|exact Hsel|].
  intros n s3 Hat Hst%bool_decide_eq_true. by apply advance_waiting_moves.
Qed.

Lemma step_nodes_held {R} `{Table R, !TableNe R ExecTask.ExecTask, !TableNe R ExecTaskHost.ExecTaskHost,
    !TableNe R ExecLog.ExecLog, !TableNe R ApprovalRequest.ApprovalRequest, !TableNe R ApprovalRecord.ApprovalRecord,
    !TableNe R AiAction.AiAction, !TableNe R TerminalSession.TerminalSession, !TableNe R Node}
    (m : gmap Z R) P run started def ds :
  preserves (held m P) (run_nodes run started def ds).
Proof.
  unfold step_nodes. apply preserves_bind; [preserves_auto|]. intros nodes.
  apply preserves_bind; [apply reads_edges|]. intros [on_succ on_fail].
  apply preserves_bind; [apply preserves_fold_each; intros; apply activate_held; apply _|]. intros act. cbv zeta.
  apply preserves_bind; intros; apply advance_nodes_held; intros;
    [apply advance_running_held; apply _|apply advance_waiting_held; apply _].
Qed.

(** What the end of a step finds and leaves. *)
Definition ended (nodes : list Node) : bool := negb (bool_decide (nodes = [])) && forallb node_done nodes.
Definition outcome (nodes : list Node) : string :=
  if ended nodes then if existsb node_failed nodes then "failed" else "succeeded" else "running".

Lemma seam_keeps run (m : gmap Z Node) (m' : gmap Z Run) s :
  tbl (work s) = m → tbl (work s) = m' →
  wp (_on_run_failed run) (λ r s', r = inr () ∧ tbl (work s') = m ∧ tbl (work s') = m' ∧
        committed s' = committed s) s.
Proof.
  intros Hm Hm'.
  assert (∀ (R : Type) (HT : Table R) (_ : TableNe R Release.Release) (_ : TableNe R AuditLog.AuditLog)
    (x : gmap Z R) c, preserves (frame x c) (_on_run_failed run)) as Hp.
  { intros. unfold _on_run_failed, fail_release_for_run. preserves_auto. }
  pose proof (Hp Node _ _ _ m (committed s) s) as [H1 H2]; [done|].
  pose proof (Hp Run _ _ _ m' (committed s) s) as [H3 _]; [done|].
  unfold wp. split_and!; [|done..]. unfold _on_run_failed, try_catch.
  destruct (bind _ _ s) as [[?|[]] ?]; done.
Qed.

Lemma wp_finalise run_id p run (Q : exn + bool → St → Prop) s :
  tbl (R:=Run) (work s) !! run_id = Some run → WorkflowRun.status run = "running" →
  (∀ s' st e t, st = outcome (select_rows (in_run run_id) (node_table s)) →
     node_table s' = node_table s → committed s' = committed s →
     tbl (work s') = <[run_id := run <| WorkflowRun.status := st |> <| WorkflowRun.error := e |>
                                     <| WorkflowRun.finished_at := t |>]> (tbl (work s)) →
     (ended (select_rows (in_run run_id) (node_table s)) = false → s' = s) →
     Q (inr (ended (select_rows (in_run run_id) (node_table s)) || p)) s') →
  wp (finalise run_id p) Q s.
Proof.
  intros Hrun Hst HQ. unfold finalise. wp_step. apply wp_db_select. cbv beta iota. wp_step. apply wp_db_get.
  cbv beta iota. rewrite Hrun, Hst. cbn [negb andb]. fold (node_table s).
  set (nodes := select_rows (in_run run_id) (node_table s)) in *.
  change (negb (bool_decide ("running" = "cancelled"))) with true. cbn [andb].
  change (negb (bool_decide (nodes = [])) && forallb node_done nodes) with (ended nodes).
  unfold outcome in HQ. destruct (ended nodes) eqn:He; cycle 1.
  { wp_step. apply (HQ s "running" (WorkflowRun.error run) (WorkflowRun.finished_at run)); try done.
    symmetry. rewrite <-Hst. replace (_ <| _ := _ |>) with run by by destruct run. by apply insert_id. }
  cbn [orb] in HQ. wp_step.
  rewrite existsb_filter in HQ. destruct (filter _ nodes) as [|n l].
  - eapply wp_upd_hit; [exact Hrun|]. do 2 wp_step. wp_step. eapply wp_upd_hit; [rewrite tbl_put_row; apply lookup_insert_eq|].
    wp_step. eapply (HQ _ _ (WorkflowRun.error run)); try done.
    rows_simpl. by rewrite insert_insert_eq.
  - wp_step. eapply wp_upd_hit; [exact Hrun|]. eapply wp_mono; [by apply seam_keeps|].
    intros r s2 (-> & H1 & H2 & H3). do 2 wp_step. wp_step.
    eapply wp_upd_hit; [rewrite H2, tbl_put_row; apply lookup_insert_eq|].
    wp_step. eapply HQ; try done.
    rows_simpl. rewrite H2. rows_simpl. rewrite insert_insert_eq. f_equal.
Qed.

(** The run row while the nodes are stepped. *)
Definition started_run (t : Z) (r : Run) : Run :=
  if bool_decide (WorkflowRun.status r = "pending")
  then r <| WorkflowRun.status := "running" |>
         <| WorkflowRun.started_at := Some (default t (WorkflowRun.started_at r)) |>
  else r.
Lemma started_running t r :
  WorkflowRun.status r ∈ ["pending"; "running"] → WorkflowRun.status (started_run t r) = "running".
Proof.
  intros Hr. unfold started_run. case_bool_decide as E; [done|].
  apply elem_of_cons in Hr as [?|Hr]; [done|]. by apply list_elem_of_singleton.
Qed.
Lemma started_evolves t r :
  WorkflowRun.status r ∈ ["pending"; "running"] → run_evolves (WorkflowRun.id r) r (started_run t r).
Proof.
  intros Hr. unfold started_run. case_bool_decide as E; [|reflexivity]. split.
  - exists "running", (Some (default t (WorkflowRun.started_at r))), (WorkflowRun.finished_at r), (WorkflowRun.error r).
    by destruct r.
  - cbn. rewrite E. apply rtc_once, run_starts.
  - done.
  - unfold run_done. by rewrite E.
Qed.
Lemma closed_evolves t r st e f :
  WorkflowRun.status r ∈ ["pending"; "running"] → st ∈ ["running"; "succeeded"; "failed"] →
  run_evolves (WorkflowRun.id r) r (started_run t r <| WorkflowRun.status := st |> <| WorkflowRun.error := e |>
     <| WorkflowRun.finished_at := f |>).
Proof.
  intros Hr Hst. destruct (started_evolves t r Hr) as [(st0 & t1 & t2 & e0 & Hs) Hrtc _ Hfz].
  pose proof (started_running t r Hr) as Hrun. split; [| |done|].
  - exists st, t1, f, e. rewrite Hs. by destruct r.
  - etrans; [exact Hrtc|]. rewrite Hrun. cbn.
    apply elem_of_cons in Hst as [->|Hst]; [done|]. apply rtc_once.
    apply elem_of_cons in Hst as [->|Hst]; [constructor|]. apply list_elem_of_singleton in Hst as ->. constructor.
  - unfold run_done. intros Hd.
    apply elem_of_cons in Hr as [E|Hr]; [by rewrite E in Hd|].
    apply list_elem_of_singleton in Hr. by rewrite Hr in Hd.
Qed.
Lemma outcome_cases nodes : outcome nodes ∈ ["running"; "succeeded"; "failed"].
Proof. unfold outcome. destruct (ended nodes), (existsb node_failed nodes); str_mem. Qed.

(** [start_run] as a function. *)
Lemma start_run_run r s :
  tbl (work s) !! WorkflowRun.id r = Some r →
  start_run r s = (inr (bool_decide (WorkflowRun.status r = "pending")),
                   put_row (WorkflowRun.id r) (started_run (now s) r) s).
Proof.
  intros Hr. unfold start_run, started_run. case_bool_decide.
  - unfold bind, utc_now, gets, db_upd, modify, ret. cbn [fst snd]. by rewrite Hr.
  - unfold ret. by rewrite (put_row_id _ _ _ Hr).
Qed.

Lemma wp_step_open run_id r hi hr s :
  work s = committed s → wf_rows (R:=Node) (tbl (work s)) hi → wf_rows (R:=Run) (tbl (work s)) hr →
  tbl (committed s) !! run_id = Some r →
  WorkflowRun.status r ∈ ["pending"; "running"] →
  wp (one_step run_id) (λ o s',
    both (R:=Node) (nodes_evolve run_id (tbl (committed s))) s' ∧
    runs_evolve run_id (tbl (committed s)) (tbl (committed s')) ∧
    ∀ b, o = inr b → ∃ r', tbl (committed s') !! run_id = Some r' ∧
      WorkflowRun.status r' = outcome (select_rows (in_run run_id) (tbl (committed s')))) s.
Proof.
  intros Hq Hwf Hwfr Hrow Hopen. rewrite <-Hq in *.
  assert (WorkflowRun.id r = run_id) as Hid by by apply (wf_id Hwfr).
  unfold step. wp_step. apply wp_db_get. cbv beta iota. rewrite Hrow.
  destruct (str_in _ _RUN_TERMINAL) eqn:Hterm.
  { exfalso. apply elem_of_cons in Hopen as [E|E]; [by rewrite E in Hterm|].
    apply list_elem_of_singleton in E. by rewrite E in Hterm. }
  wp_step. rewrite <-Hid in Hrow. eapply wp_of_run; [by apply start_run_run|]. cbv beta iota.
  rewrite Hid in *. set (r1 := started_run (now s) r). set (s1 := put_row run_id r1 s).
  assert (node_table s1 = node_table s) as Hn1 by (unfold node_table, s1; by rewrite tbl_put_row_ne).
  assert (nodes_evolve run_id (tbl (work s)) (tbl (committed s1))) as Hc1
    by (unfold s1; rows_simpl; by rewrite <-Hq).
  assert (both (R:=Node) (nodes_evolve run_id (tbl (work s))) s1) as HJ1 by (split; [fold (node_table s1); by rewrite Hn1|done]).
  assert (runs_evolve run_id (tbl (work s)) (tbl (work s1))) as Hr1.
  { unfold s1. rewrite tbl_put_row. eapply runs_evolve_insert; [done|]. rewrite <-Hid. by apply started_evolves. }
  assert (held (tbl (work s1)) (runs_evolve run_id (tbl (work s))) s1) as Hheld.
  { split_and!; [done| |done]. unfold s1. rows_simpl. rewrite <-Hq. apply runs_evolve_refl. }
  wp_step. apply wp_reads; [apply reads_load|].
  intros [e|[def ds]] _; [split_and!; [done|apply Hheld|done]|]. cbv beta iota. wp_step.
  assert (wf_rows (node_table s1) hi) as Hwf1 by by rewrite Hn1.
  pose proof (step_nodes_moves r (bool_decide (WorkflowRun.status r = "pending")) def ds _ s1 Hwf1) as Hmoves.
  rewrite Hid, Hn1 in Hmoves. specialize (Hmoves Hc1).
  assert (wp (run_nodes r (bool_decide (WorkflowRun.status r = "pending")) def ds)
    (λ _ s', held (tbl (work s1)) (runs_evolve run_id (tbl (work s))) s') s1) as Hkeep
    by (unfold wp; apply step_nodes_held; [apply _..|done]).
  eapply wp_mono; [apply (wp_and _ _ _ _ Hmoves Hkeep)|]. cbv beta.
  intros [e|p] s2 [HJ2 (Hr2 & Hc2 & _)]; [done|]. wp_step.
  eapply (wp_finalise run_id p r1).
  { rewrite Hr2. unfold s1. rewrite tbl_put_row. apply lookup_insert_eq. }
  { by apply started_running. }
  intros s3 st e t Hst Hn3 Hc3 Hr3 _. do 2 wp_step. cbv beta iota.
  assert (∀ s4, work s4 = work s3 → committed s4 = work s3 →
    both (R:=Node) (nodes_evolve run_id (tbl (work s))) s4 ∧
    runs_evolve run_id (tbl (work s)) (tbl (committed s4)) ∧
    ∃ r', tbl (committed s4) !! run_id = Some r' ∧
      WorkflowRun.status r' = outcome (select_rows (in_run run_id) (tbl (committed s4)))) as Hpost.
  { intros s4 E1 E2. unfold both. rewrite E1, E2. unfold node_table in *. rewrite Hn3, Hr3.
    split_and!; [apply HJ2|apply HJ2| |].
    - rewrite Hr2. unfold s1. rewrite tbl_put_row, insert_insert_eq. eapply runs_evolve_insert; [done|].
      rewrite <-Hid. apply closed_evolves; [done|]. rewrite Hst. apply outcome_cases.
    - eexists. split; [apply lookup_insert_eq|]. done. }
  wp_run; (edestruct Hpost as (P1 & P2 & P3); [..|split_and!; [exact P1|exact P2|by intros]]; done).
Qed.

(** A run that is gone or has ended. *)
Definition run_closed (run_id : Z) (m : gmap Z Run) : bool :=
  match m !! run_id with Some r => run_done r | None => true end.

Lemma step_closed run_id s :
  run_closed run_id (tbl (work s)) = true → one_step run_id s = (inr false, s).
Proof.
  unfold run_closed, step, bind, db_get, gets. destruct (tbl (R:=Run) (work s) !! run_id) as [r|]; [|done].
  unfold run_done. by intros ->.
Qed.
Lemma run_open run_id s r :
  tbl (R:=Run) (committed s) !! run_id = Some r → run_closed run_id (tbl (committed s)) = false →
  WorkflowRun.status r ∈ RUN_STATUSES → WorkflowRun.status r ∈ ["pending"; "running"].
Proof.
  unfold run_closed, run_done, RUN_STATUSES. intros -> Ht Hs. rewrite !elem_of_cons in Hs. rewrite !elem_of_cons.
  destruct Hs as [Hs|[Hs|[Hs|[Hs|[Hs|Hs]]]]]; try (by rewrite Hs in Ht); auto.
Qed.

(** C15: one engine step, whatever its outcome, moves node rows only along
    the node life cycle (pending, running, waiting, an end) and only in the run
    stepped; nodes that have ended never change again.  The run moves only from
    pending to running to succeeded or failed; a run that has ended, and every
    other run, is left exactly as it was. *)
Theorem step_moves run_id s o s' :
  quiet Node s → wf_table Run s →
  (∀ r, tbl (committed s) !! run_id = Some r → WorkflowRun.status r ∈ RUN_STATUSES) →
  run_request (one_step run_id) s = (o, s') →
  nodes_evolve run_id (tbl (committed s)) (tbl (committed s')) ∧
  runs_evolve run_id (tbl (committed s)) (tbl (committed s')) ∧
  (run_closed run_id (tbl (committed s)) = true → o = inr false ∧ s' = s).
Proof.
  intros Hq Hwf Hty Hrun. destruct (run_closed run_id (tbl (committed s))) eqn:Hc.
  - destruct Hq as [Hq _]. unfold run_request in Hrun.
    rewrite step_closed in Hrun by by rewrite Hq. injection Hrun as <- <-. rewrite <-Hq.
    split_and!; [reflexivity|apply runs_evolve_refl|]. intros _. split; [done|]. destruct s; cbn in *; congruence.
  - split_and!; [..|done].
    all: destruct (tbl (R:=Run) (committed s) !! run_id) as [r|] eqn:Hr;
      [|unfold run_closed in Hc; by rewrite Hr in Hc].
    all: pose proof (wp_step_open run_id r _ _ s (proj1 Hq) (proj1 (proj2 Hq)) (proj1 Hwf) Hr (run_open _ _ _ Hr Hc (Hty _ eq_refl))) as Hwp.
    all: unfold wp in Hwp; unfold run_request in Hrun; destruct (one_step run_id s) as [o1 s1];
      injection Hrun as <- <-; cbn in *; apply Hwp.
Qed.

(** A step that returns leaves the run ended exactly when it has nodes
    and all of them have ended: failed when one of them failed, succeeded
    otherwise; until then the run is running. *)
Theorem step_finalises run_id s b s' :
  quiet Node s → wf_table Run s →
  (∀ r, tbl (committed s) !! run_id = Some r → WorkflowRun.status r ∈ RUN_STATUSES) →
  run_closed run_id (tbl (committed s)) = false →
  run_request (one_step run_id) s = (inr b, s') →
  let nodes := select_rows (in_run run_id) (tbl (committed s')) in
  ∃ r, tbl (committed s') !! run_id = Some r ∧
    WorkflowRun.status r =
      if ended nodes then if existsb node_failed nodes then "failed" else "succeeded" else "running".
Proof.
  intros Hq Hwf Hty Hc Hrun nodes.
  destruct (tbl (R:=Run) (committed s) !! run_id) as [r|] eqn:Hr; [|unfold run_closed in Hc; by rewrite Hr in Hc].
  pose proof (wp_step_open run_id r _ _ s (proj1 Hq) (proj1 (proj2 Hq)) (proj1 Hwf) Hr (run_open _ _ _ Hr Hc (Hty _ eq_refl))) as Hwp.
  unfold wp in Hwp. unfold run_request in Hrun. destruct (one_step run_id s) as [o1 s1].
  injection Hrun as -> <-. destruct Hwp as (_ & _ & Hend). by apply (Hend b).
Qed.
End step.

(** ** Routing as a function *)

Definition verdict_of (deps fail_srcs succ_srcs : list string) (status : gmap string string) : verdict :=
  if existsb (status_in status ["failed"]) fail_srcs then Ready else
  if existsb (status_in status ["failed"]) succ_srcs then Skip else
  if existsb (status_in status ["failed"; "skipped"; "cancelled"]) deps then Skip else
  if forallb (status_in status ["succeeded"]) deps && forallb (status_in status ["succeeded"]) succ_srcs
  then Ready else Wait.

Lemma any_each_run {A} (l : list A) (p : A → Op bool) (q : A → bool) s :
  (∀ x, x ∈ l → p x s = (inr (q x), s)) → any_each l p s = (inr (existsb q l), s).
Proof.
  induction l as [|x l IH]; intros Hp; [done|]. cbn [any_each existsb].
  erewrite bind_inr; [|apply Hp, elem_of_cons; by left].
  destruct (q x); [done|]. apply IH. intros y Hy. apply Hp, elem_of_cons. by right.
Qed.
Lemma existsb_negb {A} (p : A → bool) l : existsb (λ x, negb (p x)) l = negb (forallb p l).
Proof. induction l as [|x l IH]; [done|]. cbn. rewrite IH. by destruct (p x). Qed.

Definition sources (m : gmap string (gset string)) (key : string) : list string :=
  elements (default ∅ (m !! key)).

Lemma verdict_run key ds on_succ on_fail status deps s :
  raw_refs "depends_on" (node_def ds key) = JArr (JStr <$> deps) →
  _verdict key ds on_succ on_fail status s =
    (inr (verdict_of deps (sources on_fail key) (sources on_succ key) status), s).
Proof.
  intros Hdeps. unfold _verdict, verdict_of, sources. rewrite Hdeps.
  change (iter_of (JArr (JStr <$> deps))) with (ret (S := St) (JStr <$> deps)).
  erewrite bind_inr by reflexivity. cbv zeta. destruct (existsb _ _); [done|]. destruct (existsb _ _); [done|].
  assert (∀ l, any_each (JStr <$> deps) (dep_in status l) s = (inr (existsb (status_in status l) deps), s)) as Hin.
  { intros l. rewrite (any_each_run _ _ (λ d, status_in status l (ref_name d))).
    - do 2 f_equal. clear Hdeps. induction deps as [|d deps IH]; cbn; [done|]. f_equal. apply IH.
    - by intros x (d & -> & _)%list_elem_of_fmap. }
  erewrite bind_inr by apply Hin. destruct (existsb _ _); [done|].
  erewrite bind_inr; cycle 1.
  { apply (any_each_run _ _ (λ d, negb (status_in status ["succeeded"] (ref_name d)))).
    by intros x (d & -> & _)%list_elem_of_fmap. }
  assert (existsb (λ d, negb (status_in status ["succeeded"] (ref_name d))) (JStr <$> deps) =
          negb (forallb (status_in status ["succeeded"]) deps)) as ->.
  { rewrite <-existsb_negb. clear Hdeps Hin. induction deps as [|d deps IH]; cbn; [done|]. f_equal. apply IH. }
  rewrite existsb_negb. by do 2 destruct (forallb _ _).
Qed.

Lemma status_in_true status l k : status_in status l k = true ↔ ∃ st, status !! k = Some st ∧ st ∈ l.
Proof.
  unfold status_in. destruct (status !! k) as [st|]; [|naive_solver]. rewrite str_in_true. naive_solver.
Qed.

(** The first element of an acyclic relation among [keys]. *)
Lemma acyclic_minimal edges (keys : list string) k :
  acyclic edges → k ∈ keys → ∃ x, x ∈ keys ∧ ∀ y, y ∈ keys → (y, x) ∉ edges.
Proof.
  intros Hac Hk.
  set (R := λ x y, (y, x) ∈ edges ∧ y ∈ keys).
  assert (∀ x y, tc R x y → tc (λ x y, (x, y) ∈ edges) y x) as Hflip.
  { induction 1 as [x y [? _]|x y z [? _] _ IH]; [by apply tc_once|by eapply tc_r]. }
  assert (sn R k) as Hsn.
  { apply tc_finite_sn.
    - intros x Hx. apply (Hac x). by apply Hflip.
    - exists keys. intros y Hy. clear Hk Hac. by induction Hy as [x y [_ ?]|x y z _ _ IH]. }
  induction Hsn as [x _ IH].
  destruct (decide (Exists (λ y, (y, x) ∈ edges) keys)) as [(y & Hy & He)%Exists_exists|Hno].
  - by apply (IH y).
  - exists x. split; [done|]. intros y Hy He. apply Hno, Exists_exists. by exists y.
Qed.

(** ** Definitions the validator accepts *)

Lemma def_nodes_snoc l n :
  def_nodes (l ++ [n]) =
    match n, node_key n with JObj _, Some k => <[k := n]> (def_nodes l) | _, _ => def_nodes l end.
Proof. unfold def_nodes. by rewrite foldl_app. Qed.
Lemma def_nodes_values nodes k n :
  def_nodes nodes !! k = Some n → n ∈ nodes ∧ node_key n = Some k ∧ ∃ o, n = JObj o.
Proof.
  induction nodes as [|x l IH] using rev_ind; [done|]. rewrite def_nodes_snoc, elem_of_app.
  assert (def_nodes l !! k = Some n → (n ∈ l ∨ n ∈ [x]) ∧ node_key n = Some k ∧ ∃ o, n = JObj o) as Hl by naive_solver.
  destruct x as [| | | | | |o]; [exact Hl..|]. destruct (node_key (JObj o)) as [k'|] eqn:Hk; [|exact Hl].
  intros [[<- <-]|[_ Hin]]%lookup_insert_Some; [|by apply Hl].
  split_and!; [right; by apply list_elem_of_singleton|done|by eexists].
Qed.
Lemma def_nodes_has nodes n k :
  n ∈ nodes → (∃ o, n = JObj o) → node_key n = Some k → is_Some (def_nodes nodes !! k).
Proof.
  intros Hn [o ->] Hk. induction nodes as [|x l IH] using rev_ind; [by apply elem_of_nil in Hn|].
  rewrite def_nodes_snoc. apply elem_of_app in Hn as [Hn|Hx%list_elem_of_singleton]; [|subst x].
  - specialize (IH Hn). destruct x as [| | | | | |o']; [done..|]. destruct (node_key (JObj o')) as [k'|]; [|done].
    destruct (decide (k' = k)) as [->|]; [by rewrite lookup_insert_eq|by rewrite lookup_insert_ne].
  - rewrite Hk. by rewrite lookup_insert_eq.
Qed.

Section well_formed.
Context (nodes : list json) (Hwf : well_formed_nodes nodes).

Lemma node_def_of k :
  k ∈ node_name <$> nodes →
  ∃ n, node_def (def_nodes nodes) k = n ∧ n ∈ nodes ∧ node_name n = k.
Proof.
  intros (n & -> & Hn)%list_elem_of_fmap. pose proof (wfn_nodes _ Hwf) as Hall. rewrite Forall_forall in Hall.
  destruct (Hall n Hn) as (Ho & (k & Hk & _) & _).
  destruct (def_nodes_has nodes n k Hn Ho Hk) as [n' Hn'].
  destruct (def_nodes_values _ _ _ Hn') as (Hin & Hk' & [o ->]). exists (JObj o).
  unfold node_name, node_def in *. rewrite Hk, Hk'. cbn. rewrite Hn'.
  split_and!; [|done|done]. destruct o; [by vm_compute in Hk'|done].
Qed.

Lemma field_of k field :
  k ∈ node_name <$> nodes → field ∈ EDGE_FIELDS →
  ∃ refs, raw_refs field (node_def (def_nodes nodes) k) = JArr (JStr <$> refs) ∧
    (∀ r, r ∈ refs → r ∈ node_name <$> nodes) ∧
    (∀ r, r ∈ refs → (r, k) ∈ def_edges nodes).
Proof.
  intros (n & -> & Hn & <-)%node_def_of Hf.
  destruct (wfn_refs _ Hwf n field Hn Hf) as (refs & Hraw & Hin). exists refs. split_and!; [done|done|].
  intros r Hr. unfold def_edges, node_edges. apply list_elem_of_join. eexists. split; [|by apply list_elem_of_fmap_2].
  apply list_elem_of_join. eexists. split; [|apply list_elem_of_fmap_2; exact Hf].
  unfold field_refs. rewrite Hraw. apply list_elem_of_fmap. exists (JStr r). split; [done|].
  by apply list_elem_of_fmap_2.
Qed.

(** No node routes on success. *)
Definition no_success_routes : Prop := ∀ n, n ∈ nodes → raw_refs "on_success" n = JArr [].

Lemma edges_run s :
  no_success_routes → ∃ on_fail, _edges (def_nodes nodes) s = (inr (∅, on_fail), s).
Proof.
  intros Hno. unfold _edges.
  assert (∀ kv, kv ∈ map_to_list (def_nodes nodes) → raw_refs "on_success" kv.2 = JArr [] ∧
    ∃ refs, raw_refs "on_failure" kv.2 = JArr (JStr <$> refs)) as Hl.
  { intros [k n] (Hn & _ & _)%elem_of_map_to_list%def_nodes_values. split; [by apply Hno|].
    destruct (wfn_refs _ Hwf n "on_failure" Hn) as (refs & ? & _); [str_mem|by eexists]. }
  generalize (∅ : gmap string (gset string)) at 2. revert Hl.
  induction (map_to_list (def_nodes nodes)) as [|kv l IH]; intros Hl acc; [by exists acc|].
  destruct (Hl kv) as [Hs [refs Hf]]; [apply elem_of_cons; by left|]. cbn [fold_each].
  assert (map_each (JStr <$> refs) as_key s = (inr (Some <$> refs), s)) as Hkeys.
  { clear. induction refs as [|r refs IH]; [done|]. cbn [map_each fmap list_fmap].
    unfold bind at 1. cbn. unfold bind. by rewrite IH. }
  assert (field_targets "on_success" kv.2 s = (inr [], s)) as Es by (unfold field_targets; by rewrite Hs).
  assert (field_targets "on_failure" kv.2 s = (inr (Some <$> refs), s)) as Ef.
  { unfold field_targets. rewrite Hf. unfold bind at 1. cbn. exact Hkeys. }
  erewrite bind_inr; [apply (IH (λ x Hx, Hl x (proj2 (elem_of_cons _ _ _) (or_intror Hx))))|].
  rewrite (bind_inr _ _ _ _ _ Es), (bind_inr _ _ _ _ _ Ef). done.
Qed.
End well_formed.

(** ** A run does not get stuck *)

Lemma advance_nodes_noop l p adv b s :
  (∀ n, n ∈ l → ∃ n', node_table s !! WorkflowNodeRun.id n = Some n' ∧ p n' = false) →
  advance_nodes l p adv b s = (inr b, s).
Proof.
  intros Hl. unfold advance_nodes. induction l as [|n l IH]; [done|]. cbn [fold_each].
  destruct (Hl n) as (n' & Hn & Hp); [apply elem_of_cons; by left|].
  erewrite bind_inr; [apply IH; intros x Hx; apply Hl, elem_of_cons; by right|].
  unfold bind, db_get, gets. unfold node_table in Hn. by rewrite Hn, Hp.
Qed.

(** Rows of the run between steps that started nothing: pending or ended. *)
Definition resting (n : Node) : Prop := node_done n = true ∨ WorkflowNodeRun.status n = "pending".
Definition waits (ds : gmap string json) (on_fail : gmap string (gset string)) (status : gmap string string)
    (n : Node) : Prop :=
  WorkflowNodeRun.status n = "pending" →
  ∃ deps, raw_refs "depends_on" (node_def ds (WorkflowNodeRun.node_key n)) = JArr (JStr <$> deps) ∧
    verdict_of deps (sources on_fail (WorkflowNodeRun.node_key n)) [] status = Wait.

Section activation.
Context (ds : gmap string json) (on_fail : gmap string (gset string)) (l : list Node).
Context (Hdeps : ∀ n, n ∈ l → ∃ deps,
  raw_refs "depends_on" (node_def ds (WorkflowNodeRun.node_key n)) = JArr (JStr <$> deps)).
Context (Hrest : ∀ n, n ∈ l → resting n) (Hnd : NoDup (WorkflowNodeRun.id <$> l)).

(** What the activation pass has made of a row. *)
Definition handled (b : Activation) (s : St) (n : Node) : Prop :=
  ∃ n', node_table s !! WorkflowNodeRun.id n = Some n' ∧ is_waiting n' = false ∧
    (WorkflowNodeRun.status n' = "running" → WorkflowNodeRun.node_key n' ∈ activated b).

Lemma handled_mono b b' s s' n x y :
  handled b s n → activated b ⊆ activated b' → WorkflowNodeRun.id n ≠ WorkflowNodeRun.id x →
  node_table s' = <[WorkflowNodeRun.id x := y]> (node_table s) → handled b' s' n.
Proof.
  intros (n' & Hn' & Hw & Hk) Hsub Hne Ht. exists n'. split_and!; [|done|by intros Hr; apply Hsub, Hk].
  by rewrite Ht, lookup_insert_ne.
Qed.

Lemma activation_progress acc s :
  (∀ n, n ∈ l → node_table s !! WorkflowNodeRun.id n = Some n) →
  wp (fold_each l acc (activate_node ds ∅ on_fail)) (λ r s', ∃ b, r = inr b ∧
    (act_progressed b = true ∨
     s' = s ∧ b = acc ∧ ∀ n, n ∈ l → waits ds on_fail (act_status acc) n) ∧
    (∀ n, n ∈ l → handled b s' n)) s.
Proof using Hdeps Hrest Hnd.
  intros Hrows.
  apply wp_fold_each with (I := λ dn b s',
    (act_progressed b = true ∨ s' = s ∧ b = acc ∧ ∀ n, n ∈ dn → waits ds on_fail (act_status acc) n) ∧
    (∀ n, n ∈ dn → handled b s' n) ∧
    (∀ n, n ∈ l → n ∉ dn → node_table s' !! WorkflowNodeRun.id n = Some n)).
  - split_and!; [right|..|by intros n Hn _; apply Hrows].
    + split_and!; [done..|]. intros n Hn. by apply elem_of_nil in Hn.
    + intros n Hn. by apply elem_of_nil in Hn.
  - intros dn n rest b s1 Hl (Hp & Hh & Hr).
    assert (n ∈ l) as Hn by (rewrite Hl; apply elem_of_app; right; apply elem_of_cons; by left).
    assert (∀ x, x ∈ dn → WorkflowNodeRun.id x ≠ WorkflowNodeRun.id n) as Hne.
    { intros x Hx He. rewrite Hl, fmap_app, fmap_cons in Hnd. apply NoDup_app in Hnd as (_ & Hd & _).
      apply (Hd (WorkflowNodeRun.id n)); [rewrite <-He; by apply list_elem_of_fmap_2|apply elem_of_cons; by left]. }
    assert (n ∉ dn) as Hnew by (intros Hin; by apply (Hne n Hin)).
    pose proof (Hr n Hn Hnew) as Hrow. destruct (Hdeps n Hn) as [deps Hd].
    assert (∀ b' s' y, act_progressed b' = true → activated b ⊆ activated b' →
      node_table s' = <[WorkflowNodeRun.id n := y]> (node_table s1) →
      is_waiting y = false → (WorkflowNodeRun.status y = "running" → WorkflowNodeRun.node_key y ∈ activated b') →
      (act_progressed b' = true ∨
       s' = s ∧ b' = acc ∧ ∀ n0, n0 ∈ dn ++ [n] → waits ds on_fail (act_status acc) n0) ∧
      (∀ n0, n0 ∈ dn ++ [n] → handled b' s' n0) ∧
      (∀ n0, n0 ∈ l → n0 ∉ dn ++ [n] → node_table s' !! WorkflowNodeRun.id n0 = Some n0)) as Hwrite.
    { intros b' s' y Hb' Hsub Ht Hy Hk. split_and!; [by left|..].
      - intros x [Hx|Hx%list_elem_of_singleton]%elem_of_app; [by eapply handled_mono; [apply Hh|done|apply Hne|exact Ht]|subst x].
        exists y. split_and!; [by rewrite Ht, lookup_insert_eq|done|done].
      - intros x Hx Hxn. rewrite not_elem_of_app, list_elem_of_singleton in Hxn. destruct Hxn as [Hxd Hxn].
        rewrite Ht, lookup_insert_ne; [by apply Hr|]. intros He. pose proof (Hr x Hx Hxd). congruence. }
    assert (∀ (Hw : waits ds on_fail (act_status b) n), 
      (act_progressed b = true ∨
       s1 = s ∧ b = acc ∧ ∀ n0, n0 ∈ dn ++ [n] → waits ds on_fail (act_status acc) n0) ∧
      (∀ n0, n0 ∈ dn ++ [n] → handled b s1 n0) ∧
      (∀ n0, n0 ∈ l → n0 ∉ dn ++ [n] → node_table s1 !! WorkflowNodeRun.id n0 = Some n0)) as Hkeep.
    { intros Hw. split_and!.
      - destruct Hp as [Hp|(-> & -> & Hp)]; [by left|right]. split_and!; [done..|].
        intros x [Hx|Hx%list_elem_of_singleton]%elem_of_app; [by apply Hp|by subst].
      - intros x [Hx|Hx%list_elem_of_singleton]%elem_of_app; [by apply Hh|subst x]. exists n. split_and!; [done|..];
          (destruct (Hrest n Hn) as [He|He]; [unfold node_done in He|unfold is_waiting; by rewrite He]).
        + unfold is_waiting. case_bool_decide as E; [by rewrite E in He|done].
        + intros E. by rewrite E in He.
      - intros x Hx Hxn. rewrite not_elem_of_app in Hxn. apply Hr; [done|by destruct Hxn]. }
    unfold activate_node. case_bool_decide as Hpend; cbn [negb]; cycle 1.
    { wp_step. apply Hkeep. by intros ?. }
    wp_step. eapply wp_of_run; [by apply verdict_run|]. cbv beta iota. do 2 wp_step.
    change (sources ∅ (WorkflowNodeRun.node_key n)) with ([] : list string).
    destruct (verdict_of deps _ [] _) eqn:Hv.
    + wp_step. eapply wp_upd_hit; [exact Hrow|]. wp_step.
      eapply Hwrite; [done|cbn; set_solver|unfold node_table; by rewrite tbl_put_row|done|].
      intros _. cbn. set_solver.
    + wp_step. eapply wp_upd_hit; [exact Hrow|]. wp_step.
      eapply Hwrite; [done|done|unfold node_table; by rewrite tbl_put_row|done|done].
    + wp_step. apply Hkeep. intros _. by exists deps.
  - intros b s' (Hp & Hh & _). by exists b.
Qed.
End activation.

(** The keys of a run's rows are distinct. *)
Lemma run_keys_distinct (m : gmap Z Node) hi run :
  wf_rows m hi → NoDup (WorkflowNodeRun.node_key <$> select_rows (in_run run) m).
Proof.
  intros Hwf. pose proof (NoDup_select_rows (in_run run) m hi Hwf) as Hnd.
  pose proof (selected_nodes m hi run Hwf) as Hsel. revert Hnd Hsel.
  generalize (select_rows (in_run run) m) as l. intros l.
  induction l as [|n l IH]; intros Hnd Hsel; [apply NoDup_nil_2|].
  change (NoDup (WorkflowNodeRun.id n :: (WorkflowNodeRun.id <$> l))) in Hnd. apply NoDup_cons in Hnd as [Hn Hnd].
  rewrite fmap_cons. apply NoDup_cons. split; [|apply IH; [done|intros; apply Hsel, elem_of_cons; by right]].
  intros (x & Hk & Hx)%list_elem_of_fmap.
  destruct (Hsel n) as [Hn0 Hnr]; [apply elem_of_cons; by left|].
  destruct (Hsel x) as [Hx0 Hxr]; [apply elem_of_cons; by right|].
  assert (WorkflowNodeRun.id n ≠ WorkflowNodeRun.id x) as Hne.
  { intros He. apply Hn. apply list_elem_of_fmap. by exists x. }
  assert (∀ a b : Node, WorkflowNodeRun.run_id a = WorkflowNodeRun.run_id b →
    WorkflowNodeRun.node_key a = WorkflowNodeRun.node_key b → conflict a b = true) as Hconf.
  { intros a b Hr He. apply andb_true_iff. split; [by apply Z.eqb_eq|by apply bool_decide_eq_true]. }
  destruct (wf_unique Hwf _ _ _ _ Hn0 Hx0 Hne) as [Hc|Hc]; rewrite Hconf in Hc; congruence.
Qed.

Lemma statuses_lookup l n :
  NoDup (WorkflowNodeRun.node_key <$> l) → n ∈ l →
  statuses l !! WorkflowNodeRun.node_key n = Some (WorkflowNodeRun.status n).
Proof.
  intros Hnd Hn. unfold statuses. apply elem_of_list_to_map_1.
  - rewrite fmap_reverse, <-list_fmap_compose. by rewrite reverse_Permutation.
  - rewrite elem_of_reverse. apply list_elem_of_fmap. by exists n.
Qed.

Section no_deadlock.
Variable float_str : Q → string.
Variable container_str : json → string.
Variables paramiko redis_up broker_up : bool.
Variable agent_connected : string → bool.
Variable jwt_encode : json → string.
Variable _jti : St → string.
Variable touched : Node → option Z.
Variable float_of_str : string → option Q.
Variable fromisoformat : json → option Z.
#[local] Abbreviation one_step := (step float_str container_str paramiko redis_up
  agent_connected broker_up jwt_encode _jti touched float_of_str fromisoformat).
#[local] Abbreviation run_nodes := (step_nodes float_str container_str paramiko redis_up
  agent_connected broker_up jwt_encode _jti touched float_of_str fromisoformat).

(** Run [r] of a well formed definition, none of whose nodes is under way. *)
Record at_rest (r : Run) (nodes : list json) (s : St) : Prop := {
  rest_row : tbl (work s) !! WorkflowRun.id r = Some r;
  rest_open : WorkflowRun.status r ∈ ["pending"; "running"];
  rest_version : ∃ v, head (select_rows (of_version r) (tbl (work s))) = Some v ∧
    (∃ o, WorkflowVersion.definition v = JObj o) ∧ jget "nodes" (WorkflowVersion.definition v) = Some (JArr nodes);
  rest_def : well_formed_nodes nodes;
  rest_nonempty : nodes ≠ [];
  rest_nodes : ∀ n, n ∈ select_rows (in_run (WorkflowRun.id r)) (node_table s) →
    resting n ∧ WorkflowNodeRun.node_key n ∈ node_name <$> nodes;
  rest_all : ∀ k, k ∈ node_name <$> nodes →
    ∃ n, n ∈ select_rows (in_run (WorkflowRun.id r)) (node_table s) ∧ WorkflowNodeRun.node_key n = k;
}.

(** A first pending node does not wait: all it depends on has ended. *)
Lemma some_verdict r nodes hi on_fail s :
  at_rest r nodes s → wf_rows (node_table s) hi →
  let l := select_rows (in_run (WorkflowRun.id r)) (node_table s) in
  (∀ n, n ∈ l → waits (def_nodes nodes) on_fail (statuses l) n) → ∀ n, n ∈ l → node_done n = true.
Proof.
  intros Hat Hwf l Hwait n Hn. pose proof (run_keys_distinct _ hi (WorkflowRun.id r) Hwf) as Hnd. fold l in Hnd.
  destruct (rest_nodes _ _ _ Hat n Hn) as [[Hd|Hp] Hk]; [done|exfalso].
  set (pend := filter (λ k, statuses l !! k = Some "pending") (node_name <$> nodes)).
  destruct (acyclic_minimal (def_edges nodes) pend (WorkflowNodeRun.node_key n)) as (k & Hkp & Hmin).
  { apply (wfn_acyclic _ (rest_def _ _ _ Hat)). }
  { apply list_elem_of_filter. split; [|done]. by rewrite (statuses_lookup l n Hnd Hn), Hp. }
  apply list_elem_of_filter in Hkp as [Hst Hkk].
  destruct (rest_all _ _ _ Hat k Hkk) as (x & Hx & <-). fold l in Hx.
  rewrite (statuses_lookup l x Hnd Hx) in Hst. injection Hst as Hst.
  destruct (Hwait x Hx Hst) as (deps & Hraw & Hv).
  destruct (field_of nodes (rest_def _ _ _ Hat) _ "depends_on" Hkk) as (refs & Hraw' & Hin & Hedge); [str_mem|].
  rewrite Hraw in Hraw'. injection Hraw' as Heq. apply list_fmap_eq_inj in Heq; [|by intros ?? [=]]. subst refs.
  assert (∀ d, d ∈ deps → ∃ st, statuses l !! d = Some st ∧ st ∈ _NODE_TERMINAL) as Hends.
  { intros d Hd. destruct (rest_all _ _ _ Hat d (Hin d Hd)) as (y & Hy & <-). fold l in Hy.
    exists (WorkflowNodeRun.status y). split; [by apply statuses_lookup|].
    destruct (rest_nodes _ _ _ Hat y Hy) as [[Hyd|Hyp] _]; [by apply str_in_true|exfalso].
    apply (Hmin (WorkflowNodeRun.node_key y)); [|by apply Hedge]. apply list_elem_of_filter.
    split; [|by apply Hin]. by rewrite (statuses_lookup l y Hnd Hy), Hyp. }
  unfold verdict_of in Hv. destruct (existsb _ (sources _ _)); [done|]. cbn [existsb] in Hv.
  destruct (existsb _ deps) eqn:Hdead; [done|].
  assert (forallb (status_in (statuses l) ["succeeded"]) deps = true) as Hok; [|by rewrite Hok in Hv].
  apply forallb_forall. intros d Hd%list_elem_of_In. destruct (Hends d Hd) as (st & Hs & Ht).
  apply status_in_true. exists st. split; [done|]. apply elem_of_cons in Ht as [->|Ht]; [str_mem|].
  exfalso. apply not_true_iff_false in Hdead. apply Hdead, existsb_exists. exists d.
  split; [by apply list_elem_of_In|]. apply status_in_true. by exists st.
Qed.

Lemma load_run r nodes s s1 :
  at_rest r nodes s → tbl (R:=WorkflowVersion.WorkflowVersion) (work s1) = tbl (work s) →
  ∃ d, _load_definition r s1 = (inr (d, def_nodes nodes), s1).
Proof.
  intros Hat Ht. destruct (rest_version _ _ _ Hat) as (v & Hv & [o Ho] & Hn). exists (JObj o).
  unfold _load_definition, bind, db_find, gets. rewrite Ht, Hv. cbn [fmap option_fmap option_map]. rewrite Ho in *.
  assert (json_or (Some (JObj o)) (JObj []) = JObj o) as -> by by destruct o.
  unfold dict_get, ret. cbn [jget] in Hn. rewrite Hn. cbn [json_or]. by destruct nodes.
Qed.

Lemma rest_l_nonempty r nodes s :
  at_rest r nodes s → select_rows (in_run (WorkflowRun.id r)) (node_table s) ≠ [].
Proof.
  intros Hat Hnil. destruct nodes as [|n nodes]; [by apply (rest_nonempty _ _ _ Hat)|].
  destruct (rest_all _ _ _ Hat (node_name n)) as (x & Hx & _); [apply elem_of_cons; by left|].
  rewrite Hnil in Hx. by apply elem_of_nil in Hx.
Qed.

(** The passes over the nodes: something moved, or all nodes had ended. *)
Lemma nodes_progress r nodes hi p d s0 s :
  at_rest r nodes s0 → node_table s = node_table s0 → no_success_routes nodes → wf_rows (node_table s0) hi →
  wp (run_nodes r p d (def_nodes nodes)) (λ o s', ∃ b, o = inr b ∧
    (b = true ∨ ended (select_rows (in_run (WorkflowRun.id r)) (node_table s')) = true)) s.
Proof.
  intros Hat Hn0 Hno Hwf. set (l := select_rows (in_run (WorkflowRun.id r)) (node_table s0)).
  unfold step_nodes. wp_step. apply wp_db_select. cbv beta iota. fold (node_table s). rewrite Hn0. fold l. wp_step.
  destruct (edges_run nodes (rest_def _ _ _ Hat) s Hno) as [on_fail He].
  eapply wp_of_run; [exact He|]. cbv beta iota. wp_step.
  eapply wp_mono; [apply (activation_progress (def_nodes nodes) on_fail l) with (s := s)|].
  - intros n Hn. destruct (rest_nodes _ _ _ Hat n Hn) as [_ Hk].
    destruct (field_of nodes (rest_def _ _ _ Hat) _ "depends_on" Hk) as (refs & Hraw & _); [str_mem|by exists refs].
  - intros n Hn. by apply (rest_nodes _ _ _ Hat n Hn).
  - apply (NoDup_select_rows (in_run (WorkflowRun.id r)) (node_table s0) hi Hwf).
  - intros n Hn. rewrite Hn0. by apply (selected_nodes _ _ _ Hwf n Hn).
  - cbv beta. intros o s1 (act & -> & Hp & Hh). cbv zeta. wp_step. eapply wp_of_run.
    { apply advance_nodes_noop. intros n Hn. destruct (Hh n Hn) as (n' & Hn' & _ & Hk). exists n'. split; [done|].
      case_bool_decide as Hr; [|done]. rewrite bool_decide_eq_true_2 by by apply Hk. done. }
    cbv beta iota. eapply wp_of_run.
    { apply advance_nodes_noop. intros n Hn. destruct (Hh n Hn) as (n' & Hn' & Hw & _). by exists n'. }
    exists (act_progressed act). split; [done|]. destruct Hp as [Hp|(-> & -> & Hw)]; [by left|right].
    cbn [act_status] in Hw. pose proof (some_verdict r nodes hi on_fail s0 Hat Hwf Hw) as Hdone.
    rewrite Hn0. fold l.
    unfold ended. apply andb_true_iff. split.
    + apply negb_true_iff, bool_decide_eq_false. by eapply rest_l_nonempty.
    + apply forallb_forall. intros n Hn%list_elem_of_In. by apply Hdone.
Qed.

(** C16: a run of a validated definition without success routes is never
    stuck: when none of its nodes is running or waiting, the next step makes
    progress (a node starts or is skipped, or the run ends), and it does not
    raise. *)
Theorem run_never_stuck r nodes s :
  quiet Node s → wf_table Run s → at_rest r nodes s → no_success_routes nodes →
  ∃ s', run_request (one_step (WorkflowRun.id r)) s = (inr true, s').
Proof.
  intros [Hq [Hwf _]] Hwfr Hat Hno.
  assert (wp (one_step (WorkflowRun.id r)) (λ o _, o = inr true) s) as Hwp.
  { unfold step. wp_step. apply wp_db_get. cbv beta iota. rewrite (rest_row _ _ _ Hat).
    destruct (str_in _ _RUN_TERMINAL) eqn:Hterm.
    { exfalso. pose proof (rest_open _ _ _ Hat) as Ho. apply elem_of_cons in Ho as [E|E]; [by rewrite E in Hterm|].
      apply list_elem_of_singleton in E. by rewrite E in Hterm. }
    wp_step. eapply wp_of_run; [apply start_run_run; apply (rest_row _ _ _ Hat)|]. cbv beta iota.
    set (s1 := put_row (WorkflowRun.id r) (started_run (now s) r) s).
    assert (node_table s1 = node_table s) as Hn1 by (unfold node_table, s1; by rewrite tbl_put_row_ne).
    destruct (load_run r nodes s s1 Hat) as [d Hd]; [unfold s1; by rewrite tbl_put_row_ne|].
    wp_step. eapply wp_of_run; [exact Hd|]. cbv beta iota. wp_step.
    assert (wp (run_nodes r (bool_decide (WorkflowRun.status r = "pending")) d (def_nodes nodes))
      (λ _ s', held (tbl (R:=Run) (work s1)) (λ _, True) s') s1) as Hkeep
      by (unfold wp; apply step_nodes_held; [apply _..|done]).
    eapply wp_mono; [apply (wp_and _ _ _ _ (nodes_progress r nodes _ _ d s s1 Hat Hn1 Hno Hwf) Hkeep)|].
    cbv beta. intros o s2 [(b & -> & Hb) (Hr2 & _)]. wp_step.
    eapply (wp_finalise _ b (started_run (now s) r)).
    { rewrite Hr2. unfold s1. rewrite tbl_put_row. apply lookup_insert_eq. }
    { apply started_running, (rest_open _ _ _ Hat). }
    intros s3 st e t _ _ _ _ _.
    assert (ended (select_rows (in_run (WorkflowRun.id r)) (node_table s2)) || b = true) as ->
      by (destruct Hb as [->| ->]; [apply orb_true_r|done]).
    by wp_run. }
  unfold wp in Hwp. unfold run_request. destruct (one_step _ s) as [o s1]. cbn in Hwp. subst o. by eexists.
Qed.
End no_deadlock.

(** ** Witnesses *)

(** Host, definition and run of the examples: a playbook with one sleeping
    node [a] and what hangs on it. *)
Definition sleep_node (key : string) (fields : list (string * json)) : json :=
  JObj ([("key", JStr key); ("type", JStr "sleep")] ++ fields).
Definition ex_definition (nodes : list json) : json := JObj [("nodes", JArr nodes)].
Definition ex_node (i : Z) (key : string) : Node :=
  WorkflowNodeRun.mk i 1 key "sleep" "pending" None None 0 JNull None None None.
Definition ex_run : Run :=
  WorkflowRun.mk 1 5 1 "running" "manual" JNull JNull (Some 0) None None (Some 7) 0.
Definition engine_db (nodes : list json) (rows : list Node) : Db := empty_db
  <| workflow_versions := {[ 1 := WorkflowVersion.mk 1 5 1 (ex_definition nodes) (Some 7) 0 ]} |>
  <| workflow_runs := {[ 1 := ex_run ]} |>
  <| workflow_node_runs := list_to_map ((λ n, (WorkflowNodeRun.id n, n)) <$> rows) |>.
Definition engine_st (nodes : list json) (rows : list Node) : St :=
  let d := engine_db nodes rows in
  mkSt d d {[ "workflow_run" := 1; "workflow_node_run" := 9; "workflow_version" := 1 ]} 1000000 (2026, 1, 2) ∅ [].

(** [step] without the parts a sleeping node does not use. *)
Definition ex_step : Z → Op bool :=
  step (λ _, "") (λ _, "") false false (λ _, false) false (λ _, "") (λ _, "") (λ _, None) (λ _, None) (λ _, None).

Definition fan : list json := [
  sleep_node "a" [("config", JObj [("duration_sec", JInt 1)])];
  sleep_node "b" [("depends_on", JArr [JStr "a"])]].
Definition fan_rows : list Node := [ex_node 1 "a"; ex_node 2 "b"].

Lemma engine_quiet R `{Table R} nodes rows :
  wf_tableb R (engine_st nodes rows) = true → quiet R (engine_st nodes rows).
Proof. intros Hb. split; [done|by apply wf_tableb_spec]. Qed.

Lemma ex_status nodes rows r :
  tbl (R:=Run) (committed (engine_st nodes rows)) !! 1 = Some r → WorkflowRun.status r ∈ RUN_STATUSES.
Proof. intros [= <-]. str_mem. Qed.

#[local] Abbreviation fan_after := (run_request (ex_step 1) (engine_st fan fan_rows)).2.
Lemma fan_step : run_request (ex_step 1) (engine_st fan fan_rows) = (inr true, fan_after).
Proof. apply run_pair. vm_compute. reflexivity. Qed.

Lemma step_moves_witness :
  nodes_evolve 1 (tbl (committed (engine_st fan fan_rows))) (tbl (committed fan_after)).
Proof.
  eapply (step_moves (λ _, "") (λ _, "") false false false (λ _, false) (λ _, "") (λ _, "") (λ _, None)
    (λ _, None) (λ _, None) 1 (engine_st fan fan_rows) (inr true)).
  - by apply engine_quiet.
  - by apply wf_tableb_spec.
  - apply ex_status.
  - exact fan_step.
Defined.


Lemma step_finalises_witness : ∃ r, tbl (R:=Run) (committed fan_after) !! 1 = Some r ∧
  ended (select_rows (in_run 1) (tbl (committed fan_after))) = false ∧ WorkflowRun.status r = "running".
Proof.
  destruct (step_finalises (λ _, "") (λ _, "") false false false (λ _, false) (λ _, "") (λ _, "") (λ _, None)
    (λ _, None) (λ _, None) 1 (engine_st fan fan_rows) true fan_after) as (r & Hr & Hs).
  - by apply engine_quiet.
  - by apply wf_tableb_spec.
  - apply ex_status.
  - reflexivity.
  - exact fan_step.
  - assert (ended (select_rows (in_run 1) (tbl (committed fan_after))) = false) as He by (vm_compute; reflexivity).
    exists r. rewrite He in Hs. by split_and!.
Defined.

Lemma accepted d : _validate_definition (λ _, "") d () = (inr d, ()) → well_formed_definition d.
Proof. intros Hd. destruct (decides_validate (S := ()) (λ _, "") d ()) as [[? _]|[_ [e He]]]; [done|congruence]. Qed.

Lemma run_never_stuck_witness : ∃ s', run_request (ex_step 1) (engine_st fan fan_rows) = (inr true, s').
Proof.
  assert (well_formed_nodes fan) as Hwf.
  { destruct (accepted (ex_definition fan)) as (o & nodes & _ & Hn & Hwf); [reflexivity|].
    injection Hn as <-. exact Hwf. }
  apply (run_never_stuck (λ _, "") (λ _, "") false false false (λ _, false) (λ _, "") (λ _, "") (λ _, None)
    (λ _, None) (λ _, None) ex_run fan).
  - by apply engine_quiet.
  - by apply wf_tableb_spec.
  - assert (select_rows (in_run 1) (node_table (engine_st fan fan_rows)) = fan_rows) as Hsel by reflexivity.
    split; [reflexivity|str_mem| |exact Hwf|done|..]; cbn [WorkflowRun.id ex_run]; rewrite ?Hsel.
    + eexists. split; [reflexivity|]. split; [by eexists|reflexivity].
    + intros n Hn. repeat apply elem_of_cons in Hn as [->|Hn]; [..|by apply elem_of_nil in Hn];
        (split; [by right|str_mem]).
    + intros k Hk. change (node_name <$> fan) with ["a"; "b"] in Hk. unfold fan_rows.
      repeat apply elem_of_cons in Hk as [->|Hk]; [exists (ex_node 1 "a")|exists (ex_node 2 "b")|by apply elem_of_nil in Hk];
        (split; [rewrite !elem_of_cons; tauto|reflexivity]).
  - intros n Hn. unfold fan in Hn. repeat apply elem_of_cons in Hn as [->|Hn]; [reflexivity..|by apply elem_of_nil in Hn].
Defined.

(** ** Definitions that are accepted and never end *)

(** [a] fails, [b] is on the success route of [a], [c] on that of [b]. *)
Definition chain : list json := [
  sleep_node "a" [("config", JObj [("timeout_sec", JInt 0); ("duration_sec", JInt 9)]); ("on_success", JArr [JStr "b"])];
  sleep_node "b" [("on_success", JArr [JStr "c"])];
  sleep_node "c" []].
(** [a] depends on [b], which is on the success route of [a]. *)
Definition knot : list json := [
  sleep_node "a" [("depends_on", JArr [JStr "b"]); ("on_success", JArr [JStr "b"])];
  sleep_node "b" []].

Section hangs.
Variable float_str : Q → string.
Variable container_str : json → string.
Variables paramiko redis_up broker_up : bool.
Variable agent_connected : string → bool.
Variable jwt_encode : json → string.
Variable _jti : St → string.
Variable touched : Node → option Z.
Variable float_of_str : string → option Q.
Variable fromisoformat : json → option Z.
#[local] Abbreviation one_step := (step float_str container_str paramiko redis_up
  agent_connected broker_up jwt_encode _jti touched float_of_str fromisoformat).

Definition after_steps (k : nat) (s : St) : St := Nat.iter k (λ s, (run_request (one_step 1) s).2) s.
Definition run_statuses (s : St) : option string * list string :=
  (WorkflowRun.status <$> tbl (committed s) !! 1, WorkflowNodeRun.status <$> rows (tbl (committed s))).

(** At any later time another step changes nothing. *)
Definition hangs (s : St) : Prop :=
  ∀ t, run_request (one_step 1) (s <| now := t |>) = (inr false, s <| now := t |>).

(** Three definitions the validator accepts whose runs never end: a
    success route behind a skipped node, a node that depends on its own success
    target (the validator reverses success routes), and a definition without
    nodes. Their runs stay running, and no later step changes anything. *)
Theorem accepted_runs_hang :
  (well_formed_definition (ex_definition chain) ∧
   let s := after_steps 3 (engine_st chain [ex_node 1 "a"; ex_node 2 "b"; ex_node 3 "c"]) in
   run_statuses s = (Some "running", ["failed"; "skipped"; "pending"]) ∧ hangs s) ∧
  (well_formed_definition (ex_definition knot) ∧
   let s := engine_st knot [ex_node 1 "a"; ex_node 2 "b"] in
   run_statuses s = (Some "running", ["pending"; "pending"]) ∧ hangs s) ∧
  (well_formed_definition (ex_definition []) ∧
   let s := engine_st [] [] in run_statuses s = (Some "running", []) ∧ hangs s).
Proof.
  split; [|split]; (split; [by apply accepted|]; cbv zeta; split; [reflexivity|]; intros t; vm_compute; reflexivity).
Qed.
End hangs.

(** ** Routing *)

Definition has_status (status : gmap string string) (l : list string) (k : string) : Prop :=
  ∃ st, status !! k = Some st ∧ st ∈ l.
Definition routed (m : gmap string (gset string)) (key src : string) : Prop :=
  src ∈ default (∅ : gset string) (m !! key).

Lemma existsb_status status l ks :
  existsb (status_in status l) ks = true ↔ ∃ k, k ∈ ks ∧ has_status status l k.
Proof.
  rewrite existsb_exists. split; intros (k & Hk & Hs); exists k; apply list_elem_of_In in Hk || rewrite <-list_elem_of_In;
    (split; [done|by apply status_in_true]).
Qed.
Lemma forallb_status status l ks :
  forallb (status_in status l) ks = true ↔ ∀ k, k ∈ ks → has_status status l k.
Proof. rewrite forallb_forall. setoid_rewrite <-list_elem_of_In. by setoid_rewrite status_in_true. Qed.

(** The routing of a pending node whose dependencies are a list of
    keys: it starts exactly when a failure route to it is open or every
    dependency and every success source has succeeded; it is skipped exactly
    when no failure route is open and a success source failed or a dependency
    can no longer succeed; otherwise it waits. *)
Theorem verdict_spec key ds on_succ on_fail status deps s :
  raw_refs "depends_on" (node_def ds key) = JArr (JStr <$> deps) →
  let failure_route := ∃ f, routed on_fail key f ∧ has_status status ["failed"] f in
  ∃ v, _verdict key ds on_succ on_fail status s = (inr v, s) ∧
    (v = Ready ↔ failure_route ∨
       (∀ d, d ∈ deps → has_status status ["succeeded"] d) ∧
       (∀ x, routed on_succ key x → has_status status ["succeeded"] x)) ∧
    (v = Skip ↔ ~ failure_route ∧
       ((∃ x, routed on_succ key x ∧ has_status status ["failed"] x) ∨
        (∃ d, d ∈ deps ∧ has_status status ["failed"; "skipped"; "cancelled"] d))).
Proof.
  intros Hdeps failure_route. eexists. split; [by apply verdict_run|]. unfold verdict_of.
  assert (∀ m l, existsb (status_in status l) (sources m key) = true ↔
    ∃ x, routed m key x ∧ has_status status l x) as Hsrc.
  { intros m l. rewrite existsb_status. unfold sources, routed. by setoid_rewrite elem_of_elements. }
  assert (∀ x l l', has_status status l x → has_status status l' x → (∀ st, st ∈ l → st ∉ l') → False) as Hexcl.
  { intros x l l' (st & H1 & Hl) (st' & H2 & Hl') Hd. simplify_eq. by eapply Hd. }
  destruct (existsb _ (sources on_fail key)) eqn:Ef.
  { apply Hsrc in Ef. split; [by split; [left|]|]. split; [done|]. by intros [Hno _]. }
  apply not_true_iff_false in Ef. rewrite Hsrc in Ef. fold failure_route in Ef.
  destruct (existsb _ (sources on_succ key)) eqn:Es.
  { apply Hsrc in Es. split; [split; [done|]|split; [by split; [|left]|done]].
    intros [?|[_ Hs]]; [done|]. destruct Es as (x & Hx & Hf). exfalso.
    eapply Hexcl; [exact Hf|by apply Hs|]. intros st ->%list_elem_of_singleton. by intros [=]%list_elem_of_singleton. }
  apply not_true_iff_false in Es. rewrite Hsrc in Es.
  destruct (existsb _ deps) eqn:Ed.
  { apply existsb_status in Ed. split; [split; [done|]|split; [by split; [|right]|done]].
    intros [?|[Hs _]]; [done|]. destruct Ed as (x & Hx & Hf). exfalso.
    eapply Hexcl; [by apply Hs|exact Hf|]. intros st ->%list_elem_of_singleton Hst. str_absurd Hst. }
  apply not_true_iff_false in Ed. rewrite existsb_status in Ed.
  destruct (forallb _ deps && forallb _ _) eqn:Eall.
  - apply andb_true_iff in Eall as [E1 E2]. rewrite forallb_status in E1, E2.
    unfold sources in E2. setoid_rewrite elem_of_elements in E2. split; [by split; [right|]|]. split; [done|]. tauto.
  - apply not_true_iff_false in Eall. rewrite andb_true_iff, !forallb_status in Eall.
    unfold sources in Eall. setoid_rewrite elem_of_elements in Eall. split; split; try done; tauto.
Qed.

Lemma verdict_spec_witness : ∃ v,
  _verdict "b" (def_nodes fan) ∅ ∅ {[ "a" := "failed" ]} (engine_st fan fan_rows) =
    (inr v, engine_st fan fan_rows) ∧ v = Skip.
Proof.
  destruct (verdict_spec "b" (def_nodes fan) ∅ ∅ {[ "a" := "failed" ]} ["a"] (engine_st fan fan_rows))
    as (v & Hv & _ & Hskip); [reflexivity|].
  exists v. split; [exact Hv|]. apply Hskip. split.
  - intros (f & Hf & _). unfold routed in Hf. rewrite lookup_empty in Hf. by apply elem_of_empty in Hf.
  - right. exists "a". split; [by apply list_elem_of_singleton|]. exists "failed". split; [reflexivity|str_mem].
Defined.

(** ** Deadlines *)

Lemma clip_bounds j t : clip_timeout j = Some t → 0 ≤ t ≤ _MAX_TIMEOUT.
Proof.
  unfold clip_timeout, _MAX_TIMEOUT. destruct j; try done; destruct (py_int _); try done; intros [= <-]; lia.
Qed.

(** A deadline that a node gets is between 0 and 86400 seconds; without
    any configuration a callback gets 86400 and every other node none.  An
    explicit null (or a text that is no number) leaves even a callback without
    deadline. *)
Theorem timeout_bounds defnode definition ty s :
  (∀ o s', _timeout_sec defnode definition ty s = (inr o, s') →
     s' = s ∧ ∀ t, o = Some t → 0 ≤ t ≤ 86400) ∧
  _timeout_sec (JObj []) (JObj []) ty s = (inr (if bool_decide (ty = "callback") then Some 86400 else None), s) ∧
  _timeout_sec (JObj [("config", JObj [("timeout_sec", JNull)])]) definition "callback" s = (inr None, s) ∧
  _timeout_sec (JObj [("config", JObj [("timeout_sec", JStr "soon")])]) definition "callback" s = (inr None, s).
Proof.
  split_and!; [|unfold _timeout_sec; cbn; by case_bool_decide|done|done].
  intros o s' Hrun. unfold _timeout_sec, _cfg, dict_get, py_in, index_key in Hrun. inv_run; split; try done.
  all: intros t Ht; first [by apply clip_bounds in Ht|injection Ht as <-; done].
Qed.
