(* ===== verification/Workflow.v ===== *)
(** * Playbooks and their runs: [services/workflow_service.py]

    Definitions and their versions, starting, cancelling and retrying runs, and
    the node callback.  The validator is [WorkflowDef], the driver
    [WorkflowEngine], the cancellation of exec tasks [Exec].  The [updated_at]
    column, which only the database writes, is left out of the answers. *)

From S2P Require Import Prelude.
From S2P Require Import Models.
From S2P Require Import Session.
From S2P Require Import Repositories.
From S2P Require Import Access.
From S2P Require Import Executors.
From S2P Require Import Exec.
From S2P Require Import WorkflowDef.
From S2P Require Import Security.
From S2P Require Import Cicd.
From S2P Require Import WorkflowEngine.

Definition _MAX_CALLBACK_PAYLOAD : Z := 65536.
Definition TRIGGER_TYPES : list string := ["manual"; "ticket"; "schedule"; "alert"; "release"].
Definition WORKFLOW_KINDS : list string := ["workflow"; "playbook"].

Definition WORKFLOW_TRANSITIONS (action : string) : option (list string * string) :=
  assoc_get action [
    ("start", (["pending"], "running"));
    ("succeed", (["running"], "succeeded"));
    ("fail", (["running"], "failed"));
    ("cancel", (["pending"; "running"], "cancelled"))].

(** Request bodies (schemas/workflow.py). *)
Module WorkflowCreate.
Record WorkflowCreate := mk {
  name : string; description : string; definition : option json; kind : option string }.
End WorkflowCreate.
Module WorkflowUpdate.
Record WorkflowUpdate := mk { name : option string; description : option string; enabled : option Z }.
End WorkflowUpdate.
Module WorkflowRunIn.
Record WorkflowRunIn := mk { trigger_type : string; trigger_ref : json; context : json }.
End WorkflowRunIn.

(** ** Helpers *)

Definition _require_feature : Op () := require_feature "feature.workflow".

Definition _get_workflow (workflow_id : Z) : Op Workflow.Workflow :=
  o ← db_get workflow_id; some_or o (NotFoundError "workflow not found").

Definition version_is (workflow_id version : Z) (v : WorkflowVersion.WorkflowVersion) : bool :=
  (WorkflowVersion.workflow_id v =? workflow_id) && (WorkflowVersion.version v =? version).
Definition _version_row (workflow_id version : Z) : Op (option WorkflowVersion.WorkflowVersion) :=
  db_find (version_is workflow_id version).

Definition version_le (a b : WorkflowVersion.WorkflowVersion) : Prop :=
  WorkflowVersion.version a ≤ WorkflowVersion.version b.
#[export] Instance version_le_dec : RelDecision version_le.
Proof. intros a b. unfold version_le. apply _. Defined.

(** [max(version) or 0], plus one *)
Definition max_version (l : list WorkflowVersion.WorkflowVersion) : Z :=
  z_or (foldr (λ v m, Some (match m with
                            | Some x => Z.max (WorkflowVersion.version v) x
                            | None => WorkflowVersion.version v end)) None l) 0.
Definition _next_version (workflow_id : Z) : Op Z :=
  l ← db_select (λ v, WorkflowVersion.workflow_id v =? workflow_id);
  ret (max_version l + 1).

Definition _workflow_out (wf : Workflow.Workflow) (definition : json) : json := JObj [
  ("id", JInt (Workflow.id wf)); ("name", JStr (Workflow.name wf));
  ("description", JStr (Workflow.description wf)); ("kind", JStr (Workflow.kind wf));
  ("current_version", JInt (Workflow.current_version wf)); ("enabled", JInt (Workflow.enabled wf));
  ("definition", definition); ("created_by", jz (Workflow.created_by wf));
  ("created_at", jtime (Some (Workflow.created_at wf)))].
Definition _version_out (v : WorkflowVersion.WorkflowVersion) : json := JObj [
  ("id", JInt (WorkflowVersion.id v)); ("workflow_id", JInt (WorkflowVersion.workflow_id v));
  ("version", JInt (WorkflowVersion.version v)); ("definition", WorkflowVersion.definition v);
  ("editor_id", jz (WorkflowVersion.editor_id v)); ("created_at", jtime (Some (WorkflowVersion.created_at v)))].
Definition _run_out (r : Run) : json := JObj [
  ("id", JInt (WorkflowRun.id r)); ("workflow_id", JInt (WorkflowRun.workflow_id r));
  ("workflow_version", JInt (WorkflowRun.workflow_version r)); ("status", JStr (WorkflowRun.status r));
  ("trigger_type", JStr (WorkflowRun.trigger_type r)); ("trigger_ref", WorkflowRun.trigger_ref r);
  ("context", WorkflowRun.context r); ("started_at", jtime (WorkflowRun.started_at r));
  ("finished_at", jtime (WorkflowRun.finished_at r)); ("error", js (WorkflowRun.error r));
  ("created_by", jz (WorkflowRun.created_by r)); ("created_at", jtime (Some (WorkflowRun.created_at r)))].
Definition _node_out (n : Node) : json := JObj [
  ("id", JInt (WorkflowNodeRun.id n)); ("run_id", JInt (WorkflowNodeRun.run_id n));
  ("node_key", JStr (WorkflowNodeRun.node_key n)); ("node_type", JStr (WorkflowNodeRun.node_type n));
  ("status", JStr (WorkflowNodeRun.status n)); ("exec_task_id", jz (WorkflowNodeRun.exec_task_id n));
  ("approval_id", jz (WorkflowNodeRun.approval_id n)); ("attempt", JInt (WorkflowNodeRun.attempt n));
  ("output", WorkflowNodeRun.output n); ("error", js (WorkflowNodeRun.error n));
  ("started_at", jtime (WorkflowNodeRun.started_at n)); ("finished_at", jtime (WorkflowNodeRun.finished_at n))].

(** ** [len(json.dumps(x).encode("utf-8"))] *)

(** A byte of an UTF-8 string in the escaped form: a lead byte stands for its
    code point, written as one or two [\uXXXX]; continuation bytes are part of it. *)
Definition escaped_len (c : ascii) : Z :=
  let n := Z.of_N (Ascii.N_of_ascii c) in
  if (n =? 34) || (n =? 92) || (n =? 8) || (n =? 9) || (n =? 10) || (n =? 12) || (n =? 13) then 2
  else if n <? 32 then 6
  else if n <? 128 then 1
  else if n <? 192 then 0
  else if n <? 240 then 6 else 12.
Fixpoint escaped (s : string) : Z :=
  match s with EmptyString => 0 | String c s => escaped_len c + escaped s end.
Definition str_size (s : string) : Z := 2 + escaped s.

Section payload.
(** [repr] of a float *)
Variable float_str : Q → string.
(** Brackets, separators [", "] and [": "], and the values. *)
Fixpoint dumps_size (j : json) : Z :=
  match j with
  | JNull => 4
  | JBool b => if b then 4 else 5
  | JInt z => Z.of_nat (String.length (pretty z))
  | JFloat q => Z.of_nat (String.length (float_str q))
  | JStr s => str_size s
  | JArr l => 2 + foldr (λ x n, dumps_size x + n) 0 l + 2 * (Z.max 1 (Z.of_nat (length l)) - 1)
  | JObj o => 2 + foldr (λ kv n, str_size kv.1 + 2 + dumps_size kv.2 + n) 0 o
                + 2 * (Z.max 1 (Z.of_nat (length o)) - 1)
  end.
End payload.
Example dumps_ex : dumps_size (λ _, "") (JObj [("a", JArr [JInt 1; JStr "x"]); ("b", JNull)]) = 26.
Proof. reflexivity. Qed.

Section workflow.
Variable float_str : Q → string.
Variable container_str : json → string.
Variables paramiko redis_up broker_up : bool.
Variable agent_connected : string → bool.
Variable agent_online : string → bool.
Variable jwt_encode : json → string.
Variable jwt_decode : Z → string → option json.
Variable _jti : St → string.
Variable touched : Node → option Z.
Variable float_of_str : string → option Q.
Variable fromisoformat : json → option Z.
(** [str(ref)] of a reference that is no string *)
Variable ref_str : json → string.
(** [name LIKE pattern] *)
Variable sql_like : string → string → bool.
Variable DRIVER_AUTOSTART : bool.
Variable driver_alive : Z → bool.

Definition validated (definition : json) : Op json := _validate_definition ref_str definition.

(** ** Runs *)

(** [definition.get("nodes") or []] *)
Definition nodes_of (definition : json) : Op (list json) :=
  ns ← dict_get "nodes" definition; iter_of (json_or ns (JArr [])).

Definition new_run (user_id : option Z) (wf : Workflow.Workflow) (trigger_type : string)
    (trigger_ref context : json) : Run := {|
  WorkflowRun.id := 0; WorkflowRun.workflow_id := Workflow.id wf;
  WorkflowRun.workflow_version := Workflow.current_version wf; WorkflowRun.status := "pending";
  WorkflowRun.trigger_type := trigger_type; WorkflowRun.trigger_ref := trigger_ref;
  WorkflowRun.context := context; WorkflowRun.started_at := None; WorkflowRun.finished_at := None;
  WorkflowRun.error := None; WorkflowRun.created_by := user_id; WorkflowRun.created_at := 0 |}.
Definition new_node (run_id : Z) (key ty : string) : Node := {|
  WorkflowNodeRun.id := 0; WorkflowNodeRun.run_id := run_id; WorkflowNodeRun.node_key := key;
  WorkflowNodeRun.node_type := ty; WorkflowNodeRun.status := "pending";
  WorkflowNodeRun.exec_task_id := None; WorkflowNodeRun.approval_id := None; WorkflowNodeRun.attempt := 0;
  WorkflowNodeRun.output := JNull; WorkflowNodeRun.error := None;
  WorkflowNodeRun.started_at := None; WorkflowNodeRun.finished_at := None |}.

(** [node[k]] of a node of a definition, as a text column *)
Definition node_text (k : string) (node : json) : Op string :=
  v ← index_key k node;
  match v with JStr s => ret s | _ => raise data_error end.
Definition add_node (run_id : Z) (node : json) : Op () :=
  key ← node_text "key" node;
  ty ← node_text "type" node;
  _ ← db_add (new_node run_id key ty); ret ().

Definition _start_run (user : CurrentUser) (wf : Workflow.Workflow) (definition : json)
    (trigger_type : string) (trigger_ref context : json) : Op Run :=
  run ← db_add (new_run (Some (user_id user)) wf trigger_type trigger_ref context);
  nodes ← nodes_of definition;
  for_each nodes (add_node (WorkflowRun.id run));;
  db_commit;;
  start_driver DRIVER_AUTOSTART driver_alive (WorkflowRun.id run);;
  ret run.

(** ** Playbooks and versions *)

Definition list_workflows (user : CurrentUser) (name : option string) (enabled : option Z) (page size : Z) : Op json :=
  _require_feature;;
  require_perm user "workflow:list";;
  rows ← db_select (λ w : Workflow.Workflow,
    (if s_truthy name then sql_like (Workflow.name w) ("%" +:+ default "" name +:+ "%") else true) &&
    (match enabled with Some e => Workflow.enabled w =? e | None => true end));
  ret (JObj [("list", JArr ((λ w, _workflow_out w JNull) <$> page_of rows page size));
             ("total", JInt (Z.of_nat (length rows))); ("page", JInt page); ("size", JInt size)]).

Definition new_version (workflow_id version : Z) (definition : json) (editor : option Z)
    : WorkflowVersion.WorkflowVersion :=
  WorkflowVersion.mk 0 workflow_id version definition editor 0.

Definition create_workflow (user : CurrentUser) (data : WorkflowCreate.WorkflowCreate) : Op json :=
  _require_feature;;
  require_perm user "workflow:add";;
  dup ← db_find (λ w : Workflow.Workflow, bool_decide (Workflow.name w = WorkflowCreate.name data));
  guard_or (match dup with None => true | Some _ => false end) (ConflictError "workflow name already exists");;
  let definition := default (JObj [("nodes", JArr [])]) (WorkflowCreate.definition data) in
  _ ← validated definition;
  wf ← db_add (Workflow.mk 0 (WorkflowCreate.name data) (s_or (WorkflowCreate.kind data) "workflow")
                 (WorkflowCreate.description data) 1 1 (Some (user_id user)) 0);
  _ ← db_add (new_version (Workflow.id wf) 1 definition (Some (user_id user)));
  db_commit;;
  ret (_workflow_out wf definition).

Definition current_definition (wf : Workflow.Workflow) : Op json :=
  v ← _version_row (Workflow.id wf) (Workflow.current_version wf);
  ret (match v with Some v => WorkflowVersion.definition v | None => JNull end).

Definition get_workflow (user : CurrentUser) (workflow_id : Z) : Op json :=
  _require_feature;;
  require_perm user "workflow:view";;
  wf ← _get_workflow workflow_id;
  d ← current_definition wf;
  ret (_workflow_out wf d).

Definition update_workflow (user : CurrentUser) (workflow_id : Z) (data : WorkflowUpdate.WorkflowUpdate) : Op json :=
  _require_feature;;
  require_perm user "workflow:edit";;
  wf ← _get_workflow workflow_id;
  let renamed := match WorkflowUpdate.name data with
                 | Some n => negb (bool_decide (n = Workflow.name wf)) | None => false end in
  let name := default (Workflow.name wf) (WorkflowUpdate.name data) in
  when renamed (
    dup ← db_find (λ w : Workflow.Workflow, bool_decide (Workflow.name w = name));
    guard_or (match dup with None => true | Some _ => false end) (ConflictError "workflow name already exists"));;
  let wf' := wf <| Workflow.name := name |>
    <| Workflow.description := default (Workflow.description wf) (WorkflowUpdate.description data) |>
    <| Workflow.enabled := default (Workflow.enabled wf) (WorkflowUpdate.enabled data) |> in
  db_upd_checked workflow_id (λ _, wf');;
  db_commit;;
  d ← current_definition wf';
  ret (_workflow_out wf' d).

Definition delete_workflow (user : CurrentUser) (workflow_id : Z) : Op () :=
  _require_feature;;
  require_perm user "workflow:del";;
  wf ← _get_workflow workflow_id;
  referenced ← db_count (λ r : Run, WorkflowRun.workflow_id r =? workflow_id);
  guard_or (referenced =? 0) (ConflictError "workflow referenced by runs");;
  versions ← db_select (λ v : WorkflowVersion.WorkflowVersion, WorkflowVersion.workflow_id v =? workflow_id);
  for_each versions (λ v, db_delete (R:=WorkflowVersion.WorkflowVersion) (WorkflowVersion.id v));;
  db_delete (R:=Workflow.Workflow) (Workflow.id wf);;
  db_commit.

Definition create_version (user : CurrentUser) (workflow_id : Z) (definition : json) : Op json :=
  _require_feature;;
  require_perm user "workflow:version";;
  wf ← _get_workflow workflow_id;
  definition ← validated definition;
  version ← _next_version (Workflow.id wf);
  row ← db_add (new_version (Workflow.id wf) version definition (Some (user_id user)));
  db_upd workflow_id (λ w : Workflow.Workflow, w <| Workflow.current_version := version |>);;
  db_commit;;
  ret (_version_out row).

Definition list_versions (user : CurrentUser) (workflow_id : Z) : Op json :=
  _require_feature;;
  require_perm user "workflow:view";;
  wf ← _get_workflow workflow_id;
  rows ← db_select (λ v : WorkflowVersion.WorkflowVersion, WorkflowVersion.workflow_id v =? Workflow.id wf);
  let newest := reverse (merge_sort version_le rows) in
  ret (JObj [("list", JArr (_version_out <$> newest)); ("total", JInt (Z.of_nat (length rows)))]).

Definition rollback_workflow (user : CurrentUser) (workflow_id version : Z) : Op json :=
  _require_feature;;
  require_perm user "workflow:rollback";;
  wf ← _get_workflow workflow_id;
  o ← _version_row (Workflow.id wf) version;
  row ← some_or o (NotFoundError "workflow version not found");
  db_upd workflow_id (λ w : Workflow.Workflow, w <| Workflow.current_version := version |>);;
  db_commit;;
  ret (_workflow_out (wf <| Workflow.current_version := version |>) (WorkflowVersion.definition row)).

Definition playbook_node (key ty : string) (config : list (string * json)) (deps : list string) : json := JObj [
  ("key", JStr key); ("type", JStr ty); ("config", JObj config); ("depends_on", JArr (JStr <$> deps));
  ("on_success", JArr []); ("on_failure", JArr [])].
Definition playbook (goal context : string) : json := JObj [("nodes", JArr [
  playbook_node "diagnose" "wait" [("note", JStr ("诊断: " +:+ goal)); ("context", JStr context)] [];
  playbook_node "approve" "manual_approval" [("title", JStr ("审批: " +:+ goal))] ["diagnose"];
  playbook_node "remediate" "exec_task" [("note", JStr ("执行修复: " +:+ goal))] ["approve"]])].
Definition suggest_playbook (user : CurrentUser) (goal context : option string) : Op json :=
  require_feature "ai.playbook";;
  require_perm user "ai:use";;
  let goal := s_or goal "恢复服务" in
  definition ← validated (playbook goal (s_or context ""));
  ret (JObj [("kind", JStr "playbook"); ("supported_kinds", JArr (JStr <$> WORKFLOW_KINDS));
             ("goal", JStr goal); ("definition", definition); ("model_name", JStr "echo");
             ("authoritative", JBool false)]).

(** ** Running, cancelling, retrying *)

Definition same_key (key : string) (r : Run) : bool :=
  match jget "idempotency_key" (WorkflowRun.trigger_ref r) with
  | Some (JStr k) => bool_decide (k = key)
  | _ => false
  end.
(** [trigger_ref or None] *)
Definition or_null (j : json) : json := if truthy j then j else JNull.

Definition run_workflow (user : CurrentUser) (workflow_id : Z) (idempotency_key : option string)
    (data : option WorkflowRunIn.WorkflowRunIn) : Op json :=
  _require_feature;;
  require_perm user "workflow:run";;
  wf ← _get_workflow workflow_id;
  o ← _version_row (Workflow.id wf) (Workflow.current_version wf);
  version_row ← some_or o (BadRequestError "workflow has no definition to run");
  let definition := json_or (Some (WorkflowVersion.definition version_row)) (JObj [("nodes", JArr [])]) in
  let trigger_type := s_or (WorkflowRunIn.trigger_type <$> data) "manual" in
  guard_or (str_in trigger_type TRIGGER_TYPES)
    (ValidationError "trigger_type must be one of ['alert', 'manual', 'release', 'schedule', 'ticket']");;
  let trigger_ref := json_or (WorkflowRunIn.trigger_ref <$> data) (JObj []) in
  let context := default JNull (WorkflowRunIn.context <$> data) in
  runs ← db_select (λ r : Run, WorkflowRun.workflow_id r =? Workflow.id wf);
  match idempotency_key with
  | Some key =>
      if bool_decide (key = "") then
        run ← _start_run user wf definition trigger_type (or_null trigger_ref) context;
        ret (JObj [("run_id", JInt (WorkflowRun.id run))])
      else
        match find (same_key key) runs with
        | Some existing => ret (JObj [("run_id", JInt (WorkflowRun.id existing))])
        | None =>
            run ← _start_run user wf definition trigger_type
                    (jset "idempotency_key" (JStr key) trigger_ref) context;
            ret (JObj [("run_id", JInt (WorkflowRun.id run))])
        end
  | None =>
      run ← _start_run user wf definition trigger_type (or_null trigger_ref) context;
      ret (JObj [("run_id", JInt (WorkflowRun.id run))])
  end.

Definition list_runs (user : CurrentUser) (workflow_id : option Z) (status : option string) (page size : Z) : Op json :=
  _require_feature;;
  require_perm user "workflow:view";;
  rows ← db_select (λ r : Run,
    (match workflow_id with Some w => WorkflowRun.workflow_id r =? w | None => true end) &&
    (if s_truthy status then bool_decide (WorkflowRun.status r = default "" status) else true));
  ret (JObj [("list", JArr (_run_out <$> page_of rows page size));
             ("total", JInt (Z.of_nat (length rows))); ("page", JInt page); ("size", JInt size)]).

Definition the_run (run_id : Z) : Op Run :=
  o ← db_get run_id; some_or o (NotFoundError "workflow run not found").

Definition get_run (user : CurrentUser) (run_id : Z) : Op json :=
  _require_feature;;
  require_perm user "workflow:view";;
  run ← the_run run_id;
  nodes ← db_select (in_run run_id);
  ret (JObj [("run", _run_out run); ("nodes", JArr (_node_out <$> nodes))]).

Definition _apply_run_transition (run : Run) (action : string) : Op string :=
  '(allowed_from, target) ← some_or (WORKFLOW_TRANSITIONS action) (KeyError action);
  guard_or (str_in (WorkflowRun.status run) allowed_from)
    (ConflictError ("cannot " +:+ action +:+ " run in status '" +:+ WorkflowRun.status run +:+ "'"));;
  db_upd (WorkflowRun.id run) (λ r, r <| WorkflowRun.status := target |>);;
  ret target.

Definition open_node (n : Node) : bool := str_in (WorkflowNodeRun.status n) ["pending"; "running"; "waiting"].
(** The exec task of a node, if it has one. *)
Definition node_task (n : Node) : Z :=
  if bool_decide (WorkflowNodeRun.node_type n = "exec_task") then z_or (WorkflowNodeRun.exec_task_id n) 0 else 0.
Definition cancel_node (t : Z) (n : Node) : Op () :=
  when (negb (node_task n =? 0)) (
    task ← db_get (node_task n);
    match task with
    | Some task => _ ← cancel_exec_task_record agent_connected task; ret ()
    | None => ret ()
    end);;
  db_upd (WorkflowNodeRun.id n) (skipped_node t).

Definition cancel_run (user : CurrentUser) (run_id : Z) : Op json :=
  _require_feature;;
  require_perm user "workflow:cancel";;
  run ← the_run run_id;
  _ ← _apply_run_transition run "cancel";
  t ← utc_now;
  db_upd run_id (λ r : Run, r <| WorkflowRun.finished_at := Some t |>);;
  nodes ← db_select (λ n, in_run run_id n && open_node n);
  for_each nodes (cancel_node t);;
  db_commit;;
  run ← the_run run_id;
  ret (_run_out run).

Definition retry_run (user : CurrentUser) (run_id : Z) : Op json :=
  _require_feature;;
  require_perm user "workflow:run";;
  run ← the_run run_id;
  wf ← _get_workflow (WorkflowRun.workflow_id run);
  o ← _version_row (Workflow.id wf) (WorkflowRun.workflow_version run);
  let definition := default (JObj [("nodes", JArr [])]) (WorkflowVersion.definition <$> o) in
  new_run ← _start_run user wf definition (WorkflowRun.trigger_type run)
              (JObj [("retry_of", JInt (WorkflowRun.id run))]) (WorkflowRun.context run);
  ret (JObj [("run_id", JInt (WorkflowRun.id new_run))]).

Definition minutes (n : Z) : Z := n * 60 * microseconds.
Definition run_ws_token (user : CurrentUser) (run_id : Z) : Op json :=
  _require_feature;;
  require_perm user "workflow:view";;
  _ ← the_run run_id;
  token ← create_token jwt_encode _jti run_id "ws" (minutes 5) [];
  ret (JObj [("token", JStr token)]).

(** ** The node callback *)

(** [int(claims.get("run_id")) == run_id and claims.get("node_key") == node_key] *)
Definition bound_to (run_id : Z) (node_key : string) (claims : json) : bool :=
  match py_int (default JNull (jget "run_id" claims)) with
  | inr i => (i =? run_id) &&
      match jget "node_key" claims with Some (JStr k) => bool_decide (k = node_key) | _ => false end
  | inl _ => false
  end.

Definition invalid_token : exn := UnauthorizedError "invalid callback token".
(** The claims of a token for this node. *)
Definition callback_claims (token : option string) (run_id : Z) (node_key : string) : Op json :=
  guard_or (s_truthy token) (UnauthorizedError "callback token required");;
  t ← utc_now;
  claims ← some_or (jwt_decode t (default "" token)) invalid_token;
  guard_or (has_type "wf_callback" claims) invalid_token;;
  guard_or (bound_to run_id node_key claims) invalid_token;;
  ret claims.

Definition callback_waiting (run_id : Z) (node_key : string) (n : Node) : bool :=
  in_run run_id n && bool_decide (WorkflowNodeRun.node_key n = node_key) &&
  bool_decide (WorkflowNodeRun.node_type n = "callback") && is_waiting n.
Definition not_awaiting : exn := ConflictError "node is not awaiting callback".

Definition callback_node (run_id : Z) (node_key : string) (token : option string) (payload : json) : Op json :=
  _require_feature;;
  _ ← the_run run_id;
  _ ← callback_claims token run_id node_key;
  o ← db_find (λ n, in_run run_id n && bool_decide (WorkflowNodeRun.node_key n = node_key));
  node ← some_or o (NotFoundError "workflow node not found");
  guard_or (bool_decide (WorkflowNodeRun.node_type node = "callback") && is_waiting node) not_awaiting;;
  guard_or (dumps_size float_str payload <=? _MAX_CALLBACK_PAYLOAD) (ValidationError "callback_payload_too_large");;
  t ← utc_now;
  let out := merge_output [("payload", payload)] (WorkflowNodeRun.output node) in
  won ← db_cas (WorkflowNodeRun.id node) (callback_waiting run_id node_key) (λ n,
    n <| WorkflowNodeRun.output := out |> <| WorkflowNodeRun.status := "succeeded" |>
      <| WorkflowNodeRun.finished_at := Some t |> <| WorkflowNodeRun.error := None |>);
  if negb won then db_rollback;; raise not_awaiting else
  db_commit;;
  start_driver DRIVER_AUTOSTART driver_alive run_id;;
  ret (JObj [("run_id", JInt run_id); ("node_key", JStr node_key); ("status", JStr "succeeded")]).
End workflow.

(** ** Starting a run *)

(** Key and type of a node of a definition. *)
Definition node_spec (n : json) : option (string * string) :=
  match n, jget "key" n, jget "type" n with
  | JObj _, Some (JStr k), Some (JStr t) => Some (k, t)
  | _, _, _ => None
  end.
(** Row [r] is the pending row of node [n] in run [run_id]. *)
Definition fresh_node (run_id : Z) (n : json) (r : Node) : Prop :=
  ∃ k t, node_spec n = Some (k, t) ∧
    r = new_node run_id k t <| WorkflowNodeRun.id := WorkflowNodeRun.id r |>.

Lemma node_text_run k o s :
  (∃ t, assoc_get k o = Some (JStr t) ∧ node_text k (JObj o) s = (inr t, s)) ∨
  ((∀ t, assoc_get k o ≠ Some (JStr t)) ∧ ∃ e, node_text k (JObj o) s = (inl e, s)).
Proof.
  unfold node_text, bind. cbn [index_key]. destruct (assoc_get k o) as [v|]; cbn [some_or].
  - destruct v; try (right; split; [done|by eexists]). left. by eexists.
  - right. split; [done|by eexists].
Qed.

Lemma wp_add_node run_id n (Q : exn + () → St → Prop) s :
  wf_table Node s →
  (∀ e s1, committed s1 = committed s → out s1 = out s → Q (inl e) s1) →
  (∀ r s1, fresh_node run_id n r → wf_table Node s1 → only_table Node s s1 →
     rows (tbl (work s1)) = rows (tbl (work s)) ++ [r] → Q (inr ()) s1) →
  wp (add_node run_id n) Q s.
Proof.
  intros Hwf Herr HQ. unfold add_node. wp_step.
  destruct n as [| | | | | |o]; try by apply Herr.
  destruct (node_text_run "key" o s) as [(k & Hk & Ek)|(_ & e & Ek)];
    (eapply wp_of_run; [exact Ek|]; cbv beta iota); [|by apply Herr].
  wp_step. destruct (node_text_run "type" o s) as [(t & Ht & Et)|(_ & e & Et)];
    (eapply wp_of_run; [exact Et|]; cbv beta iota); [|by apply Herr].
  wp_step. apply wp_db_add_last; [done|done|]. intros row s1 Hrow Hwf1 Hf Hr _ _. apply wp_ret.
  apply (HQ row); [|done..]. exists k, t. split; [unfold node_spec; cbn; by rewrite Hk, Ht|]. by rewrite Hrow.
Qed.

Lemma wp_add_nodes run_id nodes (Q : exn + () → St → Prop) s :
  wf_table Node s →
  (∀ e s1, committed s1 = committed s → out s1 = out s → Q (inl e) s1) →
  (∀ added s1, Forall2 (fresh_node run_id) nodes added → wf_table Node s1 → only_table Node s s1 →
     rows (tbl (work s1)) = rows (tbl (work s)) ++ added → Q (inr ()) s1) →
  wp (for_each nodes (add_node run_id)) Q s.
Proof.
  revert Q s. induction nodes as [|n nodes IH]; intros Q s Hwf Herr HQ; cbn [for_each].
  - apply wp_ret, (HQ []); [done|done|apply only_table_refl|by rewrite app_nil_r].
  - wp_step. apply wp_add_node; [done|done|]. intros r s1 Hr Hwf1 Hf Hrows. apply IH; [done| |].
    + intros e s2 E1 E2. destruct Hf as (_ & _ & ? & _ & _ & _ & ?). apply Herr; congruence.
    + intros added s2 Hadd Hwf2 Hf2 Hr2. apply (HQ (r :: added)); [by constructor|done|by eapply only_table_trans|].
      by rewrite Hr2, Hrows, <-app_assoc.
Qed.

Section service.
Variable DRIVER_AUTOSTART : bool.
Variable driver_alive : Z → bool.

Definition driver_effects (run_id : Z) : list Effect :=
  if DRIVER_AUTOSTART && negb (driver_alive run_id) then [EStartDriver run_id] else [].
Lemma start_driver_run run_id s :
  start_driver DRIVER_AUTOSTART driver_alive run_id s = (inr (), s <| out := out s ++ driver_effects run_id |>).
Proof.
  unfold start_driver, driver_effects, emit_out, modify. destruct DRIVER_AUTOSTART, (driver_alive run_id); try done.
  all: unfold ret; cbn; rewrite app_nil_r; by destruct s.
Qed.

(** A run that [_start_run] created: its row and those of its nodes are new,
    pending and committed, the rest of the database is as it was. *)
Record run_created (user : CurrentUser) (wf : Workflow.Workflow) (nodes : list json) (tt : string)
    (ref ctx : json) (s : St) (run : Run) (s' : St) : Prop := {
  rc_row : run = new_run (Some (user_id user)) wf tt ref ctx <| WorkflowRun.id := WorkflowRun.id run |>
                                                            <| WorkflowRun.created_at := now s |>;
  rc_fresh : tbl (R:=Run) (work s) !! WorkflowRun.id run = None;
  rc_runs : tbl (committed s') = <[WorkflowRun.id run := run]> (tbl (work s));
  rc_last : rows (R:=Run) (tbl (committed s')) = rows (tbl (work s)) ++ [run];
  rc_nodes : ∃ added, Forall2 (fresh_node (WorkflowRun.id run)) nodes added ∧
    rows (R:=Node) (tbl (committed s')) = rows (tbl (work s)) ++ added;
  rc_rest : ∃ runs ns, committed s' = set_tbl (R:=Node) ns (set_tbl (R:=Run) runs (work s));
  rc_out : out s' = out s ++ driver_effects (WorkflowRun.id run);
}.

Lemma wp_start_run user wf d tt ref ctx (Q : exn + Run → St → Prop) s :
  wf_table Run s → wf_table Node s →
  (∀ e s1, committed s1 = committed s → out s1 = out s → Q (inl e) s1) →
  (∀ run nodes s1, nodes_of d s = (inr nodes, s) → run_created user wf nodes tt ref ctx s run s1 → Q (inr run) s1) →
  wp (_start_run DRIVER_AUTOSTART driver_alive user wf d tt ref ctx) Q s.
Proof.
  intros Hr Hn Herr HQ. unfold _start_run. wp_step. apply wp_db_add_last; [done|done|].
  intros run s1 Hrun Hr1 Hf1 Hl1 Ht1 Hfresh. wp_step.
  assert (∀ s2, nodes_of d s2 = ((nodes_of d s).1, s2)) as Hnodes.
  { intros s2. unfold nodes_of, dict_get. destruct d as [| | | | | |o]; try done. unfold bind. cbn.
    by destruct (json_or _ _). }
  eapply wp_of_run; [apply Hnodes|]. cbv beta iota. destruct (nodes_of d s).1 as [e|nodes] eqn:Hd.
  { destruct Hf1 as (_ & _ & ? & _ & _ & _ & ?). by apply Herr. }
  wp_step. apply wp_add_nodes; [by apply (only_table_wf (R:=Run) s)| |].
  { intros e s2 E1 E2. destruct Hf1 as (_ & _ & ? & _ & _ & _ & ?). apply Herr; congruence. }
  intros added s2 Hadd Hn2 Hf2 Hrows. do 2 wp_step. wp_step. eapply wp_of_run; [apply start_driver_run|].
  cbv beta iota. wp_step. apply (HQ run nodes); [by rewrite (surjective_pairing (nodes_of d s)), Hd, Hnodes|].
  destruct Hf1 as (W1 & _ & C1 & _ & _ & _ & O1), Hf2 as (W2 & _ & C2 & _ & _ & _ & O2). split.
  - rewrite Hrun. done.
  - done.
  - cbn. rewrite W2, tbl_set_ne. exact Ht1.
  - cbn. rewrite W2, tbl_set_ne. exact Hl1.
  - exists added. split; [done|]. cbn. rewrite Hrows. f_equal. rewrite W1. by rewrite tbl_set_ne.
  - eexists _, _. cbn. rewrite W2 at 1. by rewrite W1 at 1.
  - cbn. congruence.
Qed.

(** ** Running a playbook *)

Definition earlier_runs (wf : Workflow.Workflow) (d : Db) : list Run :=
  select_rows (λ r : Run, WorkflowRun.workflow_id r =? Workflow.id wf) (tbl d).
Definition keyed (key : option string) : option string :=
  match key with Some k => if bool_decide (k = "") then None else Some k | None => None end.
Definition run_answer (r : Run) : json := JObj [("run_id", JInt (WorkflowRun.id r))].

(** What [run_workflow] promises of its answer [j]. *)
Definition ran (user : CurrentUser) (workflow_id : Z) (key : option string) (s : St) (j : json) (s' : St) : Prop :=
  ∃ wf v, tbl (R:=Workflow.Workflow) (work s) !! workflow_id = Some wf ∧
    head (select_rows (version_is (Workflow.id wf) (Workflow.current_version wf)) (tbl (work s))) = Some v ∧
    match keyed key ≫= λ k, find (same_key k) (earlier_runs wf (work s)) with
    | Some old => j = run_answer old ∧ committed s' = committed s ∧ out s' = out s
    | None => ∃ run nodes tt ref ctx,
        nodes_of (json_or (Some (WorkflowVersion.definition v)) (JObj [("nodes", JArr [])])) s = (inr nodes, s) ∧
        run_created user wf nodes tt ref ctx s run s' ∧ j = run_answer run ∧
        (∀ k, keyed key = Some k → same_key k run = true)
    end.

Lemma wp_run_workflow user workflow_id key data (Q : exn + json → St → Prop) s :
  wf_table Run s → wf_table Node s →
  (∀ e s1, committed s1 = committed s → out s1 = out s → Q (inl e) s1) →
  (∀ j s1, has_perm user "workflow:run" = true → feature_on "feature.workflow" s = true →
     ran user workflow_id key s j s1 → Q (inr j) s1) →
  wp (run_workflow DRIVER_AUTOSTART driver_alive user workflow_id key data) Q s.
Proof.
  intros Hr Hn Herr HQ. unfold run_workflow, _require_feature. wp_step. wp_step; [|by apply Herr].
  wp_step. wp_step; [|by apply Herr]. wp_step. unfold _get_workflow. wp_step. apply wp_db_get. cbv beta iota.
  destruct (tbl (R:=Workflow.Workflow) (work s) !! workflow_id) as [wf|] eqn:Hwf; [|by apply Herr].
  cbn [some_or]. apply wp_ret. cbv beta iota. wp_step. unfold _version_row. apply wp_db_find. cbv beta iota.
  destruct (head _) as [v|] eqn:Hv; wp_step; cbn [some_or]; [|by apply Herr]. apply wp_ret. cbv beta iota.
  wp_step. wp_step; [|by apply Herr]. wp_step. apply wp_db_select. cbv beta iota.
  fold (earlier_runs wf (work s)).
  assert (∀ tt ref ctx, (∀ k, keyed key = Some k → jget "idempotency_key" ref = Some (JStr k)) →
    keyed key ≫= (λ k, find (same_key k) (earlier_runs wf (work s))) = None →
    wp (_start_run DRIVER_AUTOSTART driver_alive user wf
          (json_or (Some (WorkflowVersion.definition v)) (JObj [("nodes", JArr [])])) tt ref ctx >>=
        (λ run, ret (JObj [("run_id", JInt (WorkflowRun.id run))]))) Q s) as Hstart.
  { intros tt ref ctx Hkey Hnone. wp_step. apply wp_start_run; [done..|by intros; apply Herr|].
    intros run nodes s1 Hnodes Hc. wp_step. apply HQ; [done..|]. exists wf, v. split_and!; [done..|].
    rewrite Hnone. exists run, nodes, tt, ref, ctx. split_and!; [done..|].
    intros k Hk. unfold same_key. rewrite (rc_row _ _ _ _ _ _ _ _ _ Hc). cbn. rewrite (Hkey k Hk).
    by apply bool_decide_eq_true. }
  unfold keyed in *. destruct key as [key|]; [|by apply Hstart].
  case_bool_decide; [by apply Hstart|]. destruct (find _ _) as [old|] eqn:Hold.
  - wp_step. apply HQ; [done..|]. exists wf, v. split_and!; [done..|]. unfold keyed.
    rewrite bool_decide_eq_false_2 by done. cbn. by rewrite Hold.
  - apply Hstart; [|done]. intros k [= <-]. apply jget_jset.
Qed.

Lemma start_run_preserves (I : St → Prop) user wf d tt ref ctx :
  (∀ u wf tt ref ctx, preserves I (db_add (new_run u wf tt ref ctx))) →
  (∀ r k t, preserves I (db_add (new_node r k t))) → preserves I db_commit →
  (∀ e, preserves I (emit_out e)) →
  preserves I (_start_run DRIVER_AUTOSTART driver_alive user wf d tt ref ctx).
Proof.
  intros Hr Hn Hc He. unfold _start_run, nodes_of, dict_get, iter_of, add_node, node_text, index_key, start_driver.
  preserves_auto.
Qed.
Lemma run_workflow_preserves (I : St → Prop) user workflow_id key data :
  (∀ u wf tt ref ctx, preserves I (db_add (new_run u wf tt ref ctx))) →
  (∀ r k t, preserves I (db_add (new_node r k t))) → preserves I db_commit →
  (∀ e, preserves I (emit_out e)) →
  preserves I (run_workflow DRIVER_AUTOSTART driver_alive user workflow_id key data).
Proof.
  intros Hr Hn Hc He. pose proof start_run_preserves.
  unfold run_workflow, _require_feature, _get_workflow, _version_row. preserves_auto.
Qed.
Lemma run_workflow_wf R `{Table R, !TableNe R Run, !TableNe R Node} user workflow_id key data :
  preserves (wf_table R) (run_request (run_workflow DRIVER_AUTOSTART driver_alive user workflow_id key data)).
Proof. apply wf_preserves_run_request, run_workflow_preserves; intros; eauto with preserves. Qed.

Lemma find_snoc {A} (f : A → bool) l x : find f l = None → f x = true → find f (l ++ [x]) = Some x.
Proof. intros Hl Hx. induction l as [|y l IH]; cbn in *; [by rewrite Hx|]. destruct (f y); [done|auto]. Qed.

Lemma run_workflow_ran user workflow_id key data s j s' :
  wf_table Run s → wf_table Node s →
  run_request (run_workflow DRIVER_AUTOSTART driver_alive user workflow_id key data) s = (inr j, s') →
  ran user workflow_id key s j s' ∧ work s' = committed s'.
Proof.
  intros Hr Hn Hrun.
  assert (wp (run_workflow DRIVER_AUTOSTART driver_alive user workflow_id key data)
    (λ r s1, ∀ j, r = inr j → ran user workflow_id key s j s1) s) as Hwp
    by (apply wp_run_workflow; [done..| |]; [by intros|intros j1 s3 _ _ Hj j2 [= <-]; exact Hj]).
  unfold wp in Hwp. unfold run_request in Hrun. destruct (run_workflow _ _ _ _ _ _ s) as [r0 s0'].
  injection Hrun as -> <-. split; [|done].
  destruct (Hwp j eq_refl) as (wf & v & Hwf & Hv & Hm). exists wf, v. split_and!; [done..|].
  destruct (keyed key ≫= _); [exact Hm|]. destruct Hm as (run & nodes & tt & ref & ctx & Hn1 & [] & Hj & Hkk).
  exists run, nodes, tt, ref, ctx. split_and!; [done| |done|done]. by split.
Qed.

(** The idempotency key of a playbook run: when a request with key [k]
    was answered, the next request with the same key for the same playbook, by
    whomever, gets the same run; it creates nothing and starts no driver. *)
Theorem run_workflow_idempotent user user' workflow_id k data data' s s1 s2 j j' :
  quiet Run s → quiet Node s → k ≠ "" →
  run_request (run_workflow DRIVER_AUTOSTART driver_alive user workflow_id (Some k) data) s = (inr j, s1) →
  run_request (run_workflow DRIVER_AUTOSTART driver_alive user' workflow_id (Some k) data') s1 = (inr j', s2) →
  j' = j ∧ committed s2 = committed s1 ∧ out s2 = out s1.
Proof.
  intros [Hq Hr] [_ Hn] Hk H1 H2.
  destruct (run_workflow_ran _ _ _ _ s j s1 Hr Hn H1) as [(wf & v & Hwf & Hv & Hm) Hq1].
  assert (wf_table Run s1 ∧ wf_table Node s1) as [Hr1 Hn1].
  { split; [eapply (preserves_run (wf_table Run)); [|exact Hr|exact H1]
           |eapply (preserves_run (wf_table Node)); [|exact Hn|exact H1]];
      apply wf_preserves_run_request, run_workflow_preserves; intros; eauto with preserves. }
  destruct (run_workflow_ran _ _ _ _ s1 j' s2 Hr1 Hn1 H2) as [(wf' & v' & Hwf' & Hv' & Hm') Hq2].
  assert (keyed (Some k) = Some k) as Hkey by (unfold keyed; by rewrite bool_decide_eq_false_2).
  rewrite Hkey in Hm, Hm'. cbn in Hm, Hm'. rewrite Hq1 in *.
  destruct (find (same_key k) (earlier_runs wf (work s))) as [old|] eqn:Hold.
  - destruct Hm as (-> & Hc & Ho). rewrite Hc, <-Hq, Hwf in Hwf'. injection Hwf' as <-.
    rewrite Hc, <-Hq, Hold in Hm'. destruct Hm' as (-> & ? & ?). split_and!; congruence.
  - destruct Hm as (run & nodes & tt & ref & ctx & _ & Hc & -> & Hkk). destruct Hc as [Hrow _ _ Hlast _ (rs & ns & Hrest) _].
    rewrite Hrest in Hwf'. rewrite !tbl_set_ne in Hwf'. rewrite Hwf in Hwf'. injection Hwf' as <-.
    assert (find (same_key k) (earlier_runs wf (committed s1)) = Some run) as Hfind.
    { unfold earlier_runs, select_rows. rewrite Hlast, filter_app. rewrite (filter_cons_True _ run []).
      - apply find_snoc; [exact Hold|by apply Hkk].
      - rewrite Hrow. cbn. apply Z.eqb_refl. }
    rewrite Hfind in Hm'. destruct Hm' as (-> & ? & ?). by split_and!.
Qed.

(** ** Retrying *)

(** The definition of the version a run was started with. *)
Definition version_definition (wf : Workflow.Workflow) (version : Z) (d : Db) : json :=
  default (JObj [("nodes", JArr [])])
    (WorkflowVersion.definition <$> head (select_rows (version_is (Workflow.id wf) version) (tbl d))).

(** C19: a retry is allowed in every state of the old run. The new run gets the
    node rows of the version the old run had, and as its own version the current
    one, which the engine will read: after a new version both differ. *)
Theorem retry_run_spec user run_id s j s' :
  wf_table Run s → wf_table Node s →
  run_request (retry_run DRIVER_AUTOSTART driver_alive user run_id) s = (inr j, s') →
  ∃ old wf nodes run,
    tbl (work s) !! run_id = Some old ∧ tbl (work s) !! WorkflowRun.workflow_id old = Some wf ∧
    nodes_of (version_definition wf (WorkflowRun.workflow_version old) (work s)) s = (inr nodes, s) ∧
    run_created user wf nodes (WorkflowRun.trigger_type old) (JObj [("retry_of", JInt (WorkflowRun.id old))])
      (WorkflowRun.context old) s run s' ∧
    WorkflowRun.workflow_version run = Workflow.current_version wf ∧ j = run_answer run.
Proof.
  intros Hr Hn Hrun.
  assert (wp (retry_run DRIVER_AUTOSTART driver_alive user run_id) (λ r s1, ∀ j, r = inr j →
    ∃ old wf nodes run,
      tbl (work s) !! run_id = Some old ∧ tbl (work s) !! WorkflowRun.workflow_id old = Some wf ∧
      nodes_of (version_definition wf (WorkflowRun.workflow_version old) (work s)) s = (inr nodes, s) ∧
      run_created user wf nodes (WorkflowRun.trigger_type old) (JObj [("retry_of", JInt (WorkflowRun.id old))])
        (WorkflowRun.context old) s run s1 ∧ j = run_answer run) s) as Hwp.
  { unfold retry_run, _require_feature, the_run, _get_workflow, _version_row.
    wp_step. wp_step; [|done]. wp_step. wp_step; [|done]. do 2 wp_step. apply wp_db_get. cbv beta iota.
    destruct (tbl (R:=Run) (work s) !! run_id) as [old|] eqn:Hold; [|done]. cbn [some_or]. apply wp_ret. cbv beta iota.
    do 2 wp_step. apply wp_db_get. cbv beta iota.
    destruct (tbl (R:=Workflow.Workflow) (work s) !! _) as [wf|] eqn:Hwf; [|done]. cbn [some_or].
    apply wp_ret. cbv beta iota. wp_step. apply wp_db_find. cbv beta iota. cbv zeta. wp_step.
    fold (version_definition wf (WorkflowRun.workflow_version old) (work s)).
    apply wp_start_run; [done..|]. intros run nodes s1 Hnodes Hc. wp_step. intros j1 [= <-].
    by exists old, wf, nodes, run. }
  unfold wp in Hwp. unfold run_request in Hrun. destruct (retry_run _ _ _ _ s) as [r0 s0'].
  injection Hrun as -> <-. destruct (Hwp j eq_refl) as (old & wf & nodes & run & H1 & H2 & H3 & Hc & H4).
  exists old, wf, nodes, run. split_and!; [done..| | |done].
  - destruct Hc. by split.
  - by rewrite (rc_row _ _ _ _ _ _ _ _ _ Hc).
Qed.

(** ** Cancelling *)

Section cancel.
Variable agent_connected : string → bool.

Lemma close_hosts_frame {R} `{Table R, !TableNe R ApprovalRequest.ApprovalRequest, !TableNe R ExecTaskHost.ExecTaskHost}
    (m : gmap Z R) c t :
  preserves (frame m c) (_close_orphan_approval t;;
    hosts ← ExecTaskHostRepository.by_task (ExecTask.id t);
    for_each hosts (cancel_host agent_connected);; ret true).
Proof.
  unfold _close_orphan_approval, ApprovalRepository.optimistic_update, ExecTaskHostRepository.by_task, cancel_host,
    _send_agent_stop, ExecTaskHostRepository.update_status, Dispatch.dispatch_to_agent_sync. preserves_auto.
Qed.

Definition cancellable (t : ExecTask.ExecTask) : bool := str_in (ExecTask.status t) _EXEC_CANCELLABLE_STATUSES.

(** Cancelling a task writes its row, and neither runs nor nodes. *)
Lemma wp_cancel_task t (ms : gmap Z Node) (mr : gmap Z Run) s :
  tbl (R:=Node) (work s) = ms → tbl (R:=Run) (work s) = mr → tbl (work s) !! ExecTask.id t = Some t →
  wp (cancel_exec_task_record agent_connected t) (λ _ s',
    tbl (R:=Node) (work s') = ms ∧ tbl (R:=Run) (work s') = mr ∧ committed s' = committed s ∧
    ∃ k, tbl (work s') = (if cancellable t then <[ExecTask.id t := canceled_task k t]> (tbl (work s))
                          else tbl (work s))) s.
Proof.
  intros Hms Hmr Ht. unfold cancel_exec_task_record, cancellable. destruct (str_in _ _) eqn:Hst; cbn [negb].
  2: { wp_step. split_and!; try done. by exists 0. }
  wp_step. eapply wp_cas_hit; [exact Ht| |].
  { rewrite bool_decide_eq_true_2 by done. by rewrite Z.eqb_refl. }
  cbv beta iota. cbn [negb]. do 2 wp_step. wp_step.
  eapply wp_upd_hit; [rewrite tbl_put_row; apply lookup_insert_eq|]. cbv beta iota.
  rewrite put_row_twice. set (s1 := put_row _ _ _).
  pose proof (close_hosts_frame ms (committed s) t s1) as F1.
  pose proof (close_hosts_frame mr (committed s) t s1) as F2.
  pose proof (close_hosts_frame (tbl (R:=ExecTask.ExecTask) (work s1)) (committed s) t s1) as F3.
  destruct F1 as [F1 Fc]; [split; [unfold s1; by rewrite tbl_put_row_ne|done]|].
  destruct F2 as [F2 _]; [split; [unfold s1; by rewrite tbl_put_row_ne|done]|].
  destruct F3 as [F3 _]; [by split|].
  unfold wp. split_and!; [done..|]. exists (now s). rewrite F3. unfold s1. rewrite tbl_put_row. done.
Qed.

(** What cancelling the nodes [dn] has done to the tasks of [d]. *)
Definition tasks_after (dn : list Node) (m m' : gmap Z ExecTask.ExecTask) : Prop :=
  ∀ i t, m !! i = Some t → ∃ t', m' !! i = Some t' ∧ ExecTask.id t' = i ∧
    (t' = t ∨ cancellable t = true ∧ (∃ n, n ∈ dn ∧ node_task n = i) ∧ ∃ k, t' = canceled_task k t) ∧
    (∀ n, n ∈ dn → node_task n = i → i ≠ 0 → cancellable t = true → ExecTask.status t' = "canceled").

Lemma tasks_after_same dn n m m' :
  tasks_after dn m m' →
  (∀ t t', m !! node_task n = Some t → m' !! node_task n = Some t' → node_task n ≠ 0 → cancellable t' = false) →
  tasks_after (dn ++ [n]) m m'.
Proof.
  intros H Hn i t Hi. destruct (H i t Hi) as (t' & Ht' & Hid & Hcase & Hcan). exists t'. split_and!; [done..| |].
  - destruct Hcase as [->|(Hc & (x & Hx & Hxi) & Hk)]; [by left|right]. split_and!; [done| |done].
    exists x. split; [|done]. apply elem_of_app. by left.
  - intros x [Hx|Hx%list_elem_of_singleton]%elem_of_app Hxi H0 Hc; [by eapply Hcan|]. subst x.
    destruct Hcase as [->|(_ & _ & k & ->)]; [|done]. rewrite Hxi in Hn. by rewrite (Hn t t Hi Ht' H0) in Hc.
Qed.
Lemma tasks_after_cancel dn n k m m' t' :
  tasks_after dn m m' → m' !! node_task n = Some t' → cancellable t' = true →
  tasks_after (dn ++ [n]) m (<[node_task n := canceled_task k t']> m').
Proof.
  intros H Hn Hc i t Hi. destruct (H i t Hi) as (x & Hx & Hid & Hcase & Hcan).
  destruct (decide (node_task n = i)) as [<-|Hne].
  - assert (x = t') as -> by congruence. exists (canceled_task k t'). rewrite lookup_insert_eq.
    assert (t' = t) as ->.
    { destruct Hcase as [->|(_ & _ & k' & ->)]; [done|]. by vm_compute in Hc. }
    split_and!; [done|done| |done]. right. split_and!; [done| |by exists k].
    exists n. split; [|done]. apply elem_of_app. right. by apply list_elem_of_singleton.
  - exists x. rewrite lookup_insert_ne by done. split_and!; [done..| |].
    + destruct Hcase as [->|(Hc' & (y & Hy & Hyi) & Hk)]; [by left|right]. split_and!; [done| |done].
      exists y. split; [|done]. apply elem_of_app. by left.
    + intros y [Hy|Hy%list_elem_of_singleton]%elem_of_app Hyi H0 Hct; [by eapply Hcan|]. by subst y.
Qed.

(** The loop over the open nodes of the run. *)
Lemma wp_cancel_nodes run_id t hi (Q : exn + () → St → Prop) s :
  wf_rows (node_table s) hi → (∀ i x, tbl (R:=ExecTask.ExecTask) (work s) !! i = Some x → ExecTask.id x = i) →
  let p := λ n, in_run run_id n && open_node n in
  (∀ e s', committed s' = committed s → Q (inl e) s') →
  (∀ s', committed s' = committed s → tbl (R:=Run) (work s') = tbl (work s) →
     node_table s' = (λ n, if p n then skipped_node t n else n) <$> node_table s →
     tasks_after (select_rows p (node_table s)) (tbl (work s)) (tbl (work s')) → Q (inr ()) s') →
  wp (for_each (select_rows p (node_table s)) (cancel_node agent_connected t)) Q s.
Proof.
  intros Hwf Hids p Herr HQ. pose proof (NoDup_select_rows p (node_table s) hi Hwf) as Hnd.
  apply wp_for_each_at with (I := λ dn s', committed s' = committed s ∧ tbl (R:=Run) (work s') = tbl (work s) ∧
    node_table s' = upd_rows (λ n _, skipped_node t n) dn (node_table s) ∧
    (∀ i x, tbl (R:=ExecTask.ExecTask) (work s') !! i = Some x → ExecTask.id x = i) ∧
    tasks_after dn (tbl (work s)) (tbl (work s'))).
  - split_and!; [done..|]. intros i x Hi. exists x. split_and!; [done|by apply Hids|by left|].
    intros n Hn. by apply elem_of_nil in Hn.
  - intros dn n rest s1 Hl (Hc & Hr & Hn & Hi1 & Ht).
    assert (node_table s1 !! WorkflowNodeRun.id n = Some n) as Hrow.
    { rewrite Hn. rewrite lookup_upd_rows_notin.
      - assert (n ∈ select_rows p (node_table s)) as Hin
          by (rewrite Hl; apply elem_of_app; right; apply elem_of_cons; by left).
        apply elem_of_select_rows in Hin as [_ [i Hi]]. pose proof (wf_id Hwf i n Hi) as Hid. cbn in Hid. by subst i.
      - rewrite Hl, fmap_app, fmap_cons in Hnd. apply NoDup_app in Hnd as (_ & Hd & _). intros Hin.
        apply (Hd _ Hin), elem_of_cons. by left. }
    assert (∀ s2, committed s2 = committed s → tbl (R:=Run) (work s2) = tbl (work s) →
      node_table s2 = node_table s1 →
      (∀ i x, tbl (R:=ExecTask.ExecTask) (work s2) !! i = Some x → ExecTask.id x = i) → tasks_after (dn ++ [n]) (tbl (work s)) (tbl (work s2)) →
      wp (db_upd (WorkflowNodeRun.id n) (skipped_node t)) (λ r s', match r with
        | inl e => Q (inl e) s'
        | inr _ => committed s' = committed s ∧ tbl (R:=Run) (work s') = tbl (work s) ∧
            node_table s' = upd_rows (λ n _, skipped_node t n) (dn ++ [n]) (node_table s) ∧
            (∀ i x, tbl (R:=ExecTask.ExecTask) (work s') !! i = Some x → ExecTask.id x = i) ∧
            tasks_after (dn ++ [n]) (tbl (work s)) (tbl (work s')) end) s2) as Hskip.
    { intros s2 Hc2 Hr2 Hn2 Hi2 Ht2. eapply wp_upd_hit; [unfold node_table in Hn2; rewrite Hn2; exact Hrow|].
      unfold node_table in *. rows_simpl. split_and!; [done|done| |done|done]. rewrite Hn2, Hn.
      unfold upd_rows. by rewrite foldl_app. }
    unfold cancel_node. wp_step. destruct (node_task n =? 0) eqn:H0; cbn [negb].
    { apply wp_ret. cbv beta iota. apply Hskip; [done..|]. apply tasks_after_same; [done|]. lia. }
    unfold when. wp_step. apply wp_db_get. cbv beta iota.
    destruct (tbl (R:=ExecTask.ExecTask) (work s1) !! node_task n) as [task|] eqn:Htask.
    2: { wp_step. apply Hskip; [done..|]. apply tasks_after_same; [done|]. intros ? ? _ E. congruence. }
    pose proof (Hi1 _ _ Htask) as Hid. rewrite <-Hid in Htask. wp_step.
    eapply wp_mono; [by apply (wp_cancel_task task (node_table s1) (tbl (work s1)))|].
    cbv beta. intros [e|b] s2 (Hn2 & Hr2 & Hc2 & k & Ht2); [apply Herr; congruence|]. apply wp_ret. cbv beta iota.
    apply Hskip; [congruence|congruence|exact Hn2|..]; rewrite Ht2; destruct (cancellable task) eqn:Hcan.
    + intros i x [[<- <-]|[_ Hx]]%lookup_insert_Some; [done|by apply Hi1].
    + done.
    + rewrite Hid in *. by apply tasks_after_cancel.
    + apply tasks_after_same; [done|]. intros x y _ Hy _. rewrite Hid in Htask. congruence.
  - intros s1 (Hc & Hr & Hn & _ & Ht). apply HQ; [done|done| |done].
    rewrite Hn. by eapply upd_rows_selected.
Qed.

Lemma wp_cancel_run user run_id r (Q : exn + json → St → Prop) s hi :
  wf_rows (node_table s) hi → (∀ i x, tbl (R:=ExecTask.ExecTask) (work s) !! i = Some x → ExecTask.id x = i) →
  tbl (work s) !! run_id = Some r → WorkflowRun.id r = run_id →
  (∀ e s', committed s' = committed s → Q (inl e) s') →
  (∀ j s', WorkflowRun.status r ∈ ["pending"; "running"] → has_perm user "workflow:cancel" = true →
     tbl (committed s') = <[run_id := r <| WorkflowRun.status := "cancelled" |>
                                       <| WorkflowRun.finished_at := Some (now s) |>]> (tbl (work s)) →
     tbl (committed s') = (λ n, if in_run run_id n && open_node n then skipped_node (now s) n else n) <$> node_table s →
     tasks_after (select_rows (λ n, in_run run_id n && open_node n) (node_table s)) (tbl (work s)) (tbl (committed s')) →
     Q (inr j) s') →
  wp (cancel_run agent_connected user run_id) Q s.
Proof.
  intros Hwf Hids Hrow Hid Herr HQ. unfold cancel_run, _require_feature, the_run.
  wp_step. wp_step; [|by apply Herr]. wp_step. wp_step; [|by apply Herr]. do 2 wp_step. apply wp_db_get. cbv beta iota.
  rewrite Hrow. cbn [some_or]. apply wp_ret. cbv beta iota. wp_step. unfold _apply_run_transition.
  cbn [WORKFLOW_TRANSITIONS assoc_get]. wp_step. apply wp_ret. cbv beta iota. wp_step.
  apply wp_guard_or; intros Hst; cbv beta iota; [|by apply Herr]. apply str_in_true in Hst. wp_step.
  rewrite Hid. eapply wp_upd_hit; [exact Hrow|]. cbv beta iota. do 3 wp_step. wp_step.
  eapply wp_upd_hit; [rewrite tbl_put_row; apply lookup_insert_eq|]. cbv beta iota. rewrite put_row_twice, now_put_row.
  set (s1 := put_row run_id _ s). wp_step. apply wp_db_select. cbv beta iota.
  assert (node_table s1 = node_table s) as Hn1 by (unfold node_table, s1; by rewrite tbl_put_row_ne).
  assert (tbl (R:=ExecTask.ExecTask) (work s1) = tbl (work s)) as Ht1 by (unfold s1; by rewrite tbl_put_row_ne).
  fold (node_table s1). wp_step. apply (wp_cancel_nodes run_id (now s) hi); [by rewrite Hn1|by rewrite Ht1|..].
  { intros e s2 Hc. apply Herr. by rewrite Hc. }
  intros s2 Hc2 Hr2 Hn2 Ht2. do 2 wp_step. cbv beta iota. wp_step. wp_step. apply wp_db_get. cbv beta iota.
  assert (tbl (R:=Run) (work s2) !! run_id = Some (r <| WorkflowRun.status := "cancelled" |>
    <| WorkflowRun.finished_at := Some (now s) |>)) as Hr3
    by (rewrite Hr2; unfold s1; rewrite tbl_put_row; apply lookup_insert_eq).
  st_simpl. rewrite Hr3. cbn [some_or]. apply wp_ret. cbv beta iota. wp_step.
  rewrite Hn1 in *. rewrite Ht1 in Ht2. apply HQ; [done|done| |exact Hn2|exact Ht2].
  cbn. rewrite Hr2. unfold s1. by rewrite tbl_put_row.
Qed.

(** C20: a cancelled run: only a pending or running run is cancelled; then
    every open node of the run is skipped, every exec task of such a node that
    could still be cancelled is canceled, and every other run, node and exec
    task is as before. A refused request changes nothing. *)
Theorem cancel_run_spec user run_id r s o s' :
  quiet Node s → quiet Run s → wf_table ExecTask.ExecTask s → tbl (committed s) !! run_id = Some r →
  run_request (cancel_run agent_connected user run_id) s = (o, s') →
  match o with
  | inl _ => committed s' = committed s
  | inr _ => WorkflowRun.status r ∈ ["pending"; "running"] ∧
      let opened := λ n, in_run run_id n && open_node n in
      tbl (committed s') = <[run_id := r <| WorkflowRun.status := "cancelled" |>
                                         <| WorkflowRun.finished_at := Some (now s) |>]> (tbl (committed s)) ∧
      tbl (committed s') = (λ n, if opened n then skipped_node (now s) n else n) <$> tbl (committed s) ∧
      tasks_after (select_rows opened (tbl (committed s))) (tbl (committed s)) (tbl (committed s'))
  end.
Proof.
  intros [Hq [Hn _]] [_ [Hr _]] [Ht _] Hrow Hrun. rewrite <-Hq in *.
  assert (wp (cancel_run agent_connected user run_id) (λ o s', match o with
    | inl _ => committed s' = work s
    | inr _ => WorkflowRun.status r ∈ ["pending"; "running"] ∧
        let opened := λ n, in_run run_id n && open_node n in
        tbl (committed s') = <[run_id := r <| WorkflowRun.status := "cancelled" |>
                                           <| WorkflowRun.finished_at := Some (now s) |>]> (tbl (work s)) ∧
        tbl (committed s') = (λ n, if opened n then skipped_node (now s) n else n) <$> tbl (work s) ∧
        tasks_after (select_rows opened (tbl (work s))) (tbl (work s)) (tbl (committed s'))
    end) s) as Hwp.
  { eapply wp_cancel_run; [exact Hn|exact (wf_id Ht)|exact Hrow|exact (wf_id Hr _ _ Hrow)|by rewrite Hq|].
    intros j s1 Hst _ H1 H2 H3. by split_and!. }
  unfold wp in Hwp. unfold run_request in Hrun. destruct (cancel_run _ _ _ s) as [o1 s1].
  injection Hrun as <- <-. exact Hwp.
Qed.
End cancel.

(** ** The callback *)

Section callback.
Variable float_str : Q → string.
Variable jwt_decode : Z → string → option json.

(** The node row a callback completes, and what it becomes. *)
Definition called_back (t : Z) (payload : json) (n : Node) : Node :=
  n <| WorkflowNodeRun.output := merge_output [("payload", payload)] (WorkflowNodeRun.output n) |>
    <| WorkflowNodeRun.status := "succeeded" |> <| WorkflowNodeRun.finished_at := Some t |>
    <| WorkflowNodeRun.error := None |>.
(** A live token of the engine for this node of this run. *)
Definition good_token (now : Z) (token : option string) (run_id : Z) (node_key : string) : Prop :=
  ∃ tok claims, token = Some tok ∧ jwt_decode now tok = Some claims ∧
    has_type "wf_callback" claims = true ∧ bound_to run_id node_key claims = true.
Definition named (run_id : Z) (node_key : string) (n : Node) : bool :=
  in_run run_id n && bool_decide (WorkflowNodeRun.node_key n = node_key).

Lemma wp_callback run_id node_key token payload hi (Q : exn + json → St → Prop) s :
  wf_rows (node_table s) hi →
  (∀ e s', committed s' = committed s → out s' = out s → Q (inl e) s') →
  (∀ j n s', good_token (now s) token run_id node_key →
     head (select_rows (named run_id node_key) (node_table s)) = Some n →
     callback_waiting run_id node_key n = true → dumps_size float_str payload ≤ _MAX_CALLBACK_PAYLOAD →
     committed s' = set_tbl (<[WorkflowNodeRun.id n := called_back (now s) payload n]> (node_table s)) (work s) →
     out s' = out s ++ driver_effects run_id →
     Q (inr j) s') →
  wp (callback_node float_str jwt_decode DRIVER_AUTOSTART driver_alive run_id node_key token payload) Q s.
Proof.
  intros Hwf Herr HQ. unfold callback_node, _require_feature, the_run, callback_claims.
  wp_step. wp_step; [|by apply Herr]. do 2 wp_step. apply wp_db_get. cbv beta iota. wp_step; [|by apply Herr].
  cbv beta iota. do 2 wp_step. wp_step; [|by apply Herr]. do 2 wp_step. wp_step. wp_step; [|by apply Herr].
  cbv beta iota. wp_step. wp_step; [|by apply Herr]. wp_step. wp_step; [|by apply Herr]. wp_step. wp_step.
  apply wp_db_find. cbv beta iota. fold (node_table s).
  fold (named run_id node_key). wp_step.
  destruct (head (select_rows (named run_id node_key) (node_table s))) as [n|] eqn:Hn; cbn [some_or]; [|by apply Herr].
  apply wp_ret. cbv beta iota.
  wp_step. apply wp_guard_or; intros Hwait; cbv beta iota; [|by apply Herr].
  wp_step. apply wp_guard_or; intros Hsize; cbv beta iota; [|by apply Herr]. do 2 wp_step. cbv zeta.
  pose proof (head_select_Some _ _ _ Hn) as [Hp [i Hi]].
  assert (node_table s !! WorkflowNodeRun.id n = Some n) as Hrow
    by (pose proof (wf_id Hwf i n Hi) as Hid; cbn in Hid; by subst i).
  assert (callback_waiting run_id node_key n = true) as Hcw.
  { unfold callback_waiting. unfold named in Hp. rewrite Hp. exact Hwait. }
  wp_step. eapply wp_cas_hit; [exact Hrow|exact Hcw|]. cbv beta iota. cbn [negb]. do 2 wp_step. wp_step.
  eapply wp_of_run; [apply start_driver_run|]. cbv beta iota. wp_step. apply (HQ _ n); try done.
  - eexists (default "" token), _. split_and!; [|done..]. destruct token; [done|].
    match goal with E : s_truthy None = true |- _ => discriminate E end.
  - lia.
Qed.

(** A node that has been called back is refused. *)
Lemma callback_refused run_id node_key token payload n s :
  quiet Node s → named run_id node_key n = true → is_waiting n = false →
  tbl (committed s) !! WorkflowNodeRun.id n = Some n →
  ∃ e s', run_request (callback_node float_str jwt_decode DRIVER_AUTOSTART driver_alive
                         run_id node_key token payload) s = (inl e, s') ∧
    committed s' = committed s ∧ out s' = out s.
Proof.
  intros [Hq [Hwf _]] Hname Hw Hrow. rewrite <-Hq in Hrow |- *.
  assert (wp (callback_node float_str jwt_decode DRIVER_AUTOSTART driver_alive run_id node_key token payload)
    (λ r s', (∃ e, r = inl e) ∧ committed s' = work s ∧ out s' = out s) s) as Hwp.
  { eapply wp_callback; [exact Hwf| |].
    - intros e s' E1 E2. split_and!; [by eexists|by rewrite E1|done].
    - intros j n' s' _ Hn' Hcw. exfalso. apply head_select_Some in Hn' as [Hp [i Hi]].
      assert (n' = n) as ->; [|unfold callback_waiting in Hcw; by rewrite Hw, andb_false_r in Hcw].
      pose proof (wf_id Hwf i n' Hi) as Hid. cbn in Hid. subst i.
      destruct (decide (WorkflowNodeRun.id n' = WorkflowNodeRun.id n)) as [He|Hne]; [unfold node_table in Hi; congruence|exfalso].
      assert (∀ a b, named run_id node_key a = true → named run_id node_key b = true → conflict a b = true) as Hconf.
      { unfold named, in_run. intros a b [Ha1 Ha2]%andb_true_iff [Hb1 Hb2]%andb_true_iff.
        apply bool_decide_eq_true in Ha2, Hb2. apply andb_true_iff. split; [lia|].
        apply bool_decide_eq_true. congruence. }
      destruct (wf_unique Hwf _ _ _ _ Hi Hrow Hne) as [Hc|Hc]; by rewrite Hconf in Hc. }
  unfold wp in Hwp. unfold run_request. destruct (callback_node _ _ _ _ _ _ _ _ s) as [r0 s0].
  destruct Hwp as [[e He] [Hc Ho]]. cbn in He. subst r0. by eexists _, _.
Qed.

(** C21: a callback succeeds only with an unexpired engine token bound to this
    run and this node, while the node is a waiting callback node, and with a
    payload of at most 65536 bytes; it writes the payload and success into that
    one row and nothing else.  It is single use: as long as the row stays as the
    callback left it, every further callback for the node is refused and changes
    nothing. *)
Theorem callback_single_use run_id node_key token payload s j s' :
  quiet Node s →
  run_request (callback_node float_str jwt_decode DRIVER_AUTOSTART driver_alive run_id node_key token payload) s = (inr j, s') →
  ∃ n, good_token (now s) token run_id node_key ∧
    tbl (committed s) !! WorkflowNodeRun.id n = Some n ∧ callback_waiting run_id node_key n = true ∧
    dumps_size float_str payload ≤ _MAX_CALLBACK_PAYLOAD ∧
    committed s' = set_tbl (<[WorkflowNodeRun.id n := called_back (now s) payload n]> (tbl (committed s))) (committed s) ∧
    ∀ token2 payload2 s2, quiet Node s2 →
      tbl (committed s2) !! WorkflowNodeRun.id n = Some (called_back (now s) payload n) →
      ∃ e s3, run_request (callback_node float_str jwt_decode DRIVER_AUTOSTART driver_alive
                             run_id node_key token2 payload2) s2 = (inl e, s3) ∧
        committed s3 = committed s2 ∧ out s3 = out s2.
Proof.
  intros [Hq [Hwf _]] Hrun.
  assert (wp (callback_node float_str jwt_decode DRIVER_AUTOSTART driver_alive run_id node_key token payload)
    (λ r s', ∀ j, r = inr j → ∃ n, good_token (now s) token run_id node_key ∧
      head (select_rows (named run_id node_key) (node_table s)) = Some n ∧
      callback_waiting run_id node_key n = true ∧ dumps_size float_str payload ≤ _MAX_CALLBACK_PAYLOAD ∧
      committed s' = set_tbl (<[WorkflowNodeRun.id n := called_back (now s) payload n]> (node_table s)) (work s)) s)
    as Hwp.
  { eapply wp_callback; [exact Hwf|by intros|]. intros j1 n s1 H1 H2 H3 H4 H5 _ j2 _. by exists n. }
  unfold wp in Hwp. unfold run_request in Hrun. destruct (callback_node _ _ _ _ _ _ _ _ s) as [r0 s0].
  injection Hrun as -> <-. destruct (Hwp j eq_refl) as (n & H1 & H2 & H3 & H4 & H5). exists n.
  pose proof (head_select_Some _ _ _ H2) as [Hp [i Hi]].
  assert (node_table s !! WorkflowNodeRun.id n = Some n) as Hrow
    by (pose proof (wf_id Hwf i n Hi) as Hid; cbn in Hid; by subst i).
  split_and!; [done|by rewrite <-Hq|done|done|by rewrite <-Hq|].
  intros token2 payload2 s2 Hq2 Hrow2. by apply callback_refused with (n := called_back (now s) payload n).
Qed.
End callback.
End service.

(** ** Histories *)

Section history.
Variable float_str : Q → string.
Variable container_str : json → string.
Variables paramiko redis_up broker_up : bool.
Variable agent_connected : string → bool.
Variable jwt_encode : json → string.
Variable jwt_decode : Z → string → option json.
Variable _jti : St → string.
Variable touched : Node → option Z.
Variable float_of_str : string → option Q.
Variable fromisoformat : json → option Z.
Variable ref_str : json → string.
Variable sql_like : string → string → bool.
Variable DRIVER_AUTOSTART : bool.
Variable driver_alive : Z → bool.
#[local] Abbreviation one_step := (step float_str container_str paramiko redis_up
  agent_connected broker_up jwt_encode _jti touched float_of_str fromisoformat).

(** Everything that reaches the workflow tables: the requests of the service
    and the ticks of the drivers. *)
Inductive wf_query :=
  | QSuggest (u : CurrentUser) (goal context : option string)
  | QList (u : CurrentUser) (name : option string) (enabled : option Z) (page size : Z)
  | QCreate (u : CurrentUser) (d : WorkflowCreate.WorkflowCreate)
  | QGet (u : CurrentUser) (i : Z)
  | QUpdate (u : CurrentUser) (i : Z) (d : WorkflowUpdate.WorkflowUpdate)
  | QDelete (u : CurrentUser) (i : Z)
  | QVersion (u : CurrentUser) (i : Z) (d : json)
  | QVersions (u : CurrentUser) (i : Z)
  | QRollback (u : CurrentUser) (i v : Z)
  | QRun (u : CurrentUser) (i : Z) (key : option string) (d : option WorkflowRunIn.WorkflowRunIn)
  | QRuns (u : CurrentUser) (i : option Z) (status : option string) (page size : Z)
  | QGetRun (u : CurrentUser) (i : Z)
  | QCancel (u : CurrentUser) (i : Z)
  | QRetry (u : CurrentUser) (i : Z)
  | QToken (u : CurrentUser) (i : Z)
  | QCallback (i : Z) (key : string) (token : option string) (payload : json)
  | QTick (i : Z).
Definition wf_handle (q : wf_query) : Op json :=
  match q with
  | QSuggest u g c => suggest_playbook ref_str u g c
  | QList u n e p z => list_workflows sql_like u n e p z
  | QCreate u d => create_workflow ref_str u d
  | QGet u i => get_workflow u i
  | QUpdate u i d => update_workflow u i d
  | QDelete u i => delete_workflow u i;; ret JNull
  | QVersion u i d => create_version ref_str u i d
  | QVersions u i => list_versions u i
  | QRollback u i v => rollback_workflow u i v
  | QRun u i k d => run_workflow DRIVER_AUTOSTART driver_alive u i k d
  | QRuns u i st p z => list_runs u i st p z
  | QGetRun u i => get_run u i
  | QCancel u i => cancel_run agent_connected u i
  | QRetry u i => retry_run DRIVER_AUTOSTART driver_alive u i
  | QToken u i => run_ws_token jwt_encode _jti u i
  | QCallback i k t p => callback_node float_str jwt_decode DRIVER_AUTOSTART driver_alive i k t p
  | QTick i => b ← one_step i; ret (JBool b)
  end.

Lemma step_held {R} `{Table R, !TableNe R ExecTask.ExecTask, !TableNe R ExecTaskHost.ExecTaskHost,
    !TableNe R ExecLog.ExecLog, !TableNe R ApprovalRequest.ApprovalRequest, !TableNe R ApprovalRecord.ApprovalRecord,
    !TableNe R AiAction.AiAction, !TableNe R TerminalSession.TerminalSession, !TableNe R Node, !TableNe R Run,
    !TableNe R Release.Release, !TableNe R AuditLog.AuditLog} (m : gmap Z R) P run_id :
  preserves (held m P) (one_step run_id).
Proof.
  unfold step. apply preserves_bind; [preserves_auto|]. intros [r|]; [|apply preserves_ret].
  destruct (str_in _ _); [apply preserves_ret|].
  apply preserves_bind; [unfold start_run; preserves_auto|]. intros started.
  apply preserves_bind; [apply reads_load|]. intros [d ds].
  apply preserves_bind; [apply step_nodes_held; apply _|].
  intros p. apply preserves_bind.
  { unfold finalise, _on_run_failed, fail_release_for_run. preserves_auto. }
  intros p'. unfold _broadcast. preserves_auto.
Qed.

(** The run life cycle as the service's table states it. *)
Definition run_moves (a b : string) : Prop :=
  ∃ action from, WORKFLOW_TRANSITIONS action = Some (from, b) ∧ a ∈ from.
Record run_life (a b : Run) : Prop := {
  rl_status : rtc run_moves (WorkflowRun.status a) (WorkflowRun.status b);
  rl_same : ∃ st t1 t2 e, b = a <| WorkflowRun.status := st |> <| WorkflowRun.started_at := t1 |>
              <| WorkflowRun.finished_at := t2 |> <| WorkflowRun.error := e |>;
  rl_done : run_done a = true → b = a;
}.
(** The node life cycle: the engine's, and the skips of a cancelled run. *)
Inductive node_moves : string → string → Prop :=
  | moves_engine a b : node_next a b → node_moves a b
  | moves_cancel a : a ∈ ["pending"; "running"; "waiting"] → node_moves a "skipped".
Record node_life (a b : Node) : Prop := {
  nl_status : rtc node_moves (WorkflowNodeRun.status a) (WorkflowNodeRun.status b);
  nl_id : WorkflowNodeRun.id b = WorkflowNodeRun.id a;
  nl_run : WorkflowNodeRun.run_id b = WorkflowNodeRun.run_id a;
  nl_key : WorkflowNodeRun.node_key b = WorkflowNodeRun.node_key a;
  nl_type : WorkflowNodeRun.node_type b = WorkflowNodeRun.node_type a;
  nl_done : node_done a = true → b = a;
}.
#[export] Instance run_life_preorder : PreOrder run_life.
Proof.
  split.
  - intros a. split; [done| |done].
    exists (WorkflowRun.status a), (WorkflowRun.started_at a), (WorkflowRun.finished_at a), (WorkflowRun.error a).
    by destruct a.
  - intros a b c [S1 (s1 & t1 & u1 & e1 & E1) D1] [S2 (s2 & t2 & u2 & e2 & E2) D2]. split; [by etrans| |].
    + exists s2, t2, u2, e2. rewrite E2, E1. by destruct a.
    + intros Hd. rewrite (D1 Hd) in *. auto.
Qed.
#[export] Instance node_life_preorder : PreOrder node_life.
Proof.
  split; [by split|]. intros a b c [S1 I1 R1 K1 T1 D1] [S2 I2 R2 K2 T2 D2].
  split; [by etrans|congruence..|]. intros Hd. rewrite (D1 Hd) in *. auto.
Qed.
Lemma run_evolves_life run a b : run_evolves run a b → run_life a b.
Proof.
  intros [Hs Hr _ Hd]. split; [|done|done]. eapply (rtc_congruence (R := run_next) id); [|exact Hr].
  intros x y []; [exists "start"|exists "succeed"|exists "fail"]; (eexists; split; [reflexivity|str_mem]).
Qed.
Lemma node_evolves_life run a b : node_evolves run a b → node_life a b.
Proof.
  intros [I R K T S _ D]. split; try done. eapply (rtc_congruence (R := node_next) id); [|exact S].
  intros x y. apply moves_engine.
Qed.

(** Rows stay and evolve along [rel]. *)
Definition persists {R} (rel : R → R → Prop) (m m' : gmap Z R) : Prop :=
  ∀ i a, m !! i = Some a → ∃ b, m' !! i = Some b ∧ rel a b.
#[export] Instance persists_preorder {R} (rel : R → R → Prop) `{!PreOrder rel} : PreOrder (persists rel).
Proof.
  split; [intros m i a Hi; by exists a|]. intros m1 m2 m3 H12 H23 i a Hi.
  destruct (H12 i a Hi) as (b & Hb & ?). destruct (H23 i b Hb) as (c & Hc & ?). exists c. split; [done|by etrans].
Qed.
Lemma persists_insert {R} (rel : R → R → Prop) `{!PreOrder rel} m0 m i b :
  persists rel m0 m → (∀ a, m !! i = Some a → rel a b) → persists rel m0 (<[i := b]> m).
Proof.
  intros Hp Hb j a Hj. destruct (Hp j a Hj) as (c & Hc & Hac). destruct (decide (i = j)) as [<-|Hne].
  - exists b. rewrite lookup_insert_eq. split; [done|]. etrans; [exact Hac|by apply Hb].
  - exists c. by rewrite lookup_insert_ne.
Qed.

Definition keyed_rows {R} `{Table R} (m : gmap Z R) : Prop := ∃ hi, wf_rows m hi.
Lemma keyed_insert {R} `{Table R} (m : gmap Z R) i r :
  keyed_rows m → row_id r = i → accepts m i r = true → keyed_rows (<[i := r]> m).
Proof.
  intros [hi Hwf] Hid (_ & _ & Hconf)%accepts_spec. exists (Z.max hi i). split.
  - intros j x [[<- <-]|[_ Hj]]%lookup_insert_Some; [done|by eapply wf_id].
  - intros j x [[<- <-]|[_ Hj]]%lookup_insert_Some; [lia|]. pose proof (wf_seq Hwf j x Hj). lia.
  - intros j k a b [[<- <-]|[_ Hj]]%lookup_insert_Some [[<- <-]|[_ Hk]]%lookup_insert_Some Hne; [done|eauto..|].
    by eapply wf_unique.
Qed.
Lemma keyed_update {R} `{Table R} (m : gmap Z R) i a b :
  keyed_rows m → m !! i = Some a → row_id b = row_id a →
  (∀ x, conflict b x = conflict a x) → (∀ x, conflict x b = conflict x a) → keyed_rows (<[i := b]> m).
Proof. intros [hi Hwf] ????. exists hi. by eapply wf_rows_update. Qed.

Section invariants.
Context (n0 : gmap Z Node) (r0 : gmap Z Run).
Definition nodes_ok (m : gmap Z Node) : Prop := persists node_life n0 m ∧ keyed_rows m.
Definition runs_ok (m : gmap Z Run) : Prop :=
  persists run_life r0 m ∧ keyed_rows m ∧ ∀ i r, m !! i = Some r → WorkflowRun.status r ∈ RUN_STATUSES.
Definition versions_ok (m : gmap Z WorkflowVersion.WorkflowVersion) : Prop :=
  ∀ i v, m !! i = Some v → well_formed_definition (WorkflowVersion.definition v).

Lemma nodes_ok_upd m i a b :
  nodes_ok m → m !! i = Some a → node_life a b → nodes_ok (<[i := b]> m).
Proof.
  intros [Hp Hk] Hi Hab. split.
  - apply persists_insert; [apply _|done|]. intros x Hx. by simplify_eq.
  - eapply keyed_update; [done..| | |]; [apply (nl_id _ _ Hab)|..]; intros x; cbn;
      by rewrite (nl_run _ _ Hab), (nl_key _ _ Hab).
Qed.
Lemma nodes_ok_add (n : Node) : preserves (both nodes_ok) (db_add n).
Proof.
  apply preserves_db_add; [done|]. intros s i [[Hp Hk] Hc] Hid Hacc. split; [|done]. rewrite tbl_put_row.
  pose proof (accepts_none _ _ _ Hacc) as Hnone. split.
  - apply persists_insert; [apply _|done|]. intros a Ha. discriminate (eq_trans (eq_sym Hnone) Ha).
  - by apply keyed_insert.
Qed.

Lemma runs_ok_upd m i a b :
  runs_ok m → m !! i = Some a → run_life a b → WorkflowRun.status b ∈ RUN_STATUSES → runs_ok (<[i := b]> m).
Proof.
  intros (Hp & Hk & Ht) Hi Hab Hb. split_and!.
  - apply persists_insert; [apply _|done|]. intros x Hx. by simplify_eq.
  - eapply keyed_update; [done..| | |]; [|done|done]. destruct (rl_same _ _ Hab) as (st & t1 & t2 & e & ->). done.
  - intros j x [[<- <-]|[_ Hx]]%lookup_insert_Some; [done|by eapply Ht].
Qed.
Lemma runs_ok_add (r : Run) : WorkflowRun.status r = "pending" → preserves (both runs_ok) (db_add r).
Proof.
  intros Hst. apply preserves_db_add; [done|]. intros s i [(Hp & Hk & Ht) Hc] Hid Hacc. split; [|done].
  rewrite tbl_put_row. pose proof (accepts_none _ _ _ Hacc) as Hnone. split_and!.
  - apply persists_insert; [apply _|done|]. intros a Ha. discriminate (eq_trans (eq_sym Hnone) Ha).
  - by apply keyed_insert.
  - intros j x [[<- <-]|[_ Hx]]%lookup_insert_Some; [|by eapply Ht]. cbn. rewrite Hst. str_mem.
Qed.

Lemma versions_ok_add w v d e :
  well_formed_definition d → preserves (both versions_ok) (db_add (new_version w v d e)).
Proof.
  intros Hd. apply preserves_db_add; [done|]. intros s i [Hw Hc] _ _. split; [|done]. rewrite tbl_put_row.
  intros j x [[<- <-]|[_ Hx]]%lookup_insert_Some; [done|by eapply Hw].
Qed.
Lemma versions_ok_delete i : preserves (both versions_ok) (db_delete (R:=WorkflowVersion.WorkflowVersion) i).
Proof.
  apply preserves_modify. intros s [Hw Hc]. split; [|done]. cbn. rewrite tbl_set_tbl.
  intros j x [_ Hx]%lookup_delete_Some. by eapply Hw.
Qed.
Lemma wp_validated d (Q : exn + json → St → Prop) s :
  (well_formed_definition d → Q (inr d) s) → (∀ e, Q (inl e) s) → wp (validated ref_str d) Q s.
Proof.
  intros HQ He. unfold wp, validated. destruct (decides_validate ref_str d s) as [[Hd ->]|[_ [e ->]]]; [by apply HQ|apply He].
Qed.

Lemma callback_life run_id node_key t out n :
  callback_waiting run_id node_key n = true →
  node_life n (n <| WorkflowNodeRun.output := out |> <| WorkflowNodeRun.status := "succeeded" |>
                 <| WorkflowNodeRun.finished_at := Some t |> <| WorkflowNodeRun.error := None |>).
Proof.
  intros [_ Hw%bool_decide_eq_true]%andb_true_iff. split; [|done..|]; cbn.
  - apply rtc_once, moves_engine. rewrite Hw. apply next_done. str_mem.
  - unfold node_done. rewrite Hw. intros E. by vm_compute in E.
Qed.
Lemma nodes_ok_callback run_id node_key t out i :
  preserves (both nodes_ok) (db_cas i (callback_waiting run_id node_key) (λ n,
    n <| WorkflowNodeRun.output := out |> <| WorkflowNodeRun.status := "succeeded" |>
      <| WorkflowNodeRun.finished_at := Some t |> <| WorkflowNodeRun.error := None |>)).
Proof.
  apply preserves_db_cas. intros s n [Hw Hc] Hi Hp. split; [|done]. rewrite tbl_put_row.
  eapply nodes_ok_upd; [done..|]. by eapply callback_life.
Qed.
Lemma validated_preserves (I : St → Prop) d : preserves I (validated ref_str d).
Proof.
  intros s Hs. unfold validated. by destruct (decides_validate ref_str d s) as [[_ ->]|[_ [e ->]]].
Qed.

(** The service's requests, apart from cancellation, table by table. *)
Lemma service_nodes_ok q :
  (∀ i, q ≠ QTick i) → (∀ u i, q ≠ QCancel u i) → preserves (both nodes_ok) (wf_handle q).
Proof.
  intros Ht Hc. pose proof nodes_ok_add. pose proof nodes_ok_callback. pose proof (validated_preserves (both nodes_ok)).
  assert (∀ u wf d tt ref ctx, preserves (both nodes_ok) (_start_run DRIVER_AUTOSTART driver_alive u wf d tt ref ctx))
    by (intros; apply start_run_preserves; intros; eauto with preserves).
  destruct q; cbn [wf_handle]; try (by destruct (Ht i)); try (by destruct (Hc u i)).
  all: unfold suggest_playbook, list_workflows, create_workflow, get_workflow, update_workflow, delete_workflow,
    create_version, list_versions, rollback_workflow, list_runs, get_run, retry_run, run_ws_token, callback_node,
    _require_feature, _get_workflow, _version_row, _next_version, current_definition, the_run, create_token,
    callback_claims, start_driver, decode_token.
  all: try (apply run_workflow_preserves; intros; eauto with preserves; fail).
  all: preserves_auto.
Qed.
Lemma service_runs_ok q :
  (∀ i, q ≠ QTick i) → (∀ u i, q ≠ QCancel u i) → preserves (both runs_ok) (wf_handle q).
Proof.
  intros Ht Hc. pose proof (validated_preserves (both runs_ok)).
  assert (∀ u wf tt ref ctx, preserves (both runs_ok) (db_add (new_run u wf tt ref ctx)))
    by (intros; by apply runs_ok_add).
  assert (∀ u wf d tt ref ctx, preserves (both runs_ok) (_start_run DRIVER_AUTOSTART driver_alive u wf d tt ref ctx))
    by (intros; apply start_run_preserves; intros; eauto with preserves).
  destruct q; cbn [wf_handle]; try (by destruct (Ht i)); try (by destruct (Hc u i)).
  all: unfold suggest_playbook, list_workflows, create_workflow, get_workflow, update_workflow, delete_workflow,
    create_version, list_versions, rollback_workflow, list_runs, get_run, retry_run, run_ws_token, callback_node,
    _require_feature, _get_workflow, _version_row, _next_version, current_definition, the_run, create_token,
    callback_claims, start_driver, decode_token.
  all: try (apply run_workflow_preserves; intros; eauto with preserves; fail).
  all: preserves_auto.
Qed.
Lemma service_versions_ok q : (∀ i, q ≠ QTick i) → preserves (both versions_ok) (wf_handle q).
Proof.
  intros Ht. pose proof versions_ok_delete.
  assert (∀ d A (k : json → Op A), (well_formed_definition d → preserves (both versions_ok) (k d)) →
    preserves (both versions_ok) (d ← validated ref_str d; k d)) as Hval.
  { intros d A k Hk. apply preserves_wp. intros s Hs. apply wp_bind, wp_validated; [|done]. intros Hd. by apply Hk. }
  assert (∀ u wf d tt ref ctx, preserves (both versions_ok) (_start_run DRIVER_AUTOSTART driver_alive u wf d tt ref ctx))
    by (intros; apply start_run_preserves; intros; eauto with preserves).
  destruct q; cbn [wf_handle]; try (by destruct (Ht i)).
  all: unfold cancel_run, _apply_run_transition, cancel_node, cancel_exec_task_record, cancel_host,
    _close_orphan_approval, ApprovalRepository.optimistic_update, ExecTaskRepository.optimistic_update,
    ExecTaskHostRepository.by_task, ExecTaskHostRepository.update_status, _send_agent_stop,
    Dispatch.dispatch_to_agent_sync, suggest_playbook, list_workflows, create_workflow, get_workflow, update_workflow, delete_workflow,
    create_version, list_versions, rollback_workflow, list_runs, get_run, retry_run, run_ws_token, callback_node,
    _require_feature, _get_workflow, _version_row, _next_version, current_definition, the_run, create_token,
    callback_claims, start_driver, decode_token.
  all: try (apply run_workflow_preserves; intros; eauto with preserves; fail).
  all: repeat first [apply Hval; intros; pose proof versions_ok_add | apply preserves_bind; [solve [preserves_auto]|intros]
    | progress cbv zeta].
  all: preserves_auto.
Qed.

(** Cancelling: the nodes are closed once each, the run once. *)
Lemma skipped_life run_id t n : in_run run_id n && open_node n = true → node_life n (skipped_node t n).
Proof.
  intros [_ Ho%str_in_true]%andb_true_iff. split; [|done..|]; cbn.
  - by apply rtc_once, moves_cancel.
  - assert (∀ st, st ∈ ["pending"; "running"; "waiting"] → str_in st _NODE_TERMINAL = false) as Hno.
    { intros st Hst. repeat (apply elem_of_cons in Hst as [->|Hst]; [reflexivity|]). by apply elem_of_nil in Hst. }
    unfold node_done. by rewrite Hno.
Qed.
#[local] Ltac unfold_cancel := unfold cancel_exec_task_record, cancel_host, _close_orphan_approval,
  ApprovalRepository.optimistic_update, ExecTaskRepository.optimistic_update, ExecTaskHostRepository.by_task,
  ExecTaskHostRepository.update_status, _send_agent_stop, Dispatch.dispatch_to_agent_sync.
Lemma cancel_nodes_ok run_id t (Q : exn + () → St → Prop) s :
  both nodes_ok s →
  (∀ r s', both nodes_ok s' → Q r s') →
  wp (for_each (select_rows (λ n, in_run run_id n && open_node n) (node_table s)) (cancel_node agent_connected t)) Q s.
Proof.
  intros [Hn Hc] HQ. pose proof Hn as [_ [hi Hwf]].
  apply wp_for_each_at with (I := λ dn s', both nodes_ok s' ∧ node_table s' = upd_rows (λ n _, skipped_node t n) dn (node_table s)).
  - split; [by split|done].
  - intros dn n rest s1 Hl [Hb Hs].
    assert (n ∈ select_rows (λ n, in_run run_id n && open_node n) (node_table s)) as Hin
      by (rewrite Hl; apply elem_of_app; right; apply elem_of_cons; by left).
    apply elem_of_select_rows in Hin as [Hp [i Hi]]. pose proof (wf_id Hwf i n Hi) as Hid. cbn in Hid. subst i.
    assert (node_table s1 !! WorkflowNodeRun.id n = Some n) as Hrow.
    { rewrite Hs, lookup_upd_rows_notin; [done|]. pose proof (NoDup_select_rows (λ n, in_run run_id n && open_node n) (node_table s) hi Hwf) as Hnd.
      rewrite Hl, fmap_app, fmap_cons in Hnd. apply NoDup_app in Hnd as (_ & Hd & _). intros Hin.
      apply (Hd _ Hin), elem_of_cons. by left. }
    unfold cancel_node. wp_step.
    apply wp_preserves with (I := held (node_table s1) nodes_ok);
      [unfold_cancel; preserves_auto|by destruct Hb as [Hw1 Hc1]|].
    intros [e|b] s2 (Hn2 & Hc2 & Hok2); [apply HQ; by split; [unfold node_table in Hn2; rewrite Hn2|]|].
    eapply wp_upd_hit; [unfold node_table in *; rewrite Hn2; exact Hrow|]. split.
    + split; [|done]. rewrite tbl_put_row, Hn2. eapply nodes_ok_upd; [exact Hok2|exact Hrow|].
      by eapply skipped_life.
    + unfold node_table in *. rewrite tbl_put_row, Hn2, Hs. unfold upd_rows. by rewrite foldl_app.
  - intros s1 [Hb _]. by apply HQ.
Qed.

Lemma wp_bind_preserves {A B} (I : St → Prop) (m : Op A) (k : A → Op B) s :
  preserves I m → I s → (∀ a s', I s' → wp (k a) (λ _, I) s') → wp (m >>= k) (λ _, I) s.
Proof. intros Hm Hs Hk. apply wp_bind. eapply wp_preserves; [exact Hm|done|]. intros [e|a] s' H'; [done|by apply Hk]. Qed.
Lemma cancel_run_nodes_ok user run_id : preserves (both nodes_ok) (cancel_run agent_connected user run_id).
Proof.
  apply preserves_wp. intros s Hs. unfold cancel_run, _require_feature, the_run, _apply_run_transition.
  do 6 (apply wp_bind_preserves; [preserves_auto|done|clear dependent s; intros ? s Hs]).
  apply wp_bind, wp_db_select. cbv beta iota.
  apply wp_bind, cancel_nodes_ok; [done|]. intros [e|[]] s6 H6; [done|].
  apply wp_preserves with (I := both nodes_ok); [preserves_auto|done|done].
Qed.

Lemma cancel_run_runs_ok user run_id : preserves (both runs_ok) (cancel_run agent_connected user run_id).
Proof.
  apply preserves_wp. intros s Hs. unfold cancel_run, _require_feature, the_run, _apply_run_transition.
  do 2 (apply wp_bind_preserves; [preserves_auto|done|clear dependent s; intros _ s Hs]).
  do 2 wp_step. apply wp_db_get. cbv beta iota. destruct (tbl (work s) !! run_id) as [r|] eqn:Hrow; [|by wp_step].
  cbn [some_or]. apply wp_ret. cbv beta iota. wp_step. cbn [WORKFLOW_TRANSITIONS assoc_get]. wp_step. apply wp_ret.
  cbv beta iota. wp_step. apply wp_guard_or; intros Hst; [|done]. cbv beta iota.
  pose proof Hs as [Hw Hc]. pose proof Hw as (_ & [hi Hwf] & _). pose proof (wf_id Hwf run_id r Hrow) as Hid. cbn in Hid.
  rewrite Hid. wp_step. eapply wp_upd_hit; [exact Hrow|]. cbv beta iota. do 3 wp_step. wp_step.
  eapply wp_upd_hit; [rewrite tbl_put_row; apply lookup_insert_eq|]. cbv beta iota. rewrite put_row_twice, now_put_row.
  apply wp_preserves with (I := both runs_ok); [unfold cancel_node; unfold_cancel; preserves_auto| |done].
  split; [|done]. rewrite tbl_put_row. eapply runs_ok_upd; [exact Hw|exact Hrow| |cbn; str_mem].
  apply str_in_true in Hst. split.
  - cbn. apply rtc_once. exists "cancel". eexists. split; [reflexivity|done].
  - exists "cancelled", (WorkflowRun.started_at r), (Some (now s)), (WorkflowRun.error r). by destruct r.
  - intros Hd. exfalso. unfold run_done in Hd. repeat (apply elem_of_cons in Hst as [E|Hst]; [by rewrite E in Hd|]).
    by apply elem_of_nil in Hst.
Qed.

(** A tick of the driver. *)
Lemma nodes_ok_evolve run m m' : nodes_ok m → nodes_evolve run m m' → nodes_ok m'.
Proof.
  intros [Hp [hi Hwf]] Hev.
  assert (∀ i b, m' !! i = Some b → ∃ a, m !! i = Some a ∧ node_evolves run a b) as Hback.
  { intros i b Hb. specialize (Hev i). rewrite Hb in Hev. inversion Hev as [a b' Hab Ha|]; subst. by exists a. }
  split.
  - intros i a Ha. destruct (Hp i a Ha) as (b & Hb & Hab). specialize (Hev i). rewrite Hb in Hev.
    inversion Hev as [b' c Hbc|]; subst. exists c. split; [done|]. etrans; [exact Hab|by eapply node_evolves_life].
  - exists hi. split.
    + intros i b Hb. destruct (Hback i b Hb) as (a & Ha & Hab). cbn. rewrite (nev_id _ _ _ Hab). by apply (wf_id Hwf).
    + intros i b Hb. destruct (Hback i b Hb) as (a & Ha & _). by eapply (wf_seq Hwf).
    + intros i j b b' Hb Hb' Hne. destruct (Hback i b Hb) as (a & Ha & Hab).
      destruct (Hback j b' Hb') as (a' & Ha' & Hab'). pose proof (wf_unique Hwf i j a a' Ha Ha' Hne) as Hu. cbn in *.
      by rewrite (nev_run _ _ _ Hab), (nev_key _ _ _ Hab), (nev_run _ _ _ Hab'), (nev_key _ _ _ Hab').
Qed.
Lemma run_next_typed a b : rtc run_next a b → a ∈ RUN_STATUSES → b ∈ RUN_STATUSES.
Proof. induction 1 as [|a b c Hab _ IH]; [done|]. intros _. apply IH. destruct Hab; str_mem. Qed.
Lemma runs_ok_evolve run m m' : runs_ok m → runs_evolve run m m' → runs_ok m'.
Proof.
  intros (Hp & [hi Hwf] & Hty) Hev.
  assert (∀ i b, m' !! i = Some b → ∃ a, m !! i = Some a ∧ run_evolves run a b) as Hback.
  { intros i b Hb. specialize (Hev i). rewrite Hb in Hev. inversion Hev as [a b' Hab Ha|]; subst. by exists a. }
  assert (∀ a b, run_evolves run a b → WorkflowRun.id b = WorkflowRun.id a) as Hids
    by (intros a b [(? & ? & ? & ? & ->) _ _ _]; done).
  split_and!.
  - intros i a Ha. destruct (Hp i a Ha) as (b & Hb & Hab). specialize (Hev i). rewrite Hb in Hev.
    inversion Hev as [b' c Hbc|]; subst. exists c. split; [done|]. etrans; [exact Hab|by eapply run_evolves_life].
  - exists hi. split.
    + intros i b Hb. destruct (Hback i b Hb) as (a & Ha & Hab). cbn. rewrite (Hids _ _ Hab). by apply (wf_id Hwf).
    + intros i b Hb. destruct (Hback i b Hb) as (a & Ha & _). by eapply (wf_seq Hwf).
    + intros i j b b' _ _ _. by left.
  - intros i b Hb. destruct (Hback i b Hb) as (a & Ha & Hab). eapply run_next_typed; [apply (rev_status _ _ _ Hab)|].
    by eapply Hty.
Qed.

(** ** The whole history *)
Definition tables_ok (s : St) : Prop :=
  work s = committed s ∧ nodes_ok (tbl (committed s)) ∧ runs_ok (tbl (committed s)) ∧ versions_ok (tbl (committed s)).
Lemma tick_ok run_id s : tables_ok s → tables_ok (run_request (one_step run_id) s).2.
Proof.
  intros (Hq & Hn & Hr & Hv). unfold run_request.
  destruct (run_closed run_id (tbl (work s))) eqn:Hcl.
  { rewrite (step_closed _ _ _ _ _ _ _ _ _ _ _ _ _ Hcl). by split_and!. }
  unfold run_closed in Hcl. destruct (tbl (R:=Run) (work s) !! run_id) as [r|] eqn:Hrow; [|done].
  pose proof Hn as [_ [hi Hwfn]]. pose proof Hr as (_ & [hr Hwfr] & Hty).
  rewrite Hq in Hrow. pose proof (Hty _ _ Hrow) as Hst.
  assert (WorkflowRun.status r ∈ ["pending"; "running"]) as Hopen.
  { eapply run_open; [exact Hrow| |exact Hst]. unfold run_closed. by rewrite Hrow. }
  pose proof (wp_step_open float_str container_str paramiko redis_up broker_up agent_connected jwt_encode _jti touched
    float_of_str fromisoformat run_id r hi hr s Hq) as Hwp. rewrite Hq in Hwp.
  specialize (Hwp Hwfn Hwfr Hrow Hopen). unfold wp in Hwp.
  pose proof (step_held (tbl (work s)) versions_ok run_id s) as Hh.
  destruct (one_step run_id s) as [o s']. cbn in *. destruct Hwp as ([_ Hne] & Hre & _).
  destruct Hh as (_ & Hv' & _); [split_and!; [done|done|by rewrite Hq]|]. split_and!; [done|by eapply nodes_ok_evolve|by eapply runs_ok_evolve|done].
Qed.
Lemma service_ok q : (∀ i, q ≠ QTick i) →
  preserves (both nodes_ok) (wf_handle q) ∧ preserves (both runs_ok) (wf_handle q) ∧
  preserves (both versions_ok) (wf_handle q).
Proof.
  intros Ht. split_and!; [| |by apply service_versions_ok].
  - destruct q; try (apply service_nodes_ok; [exact Ht|done]). apply cancel_run_nodes_ok.
  - destruct q; try (apply service_runs_ok; [exact Ht|done]). apply cancel_run_runs_ok.
Qed.
Lemma handled_ok q s : tables_ok s → tables_ok (run_request (wf_handle q) s).2.
Proof.
  intros Hs. assert ((∃ i, q = QTick i) ∨ ∀ i, q ≠ QTick i) as [[i ->]|Ht]
    by (destruct q; (left; by eexists) || (right; done)).
  { pose proof (tick_ok i s Hs) as Hok. cbn [wf_handle]. unfold run_request, bind, ret in *.
    destruct (one_step i s) as [[e|b] s1]; exact Hok. }
  destruct (service_ok q Ht) as (Pn & Pr & Pv). destruct Hs as (Hq & Hn & Hr & Hv).
  assert (both nodes_ok s ∧ both runs_ok s ∧ both versions_ok s) as (Bn & Br & Bv) by (unfold both; rewrite Hq; auto).
  specialize (Pn s Bn). specialize (Pr s Br). specialize (Pv s Bv). unfold run_request.
  destruct (wf_handle q s) as [o s']. cbn in *. split_and!; [done|apply Pn|apply Pr|apply Pv].
Qed.
End invariants.

End history.

(** Other requests and the passing of time: anything may change but the three tables. *)
Definition elsewhere (s s' : St) : Prop :=
  work s' = committed s' ∧ tbl (R:=Node) (committed s') = tbl (committed s) ∧
  tbl (R:=Run) (committed s') = tbl (committed s) ∧
  tbl (R:=WorkflowVersion.WorkflowVersion) (committed s') = tbl (committed s).

Section histories.
Variable float_str : Q → string.
Variable container_str : json → string.
Variable jwt_encode : json → string.
Variable jwt_decode : Z → string → option json.
Variable _jti : St → string.
Variable touched : Node → option Z.
Variable float_of_str : string → option Q.
Variable fromisoformat : json → option Z.
Variable ref_str : json → string.
Variable sql_like : string → string → bool.

(** One event: the broker, Redis, the agents and the drivers may be up or down
    differently each time. *)
Inductive wf_event : St → St → Prop :=
  | event_request q paramiko redis_up broker_up agent_connected autostart driver_alive s :
      wf_event s (run_request (wf_handle float_str container_str paramiko redis_up broker_up agent_connected
        jwt_encode jwt_decode _jti touched float_of_str fromisoformat ref_str sql_like autostart driver_alive q) s).2
  | event_elsewhere s s' : elsewhere s s' → wf_event s s'.
Definition wf_history : St → St → Prop := rtc wf_event.

(** C14: over any history of requests to the workflow service and ticks of the
    drivers, whatever happens to the other tables in between and whichever
    requests fail, no run and no node is ever lost; a run moves only along
    WORKFLOW_TRANSITIONS and a node only along the node life cycle (or is skipped
    by a cancellation); a run or node that has ended is never changed again; run
    statuses stay among RUN_STATUSES; and every stored definition passes
    _validate_definition. *)
Theorem workflow_history_refines s s' :
  quiet Node s → wf_table Run s →
  (∀ i r, tbl (committed s) !! i = Some r → WorkflowRun.status r ∈ RUN_STATUSES) →
  versions_ok (tbl (committed s)) →
  wf_history s s' →
  persists node_life (tbl (committed s)) (tbl (committed s')) ∧
  persists run_life (tbl (committed s)) (tbl (committed s')) ∧
  (∀ i r, tbl (committed s') !! i = Some r → WorkflowRun.status r ∈ RUN_STATUSES) ∧
  versions_ok (tbl (committed s')).
Proof.
  intros [Hq Hn] Hr Hty Hv Hh.
  assert (tables_ok (tbl (committed s)) (tbl (committed s)) s) as H0.
  { split_and!; [done|split; [reflexivity|]|split; [reflexivity|split; [|done]]|done].
    - eexists. rewrite <-Hq. apply Hn.
    - eexists. rewrite <-Hq. apply Hr. }
  enough (tables_ok (tbl (committed s)) (tbl (committed s)) s') as (_ & [Hp _] & (Hp' & _ & Ht) & Hv') by by split_and!.
  revert H0. generalize (tbl (R:=Node) (committed s)), (tbl (R:=Run) (committed s)). intros n0 r0.
  clear -Hh. induction Hh as [s|s s1 s' [q ? ? ? ? ? ? s0|s0 s1' He] _ IH]; [done|..]; intros Hs; apply IH.
  - by apply handled_ok.
  - destruct Hs as (_ & H1 & H2 & H3), He as (Hq & E1 & E2 & E3). unfold tables_ok. by rewrite E1, E2, E3.
Qed.
End histories.

(** ** Witnesses

    Playbook 5 is at version 2, which renamed its only node; run 1 is a failed
    run of version 1, run 2 waits for a callback and for exec task 9. *)

Definition book_definition (key : string) : json := ex_definition [sleep_node key []].
Definition book_version (i : Z) (key : string) : WorkflowVersion.WorkflowVersion :=
  WorkflowVersion.mk i 5 i (book_definition key) (Some 7) 0.
Definition book_run (i version : Z) (status : string) : Run :=
  WorkflowRun.mk i 5 version status "manual" JNull (JObj []) (Some 0) None None (Some 7) 0.
Definition book_node (i run_id : Z) (key ty status : string) (task : option Z) : Node :=
  WorkflowNodeRun.mk i run_id key ty status task None 0 JNull None None None.
Definition book_db : Db := flags_on 1 ["feature.workflow"] empty_db
  <| workflows := {[ 5 := Workflow.mk 5 "restart" "workflow" "" 2 1 (Some 7) 0 ]} |>
  <| workflow_versions := {[ 1 := book_version 1 "a"; 2 := book_version 2 "b" ]} |>
  <| workflow_runs := {[ 1 := book_run 1 1 "failed"; 2 := book_run 2 2 "running" ]} |>
  <| workflow_node_runs := {[ 1 := book_node 1 1 "a" "sleep" "failed" None;
       2 := book_node 2 2 "cb" "callback" "waiting" None; 3 := book_node 3 2 "job" "exec_task" "running" (Some 9);
       4 := book_node 4 2 "end" "sleep" "pending" None ]} |>
  <| exec_tasks := {[ 9 := ran_task "uptime" "pending" ]} |>.
Definition book_st : St := on_db (λ _, book_db) init_st
  <| seqs := {["workflow" := 5; "workflow_version" := 2; "workflow_run" := 2; "workflow_node_run" := 4;
               "exec_task" := 9]} |>.
Lemma book_quiet R `{Table R} : wf_tableb R book_st = true → quiet R book_st.
Proof. intros Hb. split; [done|by apply wf_tableb_spec]. Qed.

Lemma book_valid key : key = "a" ∨ key = "b" → well_formed_definition (book_definition key).
Proof.
  intros Hk. destruct (decides_validate (λ _, "") (book_definition key) book_st) as [[H _]|[_ [e E]]]; [exact H|].
  exfalso. destruct Hk as [-> | ->]; by vm_compute in E.
Qed.

(** The two halves of an evaluated request. *)
#[local] Abbreviation twice_run k := (run_workflow false (λ _, false) admin 5 (Some k) None).
Lemma run_workflow_idempotent_witness :
  let s1 := (run_request (twice_run "k1") book_st).2 in
  let s2 := (run_request (twice_run "k1") s1).2 in
  (tbl (R:=Run) (committed s1) !! 3) ≠ None ∧ committed s2 = committed s1 ∧ out s2 = out s1.
Proof.
  cbv zeta. split; [by vm_compute|].
  eapply (run_workflow_idempotent false (λ _, false) admin admin 5 "k1" None None book_st
    (run_request (twice_run "k1") book_st).2
    (run_request (twice_run "k1") (run_request (twice_run "k1") book_st).2).2
    (JObj [("run_id", JInt 3)]) (JObj [("run_id", JInt 3)])).
  - by apply book_quiet.
  - by apply book_quiet.
  - discriminate.
  - apply run_pair. vm_compute. reflexivity.
  - apply run_pair. vm_compute. reflexivity.
Defined.

(** The new run has version 2, and the nodes of version 1. *)
Lemma retry_run_spec_witness :
  let s' := (run_request (retry_run false (λ _, false) admin 1) book_st).2 in
  ∃ run, WorkflowRun.workflow_version run = 2 ∧
    WorkflowNodeRun.node_key <$> select_rows (in_run 3) (tbl (committed s')) = ["a"].
Proof.
  cbv zeta. destruct (retry_run_spec false (λ _, false) admin 1 book_st (JObj [("run_id", JInt 3)])
    (run_request (retry_run false (λ _, false) admin 1) book_st).2) as (old & wf & nodes & run & H1 & H2 & _ & _ & H5 & _).
  - by apply wf_tableb_spec.
  - by apply wf_tableb_spec.
  - apply run_pair. vm_compute. reflexivity.
  - exists run. split; [|vm_compute; reflexivity]. rewrite H5. cbn in H1. injection H1 as <-.
    cbn in H2. by injection H2 as <-.
Defined.

Lemma cancel_run_spec_witness :
  let s' := (run_request (cancel_run (λ _, false) admin 2) book_st).2 in
  (WorkflowNodeRun.status <$> select_rows (in_run 2) (tbl (committed s')) = ["skipped"; "skipped"; "skipped"]) ∧
  (ExecTask.status <$> tbl (R:=ExecTask.ExecTask) (committed s') !! 9 = Some "canceled") ∧
  tasks_after (select_rows (λ n, in_run 2 n && open_node n) (tbl (committed book_st))) (tbl (committed book_st))
    (tbl (committed s')).
Proof.
  cbv zeta. split; [vm_compute; reflexivity|]. split; [vm_compute; reflexivity|].
  pose proof (cancel_run_spec (λ _, false) admin 2 (book_run 2 2 "running") book_st
    (inr (default JNull (Some (_run_out (book_run 2 2 "cancelled" <| WorkflowRun.finished_at := Some 1767355200000000 |>)))))
    (run_request (cancel_run (λ _, false) admin 2) book_st).2) as H. cbv beta iota in H.
  apply H; clear H.
  - by apply book_quiet.
  - by apply book_quiet.
  - by apply wf_tableb_spec.
  - reflexivity.
  - apply run_pair. vm_compute. reflexivity.
Defined.

(** A decoder that knows one token. *)
Definition book_claims : json :=
  JObj [("type", JStr "wf_callback"); ("run_id", JInt 2); ("node_key", JStr "cb")].
Definition book_decode (_ : Z) (t : string) : option json :=
  if bool_decide (t = "tok") then Some book_claims else None.
#[local] Abbreviation book_callback :=
  (callback_node (λ _, "0.0") book_decode false (λ _, false) 2 "cb" (Some "tok") (JObj [("ok", JBool true)])).
Lemma callback_single_use_witness : ∃ n e s3,
  run_request book_callback (run_request book_callback book_st).2 = (inl e, s3) ∧
  committed s3 = committed (run_request book_callback book_st).2 ∧ callback_waiting 2 "cb" n = true.
Proof.
  destruct (callback_single_use false (λ _, false) (λ _, "0.0") book_decode 2 "cb" (Some "tok")
    (JObj [("ok", JBool true)]) book_st (JObj [("run_id", JInt 2); ("node_key", JStr "cb"); ("status", JStr "succeeded")])
    (run_request book_callback book_st).2) as (n & _ & Hn & Hw & _ & Hc & Hagain).
  - by apply book_quiet.
  - apply run_pair. vm_compute. reflexivity.
  - destruct (Hagain (Some "tok") (JObj [("ok", JBool true)]) (run_request book_callback book_st).2) as (e & s3 & E & Hs & _).
    + split; [vm_compute; reflexivity|]. apply wf_tableb_spec. vm_compute. reflexivity.
    + rewrite Hc, tbl_set_tbl. apply lookup_insert_eq.
    + by exists n, e, s3.
Defined.

Lemma workflow_history_refines_witness :
  let s' := (run_request book_callback book_st).2 in
  persists node_life (tbl (committed book_st)) (tbl (committed s')) ∧
  versions_ok (tbl (committed s')).
Proof.
  cbv zeta.
  destruct (workflow_history_refines (λ _, "0.0") (λ _, "") (λ _, "") book_decode (λ _, "") (λ _, None) (λ _, None)
    (λ _, None) (λ _, "") (λ _ _, false) book_st (run_request book_callback book_st).2) as (H1 & _ & _ & H2).
  - by apply book_quiet.
  - by apply wf_tableb_spec.
  - intros i r Hi. assert (r ∈ [book_run 1 1 "failed"; book_run 2 2 "running"]) as Hr.
    { change (({[ 1 := book_run 1 1 "failed"; 2 := book_run 2 2 "running" ]} : gmap Z Run) !! i = Some r) in Hi.
      apply lookup_insert_Some in Hi as [[_ <-]|[_ [_ <-]%lookup_singleton_Some]]; rewrite !elem_of_cons; auto. }
    repeat (apply elem_of_cons in Hr as [->|Hr]; [cbn; str_mem|]). by apply elem_of_nil in Hr.
  - intros i v Hi. assert (v ∈ [book_version 1 "a"; book_version 2 "b"]) as Hv.
    { change (({[ 1 := book_version 1 "a"; 2 := book_version 2 "b" ]} : gmap Z WorkflowVersion.WorkflowVersion) !! i
        = Some v) in Hi.
      apply lookup_insert_Some in Hi as [[_ <-]|[_ [_ <-]%lookup_singleton_Some]]; rewrite !elem_of_cons; auto. }
    repeat (apply elem_of_cons in Hv as [->|Hv]; [apply book_valid; auto|]). by apply elem_of_nil in Hv.
  - apply rtc_once. exact (event_request _ _ _ _ _ _ _ _ _ _ (QCallback 2 "cb" (Some "tok") (JObj [("ok", JBool true)]))
      false false false (λ _, false) false (λ _, false) book_st).
  - by split.
Defined.
