(* ===== verification/Releases.v ===== *)
(** * Providers and releases: [services/cicd_service.py]

    The handlers around the state machine of [Cicd]. A release reuses the
    workflow engine: going to canary starts one run of a system playbook with a
    single callback node. The [updated_at] column is left out of the answers. *)

From S2P Require Import Prelude.
From S2P Require Import Models.
From S2P Require Import Session.
From S2P Require Import Repositories.
From S2P Require Import Access.
From S2P Require Import Cicd.
From S2P Require Import WorkflowDef.
From S2P Require Import WorkflowEngine.
From S2P Require Import Workflow.

Definition CICD_PROVIDER_TYPES : list string := ["gitlab"; "jenkins"; "generic"].
Definition RELEASE_ENVS : list string := ["dev"; "test"; "prod"].
Definition RELEASE_STATUSES : list string :=
  ["pending"; "deploying"; "canary"; "succeeded"; "failed"; "rolled_back"; "cancelled"].
Definition RELEASE_TERMINAL_STATUSES : list string := ["succeeded"; "failed"; "rolled_back"; "cancelled"].

Definition _RELEASE_WORKFLOW_NAME : string := "__release_orchestration__".
Definition _RELEASE_DEFINITION : json := JObj [("nodes", JArr [JObj [
  ("key", JStr "deploy"); ("type", JStr "callback"); ("config", JObj []); ("depends_on", JArr []);
  ("on_success", JArr []); ("on_failure", JArr [])]])].

(** Request bodies (schemas/cicd.py). *)
Module ProviderCreate.
Record ProviderCreate := mk {
  type : string; name : string; endpoint : string; config : option json; enabled : Z }.
End ProviderCreate.
Module ProviderUpdate.
Record ProviderUpdate := mk {
  name : option string; endpoint : option string; config : option json; enabled : option Z }.
End ProviderUpdate.
Module ReleaseCreate.
Record ReleaseCreate := mk {
  provider_id : Z; app : string; version : option string; artifact_ref : option string; env : string;
  target_host_ids : option (list Z) }.
End ReleaseCreate.

Section releases.
Variable encrypt_secret : string → string.
Variable decrypt_secret : string → option string.
(** [json.dumps(value, ensure_ascii=False)] and [str(value)] *)
Variables dumps py_str : json → string.
Variable sql_like : string → string → bool.
Variable DRIVER_AUTOSTART : bool.
Variable driver_alive : Z → bool.

(** ** Helpers *)

Definition _require_feature : Op () := require_feature "feature.cicd".

Definition config_text (value : json) : string := match value with JStr v => v | _ => dumps value end.
Definition _encrypt_config (config : option json) : json :=
  match config with
  | Some (JObj ((_ :: _) as items)) => JObj ((λ kv, (kv.1, JStr (encrypt_secret (config_text kv.2)))) <$> items)
  | _ => JNull
  end.
(** A value that does not decrypt is left out. *)
Definition _decrypt_config (config_enc : json) : list (string * string) :=
  match config_enc with
  | JObj items => omap (λ kv, (λ v, (kv.1, v)) <$>
      decrypt_secret (match kv.2 with JStr v => v | v => py_str v end)) items
  | _ => []
  end.

Definition _provider_out (p : CicdProvider.CicdProvider) : json := JObj [
  ("id", JInt (CicdProvider.id p)); ("type", JStr (CicdProvider.type p)); ("name", JStr (CicdProvider.name p));
  ("endpoint", JStr (CicdProvider.endpoint p)); ("enabled", JInt (CicdProvider.enabled p));
  ("status", JStr (CicdProvider.status p)); ("last_heartbeat", jtime (CicdProvider.last_heartbeat p));
  ("created_by", jz (CicdProvider.created_by p)); ("created_at", jtime (Some (CicdProvider.created_at p)))].
Definition _release_out (r : Release.Release) : json := JObj [
  ("id", JInt (Release.id r)); ("provider_id", JInt (Release.provider_id r)); ("app", JStr (Release.app r));
  ("version", js (Release.version r)); ("artifact_ref", js (Release.artifact_ref r));
  ("env", JStr (Release.env r)); ("status", JStr (Release.status r));
  ("workflow_run_id", jz (Release.workflow_run_id r));
  ("target_host_ids", match Release.target_host_ids r with Some l => JArr (JInt <$> l) | None => JNull end);
  ("rolled_back_from", jz (Release.rolled_back_from r)); ("created_by", jz (Release.created_by r));
  ("created_at", jtime (Some (Release.created_at r)))].

Definition _get_provider (provider_id : Z) : Op CicdProvider.CicdProvider :=
  o ← db_get provider_id; some_or o (NotFoundError "cicd provider not found").
Definition _get_release (release_id : Z) : Op Release.Release :=
  o ← db_get release_id; some_or o (NotFoundError "release not found").

Definition _apply_release_transition (r : Release.Release) (action : string) : Op string :=
  '(allowed_from, target) ← some_or (RELEASE_TRANSITIONS action) (KeyError action);
  guard_or (str_in (Release.status r) allowed_from)
    (ConflictError ("cannot " +:+ action +:+ " release in status '" +:+ Release.status r +:+ "'"));;
  db_upd (Release.id r) (λ r, r <| Release.status := target |>);;
  ret target.

(** The row as it is now: the attributes of the object the handler holds. *)
Definition current_release (release_id : Z) : Op Release.Release := _get_release release_id.
Definition _audit (user : option CurrentUser) (action : string) (release_id : Z) : Op () :=
  r ← current_release release_id;
  _ ← db_add (release_audit user action r); ret ().

Definition listing {R} (out : R → json) (rows : list R) (page size : Z) : json :=
  JObj [("list", JArr (out <$> page_of rows page size)); ("total", JInt (Z.of_nat (length rows)));
        ("page", JInt page); ("size", JInt size)].
(** [if filters.get(..): where column == ..] *)
Definition filtered (filter : option string) (column : string) : bool :=
  if s_truthy filter then bool_decide (column = default "" filter) else true.

(** ** Providers *)

Definition list_providers (user : CurrentUser) (name type : option string) (page size : Z) : Op json :=
  _require_feature;;
  require_perm user "cicd:provider:list";;
  rows ← db_select (λ p : CicdProvider.CicdProvider,
    (if s_truthy name then sql_like (CicdProvider.name p) ("%" +:+ default "" name +:+ "%") else true) &&
    filtered type (CicdProvider.type p));
  ret (listing _provider_out rows page size).

Definition create_provider (user : CurrentUser) (data : ProviderCreate.ProviderCreate) : Op json :=
  _require_feature;;
  require_perm user "cicd:provider:add";;
  guard_or (str_in (ProviderCreate.type data) CICD_PROVIDER_TYPES)
    (ValidationError "type must be one of ['generic', 'gitlab', 'jenkins']");;
  p ← db_add (CicdProvider.mk 0 (ProviderCreate.type data) (ProviderCreate.name data) (ProviderCreate.endpoint data)
        (_encrypt_config (ProviderCreate.config data)) (ProviderCreate.enabled data) "unknown" None
        (Some (user_id user)) 0);
  db_commit;;
  ret (_provider_out p).

Definition updated_provider (data : ProviderUpdate.ProviderUpdate) (p : CicdProvider.CicdProvider) : CicdProvider.CicdProvider :=
  p <| CicdProvider.name := default (CicdProvider.name p) (ProviderUpdate.name data) |>
    <| CicdProvider.endpoint := default (CicdProvider.endpoint p) (ProviderUpdate.endpoint data) |>
    <| CicdProvider.enabled := default (CicdProvider.enabled p) (ProviderUpdate.enabled data) |>
    <| CicdProvider.config_enc := match ProviderUpdate.config data with
                                  | Some c => _encrypt_config (Some c) | None => CicdProvider.config_enc p end |>.
Definition update_provider (user : CurrentUser) (provider_id : Z) (data : ProviderUpdate.ProviderUpdate) : Op json :=
  _require_feature;;
  require_perm user "cicd:provider:edit";;
  p ← _get_provider provider_id;
  db_upd provider_id (updated_provider data);;
  db_commit;;
  ret (_provider_out (updated_provider data p)).

Definition delete_provider (user : CurrentUser) (provider_id : Z) : Op () :=
  _require_feature;;
  require_perm user "cicd:provider:del";;
  _ ← _get_provider provider_id;
  referenced ← db_find (λ r : Release.Release, Release.provider_id r =? provider_id);
  guard_or (match referenced with None => true | Some _ => false end)
    (ConflictError "provider referenced by releases");;
  db_delete (R:=CicdProvider.CicdProvider) provider_id;;
  db_commit.

Definition test_provider (user : CurrentUser) (provider_id : Z) : Op json :=
  _require_feature;;
  require_perm user "cicd:provider:test";;
  p ← _get_provider provider_id;
  t ← utc_now;
  db_upd provider_id (λ p : CicdProvider.CicdProvider,
    p <| CicdProvider.status := "ok" |> <| CicdProvider.last_heartbeat := Some t |>);;
  db_commit;;
  ret (JObj [("id", JInt (CicdProvider.id p)); ("type", JStr (CicdProvider.type p));
             ("name", JStr (CicdProvider.name p)); ("status", JStr "ok"); ("ok", JBool true)]).

(** ** Releases *)

Definition list_releases (user : CurrentUser) (status app env : option string) (page size : Z) : Op json :=
  _require_feature;;
  require_perm user "release:list";;
  rows ← db_select (λ r : Release.Release,
    filtered status (Release.status r) && filtered app (Release.app r) && filtered env (Release.env r));
  ret (listing _release_out rows page size).

Definition create_release (user : CurrentUser) (data : ReleaseCreate.ReleaseCreate) : Op json :=
  _require_feature;;
  require_perm user "release:add";;
  guard_or (str_in (ReleaseCreate.env data) RELEASE_ENVS) (ValidationError "env must be one of ['dev', 'prod', 'test']");;
  guard_or (s_truthy (ReleaseCreate.version data) || s_truthy (ReleaseCreate.artifact_ref data))
    (ValidationError "release requires `version` or `artifact_ref`");;
  _ ← _get_provider (ReleaseCreate.provider_id data);
  r ← db_add (Release.mk 0 (ReleaseCreate.provider_id data) (ReleaseCreate.app data) (ReleaseCreate.version data)
        (ReleaseCreate.artifact_ref data) (ReleaseCreate.env data) "pending" None
        (match ReleaseCreate.target_host_ids data with Some ((_ :: _) as l) => Some l | _ => None end) None
        (Some (user_id user)) 0);
  db_commit;;
  ret (_release_out r).

Definition get_release (user : CurrentUser) (release_id : Z) : Op json :=
  _require_feature;;
  require_perm user "release:view";;
  r ← _get_release release_id;
  ret (_release_out r).

Definition _ensure_release_workflow (user : CurrentUser) : Op Workflow.Workflow :=
  o ← db_find (λ w : Workflow.Workflow, bool_decide (Workflow.name w = _RELEASE_WORKFLOW_NAME));
  match o with
  | Some wf => ret wf
  | None =>
      wf ← db_add (Workflow.mk 0 _RELEASE_WORKFLOW_NAME "workflow" "P3-5 release orchestration (system, §14.4)"
                     1 1 (Some (user_id user)) 0);
      _ ← db_add (new_version (Workflow.id wf) 1 _RELEASE_DEFINITION (Some (user_id user)));
      db_commit;;
      ret wf
  end.

Definition _trigger_release_run (user : CurrentUser) (r : Release.Release) (action : string)
    : Op WorkflowRun.WorkflowRun :=
  wf ← _ensure_release_workflow user;
  run ← _start_run DRIVER_AUTOSTART driver_alive user wf _RELEASE_DEFINITION "release"
    (JObj [("release_id", JInt (Release.id r)); ("app", JStr (Release.app r)); ("env", JStr (Release.env r));
           ("action", JStr action)])
    (JObj [("release_id", JInt (Release.id r)); ("action", JStr action)]);
  db_upd (Release.id r) (λ r, r <| Release.workflow_run_id := Some (WorkflowRun.id run) |>);;
  ret run.

(** A handler that only moves the release. *)
Definition moved (user : CurrentUser) (release_id : Z) (action audited : string) : Op json :=
  r ← _get_release release_id;
  _ ← _apply_release_transition r action;
  _audit (Some user) audited release_id;;
  db_commit;;
  r ← current_release release_id;
  ret (_release_out r).
Definition deploy_release (user : CurrentUser) (release_id : Z) : Op json :=
  _require_feature;; require_perm user "release:deploy";; moved user release_id "deploy" "release.deploy".
Definition promote_release (user : CurrentUser) (release_id : Z) : Op json :=
  _require_feature;; require_perm user "release:promote";; moved user release_id "promote" "release.promote".
Definition fail_release (user : CurrentUser) (release_id : Z) : Op json :=
  _require_feature;; require_perm user "release:fail";; moved user release_id "fail" "release.fail".

Definition canary_release (user : CurrentUser) (release_id : Z) : Op json :=
  _require_feature;;
  require_perm user "release:canary";;
  r ← _get_release release_id;
  _ ← _apply_release_transition r "canary";
  _ ← _trigger_release_run user r "canary";
  _audit (Some user) "release.canary" release_id;;
  db_commit;;
  r ← current_release release_id;
  ret (_release_out r).

Definition rollback_release (user : CurrentUser) (release_id : Z) : Op json :=
  _require_feature;;
  require_perm user "release:rollback";;
  r ← _get_release release_id;
  _ ← _apply_release_transition r "rollback";
  db_upd release_id (λ x, x <| Release.rolled_back_from := Release.workflow_run_id r |>);;
  _audit (Some user) "release.rollback" release_id;;
  db_commit;;
  r ← current_release release_id;
  ret (_release_out r).

(** The run of the release, unless it has ended. *)
Definition cancel_release_run (r : Release.Release) : Op () :=
  let run_id := z_or (Release.workflow_run_id r) 0 in
  if run_id =? 0 then ret () else
  o ← db_get run_id;
  match o with
  | Some run =>
      when (negb (str_in (WorkflowRun.status run) _RUN_TERMINAL)) (
        t ← utc_now;
        db_upd run_id (λ x : WorkflowRun.WorkflowRun,
          x <| WorkflowRun.status := "cancelled" |> <| WorkflowRun.finished_at := Some t |>))
  | None => ret ()
  end.
Definition cancel_release (user : CurrentUser) (release_id : Z) : Op json :=
  _require_feature;;
  require_perm user "release:cancel";;
  r ← _get_release release_id;
  _ ← _apply_release_transition r "cancel";
  cancel_release_run r;;
  _audit (Some user) "release.cancel" release_id;;
  db_commit;;
  r ← current_release release_id;
  ret (_release_out r).

(** ** The inbound webhook *)

Definition invalid_provider_token : exn := UnauthorizedError "invalid provider token".
Definition handle_webhook (provider : string) (token : option string) (payload : json) : Op json :=
  _require_feature;;
  guard_or (s_truthy token) (UnauthorizedError "provider token required");;
  prov ← db_find (λ p : CicdProvider.CicdProvider,
    bool_decide (CicdProvider.type p = provider) || bool_decide (CicdProvider.name p = provider));
  match prov with
  | Some p =>
      match assoc_get "token" (_decrypt_config (CicdProvider.config_enc p)) with
      | Some expected => guard_or (bool_decide (expected = default "" token)) invalid_provider_token
      | None => ret ()
      end
  | None => ret ()
  end;;
  ret (JObj [("accepted", JBool true); ("provider", JStr provider); ("payload", payload)]).
End releases.

(** ** The seam: a failed run fails its release *)

(** The release that fails with [run]: the first one linked to it, if it is on its way. *)
Definition linked_release (run : WorkflowRun.WorkflowRun) (m : gmap Z Release.Release) : option Release.Release :=
  if bool_decide (WorkflowRun.trigger_type run = "release") then
    match head (select_rows (of_run (WorkflowRun.id run)) m) with
    | Some r => if str_in (Release.status r) ["deploying"; "canary"] then Some r else None
    | None => None
    end
  else None.
Definition failed_with (run : WorkflowRun.WorkflowRun) (m : gmap Z Release.Release) : gmap Z Release.Release :=
  match linked_release run m with
  | Some r => <[Release.id r := r <| Release.status := "failed" |>]> m
  | None => m
  end.

Lemma seam_releases run s :
  keyed_rows (R:=Release.Release) (tbl (work s)) →
  wp (_on_run_failed run) (λ _ s', committed s' = committed s ∧
    tbl (R:=Release.Release) (work s') = failed_with run (tbl (work s))) s.
Proof.
  intros [hi Hwf]. unfold _on_run_failed, fail_release_for_run, failed_with, linked_release. apply wp_try. wp_step.
  destruct (bool_decide (WorkflowRun.trigger_type run = "release")); cbn [negb]; [|by repeat wp_step].
  wp_step. apply wp_db_find. cbv beta iota.
  destruct (head (select_rows (of_run (WorkflowRun.id run)) (tbl (work s)))) as [r|] eqn:Hr; [|by repeat wp_step].
  apply head_select_Some in Hr as [_ [i Hi]]. pose proof (wf_id Hwf i r Hi) as Hid. cbn in Hid. subst i.
  assert (RELEASE_TRANSITIONS "fail" = Some (["deploying"; "canary"], "failed")) as -> by reflexivity.
  cbv beta iota. destruct (str_in _ _); [|by repeat wp_step].
  wp_step. eapply wp_upd_hit; [exact Hi|]. cbv beta iota.
  set (m' := <[Release.id r := _]> _).
  apply wp_preserves with (I := frame (R:=Release.Release) m' (committed s)).
  - preserves_auto.
  - split; [by rewrite tbl_put_row|done].
  - intros [e|b] s1 [H1 H2]; by repeat wp_step.
Qed.

Definition run_failed (run_id : Z) (m : gmap Z WorkflowRun.WorkflowRun) : bool :=
  match m !! run_id with Some r => bool_decide (WorkflowRun.status r = "failed") | None => false end.

Section tick.
Variable float_str : Q → string.
Variable container_str : json → string.
Variables paramiko redis_up broker_up : bool.
Variable agent_connected : string → bool.
Variable jwt_encode : json → string.
Variable _jti : St → string.
Variable touched : WorkflowNodeRun.WorkflowNodeRun → option Z.
Variable float_of_str : string → option Q.
Variable fromisoformat : json → option Z.
#[local] Abbreviation one_step := (step float_str container_str paramiko redis_up
  agent_connected broker_up jwt_encode _jti touched float_of_str fromisoformat).

Lemma failed_with_same run run' m :
  WorkflowRun.id run = WorkflowRun.id run' → WorkflowRun.trigger_type run = WorkflowRun.trigger_type run' →
  failed_with run m = failed_with run' m.
Proof. unfold failed_with, linked_release. by intros -> ->. Qed.

(** The end of a step, on the releases. *)
Lemma finalise_releases run_id p run s :
  tbl (work s) !! run_id = Some run → WorkflowRun.id run = run_id → WorkflowRun.status run = "running" →
  keyed_rows (R:=Release.Release) (tbl (work s)) →
  wp (finalise run_id p) (λ _ s', committed s' = committed s ∧
    tbl (R:=Release.Release) (work s') =
      if bool_decide (outcome (select_rows (in_run run_id) (tbl (work s))) = "failed")
      then failed_with run (tbl (work s)) else tbl (work s)) s.
Proof.
  intros Hrun Hid Hst Hk. unfold finalise. wp_step. apply wp_db_select. cbv beta iota. wp_step. apply wp_db_get.
  cbv beta iota. rewrite Hrun, Hst. set (nodes := select_rows (in_run run_id) (tbl (work s))) in *.
  change (negb (bool_decide ("running" = "cancelled"))) with true. cbn [andb].
  change (negb (bool_decide (nodes = [])) && forallb node_done nodes) with (ended nodes).
  unfold outcome. destruct (ended nodes) eqn:He; [|by wp_step].
  rewrite existsb_filter. destruct (filter _ nodes) as [|n l].
  - apply wp_preserves with (I := frame (R:=Release.Release) (tbl (work s)) (committed s));
      [preserves_auto|done|by intros ? ? [-> ->]].
  - wp_step. wp_step. eapply wp_upd_hit; [exact Hrun|]. cbv beta iota.
    eapply wp_mono; [apply seam_releases; by rewrite tbl_put_row_ne|]. cbv beta.
    intros r s2 [Hc Hm].
    assert (frame (R:=Release.Release) (failed_with run (tbl (work s))) (committed s) s2) as HF.
    { split; [|exact Hc]. rewrite Hm, tbl_put_row_ne. by apply failed_with_same. }
    destruct r as [e|[]]; [destruct HF as [H1 H2]; by split|]. cbv beta iota.
    apply wp_preserves with (I := frame (R:=Release.Release) (failed_with run (tbl (work s))) (committed s));
      [preserves_auto|exact HF|]. intros ? ? [H1 H2]. by split.
Qed.

(** What one step does to the releases: nothing, unless it ends its run as failed. *)
Lemma step_releases run_id r s :
  work s = committed s → keyed_rows (R:=WorkflowRun.WorkflowRun) (tbl (work s)) → keyed_rows (R:=Release.Release) (tbl (work s)) →
  tbl (committed s) !! run_id = Some r → WorkflowRun.status r ∈ ["pending"; "running"] →
  wp (one_step run_id) (λ _ s', tbl (R:=Release.Release) (committed s') =
    if run_failed run_id (tbl (committed s')) then failed_with r (tbl (committed s)) else tbl (committed s)) s.
Proof.
  intros Hq [hr Hwf] Hk Hrow Hopen. rewrite <-Hq in *.
  assert (WorkflowRun.id r = run_id) as Hid by by apply (wf_id Hwf).
  assert (∀ x : WorkflowRun.WorkflowRun, WorkflowRun.status x ∈ ["pending"; "running"] → WorkflowRun.status x ≠ "failed") as Hnf
    by (intros x Hx E; rewrite E in Hx; str_absurd Hx).
  unfold step. wp_step. apply wp_db_get. cbv beta iota. rewrite Hrow.
  destruct (str_in _ _RUN_TERMINAL) eqn:Hterm.
  { wp_step. rewrite <-Hq. unfold run_failed. rewrite Hrow. rewrite bool_decide_eq_false_2; [done|by apply Hnf]. }
  wp_step. rewrite <-Hid in Hrow. eapply wp_of_run; [by apply start_run_run|]. cbv beta iota.
  rewrite Hid in *. set (r1 := started_run (now s) r). set (s1 := put_row run_id r1 s).
  pose proof (started_running (now s) r Hopen) as Hr1. fold r1 in Hr1.
  assert (WorkflowRun.id r1 = run_id ∧ WorkflowRun.trigger_type r1 = WorkflowRun.trigger_type r) as [Hid1 Htt]
    by (unfold r1, started_run; by case_bool_decide).
  set (live := λ m : gmap Z Run, run_failed run_id m = false).
  assert (live (tbl (work s)) ∧ live (tbl (work s1))) as [Hl0 Hl1].
  { split; unfold live, run_failed.
    - rewrite Hrow. apply bool_decide_eq_false_2. by apply Hnf.
    - unfold s1. rewrite tbl_put_row, lookup_insert_eq. by rewrite Hr1. }
  set (rel := λ m, m = tbl (R:=Release.Release) (work s)).
  assert (tbl (R:=Release.Release) (work s1) = tbl (work s)) as Hs1 by (unfold s1; by rewrite tbl_put_row_ne).
  wp_step. apply wp_reads; [apply reads_load|]. intros [e|[def ds]] _.
  { change (committed s1) with (committed s). rewrite <-Hq. unfold live in Hl0. by rewrite Hl0. }
  cbv beta iota. wp_step.
  eapply wp_mono; [apply (wp_and _ (λ _ s', held (tbl (work s1)) live s') (λ _ s', held (tbl (work s1)) rel s'))|].
  { unfold wp. apply step_nodes_held; [apply _..|]. split_and!; [done| |done]. change (committed s1) with (committed s). by rewrite <-Hq. }
  { unfold wp. apply step_nodes_held; [apply _..|]. split_and!; [done| |done]. change (committed s1) with (committed s). unfold rel. by rewrite <-Hq. }
  cbv beta. intros o s2 [(Hr2 & Hc2 & _) (Hm2 & Hcm2 & _)]. unfold live in Hc2. unfold rel in Hcm2.
  destruct o as [e|p]; [by rewrite Hc2|]. cbv beta iota. wp_step.
  assert (tbl (R:=WorkflowRun.WorkflowRun) (work s2) !! run_id = Some r1) as Hrow2
    by (rewrite Hr2; unfold s1; rewrite tbl_put_row; apply lookup_insert_eq).
  assert (wp (finalise run_id p) (λ o s', ∀ q, o = inr q → ∃ x, tbl (R:=WorkflowRun.WorkflowRun) (work s') !! run_id = Some x ∧
    WorkflowRun.status x = outcome (select_rows (in_run run_id) (tbl (work s2)))) s2) as Hend.
  { eapply wp_finalise; [exact Hrow2|exact Hr1|]. intros s' st e t Hst _ _ Hr' _ q _. eexists. rewrite Hr'.
    split; [apply lookup_insert_eq|exact Hst]. }
  eapply wp_mono; [apply (wp_and _ _ _ _ (finalise_releases run_id p r1 s2 Hrow2 Hid1 Hr1 ltac:(by rewrite Hm2, Hs1)) Hend)|].
  cbv beta. intros [e|q] s3 [[Hc3 Hm3] Hx]; [by rewrite Hc3, Hc2|]. cbv beta iota.
  destruct (Hx q eq_refl) as (x & Hx3 & Hxs).
  assert (∀ s4, committed s4 = work s3 → tbl (R:=Release.Release) (committed s4) =
    (if run_failed run_id (tbl (committed s4)) then failed_with r (tbl (work s)) else tbl (work s))) as Hpost.
  { intros s4 ->. rewrite Hm3, Hm2, Hs1. unfold run_failed. rewrite Hx3, Hxs.
    case_bool_decide; [|done]. apply failed_with_same; [congruence|done]. }
  wp_run; by apply Hpost.
Qed.
End tick.

(** ** The release life cycle *)

Definition release_moves (a b : string) : Prop :=
  ∃ action from, RELEASE_TRANSITIONS action = Some (from, b) ∧ a ∈ from.
(** The states no transition leaves. *)
Definition release_over (r : Release.Release) : bool :=
  str_in (Release.status r) ["succeeded"; "rolled_back"; "cancelled"].
Record release_life (a b : Release.Release) : Prop := {
  rel_status : rtc release_moves (Release.status a) (Release.status b);
  rel_same : ∃ st w rb, b = a <| Release.status := st |> <| Release.workflow_run_id := w |>
                              <| Release.rolled_back_from := rb |>;
  rel_over : release_over a = true → b = a;
}.
#[export] Instance release_life_preorder : PreOrder release_life.
Proof.
  split.
  - intros a. split; [done| |done].
    exists (Release.status a), (Release.workflow_run_id a), (Release.rolled_back_from a). by destruct a.
  - intros a b c [S1 (s1 & t1 & u1 & E1) D1] [S2 (s2 & t2 & u2 & E2) D2]. split; [by etrans| |].
    + exists s2, t2, u2. rewrite E2, E1. by destruct a.
    + intros Hd. rewrite (D1 Hd) in *. auto.
Qed.

Definition good_release (r : Release.Release) : Prop :=
  Release.status r ∈ RELEASE_STATUSES ∧ Release.env r ∈ RELEASE_ENVS ∧
  (s_truthy (Release.version r) || s_truthy (Release.artifact_ref r)) = true.

(** What a transition of the table may find and leave. *)
Lemma transition_shape action from target a :
  RELEASE_TRANSITIONS action = Some (from, target) → a ∈ from →
  str_in a ["succeeded"; "rolled_back"; "cancelled"] = false ∧ target ∈ RELEASE_STATUSES.
Proof.
  unfold RELEASE_TRANSITIONS, assoc_get. intros Hf Ha.
  repeat (revert Hf; case_bool_decide; [intros [= <- <-];
    repeat (apply elem_of_cons in Ha as [->|Ha]; [split; [reflexivity|str_mem]|]); by apply elem_of_nil in Ha|intros Hf]).
  done.
Qed.
Lemma transition_life action from target r w rb :
  RELEASE_TRANSITIONS action = Some (from, target) → Release.status r ∈ from →
  release_life r (r <| Release.status := target |> <| Release.workflow_run_id := w |> <| Release.rolled_back_from := rb |>).
Proof.
  intros Hf Ha. destruct (transition_shape _ _ _ _ Hf Ha) as [Ho _]. split.
  - apply rtc_once. by exists action, from.
  - by exists target, w, rb.
  - unfold release_over. by rewrite Ho.
Qed.

Section release_rows.
Context (r0 : gmap Z Release.Release).
Definition releases_ok (m : gmap Z Release.Release) : Prop :=
  persists release_life r0 m ∧ keyed_rows m ∧ ∀ i r, m !! i = Some r → good_release r.

Lemma releases_ok_upd m i a b :
  releases_ok m → m !! i = Some a → release_life a b → Release.status b ∈ RELEASE_STATUSES →
  releases_ok (<[i := b]> m).
Proof.
  intros (Hp & Hk & Hg) Hi Hab Hb. split_and!.
  - apply persists_insert; [apply _|done|]. intros x Hx. by simplify_eq.
  - eapply keyed_update; [done..| | |]; [|done|done]. destruct (rel_same _ _ Hab) as (? & ? & ? & ->). done.
  - intros j x [[<- <-]|[_ Hx]]%lookup_insert_Some; [|by eapply Hg]. destruct (Hg _ _ Hi) as (_ & He & Hv).
    destruct (rel_same _ _ Hab) as (? & ? & ? & ->). by split_and!.
Qed.
Lemma releases_ok_add r :
  good_release r → Release.status r = "pending" → preserves (both releases_ok) (db_add r).
Proof.
  intros Hg Hst. apply preserves_db_add; [done|]. intros s i [(Hp & Hk & Ht) Hc] Hid Hacc. split; [|done].
  rewrite tbl_put_row. pose proof (accepts_none _ _ _ Hacc) as Hnone. split_and!.
  - apply persists_insert; [apply _|done|]. intros a Ha. discriminate (eq_trans (eq_sym Hnone) Ha).
  - by apply keyed_insert.
  - intros j x [[<- <-]|[_ Hx]]%lookup_insert_Some; [exact Hg|by eapply Ht].
Qed.

(** A handler that fetches a release and moves it. *)
Lemma transition_ok {A} release_id action (k : Release.Release → Op A) :
  (∀ r from target s, RELEASE_TRANSITIONS action = Some (from, target) → Release.status r ∈ from →
     both releases_ok s → tbl (work s) !! release_id = Some r → Release.id r = release_id →
     wp (k r) (λ _, both releases_ok) (put_row release_id (r <| Release.status := target |>) s)) →
  preserves (both releases_ok)
    (r ← _get_release release_id; _ ← _apply_release_transition r action; k r).
Proof.
  intros Hk. apply preserves_wp. intros s Hs. unfold _get_release, _apply_release_transition.
  do 2 wp_step. apply wp_db_get. cbv beta iota. destruct (tbl (R:=Release.Release) (work s) !! release_id) as [r|] eqn:Hrow;
    [|by repeat wp_step]. cbn [some_or]. apply wp_ret. cbv beta iota. wp_step. wp_step.
  destruct (RELEASE_TRANSITIONS action) as [[from target]|] eqn:Hf; [|by repeat wp_step]. cbn [some_or]. apply wp_ret.
  cbv beta iota. wp_step. apply wp_guard_or; intros Hst; [|done]. cbv beta iota. apply str_in_true in Hst.
  pose proof Hs as [(_ & [hi Hwf] & _) _]. pose proof (wf_id Hwf release_id r Hrow) as Hid. cbn in Hid. rewrite Hid.
  wp_step. eapply wp_upd_hit; [exact Hrow|]. cbv beta iota. wp_step. by eapply Hk.
Qed.
Lemma moved_row_ok r from target action release_id s w rb :
  RELEASE_TRANSITIONS action = Some (from, target) → Release.status r ∈ from →
  both releases_ok s → tbl (work s) !! release_id = Some r →
  both releases_ok (put_row release_id (r <| Release.status := target |> <| Release.workflow_run_id := w |>
    <| Release.rolled_back_from := rb |>) s).
Proof.
  intros Hf Ha [Hw Hc] Hrow. split; [|done]. rewrite tbl_put_row. eapply releases_ok_upd; [exact Hw|exact Hrow| |].
  - by eapply transition_life.
  - cbn. by destruct (transition_shape _ _ _ _ Hf Ha).
Qed.
Lemma moved_ok user release_id action audited : preserves (both releases_ok) (moved user release_id action audited).
Proof.
  apply transition_ok. intros r from target s Hf Ha Hs Hrow Hid.
  apply wp_preserves with (I := both releases_ok); [unfold _audit, current_release, _get_release; preserves_auto| |done].
  pose proof (moved_row_ok r from target action release_id s (Release.workflow_run_id r) (Release.rolled_back_from r)
    Hf Ha Hs Hrow) as H. by destruct r.
Qed.

Lemma rollback_ok user release_id : preserves (both releases_ok) (rollback_release user release_id).
Proof.
  unfold rollback_release, _require_feature. do 2 (apply preserves_bind; [preserves_auto|intros _]).
  apply transition_ok. intros r from target s Hf Ha Hs Hrow Hid. wp_step.
  eapply wp_upd_hit; [rewrite tbl_put_row; apply lookup_insert_eq|]. cbv beta iota. rewrite put_row_twice.
  apply wp_preserves with (I := both releases_ok); [unfold _audit, current_release, _get_release; preserves_auto| |done].
  pose proof (moved_row_ok r from target "rollback" release_id s (Release.workflow_run_id r) (Release.workflow_run_id r)
    Hf Ha Hs Hrow) as H. by destruct r.
Qed.
Lemma cancel_ok user release_id : preserves (both releases_ok) (cancel_release user release_id).
Proof.
  unfold cancel_release, _require_feature. do 2 (apply preserves_bind; [preserves_auto|intros _]).
  apply transition_ok. intros r from target s Hf Ha Hs Hrow Hid.
  apply wp_preserves with (I := both releases_ok);
    [unfold cancel_release_run, _audit, current_release, _get_release; preserves_auto| |done].
  pose proof (moved_row_ok r from target "cancel" release_id s (Release.workflow_run_id r) (Release.rolled_back_from r)
    Hf Ha Hs Hrow) as H. by destruct r.
Qed.

Section canary.
Variable DRIVER_AUTOSTART : bool.
Variable driver_alive : Z → bool.
Lemma canary_ok user release_id :
  preserves (both releases_ok) (canary_release DRIVER_AUTOSTART driver_alive user release_id).
Proof.
  unfold canary_release, _require_feature. do 2 (apply preserves_bind; [preserves_auto|intros _]).
  apply transition_ok. intros r from target s Hf Ha Hs Hrow Hid.
  assert (target = "canary") as -> by (assert (RELEASE_TRANSITIONS "canary" = Some (["pending"; "deploying"], "canary")) as E by reflexivity; congruence).
  pose proof (moved_row_ok r from "canary" "canary" release_id s (Release.workflow_run_id r) (Release.rolled_back_from r)
    Hf Ha Hs Hrow) as H1.
  replace (r <| Release.status := "canary" |> <| Release.workflow_run_id := Release.workflow_run_id r |>
    <| Release.rolled_back_from := Release.rolled_back_from r |>) with (r <| Release.status := "canary" |>) in H1
    by by destruct r.
  set (r1 := r <| Release.status := "canary" |>) in *. set (s1 := put_row release_id r1 s) in *.
  assert (∀ e, preserves (held (tbl (work s1)) releases_ok) (emit_out e)) as He by (intros; auto with preserves).
  unfold _trigger_release_run. do 2 wp_step. apply wp_preserves with (I := held (tbl (work s1)) releases_ok);
    [unfold _ensure_release_workflow; preserves_auto|by destruct H1|].
  intros [e|wf] s2 Hs2; [destruct Hs2 as (E & ? & ?); split; [by rewrite E|done]|]. wp_step.
  apply wp_preserves with (I := held (tbl (work s1)) releases_ok);
    [apply start_run_preserves; intros; auto with preserves|done|].
  intros [e|run] s3 (E & Hc & Hw); [split; [by rewrite E|done]|]. wp_step. rewrite Hid.
  assert (tbl (R:=Release.Release) (work s3) !! release_id = Some r1) as Hrow3
    by (rewrite E; unfold s1; rewrite tbl_put_row; apply lookup_insert_eq).
  eapply wp_upd_hit; [exact Hrow3|]. cbv beta iota. wp_step. cbv beta iota.
  apply wp_preserves with (I := both releases_ok); [unfold _audit, current_release, _get_release; preserves_auto| |done].
  split; [|done]. rewrite tbl_put_row. eapply releases_ok_upd; [by rewrite E|exact Hrow3| |cbn; str_mem]. split.
  - done.
  - exists "canary", (Some (WorkflowRun.id run)), (Release.rolled_back_from r). by destruct r.
  - intros Ho. by vm_compute in Ho.
Qed.
End canary.

Lemma create_release_ok user data : preserves (both releases_ok) (create_release user data).
Proof.
  apply preserves_wp. intros s Hs. unfold create_release, _require_feature.
  do 2 (apply wp_bind_preserves; [preserves_auto|done|clear dependent s; intros _ s Hs]).
  wp_step. apply wp_guard_or; intros Henv; [|done]. cbv beta iota. wp_step. apply wp_guard_or; intros Hver; [|done].
  cbv beta iota. apply str_in_true in Henv.
  apply wp_preserves with (I := both releases_ok); [|done|done]. unfold _get_provider.
  apply preserves_bind; [preserves_auto|]. intros _. apply preserves_bind; [|intros; preserves_auto].
  apply releases_ok_add; [|done]. split_and!; [cbn; str_mem|exact Henv|exact Hver].
Qed.
End release_rows.

(** ** References to providers *)

(** Every release has its provider. *)
Definition provided (d : Db) : Prop :=
  ∀ i r, tbl (R:=Release.Release) d !! i = Some r →
    is_Some (tbl (R:=CicdProvider.CicdProvider) d !! Release.provider_id r).
Definition provided_st (s : St) : Prop := provided (work s) ∧ provided (committed s).

Section provided.
Lemma provided_other {R'} `{Table R', !TableNe Release.Release R', !TableNe CicdProvider.CicdProvider R'} (m : gmap Z R') d :
  provided d → provided (set_tbl m d).
Proof. intros Hd i r. rewrite !tbl_set_ne. apply Hd. Qed.
Lemma provided_add_ne {R'} `{Table R', !TableNe Release.Release R', !TableNe CicdProvider.CicdProvider R'} (r : R') :
  preserves provided_st (db_add r).
Proof. apply preserves_db_add; [done|]. intros s i [Hw Hc] _ _. split; [|done]. by apply provided_other. Qed.
Lemma provided_upd_ne {R'} `{Table R', !TableNe Release.Release R', !TableNe CicdProvider.CicdProvider R'} i (f : R' → R') :
  preserves provided_st (db_upd i f).
Proof. apply preserves_db_upd. intros s r [Hw Hc] _. split; [|done]. by apply provided_other. Qed.
Lemma provided_release_upd i (f : Release.Release → Release.Release) :
  (∀ r, Release.provider_id (f r) = Release.provider_id r) → preserves provided_st (db_upd i f).
Proof.
  intros Hf. apply preserves_db_upd. intros s r [Hw Hc] Hi. split; [|done]. intros j x.
  rewrite tbl_put_row, tbl_put_row_ne. intros [[<- <-]|[_ Hx]]%lookup_insert_Some; [rewrite Hf|]; by eapply Hw.
Qed.
Lemma provided_provider_put i (p : CicdProvider.CicdProvider) s :
  provided_st s → provided_st (put_row i p s).
Proof.
  intros [Hw Hc]. split; [|done]. intros j x. rewrite tbl_put_row_ne, tbl_put_row. intros Hx.
  destruct (Hw j x Hx) as [q Hq]. destruct (decide (i = Release.provider_id x)) as [->|Hne].
  - rewrite lookup_insert_eq. by eexists.
  - rewrite lookup_insert_ne by done. by eexists.
Qed.
Lemma provided_provider_add (p : CicdProvider.CicdProvider) : preserves provided_st (db_add p).
Proof. apply preserves_db_add; [done|]. intros. by apply provided_provider_put. Qed.
Lemma provided_provider_upd i (f : CicdProvider.CicdProvider → CicdProvider.CicdProvider) :
  preserves provided_st (db_upd i f).
Proof. apply preserves_db_upd. intros. by apply provided_provider_put. Qed.
Lemma provided_commit : preserves provided_st db_commit.
Proof. apply preserves_db_commit. by intros s [? ?]. Qed.
Lemma provided_emit e : preserves provided_st (emit_out e).
Proof. by apply preserves_emit_out. Qed.
#[local] Hint Resolve provided_provider_add provided_provider_upd provided_commit provided_emit : preserves.
#[local] Hint Extern 1 (preserves provided_st (@db_add _ _ _)) => (apply provided_add_ne; typeclasses eauto) : preserves.
#[local] Hint Extern 1 (preserves provided_st (@db_upd _ _ _ _)) => (apply provided_upd_ne; typeclasses eauto) : preserves.
#[local] Hint Extern 2 (preserves provided_st (@db_upd _ _ _ _)) => (apply provided_release_upd; done) : preserves.

Lemma create_release_provided user data : preserves provided_st (create_release user data).
Proof.
  apply preserves_wp. intros s Hs. unfold create_release, _require_feature, _get_provider.
  do 4 (apply wp_bind_preserves; [preserves_auto|done|clear dependent s; intros _ s Hs]).
  do 2 wp_step. apply wp_db_get. cbv beta iota.
  destruct (tbl (R:=CicdProvider.CicdProvider) (work s) !! _) as [p|] eqn:Hp; [|by repeat wp_step].
  cbn [some_or]. apply wp_ret. cbv beta iota.
  assert (∀ r, Release.provider_id r = ReleaseCreate.provider_id data → wp (db_add r) (λ _, provided_st) s) as Hadd.
  { intros r Hr. unfold wp.
    assert (preserves (λ s', provided_st s' ∧ tbl (R:=CicdProvider.CicdProvider) (work s') = tbl (work s)) (db_add r)) as Ha.
    { apply preserves_db_add; [done|]. intros s1 i [[Hw Hc] He] _ _. split; [|by rewrite tbl_put_row_ne]. split; [|done].
      intros j x. rewrite tbl_put_row, tbl_put_row_ne. intros [[<- <-]|[_ Hx]]%lookup_insert_Some; [|by eapply Hw].
      cbn. cbn in He, Hp. rewrite Hr, He, Hp. by eexists. }
    by destruct (Ha s (conj Hs eq_refl)). }
  wp_step. eapply wp_mono; [by apply Hadd|]. intros [e|r] s1 H1; [done|].
  apply wp_preserves with (I := provided_st); [preserves_auto|done|done].
Qed.
Lemma delete_provider_provided user i : preserves provided_st (delete_provider user i).
Proof.
  apply preserves_wp. intros s Hs. unfold delete_provider, _require_feature, _get_provider.
  do 2 (apply wp_bind_preserves; [preserves_auto|done|clear dependent s; intros _ s Hs]).
  do 2 wp_step. apply wp_db_get. cbv beta iota.
  destruct (tbl (R:=CicdProvider.CicdProvider) (work s) !! i) as [p|] eqn:Hp; [|by repeat wp_step].
  cbn [some_or]. apply wp_ret. cbv beta iota. wp_step. apply wp_db_find. cbv beta iota. wp_step.
  destruct (head _) as [r|] eqn:Hr; [apply wp_guard_or; by intros|]. apply wp_guard_or; intros _; [|done]. cbv beta iota.
  apply wp_preserves with (I := λ s', provided_st s' ∧ (∀ j x, tbl (R:=Release.Release) (work s') !! j = Some x →
    Release.provider_id x ≠ i)); [|split; [done|]|by intros ? ? [? _]].
  - apply preserves_bind; [|intros _; apply preserves_db_commit; by intros s1 [[? ?] ?]].
    apply preserves_modify. intros s1 [[Hw Hc] Hno]. split; [split; [|done]|].
    + intros j x. cbn. rewrite tbl_set_ne, tbl_set_tbl. intros Hx. rewrite lookup_delete_ne by (by apply not_eq_sym, (Hno j)).
      by eapply Hw.
    + intros j x. cbn. rewrite tbl_set_ne. apply Hno.
  - intros j x Hx. pose proof (head_select_None _ _ j x Hr Hx) as Hne. cbn in Hne. lia.
Qed.

(** The other release and provider requests. *)
Lemma moved_provided user i action audited : preserves provided_st (moved user i action audited).
Proof. unfold moved, _apply_release_transition, _audit, current_release, _get_release. preserves_auto. Qed.
Section all.
Variable encrypt_secret : string → string.
Variable dumps : json → string.
Variable DRIVER_AUTOSTART : bool.
Variable driver_alive : Z → bool.
Lemma canary_provided user i : preserves provided_st (canary_release DRIVER_AUTOSTART driver_alive user i).
Proof.
  assert (∀ u wf d tt ref ctx, preserves provided_st (_start_run DRIVER_AUTOSTART driver_alive u wf d tt ref ctx))
    by (intros; apply start_run_preserves; intros; auto with preserves).
  unfold canary_release, _require_feature, _trigger_release_run, _ensure_release_workflow, _apply_release_transition,
    _audit, current_release, _get_release. preserves_auto.
Qed.
Lemma provider_provided :
  (∀ user pc, preserves provided_st (create_provider encrypt_secret dumps user pc)) ∧
  (∀ user i pu, preserves provided_st (update_provider encrypt_secret dumps user i pu)) ∧
  (∀ user i, preserves provided_st (test_provider user i)).
Proof.
  unfold create_provider, update_provider, test_provider, _require_feature, _get_provider.
  split_and!; intros; preserves_auto.
Qed.
Lemma rollback_cancel_provided user i :
  preserves provided_st (rollback_release user i) ∧ preserves provided_st (cancel_release user i).
Proof.
  unfold rollback_release, cancel_release, _require_feature, cancel_release_run, _apply_release_transition,
    _audit, current_release, _get_release. split_and!; preserves_auto.
Qed.
End all.
End provided.

(** ** Histories *)

Section histories.
Variable encrypt_secret : string → string.
Variable decrypt_secret : string → option string.
Variables dumps py_str : json → string.
Variable sql_like : string → string → bool.

Inductive release_query :=
  | RProviders (u : CurrentUser) (name type : option string) (page size : Z)
  | RAddProvider (u : CurrentUser) (d : ProviderCreate.ProviderCreate)
  | REditProvider (u : CurrentUser) (i : Z) (d : ProviderUpdate.ProviderUpdate)
  | RDelProvider (u : CurrentUser) (i : Z)
  | RTest (u : CurrentUser) (i : Z)
  | RReleases (u : CurrentUser) (status app env : option string) (page size : Z)
  | RCreate (u : CurrentUser) (d : ReleaseCreate.ReleaseCreate)
  | RGet (u : CurrentUser) (i : Z)
  | RDeploy (u : CurrentUser) (i : Z)
  | RCanary (u : CurrentUser) (i : Z)
  | RPromote (u : CurrentUser) (i : Z)
  | RFail (u : CurrentUser) (i : Z)
  | RRollback (u : CurrentUser) (i : Z)
  | RCancel (u : CurrentUser) (i : Z)
  | RWebhook (provider : string) (token : option string) (payload : json).
Definition release_handle (DRIVER_AUTOSTART : bool) (driver_alive : Z → bool) (q : release_query) : Op json :=
  match q with
  | RProviders u n t p z => list_providers sql_like u n t p z
  | RAddProvider u d => create_provider encrypt_secret dumps u d
  | REditProvider u i d => update_provider encrypt_secret dumps u i d
  | RDelProvider u i => delete_provider u i;; ret JNull
  | RTest u i => test_provider u i
  | RReleases u st a e p z => list_releases u st a e p z
  | RCreate u d => create_release u d
  | RGet u i => get_release u i
  | RDeploy u i => deploy_release u i
  | RCanary u i => canary_release DRIVER_AUTOSTART driver_alive u i
  | RPromote u i => promote_release u i
  | RFail u i => fail_release u i
  | RRollback u i => rollback_release u i
  | RCancel u i => cancel_release u i
  | RWebhook p t payload => handle_webhook decrypt_secret py_str p t payload
  end.

Lemma release_handle_ok r0 auto alive q : preserves (both (releases_ok r0)) (release_handle auto alive q).
Proof.
  destruct q; cbn [release_handle]; try (solve [apply canary_ok|apply rollback_ok|apply cancel_ok|apply create_release_ok]).
  all: unfold list_providers, create_provider, update_provider, delete_provider, test_provider, list_releases, get_release,
    deploy_release, promote_release, fail_release, handle_webhook, _require_feature, _get_provider, _get_release.
  all: pose proof (moved_ok r0); preserves_auto.
Qed.
Lemma release_handle_provided auto alive q : preserves provided_st (release_handle auto alive q).
Proof.
  destruct (provider_provided encrypt_secret dumps) as (? & ? & ?).
  destruct q; cbn [release_handle]; auto;
    try (solve [apply canary_provided|apply rollback_cancel_provided|apply create_release_provided]).
  all: pose proof delete_provider_provided; pose proof moved_provided.
  all: unfold list_providers, list_releases, get_release,
    deploy_release, promote_release, fail_release, handle_webhook, _require_feature, _get_provider, _get_release.
  all: try (preserves_auto; fail).
Qed.

(** What holds between requests. *)
Definition releases_st (r0 : gmap Z Release.Release) (s : St) : Prop :=
  work s = committed s ∧ releases_ok r0 (tbl (committed s)) ∧ provided (committed s).

(** A tick of a driver, on releases and providers. *)
Lemma failed_with_ok r0 run m : releases_ok r0 m → releases_ok r0 (failed_with run m).
Proof.
  intros Hm. pose proof Hm as (_ & [hi Hwf] & _). unfold failed_with.
  destruct (linked_release run m) as [r|] eqn:Hl; [|done]. unfold linked_release in Hl.
  destruct (bool_decide _); [|done]. destruct (head _) as [x|] eqn:Hx; [|done].
  destruct (str_in _ _) eqn:Hs; [|done]. injection Hl as ->. apply str_in_true in Hs.
  apply head_select_Some in Hx as [_ [i Hi]]. pose proof (wf_id Hwf i r Hi) as Hid. cbn in Hid. subst i.
  eapply releases_ok_upd; [exact Hm|exact Hi| |cbn; str_mem].
  pose proof (transition_life "fail" ["deploying"; "canary"] "failed" r (Release.workflow_run_id r)
    (Release.rolled_back_from r) eq_refl Hs) as Hlife. by destruct r.
Qed.
Lemma failed_with_provided run (m : gmap Z Release.Release) (ps : gmap Z CicdProvider.CicdProvider) :
  (∀ i r, m !! i = Some r → is_Some (ps !! Release.provider_id r)) → keyed_rows m →
  ∀ i r, failed_with run m !! i = Some r → is_Some (ps !! Release.provider_id r).
Proof.
  intros Hm [hi Hwf] i r. unfold failed_with, linked_release.
  destruct (bool_decide _); [|by apply Hm]. destruct (head _) as [x|] eqn:Hx; [|by apply Hm].
  destruct (str_in _ _) eqn:Hs; [|by apply Hm]. apply head_select_Some in Hx as [_ [j Hj]].
  intros [[_ <-]|[_ Hi]]%lookup_insert_Some; [exact (Hm j x Hj)|by eapply Hm].
Qed.

(** Requests and ticks; other requests may do anything else. *)
Definition beside_releases (s s' : St) : Prop :=
  work s' = committed s' ∧ tbl (R:=Release.Release) (committed s') = tbl (committed s) ∧
  tbl (R:=CicdProvider.CicdProvider) (committed s') = tbl (committed s).
Inductive release_event : St → St → Prop :=
  | release_request q auto alive s : release_event s (run_request (release_handle auto alive q) s).2
  | release_tick float_str container_str paramiko redis_up agent_connected broker_up jwt_encode _jti touched
      float_of_str fromisoformat run_id s :
      wf_table WorkflowRun.WorkflowRun s →
      (∀ r, tbl (committed s) !! run_id = Some r → WorkflowRun.status r ∈ RUN_STATUSES) →
      release_event s (run_request (step float_str container_str paramiko redis_up agent_connected broker_up
        jwt_encode _jti touched float_of_str fromisoformat run_id) s).2
  | release_elsewhere s s' : beside_releases s s' → release_event s s'.
Definition release_history : St → St → Prop := rtc release_event.

Lemma release_event_ok r0 s s' : release_event s s' → releases_st r0 s → releases_st r0 s'.
Proof.
  intros [q auto alive s1|fs cs pk ru ac bu je ji to fl fi run_id s1 Hwf Hty|s1 s2 (Hq & E1 & E2)] (Hq1 & Hr & Hp).
  - pose proof (release_handle_ok r0 auto alive q s1) as H1. pose proof (release_handle_provided auto alive q s1) as H2.
    unfold run_request. destruct (release_handle auto alive q s1) as [o s2]. cbn in *.
    destruct H1 as [_ H1]; [by unfold both; rewrite Hq1|]. destruct H2 as [_ H2]; [by unfold provided_st; rewrite Hq1|].
    by split_and!.
  - unfold run_request. destruct (run_closed run_id (tbl (work s1))) eqn:Hcl.
    { rewrite step_closed by done. by split_and!. }
    unfold run_closed in Hcl. destruct (tbl (R:=WorkflowRun.WorkflowRun) (work s1) !! run_id) as [r|] eqn:Hrow; [|done].
    rewrite Hq1 in Hrow. pose proof Hr as (_ & Hk & _).
    pose proof (step_releases fs cs pk ru bu ac je ji to fl fi run_id r s1 Hq1) as Hs. rewrite Hq1 in Hs.
    assert (run_closed run_id (tbl (committed s1)) = false) as Hcl' by (unfold run_closed; by rewrite Hrow).
    specialize (Hs (ex_intro _ _ (proj2 Hwf)) Hk Hrow (run_open run_id s1 r Hrow Hcl' (Hty r Hrow))).
    pose proof (step_held fs cs pk ru bu ac je ji to fl fi (tbl (R:=CicdProvider.CicdProvider) (work s1))
      (eq (tbl (work s1))) run_id s1) as Hh.
    unfold wp in Hs. destruct (step _ _ _ _ _ _ _ _ _ _ _ run_id s1) as [o s2]. cbn in Hs, Hh |- *.
    destruct Hh as (_ & Hc & _); [split_and!; by rewrite ?Hq1|]. rewrite Hq1 in Hc.
    split_and!; [done| |].
    + cbn. rewrite Hs. case_match; [by apply failed_with_ok|done].
    + intros i x. cbn. rewrite Hs, <-Hc. case_match; [by apply failed_with_provided|by apply Hp].
  - split_and!; [done|by rewrite E1|]. intros i x. rewrite E1, E2. apply Hp.
Qed.

(** C22: over any history of release and provider requests and engine ticks,
    whatever else happens in between, no release is ever lost, and it keeps its
    provider, version, environment and author; its status moves only along
    RELEASE_TRANSITIONS, also when the engine fails it; a release that has
    succeeded, was rolled back or was cancelled never changes again; every
    release has a known status and environment, a version or an artifact, and a
    provider that exists, for providers in use cannot be deleted. *)
Theorem release_history_safe s s' :
  quiet Release.Release s → (∀ i r, tbl (committed s) !! i = Some r → good_release r) → provided (committed s) →
  release_history s s' →
  persists release_life (tbl (committed s)) (tbl (committed s')) ∧
  (∀ i r, tbl (committed s') !! i = Some r → good_release r ∧
     is_Some (tbl (R:=CicdProvider.CicdProvider) (committed s') !! Release.provider_id r)).
Proof.
  intros [Hq Hwf] Hg Hp Hh.
  assert (releases_st (tbl (committed s)) s) as H0.
  { split_and!; [done|split_and!; [reflexivity|exact (ex_intro _ _ (proj2 Hwf))|done]|done]. }
  enough (releases_st (tbl (committed s)) s') as (_ & (H1 & _ & H2) & H3)
    by (split; [done|]; intros i r Hi; split; [by eapply H2|by eapply H3]).
  revert H0. generalize (tbl (R:=Release.Release) (committed s)). intros r0. clear -Hh.
  induction Hh as [s|s s1 s' He _ IH]; [done|]. intros Hs. apply IH. by eapply release_event_ok.
Qed.
End histories.

(** ** The seam and the webhook, per request *)

(** A release follows its run: the step that ends a release run as failed
    fails, in the same commit, the release linked to it when it is deploying or
    in canary; no other step and no other outcome touches any release, and a run
    that was not started for a release never does. *)
Theorem failed_run_fails_release float_str container_str paramiko redis_up broker_up agent_connected jwt_encode _jti
    touched float_of_str fromisoformat run_id r s o s' :
  quiet WorkflowRun.WorkflowRun s → wf_table Release.Release s →
  tbl (committed s) !! run_id = Some r → WorkflowRun.status r ∈ ["pending"; "running"] →
  run_request (step float_str container_str paramiko redis_up agent_connected broker_up jwt_encode _jti touched
    float_of_str fromisoformat run_id) s = (o, s') →
  (run_failed run_id (tbl (committed s')) = false → tbl (R:=Release.Release) (committed s') = tbl (committed s)) ∧
  (WorkflowRun.trigger_type r ≠ "release" → tbl (R:=Release.Release) (committed s') = tbl (committed s)) ∧
  (run_failed run_id (tbl (committed s')) = true → WorkflowRun.trigger_type r = "release" →
     ∀ rel, head (select_rows (of_run (WorkflowRun.id r)) (tbl (committed s))) = Some rel →
       tbl (committed s') = if str_in (Release.status rel) ["deploying"; "canary"]
         then <[Release.id rel := rel <| Release.status := "failed" |>]> (tbl (committed s))
         else tbl (committed s)).
Proof.
  intros [Hq Hwf] Hwfr Hrow Hopen Hrun.
  pose proof (step_releases float_str container_str paramiko redis_up broker_up agent_connected jwt_encode _jti touched
    float_of_str fromisoformat run_id r s Hq (ex_intro _ _ (proj1 Hwf)) (ex_intro _ _ (proj1 Hwfr)) Hrow Hopen) as Hs.
  unfold wp in Hs. unfold run_request in Hrun. destruct (step _ _ _ _ _ _ _ _ _ _ _ run_id s) as [o1 s1].
  injection Hrun as -> <-. cbn in Hs |- *. rewrite Hs. unfold failed_with, linked_release. split_and!.
  - by intros ->.
  - intros Hne. rewrite bool_decide_eq_false_2 by done. by case_match.
  - intros -> Ht rel Hrel. rewrite bool_decide_eq_true_2 by done. rewrite Hrel. by destruct (str_in _ _).
Qed.

(** A webhook for a name no provider has is accepted with any token. *)
Theorem webhook_unknown_provider decrypt_secret py_str provider token payload s :
  feature_on "feature.cicd" s = true → token ≠ "" →
  (∀ i p, tbl (work s) !! i = Some p → CicdProvider.type p ≠ provider ∧ CicdProvider.name p ≠ provider) →
  handle_webhook decrypt_secret py_str provider (Some token) payload s =
    (inr (JObj [("accepted", JBool true); ("provider", JStr provider); ("payload", payload)]), s).
Proof.
  intros Hf Ht Hno. unfold handle_webhook, _require_feature, bind. rewrite require_feature_eq, Hf.
  cbv beta iota. unfold guard_or, s_truthy. rewrite bool_decide_eq_false_2 by done. cbn [negb].
  unfold ret, db_find, gets. destruct (head _) as [p|] eqn:Hp; [|done].
  apply head_select_Some in Hp as [[E|E]%orb_true_iff [i Hi]]; apply bool_decide_eq_true in E; destruct (Hno i p Hi); done.
Qed.

(** ** Witnesses

    Release 3 of provider 4 is in canary with run 1, whose only node timed out
    while asleep. *)

Definition cicd_provider : CicdProvider.CicdProvider :=
  CicdProvider.mk 4 "gitlab" "git" "https://git" JNull 1 "ok" None (Some 7) 0.
Definition ex_release (status : string) : Release.Release :=
  Release.mk 3 4 "shop" (Some "1.2") None "prod" status (Some 1) None None (Some 7) 0.
Definition release_run : WorkflowRun.WorkflowRun :=
  WorkflowRun.mk 1 5 1 "running" "release" JNull JNull (Some 0) None None (Some 7) 0.
Definition release_node : WorkflowNodeRun.WorkflowNodeRun :=
  WorkflowNodeRun.mk 1 1 "deploy" "callback" "failed" None None 0 JNull None None None.
Definition release_db : Db := flags_on 1 ["feature.cicd"] empty_db
  <| cicd_providers := {[ 4 := cicd_provider ]} |>
  <| releases := {[ 3 := ex_release "canary" ]} |>
  <| workflow_versions := {[ 1 := WorkflowVersion.mk 1 5 1 _RELEASE_DEFINITION (Some 7) 0 ]} |>
  <| workflow_runs := {[ 1 := release_run ]} |>
  <| workflow_node_runs := {[ 1 := release_node ]} |>.
Definition release_st : St := on_db (λ _, release_db) init_st
  <| seqs := {["release" := 3; "cicd_provider" := 4; "workflow_run" := 1; "workflow_node_run" := 1; "workflow_version" := 1]} |>.
#[local] Abbreviation release_step := (run_request (ex_step 1) release_st).

Lemma failed_run_fails_release_witness :
  tbl (R:=Release.Release) (committed release_step.2) !! 3 = Some (ex_release "failed").
Proof.
  destruct (failed_run_fails_release (λ _, "") (λ _, "") false false false (λ _, false) (λ _, "") (λ _, "") (λ _, None)
    (λ _, None) (λ _, None) 1 release_run release_st (inr true) release_step.2) as (_ & _ & H).
  - split; [done|by apply wf_tableb_spec].
  - by apply wf_tableb_spec.
  - reflexivity.
  - str_mem.
  - apply run_pair. vm_compute. reflexivity.
  - rewrite (H ltac:(vm_compute; reflexivity) eq_refl (ex_release "canary") eq_refl).
    change (str_in _ _) with true. apply lookup_insert_eq.
Defined.

Lemma release_history_safe_witness :
  let s' := (run_request (rollback_release admin 3) release_st).2 in
  persists release_life (tbl (committed release_st)) (tbl (committed s')) ∧
  (Release.status <$> tbl (R:=Release.Release) (committed s') !! 3) = Some "rolled_back".
Proof.
  cbv zeta. split; [|vm_compute; reflexivity].
  apply (release_history_safe (λ x, x) Some (λ _, "") (λ _, "") (λ _ _, false) release_st).
  - split; [done|by apply wf_tableb_spec].
  - intros i r Hi. change (({[ 3 := ex_release "canary" ]} : gmap Z Release.Release) !! i = Some r) in Hi.
    apply lookup_singleton_Some in Hi as [_ <-]. split_and!; [str_mem|str_mem|reflexivity].
  - intros i r Hi. change (({[ 3 := ex_release "canary" ]} : gmap Z Release.Release) !! i = Some r) in Hi.
    apply lookup_singleton_Some in Hi as [_ <-]. by eexists.
  - apply rtc_once. exact (release_request _ _ _ _ _ (RRollback admin 3) false (λ _, false) release_st).
Defined.
